(* ===== verification/_CoqProject ===== *)
-Q . S2P
Prelude.v
GoStrings.v
GoUrl.v
GoForm.v
Interfaces.v
Adapters.v
ZotConfig.v
Zot.v
CoreRecord.v
Validators.v
LabelKey.v
Metrics.v
RoutingWorld.v
Rpc.v
RoutingLocal.v
RoutingLocalSpec.v
RoutingRemote.v
RoutingRemoteSpec.v
Routing.v
RoutingNode.v
P2p.v
P2pSpec.v
NetworkKeys.v
StoreCache.v
StoreLocalFS.v
OciAnnotations.v
OciStore.v
Search.v
StoreController.v
OciReferrers.v
Client.v
Signing.v
Keypair.v
Tables.v
Publication.v
RoutingService.v
Sync.v
SyncSpec.v
SyncSystem.v
Monitor.v
Lifecycle.v
Services.v
SyncStop.v
Authz.v
ServerConfig.v
ServerStart.v
ClientSetup.v
HubSession.v
HubAgent.v
HubLogin.v
HubCommands.v
HubRun.v
ClientCalls.v
Cli.v
CliSpec.v
