(* ===== verification/Prelude.v ===== *)
(** * Verification of the agntcy directory server

    The server (src/server, src/api) stores records that describe agents,
    addresses them by content, indexes them for search, and announces them to
    other directories over a DHT; dirctl (src/cli, src/client) is its command line,
    and the hub client (src/hub) exchanges agents with a hosted hub.  This
    development models the core logic of them from the Go sources and proves it
    correct.  This file is the root: it documents
    the whole, and holds what all files share (errors, the state monad with
    [let!], [let?], [do!] and loops, lemmas and tactics).

    ** The program

    A client pushes a record through the gRPC store controller.  The record is
    encoded canonically and named by a CID (api/core/v1), kept by a store
    (server/store: an OCI registry or a file system, optionally behind a
    cache), and added to an SQL search index (server/database).  A publish
    request becomes a publication; a scheduler queues it and workers have the
    router publish each record (server/publication).  The local router
    (server/routing/routing_local.go) keeps the published records, their labels
    and label counts in a key/value datastore; the remote router
    (routing_remote.go, handler.go) announces them to the DHT, stores the
    announcements of other peers under the same kind of keys, republishes, and
    cleans up what is stale or orphaned.  A client can also ask for a remote
    directory to be mirrored: workers add its registry to the configuration of
    zot, the registry server, and a monitor indexes the records that arrive
    (server/sync).  Signatures and public keys are attached to stored records
    and verified by zot (server/store/oci/referrers.go, client/sign.go).  In front
    of all handlers an interceptor decides which peer may call what
    (server/authz).

    A server starts from variables, a file and defaults (server/config), opens its
    stores, its host in the peer-to-peer network and its database, runs the
    services and stops them again (server/server.go); the identity of its host is
    a key that dirctl can generate.

    The commands of dirctl (cli/cmd) call the server through the client library
    (client), each on one connection, and print what comes back.

    The hub client is a program of its own.  Its commands (hub/cmd) read the
    configuration of a hub, log in over a local web server with OAuth and PKCE
    (hub/auth, hub/client/okta, hub/client/idp), keep the tokens in a file of
    sessions (hub/sessionstore), and push and pull agents in chunks
    (hub/client/hub).

    ** The files

    - Prelude, GoStrings, GoUrl, GoForm: errors, monad, Go's string functions,
      [net/url] with its query values, and [encoding/base64].
    - Interfaces: the libraries behind type classes (datastore, CIDs, codecs)
      with laws in classes of their own, and an in-memory implementation.
    - Adapters, CoreRecord: server/types/adapters and api/core/v1; a record
      message is an [option] of the values its getters return.
    - Validators, LabelKey, Metrics: server/routing/validators,
      label_metadata.go and constants.go, metrics.go.
    - RoutingWorld: the state both routers share ([World]: datastore, network,
      store, clock ticks) and the interface [Network] to libp2p.
    - Rpc: rpc/rpc.go, [RPCAPI_*] on the serving and [Service_*] on the calling
      side.
    - RoutingLocal, RoutingLocalSpec: Module [routeLocal] has one definition per
      method of [routeLocal]; the second file has the abstract state (a map
      from CIDs to labels), the relation [rep] and the proofs.
    - RoutingRemote, RoutingRemoteSpec: Module [routeRemote], the same for
      routing_remote.go.
    - Routing: handler.go (Module [handler]), the notification channel as a
      step relation, and routing.go (Module [route]).  RoutingNode: a whole node,
      local and remote router on one datastore, over any sequence of requests,
      notifications and periodic tasks.
    - P2p, P2pSpec: routing/internal/p2p (Module [p2p]), newRemote, routing.New and
      server/datastore (Module [start_router]), and what they hold open.
      NetworkKeys: cli/cmd/network (Module [network]).
    - StoreCache: store/cache/cache.go (Module [cachedStore]) and [StoreSpec],
      what a record store promises.
    - StoreLocalFS: store/localfs/localfs.go (Module [localfs]).
    - OciAnnotations, OciStore: store/oci/annotations.go and constants.go, oci.go
      and internal.go (Module [oci]), over the class [Registry].
    - OciReferrers: store/oci/referrers.go (Module [referrers]), attaching with
      cosign (Module [cosign]), controller/sign.go (Module [signCtrl]).
    - Search: types/search.go, database/utils/utils.go, database/sqlite/record.go
      and the tables beside it (Module [sqlite]), controller/search.go (Module
      [searchCtlr]).
    - StoreController: controller/store.go (Module [storeCtrl]).
    - Client: client/store.go (Module [client]) over streams, and its composition
      with the store controller.  Signing: client/sign.go (Module [signer]),
      utils/cosign/sign.go and payload.go (Module [cosign_sign]), and the way of a
      signature from the client to the registry and back.
      Keypair: utils/cosign/keys.go (Module [keypair]).
    - Authz: server/authz and its casbin model (Module [authz]).
    - ServerConfig: server/config (Module [config]) and client/config.go
      ([clientconfig]) over [Viper].  ServerStart: server/server.go (Module
      [server]) with the constructors it calls; ClientSetup: client/client.go and
      options.go ([dirclient]), and cli/cmd/root.go ([root]).
    - Tables: the calls of GORM on the tables of publications and syncs.
    - Publication: database/sqlite/publication.go (Module [pubDB]),
      controller/publication.go ([publicationCtlr]), publication/worker.go
      ([Worker]), publication/scheduler.go ([Scheduler]), and both running
      concurrently as the step relation [pub_step].
    - RoutingService: controller/routing.go (Module [routingCtlr]), and the
      router as the workers' publisher.
    - ZotConfig, Zot: utils/zot/config.go with the edits of sync/worker.go (Module
      [zotsync]), and utils/zot/zot.go (Module [zot]).
    - Sync, SyncSpec: database/sqlite/sync.go ([syncDB]), controller/sync.go
      ([syncCtlr]), sync/worker.go ([SyncWorker]), sync/scheduler.go
      ([SyncScheduler]); the outcome of every work item and the life of one sync.
      SyncSystem: all of them running concurrently as the step relation
      [sync_step].
    - Lifecycle, Services: Start, Stop and the loops of Run of the two services,
      once over any scheduler and workers ([Parts], [PartsSpec]), with the
      publications and the synchronisations as instances.
    - Monitor: sync/monitor/monitor.go (Module [monitor]).  SyncStop: the end of Stop
      of sync/sync.go, and the sync service with this monitor after a restart.
    - HubSession: hub/sessionstore and the file helpers (Module [sessionstore]).
      HubAgent: hub/client/hub and hub/service (Module [hub]).  HubLogin: the flow
      of OAuth (Modules [okta], [webserver]), tokens and their refresh ([token]),
      organizations ([idp]), login, logout and switch ([auth]).  HubCommands:
      hub/config ([config]) and hub/cmd ([cmd]).  HubRun: hub/cmd/options
      ([options]), the settings ([hubconfig]), and hub/hub.go ([hub_app]), which runs
      a command of HubCommands.

    - ClientCalls: client/routing.go, search.go, sync.go and verify.go (Module
      [calls]).  Cli: cli/cmd, the flag of search (Module [query]) and one definition
      per command (Module [dirctl]).  CliSpec: the commands on the handlers of the
      server.

    A method that changes state is a function [S -> A * S] on a record of what
    it can reach.  A Go error is a value of [error]; a result is [Ok] or [Err].
    A panic is an outer [None].  A stream is the list of what [Recv] returns,
    and [Send] a parameter.  Logging has no effect and is left out.

    ** What is proved

    - Stores: [StoreSpec] says that a store is a map from CIDs to records and
      one to metadata; the file-system store implements it, and the cache in
      front of any implementation is an implementation again, as long as
      operations do not interleave; [pull_delete_race] is what happens when
      they do.
    - The OCI store implements [StoreSpec] too, on a registry that is up; the
      annotations of a manifest give back the metadata of its record.
    - Signatures: the first signature that the registry lets cosign attach is the
      one that is pulled, and so for public keys; signing a record with a key
      gives a signature over its digest, which is then pulled.
    - Client: a batch of pushes returns the references of what was filed, in
      order, and a batch of pulls of these returns the records.
    - Authorization: a handler runs for whom the policies allow, and for nobody
      else.
    - Records: encoding and decoding are inverse for the versions that state
      themselves; CIDs are content addresses; CIDs and digests correspond.
    - Local routing: any sequence of Publish and Unpublish implements insertion
      and deletion in a map, with exact label counts; List returns exactly the
      matching records, and each once.
    - Remote routing: the stale and orphan clean-ups delete exactly what they
      should; an announcement is stored under its key and survives clean-up;
      a republishing cycle announces every label of every record the store
      still has and removes the others.
    - A node: local publications and remote labels share a datastore and do not
      touch each other's keys, whatever comes in which order; the labels of other
      peers were announced, and those announced within [MaxLabelAge] are there.
    - Labels: the four DHT validators accept exactly a grammar of keys, label
      keys round-trip, staleness is exact on saturating 64-bit durations.
    - Search: the index is a map; a search returns exactly the records that
      meet its queries, cut to offset and limit; store and index stay in step
      through any sequence of requests, so that a search finds what is stored.
    - Streams: a push stream files and answers a prefix of what it received and
      says why it stopped; what was pushed can be pulled.
    - Publications: a publication is sent to the workers at most once and ends
      with the status of its announcements; it reaches the local router.  The
      interleaving that loses a status is [verdict_lost].  In whatever
      order scheduler and workers go on, a pending publication that the queue has
      room for is processed.
    - Synchronisation: the mirror list of the zot configuration gains an entry
      for a registry that was not listed, or loses every entry of one that is
      removed, and everything else of the file stays; a work item ends with the status, the
      configuration and the monitor that its steps determine; a sync goes from
      its request through mirroring to its deletion; a creation is sent to the
      workers at most once; monitoring runs exactly while a sync is active; a
      check of the registry indexes the records that arrived.
    - Services: Stop returns, in whatever order scheduler and workers go on, and
      afterwards nothing but the requests of clients happens; the sync service then
      has no monitor left.
    - Starting: the configuration is that of the variables, the file and the
      defaults, in this order; a remote router that starts holds one host and one
      DHT, and one that fails to start holds nothing, unless its DHT did not get
      through its bootstrap; network init, network info and
      the server name the same peer for a key file; a round of discovery connects to
      every peer it finds that answers.  A run of the server stops its services and
      gives back the client of the Workload API and nothing else; a run of dirctl
      closes its client and not its connection.
    - The hub client runs the command that its arguments name, on the hub that its
      flag, its file or the default names.
    - Hub sessions: the file of sessions is a map from addresses to sessions; every
      run of commands keeps tokens under the organization that they are for.
    - Hub login: the tokens of a login were exchanged with the verifier of the
      last challenge that the browser was given; a challenge is well formed; after
      a logout every command for that hub but login is refused.
    - Hub agents: an upload ends, and what was uploaded in chunks of any size is
      downloaded unchanged.
    - The command line, on the server: what push prints is the CID under which pull
      prints the record again; list prints the published records with the labels
      asked for, and search those that match the queries; the status that sync
      prints follows creation and deletion.

    Theorems that say where the code departs from its purpose are about the
    code as it is: [verdict_lost], [pull_delete_race],
    [Unpublish_unpublished_undercounts], [orphan_cleanup_overcounts],
    [ValidateLabelKey_rejects_accepted], [Search_last_skill_wins],
    [deletion_lost], [deleted_before_start], [missed_not_retried],
    [early_stop_panics], [Delete_other_text], [later_page_wins],
    [unsupported_store_signs], [delete_not_awaited], [similar_domain_allowed],
    [queue_lost_at_stop], [monitoring_lost_at_restart], [first_save_mode], [stdin_not_read],
    [other_label_lists_all], [Run_leaves], [Run_leaves_connection],
    [locator_labels_not_announced], [loaded_keypair], and the refused search of [search_prints_found].

    ** Bounds and termination

    The loops of the server and of its client run over a list that is known
    when they start, or over the messages of a stream, and use no fuel.  The
    upload of an agent reads until its document ends and has the fuel
    [hub.rounds], which [push_ends] proves to be enough; the download reads until
    the stream ends, with one round more than there are chunks, and the round trip
    is stated with such a bound and returns a document.  Services that run for ever
    are step relations.
    Label counters are uint64 with wrap-around; the theorems about counts
    assume fewer than 2^64 labels.  Times are nanoseconds in int64, with the
    saturating subtraction of [time.Time.Sub].  The channels have the capacities
    of the code (1000 notifications, 100 publications, 100 work items of syncs).

    ** What is assumed

    Libraries and services enter through classes of operations; what a theorem
    uses of them is in a class of laws ([DatastoreSpec], [StoreSpec],
    [OasfJsonSpec], [HashLibSpec], [GormSpec], [TableSpec], [RegistrySpec],
    [CosignSpec], [OsFilesSpec], [StreamSpec], [CasbinSpec], [SessionFilesSpec],
    [HubUp], [RandUp], [ProviderSpec], [P2pSpec], [ViperSpec], [WorkloadSpec],
    [ServerSpec], [ServiceSpec], [HubFlagsSpec], ...), and every
    such class has an instance that computes.  The laws describe a library that
    works: a datastore or a database that answers without failing.  The error
    branches are in the definitions all the same.  SQLite's LIKE is a parameter
    that the laws fix on patterns without wildcards.  The requests to the local
    web server of a login run one after another.  In [Lifecycle] contexts are not
    cancelled.

    ** What is not modelled

    Cancellation and timeouts; what happens inside libp2p, the Workload API of
    SPIRE, GORM and the registries, which are classes; how cobra finds a command in
    its arguments, which is a parameter; accessors of structures, the settings of the
    HTTP client and of logging; utils/err, which nothing uses; the mocks of p2p,
    generated code and the end-to-end test helpers. *)

From stdpp Require Export base gmap strings list fin_maps sets.
From stdpp Require pretty.
From Stdlib Require Export Ascii ZArith Lia.

(** ** Errors

    Go errors as values.  [Plain] is [errors.New] (and [fmt.Errorf] without
    [%w]); [Status] is [status.Error]/[status.Errorf]; [Wrap p e] is
    [fmt.Errorf("p%w", e)]; [Sentinel] is a package-level error variable that
    [errors.Is] compares by identity. *)

Inductive Code :=
  | Unknown | InvalidArgument | NotFound | PermissionDenied
  | FailedPrecondition | Unimplemented | Internal | Unauthenticated.

#[export] Instance Code_eq_dec : EqDecision Code.
Proof. solve_decision. Defined.

Inductive error :=
  | Plain (msg : string)
  | Status (c : Code) (msg : string)
  | Sentinel (name : string)
  | Wrap (prefix : string) (e : error).

#[export] Instance error_eq_dec : EqDecision error.
Proof. solve_decision. Defined.

(** The name [codes.Code.String()] prints. *)
Definition code_string (c : Code) : string :=
  match c with
  | Unknown => "Unknown" | InvalidArgument => "InvalidArgument"
  | NotFound => "NotFound" | PermissionDenied => "PermissionDenied"
  | FailedPrecondition => "FailedPrecondition"
  | Unimplemented => "Unimplemented" | Internal => "Internal"
  | Unauthenticated => "Unauthenticated"
  end.

(** [err.Error()], what the verbs [%v], [%s] and [%w] print. *)
Fixpoint err_string (e : error) : string :=
  match e with
  | Plain m => m
  | Status c m => "rpc error: code = " +:+ code_string c +:+ " desc = " +:+ m
  | Sentinel n => n
  | Wrap p e => p +:+ err_string e
  end.

(** The status a (possibly wrapped) error carries. *)
Fixpoint err_code (e : error) : option Code :=
  match e with
  | Plain _ | Sentinel _ => None
  | Status c _ => Some c
  | Wrap _ e => err_code e
  end.

(** [status.Convert]: the status of the error itself; for a wrapped status its
    code with the whole message; [Unknown] for an error with no status. *)
Definition status_convert (e : error) : Code * string :=
  match e with
  | Status c m => (c, m)
  | _ => (default Unknown (err_code e), err_string e)
  end.

(** [st := status.Convert(err); status.Errorf(st.Code(), "p%s", st.Message())]. *)
Definition rewrap (p : string) (e : error) : error :=
  let '(c, m) := status_convert e in Status c (p +:+ m).

(** [status.Errorf(codes.Internal, "msg: %v", err)]. *)
Definition internal (msg : string) (e : error) : error := Status Internal (msg +:+ err_string e).

(** [errors.Is(err, target)] for a sentinel target. *)
Fixpoint errors_Is (e : error) (name : string) : bool :=
  match e with
  | Sentinel n => bool_decide (n = name)
  | Wrap _ e => errors_Is e name
  | _ => false
  end.

(** ** Results: Go's [(T, error)] pairs, where a non-nil error means that the
    value is not used. *)

Inductive result (A : Type) :=
  | Ok (a : A)
  | Err (e : error).
Arguments Ok {A} _.
Arguments Err {A} _.

#[export] Instance result_eq_dec {A} `{EqDecision A} : EqDecision (result A).
Proof. solve_decision. Defined.

Definition is_ok {A} (r : result A) : bool :=
  match r with Ok _ => true | Err _ => false end.

Definition result_map {A B} (f : A -> B) (r : result A) : result B :=
  match r with Ok a => Ok (f a) | Err e => Err e end.

(** ** Effects: explicit state passing over a world [W] *)

Definition M (W A : Type) : Type := W -> A * W.

Definition ret {W A} (a : A) : M W A := fun w => (a, w).

Definition bind {W A B} (c : M W A) (k : A -> M W B) : M W B :=
  fun w => let '(a, w') := c w in k a w'.

(** [x, err := c; if err != nil { h }; k]. *)
Definition try_bind {W A B} (c : M W (result A)) (h : error -> M W B)
    (k : A -> M W B) : M W B :=
  bind c (fun r => match r with Ok a => k a | Err e => h e end).

Declare Scope go_scope.
Delimit Scope go_scope with go.

Notation "'let!' x := c 'in' k" := (bind c (fun x => k))
  (at level 10, x name, c at level 200, k at level 200) : go_scope.
Notation "'do!' c 'then' k" := (bind c (fun _ => k))
  (at level 10, c at level 200, k at level 200) : go_scope.
Notation "'let?' x := c 'else' e => h 'in' k" := (try_bind c (fun e => h) (fun x => k))
  (at level 10, x name, e name, c at level 200, h at level 200, k at level 200) : go_scope.

(** A Go [for ... range] loop whose body only has effects. *)
Fixpoint for_each {W A} (f : A -> M W unit) (l : list A) : M W unit :=
  match l with
  | [] => ret tt
  | x :: l => bind (f x) (fun _ => for_each f l)
  end.

(** A Go loop that carries local variables [acc]. *)
Fixpoint for_acc {W A B} (f : B -> A -> M W B) (acc : B) (l : list A) : M W B :=
  match l with
  | [] => ret acc
  | x :: l => bind (f acc x) (fun acc => for_acc f acc l)
  end.

(** A Go loop whose body can [return err]. *)
Fixpoint for_try {W A B} (f : B -> A -> M W (result B)) (acc : B) (l : list A)
  : M W (result B) :=
  match l with
  | [] => ret (Ok acc)
  | x :: l =>
      bind (f acc x) (fun r =>
        match r with Ok acc => for_try f acc l | Err e => ret (Err e) end)
  end.

(** A background task: a loop around a [select] of its ticker and its context, for
    what the two channels deliver. *)
Inductive task_event := TickerC | ContextDone.

Fixpoint task_loop {W} (tick : M W unit) (events : list task_event) : M W unit :=
  match events with
  | TickerC :: events => bind tick (fun _ => task_loop tick events)
  | ContextDone :: _ | [] => ret tt
  end.

(** The ticks until the context is done. *)
Fixpoint ticks_before_done (events : list task_event) : nat :=
  match events with TickerC :: events => S (ticks_before_done events) | _ => 0 end.

(** ** Automation *)

Create HintDb dir discriminated.

(** Case analysis on the scrutinee of a match or an if in the goal (or in a
    hypothesis), keeping the equation. *)
Ltac case_step :=
  match goal with
  | |- context [match ?x with _ => _ end] => destruct x eqn:?
  | H : context [match ?x with _ => _ end] |- _ => destruct x eqn:?
  end; simplify_eq/=.

(** Turn boolean decisions into propositions. *)
Ltac bool_to_prop :=
  repeat match goal with
  | H : bool_decide _ = true |- _ => apply bool_decide_eq_true in H
  | H : bool_decide _ = false |- _ => apply bool_decide_eq_false in H
  | H : andb _ _ = true |- _ => apply andb_true_iff in H; destruct H
  | H : negb _ = true |- _ => apply negb_true_iff in H
  | H : negb _ = false |- _ => apply negb_false_iff in H
  | H : (_ =? _)%nat = true |- _ => apply Nat.eqb_eq in H
  | H : (_ =? _)%nat = false |- _ => apply Nat.eqb_neq in H
  | H : (_ <? _)%nat = true |- _ => apply Nat.ltb_lt in H
  | H : (_ <? _)%nat = false |- _ => apply Nat.ltb_ge in H
  end.

(** ** Shared lemmas *)

Lemma err_code_convert e c : err_code e = Some c -> (status_convert e).1 = c.
Proof. destruct e; simpl; intros; simplify_eq; try done. by rewrite H. Qed.

Lemma err_code_rewrap p e : err_code (rewrap p e) = Some (default Unknown (err_code e)).
Proof. unfold rewrap. destruct e as [|c m| |q e]; simpl; try done. Qed.

Lemma for_acc_pure {W A B} (g : B -> A -> B) (f : B -> A -> M W B) l acc w :
  (forall b x w, f b x w = (g b x, w)) ->
  for_acc f acc l w = (foldl g acc l, w).
Proof.
  intros Hf. revert acc w. induction l as [|x l IH]; intros acc w; [done|].
  simpl. unfold bind. rewrite Hf. apply IH.
Qed.

(** How a composition runs, given how its first part runs. *)
Lemma bind_run {W A B} (c : M W A) (k : A -> M W B) w a w' :
  c w = (a, w') -> bind c k w = k a w'.
Proof. unfold bind. by intros ->. Qed.

Lemma try_bind_ok {W A B} (c : M W (result A)) h (k : A -> M W B) w a w' :
  c w = (Ok a, w') -> try_bind c h k w = k a w'.
Proof. unfold try_bind, bind. by intros ->. Qed.

Lemma try_bind_err {W A B} (c : M W (result A)) h (k : A -> M W B) w e w' :
  c w = (Err e, w') -> try_bind c h k w = h e w'.
Proof. unfold try_bind, bind. by intros ->. Qed.

Lemma for_each_cons {W A} (f : A -> M W unit) x l w w' :
  f x w = (tt, w') -> for_each f (x :: l) w = for_each f l w'.
Proof. simpl. unfold bind. by intros ->. Qed.

Lemma for_try_cons {W A B} (f : B -> A -> M W (result B)) acc x l w acc' w' :
  f acc x w = (Ok acc', w') -> for_try f acc (x :: l) w = for_try f acc' l w'.
Proof. simpl. unfold bind. by intros ->. Qed.

(** A partial map keeps a list free of duplicates when its results determine
    the keys of its arguments. *)
Lemma NoDup_omap_key {A B K} (f : A -> option B) (key : A -> K) (h : B -> K) l :
  (forall x y, x ∈ l -> f x = Some y -> key x = h y) -> NoDup (key <$> l) -> NoDup (omap f l).
Proof.
  induction l as [|x l IH]; intros Hf; [constructor|]. simpl. intros [Hx Hl]%NoDup_cons.
  assert (NoDup (omap f l)) by (apply IH; [set_solver|done]).
  destruct (f x) as [y|] eqn:Hy; [|done]. constructor; [|done].
  intros (x' & Hx' & Hy')%list_elem_of_omap. apply Hx.
  rewrite (Hf x y), <- (Hf x' y) by set_solver. by apply list_elem_of_fmap_2.
Qed.

(** ** Inevitability

    [inevitably step P s]: every run from [s] reaches a state with [P], since as
    long as [P] does not hold there is a step, and all steps lead on. *)

Inductive inevitably {S} (step : S -> S -> Prop) (P : S -> Prop) (s : S) : Prop :=
  | inevitably_now : P s -> inevitably step P s
  | inevitably_later s1 :
      step s s1 -> (forall s', step s s' -> inevitably step P s') -> inevitably step P s.

(** A measure that every step decreases makes inevitable what holds wherever no
    step is possible. *)
Lemma inevitably_measure {S} (step : S -> S -> Prop) (P I : S -> Prop) (m : S -> nat) :
  (forall s s', I s -> step s s' -> I s' /\ (m s' < m s)%nat) ->
  (forall s, I s -> P s \/ exists s', step s s') ->
  forall s, I s -> inevitably step P s.
Proof.
  intros Hdec Hprog s. remember (m s) as n eqn:Hn. revert s Hn.
  induction n as [n IH] using lt_wf_ind. intros s -> Hs.
  destruct (Hprog s Hs) as [HP|[s1 Hs1]]; [by apply inevitably_now|].
  apply (inevitably_later _ _ _ s1); [done|]. intros s' Hstep.
  destruct (Hdec s s' Hs Hstep) as [Hs' Hm]. by apply (IH (m s')).
Qed.

(** ** What holds along a run

    [along R c]: a run of [c] relates the world before to the world after.  For a
    preorder it is enough that the calls at the leaves do. *)

Definition along {W A} (R : relation W) (c : M W A) : Prop := forall w, R w (c w).2.

Section along.
Context {W : Type} (R : relation W) `{!PreOrder R}.

Lemma along_ret {A} (a : A) : along R (ret a).
Proof. by intros w. Qed.

Lemma along_bind {A B} (c : M W A) (f : A -> M W B) :
  along R c -> (forall a, along R (f a)) -> along R (bind c f).
Proof.
  intros Hc Hf w. unfold bind. specialize (Hc w). destruct (c w) as [a w1].
  etrans; [exact Hc|apply Hf].
Qed.

Lemma along_try {A B} (c : M W (result A)) (h : error -> M W B) (f : A -> M W B) :
  along R c -> (forall e, along R (h e)) -> (forall a, along R (f a)) -> along R (try_bind c h f).
Proof. intros Hc Hh Hf. apply along_bind; [done|]. intros [a|e]; auto. Qed.

Lemma along_for_each {A} (f : A -> M W unit) l : (forall a, along R (f a)) -> along R (for_each f l).
Proof. intros Hf. induction l as [|a l IH]; [apply along_ret|]. by apply along_bind. Qed.

Lemma along_for_try {A B} (f : B -> A -> M W (result B)) b l :
  (forall b a, along R (f b a)) -> along R (for_try f b l).
Proof.
  intros Hf. revert b. induction l as [|a l IH]; intros b; [apply along_ret|].
  apply along_bind; [done|]. intros [b'|e]; [apply IH|apply along_ret].
Qed.

Lemma along_for_acc {A B} (f : B -> A -> M W B) b l :
  (forall b a, along R (f b a)) -> along R (for_acc f b l).
Proof.
  intros Hf. revert b. induction l as [|a l IH]; intros b; [apply along_ret|]. by apply along_bind.
Qed.

Lemma along_task (tick : M W unit) events : along R tick -> along R (task_loop tick events).
Proof.
  intros Ht. induction events as [|[] events IH]; [apply along_ret| |apply along_ret]. by apply along_bind.
Qed.

End along.

Create HintDb along.
#[export] Hint Resolve along_ret along_bind along_try along_for_each along_for_try along_for_acc along_task : along.

(** Going down to the leaves. *)
Ltac along := intros; repeat first
  [ solve [auto with along typeclass_instances] | apply along_bind; [apply _|..]; intros
  | apply along_try; [apply _|..]; intros | apply along_for_each; [apply _|]; intros
  | apply along_for_try; [apply _|]; intros | apply along_for_acc; [apply _|]; intros
  | case_match | case_decide ].
