(* ===== verification/GoStrings.v ===== *)
(** * Go strings

    The functions of Go's [strings], [path] and [strconv] packages that the
    server uses, on byte strings (a Go [string] or [[]byte] is a [string] of
    8-bit [ascii]s), with the lemmas the components share about them. *)

From S2P Require Import Prelude.

Open Scope string_scope.
Open Scope list_scope.

(** [strings.HasPrefix], [strings.TrimPrefix]. *)
Fixpoint strip_prefix (p s : string) : option string :=
  match p, s with
  | EmptyString, _ => Some s
  | String a p', String b s' => if decide (a = b) then strip_prefix p' s' else None
  | String _ _, EmptyString => None
  end.

Definition HasPrefix (s p : string) : bool :=
  match strip_prefix p s with Some _ => true | None => false end.

Definition TrimPrefix (s p : string) : string := default s (strip_prefix p s).

(** [strings.TrimSuffix]. *)
Fixpoint strip_suffix (suf s : string) : option string :=
  if decide (s = suf) then Some ""
  else match s with
       | EmptyString => None
       | String c s' => String c <$> strip_suffix suf s'
       end.

Definition TrimSuffix (s suf : string) : string := default s (strip_suffix suf s).

(** [strings.Contains]. *)
Fixpoint Contains (s sub : string) : bool :=
  HasPrefix s sub ||
  match s with
  | EmptyString => false
  | String _ s' => Contains s' sub
  end.

(** [strings.Split] with a one-byte separator: never the empty list. *)
Fixpoint Split (sep : ascii) (s : string) : list string :=
  match s with
  | EmptyString => [""]
  | String c s' =>
      if decide (c = sep) then "" :: Split sep s'
      else match Split sep s' with
           | [] => [String c ""]
           | x :: xs => String c x :: xs
           end
  end.

(** [strings.SplitN(s, sep, 2)]: cut at the first separator. *)
Fixpoint SplitN2 (sep : ascii) (s : string) : list string :=
  match s with
  | EmptyString => [""]
  | String c s' =>
      if decide (c = sep) then [""; s']
      else match SplitN2 sep s' with
           | [] => [String c ""]
           | x :: xs => String c x :: xs
           end
  end.

(** [strings.Join]. *)
Fixpoint Join (l : list string) (sep : string) : string :=
  match l with
  | [] => ""
  | [x] => x
  | x :: xs => x +:+ sep +:+ Join xs sep
  end.

(** [strings.TrimSpace]: [unicode.IsSpace] runes, in their UTF-8 encodings, are
    cut off at both ends.  [spaces] lists these encodings. *)
Definition byte (n : nat) : ascii := ascii_of_nat n.
Definition bytes_of (l : list nat) : string := String.string_of_list_ascii (byte <$> l).

Definition spaces : list string :=
  bytes_of <$>
    [[9]; [10]; [11]; [12]; [13]; [32]; [194; 133]; [194; 160]; [225; 154; 128];
     [226; 128; 128]; [226; 128; 129]; [226; 128; 130]; [226; 128; 131];
     [226; 128; 132]; [226; 128; 133]; [226; 128; 134]; [226; 128; 135];
     [226; 128; 136]; [226; 128; 137]; [226; 128; 138]; [226; 128; 168];
     [226; 128; 169]; [226; 128; 175]; [226; 129; 159]; [227; 128; 128]].

Definition strip_space_left (s : string) : option string :=
  foldr (fun p acc => match strip_prefix p s with Some r => Some r | None => acc end)
        None spaces.

Definition strip_space_right (s : string) : option string :=
  foldr (fun p acc => match strip_suffix p s with Some r => Some r | None => acc end)
        None spaces.

(** Each round removes at least one byte, so the length of the string is
    enough fuel. *)
Fixpoint iter_strip (f : string -> option string) (fuel : nat) (s : string) : string :=
  match fuel with
  | O => s
  | S n => match f s with Some r => iter_strip f n r | None => s end
  end.

Definition TrimSpace (s : string) : string :=
  let l := iter_strip strip_space_left (String.length s) s in
  iter_strip strip_space_right (String.length l) l.

(** [path.Clean] on a rooted path: empty and ["."] elements go, [".."] removes
    the element before it (and nothing at the root). *)
Definition clean_step (acc : list string) (x : string) : list string :=
  if decide (x = "" \/ x = ".") then acc
  else if decide (x = "..") then take (length acc - 1) acc
  else acc ++ [x].

Definition clean_elems (l : list string) : list string := foldl clean_step [] l.

Definition path_Clean (s : string) : string := "/" +:+ Join (clean_elems (Split "/" s)) "/".

(** [filepath.Clean]. *)
Definition clean_rel_step (acc : list string) (x : string) : list string :=
  if decide (x = "" \/ x = ".") then acc
  else if decide (x = "..") then
    match last acc with None => [".."] | Some y => if decide (y = "..") then acc ++ [".."] else removelast acc end
  else acc ++ [x].
Definition filepath_Clean (path : string) : string :=
  if HasPrefix path "/" then path_Clean path
  else match foldl clean_rel_step [] (Split "/" path) with [] => "." | l => Join l "/" end.

Example clean_relative : filepath_Clean "./a/../../b//c" = "../b/c". Proof. reflexivity. Qed.
Example clean_empty : filepath_Clean "" = ".". Proof. reflexivity. Qed.

(** [path.Base]: the last element, trailing slashes removed; ["."] for the
    empty path and ["/"] for a path of slashes. *)
Definition path_Base (s : string) : string :=
  if decide (s = "") then "."
  else default "/" (last (filter (fun x => x <> "") (Split "/" s))).

(** [strconv.ParseUint(s, 10, 64)]. *)
Definition digit_val (c : ascii) : option Z :=
  let n := Z.of_nat (nat_of_ascii c) in
  if decide (48 <= n <= 57)%Z then Some (n - 48)%Z else None.

Fixpoint parse_digits (acc : Z) (s : string) : option Z :=
  match s with
  | EmptyString => Some acc
  | String c s' =>
      match digit_val c with
      | Some d => parse_digits (acc * 10 + d)%Z s'
      | None => None
      end
  end.

Definition ParseUint64 (s : string) : result Z :=
  if decide (s = "") then Err (Plain ("strconv.ParseUint: parsing " +:+ s +:+ ": invalid syntax"))
  else match parse_digits 0 s with
       | None => Err (Plain ("strconv.ParseUint: parsing " +:+ s +:+ ": invalid syntax"))
       | Some n =>
           if decide (n < 2 ^ 64)%Z then Ok n
           else Err (Plain ("strconv.ParseUint: parsing " +:+ s +:+ ": value out of range"))
       end.

(** A string with no occurrence of a byte. *)
Fixpoint no_sep (sep : ascii) (s : string) : bool :=
  match s with
  | EmptyString => true
  | String c s' => bool_decide (c <> sep) && no_sep sep s'
  end.

(** ** Lemmas *)

Lemma append_cons c a b : String c a +:+ b = String c (a +:+ b).
Proof. done. Qed.

Lemma append_nil_l s : "" +:+ s = s.
Proof. done. Qed.

Lemma append_nil_r s : s +:+ "" = s.
Proof. induction s as [|c s IH]; [done|]. by rewrite append_cons, IH. Qed.

Lemma append_assoc a b c : (a +:+ b) +:+ c = a +:+ (b +:+ c).
Proof. induction a as [|x a IH]; [done|]. by rewrite !append_cons, IH. Qed.

Create Rewrite HintDb gostr.
#[export] Hint Rewrite append_cons append_nil_l append_nil_r append_assoc : gostr.

Lemma length_append a b : String.length (a +:+ b) = (String.length a + String.length b)%nat.
Proof. induction a as [|x a IH]; [done|]. rewrite append_cons. simpl. by rewrite IH. Qed.

Lemma append_inj_l a b c : a +:+ b = a +:+ c -> b = c.
Proof. apply (inj (String.append a)). Qed.

Lemma strip_prefix_Some p s r : strip_prefix p s = Some r <-> s = p +:+ r.
Proof.
  revert s. induction p as [|a p IH]; intros s; simpl; [rewrite append_nil_l; split; congruence|].
  rewrite append_cons. destruct s as [|b s]; [done|].
  case_decide as Hab.
  - subst. rewrite IH. split; [by intros ->|intros [=]; done].
  - split; [done|intros [=]; congruence].
Qed.

Lemma HasPrefix_true s p : HasPrefix s p = true <-> exists r, s = p +:+ r.
Proof.
  unfold HasPrefix. destruct (strip_prefix p s) as [r|] eqn:E.
  - apply strip_prefix_Some in E. split; eauto.
  - split; [done|]. intros [r Hr]. apply strip_prefix_Some in Hr. congruence.
Qed.

Lemma HasPrefix_app p r : HasPrefix (p +:+ r) p = true.
Proof. apply HasPrefix_true. eauto. Qed.

Lemma TrimPrefix_app p r : TrimPrefix (p +:+ r) p = r.
Proof. unfold TrimPrefix. by rewrite (proj2 (strip_prefix_Some p (p +:+ r) r)). Qed.

Lemma Split_not_nil sep s : Split sep s <> [].
Proof. destruct s; simpl; [done|]. case_decide; [done|]. by destruct (Split sep s). Qed.

Lemma Split_cons_ne sep c s :
  c <> sep -> exists x xs, Split sep s = x :: xs /\ Split sep (String c s) = String c x :: xs.
Proof.
  intros Hc. simpl. rewrite decide_False by done.
  destruct (Split sep s) as [|x xs] eqn:E; [by apply Split_not_nil in E|eauto].
Qed.

Lemma Split_no_sep sep s : no_sep sep s = true -> Split sep s = [s].
Proof.
  induction s as [|c s IH]; [done|]. simpl. intros H. bool_to_prop.
  rewrite decide_False by done. by rewrite IH.
Qed.

(** Splitting distributes over a separator. *)
Lemma Split_app sep a b :
  Split sep (a +:+ String sep b) = Split sep a ++ Split sep b.
Proof.
  induction a as [|c a IH]; [simpl; by rewrite decide_True|].
  rewrite append_cons. simpl. case_decide; [by rewrite IH|]. rewrite IH.
  destruct (Split sep a) eqn:E; [by apply Split_not_nil in E|done].
Qed.

Lemma Split_slash a b : Split "/" (a +:+ "/" +:+ b) = Split "/" a ++ Split "/" b.
Proof. apply Split_app. Qed.

Lemma Split_rooted b : Split "/" ("/" +:+ b) = "" :: Split "/" b.
Proof. done. Qed.

Lemma Join_cons x xs sep : xs <> [] -> Join (x :: xs) sep = x +:+ sep +:+ Join xs sep.
Proof. by destruct xs. Qed.

Lemma Join_Split sep s : Join (Split sep s) (String sep "") = s.
Proof.
  induction s as [|c s IH]; [done|]. simpl. case_decide as Hc.
  - subst. rewrite Join_cons by apply Split_not_nil. by rewrite IH.
  - destruct (Split sep s) as [|x xs] eqn:E; [by apply Split_not_nil in E|].
    destruct xs as [|y ys]; [simpl in *; congruence|].
    rewrite Join_cons in * by done. rewrite <- IH. done.
Qed.

Lemma Split_elem_no_sep sep s x : x ∈ Split sep s -> no_sep sep x = true.
Proof.
  revert x. induction s as [|c s IH]; intros x; simpl.
  - intros ->%list_elem_of_singleton. done.
  - case_decide.
    + intros [->|]%elem_of_cons; auto.
    + destruct (Split sep s) as [|y ys] eqn:E; [by apply Split_not_nil in E|].
      intros [->|Hx]%elem_of_cons.
      * simpl. rewrite bool_decide_true by done. apply IH. left.
      * apply IH. by right.
Qed.

Lemma Split_Join sep l :
  l <> [] -> Forall (fun x => no_sep sep x = true) l -> Split sep (Join l (String sep "")) = l.
Proof.
  induction l as [|x l IH]; [done|]. intros _ HF.
  apply Forall_cons in HF as [Hx Hl].
  destruct l as [|y l].
  - by apply Split_no_sep.
  - rewrite Join_cons by done.
    change (String sep "" +:+ ?s) with (String sep s).
    rewrite Split_app, IH by done. by rewrite (Split_no_sep sep x Hx).
Qed.

Lemma Join_app l1 l2 sep :
  l1 <> [] -> l2 <> [] -> Join (l1 ++ l2) sep = Join l1 sep +:+ sep +:+ Join l2 sep.
Proof.
  intros H1 H2. induction l1 as [|x l1 IH]; [done|].
  destruct l1 as [|y l1].
  - simpl. by destruct l2.
  - rewrite <- app_comm_cons, !Join_cons by done. rewrite IH by done.
    by rewrite !append_assoc.
Qed.

Lemma clean_elems_id acc l :
  Forall (fun x => x <> "" /\ x <> "." /\ x <> "..") l -> foldl clean_step acc l = acc ++ l.
Proof.
  revert acc. induction l as [|x l IH]; intros acc; simpl; [by rewrite app_nil_r|].
  intros [(H1 & H2 & H3) HF]%Forall_cons. unfold clean_step at 2.
  rewrite decide_False by naive_solver. rewrite decide_False by done.
  rewrite IH by done. by rewrite <- app_assoc.
Qed.
