(* ===== verification/GoUrl.v ===== *)
(** * Go's net/url

    [url.Parse] and [URL.Hostname] of the Go standard library (go 1.24), as far
    as the server uses them: whether a text parses, its scheme and its host.
    The texts of the errors are not modelled. *)

From S2P Require Import Prelude GoStrings.

Open Scope string_scope.
Open Scope list_scope.

(** [strings.Cut] at a byte. *)
Fixpoint Cut (sep : ascii) (s : string) : string * option string :=
  match s with
  | EmptyString => ("", None)
  | String c s' =>
      if decide (c = sep) then ("", Some s')
      else let '(a, b) := Cut sep s' in (String c a, b)
  end.

(** [s[:i], s[i+1:]] at [i = strings.LastIndex(s, sep)]. *)
Fixpoint CutLast (sep : ascii) (s : string) : option (string * string) :=
  match s with
  | EmptyString => None
  | String c s' =>
      match CutLast sep s' with
      | Some (a, b) => Some (String c a, b)
      | None => if decide (c = sep) then Some ("", s') else None
      end
  end.

(** [s[:i], s[i:]] at [i = strings.Index(s, sub)]. *)
Fixpoint CutBefore (sub s : string) : option (string * string) :=
  if HasPrefix s sub then Some ("", s)
  else match s with
       | EmptyString => None
       | String c s' => '(a, b) ← CutBefore sub s'; Some (String c a, b)
       end.

Definition code (c : ascii) : Z := Z.of_nat (nat_of_ascii c).
Definition within (a b : Z) (c : ascii) : bool := bool_decide (a <= code c <= b)%Z.
Definition is_digit : ascii -> bool := within 48 57.
Definition is_alpha (c : ascii) : bool := within 65 90 c || within 97 122 c.
Definition is_hex (c : ascii) : bool := is_digit c || within 65 70 c || within 97 102 c.
Definition one_of (s : string) (c : ascii) : bool := bool_decide (c ∈ String.list_ascii_of_string s).

Definition all_bytes (f : ascii -> bool) (s : string) : bool :=
  forallb f (String.list_ascii_of_string s).

Definition unhex (c : ascii) : Z :=
  if is_digit c then (code c - 48)%Z
  else if within 97 102 c then (code c - 87)%Z else (code c - 55)%Z.

(** [strings.ToLower] on the schemes that parse. *)
Definition to_lower (c : ascii) : ascii :=
  if within 65 90 c then ascii_of_nat (nat_of_ascii c + 32) else c.
Fixpoint ToLower (s : string) : string :=
  match s with EmptyString => EmptyString | String c s => String (to_lower c) (ToLower s) end.

Inductive encoding := encodeOther | encodeHost | encodeZone.

(** The bytes of a host that need no escape. *)
Definition host_byte (c : ascii) : bool :=
  is_alpha c || is_digit c || one_of "!$&'()*+,;=:[]<>" c || bool_decide (code c = 34%Z) || one_of "-_.~" c.

Fixpoint unescape (mode : encoding) (s : string) : option string :=
  match s with
  | EmptyString => Some ""
  | String c s1 =>
      if decide (c = "%"%char) then
        match s1 with
        | String a (String b s2) =>
            let v := (unhex a * 16 + unhex b)%Z in
            let x := ascii_of_nat (Z.to_nat v) in
            let percent := bool_decide (a = "2"%char /\ b = "5"%char) in
            if negb (is_hex a && is_hex b) then None
            else match mode with
                 | encodeHost => if bool_decide (unhex a < 8)%Z && negb percent then None
                                 else String x <$> unescape mode s2
                 | encodeZone => if negb percent && negb (bool_decide (v = 32%Z)) && negb (host_byte x)
                                 then None else String x <$> unescape mode s2
                 | encodeOther => String x <$> unescape mode s2
                 end
        | _ => None
        end
      else match mode with
           | encodeOther => String c <$> unescape mode s1
           | _ => if bool_decide (code c < 128)%Z && negb (host_byte c) then None
                  else String c <$> unescape mode s1
           end
  end.

Definition validOptionalPort (port : string) : bool :=
  match port with
  | EmptyString => true
  | String c digits => bool_decide (c = ":"%char) && all_bytes is_digit digits
  end.

Definition validUserinfo : string -> bool :=
  all_bytes (fun c => is_alpha c || is_digit c || one_of "-._:~!$&'()*+,;=%@" c).

Definition parseHost (host : string) : option string :=
  if HasPrefix host "[" then
    match CutLast "]" host with
    | None => None
    | Some (inside, colonPort) =>
        if negb (validOptionalPort colonPort) then None
        else match CutBefore "%25" inside with
             | Some (a, zone) =>
                 host1 ← unescape encodeHost a; host2 ← unescape encodeZone zone;
                 host3 ← unescape encodeHost ("]" +:+ colonPort);
                 Some (host1 +:+ host2 +:+ host3)
             | None => unescape encodeHost host
             end
    end
  else match CutLast ":" host with
       | Some (_, port) =>
           if validOptionalPort (":" +:+ port) then unescape encodeHost host else None
       | None => unescape encodeHost host
       end.

(** The host of [parseAuthority]; a userinfo is checked and left out. *)
Definition parseAuthority (authority : string) : option string :=
  match CutLast "@" authority with
  | None => parseHost authority
  | Some (userinfo, rest) =>
      host ← parseHost rest;
      if negb (validUserinfo userinfo) then None
      else _u ← unescape encodeOther userinfo; Some host
  end.

(** [getScheme]: a scheme and the rest; [None] for a missing scheme. *)
Fixpoint scheme_from (first : bool) (s : string) : option (option (string * string)) :=
  match s with
  | EmptyString => Some None
  | String c s' =>
      if is_alpha c || (is_digit c || one_of "+-." c) && negb first then
        r ← scheme_from false s';
        Some ('(a, b) ← r; Some (String c a, b))
      else if is_digit c || one_of "+-." c then Some None
      else if decide (c = ":"%char) then (if first then None else Some (Some ("", s')))
      else Some None
  end.

Definition getScheme (rawURL : string) : option (string * string) :=
  r ← scheme_from true rawURL; Some (default ("", rawURL) r).

Record URL := { Scheme : string; Host : string }.

Definition parse (rawURL : string) : option URL :=
  if negb (all_bytes (fun c => negb (bool_decide (code c < 32)%Z || bool_decide (code c = 127%Z))) rawURL)
  then None
  else if decide (rawURL = "*") then Some {| Scheme := ""; Host := "" |}
  else
    '(scheme, rest) ← getScheme rawURL;
    let scheme := ToLower scheme in
    let rest := (Cut "?" rest).1 in
    if negb (HasPrefix rest "/") && negb (bool_decide (scheme = "")) then
      Some {| Scheme := scheme; Host := "" |}
    else if negb (HasPrefix rest "/") && Contains (Cut "/" rest).1 ":" then None
    else if (negb (bool_decide (scheme = "")) || negb (HasPrefix rest "///")) && HasPrefix rest "//" then
      let '(authority, path) := Cut "/" (TrimPrefix rest "//") in
      host ← parseAuthority authority;
      _p ← unescape encodeOther (match path with Some p => "/" +:+ p | None => "" end);
      Some {| Scheme := scheme; Host := host |}
    else
      _p ← unescape encodeOther rest; Some {| Scheme := scheme; Host := "" |}.

Definition url_Parse (rawURL : string) : option URL :=
  let '(u, frag) := Cut "#" rawURL in
  url ← parse u;
  _f ← unescape encodeOther (default "" frag); Some url.

(** [u.Hostname()]. *)
Definition Hostname (u : URL) : string :=
  let host := match CutLast ":" (Host u) with
              | Some (h, port) => if validOptionalPort (":" +:+ port) then h else Host u
              | None => Host u end in
  match strip_suffix "]" host with
  | Some h => if HasPrefix host "[" then TrimPrefix h "[" else host
  | None => host
  end.

(** ** Examples *)

Example parse_port : url_Parse "http://dir.example.org:8888" = Some {| Scheme := "http"; Host := "dir.example.org:8888" |}.
Proof. reflexivity. Qed.

Example parse_full :
  Hostname <$> url_Parse "HTTPS://me:pw@[fe80::1%25en0]:80/a%20b?q#f" = Some "fe80::1%en0".
Proof. reflexivity. Qed.

Example parse_bad_port : url_Parse "http://host:8a" = None.
Proof. reflexivity. Qed.

Example parse_bad_escape : url_Parse "http://host/%zz" = None.
Proof. reflexivity. Qed.

Example parse_no_host : Hostname <$> url_Parse "http:///path" = Some "".
Proof. reflexivity. Qed.

Example parse_opaque : url_Parse "mailto:me" = Some {| Scheme := "mailto"; Host := "" |}.
Proof. reflexivity. Qed.
