(* ===== verification/GoForm.v ===== *)
(** * Forms and base64

    What the hub client uses of Go's [net/url] beyond parsing: [Values] with
    [Encode] and [ParseQuery], [QueryEscape] and its inverse; and the URL alphabet
    of [encoding/base64]. *)

From stdpp Require Import sorting.
From S2P Require Import Prelude GoStrings GoUrl.

Open Scope string_scope.
Open Scope list_scope.

(** ** Escaping *)

Definition unreserved (c : ascii) : bool := is_alpha c || is_digit c || one_of "-_.~" c.

Definition upper_hex (n : Z) : ascii := ascii_of_nat (Z.to_nat (if bool_decide (n < 10)%Z then 48 + n else 55 + n)).

Fixpoint QueryEscape (s : string) : string :=
  match s with
  | EmptyString => ""
  | String c s =>
      if unreserved c then String c (QueryEscape s)
      else if decide (c = " "%char) then String "+" (QueryEscape s)
      else String "%" (String (upper_hex (code c / 16)) (String (upper_hex (code c mod 16)) (QueryEscape s)))
  end.

Fixpoint QueryUnescape (s : string) : option string :=
  match s with
  | EmptyString => Some ""
  | String c s =>
      if decide (c = "%"%char) then
        match s with
        | String a (String b s) =>
            if is_hex a && is_hex b
            then String (ascii_of_nat (Z.to_nat (unhex a * 16 + unhex b))) <$> QueryUnescape s
            else None
        | _ => None
        end
      else String (if decide (c = "+"%char) then " "%char else c) <$> QueryUnescape s
  end.

(** ** Values *)

Notation Values := (gmap string (list string)).

(** Bytewise order of strings. *)
Definition string_le (a b : string) : Prop := String.leb a b = true.
#[export] Instance string_le_dec a b : Decision (string_le a b).
Proof. unfold string_le. apply _. Defined.

Definition Values_Set (k v : string) (m : Values) : Values := <[k := [v]]> m.
Definition Values_Add (k v : string) (m : Values) : Values := <[k := default [] (m !! k) ++ [v]]> m.
Definition Values_Get (m : Values) (k : string) : string :=
  match m !! k with Some (v :: _) => v | _ => "" end.

Definition pairs_of (m : Values) (k : string) : list (string * string) := pair k <$> default [] (m !! k).
Definition encode_pair (p : string * string) : string := QueryEscape p.1 +:+ "=" +:+ QueryEscape p.2.

(** Keys in order, the values of a key in theirs. *)
Definition Values_Encode (m : Values) : string :=
  Join (encode_pair <$> (merge_sort string_le (map_to_list m).*1 ≫= pairs_of m)) "&".

(** A piece that does not parse is passed over; [URL.Query] ignores the error. *)
Definition parse_piece (m : Values) (piece : string) : Values :=
  if Contains piece ";" then m
  else if decide (piece = "") then m
  else let '(key, value) := Cut "=" piece in
       match QueryUnescape key, QueryUnescape (default "" value) with
       | Some k, Some v => Values_Add k v m
       | _, _ => m
       end.

Definition ParseQuery (query : string) : Values := foldl parse_piece ∅ (Split "&" query).

(** ** base64 with the URL alphabet *)

Definition base64_char (n : Z) : ascii :=
  ascii_of_nat (Z.to_nat
    (if bool_decide (n < 26)%Z then 65 + n
     else if bool_decide (n < 52)%Z then 71 + n
     else if bool_decide (n < 62)%Z then n - 4
     else if bool_decide (n = 62)%Z then 45 else 95)).

Definition sextet (n i : Z) : ascii := base64_char (Z.land (Z.shiftr n (6 * i)) 63).

Fixpoint base64_URLEncode (s : string) : string :=
  match s with
  | EmptyString => ""
  | String a EmptyString =>
      let n := Z.shiftl (code a) 16 in String (sextet n 3) (String (sextet n 2) "==")
  | String a (String b EmptyString) =>
      let n := Z.lor (Z.shiftl (code a) 16) (Z.shiftl (code b) 8) in
      String (sextet n 3) (String (sextet n 2) (String (sextet n 1) "="))
  | String a (String b (String c s)) =>
      let n := Z.lor (Z.lor (Z.shiftl (code a) 16) (Z.shiftl (code b) 8)) (code c) in
      String (sextet n 3) (String (sextet n 2) (String (sextet n 1) (String (sextet n 0) (base64_URLEncode s))))
  end.

(** [strings.TrimRight] with one byte. *)
Fixpoint TrimRight (c : ascii) (s : string) : string :=
  match s with
  | EmptyString => ""
  | String a s =>
      let r := TrimRight c s in
      if decide (a = c /\ r = "") then "" else String a r
  end.

(** ** Escaping loses nothing *)

(** What is true of every byte is checked for the 256 of them. *)
Ltac every_byte c := destruct c as [[] [] [] [] [] [] [] []]; vm_compute; intuition congruence.

Lemma unreserved_plain c : unreserved c = true ->
  c <> "%"%char /\ c <> "+"%char /\ c <> "&"%char /\ c <> "="%char /\ c <> ";"%char.
Proof. every_byte c. Qed.

Lemma hex_byte c :
  is_hex (upper_hex (code c / 16)) = true /\ is_hex (upper_hex (code c mod 16)) = true
  /\ ascii_of_nat (Z.to_nat (unhex (upper_hex (code c / 16)) * 16 + unhex (upper_hex (code c mod 16)))) = c.
Proof. every_byte c. Qed.

Lemma hex_plain c : is_hex c = true -> unreserved c = true.
Proof. every_byte c. Qed.

Lemma unescape_escape s : QueryUnescape (QueryEscape s) = Some s.
Proof.
  induction s as [|c s IH]; [done|]. cbn [QueryEscape]. destruct (unreserved c) eqn:Hc.
  - apply unreserved_plain in Hc as (Hp & Hq & _). cbn [QueryUnescape].
    by rewrite decide_False, IH, decide_False by done.
  - case_decide as Hs; [subst c; cbn [QueryUnescape]; by rewrite IH|].
    destruct (hex_byte c) as (Ha & Hb & Hv). cbn [QueryUnescape].
    rewrite decide_True by done. by rewrite Ha, Hb, IH, Hv.
Qed.

Definition separator (c : ascii) : Prop := c = "&"%char \/ c = "="%char \/ c = ";"%char.

Lemma no_sep_cons sep c s : no_sep sep (String c s) = true <-> c <> sep /\ no_sep sep s = true.
Proof. cbn [no_sep]. by rewrite andb_true_iff, bool_decide_eq_true. Qed.

Lemma escape_no_sep sep s : separator sep -> no_sep sep (QueryEscape s) = true.
Proof.
  intros Hsep. assert (Hplain : forall c, unreserved c = true -> c <> sep).
  { intros c Hc. apply unreserved_plain in Hc. unfold separator in Hsep. naive_solver. }
  induction s as [|c s IH]; [done|]. cbn [QueryEscape]. destruct (unreserved c) eqn:Hc.
  - apply no_sep_cons. auto.
  - destruct (hex_byte c) as (Ha & Hb & _). apply hex_plain, Hplain in Ha, Hb.
    case_decide; repeat (apply no_sep_cons; split); try done; unfold separator in Hsep; naive_solver.
Qed.

Lemma no_sep_app sep a b : no_sep sep (a +:+ b) = no_sep sep a && no_sep sep b.
Proof. induction a as [|c a IH]; [done|]. rewrite append_cons. cbn [no_sep]. by rewrite IH, andb_assoc. Qed.

Lemma Contains_no_sep c s : no_sep c s = true -> Contains s (String c "") = false.
Proof.
  induction s as [|d s IH]; [done|]. intros [Hd Hs]%no_sep_cons. cbn [Contains]. rewrite (IH Hs), orb_false_r.
  unfold HasPrefix. cbn [strip_prefix]. case_decide; naive_solver.
Qed.

Lemma Cut_app sep a b : no_sep sep a = true -> Cut sep (a +:+ String sep b) = (a, Some b).
Proof.
  induction a as [|c a IH]; intros Ha; [rewrite append_nil_l; cbn [Cut]; by rewrite decide_True|].
  apply no_sep_cons in Ha as [Hc Ha]. rewrite append_cons. cbn [Cut]. by rewrite decide_False, IH.
Qed.

Lemma encode_pair_no_sep sep p : sep = "&"%char \/ sep = ";"%char -> no_sep sep (encode_pair p) = true.
Proof.
  intros Hsep. unfold encode_pair.
  rewrite !no_sep_app, !escape_no_sep by (unfold separator; naive_solver). by destruct Hsep as [-> | ->].
Qed.

Lemma parse_encode_pair m p : parse_piece m (encode_pair p) = Values_Add p.1 p.2 m.
Proof.
  unfold parse_piece. rewrite Contains_no_sep by (apply encode_pair_no_sep; by right).
  rewrite decide_False; [|unfold encode_pair; by destruct (QueryEscape p.1)].
  unfold encode_pair. change ("=" +:+ QueryEscape p.2) with (String "=" (QueryEscape p.2)).
  rewrite Cut_app by (apply escape_no_sep; unfold separator; auto). simpl. by rewrite !unescape_escape.
Qed.

Definition add_pair (m : Values) (p : string * string) : Values := Values_Add p.1 p.2 m.

Lemma parse_pieces m l : foldl parse_piece m (encode_pair <$> l) = foldl add_pair m l.
Proof.
  revert m. induction l as [|p l IH]; intros m; [done|]. simpl. by rewrite parse_encode_pair, IH.
Qed.

Lemma add_same k l m : l <> [] -> foldl add_pair m (pair k <$> l) = <[k := default [] (m !! k) ++ l]> m.
Proof.
  revert m. induction l as [|v l IH]; intros m Hl; [done|]. simpl.
  change (add_pair m (k, v)) with (<[k := default [] (m !! k) ++ [v]]> m).
  destruct l as [|v' l]; [done|]. rewrite IH by done.
  rewrite lookup_insert_eq, insert_insert_eq. simpl default. by rewrite <- (assoc_L (++)).
Qed.

(** Adding the pairs of distinct keys gives these keys the values they had. *)
Lemma add_pairs (m : Values) ks m0 : (forall k, m !! k <> Some []) -> NoDup ks -> (forall k, k ∈ ks -> m0 !! k = None) ->
  forall k, foldl add_pair m0 (ks ≫= pairs_of m) !! k = if decide (k ∈ ks) then m !! k else m0 !! k.
Proof.
  intros Hne. revert m0. induction ks as [|k0 ks IH]; intros m0 Hnd Hm0 k; [done|].
  apply NoDup_cons in Hnd as [Hk0 Hnd]. rewrite bind_cons, foldl_app. unfold pairs_of at 1.
  destruct (m !! k0) as [[|v vs]|] eqn:Hm; [by apply Hne in Hm| |]; simpl default.
  - rewrite add_same by done. rewrite (Hm0 k0) by set_solver. simpl default. rewrite app_nil_l.
    rewrite IH; [|done|intros k' Hk'; rewrite lookup_insert_ne by set_solver; apply Hm0; set_solver].
    destruct (decide (k = k0)) as [->|Hk].
    + rewrite decide_False, lookup_insert_eq by done. rewrite decide_True by set_solver. by rewrite Hm.
    + rewrite lookup_insert_ne by done. destruct (decide (k ∈ ks)), (decide (k ∈ k0 :: ks)); set_solver.
  - simpl. rewrite IH; [|done|set_solver]. destruct (decide (k = k0)) as [->|Hk].
    + rewrite decide_False by done. rewrite decide_True by set_solver. rewrite Hm. apply Hm0. set_solver.
    + destruct (decide (k ∈ ks)), (decide (k ∈ k0 :: ks)); set_solver.
Qed.

(** A form that is encoded is parsed back: no key and no value is changed, lost or
    split, whatever bytes they hold. *)
Lemma parse_encode (m : Values) : (forall k, m !! k <> Some []) -> ParseQuery (Values_Encode m) = m.
Proof.
  intros Hne. unfold ParseQuery, Values_Encode. set (ks := merge_sort string_le (map_to_list m).*1).
  assert (Hks : ks ≡ₚ (map_to_list m).*1) by apply merge_sort_Permutation.
  assert (Hsplit : foldl parse_piece ∅ (Split "&" (Join (encode_pair <$> (ks ≫= pairs_of m)) "&"))
    = foldl add_pair ∅ (ks ≫= pairs_of m)).
  { generalize (ks ≫= pairs_of m). intros [|p l]; [done|]. rewrite <- parse_pieces.
    rewrite (Split_Join "&"%char); [done|done|]. apply Forall_fmap, Forall_true. intros q.
    apply encode_pair_no_sep. by left. }
  rewrite Hsplit. apply map_eq. intros k. rewrite (add_pairs m); [|done|rewrite Hks; apply NoDup_fst_map_to_list|done].
  case_decide as Hk; [done|]. rewrite lookup_empty. symmetry. apply eq_None_not_Some. intros [v Hv]. apply Hk.
  rewrite Hks. apply list_elem_of_fmap. exists (k, v). split; [done|]. by apply elem_of_map_to_list.
Qed.

(** No key without a value. *)
Definition values_ok (m : Values) : Prop := forall k, m !! k <> Some [].

Lemma values_ok_empty : values_ok ∅.
Proof. intros k. by rewrite lookup_empty. Qed.
Lemma values_ok_set k v m : values_ok m -> values_ok (Values_Set k v m).
Proof. intros Hm k'. unfold Values_Set. rewrite lookup_insert_Some.
  intros [[_ ?]|[_ Hk]]; [done|by apply Hm in Hk].
Qed.
Lemma values_ok_add k v m : values_ok m -> values_ok (Values_Add k v m).
Proof.
  intros Hm k'. unfold Values_Add. rewrite lookup_insert_Some.
  intros [[_ Hk]|[_ Hk]]; [by destruct (default [] (m !! k)); discriminate|by apply Hm in Hk].
Qed.

#[export] Hint Resolve values_ok_empty values_ok_set values_ok_add : dir.

(** ** The shape of base64 *)

Lemma all_bytes_cons f c s : all_bytes f (String c s) = f c && all_bytes f s.
Proof. done. Qed.

Lemma sextet_unreserved n i : unreserved (sextet n i) = true.
Proof.
  unfold sextet. set (m := Z.land _ 63).
  assert (0 <= m < 64)%Z as Hm by (unfold m; change 63%Z with (Z.ones 6); rewrite Z.land_ones by lia;
    apply Z.mod_pos_bound; lia).
  assert (Hall : forallb (fun k => unreserved (base64_char (Z.of_nat k))) (seq 0 64) = true) by (vm_compute; done).
  rewrite forallb_forall in Hall. specialize (Hall (Z.to_nat m)). rewrite Z2Nat.id in Hall by lia.
  apply Hall, in_seq. lia.
Qed.

#[local] Opaque sextet.

(** Characters of the alphabet, and the padding. *)
Lemma base64_shape s : exists body pad, base64_URLEncode s = body +:+ pad
  /\ all_bytes unreserved body = true /\ (pad = "" \/ pad = "=" \/ pad = "==")
  /\ String.length body = ((4 * String.length s + 2) / 3)%nat.
Proof.
  remember (String.length s) as n eqn:Hn. revert s Hn.
  induction n as [n IH] using lt_wf_ind. intros [|a [|b [|c s]]] ->; cbn [base64_URLEncode].
  - exists "", "". auto.
  - eexists (String _ (String _ "")), "==".
    rewrite !append_cons, append_nil_l, !all_bytes_cons, !sextet_unreserved. split_and!; auto.
  - eexists (String _ (String _ (String _ ""))), "=".
    rewrite !append_cons, append_nil_l, !all_bytes_cons, !sextet_unreserved. split_and!; auto.
  - destruct (IH (String.length s)) with (s := s) as (body & pad & -> & Hb & Hp & Hl); [simpl; lia|done|].
    eexists (String _ (String _ (String _ (String _ body)))), pad. rewrite !append_cons, !all_bytes_cons, !sextet_unreserved.
    split; [done|]. split; [done|]. split; [done|]. cbn [String.length]. rewrite Hl.
    replace (4 * S (S (S (String.length s))) + 2)%nat with (4 * String.length s + 2 + 4 * 3)%nat by lia.
    rewrite Nat.div_add by lia. lia.
Qed.

Lemma TrimRight_pad s pad : all_bytes unreserved s = true -> pad = "" \/ pad = "=" \/ pad = "==" ->
  TrimRight "=" (s +:+ pad) = s.
Proof.
  intros Hs Hp. induction s as [|c s IH]; [by destruct Hp as [->|[->| ->]]|].
  rewrite all_bytes_cons in Hs. apply andb_true_iff in Hs as [Hc Hs]. rewrite append_cons. cbn [TrimRight].
  rewrite (IH Hs), decide_False; [done|]. apply unreserved_plain in Hc. naive_solver.
Qed.

(** Trimmed base64: characters that need no escape. *)
Lemma base64_trimmed s : let t := TrimRight "=" (base64_URLEncode s) in
  all_bytes unreserved t = true /\ String.length t = ((4 * String.length s + 2) / 3)%nat.
Proof.
  destruct (base64_shape s) as (body & pad & -> & Hb & Hp & Hl). simpl. by rewrite TrimRight_pad.
Qed.

Lemma escape_unreserved s : all_bytes unreserved s = true -> QueryEscape s = s.
Proof.
  induction s as [|c s IH]; [done|]. rewrite all_bytes_cons. intros [Hc Hs]%andb_true_iff.
  cbn [QueryEscape]. by rewrite Hc, IH.
Qed.

Example form_example :
  Values_Encode (Values_Set "code" "a&b=c d" (Values_Set "client_id" "hub" ∅)) = "client_id=hub&code=a%26b%3Dc+d".
Proof. vm_compute. reflexivity. Qed.

Example base64_example : base64_URLEncode "Ma" = "TWE=" /\ base64_URLEncode "light w" = "bGlnaHQgdw==".
Proof. split; vm_compute; reflexivity. Qed.
