(* ===== verification/Interfaces.v ===== *)
(** * Interfaces to code outside the repository

    The server calls libraries and services that are not part of its sources:
    CID decoding (go-cid), the key/value datastore (go-datastore), the DHT
    (go-libp2p-kad-dht) and the JSON encoding of its metadata.  Each is a type
    class: operations that the definitions of the development take as
    arguments, and, in a separate class, the documented laws its theorems rely
    on.  Every class of laws has an instance at the end of the file, an
    executable in-memory implementation on which the definitions compute. *)

From S2P Require Import Prelude GoStrings.

Open Scope string_scope.
Open Scope list_scope.

(** ** go-cid *)

Class CidLib := {
  Cid : Type;
  cid_Decode : string -> result Cid;   (** [cid.Decode] *)
}.

Definition cid_ok `{CidLib} (s : string) : bool := is_ok (cid_Decode s).

(** ** JSON encoding of a metadata type

    [json_ok] delimits the values that survive encoding (strings that are
    valid UTF-8, times whose year has four digits). *)

Class JsonCodec (A : Type) := {
  json_Marshal : A -> result string;
  json_Unmarshal : string -> result A;
}.

Class JsonCodecSpec (A : Type) `{JsonCodec A} (json_ok : A -> Prop) : Prop := {
  json_roundtrip a :
    json_ok a -> exists b, json_Marshal a = Ok b /\ json_Unmarshal b = Ok a;
}.

(** ** go-datastore

    A datastore [D] has a view, the key/value map it holds; keys are built
    with [datastore.NewKey], which cleans a rooted path as [path.Clean] does.
    A query returns the entries whose key starts with the prefix and that all
    filters accept, in an order of the datastore's choosing; a query's prefix is
    compared on path boundaries, so the law speaks of a prefix that is clean but
    for its trailing slash. *)

Record Entry := { Key : string; Value : string }.

Record QueryResult := { QEntry : Entry; QError : option error }.

Inductive BatchOp :=
  | BatchPut (k v : string)
  | BatchDelete (k : string).

Class Datastore (D : Type) := {
  Batch : Type;
  ds_NewKey : string -> string;
  ds_Get : D -> string -> result string;
  ds_Has : D -> string -> result bool;
  ds_Put : string -> string -> M D (result unit);
  ds_Delete : string -> M D (result unit);
  ds_Query : D -> string -> (Entry -> bool) -> result (list QueryResult);
  ds_Batch : D -> result Batch;
  batch_Put : Batch -> string -> string -> result Batch;
  batch_Delete : Batch -> string -> result Batch;
  batch_Commit : Batch -> M D (result unit);
}.

(** [datastore.ErrNotFound]. *)
Definition ErrNotFound : error := Sentinel "datastore: key not found".

Definition apply_op (m : gmap string string) (op : BatchOp) : gmap string string :=
  match op with
  | BatchPut k v => <[k := v]> m
  | BatchDelete k => delete k m
  end.

Definition apply_ops : gmap string string -> list BatchOp -> gmap string string :=
  foldl apply_op.

Definition entries (m : gmap string string) : list Entry :=
  (fun kv => {| Key := kv.1; Value := kv.2 |}) <$> map_to_list m.

Definition query_entries (m : gmap string string) (prefix : string) (f : Entry -> bool)
  : list Entry :=
  filter (fun e => HasPrefix (Key e) prefix = true /\ f e = true) (entries m).

(** The laws of a datastore that is up: no operation fails, and each has the
    documented effect on the view. *)
Class DatastoreSpec (D : Type) `{Datastore D}
    (view : D -> gmap string string) (bops : Batch -> list BatchOp) : Prop := {
  ds_NewKey_spec s : HasPrefix s "/" = true -> ds_NewKey s = path_Clean s;
  ds_Get_spec d k :
    ds_Get d k = match view d !! k with Some v => Ok v | None => Err ErrNotFound end;
  ds_Has_spec d k : ds_Has d k = Ok (bool_decide (is_Some (view d !! k)));
  ds_Put_spec d k v :
    (ds_Put k v d).1 = Ok tt /\ view (ds_Put k v d).2 = <[k := v]> (view d);
  ds_Delete_spec d k :
    (ds_Delete k d).1 = Ok tt /\ view (ds_Delete k d).2 = delete k (view d);
  ds_Query_spec d p f :
    path_Clean p +:+ "/" = p ->
    exists es, ds_Query d p f = Ok ((fun e => {| QEntry := e; QError := None |}) <$> es)
      /\ es ≡ₚ query_entries (view d) p f;
  ds_Batch_spec d : exists b, ds_Batch d = Ok b /\ bops b = [];
  batch_Put_spec b k v :
    exists b', batch_Put b k v = Ok b' /\ bops b' = bops b ++ [BatchPut k v];
  batch_Delete_spec b k :
    exists b', batch_Delete b k = Ok b' /\ bops b' = bops b ++ [BatchDelete k];
  batch_Commit_spec d b :
    (batch_Commit b d).1 = Ok tt /\ view (batch_Commit b d).2 = apply_ops (view d) (bops b);
}.

(** ** Lemmas about views *)

Lemma elem_of_entries m e : e ∈ entries m <-> m !! Key e = Some (Value e).
Proof.
  unfold entries. rewrite list_elem_of_fmap. split.
  - intros ([k v] & -> & Hkv). by apply elem_of_map_to_list in Hkv.
  - intros He. exists (Key e, Value e). split; [by destruct e|].
    by apply elem_of_map_to_list.
Qed.

Lemma elem_of_query_entries m p f e :
  e ∈ query_entries m p f <->
  m !! Key e = Some (Value e) /\ HasPrefix (Key e) p = true /\ f e = true.
Proof. unfold query_entries. rewrite list_elem_of_filter, elem_of_entries. naive_solver. Qed.

Lemma NoDup_query_entries_keys m p f : NoDup (Key <$> query_entries m p f).
Proof.
  unfold query_entries, entries.
  pose proof (NoDup_fst_map_to_list m) as Hnd.
  assert (Hk : forall l : list (string * string), NoDup l.*1 ->
    NoDup (Key <$> filter (fun e => HasPrefix (Key e) p = true /\ f e = true)
      ((fun kv => {| Key := kv.1; Value := kv.2 |}) <$> l))); [|by apply Hk].
  induction l as [|[k v] l IH]; [done|]. simpl. intros [Hk Hl]%NoDup_cons.
  rewrite filter_cons. case_decide; [|by apply IH].
  simpl. constructor; [|by apply IH]. intros (e & He & Hin)%list_elem_of_fmap.
  apply list_elem_of_filter in Hin as [_ Hin].
  apply list_elem_of_fmap in Hin as ([k' v'] & -> & Hin). simpl in *. subst.
  apply Hk. apply list_elem_of_fmap. by exists (k', v').
Qed.

Lemma apply_ops_app m l1 l2 : apply_ops m (l1 ++ l2) = apply_ops (apply_ops m l1) l2.
Proof. unfold apply_ops. by rewrite foldl_app. Qed.

(** Keys no operation of a batch names keep their value. *)
Definition op_key (op : BatchOp) : string :=
  match op with BatchPut k _ => k | BatchDelete k => k end.

Lemma apply_ops_other m ops k :
  k ∉ op_key <$> ops -> apply_ops m ops !! k = m !! k.
Proof.
  revert m. induction ops as [|op ops IH]; intros m Hk; [done|].
  simpl in Hk. apply not_elem_of_cons in Hk as [Hne Hk].
  change (apply_ops m (op :: ops)) with (apply_ops (apply_op m op) ops).
  rewrite IH by done. destruct op; simpl in *; by simplify_map_eq.
Qed.

Lemma apply_deletes m ks k :
  apply_ops m (BatchDelete <$> ks) !! k = if decide (k ∈ ks) then None else m !! k.
Proof.
  revert m. induction ks as [|x ks IH]; intros m; [done|].
  change (apply_ops m (BatchDelete <$> (x :: ks)))
    with (apply_ops (delete x m) (BatchDelete <$> ks)).
  rewrite IH. destruct (decide (k = x)) as [->|Hne].
  - rewrite lookup_delete_eq, (decide_True (P := x ∈ x :: ks)) by left.
    by case_decide.
  - rewrite lookup_delete_ne by done. repeat case_decide; set_solver.
Qed.

(** ** An in-memory datastore *)

Module MapDatastore.

Definition view (d : gmap string string) : gmap string string := d.

#[export] Instance map_datastore : Datastore (gmap string string) := {
  Batch := list BatchOp;
  ds_NewKey s := path_Clean (if HasPrefix s "/" then s else "/" +:+ s);
  ds_Get d k := match d !! k with Some v => Ok v | None => Err ErrNotFound end;
  ds_Has d k := Ok (bool_decide (is_Some (d !! k)));
  ds_Put k v := fun d => (Ok tt, <[k := v]> d);
  ds_Delete k := fun d => (Ok tt, delete k d);
  ds_Query d p f :=
    Ok ((fun e => {| QEntry := e; QError := None |}) <$> query_entries d p f);
  ds_Batch _ := Ok [];
  batch_Put b k v := Ok (b ++ [BatchPut k v]);
  batch_Delete b k := Ok (b ++ [BatchDelete k]);
  batch_Commit b := fun d => (Ok tt, apply_ops d b);
}.

#[export] Instance map_datastore_spec :
  DatastoreSpec (gmap string string) view (fun b => b).
Proof.
  split; try (intros; simpl; by eauto).
  simpl. intros s ->. done.
Qed.

End MapDatastore.

(** ** A codec for countable types

    A value is written as the binary digits of its code: an executable
    encoding that every value survives. *)

Module BinaryCodec.

Fixpoint write (p : positive) : string :=
  match p with
  | xH => ""
  | xO p => String "0" (write p)
  | xI p => String "1" (write p)
  end.

Fixpoint read (s : string) : option positive :=
  match s with
  | EmptyString => Some xH
  | String c s =>
      match read s with
      | None => None
      | Some p =>
          if decide (c = "0"%char) then Some (xO p)
          else if decide (c = "1"%char) then Some (xI p) else None
      end
  end.

Definition codec (A : Type) `{Countable A} : JsonCodec A := {|
  json_Marshal a := Ok (write (encode a));
  json_Unmarshal s :=
    match read s with
    | None => Err (Plain "invalid character")
    | Some p => match decode p with Some a => Ok a | None => Err (Plain "invalid value") end
    end;
|}.

Lemma read_write p : read (write p) = Some p.
Proof. induction p as [p IH|p IH|]; simpl; rewrite ?IH; done. Qed.

Lemma codec_spec (A : Type) `{Countable A} :
  @JsonCodecSpec A (codec A) (fun _ => True).
Proof.
  split. intros a _. eexists. split; [done|]. simpl. by rewrite read_write, decode_encode.
Qed.

End BinaryCodec.
