(* ===== verification/Adapters.v ===== *)
(** * Record data and its version-independent view

    api/core/v1 defines a record as one of three OASF schema versions;
    server/types/adapters gives the server one interface ([types.RecordData])
    over them.  The OASF messages come from generated code outside the
    repository: a message is represented by the values its getters return, and
    a message pointer, which can be nil, by an [option]. *)

From S2P Require Import Prelude GoStrings.

Open Scope string_scope.
Open Scope list_scope.

(** ** Protobuf values (google.protobuf.Struct)

    A float64 is kept as its bit pattern; a nil [*Value] and a [Value] whose
    kind is not set are separate cases. *)

Inductive PbValue :=
  | PbNil
  | PbKindUnset
  | PbNull
  | PbNumber (bits : Z)
  | PbString (s : string)
  | PbBool (b : bool)
  | PbStruct (fields : option (list (string * PbValue)))
  | PbList (values : list PbValue).

(** Go's [any], as far as [convertValue] produces it. *)
Inductive GoAny :=
  | AnyNil
  | AnyNumber (bits : Z)
  | AnyString (s : string)
  | AnyBool (b : bool)
  | AnyMap (m : option (list (string * GoAny)))
  | AnyList (l : list GoAny).

Fixpoint convertValue (v : PbValue) : GoAny :=
  match v with
  | PbNil => AnyNil
  | PbNull => AnyNil
  | PbNumber n => AnyNumber n
  | PbString s => AnyString s
  | PbBool b => AnyBool b
  | PbStruct None => AnyMap None
  | PbStruct (Some fields) => AnyMap (Some ((fun kv => (kv.1, convertValue kv.2)) <$> fields))
  | PbList values => AnyList (convertValue <$> values)
  | PbKindUnset => AnyString "unsupported type: <nil>"
  end.

Definition convertStructToMap (s : option (list (string * PbValue)))
  : option (list (string * GoAny)) :=
  match s with
  | None => None
  | Some fields => Some ((fun kv => (kv.1, convertValue kv.2)) <$> fields)
  end.

(** ** OASF messages, by their getters *)

Record pb_Signature := {
  sig_Annotations : gmap string string; sig_SignedAt : string; sig_Algorithm : string;
  sig_Signature : string; sig_Certificate : string; sig_ContentType : string;
  sig_ContentBundle : string }.

Record pb_Extension := {
  ext_Annotations : gmap string string; ext_Name : string; ext_Version : string;
  ext_Data : option (list (string * PbValue)) }.

Record pb_Locator := {
  loc_Annotations : gmap string string; loc_Type : string; loc_Url : string;
  loc_Size : Z; loc_Digest : string }.

(** objects/v1: a skill is a category and a class. *)
Record pb_SkillV1 := {
  sk1_Annotations : gmap string string; sk1_CategoryName : string;
  sk1_ClassName : string; sk1_ClassUid : Z }.

(** objects/v2 and v3: a skill is a name and a 32-bit identifier. *)
Record pb_Skill := {
  sk_Annotations : gmap string string; sk_Name : string; sk_Id : Z }.

(** The top-level messages differ in the skill type and in the previous-record
    field, which v1 does not have. *)
Record pb_Agent (skill : Type) := {
  ag_Annotations : gmap string string; ag_SchemaVersion : string; ag_Name : string;
  ag_Version : string; ag_Description : string; ag_Authors : list string;
  ag_CreatedAt : string; ag_Skills : list (option skill);
  ag_Locators : list (option pb_Locator); ag_Extensions : list (option pb_Extension);
  ag_Signature : option pb_Signature; ag_PreviousCid : string }.
Arguments ag_Annotations {_}. Arguments ag_SchemaVersion {_}. Arguments ag_Name {_}.
Arguments ag_Version {_}. Arguments ag_Description {_}. Arguments ag_Authors {_}.
Arguments ag_CreatedAt {_}. Arguments ag_Skills {_}. Arguments ag_Locators {_}.
Arguments ag_Extensions {_}. Arguments ag_Signature {_}. Arguments ag_PreviousCid {_}.

Definition objectsv1_Agent : Type := pb_Agent pb_SkillV1.
Definition objectsv2_AgentRecord : Type := pb_Agent pb_Skill.
Definition objectsv3_Record : Type := pb_Agent pb_Skill.

(** [corev1.Record.Data]: the oneof of the three versions, or not set. *)
Inductive RecordOneof :=
  | Record_V1 (V1 : option objectsv1_Agent)
  | Record_V2 (V2 : option objectsv2_AgentRecord)
  | Record_V3 (V3 : option objectsv3_Record).

Record CoreRecord := { GetData : option RecordOneof }.

(** ** The interfaces of server/types/record.go, as the values of their methods *)

Record Signature := {
  Sig_GetAnnotations : gmap string string; GetSignedAt : string; GetAlgorithm : string;
  GetSignature : string; GetCertificate : string; GetContentType : string;
  GetContentBundle : string }.

Record Extension := {
  Ext_GetAnnotations : gmap string string; Ext_GetName : string; Ext_GetVersion : string;
  Ext_GetData : option (list (string * GoAny)) }.

Record Skill := {
  Skill_GetAnnotations : gmap string string; Skill_GetName : string; Skill_GetID : Z }.

Record Locator := {
  Loc_GetAnnotations : gmap string string; Loc_GetType : string; Loc_GetURL : string;
  Loc_GetSize : Z; Loc_GetDigest : string }.

Record RecordData := {
  GetAnnotations : gmap string string; GetSchemaVersion : string; GetName : string;
  GetVersion : string; GetDescription : string; GetAuthors : list string;
  GetCreatedAt : string; GetSkills : list Skill; GetLocators : list Locator;
  GetExtensions : list Extension; RD_GetSignature : option Signature;
  GetPreviousRecordCid : string }.

(** A getter on a possibly nil message returns the zero value for nil. *)
Definition on {A B} (p : option A) (zero : B) (f : A -> B) : B :=
  match p with Some a => f a | None => zero end.

(** ** record_oasfv1.go *)

Definition V1SignatureAdapter (s : option pb_Signature) : Signature := {|
  Sig_GetAnnotations := ∅;
  GetSignedAt := on s "" sig_SignedAt;
  GetAlgorithm := on s "" sig_Algorithm;
  GetSignature := on s "" sig_Signature;
  GetCertificate := on s "" sig_Certificate;
  GetContentType := on s "" sig_ContentType;
  GetContentBundle := on s "" sig_ContentBundle |}.

Definition V1ExtensionAdapter (e : option pb_Extension) : Extension := {|
  Ext_GetAnnotations := on e ∅ ext_Annotations;
  Ext_GetName := on e "" ext_Name;
  Ext_GetVersion := on e "" ext_Version;
  Ext_GetData := on e None (fun e => convertStructToMap (ext_Data e)) |}.

Definition V1SkillAdapter (s : option pb_SkillV1) : Skill := {|
  Skill_GetAnnotations := on s ∅ sk1_Annotations;
  Skill_GetName := on s "" (fun s =>
    if decide (sk1_ClassName s = "") then sk1_CategoryName s
    else sk1_CategoryName s +:+ "/" +:+ sk1_ClassName s);
  Skill_GetID := on s 0%Z sk1_ClassUid |}.

Definition V1LocatorAdapter (l : option pb_Locator) : Locator := {|
  Loc_GetAnnotations := on l ∅ loc_Annotations;
  Loc_GetType := on l "" loc_Type;
  Loc_GetURL := on l "" loc_Url;
  Loc_GetSize := on l 0%Z loc_Size;
  Loc_GetDigest := on l "" loc_Digest |}.

Definition V1DataAdapter (a : option objectsv1_Agent) : RecordData := {|
  GetAnnotations := on a ∅ ag_Annotations;
  GetSchemaVersion := on a "" ag_SchemaVersion;
  GetName := on a "" ag_Name;
  GetVersion := on a "" ag_Version;
  GetDescription := on a "" ag_Description;
  GetAuthors := on a [] ag_Authors;
  GetCreatedAt := on a "" ag_CreatedAt;
  GetSkills := on a [] (fun a => V1SkillAdapter <$> ag_Skills a);
  GetLocators := on a [] (fun a => V1LocatorAdapter <$> ag_Locators a);
  GetExtensions := on a [] (fun a => V1ExtensionAdapter <$> ag_Extensions a);
  RD_GetSignature := on a None (fun a =>
    match ag_Signature a with None => None | Some s => Some (V1SignatureAdapter (Some s)) end);
  GetPreviousRecordCid := "" |}.

(** ** record_oasfv2.go *)

Definition V2SignatureAdapter (s : option pb_Signature) : Signature := {|
  Sig_GetAnnotations := on s ∅ sig_Annotations;
  GetSignedAt := on s "" sig_SignedAt;
  GetAlgorithm := on s "" sig_Algorithm;
  GetSignature := on s "" sig_Signature;
  GetCertificate := on s "" sig_Certificate;
  GetContentType := on s "" sig_ContentType;
  GetContentBundle := on s "" sig_ContentBundle |}.

Definition V2ExtensionAdapter (e : option pb_Extension) : Extension := {|
  Ext_GetAnnotations := on e ∅ ext_Annotations;
  Ext_GetName := on e "" ext_Name;
  Ext_GetVersion := on e "" ext_Version;
  Ext_GetData := on e None (fun e => convertStructToMap (ext_Data e)) |}.

Definition V2SkillAdapter (s : option pb_Skill) : Skill := {|
  Skill_GetAnnotations := on s ∅ sk_Annotations;
  Skill_GetName := on s "" sk_Name;
  Skill_GetID := on s 0%Z sk_Id |}.

Definition V2LocatorAdapter (l : option pb_Locator) : Locator := {|
  Loc_GetAnnotations := on l ∅ loc_Annotations;
  Loc_GetType := on l "" loc_Type;
  Loc_GetURL := on l "" loc_Url;
  Loc_GetSize := on l 0%Z loc_Size;
  Loc_GetDigest := on l "" loc_Digest |}.

Definition V2DataAdapter (a : option objectsv2_AgentRecord) : RecordData := {|
  GetAnnotations := on a ∅ ag_Annotations;
  GetSchemaVersion := on a "" ag_SchemaVersion;
  GetName := on a "" ag_Name;
  GetVersion := on a "" ag_Version;
  GetDescription := on a "" ag_Description;
  GetAuthors := on a [] ag_Authors;
  GetCreatedAt := on a "" ag_CreatedAt;
  GetSkills := on a [] (fun a => V2SkillAdapter <$> ag_Skills a);
  GetLocators := on a [] (fun a => V2LocatorAdapter <$> ag_Locators a);
  GetExtensions := on a [] (fun a => V2ExtensionAdapter <$> ag_Extensions a);
  RD_GetSignature := on a None (fun a =>
    match ag_Signature a with None => None | Some s => Some (V2SignatureAdapter (Some s)) end);
  GetPreviousRecordCid := on a "" ag_PreviousCid |}.

(** ** record_oasfv3.go *)

Definition V3SignatureAdapter (s : option pb_Signature) : Signature := {|
  Sig_GetAnnotations := on s ∅ sig_Annotations;
  GetSignedAt := on s "" sig_SignedAt;
  GetAlgorithm := on s "" sig_Algorithm;
  GetSignature := on s "" sig_Signature;
  GetCertificate := on s "" sig_Certificate;
  GetContentType := on s "" sig_ContentType;
  GetContentBundle := on s "" sig_ContentBundle |}.

Definition V3ExtensionAdapter (e : option pb_Extension) : Extension := {|
  Ext_GetAnnotations := on e ∅ ext_Annotations;
  Ext_GetName := on e "" ext_Name;
  Ext_GetVersion := on e "" ext_Version;
  Ext_GetData := on e None (fun e => convertStructToMap (ext_Data e)) |}.

Definition V3SkillAdapter (s : option pb_Skill) : Skill := {|
  Skill_GetAnnotations := on s ∅ sk_Annotations;
  Skill_GetName := on s "" sk_Name;
  Skill_GetID := on s 0%Z sk_Id |}.

Definition V3LocatorAdapter (l : option pb_Locator) : Locator := {|
  Loc_GetAnnotations := on l ∅ loc_Annotations;
  Loc_GetType := on l "" loc_Type;
  Loc_GetURL := on l "" loc_Url;
  Loc_GetSize := on l 0%Z loc_Size;
  Loc_GetDigest := on l "" loc_Digest |}.

Definition V3DataAdapter (a : option objectsv3_Record) : RecordData := {|
  GetAnnotations := on a ∅ ag_Annotations;
  GetSchemaVersion := on a "" ag_SchemaVersion;
  GetName := on a "" ag_Name;
  GetVersion := on a "" ag_Version;
  GetDescription := on a "" ag_Description;
  GetAuthors := on a [] ag_Authors;
  GetCreatedAt := on a "" ag_CreatedAt;
  GetSkills := on a [] (fun a => V3SkillAdapter <$> ag_Skills a);
  GetLocators := on a [] (fun a => V3LocatorAdapter <$> ag_Locators a);
  GetExtensions := on a [] (fun a => V3ExtensionAdapter <$> ag_Extensions a);
  RD_GetSignature := on a None (fun a =>
    match ag_Signature a with None => None | Some s => Some (V3SignatureAdapter (Some s)) end);
  GetPreviousRecordCid := on a "" ag_PreviousCid |}.

(** ** adapters/record.go *)

Definition GetRecordData (r : CoreRecord) : option RecordData :=
  match GetData r with
  | Some (Record_V1 v) => Some (V1DataAdapter v)
  | Some (Record_V2 v) => Some (V2DataAdapter v)
  | Some (Record_V3 v) => Some (V3DataAdapter v)
  | None => None
  end.
