(* ===== verification/ZotConfig.v ===== *)
(** * The configuration of the zot registry

    utils/zot/config.go and the part of server/sync/worker.go that edits it: zot
    mirrors the registries that its configuration file lists, and the sync worker
    adds and removes them there.  The file is read and written whole; its JSON
    codec is a class. *)

From S2P Require Import Prelude GoStrings GoUrl Interfaces.

Open Scope string_scope.
Open Scope list_scope.
Open Scope go_scope.

(** ** Data (utils/zot/config.go); a nil pointer is [None] *)

Definition DefaultZotConfigPath : string := "/etc/zot/config.json".
Definition DefaultPollInterval : string := "60s".
Definition DefaultRetryDelay : string := "5m".
Definition DefaultMaxRetries : Z := 3.

Record TagsFilter := { Regex : string; Semver : bool }.
Record SyncContent := { Content_Prefix : string; Destination : string; Tags : option TagsFilter }.

Record SyncRegistryConfig := {
  URLs : list string; OnDemand : bool; Content : list SyncContent; TLSVerify : option bool;
  MaxRetries : Z; RetryDelay : string; PollInterval : string; OnlySigned : bool }.

Record SyncConfig := {
  Enable : option bool; CredentialsFile : string; Registries : list SyncRegistryConfig }.

Record TrustConfig := { Trust_Enable : bool; Cosign : bool; Notation_ : bool }.
Record SearchConfig := { Search_Enable : bool }.
Record Extensions := {
  Ext_Search : option SearchConfig; Ext_Sync : option SyncConfig; Ext_Trust : option TrustConfig }.

Record StorageConfig := { RootDirectory : string }.
Record HTTPConfig := { Address : string; Port : string }.
Record LogConfig := { Level : string }.
Record ZotConfig := {
  DistSpecVersion : string; Storage : StorageConfig; HTTP : HTTPConfig; Log : option LogConfig;
  Config_Extensions : option Extensions }.

(** [ociconfig.DefaultRepositoryName]. *)
Definition DefaultRepositoryName : string := "dir".

(** [os.ReadFile] and [os.WriteFile]. *)
Class OsFiles (F : Type) := {
  os_ReadFile : string -> F -> result string;
  os_WriteFile : string -> string -> M F (result unit);
}.

(** ** The worker's edits (sync/worker.go) *)

Module zotsync.
Section zotsync.
Context {F : Type} `{!OsFiles F} `{!JsonCodec ZotConfig}.
(** the error [url.Parse] reports for a text that does not parse *)
Context (url_error : string -> error).

Definition readZotConfig (f : F) : result ZotConfig :=
  match os_ReadFile DefaultZotConfigPath f with
  | Err err => Err (Wrap ("failed to read zot config file " +:+ DefaultZotConfigPath +:+ ": ") err)
  | Ok config =>
      match json_Unmarshal config with
      | Err err => Err (Wrap "failed to unmarshal zot config: " err)
      | Ok zotConfig => Ok zotConfig
      end
  end.

Definition writeZotConfig (zotConfig : ZotConfig) : M F (result unit) :=
  match json_Marshal zotConfig with
  | Err err => ret (Err (Wrap "failed to marshal updated zot config: " err))
  | Ok updatedConfig =>
      let? _u := os_WriteFile DefaultZotConfigPath updatedConfig
        else err => ret (Err (Wrap "failed to write updated zot config: " err)) in
      ret (Ok tt)
  end.

Definition normalizeRegistryURL (rawURL : string) : result string :=
  if decide (rawURL = "") then Err (Plain "registry URL cannot be empty")
  else if negb (HasPrefix rawURL "http://") && negb (HasPrefix rawURL "https://") then
    Ok ("http://" +:+ rawURL)
  else match url_Parse rawURL with
       | None => Err (Wrap "invalid URL format: " (url_error rawURL))
       | Some _ => Ok rawURL
       end.

(** The registry's entry is one of the URLs of an entry. *)
Definition has_url (registryURL : string) (registry : SyncRegistryConfig) : bool :=
  existsb (fun url => bool_decide (url = registryURL)) (URLs registry).

Definition extensions_of (zotConfig : ZotConfig) : Extensions :=
  default {| Ext_Search := None; Ext_Sync := None; Ext_Trust := None |} (Config_Extensions zotConfig).

Definition sync_of (extensions : Extensions) : SyncConfig :=
  default {| Enable := None; CredentialsFile := ""; Registries := [] |} (Ext_Sync extensions).

Definition with_sync (zotConfig : ZotConfig) (syncConfig : SyncConfig) : ZotConfig :=
  let extensions := extensions_of zotConfig in {|
    DistSpecVersion := DistSpecVersion zotConfig; Storage := Storage zotConfig;
    HTTP := HTTP zotConfig; Log := Log zotConfig;
    Config_Extensions := Some {|
      Ext_Search := Ext_Search extensions; Ext_Sync := Some syncConfig;
      Ext_Trust := Ext_Trust extensions |} |}.

Definition new_registry (registryURL : string) : SyncRegistryConfig := {|
  URLs := [registryURL]; OnDemand := false; PollInterval := DefaultPollInterval;
  MaxRetries := DefaultMaxRetries; RetryDelay := DefaultRetryDelay; TLSVerify := Some false;
  Content := [{| Content_Prefix := DefaultRepositoryName; Destination := ""; Tags := None |}];
  OnlySigned := false |}.

(** An early return leaves the file as it was, whatever was set in the parsed
    configuration. *)
Definition addRegistryToZotSync (remoteDirectoryURL : string) : M F (result unit) := fun f =>
  if decide (remoteDirectoryURL = "") then
    (Err (Plain "remote directory URL cannot be empty"), f)
  else match readZotConfig f with
  | Err err => (Err err, f)
  | Ok zotConfig =>
      let syncConfig := sync_of (extensions_of zotConfig) in
      match normalizeRegistryURL remoteDirectoryURL with
      | Err err => (Err (Wrap "failed to normalize registry URL: " err), f)
      | Ok registryURL =>
          if existsb (has_url registryURL) (Registries syncConfig) then (Ok tt, f)
          else writeZotConfig (with_sync zotConfig {|
                 Enable := Some true; CredentialsFile := CredentialsFile syncConfig;
                 Registries := Registries syncConfig ++ [new_registry registryURL] |}) f
      end
  end.

Definition removeRegistryFromZotSync (remoteRegistryURL : string) : M F (result unit) := fun f =>
  if decide (remoteRegistryURL = "") then
    (Err (Plain "remote directory URL cannot be empty"), f)
  else match readZotConfig f with
  | Err err => (Err err, f)
  | Ok zotConfig =>
      match Config_Extensions zotConfig ≫= Ext_Sync with
      | None => (Ok tt, f)
      | Some syncConfig =>
          match normalizeRegistryURL remoteRegistryURL with
          | Err err => (Err (Wrap "failed to normalize registry URL: " err), f)
          | Ok registryURL =>
              let filteredRegistries :=
                filter (fun registry => has_url registryURL registry = false) (Registries syncConfig) in
              if decide (length filteredRegistries = length (Registries syncConfig)) then (Ok tt, f)
              else writeZotConfig (with_sync zotConfig {|
                     Enable := Enable syncConfig; CredentialsFile := CredentialsFile syncConfig;
                     Registries := filteredRegistries |}) f
          end
      end
  end.

End zotsync.
End zotsync.

(** ** The registries that zot mirrors

    A file system that is up, with its files. *)

Class OsFilesSpec (F : Type) `{!OsFiles F} (files : F -> gmap string string) : Prop := {
  os_ReadFile_spec p f : match files f !! p with
    | Some b => os_ReadFile p f = Ok b
    | None => exists e, os_ReadFile p f = Err e
    end;
  os_WriteFile_spec p b f : exists f', os_WriteFile p b f = (Ok tt, f')
    /\ files f' = <[p := b]> (files f);
}.

Section registries.
Context {F : Type} `{!OsFiles F} {files : F -> gmap string string} `{!OsFilesSpec F files}
  `{!JsonCodec ZotConfig} {config_ok : ZotConfig -> Prop} `{!JsonCodecSpec ZotConfig config_ok}.
Context (url_error : string -> error).

Definition registries (zotConfig : ZotConfig) : list SyncRegistryConfig :=
  Registries (zotsync.sync_of (zotsync.extensions_of zotConfig)).

(** The configuration on disk. *)
Definition config_is (f : F) (c : ZotConfig) : Prop :=
  exists b, files f !! DefaultZotConfigPath = Some b /\ json_Unmarshal b = Ok c.

(** [c'] is [c] up to the registries and the switch of the sync extension. *)
Definition same_besides (c c' : ZotConfig) : Prop :=
  DistSpecVersion c' = DistSpecVersion c /\ Storage c' = Storage c /\ HTTP c' = HTTP c /\ Log c' = Log c
  /\ Ext_Search (zotsync.extensions_of c') = Ext_Search (zotsync.extensions_of c)
  /\ Ext_Trust (zotsync.extensions_of c') = Ext_Trust (zotsync.extensions_of c)
  /\ CredentialsFile (zotsync.sync_of (zotsync.extensions_of c'))
     = CredentialsFile (zotsync.sync_of (zotsync.extensions_of c)).

(** A registry is mirrored when an entry has its URL. *)
Definition mirrored (url : string) (c : ZotConfig) : bool := existsb (zotsync.has_url url) (registries c).

(** Changing the sync extension keeps the configuration one that reads back. *)
Context (with_sync_ok : forall c s, config_ok c -> config_ok (zotsync.with_sync c s)).

Lemma read_config f c : config_is f c -> zotsync.readZotConfig f = Ok c.
Proof.
  intros (b & Hf & Hb). unfold zotsync.readZotConfig.
  pose proof (os_ReadFile_spec (files := files) DefaultZotConfigPath f) as Hr. rewrite Hf in Hr.
  by rewrite Hr, Hb.
Qed.

Lemma write_config f c : config_ok c ->
  exists f', zotsync.writeZotConfig c f = (Ok tt, f') /\ config_is f' c.
Proof.
  intros Hc. destruct (json_roundtrip c Hc) as (b & Hm & Hu).
  destruct (os_WriteFile_spec (files := files) DefaultZotConfigPath b f) as (f' & Hw & Hf).
  exists f'. unfold zotsync.writeZotConfig. rewrite Hm, (try_bind_ok _ _ _ _ _ _ Hw).
  split; [done|]. exists b. rewrite Hf. by rewrite lookup_insert_eq.
Qed.

Lemma with_sync_same c s :
  CredentialsFile s = CredentialsFile (zotsync.sync_of (zotsync.extensions_of c)) ->
  same_besides c (zotsync.with_sync c s).
Proof. intros Hs. by repeat split. Qed.

Lemma same_besides_refl c : same_besides c c.
Proof. by repeat split. Qed.

Lemma add_run url norm f c :
  config_is f c -> config_ok c -> zotsync.normalizeRegistryURL url_error url = Ok norm ->
  exists f' c', zotsync.addRegistryToZotSync url_error url f = (Ok tt, f') /\ config_is f' c'
    /\ config_ok c' /\ same_besides c c'
    /\ registries c' = if mirrored norm c then registries c
                       else registries c ++ [zotsync.new_registry norm].
Proof.
  intros Hf Hc Hn. unfold zotsync.addRegistryToZotSync.
  rewrite decide_False by (intros ->; by unfold zotsync.normalizeRegistryURL in Hn).
  rewrite (read_config f c Hf), Hn. unfold mirrored. fold (registries c).
  destruct (existsb _ (registries c)).
  - exists f, c. auto using same_besides_refl.
  - match goal with |- context [zotsync.with_sync c ?s] => set (s' := s) end.
    destruct (write_config f (zotsync.with_sync c s') (with_sync_ok c s' Hc)) as (f' & Hw & Hf').
    eexists f', _. split; [done|]. split; [done|]. split; [by apply with_sync_ok|].
    split; [by apply with_sync_same|done].
Qed.

Lemma filter_all {A} (g : A -> bool) (l : list A) :
  length (filter (fun x => g x = false) l) = length l -> filter (fun x => g x = false) l = l.
Proof.
  induction l as [|x l IH]; [done|]. rewrite filter_cons. pose proof (length_filter (fun x => g x = false) l).
  case_decide; simpl; intros Hlen; [f_equal; apply IH; lia|lia].
Qed.

Lemma remove_run url norm f c :
  config_is f c -> config_ok c -> zotsync.normalizeRegistryURL url_error url = Ok norm ->
  exists f' c', zotsync.removeRegistryFromZotSync url_error url f = (Ok tt, f') /\ config_is f' c'
    /\ config_ok c' /\ same_besides c c'
    /\ registries c' = filter (fun r => zotsync.has_url norm r = false) (registries c).
Proof.
  intros Hf Hc Hn. unfold zotsync.removeRegistryFromZotSync.
  rewrite decide_False by (intros ->; by unfold zotsync.normalizeRegistryURL in Hn).
  rewrite (read_config f c Hf).
  destruct (Config_Extensions c ≫= Ext_Sync) as [s|] eqn:Hs; simpl.
  2:{ exists f, c. repeat (split; [auto using same_besides_refl|]). unfold registries, zotsync.extensions_of.
      destruct (Config_Extensions c) as [e|]; simpl in *; [|done]. unfold zotsync.sync_of. by rewrite Hs. }
  assert (Hr : zotsync.sync_of (zotsync.extensions_of c) = s).
  { unfold zotsync.sync_of, zotsync.extensions_of. destruct (Config_Extensions c) as [e|]; [|done].
    simpl in *. by rewrite Hs. }
  rewrite Hn. unfold registries. rewrite Hr. case_decide as Hlen.
  - exists f, c. repeat (split; [auto using same_besides_refl|]). rewrite Hr. by rewrite filter_all.
  - match goal with |- context [zotsync.with_sync c ?x] => set (s' := x) end.
    destruct (write_config f (zotsync.with_sync c s') (with_sync_ok c s' Hc)) as (f' & Hw & Hf').
    eexists f', _. split; [done|]. split; [done|]. split; [by apply with_sync_ok|].
    split; [by apply with_sync_same; rewrite Hr|done].
Qed.

(** A registry is mirrored after it was added, and not after it was removed. *)
Lemma mirrored_add norm c c' :
  registries c' = (if mirrored norm c then registries c else registries c ++ [zotsync.new_registry norm]) ->
  forall u, mirrored u c' = bool_decide (u = norm) || mirrored u c.
Proof.
  intros Hr u. unfold mirrored in *. rewrite Hr. destruct (existsb (zotsync.has_url norm) (registries c)) eqn:Hm.
  - destruct (decide (u = norm)) as [->|Hne]; [by rewrite Hm, bool_decide_true|by rewrite bool_decide_false].
  - rewrite existsb_app. unfold zotsync.has_url at 2. simpl. rewrite !orb_false_r, orb_comm.
    f_equal. by apply bool_decide_ext.
Qed.

Lemma filter_has_url norm l :
  existsb (zotsync.has_url norm) (filter (fun r => zotsync.has_url norm r = false) l) = false.
Proof.
  apply not_true_is_false. intros (r & [Hr _]%list_elem_of_In%list_elem_of_filter & Hn)%existsb_exists. congruence.
Qed.

(** The mirror list of zot.  Adding a registry appends one entry for its
    URL, unless an entry has that URL already; removing it drops exactly the
    entries with that URL; nothing else of the configuration changes.  So an
    added registry is mirrored, a removed one is not, other registries keep
    their place, and removing what was newly added restores the list. *)
Theorem zot_registries url norm f c :
  config_is f c -> config_ok c -> zotsync.normalizeRegistryURL url_error url = Ok norm ->
  exists f1 c1 f2 c2,
    zotsync.addRegistryToZotSync url_error url f = (Ok tt, f1) /\ config_is f1 c1 /\ same_besides c c1
    /\ registries c1 = (if mirrored norm c then registries c
                        else registries c ++ [zotsync.new_registry norm])
    /\ (forall u, mirrored u c1 = bool_decide (u = norm) || mirrored u c)
    /\ zotsync.removeRegistryFromZotSync url_error url f1 = (Ok tt, f2) /\ config_is f2 c2
    /\ same_besides c1 c2 /\ mirrored norm c2 = false
    /\ registries c2 = filter (fun r => zotsync.has_url norm r = false) (registries c).
Proof.
  intros Hf Hc Hn. destruct (add_run url norm f c Hf Hc Hn) as (f1 & c1 & Ha & Hf1 & Hc1 & Hs1 & Hr1).
  destruct (remove_run url norm f1 c1 Hf1 Hc1 Hn) as (f2 & c2 & Hd & Hf2 & Hc2 & Hs2 & Hr2).
  exists f1, c1, f2, c2. pose proof (mirrored_add norm c c1 Hr1) as Hm.
  repeat (split; [done|]). split; [unfold mirrored; rewrite Hr2; apply filter_has_url|].
  rewrite Hr2, Hr1. destruct (mirrored norm c); [done|]. rewrite filter_app, filter_cons, decide_False.
  - by rewrite app_nil_r.
  - unfold zotsync.has_url. simpl. by rewrite bool_decide_true.
Qed.

End registries.

(** ** An executable instance *)

Module DemoZot.

#[export] Instance map_files : OsFiles (gmap string string) := {|
  os_ReadFile p f := match f !! p with Some b => Ok b | None => Err (Plain "no such file") end;
  os_WriteFile p b := fun f => (Ok tt, <[p := b]> f);
|}.

#[export] Instance map_files_spec : OsFilesSpec (gmap string string) id.
Proof.
  split.
  - intros p f. simpl. destruct (f !! p); eauto.
  - intros p b f. eauto.
Qed.

#[export] Instance ZotConfig_eq_dec : EqDecision ZotConfig.
Proof.
  assert (EqDecision TagsFilter) by solve_decision. assert (EqDecision SyncContent) by solve_decision.
  assert (EqDecision SyncRegistryConfig) by solve_decision. assert (EqDecision SyncConfig) by solve_decision.
  assert (EqDecision TrustConfig) by solve_decision. assert (EqDecision SearchConfig) by solve_decision.
  assert (EqDecision Extensions) by solve_decision. assert (EqDecision StorageConfig) by solve_decision.
  assert (EqDecision HTTPConfig) by solve_decision. assert (EqDecision LogConfig) by solve_decision.
  solve_decision.
Defined.

(** A configuration as nested tuples. *)
Definition pack_registry (r : SyncRegistryConfig) :=
  (URLs r, OnDemand r,
   (fun c => (Content_Prefix c, Destination c, (fun t => (Regex t, Semver t)) <$> Tags c)) <$> Content r,
   TLSVerify r, MaxRetries r, RetryDelay r, PollInterval r, OnlySigned r).
Definition pack (c : ZotConfig) :=
  (DistSpecVersion c, RootDirectory (Storage c), Address (HTTP c), Port (HTTP c), Level <$> Log c,
   (fun e => (Search_Enable <$> Ext_Search e,
              (fun s => (Enable s, CredentialsFile s, pack_registry <$> Registries s)) <$> Ext_Sync e,
              (fun t => (Trust_Enable t, Cosign t, Notation_ t)) <$> Ext_Trust e)) <$> Config_Extensions c).
Definition unpack_registry '(u, o, c, tv, m, d, p, s) : SyncRegistryConfig := {|
  URLs := u; OnDemand := o;
  Content := (fun '(p, d, t) => {| Content_Prefix := p; Destination := d;
    Tags := (fun '(r, s) => {| Regex := r; Semver := s |}) <$> t |}) <$> c;
  TLSVerify := tv; MaxRetries := m; RetryDelay := d; PollInterval := p; OnlySigned := s |}.
Definition unpack '(v, root, a, p, l, e) : ZotConfig := {|
  DistSpecVersion := v; Storage := {| RootDirectory := root |};
  HTTP := {| Address := a; Port := p |}; Log := (fun l => {| Level := l |}) <$> l;
  Config_Extensions := (fun '(s, y, t) => {|
    Ext_Search := (fun b => {| Search_Enable := b |}) <$> s;
    Ext_Sync := (fun '(b, cf, rs) => {| Enable := b; CredentialsFile := cf;
                                       Registries := unpack_registry <$> rs |}) <$> y;
    Ext_Trust := (fun '(a, b, c) => {| Trust_Enable := a; Cosign := b; Notation_ := c |}) <$> t |}) <$> e |}.

Lemma unpack_pack_registry r : unpack_registry (pack_registry r) = r.
Proof.
  destruct r as [u o c tv m d p s]. unfold unpack_registry, pack_registry. simpl. f_equal.
  rewrite <- list_fmap_compose. rewrite <- (list_fmap_id c) at 2. apply list_fmap_ext.
  by intros i [? ? [[]|]] _.
Qed.

Lemma unpack_pack c : unpack (pack c) = c.
Proof.
  destruct c as [v [root] [a p] [[l]|] [[s [[en cf rs]|] t]|]]; unfold unpack, pack; simpl; do 2 f_equal;
    try done; destruct s as [[]|], t as [[]|]; simpl; do 3 f_equal;
    rewrite <- list_fmap_compose; rewrite <- (list_fmap_id rs) at 2; apply list_fmap_ext;
    intros; apply unpack_pack_registry.
Qed.

#[export] Instance ZotConfig_countable : Countable ZotConfig := inj_countable' pack unpack unpack_pack.
#[export] Instance zot_codec : JsonCodec ZotConfig := BinaryCodec.codec ZotConfig.
#[export] Instance zot_codec_spec : JsonCodecSpec ZotConfig (fun _ => True) :=
  BinaryCodec.codec_spec ZotConfig.

Definition plain_config : ZotConfig := {|
  DistSpecVersion := "1.1.1"; Storage := {| RootDirectory := "/var/lib/registry" |};
  HTTP := {| Address := "0.0.0.0"; Port := "5000" |}; Log := None; Config_Extensions := None |}.

Definition disk : gmap string string := {[ DefaultZotConfigPath := BinaryCodec.write (encode plain_config) ]}.

Definition no_url (s : string) : error := Plain s.

Lemma disk_config : config_is (files := id) disk plain_config.
Proof. eexists. split; [apply lookup_singleton_eq|]. by destruct (json_roundtrip plain_config I) as (b & [= <-] & Hu). Qed.

Lemma zot_registries_witness :
  exists f1 c1 f2 c2,
    zotsync.addRegistryToZotSync no_url "10.0.0.1:5000" disk = (Ok tt, f1) /\ config_is (files := id) f1 c1
    /\ registries c1 = [zotsync.new_registry "http://10.0.0.1:5000"]
    /\ zotsync.removeRegistryFromZotSync no_url "10.0.0.1:5000" f1 = (Ok tt, f2)
    /\ config_is (files := id) f2 c2 /\ registries c2 = [].
Proof.
  destruct (zot_registries (files := id) no_url (config_ok := fun _ => True) (fun _ _ _ => I)
    "10.0.0.1:5000" "http://10.0.0.1:5000" disk plain_config disk_config I eq_refl)
    as (f1 & c1 & f2 & c2 & H1 & H2 & _ & H3 & _ & H4 & H5 & _ & _ & H6).
  exists f1, c1, f2, c2. repeat split; [exact H1|exact H2|exact H3|exact H4|exact H5|exact H6].
Defined.

End DemoZot.
