(* ===== verification/Zot.v ===== *)
(** * The zot client

    utils/zot/zot.go: uploading a public key to a zot registry and asking it
    whether the signature of a record is trusted.  HTTP is a class: a request
    goes out, a status and a body come back. *)

From S2P Require Import Prelude GoStrings GoUrl Interfaces.
From stdpp Require Import pretty.

Open Scope string_scope.
Open Scope list_scope.
Open Scope go_scope.

(** ** HTTP (net/http) *)

(** The Authorization header, before its encoding. *)
Inductive Authorization := Basic (username password : string) | Bearer (token : string).

Record Request := {
  Req_Method : string; Req_URL : string; Req_ContentType : string;
  Req_Authorization : option Authorization; Req_Body : string }.

(** A response; reading its body can fail. *)
Record Response := { StatusCode : Z; Resp_Body : result string }.

Class HttpClient (N : Type) := { http_Do : Request -> M N (result Response) }.

Definition StatusOK : Z := 200.
Definition StatusCreated : Z := 201.

(** ** Data *)

Record VerifyConfig := {
  RegistryAddress : string; RepositoryName : string; Username : string; Password : string;
  AccessToken : string; Insecure : bool }.

Record VerificationResult := { IsSigned : bool; IsTrusted : bool; Author : string; Tool : string }.

(** The GraphQL query and the parts of its answer that are read. *)
Record GraphqlQuery := { Query : string }.
Record SignatureInfo := { Info_Tool : string; Info_IsTrusted : bool; Info_Author : string }.
Record GraphqlResponse := {
  Image_Digest : string; Image_IsSigned : bool; Image_Tag : string;
  Image_SignatureInfo : list SignatureInfo }.

Module zot.
Section zot.
Context {N : Type} `{!HttpClient N} `{!JsonCodec GraphqlQuery} `{!JsonCodec GraphqlResponse}.
(** the error [url.Parse] reports for a text that does not parse *)
Context (url_error : string -> error).

Definition buildRegistryURL (config : VerifyConfig) : string :=
  let registryURL := RegistryAddress config in
  if negb (HasPrefix registryURL "http://") && negb (HasPrefix registryURL "https://") then
    if Insecure config then "http://" +:+ registryURL else "https://" +:+ registryURL
  else registryURL.

Definition addAuthentication (config : VerifyConfig) : option Authorization :=
  if decide (Username config <> "" /\ Password config <> "") then
    Some (Basic (Username config) (Password config))
  else if decide (AccessToken config <> "") then Some (Bearer (AccessToken config))
  else None.

(** [http.NewRequestWithContext] fails on a URL that does not parse. *)
Definition NewRequest (url contentType : string) (config : VerifyConfig) (body : string)
  : result Request :=
  match url_Parse url with
  | None => Err (url_error url)
  | Some _ => Ok {| Req_Method := "POST"; Req_URL := url; Req_ContentType := contentType;
                    Req_Authorization := addAuthentication config; Req_Body := body |}
  end.

Definition UploadPublicKey (config : VerifyConfig) (publicKey : string) : M N (result unit) :=
  if decide (publicKey = "") then ret (Err (Plain "public key is required"))
  else
    let registryURL := buildRegistryURL config in
    let uploadEndpoint := registryURL +:+ "/v2/_zot/ext/cosign" in
    match NewRequest uploadEndpoint "application/octet-stream" config publicKey with
    | Err err => ret (Err (Wrap "failed to create upload request: " err))
    | Ok req =>
        let? resp := http_Do req else err => ret (Err (Wrap "failed to upload public key: " err)) in
        if decide (StatusCode resp <> StatusOK /\ StatusCode resp <> StatusCreated) then
          let body := match Resp_Body resp with Ok body => body | Err _ => "" end in
          ret (Err (Plain ("failed to upload public key, status: " +:+ pretty (StatusCode resp)
                           +:+ ", response: " +:+ body)))
        else ret (Ok tt)
    end.

Definition dq : string := String (ascii_of_nat 34) "".

Definition verification_query (repository recordCID : string) : string :=
"{
		Image(image: " +:+ dq +:+ repository +:+ ":" +:+ recordCID +:+ dq +:+ ") {
			Digest
			IsSigned
			Tag
			SignatureInfo {
				Tool
				IsTrusted
				Author
			}
		}
	}".

Definition Verify (config : VerifyConfig) (recordCID : string) : M N (result VerificationResult) :=
  let registryURL := buildRegistryURL config in
  let searchEndpoint := registryURL +:+ "/v2/_zot/ext/search" in
  match json_Marshal {| Query := verification_query (RepositoryName config) recordCID |} with
  | Err err => ret (Err (Wrap "failed to marshal GraphQL query: " err))
  | Ok jsonData =>
      match NewRequest searchEndpoint "application/json" config jsonData with
      | Err err => ret (Err (Wrap "failed to create verification request: " err))
      | Ok req =>
          let? resp := http_Do req else err => ret (Err (Wrap "failed to query zot verification: " err)) in
          match Resp_Body resp with
          | Err err => ret (Err (Wrap "failed to read verification response: " err))
          | Ok body =>
              if decide (StatusCode resp <> StatusOK) then
                ret (Err (Plain ("verification query returned status " +:+ pretty (StatusCode resp)
                                 +:+ ": " +:+ body)))
              else match json_Unmarshal body with
              | Err err => ret (Err (Wrap "failed to decode verification response: " err))
              | Ok graphqlResp =>
                  ret (Ok match Image_SignatureInfo graphqlResp with
                  | [] => {| IsSigned := Image_IsSigned graphqlResp; IsTrusted := false;
                             Author := ""; Tool := "" |}
                  | sigInfo :: _ =>
                      {| IsSigned := Image_IsSigned graphqlResp; IsTrusted := Info_IsTrusted sigInfo;
                         Author := Info_Author sigInfo; Tool := Info_Tool sigInfo |}
                  end)
              end
          end
      end
  end.

End zot.
End zot.

(** ** What goes out and what comes back *)

Section requests.
Context {N : Type} `{!HttpClient N} `{!JsonCodec GraphqlQuery} `{!JsonCodec GraphqlResponse}.
Context (url_error : string -> error).

(** A key is sent as it is, with the credentials of the configuration, and counts
    as uploaded exactly when the registry answers 200 or 201. *)
Lemma UploadPublicKey_run config key (n : N) :
  key <> "" -> is_Some (url_Parse (zot.buildRegistryURL config +:+ "/v2/_zot/ext/cosign")) ->
  exists req, zot.NewRequest url_error (zot.buildRegistryURL config +:+ "/v2/_zot/ext/cosign")
      "application/octet-stream" config key = Ok req
    /\ Req_Body req = key
    /\ (zot.UploadPublicKey url_error config key n).2 = (http_Do req n).2
    /\ is_ok (zot.UploadPublicKey url_error config key n).1
       = match (http_Do req n).1 with
         | Ok resp => bool_decide (StatusCode resp = StatusOK \/ StatusCode resp = StatusCreated)
         | Err _ => false
         end.
Proof.
  intros Hk [u Hu]. unfold zot.NewRequest, zot.UploadPublicKey. rewrite decide_False by done.
  unfold zot.NewRequest. rewrite Hu. eexists. split; [done|]. split; [done|].
  unfold try_bind, bind. destruct (http_Do _ n) as [[resp|e] n']; simpl; [|done].
  destruct (decide (StatusCode resp <> StatusOK /\ StatusCode resp <> StatusCreated)); simpl.
  - split; [done|]. rewrite bool_decide_false; [done|tauto].
  - split; [done|]. rewrite bool_decide_true; [done|].
    destruct (decide (StatusCode resp = StatusOK)); [by left|right].
    destruct (decide (StatusCode resp = StatusCreated)); [done|tauto].
Qed.

(** A record is trusted exactly when the registry answers 200 with an image whose
    first signature is trusted. *)
Lemma Verify_trusted config cid (n n' : N) r :
  zot.Verify url_error config cid n = (Ok r, n') ->
  exists req resp body g, http_Do req n = (Ok resp, n') /\ StatusCode resp = StatusOK
    /\ Resp_Body resp = Ok body /\ json_Unmarshal body = Ok g
    /\ IsSigned r = Image_IsSigned g
    /\ IsTrusted r = match Image_SignatureInfo g with [] => false | i :: _ => Info_IsTrusted i end.
Proof.
  unfold zot.Verify. intros Hv. destruct (json_Marshal _) as [js|e]; [|done].
  destruct (zot.NewRequest _ _ _ _ _) as [req|e]; [|done].
  unfold try_bind, bind in Hv. destruct (http_Do req n) as [[resp|e] n1] eqn:Hd; [|done].
  destruct (Resp_Body resp) as [body|e] eqn:Hb; [|done].
  destruct (decide (StatusCode resp <> StatusOK)) as [|Hst]; [done|].
  destruct (json_Unmarshal body) as [g|e] eqn:Hj; [|done]. injection Hv as <- <-.
  exists req, resp, body, g. repeat (split; [done|]).
  split; [destruct (decide (StatusCode resp = StatusOK)); tauto|].
  repeat (split; [done|]). by destruct (Image_SignatureInfo g).
Qed.

End requests.
