(* ===== verification/CoreRecord.v ===== *)
(** * Records: canonical encoding, content identifiers, references

    api/core/v1: oasf.go (canonical JSON of a record and version detection when
    it is read back), cid.go (digests and CIDs) and record.go (the CID of a
    record).  The JSON package's view of the generated OASF messages, SHA-256,
    multihashes, CIDs and OCI digests are outside the repository. *)

From stdpp Require Import pretty.
From S2P Require Import Prelude GoStrings Interfaces Adapters.

Open Scope string_scope.
Open Scope list_scope.

(** ** References and metadata (core/v1/record.proto) *)

Record RecordRef := { ref_Cid : string }.

Record RecordMeta := {
  Meta_Cid : string; Meta_Annotations : gmap string string;
  Meta_SchemaVersion : string; Meta_CreatedAt : string }.

#[export] Instance RecordRef_eq_dec : EqDecision RecordRef.
Proof. solve_decision. Defined.

#[export] Instance RecordMeta_eq_dec : EqDecision RecordMeta.
Proof. solve_decision. Defined.

(** [ref.GetCid()], on a pointer that can be nil. *)
Definition ref_GetCid (ref : option RecordRef) : string := on ref "" ref_Cid.

(** ** Libraries *)

(** encoding/json: a decoded document ([interface{}]), the one-field struct of
    the version detector, and the three message types. *)
Class OasfJson := {
  Any : Type;
  any_Unmarshal : string -> result Any;
  any_Marshal : Any -> result string;
  detector_Unmarshal : string -> result string;
  oasf_v1 :: JsonCodec objectsv1_Agent;
  oasf_v2 : JsonCodec objectsv2_AgentRecord;
  oasf_v3 : JsonCodec objectsv3_Record;
}.

(** Documents are equivalent when they differ in white space and in the order
    of object keys; decoding depends on a document up to equivalence, and
    reading a document into [interface{}] and writing it again gives an
    equivalent one. *)
Class OasfJsonSpec `{OasfJson} (equiv_doc : string -> string -> Prop)
    (json_ok : forall skill, pb_Agent skill -> Prop) : Prop := {
  any_normal b v : any_Unmarshal b = Ok v ->
    exists b', any_Marshal v = Ok b' /\ equiv_doc b b' /\ b' <> "";
  detector_equiv b b' : equiv_doc b b' -> detector_Unmarshal b = detector_Unmarshal b';
  v1_equiv b b' : equiv_doc b b' -> oasf_v1.(json_Unmarshal) b = oasf_v1.(json_Unmarshal) b';
  v2_equiv b b' : equiv_doc b b' -> oasf_v2.(json_Unmarshal) b = oasf_v2.(json_Unmarshal) b';
  v3_equiv b b' : equiv_doc b b' -> oasf_v3.(json_Unmarshal) b = oasf_v3.(json_Unmarshal) b';
  (** a message is written as a document with its schema version, and read back *)
  v1_doc a : json_ok _ a -> exists b v, oasf_v1.(json_Marshal) a = Ok b /\ any_Unmarshal b = Ok v
    /\ detector_Unmarshal b = Ok (ag_SchemaVersion a) /\ oasf_v1.(json_Unmarshal) b = Ok a;
  v2_doc a : json_ok _ a -> exists b v, oasf_v2.(json_Marshal) a = Ok b /\ any_Unmarshal b = Ok v
    /\ detector_Unmarshal b = Ok (ag_SchemaVersion a) /\ oasf_v2.(json_Unmarshal) b = Ok a;
  v3_doc a : json_ok _ a -> exists b v, oasf_v3.(json_Marshal) a = Ok b /\ any_Unmarshal b = Ok v
    /\ detector_Unmarshal b = Ok (ag_SchemaVersion a) /\ oasf_v3.(json_Unmarshal) b = Ok a;
}.

(** go-cid, go-multihash, go-digest, crypto/sha256, encoding/hex. *)
Class HashLib `{CidLib} := {
  Digest : Type;
  Algorithm : Type;
  SHA256 : Algorithm;
  Algorithm_eqb : Algorithm -> Algorithm -> bool;
  Algorithm_String : Algorithm -> string;
  dg_Algorithm : Digest -> Algorithm;
  dg_Hex : Digest -> string;
  NewDigestFromBytes : Algorithm -> string -> Digest;
  hex_DecodeString : string -> result string;
  mh_Encode : string -> Z -> result string;
  mh_Decode : string -> result (Z * string);
  NewCidV1 : Z -> string -> Cid;
  cid_String : Cid -> string;
  cid_Hash : Cid -> string;
  Sum256 : string -> string;
}.

(** [multihash.SHA2_256]. *)
Definition SHA2_256 : Z := 18.

Class HashLibSpec `{HashLib} : Prop := {
  Algorithm_eqb_refl a : Algorithm_eqb a a = true;
  new_digest_algorithm a b : dg_Algorithm (NewDigestFromBytes a b) = a;
  new_digest_hex a b : hex_DecodeString (dg_Hex (NewDigestFromBytes a b)) = Ok b;
  mh_encode_decode b : String.length b = 32%nat ->
    exists m, mh_Encode b SHA2_256 = Ok m /\ mh_Decode m = Ok (SHA2_256, b);
  cid_hash_new codec m : cid_Hash (NewCidV1 codec m) = m;
  cid_decode_string m codec d : mh_Decode m = Ok d ->
    cid_Decode (cid_String (NewCidV1 codec m)) = Ok (NewCidV1 codec m)
    /\ cid_String (NewCidV1 codec m) <> "";
  Sum256_length b : String.length (Sum256 b) = 32%nat;
}.

Section cid.
Context `{HashLib}.

(** ** cid.go *)

Definition ConvertDigestToCID (digest : Digest) : result string :=
  if negb (Algorithm_eqb (dg_Algorithm digest) SHA256) then
    Err (Plain ("unsupported digest algorithm " +:+ Algorithm_String (dg_Algorithm digest)
                +:+ ", only SHA256 is supported"))
  else
    let hashHex := dg_Hex digest in
    match hex_DecodeString hashHex with
    | Err e => Err (Wrap ("failed to decode digest hash from hex " +:+ hashHex +:+ ": ") e)
    | Ok hashBytes =>
        match mh_Encode hashBytes SHA2_256 with
        | Err e => Err (Wrap "failed to create multihash: " e)
        | Ok mhash => Ok (cid_String (NewCidV1 1 mhash))
        end
    end.

Definition ConvertCIDToDigest (cidString : string) : result Digest :=
  match cid_Decode cidString with
  | Err e => Err (Wrap ("failed to decode CID " +:+ cidString +:+ ": ") e)
  | Ok c =>
      match mh_Decode (cid_Hash c) with
      | Err e => Err (Wrap ("failed to decode multihash from CID " +:+ cidString +:+ ": ") e)
      | Ok (code, digest) =>
          if decide (code <> SHA2_256) then
            Err (Plain ("unsupported hash type " +:+ pretty code +:+ " in CID " +:+ cidString
                        +:+ ", only SHA2-256 is supported"))
          else Ok (NewDigestFromBytes SHA256 digest)
      end
  end.

Definition CalculateDigest (data : string) : result Digest :=
  if (String.length data =? 0)%nat then Err (Plain "cannot calculate digest of empty data")
  else Ok (NewDigestFromBytes SHA256 (Sum256 data)).

Definition IsValidCID (cidString : string) : bool := is_ok (cid_Decode cidString).

End cid.

Section oasf.
Context `{OasfJson}.

(** ** oasf.go *)

Definition detectOASFVersion (data : string) : result string :=
  match detector_Unmarshal data with
  | Err e => Err (Wrap "failed to parse JSON for version detection: " e)
  | Ok v => if decide (v = "") then Err (Plain "schema version is not set") else Ok v
  end.

Definition loadOASFFromBytes (data : string) : result CoreRecord :=
  match detectOASFVersion data with
  | Err e => Err e
  | Ok version =>
      if decide (version = "v0.3.1") then
        match oasf_v1.(json_Unmarshal) data with
        | Err e => Err (Wrap "failed to unmarshal v0.3.1 Agent: " e)
        | Ok agent => Ok {| GetData := Some (Record_V1 (Some agent)) |}
        end
      else if decide (version = "v0.4.0") then
        match oasf_v2.(json_Unmarshal) data with
        | Err e => Err (Wrap "failed to unmarshal v0.4.0 AgentRecord: " e)
        | Ok agentRecord => Ok {| GetData := Some (Record_V2 (Some agentRecord)) |}
        end
      else if decide (version = "v0.5.0") then
        match oasf_v3.(json_Unmarshal) data with
        | Err e => Err (Wrap "failed to unmarshal v0.5.0 Record: " e)
        | Ok record => Ok {| GetData := Some (Record_V3 (Some record)) |}
        end
      else Err (Plain ("unsupported OASF version: " +:+ version
                       +:+ " (supported: v0.3.1, v0.4.0, v0.5.0)"))
  end.

(** [io.ReadAll] on a reader gives its bytes or an error. *)
Definition LoadOASFFromReader (ReadAll : result string) : result CoreRecord :=
  match ReadAll with
  | Err e => Err (Wrap "failed to read data: " e)
  | Ok data => loadOASFFromBytes data
  end.

(** [json.Marshal] of a message pointer: nil is written [null]. *)
Definition json_MarshalPtr {A} (c : JsonCodec A) (p : option A) : result string :=
  match p with None => Ok "null" | Some a => c.(json_Marshal) a end.

(** The argument is an interface: [None] is the nil interface, which a nil
    pointer to a message is not. *)
Definition marshalOASFCanonical {A} (c : JsonCodec A) (oasfObject : option (option A))
  : result string :=
  match oasfObject with
  | None => Ok ""
  | Some p =>
      match json_MarshalPtr c p with
      | Err e => Err (Wrap "failed to marshal OASF object to JSON: " e)
      | Ok jsonBytes =>
          match any_Unmarshal jsonBytes with
          | Err e => Err (Wrap "failed to normalize JSON for canonical ordering: " e)
          | Ok normalized =>
              match any_Marshal normalized with
              | Err e => Err (Wrap "failed to marshal normalized JSON with sorted keys: " e)
              | Ok canonicalBytes => Ok canonicalBytes
              end
          end
      end
  end.

Definition MarshalOASF (r : option CoreRecord) : result string :=
  match r with
  | None => Ok ""
  | Some r =>
      match GetData r with
      | Some (Record_V1 d) => marshalOASFCanonical oasf_v1 (Some d)
      | Some (Record_V2 d) => marshalOASFCanonical oasf_v2 (Some d)
      | Some (Record_V3 d) => marshalOASFCanonical oasf_v3 (Some d)
      | None => Err (Plain "unsupported record type")
      end
  end.

Definition UnmarshalOASF (data : string) : result CoreRecord := loadOASFFromBytes data.

(** ** record.go *)

Definition GetCid `{HashLib} (r : option CoreRecord) : string :=
  match r with
  | None => ""
  | Some _ =>
      match MarshalOASF r with
      | Err _ => ""
      | Ok canonicalBytes =>
          match CalculateDigest canonicalBytes with
          | Err _ => ""
          | Ok digest =>
              match ConvertDigestToCID digest with Err _ => "" | Ok cid => cid end
          end
      end
  end.

(** The panic is the [Err] result. *)
Definition MustGetCid `{HashLib} (r : option CoreRecord) : result string :=
  if decide (GetCid r = "") then Err (Plain "failed to calculate CID") else Ok (GetCid r).

End oasf.

(** ** The record store interface (server/types/store.go) *)

Class StoreAPI (T : Type) := {
  store_Push : option CoreRecord -> M T (result RecordRef);
  store_Pull : option RecordRef -> M T (result CoreRecord);
  store_Lookup : option RecordRef -> M T (result RecordMeta);
  store_Delete : option RecordRef -> M T (result unit);
}.

(** ** Digests and CIDs *)

Section cid_proofs.
Context `{HashLibSpec}.

Lemma digest_cid_digest b :
  String.length b = 32%nat ->
  exists c, ConvertDigestToCID (NewDigestFromBytes SHA256 b) = Ok c /\ c <> ""
    /\ IsValidCID c = true
    /\ ConvertCIDToDigest c = Ok (NewDigestFromBytes SHA256 b).
Proof.
  intros Hb. destruct (mh_encode_decode b Hb) as (m & Hm & Hd).
  destruct (cid_decode_string m 1 _ Hd) as [Hc Hne].
  exists (cid_String (NewCidV1 1 m)).
  unfold ConvertDigestToCID, ConvertCIDToDigest, IsValidCID.
  rewrite new_digest_algorithm, Algorithm_eqb_refl, new_digest_hex, Hm, Hc, cid_hash_new, Hd.
  done.
Qed.

Lemma new_digest_inj a b b' :
  NewDigestFromBytes a b = NewDigestFromBytes a b' -> b = b'.
Proof.
  intros Heq. apply (f_equal (fun d => hex_DecodeString (dg_Hex d))) in Heq.
  rewrite !new_digest_hex in Heq. by simplify_eq.
Qed.

Lemma CalculateDigest_inj b b' d :
  CalculateDigest b = Ok d -> CalculateDigest b' = Ok d -> Sum256 b = Sum256 b'.
Proof.
  unfold CalculateDigest. repeat case_match; try done. intros [= <-] [= Heq].
  by apply new_digest_inj in Heq.
Qed.

End cid_proofs.

(** ** Reading a record back *)

(** The schema version a wrapper stands for, and the one its message states. *)
Definition wrapper_version (d : RecordOneof) : string :=
  match d with
  | Record_V1 _ => "v0.3.1" | Record_V2 _ => "v0.4.0" | Record_V3 _ => "v0.5.0"
  end.

Definition stated_version (d : RecordOneof) : string :=
  match d with
  | Record_V1 a => on a "" ag_SchemaVersion
  | Record_V2 a => on a "" ag_SchemaVersion
  | Record_V3 a => on a "" ag_SchemaVersion
  end.

Section oasf_proofs.
Context `{OJ : OasfJson} {equiv_doc : string -> string -> Prop}
  {json_ok : forall skill, pb_Agent skill -> Prop}
  `{!OasfJsonSpec equiv_doc json_ok}.

(** The wrapped message is not nil and survives encoding. *)
Definition data_ok (d : RecordOneof) : Prop :=
  match d with
  | Record_V1 (Some a) => json_ok _ a
  | Record_V2 (Some a) => json_ok _ a
  | Record_V3 (Some a) => json_ok _ a
  | _ => False
  end.

(** What the canonical form of a message decodes to. *)
Definition decodes_to (d : RecordOneof) (b : string) : Prop :=
  match d with
  | Record_V1 a => oasf_v1.(json_Unmarshal) b = from_option Ok (Err (Plain "")) a
  | Record_V2 a => oasf_v2.(json_Unmarshal) b = from_option Ok (Err (Plain "")) a
  | Record_V3 a => oasf_v3.(json_Unmarshal) b = from_option Ok (Err (Plain "")) a
  end.

Lemma MarshalOASF_ok d :
  data_ok d ->
  exists b, MarshalOASF (Some {| GetData := Some d |}) = Ok b /\ b <> ""
    /\ detector_Unmarshal b = Ok (stated_version d) /\ decodes_to d b.
Proof.
  destruct d as [[a|]|[a|]|[a|]]; simpl; try done; intros Ha;
    [destruct (v1_doc a Ha) as (b & v & Hm & Hv & Hd & Hu)
    |destruct (v2_doc a Ha) as (b & v & Hm & Hv & Hd & Hu)
    |destruct (v3_doc a Ha) as (b & v & Hm & Hv & Hd & Hu)];
    destruct (any_normal b v Hv) as (b' & Hb' & He & Hne);
    exists b'; unfold marshalOASFCanonical; simpl; rewrite Hm, Hv, Hb';
    rewrite <- (detector_equiv b b' He), Hd;
    rewrite <- ?(v1_equiv b b' He), <- ?(v2_equiv b b' He), <- ?(v3_equiv b b' He); done.
Qed.

Lemma Unmarshal_Marshal d :
  data_ok d -> stated_version d = wrapper_version d ->
  exists b, MarshalOASF (Some {| GetData := Some d |}) = Ok b
    /\ UnmarshalOASF b = Ok {| GetData := Some d |}.
Proof.
  intros Hd Heq. destruct (MarshalOASF_ok d Hd) as (b & Hm & _ & Hv & Hu).
  exists b. split; [done|].
  unfold UnmarshalOASF, loadOASFFromBytes, detectOASFVersion. rewrite Hv, Heq.
  destruct d as [[a|]|[a|]|[a|]]; simpl in *; try done; by rewrite Hu.
Qed.


Lemma GetCid_ok `{HashLibSpec} r b :
  MarshalOASF r = Ok b ->
  (GetCid r = "" <-> b = "") /\
  (b <> "" -> IsValidCID (GetCid r) = true
              /\ ConvertCIDToDigest (GetCid r) = Ok (NewDigestFromBytes SHA256 (Sum256 b))
              /\ CalculateDigest b = Ok (NewDigestFromBytes SHA256 (Sum256 b))).
Proof.
  intros Hb. unfold GetCid. destruct r as [r|]; [|simpl in Hb; naive_solver].
  rewrite Hb. unfold CalculateDigest. destruct b as [|x b]; [naive_solver|].
  simpl (_ =? 0)%nat.
  destruct (digest_cid_digest (Sum256 (String x b)) (Sum256_length _)) as (c & -> & Hne & Hv & Hd).
  naive_solver.
Qed.

(** Content addressing.  The CID of a record is empty exactly when its
    canonical bytes are; otherwise it is a valid CID whose digest is the SHA-256
    digest of the canonical bytes, so two records have the same CID only if
    their canonical bytes have the same hash. *)
Theorem GetCid_content_address `{HashLibSpec} r r' b b' :
  MarshalOASF r = Ok b -> MarshalOASF r' = Ok b' ->
  (GetCid r = "" <-> b = "") /\
  (b <> "" -> IsValidCID (GetCid r) = true
              /\ ConvertCIDToDigest (GetCid r) = CalculateDigest b) /\
  (GetCid r = GetCid r' -> b <> "" -> Sum256 b = Sum256 b').
Proof.
  intros Hb Hb'. destruct (GetCid_ok _ _ Hb) as [He Hok].
  destruct (GetCid_ok _ _ Hb') as [He' Hok'].
  split; [done|]. split.
  { intros Hne. destruct (Hok Hne) as (? & -> & ->). done. }
  intros Heq Hne. destruct (Hok Hne) as (_ & Hd & _).
  assert (b' <> "") as Hne' by (intros Hz; apply Hne, He; rewrite Heq; by apply He').
  destruct (Hok' Hne') as (_ & Hd' & _). rewrite Heq, Hd' in Hd. injection Hd as Hd.
  by eapply eq_sym, new_digest_inj.
Qed.

End oasf_proofs.

(** Digests and CIDs are the same names.  Every 32-byte SHA-256 digest has a
    CID, the CID converts back to the digest, and different digests have
    different CIDs. *)
Theorem digest_cid_bijection `{HashLibSpec} b b' :
  String.length b = 32%nat -> String.length b' = 32%nat ->
  exists c c', ConvertDigestToCID (NewDigestFromBytes SHA256 b) = Ok c
    /\ ConvertDigestToCID (NewDigestFromBytes SHA256 b') = Ok c'
    /\ ConvertCIDToDigest c = Ok (NewDigestFromBytes SHA256 b)
    /\ (c = c' -> b = b').
Proof.
  intros Hb Hb'. destruct (digest_cid_digest b Hb) as (c & Hc & _ & _ & Hd).
  destruct (digest_cid_digest b' Hb') as (c' & Hc' & _ & _ & Hd').
  exists c, c'. repeat split; try done. intros ->. rewrite Hd in Hd'. simplify_eq.
  by eapply new_digest_inj.
Qed.

(** ** An executable instance

    Hashes pad or cut their input to 32 bytes, hexadecimal and multihash are
    the bytes behind a marker, and a message is written as its schema version. *)

Module DemoCore.

Definition pad32 (b : string) : string :=
  String.substring 0 32 (b +:+ "00000000000000000000000000000000").

#[export] Instance cids : CidLib := {|
  Cid := string;
  cid_Decode s := match strip_prefix "b" s with Some c => Ok c | None => Err (Plain "invalid cid") end;
|}.

#[export] Instance hashes : HashLib := {|
  Digest := string * string; Algorithm := string; SHA256 := "sha256";
  Algorithm_eqb a b := bool_decide (a = b); Algorithm_String a := a;
  dg_Algorithm := fst; dg_Hex := snd; NewDigestFromBytes a b := (a, b);
  hex_DecodeString s := Ok s;
  mh_Encode b code := if decide (code = SHA2_256) then Ok ("m" +:+ b) else Err (Plain "unknown code");
  mh_Decode m := match strip_prefix "m" m with
                 | Some b => Ok (SHA2_256, b) | None => Err (Plain "bad multihash") end;
  NewCidV1 _ m := m; cid_String c := "b" +:+ c; cid_Hash c := c;
  Sum256 := pad32;
|}.

#[export] Instance hashes_spec : HashLibSpec.
Proof.
  split; try done.
  - intros a. by apply bool_decide_eq_true.
  - intros b _. by exists ("m" +:+ b).
  - intros b. simpl. unfold pad32.
    assert (Hlen : forall s : string, (32 <= String.length s)%nat ->
      String.length (String.substring 0 32 s) = 32%nat).
    { intros s. generalize 32%nat. intros n. revert s. induction n as [|n IH]; intros [|x s] Hs;
        simpl in *; try done; try lia. f_equal. apply IH. lia. }
    apply Hlen. rewrite length_append. simpl. lia.
Qed.

(** An agent with a schema version and nothing else. *)
Definition bare {skill} (v : string) : pb_Agent skill := {|
  ag_Annotations := ∅; ag_SchemaVersion := v; ag_Name := ""; ag_Version := "";
  ag_Description := ""; ag_Authors := []; ag_CreatedAt := ""; ag_Skills := [];
  ag_Locators := []; ag_Extensions := []; ag_Signature := None; ag_PreviousCid := "" |}.

Definition bare_codec {skill} : JsonCodec (pb_Agent skill) := {|
  json_Marshal a := Ok ("v" +:+ ag_SchemaVersion a);
  json_Unmarshal s := match strip_prefix "v" s with
                      | Some v => Ok (bare v) | None => Err (Plain "bad document") end;
|}.

#[export] Instance json : OasfJson := {|
  Any := string;
  any_Unmarshal s := if decide (s = "") then Err (Plain "unexpected end") else Ok s;
  any_Marshal s := Ok (if decide (s = "") then "null" else s);
  detector_Unmarshal s := match strip_prefix "v" s with
                          | Some v => Ok v | None => Err (Plain "bad document") end;
  oasf_v1 := bare_codec; oasf_v2 := bare_codec; oasf_v3 := bare_codec;
|}.

Definition json_ok (skill : Set) (a : pb_Agent skill) : Prop := a = bare (ag_SchemaVersion a).

#[export] Instance json_spec : OasfJsonSpec (fun b b' => b = b') json_ok.
Proof.
  split; simpl; try by intros ?? ->.
  { intros b v. case_decide; [done|]. intros [= <-]. rewrite decide_False by done. by exists b. }
  all: intros a Ha; exists ("v" +:+ ag_SchemaVersion a), ("v" +:+ ag_SchemaVersion a);
    repeat split; f_equal; symmetry; apply Ha.
Qed.

Definition demo_data : RecordOneof := Record_V3 (Some (bare "v0.5.0")).


Lemma GetCid_content_address_witness :
  GetCid (Some {| GetData := Some demo_data |}) <> "" /\
  IsValidCID (GetCid (Some {| GetData := Some demo_data |})) = true.
Proof.
  destruct (GetCid_content_address (Some {| GetData := Some demo_data |}) None "vv0.5.0" "")
    as (He & Hv & _); [reflexivity|reflexivity|].
  split; [intros Hz; apply He in Hz; discriminate|]. apply Hv. discriminate.
Defined.

Lemma digest_cid_bijection_witness :
  exists c c', ConvertDigestToCID (NewDigestFromBytes SHA256 (pad32 "a")) = Ok c
    /\ ConvertDigestToCID (NewDigestFromBytes SHA256 (pad32 "b")) = Ok c'
    /\ ConvertCIDToDigest c = Ok (NewDigestFromBytes SHA256 (pad32 "a"))
    /\ (c = c' -> pad32 "a" = pad32 "b").
Proof. apply (digest_cid_bijection (pad32 "a") (pad32 "b")); reflexivity. Defined.

End DemoCore.
