(* ===== verification/Validators.v ===== *)
(** * Label namespaces and DHT record validators

    server/routing/validators: the four label namespaces (constants.go), and
    the validators the DHT runs on label records (validators.go).  The theorems
    characterise the accepted keys by a grammar and relate the validators to
    the key helpers of the package. *)

From stdpp Require Import pretty.
From S2P Require Import Prelude GoStrings Interfaces.

Open Scope string_scope.
Open Scope list_scope.

(** ** constants.go *)

Definition NamespaceType : Type := string.
Definition NamespaceSkills : NamespaceType := "skills".
Definition NamespaceDomains : NamespaceType := "domains".
Definition NamespaceFeatures : NamespaceType := "features".
Definition NamespaceLocators : NamespaceType := "locators".

Definition Prefix (n : NamespaceType) : string := "/" +:+ n +:+ "/".

Definition IsValid (n : NamespaceType) : bool :=
  bool_decide (n ∈ [NamespaceSkills; NamespaceDomains; NamespaceFeatures; NamespaceLocators]).

Definition ParseNamespace (s : string) : NamespaceType * bool :=
  if IsValid s then (s, true) else ("", false).

Definition AllNamespaces : list NamespaceType :=
  [NamespaceSkills; NamespaceDomains; NamespaceFeatures; NamespaceLocators].

Definition IsValidNamespaceKey (key : string) : bool :=
  existsb (fun ns => HasPrefix key (Prefix ns)) AllNamespaces.

Fixpoint first_namespace (l : list NamespaceType) (key : string) : NamespaceType * bool :=
  match l with
  | [] => ("", false)
  | ns :: l => if HasPrefix key (Prefix ns) then (ns, true) else first_namespace l key
  end.

Definition GetNamespaceFromKey (key : string) : NamespaceType * bool :=
  first_namespace AllNamespaces key.

Definition MinLabelKeyParts : nat := 5.
Definition DomainSchemaPrefix : string := "schema.oasf.agntcy.org/domains/".
Definition FeaturesSchemaPrefix : string := "schema.oasf.agntcy.org/features/".

(** ** validators.go *)

(** [parts[i]], for an index the length check has shown to be in range. *)
Definition part (parts : list string) (i : nat) : string := default "" (parts !! i).

(** [parts[2 : len(parts)-2]]. *)
Definition middle_parts (parts : list string) : list string :=
  take (length parts - 4) (drop 2 parts).

Section validators.
Context `{CidLib}.

Definition validateKeyFormat (key expectedNamespace : string) : result (list string) :=
  let parts := Split "/" key in
  if (length parts <? MinLabelKeyParts)%nat then
    Err (Plain "invalid key format: expected /<namespace>/<specific_path>/<cid>/<peer_id>")
  else if decide (part parts 1 <> expectedNamespace) then
    Err (Plain ("invalid namespace: expected " +:+ expectedNamespace +:+ ", got " +:+ part parts 1))
  else
    let peerID := part parts (length parts - 1) in
    if decide (peerID = "") then Err (Plain "missing PeerID in key")
    else if is_ok (cid_Decode peerID) then
      Err (Plain "invalid key format: expected /<namespace>/<specific_path>/<cid>/<peer_id>")
    else
      let cidStr := part parts (length parts - 2) in
      if decide (cidStr = "") then Err (Plain "missing CID in key")
      else match cid_Decode cidStr with
           | Err e => Err (Plain ("invalid CID format: " +:+ err_string e))
           | Ok _ => Ok parts
           end.

Definition validateValue (value : string) : result unit :=
  if (0 <? String.length value)%nat then
    match cid_Decode value with
    | Err e => Err (Plain ("invalid CID in value: " +:+ err_string e))
    | Ok _ => Ok tt
    end
  else Ok tt.

(** The loop of [selectFirstValid]: the first index whose value validates. *)
Fixpoint select_from (i : Z) (key : string) (values : list string)
    (validateFunc : string -> string -> result unit) : Z * option error :=
  match values with
  | [] => (-1, Some (Plain "no valid values found"))%Z
  | value :: values =>
      match validateFunc key value with
      | Ok _ => (i, None)
      | Err _ => select_from (i + 1) key values validateFunc
      end
  end.

Definition selectFirstValid (key : string) (values : list string)
    (validateFunc : string -> string -> result unit) : Z * option error :=
  match values with
  | [] => (-1, Some (Plain "no values to select from"))%Z
  | _ => select_from 0 key values validateFunc
  end.

(** The loop that rejects an empty path component, with its position. *)
Fixpoint check_components (what : string) (i : nat) (l : list string) : result unit :=
  match l with
  | [] => Ok tt
  | x :: l =>
      if decide (x = "") then
        Err (Plain (what +:+ " path component cannot be empty at position " +:+ pretty (i + 1)))
      else check_components what (i + 1) l
  end.

Definition validateSkillsSpecific (parts : list string) : result unit :=
  if (length parts <? MinLabelKeyParts)%nat then
    Err (Plain "skills key must have format: /skills/<skill_path>/<cid>/<peer_id>")
  else
    let skillParts := middle_parts parts in
    if decide (length skillParts = 0) then Err (Plain "skill path cannot be empty")
    else check_components "skill" 0 skillParts.

Definition SkillValidator_Validate (key value : string) : result unit :=
  match validateKeyFormat key NamespaceSkills with
  | Err e => Err e
  | Ok parts =>
      match validateSkillsSpecific parts with
      | Err e => Err e
      | Ok _ => validateValue value
      end
  end.

Definition SkillValidator_Select (key : string) (values : list string) :=
  selectFirstValid key values SkillValidator_Validate.

Definition validateDomainsSpecific (parts : list string) : result unit :=
  if (length parts <? MinLabelKeyParts)%nat then
    Err (Plain "domains key must have format: /domains/<domain_path>/<cid>/<peer_id>")
  else
    let domainParts := middle_parts parts in
    if decide (length domainParts = 0) then Err (Plain "domain path cannot be empty")
    else Ok tt.

Definition DomainValidator_Validate (key value : string) : result unit :=
  match validateKeyFormat key NamespaceDomains with
  | Err e => Err e
  | Ok parts =>
      match validateDomainsSpecific parts with
      | Err e => Err e
      | Ok _ => validateValue value
      end
  end.

Definition DomainValidator_Select (key : string) (values : list string) :=
  selectFirstValid key values DomainValidator_Validate.

Definition validateFeaturesSpecific (parts : list string) : result unit :=
  if (length parts <? MinLabelKeyParts)%nat then
    Err (Plain "features key must have format: /features/<feature_path>/<cid>/<peer_id>")
  else
    let featureParts := middle_parts parts in
    if decide (length featureParts = 0) then Err (Plain "feature path cannot be empty")
    else Ok tt.

Definition FeatureValidator_Validate (key value : string) : result unit :=
  match validateKeyFormat key NamespaceFeatures with
  | Err e => Err e
  | Ok parts =>
      match validateFeaturesSpecific parts with
      | Err e => Err e
      | Ok _ => validateValue value
      end
  end.

Definition FeatureValidator_Select (key : string) (values : list string) :=
  selectFirstValid key values FeatureValidator_Validate.

Definition validateLocatorsSpecific (parts : list string) : result unit :=
  if (length parts <? MinLabelKeyParts)%nat then
    Err (Plain "locators key must have format: /locators/<locator_type>/<cid>/<peer_id>")
  else
    let locatorParts := middle_parts parts in
    if decide (length locatorParts = 0) then Err (Plain "locator type cannot be empty")
    else check_components "locator" 0 locatorParts.

Definition LocatorValidator_Validate (key value : string) : result unit :=
  match validateKeyFormat key NamespaceLocators with
  | Err e => Err e
  | Ok parts =>
      match validateLocatorsSpecific parts with
      | Err e => Err e
      | Ok _ => validateValue value
      end
  end.

Definition LocatorValidator_Select (key : string) (values : list string) :=
  selectFirstValid key values LocatorValidator_Validate.

(** The values of the map [CreateLabelValidators] returns, and their methods
    through the interface [record.Validator]. *)
Inductive LabelValidator :=
  | SkillValidator | DomainValidator | FeatureValidator | LocatorValidator.

Definition Validate (v : LabelValidator) : string -> string -> result unit :=
  match v with
  | SkillValidator => SkillValidator_Validate
  | DomainValidator => DomainValidator_Validate
  | FeatureValidator => FeatureValidator_Validate
  | LocatorValidator => LocatorValidator_Validate
  end.

Definition Select (v : LabelValidator) : string -> list string -> Z * option error :=
  match v with
  | SkillValidator => SkillValidator_Select
  | DomainValidator => DomainValidator_Select
  | FeatureValidator => FeatureValidator_Select
  | LocatorValidator => LocatorValidator_Select
  end.

Definition CreateLabelValidators : gmap string LabelValidator :=
  list_to_map [(NamespaceSkills, SkillValidator); (NamespaceDomains, DomainValidator);
               (NamespaceFeatures, FeatureValidator); (NamespaceLocators, LocatorValidator)].

Definition ValidateLabelKey (key : string) : result unit :=
  let parts := Split "/" key in
  if (length parts <? MinLabelKeyParts)%nat then
    Err (Plain "invalid key format: expected /<namespace>/<label_path>/<cid>")
  else
    let namespace := part parts 1 in
    if negb (ParseNamespace namespace).2 then Err (Plain ("unsupported namespace: " +:+ namespace))
    else
      let cidStr := part parts (length parts - 1) in
      if decide (cidStr = "") then Err (Plain "missing CID in key")
      else match cid_Decode cidStr with
           | Err e => Err (Plain ("invalid CID format: " +:+ err_string e))
           | Ok _ => Ok tt
           end.

Definition FormatLabelKey (label cidStr : string) : string :=
  let label := if HasPrefix label "/" then label else "/" +:+ label in
  TrimSuffix label "/" +:+ "/" +:+ cidStr.

Definition ExtractCIDFromLabelKey (labelKey : string) : result string :=
  let parts := Split "/" labelKey in
  if (length parts <? MinLabelKeyParts)%nat then
    Err (Plain "invalid enhanced key format: expected /<namespace>/<label_path>/<cid>/<peer_id>")
  else if negb (IsValidNamespaceKey labelKey) then
    Err (Plain "invalid namespace in label key")
  else
    let cidStr := part parts (length parts - 2) in
    if decide (cidStr = "") then Err (Plain "missing CID in label key")
    else match cid_Decode cidStr with
         | Err e => Err (Plain ("invalid CID format: " +:+ err_string e))
         | Ok _ => Ok cidStr
         end.

End validators.

(** ** Shapes of split keys *)

Lemma split_shape (l : list string) :
  (MinLabelKeyParts <= length l)%nat ->
  exists a b path c p, l = a :: b :: path ++ [c; p] /\ path <> [].
Proof.
  unfold MinLabelKeyParts. intros Hl.
  destruct l as [|a [|b l]]; simpl in *; [lia..|].
  destruct (exists_last (l := l)) as (l1 & p & ->); [by destruct l; simpl in *; [lia|]|].
  rewrite length_app in Hl. simpl in Hl.
  destruct (exists_last (l := l1)) as (path & c & ->); [by destruct l1; simpl in *; [lia|]|].
  rewrite length_app in Hl. simpl in Hl.
  exists a, b, path, c, p. rewrite <- app_assoc. split; [done|].
  destruct path; simpl in *; [lia|done].
Qed.

Section shape.
Context (a b : string) (path : list string) (c p : string).
Let parts := a :: b :: path ++ [c; p].

Lemma shape_length : length parts = (4 + length path)%nat.
Proof. subst parts. simpl. rewrite length_app. simpl. lia. Qed.

Lemma shape_part_1 : part parts 1 = b.
Proof. done. Qed.

Lemma shape_peer : part parts (length parts - 1) = p.
Proof.
  unfold part. rewrite shape_length. subst parts.
  replace (4 + length path - 1)%nat with (S (S (length path + 1))) by lia. simpl.
  rewrite lookup_app_r by lia. by replace (length path + 1 - length path)%nat with 1%nat by lia.
Qed.

Lemma shape_cid : part parts (length parts - 2) = c.
Proof.
  unfold part. rewrite shape_length. subst parts.
  replace (4 + length path - 2)%nat with (S (S (length path))) by lia. simpl.
  by rewrite lookup_app_r, Nat.sub_diag by lia.
Qed.

Lemma shape_middle : middle_parts parts = path.
Proof.
  unfold middle_parts. rewrite shape_length. subst parts.
  change (drop 2 (a :: b :: path ++ [c; p])) with (path ++ [c; p]).
  replace (4 + length path - 4)%nat with (length path) by lia. apply take_app_length.
Qed.

Lemma shape_min : path <> [] -> (length parts <? MinLabelKeyParts)%nat = false.
Proof.
  intros Hp. apply Nat.ltb_ge. rewrite shape_length. unfold MinLabelKeyParts.
  destruct path; simpl; [done|lia].
Qed.

End shape.

Lemma shape_inj (a b : string) path c p a' b' path' c' p' :
  a :: b :: path ++ [c; p] = a' :: b' :: path' ++ [c'; p'] ->
  a = a' /\ b = b' /\ path = path' /\ c = c' /\ p = p'.
Proof.
  intros [= -> -> Heq].
  replace (path ++ [c; p]) with ((path ++ [c]) ++ [p]) in Heq by by rewrite <- app_assoc.
  replace (path' ++ [c'; p']) with ((path' ++ [c']) ++ [p']) in Heq by by rewrite <- app_assoc.
  apply app_inj_tail in Heq as [Heq ->]. apply app_inj_tail in Heq as [-> ->]. done.
Qed.

Create Rewrite HintDb shape.
#[export] Hint Rewrite shape_part_1 shape_peer shape_cid shape_middle : shape.

(** ** The grammar of label keys *)

Section theory.
Context `{CidLib}.

Definition namespace_of (v : LabelValidator) : NamespaceType :=
  match v with
  | SkillValidator => NamespaceSkills
  | DomainValidator => NamespaceDomains
  | FeatureValidator => NamespaceFeatures
  | LocatorValidator => NamespaceLocators
  end.

(** Skill and locator paths must not have empty components. *)
Definition strict_path (v : LabelValidator) : bool :=
  match v with
  | SkillValidator | LocatorValidator => true
  | DomainValidator | FeatureValidator => false
  end.

(** [pre/ns/path.../cid/peer]: the path has a component, the CID decodes, the
    peer ID is not empty and does not decode as a CID. *)
Record label_key (ns key pre : string) (path : list string) (c p : string) : Prop := {
  lk_key : key = Join (pre :: ns :: path ++ [c; p]) "/";
  lk_no_sep : Forall (fun x => no_sep "/" x = true) (pre :: ns :: path ++ [c; p]);
  lk_path : path <> [];
  lk_cid : c <> "" /\ cid_ok c = true;
  lk_peer : p <> "" /\ cid_ok p = false;
}.

Lemma label_key_split ns key pre path c p :
  label_key ns key pre path c p -> Split "/" key = pre :: ns :: path ++ [c; p].
Proof. intros [-> Hns _ _ _]. by apply Split_Join. Qed.

Lemma split_label_key ns key pre path c p :
  Split "/" key = pre :: ns :: path ++ [c; p] -> path <> [] ->
  c <> "" -> cid_ok c = true -> p <> "" -> cid_ok p = false ->
  label_key ns key pre path c p.
Proof.
  intros Hs Hpath Hc1 Hc2 Hp1 Hp2. split; try done.
  - rewrite <- Hs. symmetry. apply Join_Split.
  - rewrite <- Hs. apply Forall_forall. intros x. apply Split_elem_no_sep.
Qed.

Lemma validateKeyFormat_ok key ns parts :
  validateKeyFormat key ns = Ok parts <->
  exists pre path c p, label_key ns key pre path c p /\ parts = pre :: ns :: path ++ [c; p].
Proof.
  unfold validateKeyFormat. split.
  - destruct (length _ <? _)%nat eqn:Hl; [done|]. apply Nat.ltb_ge in Hl.
    destruct (split_shape _ Hl) as (a & b & path & c & p & Hs & Hpath).
    rewrite Hs. autorewrite with shape.
    destruct (is_ok (cid_Decode p)) eqn:Hp; repeat case_decide; try done. subst b.
    destruct (cid_Decode c) eqn:Hc; [|done]. intros [= <-].
    exists a, path, c, p. split; [|done].
    apply split_label_key; unfold cid_ok; rewrite ?Hc; done.
  - intros (pre & path & c & p & Hk & ->). rewrite (label_key_split _ _ _ _ _ _ Hk).
    destruct Hk as [_ _ Hpath [Hc Hc'] [Hp Hp']].
    rewrite shape_min by done. autorewrite with shape.
    rewrite decide_False by naive_solver. rewrite decide_False by done.
    unfold cid_ok in *. rewrite Hp'. rewrite decide_False by done.
    destruct (cid_Decode c); [done|discriminate].
Qed.

Lemma check_components_ok what i l : check_components what i l = Ok tt <-> "" ∉ l.
Proof.
  revert i. induction l as [|x l IH]; intros i; simpl; [split; [|done]; intros _; apply not_elem_of_nil|].
  case_decide; [subst; split; [done|]; intros Hn; exfalso; apply Hn; left|].
  rewrite IH, not_elem_of_cons. naive_solver.
Qed.

Lemma validateValue_ok value :
  validateValue value = Ok tt <-> value = "" \/ cid_ok value = true.
Proof.
  unfold validateValue, cid_ok. destruct value as [|x value]; simpl; [naive_solver|].
  destruct (cid_Decode _); naive_solver.
Qed.

(** All four validators are the same three checks: the key format, the path
    components when they must not be empty, and the value. *)
Lemma Validate_unfold v key value :
  Validate v key value = Ok tt <->
  exists pre path c p,
    label_key (namespace_of v) key pre path c p
    /\ (strict_path v = true -> "" ∉ path)
    /\ (value = "" \/ cid_ok value = true).
Proof.
  destruct v; simpl.
  all: unfold SkillValidator_Validate, DomainValidator_Validate,
         FeatureValidator_Validate, LocatorValidator_Validate.
  all: split;
    [ destruct (validateKeyFormat _ _) as [parts|e] eqn:Hf; [|done];
      apply validateKeyFormat_ok in Hf as (pre & path & c & p & Hk & ->)
    | intros (pre & path & c & p & Hk & Hstrict & Hv);
      rewrite (proj2 (validateKeyFormat_ok key _ _)
        (ex_intro _ pre (ex_intro _ path (ex_intro _ c (ex_intro _ p (conj Hk eq_refl)))))) ].
  all: unfold validateSkillsSpecific, validateDomainsSpecific,
         validateFeaturesSpecific, validateLocatorsSpecific.
  all: rewrite shape_min by apply Hk; autorewrite with shape.
  all: assert (length path <> 0%nat) by (pose proof (lk_path _ _ _ _ _ _ Hk); by destruct path).
  all: rewrite decide_False by done.
  all: try (destruct (check_components _ _ _) as [[]|] eqn:Hc;
            [apply check_components_ok in Hc|]).
  all: try (intros Hv; apply validateValue_ok in Hv; exists pre, path, c, p; naive_solver).
  all: try done; try by apply validateValue_ok.
  all: rewrite (proj2 (check_components_ok _ _ _) (Hstrict eq_refl)) in Hc; done.
Qed.

Lemma select_from_spec (f : string -> string -> result unit) key values i :
  (exists j value, select_from i key values f = (i + Z.of_nat j, None)%Z
     /\ values !! j = Some value /\ f key value = Ok tt
     /\ forall j' value', (j' < j)%nat -> values !! j' = Some value' -> f key value' <> Ok tt)
  \/ (exists e, select_from i key values f = (-1, Some e)%Z)
     /\ Forall (fun value => f key value <> Ok tt) values.
Proof.
  revert i. induction values as [|value values IH]; intros i; simpl; [by right; eauto|].
  destruct (f key value) as [[]|e] eqn:Hf.
  - left. exists 0%nat, value. rewrite Z.add_0_r. repeat split; try done. lia.
  - destruct (IH (i + 1)%Z) as [(j & x & Hs & Hj & Hx & Hfirst)|[He Hall]].
    + left. exists (S j), x. split; [rewrite Hs; f_equal; lia|]. repeat split; try done.
      intros [|j'] x' Hlt; simpl; [intros [= <-]; by rewrite Hf|]. apply Hfirst. lia.
    + right. split; [done|]. constructor; [by rewrite Hf|done].
Qed.

End theory.

(** ** Properties *)

Section properties.
Context `{CidLib}.


(** [Select] returns the index of the first value that validates under the
    key, and an error with index -1 exactly when no value does. *)
Theorem Select_first_valid v key values :
  (exists j value, Select v key values = (Z.of_nat j, None)
     /\ values !! j = Some value /\ Validate v key value = Ok tt
     /\ forall j' value', (j' < j)%nat -> values !! j' = Some value' ->
          Validate v key value' <> Ok tt)
  \/ (exists e, Select v key values = (-1, Some e)%Z)
     /\ Forall (fun value => Validate v key value <> Ok tt) values.
Proof.
  assert (Hs : Select v key values = selectFirstValid key values (Validate v)) by by destruct v.
  rewrite Hs. destruct values as [|x l]; [right; split; [by eexists|done]|].
  unfold selectFirstValid. apply (select_from_spec (Validate v) key (x :: l) 0).
Qed.

(** [ValidateLabelKey] and the DHT validators disagree on every key: it
    expects the CID in the last position, where the key format has the peer ID,
    so it rejects each key that a label validator accepts. *)
Theorem ValidateLabelKey_rejects_accepted v key value :
  Validate v key value = Ok tt -> is_ok (ValidateLabelKey key) = false.
Proof.
  intros (pre & path & c & p & Hk & _)%Validate_unfold.
  unfold ValidateLabelKey. rewrite (label_key_split _ _ _ _ _ _ Hk).
  rewrite shape_min by apply Hk. autorewrite with shape.
  destruct (lk_peer _ _ _ _ _ _ Hk) as [Hne Hcid]. unfold cid_ok in Hcid.
  destruct (negb _); [done|]. rewrite decide_False by done.
  destruct (cid_Decode p); [discriminate|done].
Qed.

End properties.

(** ** Witnesses: a CID decoder that accepts the strings starting with [b] *)

Definition demo_cid : CidLib := {|
  Cid := string;
  cid_Decode s := if HasPrefix s "b" then Ok s else Err (Plain "cid: bad") |}.

Lemma ValidateLabelKey_rejects_accepted_witness :
  Validate (H := demo_cid) SkillValidator "/skills/golang/bafy/peer" "bafy" = Ok tt
  /\ is_ok (ValidateLabelKey (H := demo_cid) "/skills/golang/bafy/peer") = false.
Proof.
  split; [vm_compute; reflexivity|].
  apply (ValidateLabelKey_rejects_accepted (H := demo_cid) SkillValidator _ "bafy").
  vm_compute. reflexivity.
Defined.
