(* ===== verification/LabelKey.v ===== *)
(** * Label keys and label metadata

    server/routing/label_metadata.go and the timing constants of
    server/routing/constants.go: the self-descriptive datastore keys
    [/<namespace>/<label path>/<cid>/<peer>] and the timestamps stored under
    them. *)

From S2P Require Import Prelude GoStrings Interfaces Validators.

Open Scope string_scope.
Open Scope list_scope.

(** ** Time

    A [time.Time] is the number of nanoseconds since the zero time (year 1), so
    [IsZero] is [t = 0]; a [time.Duration] is a signed 64-bit number of
    nanoseconds, and [time.Time.Sub] saturates. *)

Definition Time : Type := Z.
Definition Duration : Type := Z.

Definition minDuration : Duration := (- 2 ^ 63)%Z.
Definition maxDuration : Duration := (2 ^ 63 - 1)%Z.

Definition time_Sub (t u : Time) : Duration :=
  Z.max minDuration (Z.min maxDuration (t - u)).

(** [time.Since(t)] at the clock reading [now]. *)
Definition time_Since (now t : Time) : Duration := time_Sub now t.

Definition Hour : Duration := (3600 * 10 ^ 9)%Z.
Definition Second : Duration := (10 ^ 9)%Z.

(** ** constants.go *)

Definition RecordTTL : Duration := (48 * Hour)%Z.
Definition RepublishInterval : Duration := (36 * Hour)%Z.
Definition CleanupInterval : Duration := (48 * Hour)%Z.
Definition RefreshInterval : Duration := (30 * Second)%Z.
Definition NotificationChannelSize : nat := 1000.
Definition MaxLabelAge : Duration := (72 * Hour)%Z.

(** ** Metadata *)

Record LabelMetadata := { Timestamp : Time; LastSeen : Time }.

#[export] Instance LabelMetadata_eq_dec : EqDecision LabelMetadata.
Proof. solve_decision. Defined.

#[export] Instance LabelMetadata_countable : Countable LabelMetadata.
Proof.
  refine (inj_countable' (fun m => (Timestamp m, LastSeen m))
    (fun p => {| Timestamp := p.1; LastSeen := p.2 |}) _). by intros [].
Defined.

Definition metadata_Validate (m : LabelMetadata) : result unit :=
  if decide (Timestamp m = 0%Z) then Err (Plain "timestamp cannot be zero")
  else if decide (LastSeen m = 0%Z) then Err (Plain "last seen timestamp cannot be zero")
  else if decide (LastSeen m < Timestamp m)%Z then
    Err (Plain "last seen cannot be before creation timestamp")
  else Ok tt.

Definition IsStale (now : Time) (m : LabelMetadata) (maxAge : Duration) : bool :=
  bool_decide (time_Since now (LastSeen m) > maxAge)%Z.

Definition Age (now : Time) (m : LabelMetadata) : Duration := time_Since now (LastSeen m).

Definition Update (now : Time) (m : LabelMetadata) : LabelMetadata :=
  {| Timestamp := Timestamp m; LastSeen := now |}.

(** ** Keys *)

Definition BuildEnhancedLabelKey (label cid peerID : string) : string :=
  label +:+ "/" +:+ cid +:+ "/" +:+ peerID.

Definition ParseEnhancedLabelKey (key : string) : result (string * string * string) :=
  if negb (HasPrefix key "/") then Err (Plain "key must start with /")
  else
    let parts := Split "/" key in
    if (length parts <? MinLabelKeyParts)%nat then
      Err (Plain "key must have at least namespace/path/CID/PeerID")
    else
      let peerID := part parts (length parts - 1) in
      let cid := part parts (length parts - 2) in
      let labelParts := take (length parts - 3) (drop 1 parts) in
      Ok ("/" +:+ Join labelParts "/", cid, peerID).

Definition ExtractPeerIDFromKey (key : string) : string :=
  let parts := Split "/" key in
  if (length parts <? MinLabelKeyParts)%nat then "" else part parts (length parts - 1).

Definition ExtractCIDFromKey (key : string) : string :=
  let parts := Split "/" key in
  if (length parts <? MinLabelKeyParts)%nat then "" else part parts (length parts - 2).

Definition IsLocalKey (key localPeerID : string) : bool :=
  bool_decide (ExtractPeerIDFromKey key = localPeerID).

(** ** Lemmas *)

(** A label: [/a/b...], a slash followed by at least two components. *)
Definition is_labelb (l : string) : bool :=
  match Split "/" l with
  | x :: _ :: _ :: _ => bool_decide (x = "")
  | _ => false
  end.
Definition is_label (l : string) : Prop := is_labelb l = true.

#[export] Instance is_label_dec l : Decision (is_label l).
Proof. unfold is_label. apply _. Defined.

Lemma is_label_split l :
  is_label l <-> exists a b rest, Split "/" l = "" :: a :: b :: rest.
Proof.
  unfold is_label, is_labelb. split.
  - destruct (Split "/" l) as [|x [|a [|b rest]]]; try done. intros. bool_to_prop. subst. eauto.
  - by intros (a & b & rest & ->).
Qed.

Lemma Split_Build label c p :
  no_sep "/" c = true -> no_sep "/" p = true ->
  Split "/" (BuildEnhancedLabelKey label c p) = Split "/" label ++ [c; p].
Proof.
  intros Hc Hp. unfold BuildEnhancedLabelKey.
  by rewrite !Split_slash, (Split_no_sep _ c), (Split_no_sep _ p).
Qed.

Lemma shape_label (a b : string) path c p :
  take (length (a :: b :: path ++ [c; p]) - 3) (drop 1 (a :: b :: path ++ [c; p])) = b :: path.
Proof.
  rewrite shape_length.
  change (drop 1 (a :: b :: path ++ [c; p])) with ((b :: path) ++ [c; p]).
  replace (4 + length path - 3)%nat with (length (b :: path)) by (simpl; lia).
  apply take_app_length.
Qed.

(** What a successful parse says about the key. *)
Lemma Parse_ok key l c p :
  ParseEnhancedLabelKey key = Ok (l, c, p) <->
  exists b path, Split "/" key = "" :: b :: path ++ [c; p] /\ path <> []
    /\ l = "/" +:+ Join (b :: path) "/".
Proof.
  unfold ParseEnhancedLabelKey. split.
  - destruct (negb _) eqn:Hn; [done|]. apply negb_false_iff in Hn.
    destruct (length _ <? _)%nat eqn:Hl; [done|]. apply Nat.ltb_ge in Hl.
    destruct (split_shape _ Hl) as (a & b & path & c' & p' & Hs & Hpath).
    rewrite Hs, shape_peer, shape_cid, shape_label. intros [= <- -> ->].
    apply HasPrefix_true in Hn as [r ->].
    rewrite Split_rooted in Hs. simplify_eq. eauto.
  - intros (b & path & Hs & Hpath & ->).
    assert (HasPrefix key "/" = true) as ->.
    { apply HasPrefix_true. rewrite <- (Join_Split "/" key), Hs.
      rewrite Join_cons by done. by eexists. }
    rewrite Hs, shape_min by done. by rewrite shape_peer, shape_cid, shape_label.
Qed.

Lemma Extract_split key a b path c p :
  Split "/" key = a :: b :: path ++ [c; p] -> path <> [] ->
  ExtractPeerIDFromKey key = p /\ ExtractCIDFromKey key = c.
Proof.
  intros Hs Hpath. unfold ExtractPeerIDFromKey, ExtractCIDFromKey.
  rewrite Hs, shape_min by done. by autorewrite with shape.
Qed.

Lemma Parse_Build label c p :
  is_label label -> no_sep "/" c = true -> no_sep "/" p = true ->
  ParseEnhancedLabelKey (BuildEnhancedLabelKey label c p) = Ok (label, c, p).
Proof.
  intros (a & b & rest & Hl)%is_label_split Hc Hp. apply Parse_ok.
  exists a, (b :: rest). rewrite Split_Build, Hl by done. split; [done|]. split; [done|].
  rewrite <- (Join_Split "/" label), Hl. by rewrite Join_cons.
Qed.

Lemma Build_Parse key l c p :
  ParseEnhancedLabelKey key = Ok (l, c, p) -> BuildEnhancedLabelKey l c p = key.
Proof.
  intros (b & path & Hs & Hpath & ->)%Parse_ok. unfold BuildEnhancedLabelKey.
  rewrite <- (Join_Split "/" key), Hs.
  change ("" :: b :: path ++ [c; p]) with (("" :: b :: path) ++ [c; p]).
  rewrite Join_app by done. simpl (Join [c; p] _).
  rewrite (Join_cons "" (b :: path)) by done. by autorewrite with gostr.
Qed.

Lemma Parse_components key l c p :
  ParseEnhancedLabelKey key = Ok (l, c, p) ->
  is_label l /\ no_sep "/" c = true /\ no_sep "/" p = true.
Proof.
  intros (b & path & Hs & Hpath & ->)%Parse_ok.
  assert (Hns : forall x, x ∈ Split "/" key -> no_sep "/" x = true)
    by (intros; by eapply Split_elem_no_sep).
  rewrite Hs in Hns. split; [|split; apply Hns; set_solver].
  destruct path as [|x path]; [done|]. apply is_label_split. exists b, x, path.
  rewrite Split_rooted. f_equal. apply Split_Join; [done|].
  apply Forall_forall. intros y Hy. apply Hns. set_solver.
Qed.

(** Two keys built from labels, CIDs and peers agree only when these do. *)
Lemma Build_inj l c p l' c' p' :
  no_sep "/" c = true -> no_sep "/" p = true ->
  no_sep "/" c' = true -> no_sep "/" p' = true ->
  BuildEnhancedLabelKey l c p = BuildEnhancedLabelKey l' c' p' ->
  l = l' /\ c = c' /\ p = p'.
Proof.
  intros Hc Hp Hc' Hp' Heq. apply (f_equal (Split "/")) in Heq.
  rewrite !Split_Build in Heq by done.
  replace (Split "/" l ++ [c; p]) with ((Split "/" l ++ [c]) ++ [p]) in Heq by by rewrite <- app_assoc.
  replace (Split "/" l' ++ [c'; p']) with ((Split "/" l' ++ [c']) ++ [p']) in Heq by by rewrite <- app_assoc.
  apply app_inj_tail in Heq as [Heq ->]. apply app_inj_tail in Heq as [Heq ->].
  apply (f_equal (fun l => Join l "/")) in Heq. by rewrite !Join_Split in Heq.
Qed.

Lemma metadata_Validate_ok m :
  metadata_Validate m = Ok tt <->
  Timestamp m <> 0%Z /\ LastSeen m <> 0%Z /\ (Timestamp m <= LastSeen m)%Z.
Proof. unfold metadata_Validate. repeat case_decide; naive_solver lia. Qed.

#[export] Hint Resolve Parse_Build Build_Parse : dir.

(** Label keys.  Parsing a key gives label, CID and peer exactly when the key
    is the one built from them, the label being [/a/b...] and CID and peer free
    of slashes; the shorter extractors agree with the parser, and a key is local
    for exactly the peer it names. *)
Theorem enhanced_key_roundtrip key l c p :
  (ParseEnhancedLabelKey key = Ok (l, c, p) <->
   key = BuildEnhancedLabelKey l c p /\ is_label l
   /\ no_sep "/" c = true /\ no_sep "/" p = true) /\
  (ParseEnhancedLabelKey key = Ok (l, c, p) ->
   ExtractPeerIDFromKey key = p /\ ExtractCIDFromKey key = c
   /\ forall q, IsLocalKey key q = true <-> q = p).
Proof.
  split.
  - split; [|intros (-> & ? & ? & ?); by apply Parse_Build].
    intros Hp. rewrite (Build_Parse _ _ _ _ Hp). by apply Parse_components in Hp.
  - intros (b & path & Hs & Hpath & _)%Parse_ok.
    destruct (Extract_split _ _ _ _ _ _ Hs Hpath) as [Hpeer Hcid].
    split; [done|]. split; [done|]. intros q. unfold IsLocalKey.
    rewrite Hpeer, bool_decide_eq_true. naive_solver.
Qed.


