(* ===== verification/Metrics.v ===== *)
(** * Label metrics

    server/routing/metrics.go: the count of local records per label, a map kept
    as JSON under the datastore key [/metrics]. *)

From S2P Require Import Prelude GoStrings Interfaces.

Open Scope string_scope.
Open Scope list_scope.

(** [Total] is a uint64: its arithmetic wraps at 2^64. *)
Definition uint64_max : Z := 2 ^ 64.
Definition u64 (z : Z) : Z := (z mod uint64_max)%Z.

Record LabelMetric := { Name : string; Total : Z }.

Record Metrics := { Data : gmap string LabelMetric }.

#[export] Instance LabelMetric_eq_dec : EqDecision LabelMetric.
Proof. solve_decision. Defined.

#[export] Instance LabelMetric_countable : Countable LabelMetric.
Proof.
  refine (inj_countable' (fun m => (Name m, Total m))
    (fun p => {| Name := p.1; Total := p.2 |}) _). by intros [].
Defined.

#[export] Instance Metrics_eq_dec : EqDecision Metrics.
Proof. solve_decision. Defined.

#[export] Instance Metrics_countable : Countable Metrics.
Proof. refine (inj_countable' Data Build_Metrics _). by intros []. Defined.

(** [m.Data[label].Total], the zero value when the label is missing. *)
Definition total_of (m : Metrics) (label : string) : Z :=
  match Data m !! label with Some x => Total x | None => 0%Z end.

Definition set_metric (label : string) (total : Z) (m : Metrics) : Metrics :=
  {| Data := <[label := {| Name := label; Total := total |}]> (Data m) |}.

Definition increment (label : string) (m : Metrics) : Metrics :=
  let m := match Data m !! label with
           | Some _ => m
           | None => set_metric label 0 m
           end in
  set_metric label (u64 (total_of m label + 1)) m.

Definition decrement (label : string) (m : Metrics) : Metrics :=
  match Data m !! label with
  | None => m
  | Some _ =>
      let currentTotal := total_of m label in
      let m := if decide (currentTotal > 0)%Z
               then set_metric label (u64 (currentTotal - 1)) m else m in
      if decide (total_of m label = 0%Z) then {| Data := delete label (Data m) |} else m
  end.

Section store.
Context {D : Type} `{Datastore D} `{JsonCodec Metrics}.

Definition metrics_key : string := ds_NewKey "/metrics".

Definition update (m : Metrics) : M D (result unit) :=
  match json_Marshal m with
  | Err e => ret (Err (Wrap "failed to marshal metrics data: " e))
  | Ok data =>
      try_bind (ds_Put metrics_key data)
        (fun e => ret (Err (Wrap "failed to update metrics data: " e)))
        (fun _ => ret (Ok tt))
  end.

Definition loadMetrics (d : D) : result Metrics :=
  match ds_Get d metrics_key with
  | Err e =>
      if errors_Is e "datastore: key not found" then Ok {| Data := ∅ |}
      else Err (Wrap "failed to update metrics data: " e)
  | Ok data =>
      match json_Unmarshal data with
      | Err e => Err (Wrap "failed to unmarshal metrics data: " e)
      | Ok m => Ok m
      end
  end.

End store.

(** ** Metrics as counts

    In a well-formed metrics map every entry is named by its key and counts at
    least one record, so the map is determined by its totals. *)

Definition metrics_wf (m : Metrics) : Prop :=
  forall l x, Data m !! l = Some x -> Name x = l /\ (0 < Total x < uint64_max)%Z.

Lemma metrics_ext m m' :
  metrics_wf m -> metrics_wf m' -> (forall l, total_of m l = total_of m' l) -> m = m'.
Proof.
  destruct m as [d], m' as [d']. intros Hm Hm' Heq. f_equal. apply map_eq. intros l.
  specialize (Heq l). unfold total_of in Heq. simpl in *.
  destruct (d !! l) as [[n t]|] eqn:Hl, (d' !! l) as [[n' t']|] eqn:Hl'; try done.
  all: try (destruct (Hm _ _ Hl)); try (destruct (Hm' _ _ Hl')); simpl in *; subst; try lia; done.
Qed.

Lemma total_set_metric l t m l' :
  total_of (set_metric l t m) l' = if decide (l = l') then t else total_of m l'.
Proof. unfold total_of. simpl. rewrite lookup_insert. by case_decide. Qed.

Lemma total_range m l : metrics_wf m -> (0 <= total_of m l < uint64_max)%Z.
Proof.
  intros Hm. unfold total_of. destruct (Data m !! l) as [x|] eqn:Hl.
  - destruct (Hm _ _ Hl). lia.
  - unfold uint64_max. lia.
Qed.

Lemma set_metric_wf l t m :
  metrics_wf m -> (0 < t < uint64_max)%Z -> metrics_wf (set_metric l t m).
Proof.
  intros Hm Ht l' x. simpl. rewrite lookup_insert. case_decide; [|apply Hm].
  intros [= <-]. subst. done.
Qed.

Lemma increment_set l m : increment l m = set_metric l (u64 (total_of m l + 1)) m.
Proof.
  unfold increment. destruct (Data m !! l) eqn:Hl; [done|].
  rewrite total_set_metric, decide_True by done. unfold total_of. rewrite Hl.
  unfold set_metric. simpl. by rewrite insert_insert_eq.
Qed.

Lemma increment_total l m l' :
  (total_of m l + 1 < uint64_max)%Z -> (0 <= total_of m l)%Z ->
  total_of (increment l m) l' = (total_of m l' + if decide (l = l') then 1 else 0)%Z.
Proof.
  intros. rewrite increment_set, total_set_metric. case_decide; [|lia].
  subst. unfold u64. rewrite Z.mod_small; lia.
Qed.

Lemma increment_wf l m :
  metrics_wf m -> (total_of m l + 1 < uint64_max)%Z -> metrics_wf (increment l m).
Proof.
  intros Hm Hlt. rewrite increment_set. apply set_metric_wf; [done|].
  pose proof (total_range m l Hm). unfold u64. rewrite Z.mod_small; lia.
Qed.

Lemma decrement_set l m x :
  metrics_wf m -> Data m !! l = Some x ->
  total_of m l = Total x /\
  decrement l m = if decide (Total x = 1%Z) then {| Data := delete l (Data m) |}
                  else set_metric l (Total x - 1) m.
Proof.
  intros Hm Hl. destruct (Hm _ _ Hl) as [_ Hx].
  assert (Hxt : total_of m l = Total x) by (unfold total_of; by rewrite Hl).
  split; [done|]. unfold decrement. rewrite Hl, Hxt.
  rewrite (decide_True (P := (Total x > 0)%Z)) by lia.
  unfold u64. rewrite Z.mod_small by lia.
  rewrite total_set_metric, (decide_True (P := l = l)) by done.
  repeat case_decide; try lia; [|done].
  unfold set_metric. simpl. by rewrite delete_insert_eq.
Qed.

Lemma decrement_total l m l' :
  metrics_wf m ->
  total_of (decrement l m) l' =
  Z.max 0 (total_of m l' - if decide (l = l') then 1 else 0).
Proof.
  intros Hm. pose proof (total_range m l' Hm) as Hr'.
  destruct (Data m !! l) as [x|] eqn:Hl.
  - destruct (decrement_set _ _ _ Hm Hl) as [Hxt ->].
    destruct (decide (Total x = 1%Z)).
    + unfold total_of at 1. simpl. rewrite lookup_delete.
      destruct (decide (l = l')); simpl; [subst; lia|]. fold (total_of m l'). lia.
    + destruct (Hm _ _ Hl). rewrite total_set_metric. destruct (decide (l = l')); [subst|]; lia.
  - unfold decrement. rewrite Hl. case_decide; [|lia].
    subst. unfold total_of. rewrite Hl. lia.
Qed.

Lemma decrement_wf l m : metrics_wf m -> metrics_wf (decrement l m).
Proof.
  intros Hm. destruct (Data m !! l) as [x|] eqn:Hl; [|unfold decrement; by rewrite Hl].
  destruct (Hm _ _ Hl) as [_ Hx]. destruct (decrement_set _ _ _ Hm Hl) as [_ ->].
  case_decide as Hz.
  - intros l' y. simpl. intros [_ Hy]%lookup_delete_Some. by apply Hm.
  - apply set_metric_wf; [done|lia].
Qed.

(** ** Occurrences of a label in a list *)

Definition occ (l : string) (ls : list string) : Z := Z.of_nat (length (filter (fun x => x = l) ls)).

Lemma occ_nil l : occ l [] = 0%Z.
Proof. done. Qed.

Lemma occ_cons l x ls : occ l (x :: ls) = ((if decide (x = l) then 1 else 0) + occ l ls)%Z.
Proof. unfold occ. rewrite filter_cons. case_decide; simpl; lia. Qed.

Lemma occ_nonneg l ls : (0 <= occ l ls)%Z.
Proof. unfold occ. lia. Qed.

Lemma occ_pos l ls : l ∈ ls <-> (0 < occ l ls)%Z.
Proof.
  induction ls as [|x ls IH]; [rewrite occ_nil; split; [intros H; by apply elem_of_nil in H | lia]|].
  rewrite occ_cons, elem_of_cons, IH. pose proof (occ_nonneg l ls).
  case_decide; naive_solver lia.
Qed.

Lemma occ_le_length l ls : (occ l ls <= Z.of_nat (length ls))%Z.
Proof. unfold occ. pose proof (length_filter (fun x => x = l) ls). lia. Qed.

(** Incrementing once per list element adds the occurrences. *)
Lemma increments_total ls m :
  metrics_wf m -> (forall l, (total_of m l + occ l ls < uint64_max)%Z) ->
  metrics_wf (foldl (fun m l => increment l m) m ls) /\
  forall l, total_of (foldl (fun m l => increment l m) m ls) l = (total_of m l + occ l ls)%Z.
Proof.
  revert m. induction ls as [|x ls IH]; intros m Hm Hb; simpl.
  { split; [done|]. intros l. rewrite occ_nil. lia. }
  pose proof (total_range m x Hm).
  assert (total_of m x + 1 < uint64_max)%Z.
  { specialize (Hb x). rewrite occ_cons, decide_True in Hb by done. pose proof (occ_nonneg x ls). lia. }
  destruct (IH (increment x m)) as [Hwf Ht]; [by apply increment_wf| |].
  - intros l. rewrite increment_total by lia. specialize (Hb l). rewrite occ_cons in Hb. lia.
  - split; [done|]. intros l. rewrite Ht, increment_total by lia. rewrite occ_cons. lia.
Qed.

(** Decrementing once per list element subtracts them, stopping at zero. *)
Lemma decrements_total ls m :
  metrics_wf m ->
  metrics_wf (foldl (fun m l => decrement l m) m ls) /\
  forall l, total_of (foldl (fun m l => decrement l m) m ls) l
            = Z.max 0 (total_of m l - occ l ls).
Proof.
  revert m. induction ls as [|x ls IH]; intros m Hm; simpl.
  { split; [done|]. intros l. rewrite occ_nil. pose proof (total_range m l Hm). lia. }
  destruct (IH (decrement x m)) as [Hwf Ht]; [by apply decrement_wf|].
  split; [done|]. intros l. rewrite Ht, decrement_total by done.
  rewrite occ_cons. pose proof (occ_nonneg l ls). case_decide; lia.
Qed.
