(* ===== verification/RoutingWorld.v ===== *)
(** * The state the routing code shares

    The local and the remote router (server/routing) work on one key/value
    datastore, one record store, one P2P host, and the clock.  [World] is that
    shared state; an operation of the routers is a function on it.  The P2P
    host (go-libp2p, go-libp2p-kad-dht, go-libp2p-gorpc) is outside the
    repository: the class [Network] has the calls the routers make. *)

From S2P Require Import Prelude GoStrings Interfaces Adapters CoreRecord LabelKey.

Open Scope string_scope.
Open Scope list_scope.
Open Scope go_scope.

(** [peer.AddrInfo], with the raw bytes of the peer ID. *)
Record AddrInfo := { ID : string }.

(** Responses of the peer-to-peer RPC (rpc/rpc.go). *)
Record LookupResponse := { Lookup_Cid : string; Lookup_Annotations : gmap string string }.
Record PullResponse := {
  Pull_Cid : string; Pull_Annotations : gmap string string; Pull_Data : string }.

Class Network (N : Type) `{CidLib} := {
  dht_Provide : Cid -> M N (result unit);
  dht_PutValue : string -> string -> M N (result unit);
  RoutingTable_Size : N -> nat;
  rpc_CallLookup : string -> option RecordRef -> M N (result LookupResponse);
  rpc_CallPull : string -> option RecordRef -> M N (result PullResponse);
  pm_AddProvider : string -> AddrInfo -> M N (result unit);
  pm_GetProviders : string -> N -> result (list AddrInfo);
}.

Record World (D N T : Type) := {
  w_ds : D;        (** the routing datastore *)
  w_net : N;       (** the P2P host and the network behind it *)
  w_store : T;     (** the record store *)
  w_tick : nat;    (** how often the clock was read *)
}.
Arguments w_ds {_ _ _}. Arguments w_net {_ _ _}.
Arguments w_store {_ _ _}. Arguments w_tick {_ _ _}.

Section lift.
Context {D N T : Type}.
Notation W := (World D N T).

Definition read_ds {A} (f : D -> A) : M W A := fun w => (f (w_ds w), w).

Definition on_ds {A} (c : M D A) : M W A := fun w =>
  let '(a, d) := c (w_ds w) in
  (a, {| w_ds := d; w_net := w_net w; w_store := w_store w; w_tick := w_tick w |}).

Definition read_net {A} (f : N -> A) : M W A := fun w => (f (w_net w), w).

Definition on_net {A} (c : M N A) : M W A := fun w =>
  let '(a, n) := c (w_net w) in
  (a, {| w_ds := w_ds w; w_net := n; w_store := w_store w; w_tick := w_tick w |}).

Definition on_store {A} (c : M T A) : M W A := fun w =>
  let '(a, t) := c (w_store w) in
  (a, {| w_ds := w_ds w; w_net := w_net w; w_store := t; w_tick := w_tick w |}).

(** [time.Now()]: the next reading of the clock. *)
Definition time_Now (clock : nat -> Time) : M W Time := fun w =>
  (clock (w_tick w),
   {| w_ds := w_ds w; w_net := w_net w; w_store := w_store w; w_tick := S (w_tick w) |}).

End lift.
