(* ===== verification/Rpc.v ===== *)
(** * The peer-to-peer RPC

    server/routing/rpc/rpc.go: a peer serves Lookup and Pull of its record
    store; the client side calls a peer and decodes what it sends. *)

From S2P Require Import Prelude GoStrings Interfaces Adapters CoreRecord LabelKey RoutingWorld.

Open Scope string_scope.
Open Scope list_scope.
Open Scope go_scope.

Definition MaxPullSize : Z := (4 * 1024 * 1024)%Z.

(** ** The server side *)

Section server.
Context {T : Type} `{StoreAPI T} `{OasfJson}.

(** [out] is whether the response pointer is not nil; the value written to it is
    the result. *)
Definition RPCAPI_Lookup (in_ : option RecordRef) (out : bool) : M T (result LookupResponse) :=
  if decide (in_ = None \/ out = false) then
    ret (Err (Status InvalidArgument "invalid request: nil request/response"))
  else
    let? meta := store_Lookup in_
      else e => ret (Err (rewrap "failed to lookup: " e)) in
    ret (Ok {| Lookup_Cid := Meta_Cid meta; Lookup_Annotations := Meta_Annotations meta |}).

Definition RPCAPI_Pull (in_ : option RecordRef) (out : bool) : M T (result PullResponse) :=
  if decide (in_ = None \/ out = false) then
    ret (Err (Status InvalidArgument "invalid request: nil request/response"))
  else
    let? meta := store_Lookup in_
      else e => ret (Err (rewrap "failed to lookup: " e)) in
    let? record := store_Pull in_
      else e => ret (Err (rewrap "failed to pull: " e)) in
    match MarshalOASF (Some record) with
    | Err e => ret (Err (internal "failed to marshal record: " e))
    | Ok canonicalBytes =>
        ret (Ok {| Pull_Cid := Meta_Cid meta; Pull_Annotations := Meta_Annotations meta;
                   Pull_Data := canonicalBytes |})
    end.

End server.

(** ** The client side *)

Section client.
Context {N : Type} `{Network N} `{OasfJson}.

Definition Service_Lookup (peer : string) (req : option RecordRef) : M N (result RecordRef) :=
  let? resp := rpc_CallLookup peer req
    else e => ret (Err (internal "failed to call remote peer: " e)) in
  ret (Ok {| ref_Cid := Lookup_Cid resp |}).

Definition Service_Pull (peer : string) (req : option RecordRef) : M N (result CoreRecord) :=
  let? resp := rpc_CallPull peer req
    else e => ret (Err (internal "failed to call remote peer: " e)) in
  match UnmarshalOASF (Pull_Data resp) with
  | Err e => ret (Err (internal "failed to unmarshal record: " e))
  | Ok record => ret (Ok record)
  end.

End client.

(** ** End to end *)

Section end_to_end.
Context {N T : Type} `{Network N} `{StoreAPI T} `{OJ : OasfJson}
  {equiv_doc : string -> string -> Prop}
  {json_ok : forall skill, pb_Agent skill -> Prop} `{!OasfJsonSpec equiv_doc json_ok}.

(** The network hands the request to the peer, whose state is part of [N], and
    carries its answer back unchanged. *)
Context (peer_state : string -> N -> T).
Definition carries (n : N) (peer : string) (req : option RecordRef) : Prop :=
  (rpc_CallPull peer req n).1 = (RPCAPI_Pull req true (peer_state peer n)).1.

(** Pulling from a peer.  When the network carries a Pull to a peer whose
    store looks the reference up and has a record whose message encodes and
    states the version of its wrapper, the client receives that record; when the
    peer's store does not have it, the client receives an Internal error. *)
Theorem remote_pull_returns_record n peer ref d meta t1 t2 :
  data_ok (json_ok := json_ok) d -> stated_version d = wrapper_version d ->
  carries n peer (Some ref) ->
  store_Lookup (Some ref) (peer_state peer n) = (Ok meta, t1) ->
  (store_Pull (Some ref) t1 = (Ok {| GetData := Some d |}, t2) ->
   (Service_Pull peer (Some ref) n).1 = Ok {| GetData := Some d |}) /\
  (forall e, store_Pull (Some ref) t1 = (Err e, t2) ->
   exists e', (Service_Pull peer (Some ref) n).1 = Err e' /\ err_code e' = Some Internal).
Proof.
  intros Hd Hver Hcar Hlook. unfold carries, RPCAPI_Pull in Hcar.
  rewrite decide_False in Hcar by naive_solver.
  rewrite (try_bind_ok _ _ _ _ _ _ Hlook) in Hcar. unfold Service_Pull, try_bind, bind.
  destruct (Unmarshal_Marshal d Hd Hver) as (b & Hm & Hu).
  destruct (rpc_CallPull peer (Some ref) n) as [resp n']. cbn [fst] in Hcar. split.
  - intros Hpull. unfold try_bind, bind in Hcar. rewrite Hpull, Hm in Hcar. cbn [fst ret] in Hcar.
    subst resp. simpl. by rewrite Hu.
  - intros e Hpull. unfold try_bind, bind in Hcar. rewrite Hpull in Hcar. simpl in Hcar. subst resp.
    simpl. eauto.
Qed.

End end_to_end.

(** ** An executable instance: one peer with one record *)

Module DemoRpc.
Import DemoCore.

Definition demo_meta : RecordMeta :=
  {| Meta_Cid := "c1"; Meta_Annotations := ∅; Meta_SchemaVersion := ""; Meta_CreatedAt := "" |}.

#[local] Instance one_store : StoreAPI unit := {|
  store_Push _ := ret (Err (Plain "read only"));
  store_Pull _ := ret (Ok {| GetData := Some demo_data |});
  store_Lookup _ := ret (Ok demo_meta);
  store_Delete _ := ret (Err (Plain "read only"));
|}.

#[local] Instance one_peer : Network unit := {|
  dht_Provide _ := ret (Ok tt);
  dht_PutValue _ _ := ret (Ok tt);
  RoutingTable_Size _ := 1%nat;
  rpc_CallLookup _ ref := RPCAPI_Lookup ref true;
  rpc_CallPull _ ref := RPCAPI_Pull ref true;
  pm_AddProvider _ _ := ret (Ok tt);
  pm_GetProviders _ _ := Ok [];
|}.

Lemma remote_pull_returns_record_witness :
  (Service_Pull "peer" (Some {| ref_Cid := "c1" |}) tt).1 = Ok {| GetData := Some demo_data |}.
Proof.
  apply (remote_pull_returns_record (fun _ n => n) tt "peer" {| ref_Cid := "c1" |} demo_data
    demo_meta tt tt); reflexivity.
Defined.

End DemoRpc.
