(* ===== verification/RoutingLocal.v ===== *)
(** * The local router

    server/routing/routing_local.go: publishing and unpublishing a record in
    the local datastore and listing what is published.  The datastore keeps an
    entry [/records/<cid>] per published record, an entry per label of it under
    its enhanced label key, and the label metrics. *)

From S2P Require Import Prelude GoStrings Interfaces Adapters CoreRecord Validators LabelKey Metrics RoutingWorld.

Open Scope string_scope.
Open Scope list_scope.
Open Scope go_scope.

(** ** Requests and responses (routing/v1) *)

Inductive RecordQueryType :=
  | RECORD_QUERY_TYPE_UNSPECIFIED
  | RECORD_QUERY_TYPE_SKILL
  | RECORD_QUERY_TYPE_LOCATOR
  | RECORD_QUERY_TYPE_OTHER (n : Z).   (** any other number on the wire *)

Record RecordQuery := { Query_Type : RecordQueryType; Query_Value : string }.

Record ListResponse := { Resp_Cid : string; Labels : list string }.

(** ** Labels of a record *)

Definition ext_labels (schemaPrefix : string) (ns : NamespaceType) (exts : list Extension)
  : list string :=
  omap (fun ext => (fun rest => Prefix ns +:+ rest) <$> strip_prefix schemaPrefix (Ext_GetName ext)) exts.

Definition getLabels (record : option CoreRecord) : list string :=
  match (match record with None => None | Some r => GetRecordData r end) with
  | None => []
  | Some recordData =>
      let skills := (fun s => Prefix NamespaceSkills +:+ Skill_GetName s) <$> GetSkills recordData in
      let domains := ext_labels DomainSchemaPrefix NamespaceDomains (GetExtensions recordData) in
      let features := ext_labels FeaturesSchemaPrefix NamespaceFeatures (GetExtensions recordData) in
      let locators := (fun l => Prefix NamespaceLocators +:+ Loc_GetType l) <$> GetLocators recordData in
      skills ++ domains ++ features ++ locators
  end.

Module routeLocal.
Section routeLocal.
Context {D N T : Type} `{Datastore D} `{JsonCodec LabelMetadata} `{JsonCodec Metrics}.
Context (clock : nat -> Time) (localPeerID : string).
Notation W := (World D N T).

(** ** Publish *)

(** One label: its metadata goes in the batch, its count in the metrics. *)
Definition publish_label (cid : string) (acc : Batch * Metrics) (label : string)
  : M W (result (Batch * Metrics)) :=
  let '(batch, metrics) := acc in
  let! t1 := time_Now clock in
  let! t2 := time_Now clock in
  match json_Marshal {| Timestamp := t1; LastSeen := t2 |} with
  | Err e => ret (Err (internal "failed to serialize label metadata: " e))
  | Ok metadataBytes =>
      let enhancedKey := BuildEnhancedLabelKey label cid localPeerID in
      let labelKey := ds_NewKey enhancedKey in
      match batch_Put batch labelKey metadataBytes with
      | Err e => ret (Err (internal "failed to put label key: " e))
      | Ok batch => ret (Ok (batch, increment label metrics))
      end
  end.

Definition Publish (ref : option RecordRef) (record : option CoreRecord) : M W (result unit) :=
  if decide (ref = None) then ret (Err (Status InvalidArgument "record reference is required"))
  else match record with
  | None => ret (Err (Status InvalidArgument "record is required"))
  | Some _ =>
    let? metrics := read_ds loadMetrics
      else e => ret (Err (internal "failed to load metrics: " e)) in
    let? batch := read_ds ds_Batch
      else e => ret (Err (internal "failed to create batch: " e)) in
    let recordKey := ds_NewKey ("/records/" +:+ ref_GetCid ref) in
    let? recordExists := read_ds (fun d => ds_Has d recordKey)
      else e => ret (Err (internal "failed to check if record exists: " e)) in
    if (recordExists : bool) then ret (Ok tt)
    else match batch_Put batch recordKey "" with
    | Err e => ret (Err (internal "failed to put record key: " e))
    | Ok batch =>
      let labels := getLabels record in
      let? acc := for_try (publish_label (ref_GetCid ref)) (batch, metrics) labels
        else e => ret (Err e) in
      let? _u := on_ds (batch_Commit acc.1)
        else e => ret (Err (internal "failed to commit batch: " e)) in
      let? _u := on_ds (update acc.2)
        else e => ret (Err (internal "failed to update metrics: " e)) in
      ret (Ok tt)
    end
  end.

(** ** Unpublish *)

Definition unpublish_label (cid : string) (acc : Batch * Metrics) (label : string)
  : M W (result (Batch * Metrics)) :=
  let '(batch, metrics) := acc in
  let enhancedKey := BuildEnhancedLabelKey label cid localPeerID in
  let labelKey := ds_NewKey enhancedKey in
  match batch_Delete batch labelKey with
  | Err e => ret (Err (internal "failed to delete label key: " e))
  | Ok batch => ret (Ok (batch, decrement label metrics))
  end.

Definition Unpublish (ref : option RecordRef) (record : option CoreRecord) : M W (result unit) :=
  if decide (ref = None) then ret (Err (Status InvalidArgument "record reference is required"))
  else match record with
  | None => ret (Err (Status InvalidArgument "record is required"))
  | Some _ =>
    let? metrics := read_ds loadMetrics
      else e => ret (Err (internal "failed to load metrics: " e)) in
    let? batch := read_ds ds_Batch
      else e => ret (Err (internal "failed to create batch: " e)) in
    let recordKey := ds_NewKey ("/records/" +:+ ref_GetCid ref) in
    match batch_Delete batch recordKey with
    | Err e => ret (Err (internal "failed to delete record key: " e))
    | Ok batch =>
      let labels := getLabels record in
      let? acc := for_try (unpublish_label (ref_GetCid ref)) (batch, metrics) labels
        else e => ret (Err e) in
      let? _u := on_ds (batch_Commit acc.1)
        else e => ret (Err (internal "failed to commit batch: " e)) in
      let? _u := on_ds (update acc.2)
        else e => ret (Err (internal "failed to update metrics: " e)) in
      ret (Ok tt)
    end
  end.

(** ** List

    The listing only reads the datastore, so it is a function of it; the
    responses are the values sent on the channel, in order. *)

(** [for result := range results.Next()], skipping entries that were not read. *)
Definition readable (results : list QueryResult) : list Entry :=
  omap (fun r => match QError r with None => Some (QEntry r) | Some _ => None end) results.

Definition label_of_key (cid : string) (e : Entry) : option string :=
  match ParseEnhancedLabelKey (Key e) with
  | Err _ => None
  | Ok (label, keyCID, keyPeerID) =>
      if decide (keyCID = cid /\ keyPeerID = localPeerID) then Some label else None
  end.

Definition namespace_labels (d : D) (cid : string) (namespace : string) : list string :=
  match ds_Query d namespace (fun _ => true) with
  | Err _ => []
  | Ok results => omap (label_of_key cid) (readable results)
  end.

Definition getRecordLabelsEfficiently (d : D) (cid : string) : list string :=
  [Prefix NamespaceSkills; Prefix NamespaceDomains; Prefix NamespaceFeatures;
   Prefix NamespaceLocators] ≫= namespace_labels d cid.

Definition queryMatchesLabels (query : RecordQuery) (labels : list string) : bool :=
  match Query_Type query with
  | RECORD_QUERY_TYPE_SKILL =>
      let targetSkill := Prefix NamespaceSkills +:+ Query_Value query in
      existsb (fun label => bool_decide (label = targetSkill)
                            || HasPrefix label (targetSkill +:+ "/")) labels
  | RECORD_QUERY_TYPE_LOCATOR =>
      let targetLocator := Prefix NamespaceLocators +:+ Query_Value query in
      existsb (fun label => bool_decide (label = targetLocator)) labels
  | RECORD_QUERY_TYPE_UNSPECIFIED => true
  | RECORD_QUERY_TYPE_OTHER _ => false
  end.

Definition matchesAllQueries (d : D) (cid : string) (queries : list RecordQuery) : bool :=
  match queries with
  | [] => true
  | _ =>
      let recordLabels := getRecordLabelsEfficiently d cid in
      forallb (fun q => queryMatchesLabels q recordLabels) queries
  end.

Fixpoint list_loop (d : D) (queries : list RecordQuery) (limit processedCount : Z)
    (results : list QueryResult) : list ListResponse :=
  match results with
  | [] => []
  | result :: results =>
      match QError result with
      | Some _ => list_loop d queries limit processedCount results
      | None =>
          let cid := TrimPrefix (Key (QEntry result)) "/records/" in
          if decide (cid = "") then list_loop d queries limit processedCount results
          else if matchesAllQueries d cid queries then
            let labels := getRecordLabelsEfficiently d cid in
            let processedCount := (processedCount + 1)%Z in
            {| Resp_Cid := cid; Labels := labels |} ::
              (if decide (limit > 0 /\ processedCount >= limit)%Z then []
               else list_loop d queries limit processedCount results)
          else list_loop d queries limit processedCount results
      end
  end.

Definition listLocalRecords (d : D) (queries : list RecordQuery) (limit : Z) : list ListResponse :=
  match ds_Query d "/records/" (fun _ => true) with
  | Err _ => []
  | Ok recordResults => list_loop d queries limit 0 recordResults
  end.

Definition List (d : D) (queries : list RecordQuery) (limit : Z) : result (list ListResponse) :=
  Ok (listLocalRecords d queries limit).

End routeLocal.
End routeLocal.
