(* ===== verification/RoutingLocalSpec.v ===== *)
(** * The local router implements a set of published records

    The abstract state is the finite map from the CID of a published record to
    its labels.  [rep] says which datastores represent it; the theorems show
    that Publish, Unpublish and List implement insertion, removal and
    filtering. *)

From S2P Require Import Prelude GoStrings Interfaces Adapters CoreRecord Validators LabelKey Metrics RoutingWorld RoutingLocal.

Open Scope string_scope.
Open Scope list_scope.
Open Scope go_scope.

(** ** Clean keys *)

(** A path component that [datastore.NewKey] leaves alone. *)
Definition good_elem (x : string) : bool :=
  no_sep "/" x && negb (bool_decide (x ∈ [""; "."; ".."])).

(** A label of one of the four namespaces with clean components. *)
Definition good_label (l : string) : bool :=
  match Split "/" l with
  | x0 :: ns :: x :: rest =>
      bool_decide (x0 = "") && bool_decide (ns ∈ AllNamespaces) && forallb good_elem (x :: rest)
  | _ => false
  end.

Lemma good_elem_spec x :
  good_elem x = true <-> no_sep "/" x = true /\ x <> "" /\ x <> "." /\ x <> "..".
Proof.
  unfold good_elem. rewrite andb_true_iff, negb_true_iff, bool_decide_eq_false. set_solver.
Qed.

Lemma good_elem_no_sep x : good_elem x = true -> no_sep "/" x = true.
Proof. intros Hx%good_elem_spec. naive_solver. Qed.

Lemma good_label_spec l :
  good_label l = true <-> exists ns x rest, Split "/" l = "" :: ns :: x :: rest
    /\ ns ∈ AllNamespaces /\ Forall (fun y => good_elem y = true) (x :: rest).
Proof.
  unfold good_label. split.
  - destruct (Split "/" l) as [|x0 [|ns [|x rest]]]; try done.
    intros [[H0 Hns]%andb_true_iff Hf]%andb_true_iff. bool_to_prop. subst.
    exists ns, x, rest. split; [done|]. split; [done|].
    apply Forall_forall. intros y Hy. rewrite forallb_forall in Hf.
    by apply Hf, list_elem_of_In.
  - intros (ns & x & rest & -> & Hns & Hf). rewrite !bool_decide_true by done. simpl.
    apply (forallb_forall good_elem (x :: rest)). intros y Hy.
    rewrite Forall_forall in Hf. by apply Hf, list_elem_of_In.
Qed.

Lemma good_label_is_label l : good_label l = true -> is_label l.
Proof. intros (ns & x & rest & Hs & _)%good_label_spec. apply is_label_split. eauto. Qed.

Lemma good_label_namespace l :
  good_label l = true -> exists ns, ns ∈ AllNamespaces /\ HasPrefix l (Prefix ns) = true.
Proof.
  intros (ns & x & rest & Hs & Hns & _)%good_label_spec. exists ns. split; [done|].
  apply HasPrefix_true. exists (Join (x :: rest) "/").
  rewrite <- (Join_Split "/" l), Hs. unfold Prefix.
  rewrite !Join_cons by done. by autorewrite with gostr.
Qed.

Lemma Forall_good_clean l :
  Forall (fun y => good_elem y = true) l -> Forall (fun x => x <> "" /\ x <> "." /\ x <> "..") l.
Proof. intros Hl. eapply Forall_impl; [done|]. intros y Hy%good_elem_spec. naive_solver. Qed.

Lemma path_Clean_id s xs :
  Split "/" s = "" :: xs -> xs <> [] -> Forall (fun y => good_elem y = true) xs ->
  path_Clean s = s.
Proof.
  intros Hs Hne Hxs. unfold path_Clean, clean_elems. rewrite Hs. simpl.
  change (clean_step [] "") with (@nil string).
  rewrite (clean_elems_id [] xs) by by apply Forall_good_clean. simpl.
  rewrite <- (Join_Split "/" s), Hs. by rewrite Join_cons.
Qed.

Lemma namespace_good ns : ns ∈ AllNamespaces -> good_elem ns = true.
Proof.
  intros Hns. apply (proj1 (Forall_forall (fun n => good_elem n = true) AllNamespaces)); [|done].
  repeat constructor.
Qed.

Lemma Split_record_key c :
  no_sep "/" c = true -> Split "/" ("/records/" +:+ c) = [""; "records"; c].
Proof.
  intros Hc. change ("/records/" +:+ c) with ("/" +:+ "records" +:+ "/" +:+ c).
  rewrite Split_rooted, Split_slash, (Split_no_sep _ c) by done. done.
Qed.

Lemma Split_good_key l c p :
  good_label l = true -> good_elem c = true -> good_elem p = true ->
  exists ns xs, Split "/" (BuildEnhancedLabelKey l c p) = "" :: ns :: xs
    /\ ns ∈ AllNamespaces /\ Forall (fun y => good_elem y = true) (ns :: xs).
Proof.
  intros (ns & x & rest & Hs & Hns & Hf)%good_label_spec Hc Hp.
  exists ns, (x :: rest ++ [c; p]).
  rewrite Split_Build, Hs by by apply good_elem_no_sep. split; [done|]. split; [done|].
  constructor; [by apply namespace_good|]. rewrite app_comm_cons, Forall_app.
  split; [done|]. by repeat constructor.
Qed.

Section keys.
Context {D : Type} `{DatastoreSpec D}.

Lemma NewKey_record c : good_elem c = true -> ds_NewKey ("/records/" +:+ c) = "/records/" +:+ c.
Proof.
  intros Hc. rewrite ds_NewKey_spec by apply (HasPrefix_app "/").
  apply (path_Clean_id _ ["records"; c]); [|done|by repeat constructor].
  apply Split_record_key. by apply good_elem_no_sep.
Qed.

Lemma NewKey_label l c p :
  good_label l = true -> good_elem c = true -> good_elem p = true ->
  ds_NewKey (BuildEnhancedLabelKey l c p) = BuildEnhancedLabelKey l c p.
Proof.
  intros Hl Hc Hp. destruct (Split_good_key l c p) as (ns & xs & Hs & _ & Hf); [done..|].
  rewrite ds_NewKey_spec.
  - by apply (path_Clean_id _ (ns :: xs)).
  - apply HasPrefix_true. exists (Join (ns :: xs) "/").
    by rewrite <- (Join_Split "/" (BuildEnhancedLabelKey l c p)), Hs, Join_cons.
Qed.

Lemma metrics_key_eq : metrics_key = "/metrics".
Proof. unfold metrics_key. rewrite ds_NewKey_spec; done. Qed.

End keys.

Lemma records_not_namespace : "records" ∉ AllNamespaces.
Proof. unfold AllNamespaces. rewrite !not_elem_of_cons. repeat split; try discriminate. apply not_elem_of_nil. Qed.

(** Record keys, label keys and the metrics key do not meet. *)
Lemma label_not_record l c p s :
  good_label l = true -> good_elem c = true -> good_elem p = true ->
  BuildEnhancedLabelKey l c p <> "/records/" +:+ s.
Proof.
  intros Hl Hc Hp Heq. destruct (Split_good_key l c p) as (ns & xs & Hs & Hns & _); [done..|].
  rewrite Heq in Hs. change ("/records/" +:+ s) with ("/" +:+ "records" +:+ "/" +:+ s) in Hs.
  rewrite Split_rooted, Split_slash in Hs. simplify_eq/=.
  by apply records_not_namespace in Hns.
Qed.

Lemma label_not_metrics l c p :
  is_label l -> no_sep "/" c = true -> no_sep "/" p = true ->
  BuildEnhancedLabelKey l c p <> "/metrics".
Proof.
  intros Hl Hc Hp Heq. apply (f_equal (Split "/")) in Heq.
  rewrite Split_Build in Heq by done. apply (f_equal length) in Heq.
  apply is_label_split in Hl as (a & b & r & Hl). rewrite Hl in Heq.
  rewrite length_app in Heq. simpl in Heq. lia.
Qed.

Lemma record_not_metrics s : "/records/" +:+ s <> "/metrics".
Proof. done. Qed.

(** ** The abstract state *)

(** How many times the published records carry a label. *)
Definition label_count (P : gmap string (list string)) (l : string) : Z :=
  map_fold (fun _ ls acc => (occ l ls + acc)%Z) 0%Z P.

Definition spec_publish (c : string) (ls : list string) (P : gmap string (list string)) :=
  match P !! c with Some _ => P | None => <[c := ls]> P end.

Definition spec_unpublish (c : string) (P : gmap string (list string)) := delete c P.

Lemma label_count_insert P c ls l :
  P !! c = None -> label_count (<[c := ls]> P) l = (occ l ls + label_count P l)%Z.
Proof. intros Hc. unfold label_count. rewrite map_fold_insert_L; [done|intros; lia|done]. Qed.

Lemma label_count_delete P c ls l :
  P !! c = Some ls -> label_count (delete c P) l = (label_count P l - occ l ls)%Z.
Proof.
  intros Hc. rewrite <- (insert_delete_id P c ls Hc) at 2.
  rewrite label_count_insert by apply lookup_delete_eq. lia.
Qed.

Lemma label_count_nonneg P l : (0 <= label_count P l)%Z.
Proof.
  induction P as [|c ls P Hc _ IH] using map_first_key_ind; [done|].
  rewrite label_count_insert by done. pose proof (occ_nonneg l ls). lia.
Qed.

Lemma label_count_lookup P c ls l :
  P !! c = Some ls -> (occ l ls <= label_count P l)%Z.
Proof.
  intros Hc. rewrite <- (insert_delete_id P c ls Hc).
  rewrite label_count_insert by apply lookup_delete_eq.
  pose proof (label_count_nonneg (delete c P) l). lia.
Qed.

Lemma label_count_pos P l :
  (0 < label_count P l)%Z -> exists c ls, P !! c = Some ls /\ l ∈ ls.
Proof.
  induction P as [|c ls P Hc _ IH] using map_first_key_ind; [done|].
  rewrite label_count_insert by done. intros Hpos.
  destruct (decide (0 < occ l ls)%Z) as [Hl|Hl].
  - exists c, ls. rewrite lookup_insert_eq. split; [done|]. by apply occ_pos.
  - destruct IH as (c' & ls' & Hc' & Hl'); [pose proof (occ_nonneg l ls); lia|].
    exists c', ls'. split; [|done]. rewrite lookup_insert_ne by naive_solver. done.
Qed.

(** ** Which datastores represent it *)

Section refinement.
Context {D N T : Type} `{Hds : !Datastore D} `{Hmd : !JsonCodec LabelMetadata}
  `{Hmt : !JsonCodec Metrics}.
Context {view : D -> gmap string string} {bops : Batch -> list BatchOp}
  `{!DatastoreSpec D view bops}.
Context {md_ok : LabelMetadata -> Prop} `{!JsonCodecSpec LabelMetadata md_ok}.
Context {text_ok : string -> Prop}
  `{!JsonCodecSpec Metrics (fun m => forall l, l ∈ dom (Data m) -> text_ok l)}.
Context (me : string).
Context (me_good : good_elem me = true).
Notation W := (World D N T).

Definition metrics_in (m : gmap string string) (mt : Metrics) : Prop :=
  match m !! "/metrics" with
  | None => mt = {| Data := ∅ |}
  | Some b => json_Unmarshal b = Ok mt
  end.

(** A label that belongs to one of the namespaces. *)
Definition ns_label (l : string) : Prop :=
  is_label l /\ exists ns, ns ∈ AllNamespaces /\ HasPrefix l (Prefix ns) = true.

(** Labels a record may carry: clean, and text. *)
Definition labels_ok (ls : list string) : Prop :=
  Forall (fun l => good_label l = true /\ text_ok l) ls.

Record rep (P : gmap string (list string)) (m : gmap string string) : Prop := {
  rep_good c ls : P !! c = Some ls -> good_elem c = true /\ labels_ok ls;
  rep_records s : is_Some (m !! ("/records/" +:+ s)) <-> is_Some (P !! s);
  rep_labels l c : ns_label l -> no_sep "/" c = true ->
    is_Some (m !! BuildEnhancedLabelKey l c me) <-> exists ls, P !! c = Some ls /\ l ∈ ls;
  rep_metrics : exists mt, metrics_in m mt /\ metrics_wf mt
    /\ forall l, total_of mt l = label_count P l;
}.

Lemma loadMetrics_in d mt : metrics_in (view d) mt -> loadMetrics d = Ok mt.
Proof.
  unfold metrics_in, loadMetrics. rewrite metrics_key_eq, ds_Get_spec.
  destruct (view d !! "/metrics"); [|by intros ->]. by intros ->.
Qed.

(** Writing well-formed metrics whose labels are text. *)
Lemma update_spec mt d :
  (forall l, (0 < total_of mt l)%Z -> text_ok l) -> metrics_wf mt ->
  exists b d', update mt d = (Ok tt, d') /\ view d' = <["/metrics" := b]> (view d)
    /\ json_Unmarshal b = Ok mt.
Proof.
  intros Htext Hwf. unfold update, try_bind, bind, ret.
  destruct (json_roundtrip mt) as (b & -> & Hb).
  { intros l Hl. apply elem_of_dom in Hl as [x Hx]. apply Htext.
    destruct (Hwf _ _ Hx). unfold total_of. rewrite Hx. lia. }
  rewrite metrics_key_eq. destruct (ds_Put_spec d "/metrics" b) as [H1 H2].
  destruct (ds_Put "/metrics" b d) as [r d'] eqn:E. simpl in *. subst. eauto.
Qed.

Lemma rep_metrics_text P m mt l :
  rep P m -> (forall l, total_of mt l = label_count P l) -> (0 < total_of mt l)%Z -> text_ok l.
Proof.
  intros Hrep Ht Hl. rewrite Ht in Hl. apply label_count_pos in Hl as (c & ls & Hc & Hl).
  destruct (rep_good _ _ Hrep _ _ Hc) as [_ Hok]. unfold labels_ok in Hok.
  rewrite Forall_forall in Hok. by apply Hok in Hl as [_ ?].
Qed.

(** Two ways to change the view: the label keys of one record appear, or go. *)
Definition label_keys (c : string) (ls : list string) : list string :=
  (fun l => BuildEnhancedLabelKey l c me) <$> ls.

Definition puts (kvs : list (string * string)) : list BatchOp :=
  (fun kv => BatchPut kv.1 kv.2) <$> kvs.

Lemma apply_puts m kvs k :
  is_Some (apply_ops m (puts kvs) !! k) <-> k ∈ kvs.*1 \/ is_Some (m !! k).
Proof.
  revert m. induction kvs as [|[x v] kvs IH]; intros m; simpl.
  - rewrite elem_of_nil. naive_solver.
  - change (apply_ops m (puts ((x, v) :: kvs))) with (apply_ops (<[x := v]> m) (puts kvs)).
    rewrite IH, lookup_insert_is_Some, elem_of_cons.
    destruct (decide (x = k)); naive_solver.
Qed.

Lemma puts_op_key kvs : op_key <$> puts kvs = kvs.*1.
Proof. induction kvs as [|[k v] kvs IH]; [done|]. simpl. f_equal. apply IH. Qed.

Lemma deletes_op_key (ks : list string) : op_key <$> (BatchDelete <$> ks) = ks.
Proof. induction ks as [|k ks IH]; [done|]. simpl. f_equal. apply IH. Qed.

Lemma label_key_elem l c c' ls :
  no_sep "/" c = true -> no_sep "/" c' = true ->
  BuildEnhancedLabelKey l c me ∈ label_keys c' ls <-> c = c' /\ l ∈ ls.
Proof.
  intros Hc Hc'. pose proof (good_elem_no_sep _ me_good).
  unfold label_keys. rewrite list_elem_of_fmap. split.
  - intros (l' & Heq & Hl'). apply Build_inj in Heq; naive_solver.
  - intros [-> Hl]. eauto.
Qed.

(** ** Listing *)

Lemma readable_ok es :
  routeLocal.readable ((fun e => {| QEntry := e; QError := None |}) <$> es) = es.
Proof. induction es as [|e es IH]; [done|]. simpl. f_equal. apply IH. Qed.

Lemma label_of_key_Some c e l :
  routeLocal.label_of_key me c e = Some l <->
  Key e = BuildEnhancedLabelKey l c me /\ is_label l /\ no_sep "/" c = true.
Proof.
  unfold routeLocal.label_of_key. split.
  - destruct (ParseEnhancedLabelKey (Key e)) as [[[l' c'] p']|] eqn:Hp; [|done].
    case_decide as Hd; [|done]. destruct Hd as [-> ->]. intros [= ->].
    apply Parse_components in Hp as Hc. apply Build_Parse in Hp. naive_solver.
  - intros (-> & Hl & Hc). rewrite Parse_Build by (done || by apply good_elem_no_sep).
    by rewrite decide_True.
Qed.

Lemma Build_has_prefix l c p ns :
  is_label l -> no_sep "/" ns = true ->
  HasPrefix (BuildEnhancedLabelKey l c p) (Prefix ns) = true <-> HasPrefix l (Prefix ns) = true.
Proof.
  intros Hl Hns. unfold BuildEnhancedLabelKey. rewrite !HasPrefix_true. split.
  - intros [r Hr]. apply is_label_split in Hl as (a & b & rest & Hl).
    exists (Join (b :: rest) "/"). rewrite <- (Join_Split "/" l), Hl.
    apply (f_equal (Split "/")) in Hr. unfold Prefix in *.
    rewrite !append_assoc, Split_rooted, !Split_slash, Hl, (Split_no_sep _ ns) in Hr by done.
    injection Hr as -> _. rewrite (Join_cons ""), (Join_cons ns) by done.
    by autorewrite with gostr.
  - intros [r ->]. exists (r +:+ "/" +:+ c +:+ "/" +:+ p). by rewrite !append_assoc.
Qed.

Lemma Prefix_inj k ns ns' :
  ns ∈ AllNamespaces -> ns' ∈ AllNamespaces ->
  HasPrefix k (Prefix ns) = true -> HasPrefix k (Prefix ns') = true -> ns = ns'.
Proof.
  intros Hns Hns' [r ->]%HasPrefix_true [r' Hr]%HasPrefix_true.
  apply (f_equal (Split "/")) in Hr. unfold Prefix in Hr.
  rewrite !append_assoc, !Split_rooted, !Split_slash in Hr.
  rewrite (Split_no_sep _ ns), (Split_no_sep _ ns') in Hr
    by by apply good_elem_no_sep, namespace_good.
  by simplify_eq/=.
Qed.

Lemma Prefix_clean ns : ns ∈ AllNamespaces -> path_Clean (Prefix ns) +:+ "/" = Prefix ns.
Proof.
  intros Hns. apply (proj1 (Forall_forall
    (fun n => path_Clean (Prefix n) +:+ "/" = Prefix n) AllNamespaces)); [|done].
  repeat constructor.
Qed.

Lemma namespace_labels_spec d c ns :
  ns ∈ AllNamespaces -> no_sep "/" c = true ->
  NoDup (routeLocal.namespace_labels me d c (Prefix ns)) /\
  forall l, l ∈ routeLocal.namespace_labels me d c (Prefix ns) <->
    is_label l /\ HasPrefix l (Prefix ns) = true
    /\ is_Some (view d !! BuildEnhancedLabelKey l c me).
Proof.
  intros Hns Hc. unfold routeLocal.namespace_labels.
  destruct (ds_Query_spec d (Prefix ns) (fun _ => true) (Prefix_clean ns Hns)) as (es & -> & Hes).
  rewrite readable_ok. split.
  - eapply (NoDup_omap_key _ Key); [intros e l _ Hl; by apply label_of_key_Some in Hl as [-> _]|].
    rewrite Hes. apply NoDup_query_entries_keys.
  - intros l. rewrite list_elem_of_omap. setoid_rewrite Hes.
    setoid_rewrite elem_of_query_entries. setoid_rewrite label_of_key_Some.
    assert (no_sep "/" ns = true) by by apply good_elem_no_sep, namespace_good. split.
    + intros (e & (Hv & Hp & _) & Hk & Hl & _). rewrite Hk in *.
      rewrite Build_has_prefix in Hp by done. eauto.
    + intros (Hl & Hp & [v Hv]).
      exists {| Key := BuildEnhancedLabelKey l c me; Value := v |}. simpl.
      rewrite Build_has_prefix by done. done.
Qed.

Lemma getRecordLabels_all d c :
  routeLocal.getRecordLabelsEfficiently me d c
  = (Prefix <$> AllNamespaces) ≫= routeLocal.namespace_labels me d c.
Proof. done. Qed.

(** The labels read back for a CID are the labels of the local peer's entries. *)
Lemma getRecordLabels_spec d c :
  no_sep "/" c = true ->
  NoDup (routeLocal.getRecordLabelsEfficiently me d c) /\
  forall l, l ∈ routeLocal.getRecordLabelsEfficiently me d c <->
    ns_label l /\ is_Some (view d !! BuildEnhancedLabelKey l c me).
Proof.
  intros Hc. rewrite getRecordLabels_all.
  assert (Hall : forall nss, nss ⊆ AllNamespaces -> NoDup nss ->
    NoDup ((Prefix <$> nss) ≫= routeLocal.namespace_labels me d c) /\
    forall l, l ∈ (Prefix <$> nss) ≫= routeLocal.namespace_labels me d c <->
      is_label l /\ (exists ns, ns ∈ nss /\ HasPrefix l (Prefix ns) = true)
      /\ is_Some (view d !! BuildEnhancedLabelKey l c me)).
  { induction nss as [|ns nss IH]; intros Hsub Hnd.
    { split; [constructor|]. intros l. setoid_rewrite elem_of_nil. naive_solver. }
    apply NoDup_cons in Hnd as [Hns Hnd]. destruct IH as [IHn IHe]; [set_solver|done|].
    destruct (namespace_labels_spec d c ns) as [Hn He]; [set_solver|done|].
    simpl. split.
    - apply NoDup_app. split; [done|]. split; [|done].
      intros l Hl Hl'. apply He in Hl as (_ & Hp & _).
      apply IHe in Hl' as (_ & (ns' & Hin & Hp') & _).
      assert (ns = ns') as -> by (eapply Prefix_inj; [..|done|done]; set_solver). done.
    - intros l. rewrite elem_of_app, He, IHe. clear. split.
      + intros [(? & ? & ?)|(? & (ns' & ? & ?) & ?)]; repeat split; try done;
          [exists ns|exists ns']; split; try done; by constructor.
      + intros (? & (ns' & [->|?]%elem_of_cons & ?) & ?); [by left|right]. eauto. }
  destruct (Hall AllNamespaces) as [Hn He]; [done| |].
  - apply (bool_decide_unpack _). by vm_compute.
  - split; [done|]. intros l. rewrite He. unfold ns_label. naive_solver.
Qed.

(** In a represented store they are the labels of the published record. *)
Lemma rep_record_labels P d c ls :
  rep P (view d) -> P !! c = Some ls ->
  NoDup (routeLocal.getRecordLabelsEfficiently me d c) /\
  forall l, l ∈ routeLocal.getRecordLabelsEfficiently me d c <-> l ∈ ls.
Proof.
  intros Hrep Hc. destruct (rep_good _ _ Hrep _ _ Hc) as [Hgc Hls].
  pose proof (good_elem_no_sep _ Hgc) as Hnc. destruct (getRecordLabels_spec d c Hnc) as [Hn He].
  split; [done|]. intros l. rewrite He. split.
  - intros [Hl Hk]. apply (rep_labels _ _ Hrep) in Hk; [|done..]. naive_solver.
  - intros Hl. unfold labels_ok in Hls. rewrite Forall_forall in Hls.
    destruct (Hls _ Hl) as [Hgl _].
    assert (ns_label l) by (split; [by apply good_label_is_label|by apply good_label_namespace]).
    split; [done|]. apply (rep_labels _ _ Hrep); [done..|]. eauto.
Qed.

(** When a query accepts a set of labels. *)
Definition query_accepts (q : RecordQuery) (ls : list string) : Prop :=
  match Query_Type q with
  | RECORD_QUERY_TYPE_SKILL =>
      exists l, l ∈ ls /\ (l = "/skills/" +:+ Query_Value q
                           \/ exists rest, l = "/skills/" +:+ Query_Value q +:+ "/" +:+ rest)
  | RECORD_QUERY_TYPE_LOCATOR => "/locators/" +:+ Query_Value q ∈ ls
  | RECORD_QUERY_TYPE_UNSPECIFIED => True
  | RECORD_QUERY_TYPE_OTHER _ => False
  end.

Lemma existsb_elem {A} (f : A -> bool) l : existsb f l = true <-> exists x, x ∈ l /\ f x = true.
Proof. rewrite existsb_exists. by setoid_rewrite list_elem_of_In. Qed.

Lemma queryMatchesLabels_spec q ls :
  routeLocal.queryMatchesLabels q ls = true <-> query_accepts q ls.
Proof.
  unfold routeLocal.queryMatchesLabels, query_accepts.
  destruct (Query_Type q); [done| | |done]; rewrite existsb_elem.
  - setoid_rewrite orb_true_iff. setoid_rewrite bool_decide_eq_true.
    setoid_rewrite HasPrefix_true. setoid_rewrite append_assoc. done.
  - setoid_rewrite bool_decide_eq_true. naive_solver.
Qed.

Lemma query_accepts_elem q ls ls' :
  (forall l, l ∈ ls <-> l ∈ ls') -> query_accepts q ls <-> query_accepts q ls'.
Proof. intros Heq. unfold query_accepts.
  destruct (Query_Type q); [done|by setoid_rewrite Heq|by rewrite Heq|done]. Qed.

Lemma matchesAllQueries_spec P d c ls qs :
  rep P (view d) -> P !! c = Some ls ->
  routeLocal.matchesAllQueries me d c qs = true <-> Forall (fun q => query_accepts q ls) qs.
Proof.
  intros Hrep Hc. destruct (rep_record_labels P d c ls Hrep Hc) as [_ He].
  assert (Hm : routeLocal.matchesAllQueries me d c qs
    = forallb (fun q => routeLocal.queryMatchesLabels q
        (routeLocal.getRecordLabelsEfficiently me d c)) qs) by by destruct qs.
  rewrite Hm, forallb_forall, Forall_forall. setoid_rewrite <- list_elem_of_In.
  setoid_rewrite queryMatchesLabels_spec.
  split; intros Hq q Hin; [apply (query_accepts_elem _ _ _ He)|apply (query_accepts_elem _ _ _ He)]; auto.
Qed.

(** The response for one entry of the record index, when it has one. *)
Definition response (d : D) (qs : list RecordQuery) (e : Entry) : option ListResponse :=
  let cid := TrimPrefix (Key e) "/records/" in
  if decide (cid = "") then None
  else if routeLocal.matchesAllQueries me d cid qs then
    Some {| Resp_Cid := cid; Labels := routeLocal.getRecordLabelsEfficiently me d cid |}
  else None.

Lemma list_loop_cons d qs limit n e rs :
  routeLocal.list_loop me d qs limit n ({| QEntry := e; QError := None |} :: rs)
  = match response d qs e with
    | None => routeLocal.list_loop me d qs limit n rs
    | Some x => x :: (if decide (limit > 0 /\ n + 1 >= limit)%Z then []
                      else routeLocal.list_loop me d qs limit (n + 1) rs)
    end.
Proof.
  unfold response. cbn [routeLocal.list_loop QError QEntry].
  destruct (decide (TrimPrefix (Key e) "/records/" = "")); [done|].
  by destruct (routeLocal.matchesAllQueries _ _ _ _).
Qed.

(** The loop sends the responses in order and stops at the limit. *)
Lemma list_loop_spec d qs limit n es :
  (0 <= limit)%Z -> (limit = 0 \/ n < limit)%Z ->
  routeLocal.list_loop me d qs limit n ((fun e => {| QEntry := e; QError := None |}) <$> es)
  = if decide (limit = 0)%Z then omap (response d qs) es
    else take (Z.to_nat (limit - n)) (omap (response d qs) es).
Proof.
  intros Hl. revert n. induction es as [|e es IH]; intros n Hn.
  { simpl. case_decide; [done|]. by rewrite take_nil. }
  rewrite fmap_cons, list_loop_cons.
  change (omap (response d qs) (e :: es)) with
    (match response d qs e with
     | Some y => y :: omap (response d qs) es | None => omap (response d qs) es end).
  destruct (response d qs e) as [x|]; [|by apply IH].
  destruct (decide (limit = 0)%Z) as [->|Hl0].
  { rewrite decide_False by lia. by rewrite IH by lia. }
  replace (Z.to_nat (limit - n)) with (S (Z.to_nat (limit - (n + 1)))) by lia.
  simpl. f_equal. case_decide as Hstop.
  - replace (Z.to_nat (limit - (n + 1))) with 0%nat by lia. done.
  - by rewrite IH by lia.
Qed.

Lemma elem_of_responses P d qs es x :
  rep P (view d) -> es ≡ₚ query_entries (view d) "/records/" (fun _ => true) ->
  x ∈ omap (response d qs) es <-> exists ls,
    P !! Resp_Cid x = Some ls /\ Forall (fun q => query_accepts q ls) qs
    /\ Labels x = routeLocal.getRecordLabelsEfficiently me d (Resp_Cid x).
Proof.
  intros Hrep Hes. destruct x as [c lbl]. rewrite list_elem_of_omap. setoid_rewrite Hes.
  setoid_rewrite elem_of_query_entries. simpl. split.
  - intros (e & (Hv & Hp & _) & Hr). apply HasPrefix_true in Hp as [c' Hk].
    unfold response in Hr. rewrite Hk, TrimPrefix_app in Hr. rewrite Hk in Hv.
    destruct (proj1 (rep_records _ _ Hrep c') (mk_is_Some _ _ Hv)) as [ls HP].
    repeat case_match; simplify_eq. exists ls. split; [done|]. split; [|done].
    by apply (matchesAllQueries_spec P d c ls).
  - intros (ls & HP & Hq & ->).
    destruct (proj2 (rep_records _ _ Hrep c) (mk_is_Some _ _ HP)) as [v Hv].
    exists {| Key := "/records/" +:+ c; Value := v |}. simpl.
    split; [split; [done|]; split; [apply HasPrefix_app|done]|].
    unfold response. simpl. rewrite TrimPrefix_app. rewrite decide_False.
    + by rewrite (proj2 (matchesAllQueries_spec P d c ls qs Hrep HP) Hq).
    + intros ->. by destruct (rep_good _ _ Hrep _ _ HP).
Qed.

Lemma NoDup_responses d qs es :
  es ≡ₚ query_entries (view d) "/records/" (fun _ => true) ->
  NoDup (Resp_Cid <$> omap (response d qs) es).
Proof.
  intros Hes. rewrite list_fmap_omap.
  apply (NoDup_omap_key _ Key (fun c => "/records/" +:+ c)).
  - intros e c He. rewrite Hes in He. apply elem_of_query_entries in He as (_ & [r Hk]%HasPrefix_true & _).
    simpl. unfold response. rewrite Hk, TrimPrefix_app.
    repeat case_match; intros; by simplify_eq/=.
  - rewrite Hes. apply NoDup_query_entries_keys.
Qed.

(** The responses of List: one for each record that is asked for. *)
Lemma List_responses P d qs limit :
  rep P (view d) -> (0 <= limit)%Z ->
  exists all, routeLocal.List me d qs limit
      = Ok (if decide (limit = 0%Z) then all else take (Z.to_nat limit) all)
    /\ NoDup (Resp_Cid <$> all)
    /\ forall x, x ∈ all <-> exists ls, P !! Resp_Cid x = Some ls /\ Forall (fun q => query_accepts q ls) qs
         /\ Labels x = routeLocal.getRecordLabelsEfficiently me d (Resp_Cid x).
Proof.
  intros Hrep Hlim. unfold routeLocal.List, routeLocal.listLocalRecords.
  destruct (ds_Query_spec d "/records/" (fun _ => true) eq_refl) as (es & -> & Hes).
  exists (omap (response d qs) es). rewrite list_loop_spec by lia. rewrite Z.sub_0_r.
  split; [done|]. split; [by apply NoDup_responses|]. intros x. by apply elem_of_responses.
Qed.

(** C23. Listing.  On a represented datastore, List without a limit sends one
    response per published record whose labels all queries accept, each with
    exactly the record's labels, without duplicates; with a limit it sends the
    first [limit] of them. *)
Theorem List_exact P d qs limit :
  rep P (view d) -> (0 <= limit)%Z ->
  exists all, routeLocal.List me d qs limit
      = Ok (if decide (limit = 0%Z) then all else take (Z.to_nat limit) all)
    /\ NoDup (Resp_Cid <$> all)
    /\ (forall c, c ∈ Resp_Cid <$> all <->
          exists ls, P !! c = Some ls /\ Forall (fun q => query_accepts q ls) qs)
    /\ (forall x, x ∈ all -> exists ls, P !! Resp_Cid x = Some ls /\ NoDup (Labels x)
          /\ forall l, l ∈ Labels x <-> l ∈ ls).
Proof.
  intros Hrep Hlim. destruct (List_responses P d qs limit Hrep Hlim) as (all & Hrun & Hnd & Hresp).
  exists all. split; [done|]. split; [done|]. split.
  - intros c. rewrite list_elem_of_fmap. setoid_rewrite Hresp. split; [naive_solver|].
    intros (ls & HP & Hq).
    exists {| Resp_Cid := c; Labels := routeLocal.getRecordLabelsEfficiently me d c |}. eauto.
  - intros x (ls & HP & _ & Hl)%Hresp. exists ls. split; [done|]. rewrite Hl.
    by apply (rep_record_labels P).
Qed.

(** ** Publishing and unpublishing *)

Context (clock : nat -> Time).
Context (clock_ok : forall i, md_ok {| Timestamp := clock i; LastSeen := clock (S i) |}).

(** The loops over the labels only build the batch and the metrics. *)
Lemma publish_label_ok c l batch mt (w : W) :
  good_elem c = true -> good_label l = true ->
  exists batch' b,
    routeLocal.publish_label clock me c (batch, mt) l w
      = (Ok (batch', increment l mt),
         {| w_ds := w_ds w; w_net := w_net w; w_store := w_store w; w_tick := S (S (w_tick w)) |})
    /\ bops batch' = bops batch ++ [BatchPut (BuildEnhancedLabelKey l c me) b].
Proof.
  intros Hc Hl. unfold routeLocal.publish_label, bind, time_Now. simpl.
  destruct (json_roundtrip _ (clock_ok (w_tick w))) as (b & -> & _).
  rewrite NewKey_label by done.
  destruct (batch_Put_spec batch (BuildEnhancedLabelKey l c me) b) as (b1 & -> & Hb1).
  by exists b1, b.
Qed.

Lemma publish_labels c ls batch mt (w : W) :
  good_elem c = true -> labels_ok ls ->
  exists batch' kvs w',
    for_try (routeLocal.publish_label clock me c) (batch, mt) ls w
      = (Ok (batch', foldl (fun m l => increment l m) mt ls), w')
    /\ w_ds w' = w_ds w /\ w_net w' = w_net w /\ w_store w' = w_store w
    /\ bops batch' = bops batch ++ puts kvs /\ kvs.*1 = label_keys c ls.
Proof.
  intros Hc. revert batch mt w. induction ls as [|l ls IH]; intros batch mt w Hls.
  { exists batch, [], w. by rewrite app_nil_r. }
  apply Forall_cons in Hls as [[Hl _] Hls].
  destruct (publish_label_ok c l batch mt w Hc Hl) as (b1 & b & Hrun & Hb1).
  erewrite for_try_cons by exact Hrun.
  edestruct IH as (b2 & kvs & w2 & -> & Hwd & Hn & Hst & Hb2 & Hkvs); [done|].
  exists b2, ((BuildEnhancedLabelKey l c me, b) :: kvs), w2.
  rewrite Hb2, Hb1, <- app_assoc. repeat split; try done. simpl. f_equal. apply Hkvs.
Qed.

Lemma unpublish_labels c ls batch mt (w : W) :
  good_elem c = true -> labels_ok ls ->
  exists batch',
    for_try (routeLocal.unpublish_label me c) (batch, mt) ls w
      = (Ok (batch', foldl (fun m l => decrement l m) mt ls), w)
    /\ bops batch' = bops batch ++ (BatchDelete <$> label_keys c ls).
Proof.
  intros Hc. revert batch mt. induction ls as [|l ls IH]; intros batch mt Hls.
  { exists batch. by rewrite app_nil_r. }
  apply Forall_cons in Hls as [[Hl _] Hls].
  destruct (batch_Delete_spec batch (BuildEnhancedLabelKey l c me)) as (b1 & Hrun & Hb1).
  erewrite for_try_cons; [|unfold routeLocal.unpublish_label; rewrite NewKey_label, Hrun by done; done].
  destruct (IH b1 (decrement l mt) Hls) as (b2 & -> & Hb2).
  exists b2. by rewrite Hb2, Hb1, <- app_assoc.
Qed.

(** What a run of Publish does to a represented store, on each of its branches. *)
Lemma Publish_run P (w : W) c r :
  rep P (view (w_ds w)) -> good_elem c = true -> labels_ok (getLabels (Some r)) ->
  (forall l, (label_count P l + occ l (getLabels (Some r)) < uint64_max)%Z) ->
  exists w', routeLocal.Publish clock me (Some {| ref_Cid := c |}) (Some r) w = (Ok tt, w')
    /\ w_net w' = w_net w /\ w_store w' = w_store w
    /\ match P !! c with
       | Some _ => w' = w
       | None => exists mt' b kvs,
           view (w_ds w') = <["/metrics" := b]>
             (apply_ops (<["/records/" +:+ c := ""]> (view (w_ds w))) (puts kvs))
           /\ kvs.*1 = label_keys c (getLabels (Some r))
           /\ json_Unmarshal b = Ok mt' /\ metrics_wf mt'
           /\ forall l, total_of mt' l = (label_count P l + occ l (getLabels (Some r)))%Z
       end.
Proof.
  intros Hrep Hc Hls Hbound. destruct (rep_metrics _ _ Hrep) as (mt & Hin & Hwf & Htot).
  unfold routeLocal.Publish. rewrite decide_False by done.
  erewrite try_bind_ok by (unfold read_ds; by rewrite (loadMetrics_in _ _ Hin)).
  destruct (ds_Batch_spec (w_ds w)) as (b0 & Hb0 & Hops0).
  erewrite try_bind_ok by (unfold read_ds; by rewrite Hb0).
  simpl (ref_GetCid _). rewrite NewKey_record by done.
  erewrite try_bind_ok by (unfold read_ds; by rewrite ds_Has_spec).
  pose proof (rep_records _ _ Hrep c) as Hrc.
  destruct (P !! c) as [ls|] eqn:HPc.
  { rewrite bool_decide_true by (apply Hrc; eauto). by exists w. }
  rewrite bool_decide_false by (rewrite Hrc; apply is_Some_None).
  destruct (batch_Put_spec b0 ("/records/" +:+ c) "") as (b1 & -> & Hb1).
  destruct (publish_labels c (getLabels (Some r)) b1 mt w Hc Hls)
    as (b2 & kvs & w2 & Hrun & Hwd & Hn & Hst & Hb2 & Hkvs).
  erewrite try_bind_ok by exact Hrun. simpl.
  destruct (batch_Commit_spec (w_ds w2) b2) as [Hcr Hcv].
  destruct (batch_Commit b2 (w_ds w2)) as [cr d3] eqn:Hcommit. simpl in Hcr, Hcv. subst cr.
  erewrite try_bind_ok by (unfold on_ds; by rewrite Hcommit).
  destruct (increments_total (getLabels (Some r)) mt Hwf) as [Hwf' Htot'].
  { intros l. rewrite Htot. apply Hbound. }
  destruct (update_spec (foldl (fun m l => increment l m) mt (getLabels (Some r))) d3)
    as (b & d4 & Hup & Hv4 & Hb); [|done|].
  { intros l. rewrite Htot', Htot. intros Hpos.
    destruct (decide (l ∈ getLabels (Some r))) as [Hl|Hl].
    - unfold labels_ok in Hls. rewrite Forall_forall in Hls. by apply Hls in Hl as [_ ?].
    - assert (~ 0 < occ l (getLabels (Some r)))%Z by (by rewrite <- occ_pos).
      eapply (rep_metrics_text P _ mt); [done..|]. rewrite Htot. lia. }
  erewrite try_bind_ok by (unfold on_ds; simpl; by rewrite Hup).
  eexists. split; [done|]. simpl. rewrite Hn, Hst. split; [done|]. split; [done|].
  exists (foldl (fun m l => increment l m) mt (getLabels (Some r))), b, kvs.
  rewrite Hv4, Hcv, Hb2, Hb1, Hops0, Hwd. split; [done|]. split; [done|]. split; [done|].
  split; [done|]. intros l. by rewrite Htot', Htot.
Qed.

Lemma ns_label_no_metrics l c :
  ns_label l -> no_sep "/" c = true -> BuildEnhancedLabelKey l c me <> "/metrics".
Proof.
  intros [Hl _] Hc. apply label_not_metrics; [done..|]. by apply good_elem_no_sep.
Qed.

Lemma ns_label_no_record l c s :
  ns_label l -> BuildEnhancedLabelKey l c me <> "/records/" +:+ s.
Proof.
  intros [_ (ns & Hns & (r & ->)%HasPrefix_true)]. unfold BuildEnhancedLabelKey, Prefix.
  intros Heq. apply (f_equal (Split "/")) in Heq. rewrite !append_assoc in Heq.
  change ("/records/" +:+ s) with ("/" +:+ "records" +:+ "/" +:+ s) in Heq.
  rewrite !Split_rooted, !Split_slash in Heq.
  rewrite (Split_no_sep "/" ns) in Heq by by apply good_elem_no_sep, namespace_good.
  rewrite (Split_no_sep "/" "records") in Heq by done. simplify_eq/=.
  by apply records_not_namespace in Hns.
Qed.

Lemma record_key_not_label s c ls :
  labels_ok ls -> good_elem c = true -> "/records/" +:+ s ∉ label_keys c ls.
Proof.
  intros Hls Hc (l & Heq & Hl)%list_elem_of_fmap. unfold labels_ok in Hls.
  rewrite Forall_forall in Hls. apply Hls in Hl as [Hl _].
  by apply (label_not_record l c me s Hl Hc me_good).
Qed.

Lemma rep_publish P m c ls b mt kvs :
  rep P m -> P !! c = None -> good_elem c = true -> labels_ok ls ->
  kvs.*1 = label_keys c ls -> json_Unmarshal b = Ok mt -> metrics_wf mt ->
  (forall l, total_of mt l = (label_count P l + occ l ls)%Z) ->
  rep (<[c := ls]> P)
      (<["/metrics" := b]> (apply_ops (<["/records/" +:+ c := ""]> m) (puts kvs))).
Proof.
  intros Hrep HPc Hc Hls Hkvs Hb Hwf Htot. split.
  - intros c' ls'. rewrite lookup_insert_Some. intros [[-> ->]|[_ ?]]; [done|].
    by apply (rep_good _ _ Hrep).
  - intros s. rewrite lookup_insert_ne by (symmetry; apply record_not_metrics).
    rewrite apply_puts, Hkvs, !lookup_insert_is_Some, (rep_records _ _ Hrep).
    pose proof (record_key_not_label s c ls Hls Hc).
    assert ("/records/" +:+ c = "/records/" +:+ s <-> c = s).
    { split; [apply append_inj_l|by intros ->]. }
    destruct (decide (c = s)); naive_solver.
  - intros l c' Hl Hc'. pose proof (good_elem_no_sep _ Hc).
    rewrite lookup_insert_ne by (apply not_eq_sym; by apply ns_label_no_metrics).
    rewrite apply_puts, Hkvs, lookup_insert_ne by (apply not_eq_sym; by apply ns_label_no_record).
    rewrite label_key_elem, (rep_labels _ _ Hrep) by done.
    setoid_rewrite lookup_insert_Some. split; [naive_solver|].
    intros (ls' & [[-> ->]|[Hne HP]] & Hl'); naive_solver.
  - exists mt. split; [|split; [done|]].
    + unfold metrics_in. by rewrite lookup_insert_eq.
    + intros l. rewrite Htot, label_count_insert by done. lia.
Qed.

(** Removing the entries of a record that is published with the given labels. *)
Lemma rep_unpublish P m c ls b mt :
  rep P m -> P !! c = Some ls -> json_Unmarshal b = Ok mt -> metrics_wf mt ->
  (forall l, total_of mt l = (label_count P l - occ l ls)%Z) ->
  rep (delete c P)
      (<["/metrics" := b]> (apply_ops m (BatchDelete <$> ("/records/" +:+ c) :: label_keys c ls))).
Proof.
  intros Hrep HPc Hb Hwf Htot. destruct (rep_good _ _ Hrep _ _ HPc) as [Hc Hls]. split.
  - intros c' ls' [_ ?]%lookup_delete_Some. by apply (rep_good _ _ Hrep).
  - intros s. rewrite lookup_insert_ne by (symmetry; apply record_not_metrics).
    rewrite apply_deletes. pose proof (record_key_not_label s c ls Hls Hc) as Hn.
    destruct (decide (c = s)) as [->|Hne].
    + rewrite decide_True by left. rewrite lookup_delete_eq. done.
    + rewrite decide_False, lookup_delete_ne, (rep_records _ _ Hrep); [done..|].
      apply not_elem_of_cons. split; [|done]. intros Heq. by apply append_inj_l in Heq.
  - intros l c' Hl Hc'. pose proof (good_elem_no_sep _ Hc).
    rewrite lookup_insert_ne by (apply not_eq_sym; by apply ns_label_no_metrics).
    rewrite apply_deletes. setoid_rewrite lookup_delete_Some.
    assert (Hk : BuildEnhancedLabelKey l c' me ∈ ("/records/" +:+ c) :: label_keys c ls
      <-> c' = c /\ l ∈ ls).
    { rewrite elem_of_cons, label_key_elem by done. pose proof (ns_label_no_record l c' c Hl).
      naive_solver. }
    pose proof (rep_labels _ _ Hrep l c' Hl Hc') as Hold. case_decide as Hd.
    + apply Hk in Hd as [-> Hd]. split; [by intros []|]. naive_solver.
    + rewrite Hold. rewrite Hk in Hd. split; [|naive_solver].
      intros (ls' & HP & Hl'). exists ls'. split; [|done]. split; [|done].
      intros ->. rewrite HPc in HP. naive_solver.
  - exists mt. split; [|split; [done|]].
    + unfold metrics_in. by rewrite lookup_insert_eq.
    + intros l. by rewrite Htot, (label_count_delete _ _ _ _ HPc).
Qed.

(** What a run of Unpublish does, published or not. *)
Lemma Unpublish_run P (w : W) c r :
  rep P (view (w_ds w)) -> good_elem c = true -> labels_ok (getLabels (Some r)) ->
  exists w' mt' b, routeLocal.Unpublish me (Some {| ref_Cid := c |}) (Some r) w = (Ok tt, w')
    /\ w_net w' = w_net w /\ w_store w' = w_store w
    /\ view (w_ds w') = <["/metrics" := b]> (apply_ops (view (w_ds w))
         (BatchDelete <$> ("/records/" +:+ c) :: label_keys c (getLabels (Some r))))
    /\ json_Unmarshal b = Ok mt' /\ metrics_wf mt'
    /\ forall l, total_of mt' l = Z.max 0 (label_count P l - occ l (getLabels (Some r))).
Proof.
  intros Hrep Hc Hls. destruct (rep_metrics _ _ Hrep) as (mt & Hin & Hwf & Htot).
  unfold routeLocal.Unpublish. rewrite decide_False by done.
  erewrite try_bind_ok by (unfold read_ds; by rewrite (loadMetrics_in _ _ Hin)).
  destruct (ds_Batch_spec (w_ds w)) as (b0 & Hb0 & Hops0).
  erewrite try_bind_ok by (unfold read_ds; by rewrite Hb0).
  simpl (ref_GetCid _). rewrite NewKey_record by done.
  destruct (batch_Delete_spec b0 ("/records/" +:+ c)) as (b1 & -> & Hb1).
  destruct (unpublish_labels c (getLabels (Some r)) b1 mt w Hc Hls) as (b2 & Hrun & Hb2).
  erewrite try_bind_ok by exact Hrun. simpl.
  destruct (batch_Commit_spec (w_ds w) b2) as [Hcr Hcv].
  destruct (batch_Commit b2 (w_ds w)) as [cr d3] eqn:Hcommit. simpl in Hcr, Hcv. subst cr.
  erewrite try_bind_ok by (unfold on_ds; by rewrite Hcommit).
  destruct (decrements_total (getLabels (Some r)) mt Hwf) as [Hwf' Htot'].
  destruct (update_spec (foldl (fun m l => decrement l m) mt (getLabels (Some r))) d3)
    as (b & d4 & Hup & Hv4 & Hb); [|done|].
  { intros l. rewrite Htot', Htot. intros Hpos. pose proof (occ_nonneg l (getLabels (Some r))).
    eapply (rep_metrics_text P _ mt); [done..|]. rewrite Htot. lia. }
  erewrite try_bind_ok by (unfold on_ds; simpl; by rewrite Hup).
  eexists _, _, b. split; [done|]. simpl. split; [done|]. split; [done|].
  rewrite Hv4, Hcv, Hb2, Hb1, Hops0. split; [done|]. split; [done|].
  split; [done|]. intros l. by rewrite Htot', Htot.
Qed.

Lemma Publish_step P (w : W) c r :
  rep P (view (w_ds w)) -> good_elem c = true -> labels_ok (getLabels (Some r)) ->
  (forall l, (label_count P l + occ l (getLabels (Some r)) < uint64_max)%Z) ->
  exists w', routeLocal.Publish clock me (Some {| ref_Cid := c |}) (Some r) w = (Ok tt, w')
    /\ rep (spec_publish c (getLabels (Some r)) P) (view (w_ds w')).
Proof.
  intros Hrep Hc Hls Hb. destruct (Publish_run P w c r Hrep Hc Hls Hb) as (w' & Hrun & _ & _ & Hw').
  exists w'. split; [done|]. unfold spec_publish. destruct (P !! c) eqn:HPc; [by subst|].
  destruct Hw' as (mt' & b & kvs & -> & Hkvs & Hun & Hwf & Htot). by eapply rep_publish.
Qed.

Lemma Unpublish_step P (w : W) c r :
  rep P (view (w_ds w)) -> P !! c = Some (getLabels (Some r)) ->
  exists w', routeLocal.Unpublish me (Some {| ref_Cid := c |}) (Some r) w = (Ok tt, w')
    /\ rep (spec_unpublish c P) (view (w_ds w')).
Proof.
  intros Hrep HPc. destruct (rep_good _ _ Hrep _ _ HPc) as [Hc Hls].
  destruct (Unpublish_run P w c r Hrep Hc Hls)
    as (w' & mt' & b & Hrun & _ & _ & Hv & Hun & Hwf & Htot).
  exists w'. split; [done|]. rewrite Hv. eapply rep_unpublish; [done..|].
  intros l. rewrite Htot. pose proof (label_count_lookup _ _ _ l HPc). lia.
Qed.

(** ** Sequences of calls *)

Inductive call :=
  | CallPublish (c : string) (r : CoreRecord)
  | CallUnpublish (c : string) (r : CoreRecord).

Definition run_call (x : call) : M W (result unit) :=
  match x with
  | CallPublish c r => routeLocal.Publish clock me (Some {| ref_Cid := c |}) (Some r)
  | CallUnpublish c r => routeLocal.Unpublish me (Some {| ref_Cid := c |}) (Some r)
  end.

Definition spec_call (P : gmap string (list string)) (x : call) : gmap string (list string) :=
  match x with
  | CallPublish c r => spec_publish c (getLabels (Some r)) P
  | CallUnpublish c _ => spec_unpublish c P
  end.

(** A call the router's clients make: records with clean labels whose counts do
    not overflow are published, and what is unpublished is published, with the
    labels it was published with. *)
Definition call_ok (P : gmap string (list string)) (x : call) : Prop :=
  match x with
  | CallPublish c r => good_elem c = true /\ labels_ok (getLabels (Some r))
      /\ forall l, (label_count P l + occ l (getLabels (Some r)) < uint64_max)%Z
  | CallUnpublish c r => P !! c = Some (getLabels (Some r))
  end.

Fixpoint calls_ok (P : gmap string (list string)) (xs : list call) : Prop :=
  match xs with
  | [] => True
  | x :: xs => call_ok P x /\ calls_ok (spec_call P x) xs
  end.

Fixpoint run_calls (xs : list call) (w : W) : list (result unit) * W :=
  match xs with
  | [] => ([], w)
  | x :: xs => let '(r, w) := run_call x w in let '(rs, w) := run_calls xs w in (r :: rs, w)
  end.

Lemma rep_empty m :
  m !! "/metrics" = None ->
  (forall k, HasPrefix k "/records/" = true -> m !! k = None) ->
  (forall l c, ns_label l -> no_sep "/" c = true -> m !! BuildEnhancedLabelKey l c me = None) ->
  rep ∅ m.
Proof.
  intros Hm Hr Hl. split.
  - done.
  - intros s. rewrite (Hr _ (HasPrefix_app "/records/" s)), lookup_empty. done.
  - intros l c Hnl Hc. rewrite Hl by done. setoid_rewrite lookup_empty.
    split; [by intros []|naive_solver].
  - exists {| Data := ∅ |}. unfold metrics_in. rewrite Hm. split; [done|]. split; [done|].
    intros l. done.
Qed.

(** C1. The local router implements a map of published records.  From a datastore
    that holds none of the router's keys, every sequence of Publish and
    Unpublish calls (each Unpublish of a record that is published then) succeeds,
    and the datastore represents the map that results from inserting and
    removing: a record entry per published CID, the label entries of the local
    peer for exactly the labels of published records, and metrics equal to the
    number of times published records carry each label. *)
Theorem router_refines_map xs (w : W) :
  view (w_ds w) !! "/metrics" = None ->
  (forall k, HasPrefix k "/records/" = true -> view (w_ds w) !! k = None) ->
  (forall l c, ns_label l -> no_sep "/" c = true ->
     view (w_ds w) !! BuildEnhancedLabelKey l c me = None) ->
  calls_ok ∅ xs ->
  Forall (fun r => r = Ok tt) (run_calls xs w).1 /\
  rep (foldl spec_call ∅ xs) (view (w_ds (run_calls xs w).2)).
Proof.
  intros Hm Hr Hl Hok. pose proof (rep_empty _ Hm Hr Hl) as Hrep. clear Hm Hr Hl.
  revert w Hrep Hok. generalize (∅ : gmap string (list string)).
  induction xs as [|x xs IH]; intros P w Hrep Hok; simpl; [done|].
  destruct Hok as [Hx Hok].
  assert (exists w', run_call x w = (Ok tt, w') /\ rep (spec_call P x) (view (w_ds w')))
    as (w' & -> & Hrep').
  { destruct x as [c r|c r]; simpl in *; [apply Publish_step|apply Unpublish_step]; naive_solver. }
  destruct (run_calls xs w') as [rs w''] eqn:E.
  destruct (IH _ w' Hrep' Hok) as [H1 H2]. rewrite E in H1, H2. by split; [constructor|].
Qed.

(** A call touches its own entries only.  Publishing a record that is
    published changes nothing at all; any Publish or Unpublish leaves every
    entry alone that is not the record's entry, one of its label entries or the
    metrics, so labels announced by other peers survive, and neither the
    network nor the record store is used. *)
Theorem calls_touch_own_keys P (w : W) c r :
  rep P (view (w_ds w)) -> good_elem c = true -> labels_ok (getLabels (Some r)) ->
  (forall l, (label_count P l + occ l (getLabels (Some r)) < uint64_max)%Z) ->
  let own := "/metrics" :: ("/records/" +:+ c) :: label_keys c (getLabels (Some r)) in
  (is_Some (P !! c) -> run_call (CallPublish c r) w = (Ok tt, w)) /\
  Forall (fun x => exists w', run_call x w = (Ok tt, w')
            /\ w_net w' = w_net w /\ w_store w' = w_store w
            /\ forall k, k ∉ own -> view (w_ds w') !! k = view (w_ds w) !! k)
    [CallPublish c r; CallUnpublish c r].
Proof.
  intros Hrep Hc Hls Hb own. subst own.
  destruct (Publish_run P w c r Hrep Hc Hls Hb) as (wp & Hp & Hpn & Hps & Hpw).
  destruct (Unpublish_run P w c r Hrep Hc Hls) as (wu & mt & b & Hu & Hun & Hus & Huw & _).
  split.
  { intros [ls HP]. rewrite HP in Hpw. by subst. }
  repeat constructor; [exists wp|exists wu]; repeat split; try done; intros k Hk;
    rewrite !not_elem_of_cons in Hk; destruct Hk as (Hk1 & Hk2 & Hk3).
  - destruct (P !! c); [by subst|]. destruct Hpw as (mt' & b' & kvs & -> & Hkvs & _).
    rewrite lookup_insert_ne by done.
    rewrite apply_ops_other by (by rewrite puts_op_key, Hkvs). by rewrite lookup_insert_ne.
  - rewrite Huw, lookup_insert_ne by done. apply apply_ops_other.
    rewrite deletes_op_key. by apply not_elem_of_cons.
Qed.

(** Unpublish does not look whether the record is published: unpublishing a
    record that is not published succeeds, leaves the set of published records
    as it was, and lowers the metrics of every label it shares with published
    records below the number of published records that carry it. *)
Theorem Unpublish_unpublished_undercounts P (w : W) c r l :
  rep P (view (w_ds w)) -> P !! c = None -> good_elem c = true ->
  labels_ok (getLabels (Some r)) -> l ∈ getLabels (Some r) -> (0 < label_count P l)%Z ->
  exists w' mt, routeLocal.Unpublish me (Some {| ref_Cid := c |}) (Some r) w = (Ok tt, w')
    /\ (forall s, is_Some (view (w_ds w') !! ("/records/" +:+ s)) <-> is_Some (P !! s))
    /\ loadMetrics (w_ds w') = Ok mt /\ (total_of mt l < label_count P l)%Z.
Proof.
  intros Hrep HP Hc Hls Hl Hpos. apply occ_pos in Hl.
  destruct (Unpublish_run P w c r Hrep Hc Hls) as (w' & mt & b & Hu & _ & _ & Hw & Hb & Hwf & Htot).
  exists w', mt. split; [done|]. split; [|split].
  - intros s. rewrite Hw, lookup_insert_ne by (symmetry; apply record_not_metrics).
    rewrite apply_deletes. case_decide as Hd; [|apply (rep_records _ _ Hrep)].
    apply elem_of_cons in Hd as [Hd|Hd]; [|by apply record_key_not_label in Hd].
    apply append_inj_l in Hd as ->. rewrite HP. done.
  - apply loadMetrics_in. unfold metrics_in. by rewrite Hw, lookup_insert_eq.
  - rewrite Htot. lia.
Qed.

End refinement.

(** ** An executable instance *)

Module DemoLocal.
Import MapDatastore.

#[export] Instance md_codec : JsonCodec LabelMetadata := BinaryCodec.codec LabelMetadata.
#[export] Instance mt_codec : JsonCodec Metrics := BinaryCodec.codec Metrics.
#[export] Instance md_spec : JsonCodecSpec LabelMetadata (fun _ => True) :=
  BinaryCodec.codec_spec LabelMetadata.
#[export] Instance mt_spec :
  JsonCodecSpec Metrics (fun m => forall l, l ∈ dom (Data m) -> True).
Proof.
  split. intros m _. by apply (@json_roundtrip _ _ _ (BinaryCodec.codec_spec Metrics) m I).
Qed.

Definition clock (i : nat) : Time := Z.of_nat (S i).

(** A record with a skill and a locator. *)
Definition demo_record (skill : string) : CoreRecord := {|
  GetData := Some (Record_V3 (Some {|
    ag_Annotations := ∅; ag_SchemaVersion := "v0.5.0"; ag_Name := "demo"; ag_Version := "1";
    ag_Description := ""; ag_Authors := []; ag_CreatedAt := "";
    ag_Skills := [Some {| sk_Annotations := ∅; sk_Name := skill; sk_Id := 1 |}];
    ag_Locators := [Some {| loc_Annotations := ∅; loc_Type := "docker"; loc_Url := "";
                            loc_Size := 0; loc_Digest := "" |}];
    ag_Extensions := []; ag_Signature := None; ag_PreviousCid := "" |})) |}.

Definition demo_world : World (gmap string string) unit unit :=
  {| w_ds := ∅; w_net := tt; w_store := tt; w_tick := 0 |}.

Definition demo_calls : list call :=
  [CallPublish "c1" (demo_record "nlp/qa"); CallPublish "c2" (demo_record "nlp/ner");
   CallPublish "c1" (demo_record "nlp/qa"); CallUnpublish "c1" (demo_record "nlp/qa")].

Lemma demo_labels_ok s :
  good_label ("/skills/" +:+ s) = true -> labels_ok (text_ok := fun _ => True) (getLabels (Some (demo_record s))).
Proof. intros Hs. repeat constructor. done. Qed.

(** The labels of all published records, an upper bound of each count. *)
Definition weight (P : gmap string (list string)) : Z :=
  map_fold (fun _ ls acc => (Z.of_nat (length ls) + acc)%Z) 0%Z P.

Lemma label_count_weight P l : (label_count P l <= weight P)%Z.
Proof.
  induction P as [|c ls P Hc _ IH] using map_first_key_ind; [done|].
  rewrite label_count_insert by done. unfold weight.
  rewrite map_fold_insert_L by (done || (intros; lia)). fold (weight P).
  pose proof (occ_le_length l ls). lia.
Qed.

Lemma demo_bound P s l :
  (weight P <= 100 -> label_count P l + occ l (getLabels (Some (demo_record s))) < uint64_max)%Z.
Proof.
  intros HP. pose proof (occ_le_length l (getLabels (Some (demo_record s)))).
  pose proof (label_count_weight P l). simpl in *. unfold uint64_max. lia.
Qed.

Lemma demo_publish_ok P c s :
  good_elem c = true -> good_label ("/skills/" +:+ s) = true -> (weight P <= 100)%Z ->
  call_ok (text_ok := fun _ => True) P (CallPublish c (demo_record s)).
Proof.
  intros Hc Hs HP. split; [done|]. split; [by apply demo_labels_ok|]. intros l. by apply demo_bound.
Qed.

Lemma router_refines_map_witness :
  Forall (fun r => r = Ok tt) (run_calls "me" clock demo_calls demo_world).1 /\
  rep (text_ok := fun _ => True) "me" (foldl spec_call ∅ demo_calls)
    (view (w_ds (run_calls "me" clock demo_calls demo_world).2)) /\
  is_Some (foldl spec_call ∅ demo_calls !! "c2") /\ foldl spec_call ∅ demo_calls !! "c1" = None.
Proof.
  assert (Forall (fun r => r = Ok tt) (run_calls "me" clock demo_calls demo_world).1 /\
    rep (text_ok := fun _ => True) "me" (foldl spec_call ∅ demo_calls)
      (view (w_ds (run_calls "me" clock demo_calls demo_world).2))) as [H1 H2].
  { apply (router_refines_map "me" eq_refl clock (fun _ => I) demo_calls demo_world);
      try (intros; reflexivity).
    repeat split; try (apply demo_publish_ok; [reflexivity|reflexivity|vm_compute; discriminate]).
    all: try (intros l; apply demo_bound; vm_compute; discriminate).
    all: try (apply demo_labels_ok; reflexivity). }
  split; [exact H1|]. split; [exact H2|]. split; [eexists|]; reflexivity.
Defined.

(** The store after one record is published. *)
Definition demo_state : gmap string (list string) :=
  spec_publish "c1" (getLabels (Some (demo_record "nlp/qa"))) ∅.

Definition demo_world1 : World (gmap string string) unit unit :=
  (run_call "me" clock (CallPublish "c1" (demo_record "nlp/qa")) demo_world).2.

Lemma demo_rep : rep (text_ok := fun _ => True) "me" demo_state (view (w_ds demo_world1)).
Proof.
  assert (Hempty : rep (text_ok := fun _ => True) "me" ∅ (view (w_ds demo_world)))
    by by apply rep_empty.
  destruct (Publish_step (text_ok := fun _ => True) "me" eq_refl clock (fun _ => I) ∅ demo_world
    "c1" (demo_record "nlp/qa") Hempty) as (w' & Hrun & Hrep).
  - done.
  - by apply demo_labels_ok.
  - intros l. by apply demo_bound.
  - unfold demo_world1, run_call. by rewrite Hrun.
Qed.

Lemma List_exact_witness :
  exists all, routeLocal.List "me" (w_ds demo_world1)
      [{| Query_Type := RECORD_QUERY_TYPE_SKILL; Query_Value := "nlp" |}] 3
      = Ok (take 3 all)
    /\ NoDup (Resp_Cid <$> all)
    /\ (forall c, c ∈ Resp_Cid <$> all <-> exists ls, demo_state !! c = Some ls /\
          Forall (fun q => query_accepts q ls)
            [{| Query_Type := RECORD_QUERY_TYPE_SKILL; Query_Value := "nlp" |}]).
Proof.
  destruct (List_exact "me" eq_refl demo_state (w_ds demo_world1)
    [{| Query_Type := RECORD_QUERY_TYPE_SKILL; Query_Value := "nlp" |}] 3 demo_rep)
    as (all & H1 & H2 & H3 & _); [discriminate|].
  exists all. split; [exact H1|]. split; [exact H2|exact H3].
Defined.

Lemma calls_touch_own_keys_witness :
  run_call "me" clock (CallPublish "c1" (demo_record "nlp/qa")) demo_world1 = (Ok tt, demo_world1).
Proof.
  apply (calls_touch_own_keys "me" eq_refl clock (fun _ => I) demo_state demo_world1 "c1"
    (demo_record "nlp/qa") demo_rep).
  - reflexivity.
  - apply demo_labels_ok. reflexivity.
  - intros l. apply demo_bound. vm_compute. discriminate.
  - eexists. reflexivity.
Defined.

Lemma Unpublish_unpublished_undercounts_witness :
  exists w' mt, routeLocal.Unpublish "me" (Some {| ref_Cid := "c2" |})
      (Some (demo_record "nlp/ner")) demo_world1 = (Ok tt, w')
    /\ (forall s, is_Some (view (w_ds w') !! ("/records/" +:+ s)) <-> is_Some (demo_state !! s))
    /\ loadMetrics (w_ds w') = Ok mt
    /\ (total_of mt "/locators/docker" < label_count demo_state "/locators/docker")%Z.
Proof.
  apply (Unpublish_unpublished_undercounts "me" eq_refl demo_state demo_world1 "c2"
    (demo_record "nlp/ner") "/locators/docker" demo_rep).
  - reflexivity.
  - reflexivity.
  - apply demo_labels_ok. reflexivity.
  - right. left.
  - reflexivity.
Defined.

End DemoLocal.
