(* ===== verification/RoutingRemote.v ===== *)
(** * The remote router

    server/routing/routing_remote.go: announcing a record and its labels to
    the DHT, storing the announcements of other peers, republishing, and the
    two clean-up tasks. *)

From S2P Require Import Prelude GoStrings Interfaces Adapters CoreRecord Validators LabelKey Metrics RoutingWorld Rpc RoutingLocal.

Open Scope string_scope.
Open Scope list_scope.
Open Scope go_scope.

(** [AnnouncementType] is a string with two constants; the channel carries
    announcements to the router (handler.go). *)
Definition AnnouncementType : Type := string.
Definition AnnouncementTypeCID : AnnouncementType := "CID".
Definition AnnouncementTypeLabel : AnnouncementType := "LABEL".

Record handlerSync := {
  Ref : RecordRef; Peer : AddrInfo; AnnType : AnnouncementType; LabelKey' : string }.

(** The validators newRemote registers with the DHT. *)
Definition dht_validators : gmap string LabelValidator :=
  let labelValidators := CreateLabelValidators in
  let add ns (m : gmap string LabelValidator) :=
    match labelValidators !! ns with Some v => <[ns := v]> m | None => m end in
  add NamespaceFeatures (add NamespaceDomains (add NamespaceSkills ∅)).

Module routeRemote.
Section routeRemote.
Context {D N T : Type} `{Datastore D} `{Network N} `{StoreAPI T}
  `{JsonCodec LabelMetadata} `{OasfJson}.
Context (clock : nat -> Time) (localPeerID : string).   (** [Host().ID().String()] *)
Notation W := (World D N T).

(** ** Announcing *)

Definition announceLabelToDHT (label cidStr : string) : M W unit :=
  let enhancedKey := BuildEnhancedLabelKey label cidStr localPeerID in
  do! on_net (dht_PutValue enhancedKey cidStr) then ret tt.

Definition Publish (ref : option RecordRef) (record : option CoreRecord) : M W (result unit) :=
  match cid_Decode (ref_GetCid ref) with
  | Err e => ret (Err (Status InvalidArgument ("failed to parse CID: " +:+ err_string e)))
  | Ok decodedCID =>
      let? _u := on_net (dht_Provide decodedCID)
        else e => ret (Err (internal ("failed to announce object " +:+ ref_GetCid ref +:+ ": ") e)) in
      let labels := getLabels record in
      do! for_each (fun label => announceLabelToDHT label (ref_GetCid ref)) labels then
      ret (Ok tt)
  end.

(** ** Announcements of other peers *)

Definition handleLabelNotification (notif : handlerSync) : M W unit :=
  let! now := time_Now clock in
  let enhancedKey := ds_NewKey (LabelKey' notif) in
  let! existing := read_ds (fun d => ds_Get d enhancedKey) in
  let! metadata :=
    match existing with
    | Err _ => ret None
    | Ok existingData =>
        match json_Unmarshal existingData with
        | Err _ => ret None
        | Ok existingMetadata =>
            let! t := time_Now clock in
            ret (Some (Update t existingMetadata))
        end
    end in
  let metadata := match metadata with
                  | Some m => m
                  | None => {| Timestamp := now; LastSeen := now |}
                  end in
  match json_Marshal metadata with
  | Err _ => ret tt
  | Ok metadataBytes => do! on_ds (ds_Put enhancedKey metadataBytes) then ret tt
  end.

Definition handleCIDProviderNotification (notif : handlerSync) : M W unit :=
  do! on_store (store_Lookup (Some (Ref notif))) then
  let? _r := on_net (Service_Lookup (ID (Peer notif)) (Some (Ref notif))) else e => ret tt in
  let? _r := on_net (Service_Pull (ID (Peer notif)) (Some (Ref notif))) else e => ret tt in
  ret tt.

(** One turn of handleNotify: the announcement received from the channel. *)
Definition handleNotify (notif : handlerSync) : M W unit :=
  if decide (AnnType notif = AnnouncementTypeLabel) then handleLabelNotification notif
  else if decide (AnnType notif = AnnouncementTypeCID) then handleCIDProviderNotification notif
  else handleCIDProviderNotification notif.

(** ** Clean-up of orphaned local labels *)

(** One result of a namespace query in cleanupLabelsForCID: the batch and the
    number of scheduled deletions. *)
Definition cleanup_result (cid : string) (acc : Batch * Z) (result : QueryResult) : Batch * Z :=
  let '(batch, keysDeleted) := acc in
  let key := Key (QEntry result) in
  match ParseEnhancedLabelKey key with
  | Err _ =>
      match batch_Delete batch (ds_NewKey key) with
      | Err _ => (batch, keysDeleted)
      | Ok batch => (batch, (keysDeleted + 1)%Z)
      end
  | Ok (_, keyCID, keyPeerID) =>
      if decide (keyCID = cid /\ keyPeerID = localPeerID) then
        match batch_Delete batch (ds_NewKey key) with
        | Err _ => (batch, keysDeleted)
        | Ok batch => (batch, (keysDeleted + 1)%Z)
        end
      else (batch, keysDeleted)
  end.

Definition cleanup_namespace (d : D) (cid : string) (acc : Batch * Z) (ns : NamespaceType) : Batch * Z :=
  match ds_Query d (Prefix ns) (fun _ => true) with
  | Err _ => acc
  | Ok labelResults => foldl (cleanup_result cid) acc labelResults
  end.

Definition cleanupLabelsForCID (cid : string) : M W bool :=
  let? batch := read_ds ds_Batch else e => ret false in
  let recordKey := ds_NewKey ("/records/" +:+ cid) in
  let acc := match batch_Delete batch recordKey with
             | Err _ => (batch, 0%Z)
             | Ok batch => (batch, 1%Z)
             end in
  let! acc := read_ds (fun d => foldl (cleanup_namespace d cid) acc AllNamespaces) in
  let? _u := on_ds (batch_Commit acc.1) else e => ret false in
  ret (bool_decide (acc.2 > 0)%Z).

Definition cleanupOrphanedLocalLabels (orphanedCIDs : list string) : M W Z :=
  for_acc (fun cleanedCount cid =>
    let! cleaned := cleanupLabelsForCID cid in
    ret (if (cleaned : bool) then (cleanedCount + 1)%Z else cleanedCount)) 0%Z orphanedCIDs.

(** ** Republishing *)

Record republish_state := { republishedCount : Z; errorCount : Z; orphanedCIDs : list string }.

Definition republish_label (cid : string) (st : republish_state) (label : string)
  : M W republish_state :=
  let enhancedKey := BuildEnhancedLabelKey label cid localPeerID in
  let! r := on_net (dht_PutValue enhancedKey cid) in
  ret match r with
      | Err _ => {| republishedCount := republishedCount st;
                    errorCount := (errorCount st + 1)%Z; orphanedCIDs := orphanedCIDs st |}
      | Ok _ => {| republishedCount := (republishedCount st + 1)%Z;
                   errorCount := errorCount st; orphanedCIDs := orphanedCIDs st |}
      end.

Definition republish_record (st : republish_state) (result : QueryResult) : M W republish_state :=
  let cid := path_Base (Key (QEntry result)) in
  if decide (cid = "") then ret st
  else
    let? record := on_store (store_Pull (Some {| ref_Cid := cid |}))
      else e => ret {| republishedCount := republishedCount st;
                       errorCount := (errorCount st + 1)%Z;
                       orphanedCIDs := orphanedCIDs st ++ [cid] |} in
    for_acc (republish_label cid) st (getLabels (Some record)).

Definition republishLocalLabels : M W unit :=
  let! results := read_ds (fun d => ds_Query d "/records/" (fun _ => true)) in
  match results with
  | Err _ => ret tt
  | Ok results =>
      let! st := for_acc republish_record
        {| republishedCount := 0; errorCount := 0; orphanedCIDs := [] |} results in
      match orphanedCIDs st with
      | [] => ret tt
      | _ => do! cleanupOrphanedLocalLabels (orphanedCIDs st) then ret tt
      end
  end.

(** ** Clean-up of stale remote labels *)

Definition remoteLabelFilter_Filter (e : Entry) : bool :=
  let keyPeerID := ExtractPeerIDFromKey (Key e) in
  if decide (keyPeerID = "") then true
  else negb (bool_decide (keyPeerID = localPeerID)).

Definition all_remote_results (d : D) : list QueryResult :=
  AllNamespaces ≫= fun ns =>
    match ds_Query d (Prefix ns) remoteLabelFilter_Filter with
    | Err _ => []
    | Ok nsResults => nsResults
    end.

(** Whether an entry goes on the list of stale keys; the staleness check and the
    age that is logged read the clock. *)
Definition check_stale (staleKeys : list string) (result : QueryResult) : M W (list string) :=
  match QError result with
  | Some _ => ret staleKeys
  | None =>
      let e := QEntry result in
      let stale := staleKeys ++ [ds_NewKey (Key e)] in
      match ParseEnhancedLabelKey (Key e) with
      | Err _ => ret stale
      | Ok _ =>
          match json_Unmarshal (Value e) with
          | Err _ => ret stale
          | Ok metadata =>
              match metadata_Validate metadata with
              | Err _ => ret stale
              | Ok _ =>
                  let! now := time_Now clock in
                  if IsStale now metadata MaxLabelAge then
                    do! time_Now clock then ret stale
                  else ret staleKeys
              end
          end
      end
  end.

(** [if err := batch.Delete(ctx, key); err != nil { log }]. *)
Definition batch_delete_logged (batch : Batch) (key : string) : Batch :=
  match batch_Delete batch key with Err _ => batch | Ok batch => batch end.

Definition cleanupStaleRemoteLabels : M W (result unit) :=
  let! allResults := read_ds all_remote_results in
  let! staleKeys := for_acc check_stale [] allResults in
  match staleKeys with
  | [] => ret (Ok tt)
  | _ =>
      let? batch := read_ds ds_Batch
        else e => ret (Err (Wrap "failed to create batch for cleanup: " e)) in
      let? _u := on_ds (batch_Commit (foldl batch_delete_logged batch staleKeys))
        else e => ret (Err (Wrap "failed to commit stale label cleanup: " e)) in
      ret (Ok tt)
  end.

End routeRemote.
End routeRemote.
