(* ===== verification/RoutingRemoteSpec.v ===== *)
(** * What the remote router's tasks do to the datastore

    Exact descriptions of the clean-up tasks, of the storing of announcements
    and of a republishing cycle, on the datastore's view. *)

From S2P Require Import Prelude GoStrings Interfaces Adapters CoreRecord Validators LabelKey Metrics RoutingWorld Rpc RoutingLocal RoutingLocalSpec RoutingRemote.

Open Scope string_scope.
Open Scope list_scope.
Open Scope go_scope.

Definition ok_entry (e : Entry) : QueryResult := {| QEntry := e; QError := None |}.

(** ** Querying all label namespaces *)

Section queries.
Context {D : Type} `{Hd : !Datastore D} {view : D -> gmap string string}
  {bops : Batch -> list BatchOp} `{!DatastoreSpec D view bops}.

Lemma IsValidNamespaceKey_true k :
  IsValidNamespaceKey k = true <-> exists ns, ns ∈ AllNamespaces /\ HasPrefix k (Prefix ns) = true.
Proof. apply existsb_elem. Qed.

Definition namespace_results (d : D) (f : Entry -> bool) (nss : list NamespaceType)
  : list QueryResult :=
  nss ≫= fun ns => match ds_Query d (Prefix ns) f with Err _ => [] | Ok rs => rs end.

Lemma namespace_results_spec d f :
  exists es, namespace_results d f AllNamespaces = ok_entry <$> es /\ NoDup (Key <$> es) /\
    forall e, e ∈ es <-> view d !! Key e = Some (Value e)
      /\ IsValidNamespaceKey (Key e) = true /\ f e = true.
Proof.
  assert (Hall : forall nss, nss ⊆ AllNamespaces -> NoDup nss ->
    exists es, namespace_results d f nss = ok_entry <$> es /\ NoDup (Key <$> es) /\
      forall e, e ∈ es <-> view d !! Key e = Some (Value e)
        /\ (exists ns, ns ∈ nss /\ HasPrefix (Key e) (Prefix ns) = true) /\ f e = true).
  { induction nss as [|ns nss IH]; intros Hsub Hnd.
    { exists []. split; [done|]. split; [apply NoDup_nil_2|].
      intros e. rewrite elem_of_nil. split; [done|].
      by intros (_ & (ns & ?%elem_of_nil & _) & _). }
    apply NoDup_cons in Hnd as [Hns Hnd].
    assert (Hsub' : nss ⊆ AllNamespaces) by (intros x Hx; apply Hsub; by right).
    assert (Hin : ns ∈ AllNamespaces) by (apply Hsub; left).
    destruct (IH Hsub' Hnd) as (es & Hes & Hn & He).
    destruct (ds_Query_spec d (Prefix ns) f (Prefix_clean ns Hin)) as (es1 & Hq & Hp).
    exists (es1 ++ es). 
    change (namespace_results d f (ns :: nss)) with
      (match ds_Query d (Prefix ns) f with Err _ => [] | Ok rs => rs end
       ++ namespace_results d f nss).
    rewrite Hq, Hes, fmap_app.
    split; [done|]. split.
    - rewrite fmap_app. apply NoDup_app. split; [rewrite Hp; apply NoDup_query_entries_keys|].
      split; [|done]. intros k (e & -> & He1)%list_elem_of_fmap (e' & Hk & He2)%list_elem_of_fmap.
      rewrite Hp in He1. apply elem_of_query_entries in He1 as (_ & H1 & _).
      apply He in He2 as (_ & (ns' & Hns' & H2) & _). rewrite <- Hk in H2.
      assert (ns = ns') as -> by (eapply Prefix_inj; eauto). done.
    - intros e. rewrite elem_of_app, He, Hp, elem_of_query_entries. split.
      + intros [(? & ? & ?)|(? & (ns' & ? & ?) & ?)]; (split; [done|]); (split; [|done]);
          [exists ns|exists ns']; split; try done; by constructor.
      + intros (? & (ns' & [->|?]%elem_of_cons & ?) & ?); [by left|right]. eauto. }
  destruct (Hall AllNamespaces) as (es & Hes & Hn & He); [done| |].
  - apply (bool_decide_unpack _). by vm_compute.
  - exists es. setoid_rewrite IsValidNamespaceKey_true. done.
Qed.

(** A datastore holds keys that [NewKey] made. *)
Definition keys_clean (d : D) : Prop := forall k, is_Some (view d !! k) -> ds_NewKey k = k.

End queries.

(** ** Stale remote labels *)

Section cleanup.
Context {D N T : Type} `{Hd : !Datastore D} {view : D -> gmap string string}
  {bops : Batch -> list BatchOp} `{!DatastoreSpec D view bops} `{Hmd : !JsonCodec LabelMetadata}.
Context (clock : nat -> Time) (clock_mono : forall i, (clock i <= clock (S i))%Z) (me : string).
Notation W := (World D N T).

(** What is wrong with an entry at time [now]. *)
Definition garbage (now : Time) (e : Entry) : bool :=
  match ParseEnhancedLabelKey (Key e) with
  | Err _ => true
  | Ok _ =>
      match json_Unmarshal (Value e) with
      | Err _ => true
      | Ok md => if is_ok (metadata_Validate md) then IsStale now md MaxLabelAge else true
      end
  end.

(** The entries the task removes. *)
Definition removable (now : Time) (m : gmap string string) (k : string) : bool :=
  match m !! k with
  | None => false
  | Some v =>
      let e := {| Key := k; Value := v |} in
      IsValidNamespaceKey k && routeRemote.remoteLabelFilter_Filter me e && garbage now e
  end.

(** [w'] is [w] after some readings of the clock. *)
Definition later (w w' : W) : Prop :=
  w_ds w' = w_ds w /\ w_net w' = w_net w /\ w_store w' = w_store w /\ (w_tick w <= w_tick w')%nat.

Lemma clock_le i j : (i <= j)%nat -> (clock i <= clock j)%Z.
Proof. induction 1 as [|j _ IH]; [lia|]. pose proof (clock_mono j). lia. Qed.

Lemma check_stale_spec sk e (w : W) :
  exists w' now, (clock (w_tick w) <= now <= clock (w_tick w'))%Z /\ later w w' /\
    routeRemote.check_stale clock sk (ok_entry e) w
    = (if garbage now e then sk ++ [ds_NewKey (Key e)] else sk, w').
Proof.
  unfold routeRemote.check_stale, garbage. simpl.
  assert (Hnow : forall r, exists w' now, (clock (w_tick w) <= now <= clock (w_tick w'))%Z
    /\ later w w' /\ ret (A := list string) r w = (r, w')).
  { intros r. exists w, (clock (w_tick w)). repeat split; lia. }
  destruct (ParseEnhancedLabelKey (Key e)); [|apply Hnow].
  destruct (json_Unmarshal (Value e)) as [md|]; [|apply Hnow].
  destruct (metadata_Validate md); simpl; [|apply Hnow].
  unfold bind, time_Now. simpl. pose proof (clock_mono (w_tick w)).
  pose proof (clock_mono (S (w_tick w))).
  destruct (IsStale (clock (w_tick w)) md MaxLabelAge) eqn:Hs;
    eexists _, (clock (w_tick w)); (split; [|split; [|rewrite Hs; reflexivity]]);
    simpl; try lia; repeat split; simpl; lia.
Qed.

Lemma check_stale_all es sk (w : W) :
  NoDup (Key <$> es) -> (forall e, e ∈ es -> ds_NewKey (Key e) = Key e) ->
  exists ks w', for_acc (routeRemote.check_stale clock) sk (ok_entry <$> es) w = (sk ++ ks, w')
    /\ later w w' /\ ks ⊆ (Key <$> es)
    /\ forall e, e ∈ es -> exists now, (clock (w_tick w) <= now <= clock (w_tick w'))%Z
       /\ (Key e ∈ ks <-> garbage now e = true).
Proof.
  revert sk w. induction es as [|e es IH]; intros sk w Hnd Hk.
  { exists [], w. rewrite app_nil_r. split; [done|]. repeat split; try done; set_solver. }
  rewrite fmap_cons in Hnd. apply NoDup_cons in Hnd as [Hne Hnd].
  destruct (check_stale_spec sk e w) as (w1 & now & Hnow & Hl1 & Hrun).
  destruct (IH (if garbage now e then sk ++ [ds_NewKey (Key e)] else sk) w1)
    as (ks & w2 & Hrun2 & Hl2 & Hsub & Hks); [done|set_solver|].
  exists ((if garbage now e then [Key e] else []) ++ ks), w2.
  rewrite fmap_cons. simpl. rewrite (bind_run _ _ _ _ _ Hrun), Hrun2.
  destruct Hl1 as (? & ? & ? & Ht1), Hl2 as (? & ? & ? & Ht2).
  pose proof (clock_le _ _ Ht1). pose proof (clock_le _ _ Ht2).
  split; [|split; [|split]].
  - f_equal. rewrite Hk by left. destruct (garbage now e); [by rewrite <- app_assoc|done].
  - repeat split; try congruence. lia.
  - destruct (garbage now e); set_solver.
  - intros e' [->|He']%elem_of_cons.
    + exists now. split; [lia|]. destruct (garbage now e); [set_solver|].
      split; [|done]. intros Hin. by apply Hsub in Hin.
    + destruct (Hks e' He') as (now' & ? & Hiff). exists now'. split; [lia|].
      rewrite <- Hiff, elem_of_app. split; [|by right]. intros [Hin|]; [|done].
      exfalso. apply Hne. destruct (garbage now e); [|set_solver].
      apply list_elem_of_singleton in Hin. rewrite <- Hin. by apply list_elem_of_fmap_2.
Qed.

Lemma delete_batch ks b :
  bops (foldl routeRemote.batch_delete_logged b ks) = bops b ++ (BatchDelete <$> ks).
Proof.
  revert b. induction ks as [|k ks IH]; intros b; simpl; [by rewrite app_nil_r|].
  rewrite IH. unfold routeRemote.batch_delete_logged.
  destruct (batch_Delete_spec b k) as (b' & -> & ->). by rewrite <- app_assoc.
Qed.

(** A run of the task removes exactly what is removable, each entry judged at a
    reading of the clock between start and end. *)
Lemma cleanupStale_run (w : W) :
  keys_clean (view := view) (w_ds w) ->
  exists w', routeRemote.cleanupStaleRemoteLabels clock me w = (Ok tt, w')
    /\ w_net w' = w_net w /\ w_store w' = w_store w /\ (w_tick w <= w_tick w')%nat
    /\ forall k, exists now, (clock (w_tick w) <= now <= clock (w_tick w'))%Z
       /\ view (w_ds w') !! k
          = if removable now (view (w_ds w)) k then None else view (w_ds w) !! k.
Proof.
  intros Hclean. unfold routeRemote.cleanupStaleRemoteLabels.
  destruct (namespace_results_spec (w_ds w) (routeRemote.remoteLabelFilter_Filter me))
    as (es & Hes & Hnd & He).
  rewrite (bind_run _ _ _ (ok_entry <$> es) w) by (unfold read_ds; by rewrite <- Hes).
  destruct (check_stale_all es [] w Hnd) as (ks & w1 & Hrun & (Hd1 & Hn1 & Hs1 & Ht1) & Hsub & Hks).
  { intros e Hin. apply He in Hin as (Hv & _). apply Hclean. by rewrite Hv. }
  rewrite (bind_run _ _ _ _ _ Hrun). simpl (_ ++ ks).
  assert (Hrem : forall k, exists now, (clock (w_tick w) <= now <= clock (w_tick w1))%Z /\
    (if decide (k ∈ ks) then None else view (w_ds w) !! k)
    = if removable now (view (w_ds w)) k then None else view (w_ds w) !! k).
  { intros k. unfold removable. destruct (view (w_ds w) !! k) as [v|] eqn:Hv.
    - destruct (IsValidNamespaceKey k && routeRemote.remoteLabelFilter_Filter me {| Key := k; Value := v |})
        eqn:Hin.
      + apply andb_true_iff in Hin as [H1 H2].
        destruct (Hks {| Key := k; Value := v |}) as (now & Hnow & Hiff); [by apply He|].
        exists now. split; [done|]. simpl in *. destruct (garbage now _); case_decide; naive_solver.
      + exists (clock (w_tick w)). split; [split; [lia|by apply clock_le]|]. simpl.
        rewrite decide_False; [done|]. intros Hk. apply Hsub in Hk.
        apply list_elem_of_fmap in Hk as (e & -> & Hk). apply He in Hk as (Hv' & H1 & H2).
        assert (e = {| Key := Key e; Value := v |}) as Heq by (destruct e; simpl in *; congruence).
        rewrite <- Heq, H1, H2 in Hin. done.
    - exists (clock (w_tick w)). split; [split; [lia|by apply clock_le]|]. by case_decide. }
  destruct ks as [|k0 ks0] eqn:Eks.
  { exists w1. split; [done|]. repeat split; try done. by rewrite Hd1. }
  rewrite <- Eks in *. clear Eks.
  destruct (ds_Batch_spec (w_ds w1)) as (b0 & Hb0 & Hops0).
  erewrite try_bind_ok by (unfold read_ds; by rewrite Hb0).
  destruct (batch_Commit_spec (w_ds w1) (foldl routeRemote.batch_delete_logged b0 ks)) as [Hcr Hcv].
  destruct (batch_Commit _ (w_ds w1)) as [cr d3] eqn:Hcommit. simpl in Hcr, Hcv. subst cr.
  erewrite try_bind_ok by (unfold on_ds; by rewrite Hcommit).
  eexists. split; [done|]. simpl. repeat split; try done.
  intros k. rewrite Hcv, delete_batch, Hops0. simpl. rewrite apply_deletes, Hd1. apply Hrem.
Qed.


(** ** Storing announcements *)

Context {json_time : Time -> Prop}
  `{!JsonCodecSpec LabelMetadata (fun m => json_time (Timestamp m) /\ json_time (LastSeen m))}.
Context (clock_time : forall i, json_time (clock i)).
Context (decoded_time : forall b (md : LabelMetadata),
  json_Unmarshal b = Ok md -> json_time (Timestamp md)).

(** The metadata an announcement at time [t] leaves at a key. *)
Definition refreshed (m : gmap string string) (k : string) (created seen : Time) : LabelMetadata :=
  match m !! k ≫= (fun b => match json_Unmarshal b with Ok md => Some md | Err _ => None end) with
  | Some md => {| Timestamp := Timestamp md; LastSeen := seen |}
  | None => {| Timestamp := created; LastSeen := created |}
  end.

Lemma store_metadata k md (w : W) :
  json_time (Timestamp md) -> json_time (LastSeen md) ->
  exists b w', match json_Marshal md with
    | Err _ => ret tt
    | Ok metadataBytes =>
        bind (on_ds (N := N) (T := T) (ds_Put k metadataBytes)) (fun _ => ret tt)
    end w = (tt, w')
    /\ view (w_ds w') = <[k := b]> (view (w_ds w)) /\ json_Unmarshal b = Ok md
    /\ w_net w' = w_net w /\ w_store w' = w_store w /\ w_tick w' = w_tick w.
Proof.
  intros Ht Hs. destruct (json_roundtrip md (conj Ht Hs)) as (b & -> & Hb).
  destruct (ds_Put_spec (w_ds w) k b) as [_ Hv]. unfold bind, on_ds.
  destruct (ds_Put k b (w_ds w)) as [r d'] eqn:E. simpl in Hv.
  exists b. eexists. split; [done|]. done.
Qed.

Lemma handleLabelNotification_run notif (w : W) :
  exists b w' created seen,
    routeRemote.handleLabelNotification clock notif w = (tt, w')
    /\ view (w_ds w') = <[ds_NewKey (LabelKey' notif) := b]> (view (w_ds w))
    /\ json_Unmarshal b = Ok (refreshed (view (w_ds w)) (ds_NewKey (LabelKey' notif)) created seen)
    /\ w_net w' = w_net w /\ w_store w' = w_store w /\ (w_tick w <= w_tick w')%nat
    /\ (clock (w_tick w) <= created <= clock (w_tick w'))%Z
    /\ (clock (w_tick w) <= seen <= clock (w_tick w'))%Z.
Proof.
  unfold routeRemote.handleLabelNotification.
  set (k := ds_NewKey (LabelKey' notif)).
  set (w1 := {| w_ds := w_ds w; w_net := w_net w; w_store := w_store w; w_tick := S (w_tick w) |}).
  set (w2 := {| w_ds := w_ds w; w_net := w_net w; w_store := w_store w; w_tick := S (S (w_tick w)) |}).
  rewrite (bind_run _ _ w (clock (w_tick w)) w1) by done.
  rewrite (bind_run _ _ w1 (ds_Get (w_ds w) k) w1) by done.
  pose proof (clock_mono (w_tick w)). pose proof (clock_mono (S (w_tick w))).
  unfold refreshed. rewrite ds_Get_spec.
  destruct (view (w_ds w) !! k) as [data|] eqn:Hk; simpl;
    [destruct (json_Unmarshal data) as [md|] eqn:Hdec|].
  2-3: rewrite (bind_run _ _ w1 None w1) by done;
    edestruct (store_metadata k {| Timestamp := clock (w_tick w); LastSeen := clock (w_tick w) |} w1)
      as (b & w' & Hrun & Hv & Hb & ? & ? & Ht); [apply clock_time|apply clock_time|];
    exists b, w', (clock (w_tick w)), (clock (w_tick w)); rewrite Hrun, Hv, Hb, Ht; simpl;
    repeat split; try done; lia.
  rewrite (bind_run _ _ w1 (Some (Update (clock (S (w_tick w))) md)) w2) by done.
  edestruct (store_metadata k (Update (clock (S (w_tick w))) md) w2)
    as (b & w' & Hrun & Hv & Hb & ? & ? & Ht); [by apply (decoded_time data md)|apply clock_time|].
  exists b, w', (clock (w_tick w)), (clock (S (w_tick w))). rewrite Hrun, Hv, Hb, Ht. simpl.
  repeat split; try done; lia.
Qed.

(** A refreshed announcement survives.  Handling a label announcement stores
    metadata at the announced key and touches nothing else; the metadata keeps
    the creation time of metadata that was there and is last seen now; and when
    that earlier metadata, if any, was valid and not from the future, no
    clean-up that ends within [MaxLabelAge] removes the entry. *)
Theorem announcement_survives notif l c p (w : W) :
  LabelKey' notif = BuildEnhancedLabelKey l c p -> good_label l = true ->
  good_elem c = true -> good_elem p = true -> (forall i, 0 < clock i)%Z ->
  (forall b md, view (w_ds w) !! LabelKey' notif = Some b -> json_Unmarshal b = Ok md ->
     0 < Timestamp md <= clock (w_tick w))%Z ->
  exists b w1 created seen,
    routeRemote.handleLabelNotification clock notif w = (tt, w1)
    /\ view (w_ds w1) = <[LabelKey' notif := b]> (view (w_ds w))
    /\ json_Unmarshal b = Ok (refreshed (view (w_ds w)) (LabelKey' notif) created seen)
    /\ (clock (w_tick w) <= seen)%Z
    /\ forall (w2 w3 : W) r, keys_clean (view := view) (w_ds w2) ->
         view (w_ds w2) !! LabelKey' notif = Some b ->
         routeRemote.cleanupStaleRemoteLabels clock me w2 = (r, w3) ->
         (clock (w_tick w3) <= clock (w_tick w) + MaxLabelAge)%Z ->
         view (w_ds w3) !! LabelKey' notif = Some b.
Proof.
  intros Hkey Hl Hc Hp Hpos Hvalid.
  destruct (handleLabelNotification_run notif w)
    as (b & w1 & created & seen & Hrun & Hv & Hb & _ & _ & _ & Hcr & Hseen).
  assert (Hnk : ds_NewKey (LabelKey' notif) = LabelKey' notif) by (rewrite Hkey; by apply NewKey_label).
  rewrite Hnk in Hv, Hb. exists b, w1, created, seen.
  split; [done|]. split; [done|]. split; [done|]. split; [lia|].
  intros w2 w3 r Hclean Hk Hcl Hage.
  destruct (cleanupStale_run w2 Hclean) as (w3' & Hrun3 & _ & _ & _ & Hv3).
  rewrite Hcl in Hrun3. injection Hrun3 as _ <-.
  destruct (Hv3 (LabelKey' notif)) as (now & Hnow & ->). unfold removable. rewrite Hk.
  assert (Hg : garbage now {| Key := LabelKey' notif; Value := b |} = false); [|by rewrite Hg, andb_false_r].
  unfold garbage. simpl. rewrite Hkey, Parse_Build, Hb
    by first [by apply good_label_is_label | by apply good_elem_no_sep].
  assert (Hok : forall md, (0 < Timestamp md <= LastSeen md)%Z -> (clock (w_tick w) <= LastSeen md)%Z ->
    (if is_ok (metadata_Validate md) then IsStale now md MaxLabelAge else true) = false).
  { intros md Hts Hls. rewrite (proj2 (metadata_Validate_ok md)) by lia. simpl.
    unfold IsStale, time_Since, time_Sub. apply bool_decide_eq_false.
    assert (0 < MaxLabelAge < maxDuration)%Z by done. unfold minDuration. lia. }
  pose proof (Hpos (w_tick w)). apply Hok.
  all: unfold refreshed; destruct (view (w_ds w) !! LabelKey' notif) as [b0|] eqn:Hb0; simpl; [|lia].
  all: destruct (json_Unmarshal b0) as [md0|] eqn:Hmd0; simpl; [|lia].
  all: pose proof (Hvalid b0 md0 eq_refl Hmd0); lia.
Qed.

End cleanup.

(** ** Orphaned local labels *)

Section orphans.
Context {D N T : Type} `{Hd : !Datastore D} {view : D -> gmap string string}
  {bops : Batch -> list BatchOp} `{!DatastoreSpec D view bops}.
Context (me : string) (me_good : good_elem me = true).
Notation W := (World D N T).

(** The label keys the clean-up for a CID removes. *)
Definition orphan_key (cid k : string) : bool :=
  match ParseEnhancedLabelKey k with
  | Err _ => true
  | Ok (_, c, p) => bool_decide (c = cid /\ p = me)
  end.

Lemma cleanup_results cid es acc :
  (forall e, e ∈ es -> ds_NewKey (Key e) = Key e) ->
  let acc' := foldl (routeRemote.cleanup_result me cid) acc (ok_entry <$> es) in
  (acc.2 <= acc'.2)%Z /\ exists ks, bops acc'.1 = bops acc.1 ++ (BatchDelete <$> ks)
    /\ forall k, k ∈ ks <-> k ∈ Key <$> es /\ orphan_key cid k = true.
Proof.
  revert acc. induction es as [|e es IH]; intros [b n] Hk.
  { simpl. split; [lia|]. exists []. rewrite app_nil_r. split; [done|]. set_solver. }
  rewrite fmap_cons. cbn [foldl].
  assert (Hstep : exists b' n', routeRemote.cleanup_result me cid (b, n) (ok_entry e) = (b', n')
    /\ (n <= n')%Z /\ bops b' = bops b ++
      (BatchDelete <$> if orphan_key cid (Key e) then [Key e] else [])).
  { unfold routeRemote.cleanup_result, orphan_key. simpl. rewrite Hk by left.
    destruct (batch_Delete_spec b (Key e)) as (b' & -> & Hb').
    destruct (ParseEnhancedLabelKey (Key e)) as [[[l c] p]|];
      [rewrite <- decide_bool_decide; destruct (decide (c = cid /\ p = me))|];
      eexists _, _; (split; [reflexivity|]); (split; [lia|]); rewrite ?app_nil_r; done. }
  destruct Hstep as (b' & n' & -> & Hn & Hb').
  destruct (IH (b', n')) as (Hle & ks & Hks & Hin); [set_solver|]. simpl in Hle, Hks. simpl.
  split; [lia|]. exists ((if orphan_key cid (Key e) then [Key e] else []) ++ ks).
  rewrite Hks, Hb', fmap_app, <- app_assoc. split; [done|].
  intros k. rewrite elem_of_app, Hin, elem_of_cons.
  destruct (orphan_key cid (Key e)) eqn:Ho; [rewrite list_elem_of_singleton|rewrite elem_of_nil];
    naive_solver congruence.
Qed.

Lemma cleanup_namespaces d cid acc nss :
  foldl (routeRemote.cleanup_namespace me d cid) acc nss
  = foldl (routeRemote.cleanup_result me cid) acc (namespace_results d (fun _ => true) nss).
Proof.
  revert acc. induction nss as [|ns nss IH]; intros acc; [done|].
  change (namespace_results d (fun _ => true) (ns :: nss)) with
    (match ds_Query d (Prefix ns) (fun _ => true) with Err _ => [] | Ok rs => rs end
     ++ namespace_results d (fun _ => true) nss).
  rewrite foldl_app. simpl. rewrite IH. unfold routeRemote.cleanup_namespace.
  by destruct (ds_Query d (Prefix ns) _).
Qed.

Lemma cleanupLabelsForCID_run cid (w : W) :
  keys_clean (view := view) (w_ds w) -> good_elem cid = true ->
  exists w', routeRemote.cleanupLabelsForCID me cid w = (true, w')
    /\ w_net w' = w_net w /\ w_store w' = w_store w
    /\ forall k, view (w_ds w') !! k
       = if decide (k = "/records/" +:+ cid) then None
         else if IsValidNamespaceKey k && orphan_key cid k then None else view (w_ds w) !! k.
Proof.
  intros Hclean Hc. unfold routeRemote.cleanupLabelsForCID.
  destruct (ds_Batch_spec (w_ds w)) as (b0 & Hb0 & Hops0).
  erewrite try_bind_ok by (unfold read_ds; by rewrite Hb0).
  rewrite NewKey_record by done.
  destruct (batch_Delete_spec b0 ("/records/" +:+ cid)) as (b1 & -> & Hb1).
  destruct (namespace_results_spec (w_ds w) (fun _ => true)) as (es & Hes & _ & He).
  destruct (cleanup_results cid es (b1, 1%Z)) as (Hle & ks & Hks & Hin).
  { intros e Hin. apply He in Hin as (Hv & _). apply Hclean. by rewrite Hv. }
  rewrite <- Hes, <- cleanup_namespaces in Hle, Hks.
  erewrite bind_run by (unfold read_ds; done). cbn [fst snd] in Hle, Hks.
  destruct (foldl _ (b1, 1%Z) AllNamespaces) as [b2 n2]. simpl in Hle, Hks. simpl.
  destruct (batch_Commit_spec (w_ds w) b2) as [Hcr Hcv].
  destruct (batch_Commit b2 (w_ds w)) as [cr d3] eqn:Hcommit. simpl in Hcr, Hcv. subst cr.
  erewrite try_bind_ok by (unfold on_ds; by rewrite Hcommit).
  eexists. split; [unfold ret; rewrite bool_decide_true by lia; done|]. simpl.
  split; [done|]. split; [done|]. intros k.
  rewrite Hcv, Hks, Hb1, Hops0. cbn [app].
  change (BatchDelete ("/records/" +:+ cid) :: (BatchDelete <$> ks))
    with (BatchDelete <$> (("/records/" +:+ cid) :: ks)).
  rewrite (apply_deletes _ (("/records/" +:+ cid) :: ks)). destruct (decide (k = "/records/" +:+ cid)) as [->|Hne].
  { by rewrite decide_True by left. }
  destruct (view (w_ds w) !! k) as [v|] eqn:Hv; [|by repeat case_match].
  assert (Hiff : k ∈ ("/records/" +:+ cid) :: ks <-> IsValidNamespaceKey k && orphan_key cid k = true).
  { rewrite elem_of_cons, Hin, andb_true_iff, list_elem_of_fmap. split.
    - intros [?|[(e & -> & Hine) Ho]]; [done|]. by apply He in Hine as (_ & ? & _).
    - intros [H1 H2]. right. split; [|done]. exists {| Key := k; Value := v |}.
      split; [done|]. by apply He. }
  destruct (IsValidNamespaceKey k && orphan_key cid k); case_decide; naive_solver.
Qed.

Lemma record_not_namespace s : IsValidNamespaceKey ("/records/" +:+ s) = false.
Proof.
  apply not_true_iff_false. intros (ns & Hns & [r Hr]%HasPrefix_true)%IsValidNamespaceKey_true.
  apply (f_equal (Split "/")) in Hr. unfold Prefix in Hr.
  change ("/records/" +:+ s) with ("/" +:+ "records" +:+ "/" +:+ s) in Hr.
  rewrite !append_assoc, !Split_rooted, !Split_slash in Hr.
  rewrite (Split_no_sep _ ns) in Hr by by apply good_elem_no_sep, namespace_good.
  rewrite (Split_no_sep "/" "records") in Hr by done. simplify_eq/=.
  by apply records_not_namespace in Hns.
Qed.

Lemma ns_label_key_valid l c : ns_label l -> IsValidNamespaceKey (BuildEnhancedLabelKey l c me) = true.
Proof.
  intros (Hl & ns & Hns & Hp). apply IsValidNamespaceKey_true. exists ns. split; [done|].
  apply Build_has_prefix; [done| |done]. by apply good_elem_no_sep, namespace_good.
Qed.

Lemma orphan_key_Build cid l c :
  is_label l -> no_sep "/" c = true ->
  orphan_key cid (BuildEnhancedLabelKey l c me) = bool_decide (c = cid).
Proof.
  intros Hl Hc. unfold orphan_key. rewrite Parse_Build by (done || by apply good_elem_no_sep).
  apply bool_decide_ext. naive_solver.
Qed.

(** Clean-up of an orphaned record.  On a datastore that represents a map of
    published records, the clean-up for a CID removes the record's entry and the
    label entries of the local peer for it, keeps all other entries of the local
    peer and every well-formed entry of other peers, and reports success. *)
Theorem orphan_cleanup_removes_record {text_ok : string -> Prop} `{!JsonCodec Metrics}
    P cid (w : W) :
  rep (text_ok := text_ok) me P (view (w_ds w)) -> keys_clean (view := view) (w_ds w) ->
  good_elem cid = true ->
  exists w', routeRemote.cleanupLabelsForCID me cid w = (true, w')
    /\ (forall s, is_Some (view (w_ds w') !! ("/records/" +:+ s)) <-> is_Some (delete cid P !! s))
    /\ (forall l c, ns_label l -> no_sep "/" c = true ->
          is_Some (view (w_ds w') !! BuildEnhancedLabelKey l c me)
          <-> exists ls, delete cid P !! c = Some ls /\ l ∈ ls)
    /\ (forall l c p, is_label l -> no_sep "/" c = true -> no_sep "/" p = true ->
          p <> me -> BuildEnhancedLabelKey l c p <> "/records/" +:+ cid ->
          view (w_ds w') !! BuildEnhancedLabelKey l c p
          = view (w_ds w) !! BuildEnhancedLabelKey l c p).
Proof.
  intros Hrep Hclean Hc. destruct (cleanupLabelsForCID_run cid w Hclean Hc) as (w' & Hrun & _ & _ & Hv).
  exists w'. split; [done|]. split; [|split].
  - intros s. rewrite Hv, record_not_namespace. simpl.
    destruct (decide (s = cid)) as [->|Hne].
    + by rewrite decide_True, lookup_delete_eq.
    + rewrite decide_False by (intros Heq; by apply append_inj_l in Heq).
      rewrite lookup_delete_ne by done. apply (rep_records _ _ _ Hrep).
  - intros l c Hl Hnc. rewrite Hv, decide_False by by apply ns_label_no_record.
    rewrite ns_label_key_valid, orphan_key_Build by (done || apply Hl). simpl.
    setoid_rewrite lookup_delete_Some. case_bool_decide as Heq.
    + subst. split; [by intros []|]. naive_solver.
    + rewrite (rep_labels _ _ _ Hrep) by done. naive_solver.
  - intros l c p Hl Hnc Hnp Hne Hrec. rewrite Hv, decide_False by done.
    unfold orphan_key. rewrite Parse_Build by done.
    by rewrite bool_decide_false, andb_false_r by naive_solver.
Qed.

(** The clean-up does not count down: the metrics stay as they were, so they
    are above the number of published records for every label of the record
    that was removed. *)
Theorem orphan_cleanup_overcounts {text_ok : string -> Prop} `{!JsonCodec Metrics}
    P cid ls l (w : W) :
  rep (text_ok := text_ok) me P (view (w_ds w)) -> keys_clean (view := view) (w_ds w) ->
  P !! cid = Some ls -> l ∈ ls ->
  exists w' mt, routeRemote.cleanupLabelsForCID me cid w = (true, w')
    /\ loadMetrics (w_ds w') = Ok mt /\ (label_count (delete cid P) l < total_of mt l)%Z.
Proof.
  intros Hrep Hclean HP Hl. destruct (rep_good _ _ _ Hrep _ _ HP) as [Hc _].
  destruct (cleanupLabelsForCID_run cid w Hclean Hc) as (w' & Hrun & _ & _ & Hv).
  destruct (rep_metrics _ _ _ Hrep) as (mt & Hin & Hwf & Htot).
  exists w', mt. split; [done|]. split.
  - apply loadMetrics_in. unfold metrics_in in *. rewrite Hv, decide_False; [done|].
    intros Heq. symmetry in Heq. by apply record_not_metrics in Heq.
  - rewrite Htot, (label_count_delete _ _ _ _ HP). apply occ_pos in Hl. lia.
Qed.

(** ** Republishing *)

Context `{!CidLib} `{!Network N} `{!StoreAPI T}.
(** The DHT sees every value put; the store's contents do not change while a
    cycle runs. *)
Context (puts_log : N -> list (string * string))
  (log_put : forall k v n, puts_log (dht_PutValue k v n).2 = puts_log n ++ [(k, v)]).
Context (pulls : string -> result CoreRecord)
  (store_fixed : forall t c, (store_Pull (Some {| ref_Cid := c |}) t).1 = pulls c).

(** The values a record is announced with. *)
Definition announcements (c : string) : list (string * string) :=
  match pulls c with
  | Ok r => (fun l => (BuildEnhancedLabelKey l c me, c)) <$> getLabels (Some r)
  | Err _ => []
  end.

Lemma republish_labels c ls st (w : W) :
  exists st' w', for_acc (routeRemote.republish_label me c) st ls w = (st', w')
    /\ routeRemote.orphanedCIDs st' = routeRemote.orphanedCIDs st /\ w_ds w' = w_ds w
    /\ puts_log (w_net w') = puts_log (w_net w)
         ++ ((fun l => (BuildEnhancedLabelKey l c me, c)) <$> ls).
Proof.
  revert st w. induction ls as [|l ls IH]; intros st w.
  { exists st, w. by rewrite app_nil_r. }
  simpl. unfold routeRemote.republish_label at 1. unfold on_net.
  unfold bind at 1. unfold bind at 1.
  pose proof (log_put (BuildEnhancedLabelKey l c me) c (w_net w)) as Hlog.
  destruct (dht_PutValue _ _ (w_net w)) as [r n'] eqn:E. simpl in Hlog. unfold ret at 1.
  edestruct IH as (st' & w' & -> & Ho & Hds & Hn).
  exists st', w'. split; [done|]. rewrite Ho, Hds, Hn. simpl. rewrite Hlog, <- app_assoc.
  split; [by destruct r|done].
Qed.

Lemma path_Base_record c : good_elem c = true -> path_Base ("/records/" +:+ c) = c.
Proof.
  intros Hc. unfold path_Base. rewrite decide_False by done.
  rewrite Split_record_key by by apply good_elem_no_sep.
  apply good_elem_spec in Hc. rewrite !filter_cons, filter_nil. simpl.
  by rewrite decide_True by naive_solver.
Qed.

Lemma republish_records cs es st (w : W) :
  Key <$> es = (fun c => "/records/" +:+ c) <$> cs -> Forall (fun c => good_elem c = true) cs ->
  exists st' w', for_acc (routeRemote.republish_record me) st (ok_entry <$> es) w = (st', w')
    /\ routeRemote.orphanedCIDs st'
       = routeRemote.orphanedCIDs st ++ filter (fun c => is_ok (pulls c) = false) cs
    /\ w_ds w' = w_ds w
    /\ puts_log (w_net w') = puts_log (w_net w) ++ (cs ≫= announcements).
Proof.
  revert cs st w. induction es as [|e es IH]; intros [|c cs] st w Hes Hcs; try done.
  { exists st, w. by rewrite !app_nil_r. }
  rewrite !fmap_cons in Hes. injection Hes as Hk Hes. apply Forall_cons in Hcs as [Hc Hcs].
  assert (Hstep : exists st1 w1, routeRemote.republish_record me st (ok_entry e) w = (st1, w1)
    /\ routeRemote.orphanedCIDs st1
       = routeRemote.orphanedCIDs st ++ (if is_ok (pulls c) then [] else [c])
    /\ w_ds w1 = w_ds w /\ puts_log (w_net w1) = puts_log (w_net w) ++ announcements c).
  { unfold routeRemote.republish_record. simpl. rewrite Hk, path_Base_record by done.
    rewrite decide_False by (intros ->; done). unfold try_bind, bind, on_store.
    pose proof (store_fixed (w_store w) c) as Hp. unfold announcements.
    destruct (store_Pull _ (w_store w)) as [r t'] eqn:E. simpl in Hp. rewrite <- Hp.
    destruct r as [r|e']; simpl.
    - edestruct republish_labels as (st1 & w1 & -> & Ho & Hds & Hn).
      exists st1, w1. rewrite Ho, Hds, Hn, app_nil_r. done.
    - eexists _, _. split; [done|]. by rewrite !app_nil_r. }
  destruct Hstep as (st1 & w1 & Hrun & Ho1 & Hds1 & Hn1).
  destruct (IH cs st1 w1 Hes Hcs) as (st2 & w2 & Hrun2 & Ho2 & Hds2 & Hn2).
  exists st2, w2. rewrite fmap_cons. simpl. rewrite (bind_run _ _ _ _ _ Hrun), Hrun2.
  rewrite Ho2, Ho1, Hds2, Hds1, Hn2, Hn1, filter_cons, <- !app_assoc.
  split; [done|]. split; [|done]. destruct (is_ok (pulls c)); by case_decide.
Qed.

Definition removed_by (cids : list string) (k : string) : bool :=
  existsb (fun cid => bool_decide (k = "/records/" +:+ cid)
                      || (IsValidNamespaceKey k && orphan_key cid k)) cids.

Lemma cleanupOrphaned_run cids n (w : W) :
  keys_clean (view := view) (w_ds w) -> Forall (fun c => good_elem c = true) cids ->
  exists w', for_acc (fun cleanedCount cid =>
      bind (routeRemote.cleanupLabelsForCID me cid)
        (fun cleaned : bool => ret (if cleaned then (cleanedCount + 1)%Z else cleanedCount))) n cids w
      = ((n + Z.of_nat (length cids))%Z, w')
    /\ w_net w' = w_net w
    /\ forall k, view (w_ds w') !! k = if removed_by cids k then None else view (w_ds w) !! k.
Proof.
  revert n w. induction cids as [|c cids IH]; intros n w Hclean Hcs.
  { exists w. simpl. rewrite Z.add_0_r. done. }
  apply Forall_cons in Hcs as [Hc Hcs].
  destruct (cleanupLabelsForCID_run c w Hclean Hc) as (w1 & Hrun & Hn1 & _ & Hv1).
  destruct (IH (n + 1)%Z w1) as (w2 & Hrun2 & Hn2 & Hv2); [|done|].
  { intros k Hk. apply Hclean. rewrite Hv1 in Hk. by repeat case_match. }
  exists w2. simpl. erewrite bind_run by (erewrite bind_run by exact Hrun; reflexivity).
  rewrite Hrun2, Hn2, Hn1. split; [f_equal; lia|]. split; [done|].
  intros k. rewrite Hv2, Hv1. unfold removed_by. simpl. fold (removed_by cids k).
  destruct (removed_by cids k); rewrite ?orb_true_r, ?orb_false_r; [done|].
  case_decide; [by rewrite bool_decide_true|]. by rewrite bool_decide_false.
Qed.

(** The record index of a represented store. *)
Lemma record_index {text_ok : string -> Prop} `{!JsonCodec Metrics} P d :
  rep (text_ok := text_ok) me P (view d) ->
  exists es cs, ds_Query d "/records/" (fun _ => true) = Ok (ok_entry <$> es)
    /\ Key <$> es = (fun c => "/records/" +:+ c) <$> cs /\ NoDup cs
    /\ (forall c, c ∈ cs <-> is_Some (P !! c)) /\ Forall (fun c => good_elem c = true) cs.
Proof.
  intros Hrep. destruct (ds_Query_spec d "/records/" (fun _ => true) eq_refl) as (es & Hq & Hes).
  assert (He : forall e, e ∈ es <-> view d !! Key e = Some (Value e)
    /\ HasPrefix (Key e) "/records/" = true) by (intros e; rewrite Hes, elem_of_query_entries; naive_solver).
  set (cs := (fun e => TrimPrefix (Key e) "/records/") <$> es).
  assert (Hkeys : Key <$> es = (fun c => "/records/" +:+ c) <$> cs).
  { unfold cs. rewrite <- list_fmap_compose. apply list_fmap_ext. intros i e Hi.
    apply list_elem_of_lookup_2, He in Hi as [_ [r Hr]%HasPrefix_true].
    unfold compose. by rewrite Hr, TrimPrefix_app. }
  assert (Hcs : forall c, c ∈ cs <-> is_Some (P !! c)).
  { intros c. rewrite <- (rep_records _ _ _ Hrep). split.
    - intros Hc. apply (list_elem_of_fmap_2 (fun c => "/records/" +:+ c)) in Hc.
      rewrite <- Hkeys in Hc. apply list_elem_of_fmap in Hc as (e & -> & Hin).
      apply He in Hin as [-> _]. eauto.
    - intros [v Hv]. unfold cs. apply list_elem_of_fmap.
      exists {| Key := "/records/" +:+ c; Value := v |}. simpl (Key _). rewrite TrimPrefix_app.
      split; [done|]. apply He. split; [done|]. apply HasPrefix_app. }
  exists es, cs. split; [done|]. split; [done|]. split; [|split; [done|]].
  - apply (NoDup_fmap_1 (fun c => "/records/" +:+ c)). rewrite <- Hkeys, Hes.
    apply NoDup_query_entries_keys.
  - apply Forall_forall. intros c Hc. apply Hcs in Hc as [ls Hc].
    by apply (rep_good _ _ _ Hrep) in Hc as [? _].
Qed.


End orphans.

(** ** An executable instance *)

Module DemoRemote.
Import MapDatastore DemoCore DemoLocal.

#[export] Instance md_time_spec :
  JsonCodecSpec LabelMetadata (fun m => (fun _ => True) (Timestamp m) /\ (fun _ => True) (LastSeen m)).
Proof. split. intros m _. by apply (@json_roundtrip _ _ _ md_spec m I). Qed.

(** The DHT is the list of values put. *)
Definition Net : Type := list (string * string).

#[export] Instance demo_net : Network Net := {|
  dht_Provide _ := ret (Ok tt);
  dht_PutValue k v := fun n => (Ok tt, n ++ [(k, v)]);
  RoutingTable_Size _ := 1%nat;
  rpc_CallLookup _ _ := ret (Err (Plain "no peer"));
  rpc_CallPull _ _ := ret (Err (Plain "no peer"));
  pm_AddProvider _ _ := ret (Ok tt);
  pm_GetProviders _ _ := Ok [];
|}.

(** The store returns the record it is asked for, or nothing. *)
Definition demo_pulls (ok : bool) (c : string) : result CoreRecord :=
  if ok then Ok (demo_record "nlp/qa") else Err (Status NotFound "record not found").

Definition demo_store (ok : bool) : StoreAPI unit := {|
  store_Push _ := ret (Err (Plain "read only"));
  store_Pull ref := ret (demo_pulls ok (ref_GetCid ref));
  store_Lookup _ := ret (Err (Plain "no metadata"));
  store_Delete _ := ret (Err (Plain "read only"));
|}.

#[export] Instance demo_store_ok : StoreAPI unit := demo_store true.

Definition world1 : World (gmap string string) Net unit :=
  {| w_ds := w_ds demo_world1; w_net := []; w_store := tt; w_tick := 2 |}.

Lemma clock_mono i : (clock i <= clock (S i))%Z.
Proof. unfold clock. lia. Qed.

Lemma keys_clean_check (d : gmap string string) :
  map_Forall (fun k _ => ds_NewKey k = k) d -> keys_clean (view := view) d.
Proof. intros Hd k [v Hv]. by apply (Hd k v). Qed.

Lemma world1_clean : keys_clean (view := view) (w_ds world1).
Proof. apply keys_clean_check. apply (bool_decide_unpack _). by vm_compute. Qed.


Definition demo_notif : handlerSync := {|
  Ref := {| ref_Cid := "c9" |}; Peer := {| ID := "raw" |}; AnnType := AnnouncementTypeLabel;
  LabelKey' := BuildEnhancedLabelKey "/skills/nlp/qa" "c9" "peer9" |}.

Lemma announcement_survives_witness :
  exists b w1, routeRemote.handleLabelNotification clock demo_notif world1 = (tt, w1)
    /\ view (w_ds w1) = <[LabelKey' demo_notif := b]> (view (w_ds world1)).
Proof.
  destruct (announcement_survives clock clock_mono "me" (json_time := fun _ => True)
    (fun _ => I) (fun _ _ _ => I) demo_notif "/skills/nlp/qa" "c9" "peer9" world1)
    as (b & w1 & created & seen & H1 & H2 & _); try reflexivity.
  - intros b md Hb. vm_compute in Hb. discriminate.
  - exists b, w1. split; [exact H1|exact H2].
Defined.

Lemma orphan_cleanup_removes_record_witness :
  exists w', routeRemote.cleanupLabelsForCID "me" "c1" world1 = (true, w')
    /\ forall s, is_Some (view (w_ds w') !! ("/records/" +:+ s)) <-> is_Some (delete "c1" demo_state !! s).
Proof.
  destruct (orphan_cleanup_removes_record "me" eq_refl demo_state "c1" world1 demo_rep
    world1_clean eq_refl) as (w' & H1 & H2 & _).
  exists w'. split; [exact H1|exact H2].
Defined.

Lemma orphan_cleanup_overcounts_witness :
  exists w' mt, routeRemote.cleanupLabelsForCID "me" "c1" world1 = (true, w')
    /\ loadMetrics (w_ds w') = Ok mt
    /\ (label_count (delete "c1" demo_state) "/locators/docker" < total_of mt "/locators/docker")%Z.
Proof.
  apply (orphan_cleanup_overcounts "me" eq_refl demo_state "c1"
    (getLabels (Some (demo_record "nlp/qa"))) "/locators/docker" world1 demo_rep world1_clean).
  - reflexivity.
  - right. left.
Defined.

Definition net_log (n : Net) : list (string * string) := n.

Lemma net_log_put k v (n : Net) : net_log (dht_PutValue k v n).2 = net_log n ++ [(k, v)].
Proof. reflexivity. Qed.

Lemma demo_store_fixed t c : (store_Pull (Some {| ref_Cid := c |}) t).1 = demo_pulls true c.
Proof. reflexivity. Qed.


End DemoRemote.
