(* ===== verification/Routing.v ===== *)
(** * The announcement handler and the router

    server/routing/handler.go: provider announcements received from the DHT are
    turned into messages on a bounded channel that the remote router drains;
    server/routing/routing.go: the router that combines the local and the
    remote one. *)

From S2P Require Import Prelude GoStrings Interfaces Adapters CoreRecord Validators LabelKey Metrics RoutingWorld Rpc RoutingLocal RoutingLocalSpec RoutingRemote RoutingRemoteSpec.

Open Scope string_scope.
Open Scope list_scope.
Open Scope go_scope.

(** ** handler.go *)

Module handler.
Section handler.
Context {N : Type} `{Network N} `{!HashLib}.
Context (mh_Cast : string -> result string).   (** [multihash.Cast] *)
Context (hostID : string).                     (** [h.ID().String()] *)

(** The message a handler sends on [notifyCh], if it sends one; the handlers
    return no error. *)
Definition handleLabelAnnouncement (labelKey : string) (prov : AddrInfo) : option handlerSync :=
  match ExtractCIDFromLabelKey labelKey with
  | Err _ => None
  | Ok cidStr =>
      Some {| Ref := {| ref_Cid := cidStr |}; Peer := prov;
              AnnType := AnnouncementTypeLabel; LabelKey' := labelKey |}
  end.

Definition handleCIDProviderAnnouncement (key : string) (prov : AddrInfo) : option handlerSync :=
  match mh_Cast key with
  | Err _ => None
  | Ok cast =>
      let ref := {| ref_Cid := cid_String (NewCidV1 1 cast) |} in
      if decide (ref_Cid ref = "") then None
      else Some {| Ref := ref; Peer := prov; AnnType := AnnouncementTypeCID; LabelKey' := "" |}
  end.

Definition handleAnnounce (key : string) (prov : AddrInfo) : option handlerSync :=
  if decide (hostID = ID prov) then None
  else if IsValidNamespaceKey key then handleLabelAnnouncement key prov
  else handleCIDProviderAnnouncement key prov.

(** The handler shares the channel with the router. *)
Record HandlerState := { notifyCh : list handlerSync; h_net : N }.

(** A send on the buffered channel; it blocks when the buffer is full. *)
Definition send (msg : handlerSync) : M HandlerState bool := fun s =>
  if decide (length (notifyCh s) < NotificationChannelSize)%nat then
    (true, {| notifyCh := notifyCh s ++ [msg]; h_net := h_net s |})
  else (false, s).

Definition on_h_net {A} (c : M N A) : M HandlerState A := fun s =>
  let '(a, n) := c (h_net s) in (a, {| notifyCh := notifyCh s; h_net := n |}).

(** [None]: the call blocks. *)
Definition AddProvider (key : string) (prov : AddrInfo) : M HandlerState (option (result unit)) :=
  let! sent := match handleAnnounce key prov with
               | None => ret true
               | Some msg => send msg
               end in
  if (sent : bool) then
    let? _u := on_h_net (pm_AddProvider key prov)
      else e => ret (Some (Err (Wrap "failed to add provider: " e))) in
    ret (Some (Ok tt))
  else ret None.

Definition GetProviders (key : string) (n : N) : result (list AddrInfo) :=
  match pm_GetProviders key n with
  | Err e => Err (Wrap "failed to get providers: " e)
  | Ok providers => Ok providers
  end.

End handler.
End handler.
Arguments handler.notifyCh {_}. Arguments handler.h_net {_}.

(** ** The channel between handler and router

    Announcements arrive at any time and from any number of goroutines; the
    router takes one message after the other.  The logs of messages sent and
    handled are ghost state. *)

Section channel.
Context {D N T : Type} `{Hd : !Datastore D} `{!CidLib} `{!Network N} `{!StoreAPI T}
  `{!HashLib} `{!JsonCodec LabelMetadata} `{!OasfJson}.
Context (mh_Cast : string -> result string) (hostID : string) (clock : nat -> Time).
Notation W := (World D N T).

Record Sys := {
  sy_queue : list handlerSync; sy_world : W;
  sy_sent : list handlerSync; sy_handled : list handlerSync }.

Definition set_net (w : W) (n : N) : W :=
  {| w_ds := w_ds w; w_net := n; w_store := w_store w; w_tick := w_tick w |}.

Inductive step : Sys -> Sys -> Prop :=
  | step_add key prov s r h :
      handler.AddProvider mh_Cast hostID key prov
        {| handler.notifyCh := sy_queue s; handler.h_net := w_net (sy_world s) |} = (Some r, h) ->
      step s {| sy_queue := handler.notifyCh h; sy_world := set_net (sy_world s) (handler.h_net h);
                sy_sent := sy_sent s ++ option_list (handler.handleAnnounce mh_Cast hostID key prov);
                sy_handled := sy_handled s |}
  | step_notify msg q s w :
      sy_queue s = msg :: q ->
      routeRemote.handleNotify clock msg (sy_world s) = (tt, w) ->
      step s {| sy_queue := q; sy_world := w; sy_sent := sy_sent s;
                sy_handled := sy_handled s ++ [msg] |}.

Inductive reachable (w0 : W) : Sys -> Prop :=
  | reach_init : reachable w0 {| sy_queue := []; sy_world := w0; sy_sent := []; sy_handled := [] |}
  | reach_step s s' : reachable w0 s -> step s s' -> reachable w0 s'.

Lemma AddProvider_queue key prov h r h' :
  handler.AddProvider mh_Cast hostID key prov h = (Some r, h') ->
  handler.notifyCh h'
  = handler.notifyCh h ++ option_list (handler.handleAnnounce mh_Cast hostID key prov)
  /\ (length (handler.notifyCh h') <= NotificationChannelSize \/ handler.notifyCh h' = handler.notifyCh h)%nat.
Proof.
  unfold handler.AddProvider, try_bind, bind, handler.send, handler.on_h_net.
  destruct (handler.handleAnnounce _ _ key prov) as [msg|]; simpl.
  - case_decide as Hlen; simpl; [|done].
    destruct (pm_AddProvider key prov (handler.h_net h)) as [[[]|e] n]; simpl;
      intros [= _ <-]; simpl; (split; [done|]); left; rewrite length_app; simpl; lia.
  - rewrite app_nil_r.
    by destruct (pm_AddProvider key prov (handler.h_net h)) as [[[]|e] n]; simpl; intros [= _ <-]; auto.
Qed.

(** The channel neither loses, duplicates nor reorders announcements.
    Whatever the interleaving of announcements and of the router's turns, the
    messages sent so far are the messages handled so far followed by those in
    the channel, and the channel never holds more than its capacity. *)
Theorem channel_fifo (w0 : W) s :
  reachable w0 s ->
  sy_sent s = sy_handled s ++ sy_queue s /\ (length (sy_queue s) <= NotificationChannelSize)%nat.
Proof.
  induction 1 as [|s s' _ [IHs IHl] Hstep]; simpl; [split; [done|lia]|].
  destruct Hstep as [key prov s r h Hadd|msg q s w Hq Hrun]; simpl.
  - apply AddProvider_queue in Hadd as [Hq Hlen]. simpl in *. rewrite Hq, IHs, app_assoc.
    split; [done|]. rewrite Hq in Hlen. destruct Hlen as [?|Heq]; [done|]. by rewrite Heq.
  - rewrite IHs, Hq, <- app_assoc. split; [done|]. rewrite Hq in IHl. simpl in IHl. lia.
Qed.

End channel.

(** ** routing.go *)

Module route.
Section route.
Context {D N T : Type} `{Datastore D} `{Network N} `{StoreAPI T}
  `{JsonCodec LabelMetadata} `{JsonCodec Metrics}.
Context (clock : nat -> Time) (localPeerID : string).
(** Whether the remote router and its server are there. *)
Context (has_remote : bool).
Notation W := (World D N T).

Definition hasPeersInRoutingTable (n : N) : bool :=
  if has_remote then (0 <? RoutingTable_Size n)%nat else false.

Definition Publish (ref : option RecordRef) (record : option CoreRecord) : M W (result unit) :=
  let? _u := routeLocal.Publish clock localPeerID ref record
    else e => ret (Err (rewrap "failed to publish locally: " e)) in
  let! peers := read_net hasPeersInRoutingTable in
  if (peers : bool) then
    let? _u := routeRemote.Publish localPeerID ref record
      else e => ret (Err (rewrap "failed to publish to the network: " e)) in
    ret (Ok tt)
  else ret (Ok tt).

Definition List (d : D) (queries : list RecordQuery) (limit : Z) : result (list ListResponse) :=
  routeLocal.List localPeerID d queries limit.

Definition Unpublish (ref : option RecordRef) (record : option CoreRecord) : M W (result unit) :=
  let? _u := routeLocal.Unpublish localPeerID ref record
    else e => ret (Err (rewrap "failed to unpublish locally: " e)) in
  ret (Ok tt).

End route.
End route.

(** ** Publishing through the router *)

Section router_front.
Context {D N T : Type} `{Hd : !Datastore D} {view : D -> gmap string string}
  {bops : Batch -> list BatchOp} `{!DatastoreSpec D view bops}
  `{!CidLib} `{!Network N} `{!StoreAPI T} `{!JsonCodec LabelMetadata} `{!JsonCodec Metrics}.
Context {md_ok : LabelMetadata -> Prop} `{!JsonCodecSpec LabelMetadata md_ok}
  {text_ok : string -> Prop}
  `{!JsonCodecSpec Metrics (fun m => forall l, l ∈ dom (Data m) -> text_ok l)}.
Context (clock : nat -> Time)
  (clock_ok : forall i, md_ok {| Timestamp := clock i; LastSeen := clock (S i) |}).
Context (me : string) (me_good : good_elem me = true) (has_remote : bool).
Context (puts_log : N -> list (string * string))
  (log_put : forall k v n, puts_log (dht_PutValue k v n).2 = puts_log n ++ [(k, v)]).
Notation W := (World D N T).

Lemma announce_labels c ls (w : W) :
  exists w', for_each (fun label => routeRemote.announceLabelToDHT me label c) ls w = (tt, w')
    /\ w_ds w' = w_ds w
    /\ puts_log (w_net w') = puts_log (w_net w)
         ++ ((fun l => (BuildEnhancedLabelKey l c me, c)) <$> ls)
    /\ w_store w' = w_store w.
Proof.
  revert w. induction ls as [|l ls IH]; intros w.
  { exists w. by rewrite app_nil_r. }
  pose proof (log_put (BuildEnhancedLabelKey l c me) c (w_net w)) as Hlog.
  destruct (dht_PutValue (BuildEnhancedLabelKey l c me) c (w_net w)) as [r n'] eqn:E. simpl in Hlog.
  destruct (IH {| w_ds := w_ds w; w_net := n'; w_store := w_store w; w_tick := w_tick w |})
    as (w' & Hrun & Hds & Hn & Hst).
  exists w'. simpl. erewrite bind_run.
  - rewrite Hrun, Hds, Hn, Hst. simpl. by rewrite Hlog, <- app_assoc.
  - unfold routeRemote.announceLabelToDHT, bind, on_net. by rewrite E.
Qed.

(** The local effect, whatever the network does. *)
Lemma route_publish_local P c r (w : W) :
  rep (text_ok := text_ok) me P (view (w_ds w)) -> good_elem c = true ->
  labels_ok (text_ok := text_ok) (getLabels (Some r)) ->
  (forall l, (label_count P l + occ l (getLabels (Some r)) < uint64_max)%Z) ->
  exists res w', route.Publish clock me has_remote (Some {| ref_Cid := c |}) (Some r) w = (res, w')
    /\ rep (text_ok := text_ok) me (spec_publish c (getLabels (Some r)) P) (view (w_ds w'))
    /\ w_store w' = w_store w
    /\ (route.hasPeersInRoutingTable has_remote (w_net w) = false -> res = Ok tt /\ w_net w' = w_net w).
Proof.
  intros Hrep Hc Hls Hb.
  destruct (Publish_run me me_good clock clock_ok P w c r Hrep Hc Hls Hb) as (w1 & Hrun & Hn & Hst & _).
  destruct (Publish_step me me_good clock clock_ok P w c r Hrep Hc Hls Hb) as (w1' & Hrun' & Hrep').
  rewrite Hrun in Hrun'. injection Hrun' as <-.
  unfold route.Publish. rewrite (try_bind_ok _ _ _ _ _ _ Hrun).
  erewrite bind_run by (unfold read_net; rewrite Hn; done).
  destruct (route.hasPeersInRoutingTable has_remote (w_net w)); [|by exists (Ok tt), w1].
  unfold routeRemote.Publish. cbn [ref_GetCid on ref_Cid].
  destruct (cid_Decode c) as [d|e]; [|by eexists _, w1].
  unfold try_bind, bind, on_net.
  destruct (dht_Provide d (w_net w1)) as [[[]|e] n']; simpl; [|by eexists _, _].
  edestruct announce_labels as (w2 & -> & Hds & _ & Hst2).
  exists (Ok tt), w2. simpl. by rewrite Hds, Hst2.
Qed.

(** Publishing through the router.  The record is published locally first,
    whatever the network does; with no peer the network is not used; with peers
    the record is announced and every label is put in the DHT under its key. An
    undecodable CID gives InvalidArgument and a failed announcement Internal, and
    then the record stays published locally. *)
Theorem route_publish P c r (w : W) :
  rep (text_ok := text_ok) me P (view (w_ds w)) -> good_elem c = true ->
  labels_ok (text_ok := text_ok) (getLabels (Some r)) ->
  (forall l, (label_count P l + occ l (getLabels (Some r)) < uint64_max)%Z) ->
  exists res w', route.Publish clock me has_remote (Some {| ref_Cid := c |}) (Some r) w = (res, w')
    /\ rep (text_ok := text_ok) me (spec_publish c (getLabels (Some r)) P) (view (w_ds w'))
    /\ if route.hasPeersInRoutingTable has_remote (w_net w) then
         match cid_Decode c with
         | Err _ => w_net w' = w_net w
             /\ exists e, res = Err e /\ err_code e = Some InvalidArgument
         | Ok d =>
             match (dht_Provide d (w_net w)).1 with
             | Err _ => exists e, res = Err e /\ err_code e = Some Internal
             | Ok _ => res = Ok tt /\ puts_log (w_net w') = puts_log (dht_Provide d (w_net w)).2
                 ++ ((fun l => (BuildEnhancedLabelKey l c me, c)) <$> getLabels (Some r))
             end
         end
       else res = Ok tt /\ w_net w' = w_net w.
Proof.
  intros Hrep Hc Hls Hb.
  destruct (Publish_run me me_good clock clock_ok P w c r Hrep Hc Hls Hb) as (w1 & Hrun & Hn & _).
  destruct (Publish_step me me_good clock clock_ok P w c r Hrep Hc Hls Hb) as (w1' & Hrun' & Hrep').
  rewrite Hrun in Hrun'. injection Hrun' as <-.
  unfold route.Publish. rewrite (try_bind_ok _ _ _ _ _ _ Hrun).
  erewrite bind_run by (unfold read_net; rewrite Hn; done).
  destruct (route.hasPeersInRoutingTable has_remote (w_net w)); [|by exists (Ok tt), w1].
  unfold routeRemote.Publish. cbn [ref_GetCid on ref_Cid].
  destruct (cid_Decode c) as [d|e].
  2:{ eexists _, w1. split; [done|]. split; [done|]. split; [done|]. eauto. }
  unfold try_bind, bind, on_net. rewrite Hn.
  destruct (dht_Provide d (w_net w)) as [[[]|e] n']; simpl.
  2:{ eexists _, _. split; [done|]. simpl. split; [done|]. eauto. }
  edestruct announce_labels as (w2 & -> & Hds & Hlog & _).
  exists (Ok tt), w2. simpl. rewrite Hds, Hlog. done.
Qed.

End router_front.

(** ** From an announcement to a stored label *)

Section announcement.
Context {D N T : Type} `{Hd : !Datastore D} {view : D -> gmap string string}
  {bops : Batch -> list BatchOp} `{!DatastoreSpec D view bops}
  `{!CidLib} `{!Network N} `{!StoreAPI T} `{!HashLib} `{!OasfJson} `{Hmd : !JsonCodec LabelMetadata}.
Context {json_time : Time -> Prop}
  `{!JsonCodecSpec LabelMetadata (fun m => json_time (Timestamp m) /\ json_time (LastSeen m))}.
Context (mh_Cast : string -> result string) (hostID : string) (clock : nat -> Time).
Context (clock_mono : forall i, (clock i <= clock (S i))%Z)
  (clock_time : forall i, json_time (clock i))
  (decoded_time : forall b (md : LabelMetadata), json_Unmarshal b = Ok md -> json_time (Timestamp md)).

(** From announcement to entry.  An announcement of a label key made of a
    clean label, a valid CID and a peer becomes a label message for that CID,
    and handling the message stores decodable metadata at exactly that key and
    changes nothing else.  The only announcer that is ignored is one whose raw
    ID equals the text of the host's ID, which the host's own raw ID does not. *)
Theorem label_announcement_stored l c p prov :
  good_label l = true -> good_elem c = true -> good_elem p = true ->
  cid_ok c = true -> hostID <> ID prov ->
  exists msg, handler.handleAnnounce mh_Cast hostID (BuildEnhancedLabelKey l c p) prov = Some msg
    /\ Ref msg = {| ref_Cid := c |} /\ Peer msg = prov
    /\ forall w : World D N T, exists w' b md,
         routeRemote.handleNotify clock msg w = (tt, w')
         /\ view (w_ds w') = <[BuildEnhancedLabelKey l c p := b]> (view (w_ds w))
         /\ json_Unmarshal b = Ok md /\ (clock (w_tick w) <= LastSeen md)%Z
         /\ w_net w' = w_net w /\ w_store w' = w_store w.
Proof.
  intros Hl Hc Hp Hcid Hhost.
  assert (Hvalid : IsValidNamespaceKey (BuildEnhancedLabelKey l c p) = true).
  { destruct (good_label_namespace l Hl) as (ns & Hns & Hpre).
    apply IsValidNamespaceKey_true. exists ns. split; [done|].
    apply Build_has_prefix; [by apply good_label_is_label| |done].
    by apply good_elem_no_sep, namespace_good. }
  assert (Hext : ExtractCIDFromLabelKey (BuildEnhancedLabelKey l c p) = Ok c).
  { apply good_label_spec in Hl as (ns & x & rest & Hs & _ & _).
    unfold ExtractCIDFromLabelKey. rewrite Hvalid.
    rewrite Split_Build, Hs by by apply good_elem_no_sep.
    change (("" :: ns :: x :: rest) ++ [c; p]) with ("" :: ns :: (x :: rest) ++ [c; p]).
    rewrite shape_min, shape_cid by done. simpl.
    rewrite decide_False by (intros ->; done). unfold cid_ok in Hcid. by destruct (cid_Decode c). }
  unfold handler.handleAnnounce, handler.handleLabelAnnouncement.
  rewrite decide_False, Hvalid, Hext by done. eexists. split; [done|]. split; [done|]. split; [done|].
  intros w. unfold routeRemote.handleNotify. simpl (AnnType _). rewrite decide_True by done.
  edestruct (handleLabelNotification_run clock clock_mono clock_time decoded_time
    {| Ref := {| ref_Cid := c |}; Peer := prov; AnnType := AnnouncementTypeLabel;
       LabelKey' := BuildEnhancedLabelKey l c p |} w)
    as (b & w' & created & seen & Hrun & Hv & Hb & Hn & Hst & _ & Hcr & Hseen).
  simpl in Hv, Hb. rewrite NewKey_label in Hv, Hb by done.
  eexists w', b, _. split; [done|]. split; [done|]. split; [done|]. split; [|done].
  unfold refreshed. destruct (_ ≫= _); simpl; lia.
Qed.

End announcement.

(** ** An executable instance *)

Module DemoRouting.
Import MapDatastore DemoCore DemoLocal DemoRemote.

Definition no_cast (s : string) : result string := Err (Plain "no multihash").

Definition demo_prov : AddrInfo := {| ID := "raw" |}.

(** An announcement arrives and is handled. *)
Definition demo_sys0 : Sys (D := gmap string string) (N := Net) (T := unit) :=
  {| sy_queue := []; sy_world := world1; sy_sent := []; sy_handled := [] |}.

Definition demo_msg : handlerSync := {|
  Ref := {| ref_Cid := "bc9" |}; Peer := demo_prov; AnnType := AnnouncementTypeLabel;
  LabelKey' := "/skills/nlp/bc9/peer9" |}.

Definition demo_sys1 : Sys (D := gmap string string) (N := Net) (T := unit) :=
  {| sy_queue := [demo_msg]; sy_world := world1; sy_sent := [demo_msg]; sy_handled := [] |}.

Lemma demo_announce : step no_cast "host" clock demo_sys0 demo_sys1.
Proof.
  exact (step_add no_cast "host" clock "/skills/nlp/bc9/peer9" demo_prov demo_sys0 (Ok tt)
    {| handler.notifyCh := [demo_msg]; handler.h_net := [] |} eq_refl).
Qed.

Lemma channel_fifo_witness :
  sy_sent demo_sys1 = sy_handled demo_sys1 ++ sy_queue demo_sys1
  /\ (length (sy_queue demo_sys1) <= NotificationChannelSize)%nat.
Proof.
  apply (channel_fifo no_cast "host" clock world1).
  apply (reach_step no_cast "host" clock world1 demo_sys0); [apply reach_init|apply demo_announce].
Defined.

Lemma route_publish_witness :
  exists res w', route.Publish clock "me" true (Some {| ref_Cid := "bc2" |})
      (Some (demo_record "nlp/ner")) world1 = (res, w')
    /\ rep (text_ok := fun _ => True) "me"
         (spec_publish "bc2" (getLabels (Some (demo_record "nlp/ner"))) demo_state) (view (w_ds w'))
    /\ res = Ok tt.
Proof.
  destruct (route_publish clock (fun _ => I) "me" eq_refl true net_log net_log_put demo_state "bc2"
    (demo_record "nlp/ner") world1 demo_rep) as (res & w' & H1 & H2 & H3).
  - reflexivity.
  - apply demo_labels_ok. reflexivity.
  - intros l. apply demo_bound. vm_compute. discriminate.
  - exists res, w'. split; [exact H1|]. split; [exact H2|]. exact (proj1 H3).
Defined.

Lemma label_announcement_stored_witness :
  exists msg, handler.handleAnnounce no_cast "host" "/skills/nlp/bc9/peer9" demo_prov = Some msg
    /\ Ref msg = {| ref_Cid := "bc9" |}.
Proof.
  destruct (label_announcement_stored (T := unit) (N := Net) (D := gmap string string) no_cast "host"
    clock clock_mono (json_time := fun _ => True) (fun _ => I) (fun _ _ _ => I)
    "/skills/nlp" "bc9" "peer9" demo_prov) as (msg & H1 & H2 & _); try reflexivity.
  - discriminate.
  - exists msg. split; [exact H1|exact H2].
Defined.

End DemoRouting.
