(* ===== verification/RoutingNode.v ===== *)
(** * A directory node over time

    The local router and the tasks of the remote router work on one datastore:
    requests publish and unpublish records, announcements of other peers arrive
    on the channel, and two tickers start the clean-up of stale labels and the
    republishing (startRemoteLabelCleanupTask, startLabelRepublishTask).  This
    file composes them: any sequence of these operations keeps a map of
    published records and a map of what other peers have announced. *)

From S2P Require Import Prelude GoStrings Interfaces Adapters CoreRecord Validators LabelKey Metrics RoutingWorld Rpc RoutingLocal RoutingLocalSpec RoutingRemote RoutingRemoteSpec Routing.

Open Scope string_scope.
Open Scope list_scope.
Open Scope go_scope.

(** ** What holds along a run of a node *)

Section along_world.
Context {D N T : Type}.
Notation W := (World D N T).

Lemma along_read_ds {A} (R : relation W) `{!PreOrder R} (f : D -> A) : along R (read_ds f).
Proof. by intros w. Qed.
Lemma along_read_net {A} (R : relation W) `{!PreOrder R} (f : N -> A) : along R (read_net f).
Proof. by intros w. Qed.

(** The clock is never set back. *)
Definition tick_le (w w' : W) : Prop := (w_tick w <= w_tick w')%nat.
#[export] Instance tick_le_preorder : PreOrder tick_le.
Proof. split; unfold tick_le; repeat intros ?; lia. Qed.

(** The datastore stays as it is. *)
Definition same_ds (w w' : W) : Prop := w_ds w' = w_ds w.
#[export] Instance same_ds_preorder : PreOrder same_ds.
Proof. split; unfold same_ds; repeat intros ?; congruence. Qed.

Lemma tick_on_ds {A} (c : M D A) : along tick_le (on_ds c).
Proof. intros w. unfold on_ds, tick_le. by destruct (c (w_ds w)). Qed.
Lemma tick_on_net {A} (c : M N A) : along tick_le (on_net c).
Proof. intros w. unfold on_net, tick_le. by destruct (c (w_net w)). Qed.
Lemma tick_on_store {A} (c : M T A) : along tick_le (on_store c).
Proof. intros w. unfold on_store, tick_le. by destruct (c (w_store w)). Qed.
Lemma tick_Now clock : along tick_le (time_Now clock).
Proof. intros w. unfold tick_le. simpl. lia. Qed.

Lemma ds_on_net {A} (c : M N A) : along same_ds (on_net c).
Proof. intros w. unfold on_net, same_ds. by destruct (c (w_net w)). Qed.
Lemma ds_on_store {A} (c : M T A) : along same_ds (on_store c).
Proof. intros w. unfold on_store, same_ds. by destruct (c (w_store w)). Qed.

End along_world.

#[export] Hint Resolve along_read_ds along_read_net tick_on_ds tick_on_net tick_on_store tick_Now
  ds_on_net ds_on_store : along.

(** ** The operations of a node *)

Inductive node_op :=
  | NodePublish (c : string) (r : CoreRecord)      (** route.Publish *)
  | NodeUnpublish (c : string) (r : CoreRecord)    (** route.Unpublish *)
  | NodeNotify (notif : handlerSync)               (** a turn of handleNotify *)
  | NodeCleanup                                    (** a tick of startRemoteLabelCleanupTask *)
  | NodeRepublish.                                 (** a tick of startLabelRepublishTask *)

Section run.
Context {D N T : Type} `{Hds : !Datastore D} `{!CidLib} `{!Network N} `{!StoreAPI T}
  `{!JsonCodec LabelMetadata} `{!JsonCodec Metrics} `{!OasfJson}.
Context (clock : nat -> Time) (me : string) (has_remote : bool).
Notation W := (World D N T).

(** The answers of the requests and of the tasks play no role here. *)
Definition run_node (x : node_op) : M W unit :=
  match x with
  | NodePublish c r => do! route.Publish clock me has_remote (Some {| ref_Cid := c |}) (Some r) then ret tt
  | NodeUnpublish c r => do! route.Unpublish me (Some {| ref_Cid := c |}) (Some r) then ret tt
  | NodeNotify notif => routeRemote.handleNotify clock notif
  | NodeCleanup => do! routeRemote.cleanupStaleRemoteLabels clock me then ret tt
  | NodeRepublish => routeRemote.republishLocalLabels me
  end.

Definition run_nodes (xs : list node_op) (w : W) : W := foldl (fun w x => (run_node x w).2) w xs.

(** *** The background tasks

    A task is a [task_loop]. *)

Definition startLabelRepublishTask : list task_event -> M W unit := task_loop (routeRemote.republishLocalLabels me).

(** A failure of the clean-up is logged. *)
Definition startRemoteLabelCleanupTask : list task_event -> M W unit :=
  task_loop (let? _u := routeRemote.cleanupStaleRemoteLabels clock me else _err => ret tt in ret tt).

Lemma task_is_run tick x events w : (forall w, (tick w).2 = (run_node x w).2) ->
  (task_loop tick events w).2 = run_nodes (replicate (ticks_before_done events) x) w.
Proof.
  intros Hx. revert w. induction events as [|[] events IH]; intros w; [done| |done]. simpl. unfold bind.
  specialize (Hx w). destruct (tick w) as [[] w1]. simpl in Hx. subst w1. apply IH.
Qed.

(** The tasks are runs of the node: one operation for each tick until the context is
    done, and none after. *)
Theorem tasks_run events w :
  (startLabelRepublishTask events w).2 = run_nodes (replicate (ticks_before_done events) NodeRepublish) w
  /\ (startRemoteLabelCleanupTask events w).2 = run_nodes (replicate (ticks_before_done events) NodeCleanup) w.
Proof.
  split; apply task_is_run; [done|]. intros w'. simpl. unfold try_bind, bind.
  by destruct (routeRemote.cleanupStaleRemoteLabels clock me w') as [[]].
Qed.

End run.

(** ** The abstract node

    What is published here, with its labels, and what was announced by others:
    the metadata under each label key. *)
Record Node := {
  nd_published : gmap string (list string);
  nd_announced : gmap string LabelMetadata }.

(** An announcement created or refreshed. *)
Definition announce (k : string) (created seen : Time) (A : gmap string LabelMetadata) :=
  <[k := match A !! k with
         | Some md => {| Timestamp := Timestamp md; LastSeen := seen |}
         | None => {| Timestamp := created; LastSeen := created |}
         end]> A.

Definition published_after (P : gmap string (list string)) (x : node_op) : gmap string (list string) :=
  match x with
  | NodePublish c r => spec_publish c (getLabels (Some r)) P
  | NodeUnpublish c _ => spec_unpublish c P
  | _ => P
  end.

(** What an operation between the times [t0] and [t1] may do to announcements. *)
Definition announced_after (t0 t1 : Time) (x : node_op) (A A' : gmap string LabelMetadata) : Prop :=
  match x with
  | NodeNotify notif =>
      if decide (AnnType notif = AnnouncementTypeLabel) then
        exists created seen, (t0 <= created <= t1)%Z /\ (t0 <= seen <= t1)%Z
          /\ A' = announce (LabelKey' notif) created seen A
      else A' = A
  | NodeCleanup => forall k, exists now, (t0 <= now <= t1)%Z
      /\ A' !! k = (md ← A !! k; if IsStale now md MaxLabelAge then None else Some md)
  | _ => A' = A
  end.

Inductive node_trace : Time -> list node_op -> Node -> Time -> Node -> Prop :=
  | trace_nil t s : node_trace t [] s t s
  | trace_cons t t1 t2 x xs s s1 s2 :
      (t <= t1)%Z -> nd_published s1 = published_after (nd_published s) x ->
      announced_after t t1 x (nd_announced s) (nd_announced s1) ->
      node_trace t1 xs s1 t2 s2 -> node_trace t (x :: xs) s t2 s2.

(** ** What a trace does to one announcement *)

(** The keys a sequence of operations announces. *)
Definition announced_keys (xs : list node_op) : list string :=
  omap (fun x => match x with
                 | NodeNotify notif => if decide (AnnType notif = AnnouncementTypeLabel)
                                       then Some (LabelKey' notif) else None
                 | _ => None
                 end) xs.

Lemma trace_le t xs s t' s' : node_trace t xs s t' s' -> (t <= t')%Z.
Proof. induction 1; lia. Qed.

Lemma not_stale now md : (now <= LastSeen md + MaxLabelAge)%Z -> IsStale now md MaxLabelAge = false.
Proof.
  intros Hn. unfold IsStale, time_Since, time_Sub. apply bool_decide_eq_false.
  assert (0 < MaxLabelAge < maxDuration)%Z by done. unfold minDuration. lia.
Qed.

(** One operation keeps a fresh announcement. *)
Lemma announced_kept t t1 x A A' k md : announced_after t t1 x A A' -> A !! k = Some md ->
  (LastSeen md <= t)%Z -> (t1 <= LastSeen md + MaxLabelAge)%Z ->
  exists md', A' !! k = Some md' /\ (LastSeen md <= LastSeen md' <= Z.max (LastSeen md) t1)%Z.
Proof.
  intros HA Hk Hl Ht. destruct x; simpl in HA; try (subst; exists md; split; [done|lia]).
  - case_decide; [|subst; exists md; split; [done|lia]].
    destruct HA as (created & seen & Hc & Hs & ->). unfold announce.
    destruct (decide (k = LabelKey' notif)) as [->|Hne].
    + rewrite lookup_insert_eq, Hk. eexists. split; [done|]. simpl. lia.
    + rewrite lookup_insert_ne by done. exists md. split; [done|lia].
  - destruct (HA k) as (now & Hnow & ->). rewrite Hk. simpl. rewrite not_stale by lia.
    exists md. split; [done|lia].
Qed.

(** An announcement seen within [MaxLabelAge] of the end is there at the end. *)
Lemma trace_keeps t xs s t' s' k md : node_trace t xs s t' s' -> nd_announced s !! k = Some md ->
  (LastSeen md <= t)%Z -> (t' <= LastSeen md + MaxLabelAge)%Z ->
  exists md', nd_announced s' !! k = Some md' /\ (LastSeen md <= LastSeen md')%Z.
Proof.
  intros Htr. revert md. induction Htr as [|t t1 t2 x xs s s1 s2 Hle _ HA Htr IH]; intros md Hk Hl Ht.
  { exists md. split; [done|lia]. }
  apply trace_le in Htr as Hle2.
  destruct (announced_kept _ _ _ _ _ _ _ HA Hk Hl) as (md1 & Hk1 & Hl1); [lia|].
  destruct (IH md1 Hk1) as (md2 & Hk2 & Hl2); [lia..|]. exists md2. split; [done|lia].
Qed.

(** Nothing is there that was not announced. *)
Lemma trace_invents_nothing t xs s t' s' k : node_trace t xs s t' s' -> is_Some (nd_announced s' !! k) ->
  is_Some (nd_announced s !! k) \/ k ∈ announced_keys xs.
Proof.
  induction 1 as [|t t1 t2 x xs s s1 s2 Hle _ HA Htr IH]; intros Hk; [by left|].
  destruct (IH Hk) as [[md Hmd]|Hin]; [|right; unfold announced_keys; simpl; case_match; set_solver].
  destruct x; simpl in HA; try (left; rewrite <- HA, Hmd; done).
  - unfold announced_keys. simpl. case_decide as Ha; [|left; rewrite <- HA, Hmd; done].
    destruct HA as (created & seen & _ & _ & HA). rewrite HA in Hmd. unfold announce in Hmd.
    destruct (decide (k = LabelKey' notif)) as [->|Hne]; [right; left|].
    rewrite lookup_insert_ne in Hmd by done. left. by rewrite Hmd.
  - destruct (HA k) as (now & _ & Hk'). rewrite Hmd in Hk'. left. by destruct (nd_announced s !! k).
Qed.

(** ** The datastore of a node *)

Section node.
Context {D N T : Type} `{Hds : !Datastore D} {view : D -> gmap string string}
  {bops : Batch -> list BatchOp} `{!DatastoreSpec D view bops}
  `{!CidLib} `{!Network N} `{!StoreAPI T} `{!JsonCodec LabelMetadata} `{!JsonCodec Metrics} `{!OasfJson}.
Context {json_time : Time -> Prop}
  `{!JsonCodecSpec LabelMetadata (fun m => json_time (Timestamp m) /\ json_time (LastSeen m))}.
Context {text_ok : string -> Prop}
  `{!JsonCodecSpec Metrics (fun m => forall l, l ∈ dom (Data m) -> text_ok l)}.
Context (clock : nat -> Time) (clock_mono : forall i, (clock i <= clock (S i))%Z)
  (clock_pos : forall i, (0 < clock i)%Z) (clock_time : forall i, json_time (clock i))
  (decoded_time : forall b (md : LabelMetadata), json_Unmarshal b = Ok md -> json_time (Timestamp md)).
Context (me : string) (me_good : good_elem me = true) (has_remote : bool).
Context (pulls : string -> result CoreRecord)
  (store_fixed : forall (t : T) c, (store_Pull (Some {| ref_Cid := c |}) t).1 = pulls c).
Notation W := (World D N T).
Notation rep := (rep (text_ok := text_ok) me).

(** A label key of another peer. *)
Definition remote_key (k : string) : bool :=
  IsValidNamespaceKey k && negb (bool_decide (ExtractPeerIDFromKey k = me)).

Record node_rep (s : Node) (w : W) : Prop := {
  node_local : rep (nd_published s) (view (w_ds w));
  node_remote k : remote_key k = true -> match view (w_ds w) !! k with
    | None => nd_announced s !! k = None
    | Some b => exists md, json_Unmarshal b = Ok md /\ nd_announced s !! k = Some md
        /\ is_ok (ParseEnhancedLabelKey k) = true
        /\ (0 < Timestamp md <= LastSeen md)%Z /\ (LastSeen md <= clock (w_tick w))%Z
    end;
  node_keys k : is_Some (nd_announced s !! k) -> remote_key k = true;
  node_clean : keys_clean (view := view) (w_ds w);
}.

(** The operations of a node that works: records with clean labels are published,
    published ones are unpublished, announcements are of other peers, and the
    store still has what is published when it is republished. *)
Definition node_op_ok (P : gmap string (list string)) (x : node_op) : Prop :=
  match x with
  | NodePublish c r => good_elem c = true /\ labels_ok (text_ok := text_ok) (getLabels (Some r))
      /\ forall l, (label_count P l + occ l (getLabels (Some r)) < uint64_max)%Z
  | NodeUnpublish c r => P !! c = Some (getLabels (Some r))
  | NodeNotify notif => AnnType notif = AnnouncementTypeLabel ->
      exists l c p, LabelKey' notif = BuildEnhancedLabelKey l c p /\ good_label l = true
        /\ good_elem c = true /\ good_elem p = true /\ p <> me
  | NodeCleanup => True
  | NodeRepublish => forall c, is_Some (P !! c) -> is_ok (pulls c) = true
  end.

Fixpoint node_ops_ok (P : gmap string (list string)) (xs : list node_op) : Prop :=
  match xs with
  | [] => True
  | x :: xs => node_op_ok P x /\ node_ops_ok (published_after P x) xs
  end.

(** *** Changes that leave the local entries, or the remote ones, as they are *)

Lemma rep_frame P m m' : rep P m -> m' !! "/metrics" = m !! "/metrics" ->
  (forall s, m' !! ("/records/" +:+ s) = m !! ("/records/" +:+ s)) ->
  (forall l c, ns_label l -> no_sep "/" c = true ->
     m' !! BuildEnhancedLabelKey l c me = m !! BuildEnhancedLabelKey l c me) -> rep P m'.
Proof.
  intros [Hg Hr Hl (mt & Hin & Hmt)] Hm Hs Hk. split; [done| | |].
  - intros s. by rewrite Hs.
  - intros l c Hnl Hc. by rewrite Hk, Hl.
  - exists mt. split; [|done]. unfold metrics_in in *. by rewrite Hm.
Qed.

Lemma ticks_node x : along tick_le (run_node (D := D) (N := N) (T := T) clock me has_remote x).
Proof.
  destruct x as [c r|c r|notif| |]; simpl.
  - unfold route.Publish, routeLocal.Publish, routeRemote.Publish.
    along; unfold routeLocal.publish_label, routeRemote.announceLabelToDHT; along.
  - unfold route.Unpublish, routeLocal.Unpublish. along. unfold routeLocal.unpublish_label. along.
  - unfold routeRemote.handleNotify, routeRemote.handleLabelNotification, routeRemote.handleCIDProviderNotification.
    along.
  - unfold routeRemote.cleanupStaleRemoteLabels. along; unfold routeRemote.check_stale; along.
  - unfold routeRemote.republishLocalLabels, routeRemote.cleanupOrphanedLocalLabels.
    along; unfold routeRemote.republish_record, routeRemote.cleanupLabelsForCID, routeRemote.republish_label; along.
Qed.

Lemma clock_up i j : (i <= j)%nat -> (clock i <= clock j)%Z.
Proof. by apply clock_le. Qed.

Lemma Extract_Build l c p : is_label l -> no_sep "/" c = true -> no_sep "/" p = true ->
  ExtractPeerIDFromKey (BuildEnhancedLabelKey l c p) = p.
Proof.
  intros (a & b & rest & Hl)%is_label_split Hc Hp.
  destruct (Extract_split (BuildEnhancedLabelKey l c p) "" a (b :: rest) c p) as [He _]; [|done|done].
  by rewrite Split_Build, Hl.
Qed.

Lemma remote_not_own k c ls : remote_key k = true -> labels_ok (text_ok := text_ok) ls -> good_elem c = true ->
  k ∉ "/metrics" :: ("/records/" +:+ c) :: label_keys me c ls.
Proof.
  intros [Hv Hp]%andb_true_iff Hls Hc. rewrite !not_elem_of_cons. repeat split.
  - by intros ->.
  - intros ->. by rewrite record_not_namespace in Hv.
  - intros (l & -> & Hl)%list_elem_of_fmap. unfold labels_ok in Hls. rewrite Forall_forall in Hls.
    destruct (Hls l Hl) as [Hg _]. apply negb_true_iff, bool_decide_eq_false in Hp. apply Hp.
    apply Extract_Build; [by apply good_label_is_label|by apply good_elem_no_sep..].
Qed.

Lemma own_clean k c ls : k ∈ "/metrics" :: ("/records/" +:+ c) :: label_keys me c ls ->
  labels_ok (text_ok := text_ok) ls -> good_elem c = true -> ds_NewKey k = k.
Proof.
  rewrite !elem_of_cons. intros [->|[->|(l & -> & Hl)%list_elem_of_fmap]] Hls Hc.
  - apply metrics_key_eq.
  - by apply NewKey_record.
  - unfold labels_ok in Hls. rewrite Forall_forall in Hls. by apply NewKey_label; [apply Hls|..].
Qed.

(** A request changes own entries only. *)
Lemma node_rep_local s (w w' : W) P c ls : node_rep s w -> rep P (view (w_ds w')) ->
  labels_ok (text_ok := text_ok) ls -> good_elem c = true -> (w_tick w <= w_tick w')%nat ->
  (forall k, k ∉ "/metrics" :: ("/records/" +:+ c) :: label_keys me c ls ->
     view (w_ds w') !! k = view (w_ds w) !! k) ->
  node_rep {| nd_published := P; nd_announced := nd_announced s |} w'.
Proof.
  intros [_ Hr Hk Hcl] Hrep Hls Hc Ht%clock_up Hv. split; simpl; [done| |done|].
  - intros k Hrk. rewrite Hv by by apply remote_not_own. specialize (Hr k Hrk).
    destruct (view (w_ds w) !! k) as [b|]; [|done]. destruct Hr as (md & ? & ? & ? & ? & ?).
    exists md. repeat split; try done; lia.
  - intros k Hs. destruct (decide (k ∈ "/metrics" :: ("/records/" +:+ c) :: label_keys me c ls)) as [Hin|Hin].
    + by eapply own_clean.
    + apply Hcl. by rewrite <- Hv.
Qed.

(** *** The operations, one by one *)

Lemma clock_json i : json_time (clock i) /\ json_time (clock (S i)).
Proof. auto. Qed.

Lemma route_publish_ds c r (w w1 : W) :
  routeLocal.Publish clock me (Some {| ref_Cid := c |}) (Some r) w = (Ok tt, w1) ->
  same_ds w1 (route.Publish clock me has_remote (Some {| ref_Cid := c |}) (Some r) w).2.
Proof.
  intros Hrun. unfold route.Publish. rewrite (try_bind_ok _ _ _ _ _ _ Hrun).
  match goal with |- same_ds w1 (?f w1).2 => assert (Ha : along same_ds f) end; [|apply Ha].
  unfold routeRemote.Publish. along.
Qed.

Lemma node_publish s (w : W) c r : node_rep s w -> node_op_ok (nd_published s) (NodePublish c r) ->
  node_rep {| nd_published := published_after (nd_published s) (NodePublish c r);
              nd_announced := nd_announced s |} (run_node clock me has_remote (NodePublish c r) w).2.
Proof.
  intros Hrep (Hc & Hls & Hb). pose proof (ticks_node (NodePublish c r) w) as Ht. revert Ht.
  destruct (Publish_run me me_good clock clock_json _ w c r (node_local _ _ Hrep) Hc Hls Hb)
    as (w1 & Hrun & Hn & Hst & Hw1).
  destruct (Publish_step me me_good clock clock_json _ w c r (node_local _ _ Hrep) Hc Hls Hb)
    as (w1' & Hrun' & Hrep'). rewrite Hrun in Hrun'. injection Hrun' as <-.
  unfold run_node, bind. pose proof (route_publish_ds _ _ _ _ Hrun) as Hsame.
  destruct (route.Publish _ _ _ _ _ w) as [res w2]. unfold same_ds in Hsame. simpl in Hsame |- *. intros Ht.
  eapply (node_rep_local s w w2 _ c); [done|by rewrite Hsame|exact Hls|done|exact Ht|].
  intros k Hk. rewrite Hsame. rewrite !not_elem_of_cons in Hk. destruct Hk as (Hk1 & Hk2 & Hk3).
  destruct (nd_published s !! c); [by subst|]. destruct Hw1 as (mt' & b' & kvs & -> & Hkvs & _).
  rewrite lookup_insert_ne by done. rewrite apply_ops_other by (by rewrite puts_op_key, Hkvs).
  by rewrite lookup_insert_ne.
Qed.

Lemma node_unpublish s (w : W) c r : node_rep s w -> node_op_ok (nd_published s) (NodeUnpublish c r) ->
  node_rep {| nd_published := published_after (nd_published s) (NodeUnpublish c r);
              nd_announced := nd_announced s |} (run_node clock me has_remote (NodeUnpublish c r) w).2.
Proof.
  intros Hrep HP. pose proof (ticks_node (NodeUnpublish c r) w) as Ht. revert Ht.
  destruct (rep_good _ _ _ (node_local _ _ Hrep) _ _ HP) as [Hc Hls].
  destruct (Unpublish_run me me_good _ w c r (node_local _ _ Hrep) Hc Hls)
    as (w1 & mt & b & Hrun & Hn & Hst & Hw1 & _).
  destruct (Unpublish_step me me_good _ w c r (node_local _ _ Hrep) HP) as (w1' & Hrun' & Hrep').
  rewrite Hrun in Hrun'. injection Hrun' as <-.
  unfold run_node, bind, route.Unpublish. rewrite (try_bind_ok _ _ _ _ _ _ Hrun). simpl. intros Ht.
  eapply (node_rep_local s w w1 _ c); [done|done|exact Hls|done|exact Ht|].
  intros k Hk. rewrite !not_elem_of_cons in Hk. destruct Hk as (Hk1 & Hk2 & Hk3).
  rewrite Hw1, lookup_insert_ne by done. apply apply_ops_other.
  rewrite deletes_op_key. by apply not_elem_of_cons.
Qed.

(** Keys of another peer are not keys of this one. *)
Lemma remote_build l c p : good_label l = true -> good_elem c = true -> good_elem p = true -> p <> me ->
  remote_key (BuildEnhancedLabelKey l c p) = true.
Proof.
  intros Hl Hc Hp Hpm. unfold remote_key. pose proof (good_label_is_label _ Hl) as His.
  rewrite Extract_Build by first [done|by apply good_elem_no_sep]. rewrite bool_decide_false by done.
  rewrite andb_true_r. apply IsValidNamespaceKey_true.
  destruct (good_label_namespace _ Hl) as (ns & Hns & Hpre). exists ns. split; [done|].
  apply Build_has_prefix; [done| |done]. by apply good_elem_no_sep, namespace_good.
Qed.

Lemma remote_not_label k l c : remote_key k = true -> is_label l -> no_sep "/" c = true ->
  k <> BuildEnhancedLabelKey l c me.
Proof.
  intros [_ Hp]%andb_true_iff Hl Hc ->. apply negb_true_iff, bool_decide_eq_false in Hp.
  apply Hp, Extract_Build; [done|done|by apply good_elem_no_sep].
Qed.

(** Changing remote entries keeps the local ones. *)
Lemma rep_remote P m m' : rep P m ->
  (forall k, remote_key k = false -> m' !! k = m !! k) -> rep P m'.
Proof.
  intros Hrep Hv. apply (rep_frame P m); [done| | |].
  - by apply Hv.
  - intros s. apply Hv. unfold remote_key. by rewrite record_not_namespace.
  - intros l c [Hl _] Hc. apply Hv. apply not_true_is_false. intros Hr. by apply (remote_not_label _ l c Hr).
Qed.

Lemma node_notify s (w : W) notif : node_rep s w -> node_op_ok (nd_published s) (NodeNotify notif) ->
  let w' := (run_node clock me has_remote (NodeNotify notif) w).2 in
  exists A, announced_after (clock (w_tick w)) (clock (w_tick w')) (NodeNotify notif) (nd_announced s) A
    /\ node_rep {| nd_published := nd_published s; nd_announced := A |} w'.
Proof.
  intros Hrep Hok. pose proof (ticks_node (NodeNotify notif) w) as Ht. cbn [run_node] in *.
  unfold routeRemote.handleNotify in *. simpl announced_after. case_decide as Ha.
  2:{ exists (nd_announced s). split; [done|].
      assert (Hsame : same_ds w ((if decide (AnnType notif = AnnouncementTypeCID)
        then routeRemote.handleCIDProviderNotification notif
        else routeRemote.handleCIDProviderNotification notif) w).2).
      { match goal with |- same_ds w (?f w).2 => assert (Hal : along same_ds f) end; [|apply Hal].
        unfold routeRemote.handleCIDProviderNotification. along. }
      destruct Hrep as [Hl Hr Hk Hcl]. unfold same_ds in Hsame. split; simpl; rewrite ?Hsame; [done| |done|done].
      intros k Hrk. specialize (Hr k Hrk). destruct (view (w_ds w) !! k); [|done].
      destruct Hr as (md & ? & ? & ? & ? & ?). exists md. apply clock_up in Ht. repeat split; try done; lia. }
  destruct (Hok Ha) as (l & c & p & Hkey & Hl & Hc & Hp & Hpm).
  destruct (handleLabelNotification_run clock clock_mono clock_time decoded_time notif w)
    as (b & w' & created & seen & Hrun & Hv & Hb & _ & _ & Htk & Hcr & Hse).
  assert (Hnk : ds_NewKey (LabelKey' notif) = LabelKey' notif) by (rewrite Hkey; by apply NewKey_label).
  rewrite Hnk in Hv, Hb. rewrite Hrun in *. simpl in Ht |- *.
  assert (Hrk : remote_key (LabelKey' notif) = true) by (rewrite Hkey; by apply remote_build).
  exists (announce (LabelKey' notif) created seen (nd_announced s)). split; [by exists created, seen|].
  destruct Hrep as [Hlo Hr Hk Hcl]. split; simpl.
  - apply (rep_remote _ _ _ Hlo). intros k Hk0. rewrite Hv, lookup_insert_ne; [done|]. congruence.
  - intros k Hrk'. rewrite Hv. unfold announce. pose proof (Hr _ Hrk') as Hrk0.
    destruct (decide (k = LabelKey' notif)) as [->|Hne].
    + rewrite !lookup_insert_eq. exists (refreshed (view (w_ds w)) (LabelKey' notif) created seen).
      split; [done|]. unfold refreshed in *. pose proof (clock_pos (w_tick w)).
      destruct (view (w_ds w) !! LabelKey' notif) as [b0|] eqn:Hb0; simpl in *.
      * destruct Hrk0 as (md & Hdec & HA & Hpar & Hts & Hls). rewrite Hdec, HA. simpl.
        split; [done|]. split; [done|]. split; lia.
      * rewrite Hrk0. split; [done|]. split; [|simpl; split; lia].
        rewrite Hkey, Parse_Build by first [by apply good_label_is_label|by apply good_elem_no_sep]. done.
    + rewrite !lookup_insert_ne by done. destruct (view (w_ds w) !! k); [|done].
      destruct Hrk0 as (md & ? & ? & ? & ? & ?). exists md. apply clock_up in Ht. repeat split; try done; lia.
  - intros k. unfold announce. rewrite lookup_insert_is_Some. intros [<-|[_ ?]]; auto.
  - intros k. rewrite Hv, lookup_insert_is_Some. intros [<-|[_ ?]]; auto.
Qed.

Lemma filter_remote k v : me <> "" ->
  (IsValidNamespaceKey k && routeRemote.remoteLabelFilter_Filter me {| Key := k; Value := v |}) = remote_key k.
Proof.
  intros Hme. unfold remote_key, routeRemote.remoteLabelFilter_Filter. simpl.
  case_decide as He; [|done]. by rewrite He, bool_decide_false.
Qed.

Lemma removable_remote now (m : gmap string string) k :
  remote_key k = false -> removable me now m k = false.
Proof.
  intros Hk. unfold removable. destruct (m !! k) as [v|]; [|done].
  rewrite filter_remote, Hk; [done|]. apply good_elem_spec in me_good. naive_solver.
Qed.

Lemma removable_stale now (m : gmap string string) k b md : remote_key k = true -> m !! k = Some b ->
  json_Unmarshal b = Ok md -> is_ok (ParseEnhancedLabelKey k) = true -> (0 < Timestamp md <= LastSeen md)%Z ->
  removable me now m k = IsStale now md MaxLabelAge.
Proof.
  intros Hk Hb Hmd Hp Hts. unfold removable. rewrite Hb.
  rewrite filter_remote, Hk by (apply good_elem_spec in me_good; naive_solver). unfold garbage. simpl.
  destruct (ParseEnhancedLabelKey k); [|done]. rewrite Hmd, (proj2 (metadata_Validate_ok md)) by lia. done.
Qed.

Lemma node_cleanup s (w : W) : node_rep s w ->
  let w' := (run_node clock me has_remote NodeCleanup w).2 in
  exists A, announced_after (clock (w_tick w)) (clock (w_tick w')) NodeCleanup (nd_announced s) A
    /\ node_rep {| nd_published := nd_published s; nd_announced := A |} w'.
Proof.
  intros [Hlo Hr Hk Hcl].
  destruct (cleanupStale_run clock clock_mono me w Hcl) as (w' & Hrun & Hn & Hs & Ht & Hv).
  unfold run_node, bind. rewrite Hrun. simpl.
  set (A := filter (fun kv : string * LabelMetadata => is_Some (view (w_ds w') !! kv.1)) (nd_announced s)).
  assert (HA : forall k, A !! k = if view (w_ds w') !! k then nd_announced s !! k else None).
  { intros k. unfold A. rewrite map_lookup_filter. destruct (nd_announced s !! k) as [md|]; simpl; [|by case_match].
    destruct (view (w_ds w') !! k); [by rewrite option_guard_True|].
    rewrite option_guard_False; [done|]. apply is_Some_None. }
  exists A. pose proof (clock_up _ _ Ht) as Hc. split; [|split; simpl].
  - intros k. rewrite HA. destruct (Hv k) as (now & Hnow & ->). destruct (remote_key k) eqn:Hrk.
    + exists now. split; [done|]. specialize (Hr k Hrk). destruct (view (w_ds w) !! k) as [b|] eqn:Hb.
      * destruct Hr as (md & Hmd & -> & Hp & Hts & _). simpl.
        rewrite (removable_stale now _ k b md) by done. by destruct (IsStale now md MaxLabelAge).
      * rewrite Hr. by case_match.
    + exists (clock (w_tick w)). split; [lia|]. destruct (nd_announced s !! k) eqn:E; [|by repeat case_match].
      rewrite Hk in Hrk by eauto. done.
  - apply (rep_remote _ _ _ Hlo). intros k Hrk. destruct (Hv k) as (now & _ & ->).
    by rewrite removable_remote.
  - intros k Hrk. rewrite HA. destruct (view (w_ds w') !! k) as [b|] eqn:Hb; [|done].
    destruct (Hv k) as (now & _ & Hk'). rewrite Hb in Hk'. specialize (Hr k Hrk).
    destruct (removable me now (view (w_ds w)) k); [done|]. rewrite <- Hk' in Hr.
    destruct Hr as (md & ? & ? & ? & ? & ?). exists md. repeat split; try done; lia.
  - intros k. rewrite HA. case_match; [apply Hk|by intros []].
  - intros k Hs'. apply Hcl. destruct (Hv k) as (now & _ & Hk'). rewrite Hk' in Hs'.
    by destruct (removable me now (view (w_ds w)) k); [destruct Hs'|].
Qed.

Lemma republish_label_orphans c ls st (w : W) :
  routeRemote.orphanedCIDs (for_acc (routeRemote.republish_label me c) st ls w).1 = routeRemote.orphanedCIDs st.
Proof.
  revert st w. induction ls as [|l ls IH]; intros st w; [done|]. cbn [for_acc]. unfold bind at 1.
  destruct (routeRemote.republish_label me c st l w) as [st1 w1] eqn:E. rewrite IH. revert E.
  unfold routeRemote.republish_label, bind. destruct (on_net _ w) as [[u|e] w2]; by intros [= <- _].
Qed.

Lemma republish_no_orphans cs es st (w : W) :
  Key <$> es = (fun c => "/records/" +:+ c) <$> cs -> Forall (fun c => good_elem c = true) cs ->
  Forall (fun c => is_ok (pulls c) = true) cs ->
  routeRemote.orphanedCIDs (for_acc (routeRemote.republish_record me) st (ok_entry <$> es) w).1
  = routeRemote.orphanedCIDs st.
Proof.
  revert cs st w. induction es as [|e es IH]; intros [|c cs] st w Hes Hcs Hps; try done.
  rewrite !fmap_cons in Hes. injection Hes as Hk Hes. apply Forall_cons in Hcs as [Hc Hcs].
  apply Forall_cons in Hps as [Hp Hps]. rewrite fmap_cons. cbn [for_acc]. unfold bind at 1.
  destruct (routeRemote.republish_record me st (ok_entry e) w) as [st1 w1] eqn:E.
  rewrite (IH cs) by done. revert E. unfold routeRemote.republish_record. simpl.
  rewrite Hk, path_Base_record by done. rewrite decide_False by (intros ->; done).
  unfold try_bind, bind, on_store. rewrite <- (store_fixed (w_store w) c) in Hp.
  destruct (store_Pull _ (w_store w)) as [[r|e'] t']; [|done]. intros Hf.
  rewrite <- (republish_label_orphans c (getLabels (Some r)) st
    {| w_ds := w_ds w; w_net := w_net w; w_store := t'; w_tick := w_tick w |}). by rewrite Hf.
Qed.

Lemma node_republish s (w : W) : node_rep s w -> node_op_ok (nd_published s) NodeRepublish ->
  node_rep s (run_node clock me has_remote NodeRepublish w).2.
Proof.
  intros Hrep Hok. pose proof (ticks_node NodeRepublish w) as Ht.
  assert (Hsame : same_ds w (run_node clock me has_remote NodeRepublish w).2).
  { simpl. unfold routeRemote.republishLocalLabels.
    destruct (record_index me _ _ (node_local _ _ Hrep)) as (es & cs & Hq & Hkeys & _ & Hcs & Hgood).
    rewrite (bind_run _ _ _ (Ok (ok_entry <$> es)) w) by (unfold read_ds; by rewrite Hq).
    set (st0 := {| routeRemote.republishedCount := 0; routeRemote.errorCount := 0;
                   routeRemote.orphanedCIDs := [] |}).
    assert (Ha : along same_ds (for_acc (routeRemote.republish_record (D := D) me) st0 (ok_entry <$> es))).
    { along; unfold routeRemote.republish_record, routeRemote.republish_label; along. }
    specialize (Ha w). pose proof (republish_no_orphans cs es st0 w Hkeys Hgood) as Ho.
    unfold bind at 1. destruct (for_acc _ st0 _ w) as [st w1]. simpl in Ha, Ho.
    rewrite Ho; [done|]. apply Forall_forall. intros c Hc. by apply Hok, Hcs. }
  destruct Hrep as [Hl Hr Hk Hcl]. unfold same_ds in Hsame. split; rewrite ?Hsame; [done| |done|done].
  intros k Hrk. specialize (Hr k Hrk). destruct (view (w_ds w) !! k); [|done].
  destruct Hr as (md & ? & ? & ? & ? & ?). exists md. apply clock_up in Ht. repeat split; try done; lia.
Qed.

(** *** Sequences of operations *)

Lemma node_step s (w : W) x : node_rep s w -> node_op_ok (nd_published s) x ->
  let w' := (run_node clock me has_remote x w).2 in
  exists s', nd_published s' = published_after (nd_published s) x
    /\ announced_after (clock (w_tick w)) (clock (w_tick w')) x (nd_announced s) (nd_announced s')
    /\ node_rep s' w'.
Proof.
  intros Hrep Hok w'. destruct x as [c r|c r|notif| |].
  - eexists. split; [|split; [|by apply (node_publish s w c r)]]; done.
  - eexists. split; [|split; [|by apply (node_unpublish s w c r)]]; done.
  - destruct (node_notify s w notif Hrep Hok) as (A & HA & Hr).
    by exists {| nd_published := nd_published s; nd_announced := A |}.
  - destruct (node_cleanup s w Hrep) as (A & HA & Hr).
    by exists {| nd_published := nd_published s; nd_announced := A |}.
  - exists s. split; [done|]. split; [done|]. by apply node_republish.
Qed.

Lemma run_nodes_app xs ys (w : W) :
  run_nodes clock me has_remote (xs ++ ys) w = run_nodes clock me has_remote ys (run_nodes clock me has_remote xs w).
Proof. apply foldl_app. Qed.

Lemma node_ops_ok_app P xs ys :
  node_ops_ok P (xs ++ ys) <-> node_ops_ok P xs /\ node_ops_ok (foldl published_after P xs) ys.
Proof. revert P. induction xs as [|x xs IH]; intros P; simpl; [naive_solver|]. rewrite IH. naive_solver. Qed.

Lemma nodes_run xs s (w : W) : node_rep s w -> node_ops_ok (nd_published s) xs ->
  let w' := run_nodes clock me has_remote xs w in
  exists s', node_trace (clock (w_tick w)) xs s (clock (w_tick w')) s' /\ node_rep s' w'
    /\ nd_published s' = foldl published_after (nd_published s) xs.
Proof.
  revert s w. induction xs as [|x xs IH]; intros s w Hrep Hok; simpl.
  { exists s. split; [constructor|done]. }
  destruct Hok as [Hx Hok]. destruct (node_step s w x Hrep Hx) as (s1 & HP & HA & Hrep1).
  rewrite <- HP in Hok. destruct (IH s1 _ Hrep1 Hok) as (s' & Htr & Hrep' & HP').
  exists s'. split; [|split; [done|by rewrite HP', HP]].
  econstructor; [|done|done|exact Htr]. apply clock_up, ticks_node.
Qed.


Lemma in_view s (w : W) k : node_rep s w -> remote_key k = true ->
  is_Some (view (w_ds w) !! k) <-> is_Some (nd_announced s !! k).
Proof.
  intros Hrep Hk. pose proof (node_remote _ _ Hrep k Hk) as Hr.
  destruct (view (w_ds w) !! k); [destruct Hr as (md & _ & -> & _)|rewrite Hr]; naive_solver.
Qed.


End node.

(** ** An example *)

Module DemoNode.
Import MapDatastore DemoCore DemoLocal DemoRemote.

(** A record is published, a label of another peer arrives, both tasks run, and
    the record is unpublished. *)
Definition day : list node_op :=
  [NodePublish "bc2" (demo_record "nlp/qa"); NodeNotify demo_notif; NodeCleanup; NodeRepublish;
   NodeUnpublish "bc2" (demo_record "nlp/qa")].

Definition empty_world : World (gmap string string) Net unit :=
  {| w_ds := ∅; w_net := []; w_store := tt; w_tick := 0 |}.
Definition empty_node : Node := {| nd_published := ∅; nd_announced := ∅ |}.

Lemma clock_pos i : (0 < clock i)%Z.
Proof. unfold clock. lia. Qed.

Lemma empty_node_rep : node_rep (text_ok := fun _ => True) (view := view) clock "me" empty_node empty_world.
Proof.
  split; simpl; [by apply rep_empty|done| |].
  - intros k [md Hk]. by rewrite lookup_empty in Hk.
  - intros k [v Hv]. by vm_compute in Hv.
Qed.

Lemma day_ok : node_ops_ok (text_ok := fun _ => True) "me" (demo_pulls true) (nd_published empty_node) day.
Proof.
  repeat split; try done.
  - by apply demo_labels_ok.
  - intros l. by apply demo_bound.
  - intros _. exists "/skills/nlp/qa", "c9", "peer9". repeat split; try reflexivity; discriminate.
Qed.



End DemoNode.
