(* ===== verification/P2p.v ===== *)
(** * The peer-to-peer server and the remote router's start

    server/routing/internal/p2p: the options (Module [p2p]), the host, the DHT and
    peer discovery; the constructor of the remote router in routing_remote.go and
    of the router in routing.go (Module [start_router]), with rpc.New and datastore.New.  The
    libraries behind them (go-libp2p, go-libp2p-kad-dht, go-libp2p-gorpc, badger,
    x/crypto/ssh) are the classes [IdentityLib] and [P2pLib]. *)

From S2P Require Import Prelude GoStrings Interfaces CoreRecord Validators LabelKey RoutingWorld RoutingRemote.

Open Scope string_scope.
Open Scope list_scope.
Open Scope go_scope.

(** ** Keys and files *)

(** Ed25519 keys of the standard library and of libp2p.  [ssh_ParseRawPrivateKey]
    gives [None] for a key that is not an [ed25519.PrivateKey] value. *)
Class IdentityLib (N : Type) := {
  EdPrivate : Type; EdPublic : Type; PrivKey : Type; PubKey : Type;
  ssh_ParseRawPrivateKey : string -> result (option EdPrivate);
  crypto_UnmarshalEd25519PrivateKey : EdPrivate -> result PrivKey;
  crypto_UnmarshalEd25519PublicKey : EdPublic -> result PubKey;
  GetPublic : PrivKey -> PubKey;
  peer_IDFromPublicKey : PubKey -> result string;
  ID_String : string -> string;                        (** peer.ID.String *)
  crypto_GenerateKeyPair : M N (result PrivKey);
}.

(** The files of the machine (os). *)
Class HostFiles (N : Type) := {
  hf_ReadFile : string -> N -> result string;
  hf_WriteFile : string -> string -> Z -> M N (result unit);
  hf_MkdirAll : string -> Z -> M N (result unit);
  hf_UserHomeDir : N -> result string;
}.

(** [peer.AddrInfo]. *)
Record PeerInfo := { Peer_ID : string; Peer_Addrs : list string }.

(** Options of the DHT, for a datastore and a provider manager. *)
Record ProviderHandler (PM : Type) := { ProviderManager : PM; handler_hostID : string }.
Arguments ProviderManager {_}. Arguments handler_hostID {_}.

Inductive DhtOption (D PM : Type) :=
  | dht_Datastore (dstore : D)
  | dht_ProtocolPrefix (prefix : string)
  | dht_Validator (v : gmap string LabelValidator)
  | dht_MaxRecordAge (maxAge : Duration)
  | dht_ProviderStore (h : ProviderHandler PM)
  | dht_Mode_ModeServer
  | dht_BootstrapPeers (peers : list PeerInfo)
  | dht_RoutingTableRefreshPeriod (period : Duration).
Arguments dht_Datastore {_ _}. Arguments dht_ProtocolPrefix {_ _}. Arguments dht_Validator {_ _}.
Arguments dht_MaxRecordAge {_ _}. Arguments dht_ProviderStore {_ _}. Arguments dht_Mode_ModeServer {_ _}.
Arguments dht_BootstrapPeers {_ _}. Arguments dht_RoutingTableRefreshPeriod {_ _}.

Class P2pLib (N D : Type) `{!IdentityLib N} := {
  Host : Type; Dht : Type; PM : Type; RpcServer : Type; RpcClient : Type;
  libp2p_New : string -> option PrivKey -> M N (result Host);
  host_ID : Host -> string;
  host_Addrs : Host -> list string;
  host_Close : Host -> M N unit;
  host_Connect : Host -> PeerInfo -> M N (result unit);
  Peerstore_AddAddr : Host -> string -> string -> M N unit;
  dht_New : Host -> list (DhtOption D PM) -> M N (result Dht);
  dht_Bootstrap : Dht -> M N (result unit);
  dht_Close : Dht -> M N unit;
  RefreshRoutingTable : Dht -> M N unit;
  peer_AddrInfoFromString : string -> result PeerInfo;
  duitls_Advertise : Dht -> string -> M N unit;
  duitls_FindPeers : Dht -> string -> M N (result (list PeerInfo));
  Connected : Host -> string -> N -> bool;
  DialPeer : Host -> string -> M N (result unit);
  providers_NewProviderManager : string -> D -> M N (result PM);
  gorpc_NewServer : Host -> string -> M N RpcServer;
  gorpc_Register : RpcServer -> M N (result unit);
  gorpc_NewClientWithServer : Host -> string -> RpcServer -> RpcClient;
  badger_NewDatastore : string -> M N (result D);
  NewMapDatastore : D;
}.

(** ** The server (internal/p2p) *)

Module p2p.
Section p2p.
Context {N D : Type} `{!IdentityLib N} `{!HostFiles N} `{!P2pLib N D}.
Notation DhtOpt := (DhtOption D PM).

(** The field ProviderStore is set nowhere. *)
Record options := {
  Key : option PrivKey; ListenAddress : string; opt_BootstrapPeers : list PeerInfo;
  opt_RefreshInterval : Duration; Randevous : string;
  APIRegistrer : option (Host -> M N (result unit));
  DHTCustomOpts : option (Host -> M N (result (list DhtOpt))) }.

Definition no_options : options := {|
  Key := None; ListenAddress := ""; opt_BootstrapPeers := []; opt_RefreshInterval := 0%Z; Randevous := "";
  APIRegistrer := None; DHTCustomOpts := None |}.

Definition Option : Type := options -> M N (result options).

Definition WithRandevous (randevous : string) : Option := fun opts => ret (Ok {|
  Key := Key opts; ListenAddress := ListenAddress opts; opt_BootstrapPeers := opt_BootstrapPeers opts;
  opt_RefreshInterval := opt_RefreshInterval opts; Randevous := randevous;
  APIRegistrer := APIRegistrer opts; DHTCustomOpts := DHTCustomOpts opts |}).

Definition WithIdentityKey (key : PrivKey) : Option := fun opts => ret (Ok {|
  Key := Some key; ListenAddress := ListenAddress opts; opt_BootstrapPeers := opt_BootstrapPeers opts;
  opt_RefreshInterval := opt_RefreshInterval opts; Randevous := Randevous opts;
  APIRegistrer := APIRegistrer opts; DHTCustomOpts := DHTCustomOpts opts |}).

Definition WithListenAddress (addr : string) : Option := fun opts => ret (Ok {|
  Key := Key opts; ListenAddress := addr; opt_BootstrapPeers := opt_BootstrapPeers opts;
  opt_RefreshInterval := opt_RefreshInterval opts; Randevous := Randevous opts;
  APIRegistrer := APIRegistrer opts; DHTCustomOpts := DHTCustomOpts opts |}).

Definition WithBootstrapPeers (peers : list PeerInfo) : Option := fun opts => ret (Ok {|
  Key := Key opts; ListenAddress := ListenAddress opts; opt_BootstrapPeers := peers;
  opt_RefreshInterval := opt_RefreshInterval opts; Randevous := Randevous opts;
  APIRegistrer := APIRegistrer opts; DHTCustomOpts := DHTCustomOpts opts |}).

Definition WithRefreshInterval (period : Duration) : Option := fun opts => ret (Ok {|
  Key := Key opts; ListenAddress := ListenAddress opts; opt_BootstrapPeers := opt_BootstrapPeers opts;
  opt_RefreshInterval := period; Randevous := Randevous opts;
  APIRegistrer := APIRegistrer opts; DHTCustomOpts := DHTCustomOpts opts |}).

Definition WithAPIRegistrer (reg : Host -> M N (result unit)) : Option := fun opts => ret (Ok {|
  Key := Key opts; ListenAddress := ListenAddress opts; opt_BootstrapPeers := opt_BootstrapPeers opts;
  opt_RefreshInterval := opt_RefreshInterval opts; Randevous := Randevous opts;
  APIRegistrer := Some reg; DHTCustomOpts := DHTCustomOpts opts |}).

Definition WithCustomDHTOpts (dhtOptFactory : Host -> M N (result (list DhtOpt))) : Option := fun opts => ret (Ok {|
  Key := Key opts; ListenAddress := ListenAddress opts; opt_BootstrapPeers := opt_BootstrapPeers opts;
  opt_RefreshInterval := opt_RefreshInterval opts; Randevous := Randevous opts;
  APIRegistrer := APIRegistrer opts; DHTCustomOpts := Some dhtOptFactory |}).

(** The key in a file. *)
Definition read_key (keyPath : string) (n : N) : result PrivKey :=
  match hf_ReadFile keyPath n with
  | Err err => Err (Wrap "failed to read key: " err)
  | Ok keyBytes =>
      match ssh_ParseRawPrivateKey keyBytes with
      | Err err => Err (Wrap "failed to parse private key: " err)
      | Ok None => Err (Plain "key is not an ED25519 private key")
      | Ok (Some ed25519Key) =>
          match crypto_UnmarshalEd25519PrivateKey ed25519Key with
          | Err err => Err (Wrap "failed to unmarshal identity key: " err)
          | Ok generatedKey => Ok generatedKey
          end
      end
  end.

Definition WithIdentityKeyPath (keyPath : string) : Option := fun opts =>
  if decide (keyPath = "") then ret (Ok opts)
  else
    let? generatedKey := (fun n => (read_key keyPath n, n)) else err => ret (Err err) in
    WithIdentityKey generatedKey opts.

Fixpoint bootstrap_infos (addrs : list string) : result (list PeerInfo) :=
  match addrs with
  | [] => Ok []
  | addr :: addrs =>
      match peer_AddrInfoFromString addr with
      | Err err => Err (Wrap "invalid bootstrap addr: " err)
      | Ok peerinfo => result_map (cons peerinfo) (bootstrap_infos addrs)
      end
  end.

Definition WithBootstrapAddrs (addrs : list string) : Option := fun opts =>
  match bootstrap_infos addrs with
  | Err err => ret (Err err)
  | Ok peerInfos => WithBootstrapPeers peerInfos opts
  end.

Definition withRandomIdentity : Option := fun opts =>
  match Key opts with
  | Some _ => ret (Ok opts)
  | None =>
      let? generatedKey := crypto_GenerateKeyPair
        else err => ret (Err (Wrap "failed to create identity key: " err)) in
      WithIdentityKey generatedKey opts
  end.

(** *** host.go and dht.go *)

Definition newHost (listenAddr : string) (key : option PrivKey) : M N (result Host) :=
  let? host := libp2p_New listenAddr key else err => ret (Err (Wrap "failed to create p2p host: " err)) in
  ret (Ok host).

(** The bootstrap nodes are connected to side by side; the model has them in the order of
    the list.  A failure is logged. *)
Definition newDHT (host : Host) (bootstrapPeers : list PeerInfo) (refreshPeriod : Duration)
    (options : list DhtOpt) : M N (result Dht) :=
  let options := match bootstrapPeers with
    | [] => options ++ [dht_Mode_ModeServer]
    | _ => options ++ [dht_BootstrapPeers bootstrapPeers]
    end in
  let options := if decide (refreshPeriod > 0)%Z then options ++ [dht_RoutingTableRefreshPeriod refreshPeriod]
    else options in
  let? kdht := dht_New host options else err => ret (Err err) in
  let? _u := dht_Bootstrap kdht else err => ret (Err err) in
  do! for_each (fun p => do! host_Connect host p then ret tt) bootstrapPeers then
  ret (Ok kdht).

(** *** server.go *)

(** [defer]red calls on an early return. *)
Definition or_close {A} (c : M N (result A)) (close : M N unit) : M N (result A) :=
  let? a := c else err => (do! close then ret (Err err)) in ret (Ok a).

(** The goroutine of [start] up to the status it sends; discovery runs beside it. *)
Definition start (opts : options) : M N (result (Host * Dht)) :=
  let? host := newHost (ListenAddress opts) (Key opts) else err => ret (Err err) in
  or_close (
    let? customDhtOpts := match DHTCustomOpts opts with Some f => f host | None => ret (Ok []) end
      else err => ret (Err err) in
    let? kdht := newDHT host (opt_BootstrapPeers opts) (opt_RefreshInterval opts) customDhtOpts
      else err => ret (Err err) in
    or_close (
      let? _u := match APIRegistrer opts, opt_BootstrapPeers opts with
                 | Some registrer, _ :: _ => registrer host
                 | _, _ => ret (Ok tt)
                 end else err => ret (Err err) in
      do! for_each (fun peer => for_each (Peerstore_AddAddr host (Peer_ID peer)) (Peer_Addrs peer))
            (opt_BootstrapPeers opts) then
      do! RefreshRoutingTable kdht then
      ret (Ok (host, kdht))) (dht_Close kdht)) (host_Close host).

Record Server := { srv_opts : options; srv_host : Host; srv_dht : Dht }.

Definition New (opts : list Option) : M N (result Server) :=
  let? options := for_try (fun options opt => opt options) no_options (opts ++ [withRandomIdentity])
    else err => ret (Err err) in
  let? status := start options else err => ret (Err (Wrap "failed while starting services: " err)) in
  ret (Ok {| srv_opts := options; srv_host := status.1; srv_dht := status.2 |}).

(** [Close] cancels the context, so that the goroutine runs its deferred calls. *)
Definition Close (s : Server) : M N unit :=
  do! host_Close (srv_host s) then dht_Close (srv_dht s).
Definition after_Done (s : Server) : M N unit :=
  do! dht_Close (srv_dht s) then host_Close (srv_host s).

Definition P2pAddrs (s : Server) : list string :=
  (fun addr => addr +:+ "/p2p/" +:+ ID_String (host_ID (srv_host s))) <$> host_Addrs (srv_host s).

(** [None]: the address does not parse and its nil result is dereferenced. *)
Definition P2pInfo (s : Server) : option (list PeerInfo) :=
  mapM (fun addr => match peer_AddrInfoFromString addr with Ok p => Some p | Err _ => None end) (P2pAddrs s).

Definition Info (s : Server) : PeerInfo :=
  {| Peer_ID := host_ID (srv_host s); Peer_Addrs := host_Addrs (srv_host s) |}.

(** *** discover.go *)

Definition discover_peer (h : Host) (p : PeerInfo) : M N unit :=
  if decide (Peer_ID p = host_ID h) then ret tt
  else
    let! connected := (fun n => (Connected h (Peer_ID p) n, n)) in
    if (connected : bool) then ret tt
    else do! DialPeer h (Peer_ID p) then ret tt.

Definition discover_tick (h : Host) (dht : Dht) (rendezvous : string) : M N unit :=
  let? peers := duitls_FindPeers dht rendezvous else _err => ret tt in
  for_each (discover_peer h) peers.

Definition discover (h : Host) (dht : Dht) (rendezvous : string) (events : list task_event) : M N unit :=
  do! duitls_Advertise dht rendezvous then
  task_loop (discover_tick h dht rendezvous) events.

End p2p.
End p2p.

(** ** The routers (routing_remote.go, routing.go, datastore) *)

Definition ProtocolPrefix : string := "dir".
Definition ProtocolRendezvous : string := "dir/connect".
(** rpc/rpc.go *)
Definition Protocol : string := "/dir/rpc/1.0.0".

(** routing/config. *)
Record RoutingConfig := {
  Cfg_ListenAddress : string; Cfg_BootstrapPeers : list string; Cfg_KeyPath : string;
  Cfg_DatastoreDir : string; Cfg_RefreshInterval : Duration }.

Module start_router.
Section start_router.
Context {N D : Type} `{!IdentityLib N} `{!HostFiles N} `{!P2pLib N D}.

(** What the handler and the validators of the DHT are made of. *)
Definition dht_options (dstore : D) (h : Host) : M N (result (list (DhtOption D PM))) :=
  let? providerMgr := providers_NewProviderManager (host_ID h) dstore
    else err => ret (Err (Wrap "failed to create provider manager: " err)) in
  ret (Ok [dht_Datastore dstore; dht_ProtocolPrefix ProtocolPrefix; dht_Validator dht_validators;
    dht_MaxRecordAge RecordTTL;
    dht_ProviderStore {| ProviderManager := providerMgr; handler_hostID := ID_String (host_ID h) |}]).

(** rpc.New: a server for [RPCAPI] on the host, and a client that calls it too. *)
Record RpcService := { rpcServer : RpcServer; rpcClient : RpcClient; rpc_host : Host }.

Definition rpc_New (host : Host) : M N (result RpcService) :=
  let! server := gorpc_NewServer host Protocol in
  let? _u := gorpc_Register server else err => ret (Err err) in
  ret (Ok {| rpcServer := server; rpcClient := gorpc_NewClientWithServer host Protocol server; rpc_host := host |}).

(** The remote router: its server, which the RPC service shares.  The handler of
    notifications and the two background tasks are started with it. *)
Record routeRemote := { rr_server : p2p.Server (D := D); rr_service : RpcService; rr_dstore : D }.

Definition remote_opts (dstore : D) (cfg : RoutingConfig) : list p2p.Option :=
  let refreshInterval := if decide (Cfg_RefreshInterval cfg > 0)%Z then Cfg_RefreshInterval cfg
    else RefreshInterval in
  [p2p.WithListenAddress (Cfg_ListenAddress cfg); p2p.WithBootstrapAddrs (Cfg_BootstrapPeers cfg);
   p2p.WithRefreshInterval refreshInterval; p2p.WithRandevous ProtocolRendezvous;
   p2p.WithIdentityKeyPath (Cfg_KeyPath cfg); p2p.WithCustomDHTOpts (dht_options dstore)].

Definition newRemote (dstore : D) (cfg : RoutingConfig) : M N (result routeRemote) :=
  let? server := p2p.New (remote_opts dstore cfg)
    else err => ret (Err (Wrap "failed to create p2p: " err)) in
  let? rpcService := rpc_New (p2p.srv_host server)
    else err => (do! p2p.Close server then ret (Err (Wrap "failed to create RPC service: " err))) in
  ret (Ok {| rr_server := server; rr_service := rpcService; rr_dstore := dstore |}).

(** datastore.New, with the option WithFsProvider if there is one. *)
Definition WithFsProvider (dir : string) (_localDir : string) : M N (result string) :=
  let? _u := hf_MkdirAll dir 493 else err => ret (Err (Wrap "failed to create local dir: " err)) in
  ret (Ok dir).

Definition datastore_New (opts : list (string -> M N (result string))) : M N (result D) :=
  let? localDir := for_try (fun localDir opt =>
      let? localDir := opt localDir else err => ret (Err (Wrap "failed to apply option: " err)) in
      ret (Ok localDir)) "" opts else err => ret (Err err) in
  if decide (localDir = "") then ret (Ok NewMapDatastore) else badger_NewDatastore localDir.

(** The router, and the peer ID that the local router gets. *)
Record router := { r_remote : routeRemote; r_localPeerID : string }.

Definition New (cfg : RoutingConfig) : M N (result router) :=
  let dsOpts := if decide (Cfg_DatastoreDir cfg = "") then [] else [WithFsProvider (Cfg_DatastoreDir cfg)] in
  let? dstore := datastore_New dsOpts
    else err => ret (Err (Wrap "failed to create routing datastore: " err)) in
  let? remote := newRemote dstore cfg
    else err => ret (Err (Wrap "failed to create remote routing: " err)) in
  ret (Ok {| r_remote := remote; r_localPeerID := ID_String (host_ID (p2p.srv_host (rr_server remote))) |}).

End start_router.
End start_router.
