(* ===== verification/P2pSpec.v ===== *)
(** * Starting the remote router

    What a start of the remote router holds open: everything it needs when it
    succeeds, which [p2p.Close] gives back, and nothing when it fails, whatever
    fails; with which identity it runs and which options its DHT gets; whom the
    discovery of peers connects to; and that labels of locators never get into the
    DHT. *)

From S2P Require Import Prelude GoStrings Interfaces Adapters CoreRecord Validators LabelKey Metrics RoutingWorld RoutingLocal RoutingLocalSpec RoutingRemote P2p.

Open Scope string_scope.
Open Scope list_scope.
Open Scope go_scope.

(** ** Laws *)

(** [held n]: the hosts and DHTs that are open, each under a number of its own.  A
    host has the peer ID of its key. *)
Class P2pSpec (N D : Type) `{!IdentityLib N} `{!P2pLib N D} (held : N -> gset positive)
    (host_fd : Host -> positive) (dht_fd : Dht -> positive) : Prop := {
  libp2p_New_spec addr key n : let '(r, n') := libp2p_New addr key n in
    match r with
    | Ok h => host_fd h ∉ held n /\ held n' = {[host_fd h]} ∪ held n
        /\ exists k, key = Some k /\ peer_IDFromPublicKey (GetPublic k) = Ok (host_ID h)
    | Err _ => held n' = held n
    end;
  dht_New_spec h opts n : let '(r, n') := dht_New h opts n in
    match r with
    | Ok d => dht_fd d ∉ held n /\ held n' = {[dht_fd d]} ∪ held n
    | Err _ => held n' = held n
    end;
  host_Close_spec h n : held (host_Close h n).2 = held n ∖ {[host_fd h]};
  dht_Close_spec d n : held (dht_Close d n).2 = held n ∖ {[dht_fd d]};
  Connect_held h p n : held (host_Connect h p n).2 = held n;
  AddAddr_held h p a n : held (Peerstore_AddAddr h p a n).2 = held n;
  Bootstrap_held d n : held (dht_Bootstrap d n).2 = held n;
  Refresh_held d n : held (RefreshRoutingTable d n).2 = held n;
  ProviderManager_held p d n : held (providers_NewProviderManager p d n).2 = held n;
  RpcServer_held h p n : held (gorpc_NewServer h p n).2 = held n;
  Register_held srv n : held (gorpc_Register srv n).2 = held n;
  GenerateKey_held n : held (crypto_GenerateKeyPair n).2 = held n;
}.

(** ** What is open *)

Section start.
Context {N D : Type} `{!IdentityLib N} `{!HostFiles N} `{!P2pLib N D} {held : N -> gset positive}
  {host_fd : Host -> positive} {dht_fd : Dht -> positive} `{!P2pSpec N D held host_fd dht_fd}.

Definition same_held (n n' : N) : Prop := held n' = held n.
#[local] Instance same_held_preorder : PreOrder same_held.
Proof. split; unfold same_held; repeat intros ?; congruence. Qed.

#[local] Hint Extern 1 (along same_held _) =>
  (intros ?; first [apply Connect_held|apply AddAddr_held|apply Bootstrap_held|apply Refresh_held
    |apply ProviderManager_held|apply RpcServer_held|apply Register_held|apply GenerateKey_held]) : along.

Lemma rpc_New_held h n : held (start_router.rpc_New h n).2 = held n.
Proof. assert (Ha : along same_held (start_router.rpc_New h)) by (unfold start_router.rpc_New; along). apply Ha. Qed.

(** The DHT cannot get into its bootstrapped state. *)
Definition bootstrap_failed (d : Dht) : Prop := exists n e, (dht_Bootstrap d n).1 = Err e.

(** What is left open by a failure: nothing, or a DHT that failed to bootstrap. *)
Definition nothing_left (n n' : N) : Prop :=
  held n' = held n \/ exists d, bootstrap_failed d /\ held n' = {[dht_fd d]} ∪ held n.

Lemma newDHT_held h peers period opts n : let '(r, n') := p2p.newDHT h peers period opts n in
  match r with
  | Ok d => dht_fd d ∉ held n /\ held n' = {[dht_fd d]} ∪ held n
  | Err _ => nothing_left n n'
  end.
Proof.
  unfold p2p.newDHT, try_bind, bind. set (o := if decide _ then _ else _).
  pose proof (dht_New_spec h o n) as Hd. destruct (dht_New h o n) as [[d|e] n1]; [|by left].
  destruct Hd as [Hf Hh]. pose proof (Bootstrap_held d n1) as Hb.
  destruct (dht_Bootstrap d n1) as [[[]|e] n2] eqn:Hrun; simpl in Hb.
  - match goal with |- context [for_each ?f peers n2] => set (g := f) end.
    assert (Ha : along same_held (for_each g peers)) by (unfold g; along).
    specialize (Ha n2). destruct (for_each g peers n2) as [[] n3]. simpl in *. split; [done|].
    unfold same_held in Ha. simpl in Ha. congruence.
  - right. exists d. split; [exists n1, e; by rewrite Hrun|congruence].
Qed.

(** The factory of DHT options opens nothing, and neither does what registers. *)
Definition opens_nothing (opts : p2p.options) : Prop :=
  (forall f, p2p.DHTCustomOpts opts = Some f -> forall h, along same_held (f h)) /\
  (forall f, p2p.APIRegistrer opts = Some f -> forall h, along same_held (f h)).

Lemma or_close_run {A} (c : M N (result A)) close n :
  p2p.or_close c close n = let '(r, n') := c n in
    match r with Ok a => (Ok a, n') | Err e => (Err e, (close n').2) end.
Proof. unfold p2p.or_close, try_bind, bind. destruct (c n) as [[a|e] n']; [done|]. by destruct (close n'). Qed.

(** The last part of a start keeps what is open. *)
Definition register (opts : p2p.options) (host : Host) : M N (result unit) :=
  match p2p.APIRegistrer opts, p2p.opt_BootstrapPeers opts with
  | Some registrer, _ :: _ => registrer host
  | _, _ => ret (Ok tt)
  end.

Definition ready (opts : p2p.options) (host : Host) (kdht : Dht) : M N (result (Host * Dht)) :=
  let? _u := register opts host else err => ret (Err err) in
  do! for_each (fun peer => for_each (Peerstore_AddAddr host (Peer_ID peer)) (Peer_Addrs peer))
        (p2p.opt_BootstrapPeers opts) then
  do! RefreshRoutingTable kdht then
  ret (Ok (host, kdht)).

Lemma ready_held opts h d : opens_nothing opts -> along same_held (ready opts h d).
Proof. intros [_ Hr]. unfold ready, register. along; by eapply Hr. Qed.

Lemma ready_result opts h d n x : (ready opts h d n).1 = Ok x -> x = (h, d).
Proof.
  unfold ready, try_bind, bind. destruct (register opts h n) as [[[]|e] n1]; [|done].
  destruct (for_each _ _ n1) as [[] n2], (RefreshRoutingTable d n2) as [[] n3]. by intros [= <-].
Qed.

Lemma start_held opts n : opens_nothing opts -> let '(r, n') := p2p.start opts n in
  match r with
  | Ok (h, d) => host_fd h ∉ held n /\ dht_fd d ∉ {[host_fd h]} ∪ held n
      /\ held n' = {[dht_fd d]} ∪ ({[host_fd h]} ∪ held n)
      /\ exists k, p2p.Key opts = Some k /\ peer_IDFromPublicKey (GetPublic k) = Ok (host_ID h)
  | Err _ => nothing_left n n'
  end.
Proof.
  intros Ho. pose proof Ho as [Hf _]. unfold p2p.start.
  pose proof (libp2p_New_spec (p2p.ListenAddress opts) (p2p.Key opts) n) as Hh.
  destruct (libp2p_New (p2p.ListenAddress opts) (p2p.Key opts) n) as [[h|e] n1] eqn:Hn.
  2:{ erewrite try_bind_err by (unfold p2p.newHost; by erewrite try_bind_err). by left. }
  erewrite try_bind_ok by (unfold p2p.newHost; by erewrite try_bind_ok).
  destruct Hh as (Hfresh & Hheld & Hid). rewrite or_close_run.
  set (factory := match p2p.DHTCustomOpts opts with Some f => f h | None => ret (Ok []) end).
  assert (Hk : along same_held factory).
  { unfold factory. destruct (p2p.DHTCustomOpts opts) as [f|]; [by apply Hf|along]. }
  assert (Hclose : forall n', nothing_left n1 n' -> nothing_left n (host_Close h n').2).
  { intros n' [Hs|(d & Hb & Hs)].
    - left. rewrite host_Close_spec, Hs, Hheld. set_solver.
    - destruct (decide (dht_fd d = host_fd h)) as [He|He].
      + left. rewrite host_Close_spec, Hs, Hheld, He. set_solver.
      + right. exists d. split; [done|]. rewrite host_Close_spec, Hs, Hheld. set_solver. }
  specialize (Hk n1). destruct (factory n1) as [[o|e] n2] eqn:Hfac; simpl in Hk.
  2:{ rewrite (try_bind_err _ _ _ _ _ _ Hfac). simpl. apply Hclose. by left. }
  rewrite (try_bind_ok _ _ _ _ _ _ Hfac).
  pose proof (newDHT_held h (p2p.opt_BootstrapPeers opts) (p2p.opt_RefreshInterval opts) o n2) as Hd.
  destruct (p2p.newDHT h _ _ o n2) as [[d|e] n3] eqn:Hnew.
  2:{ rewrite (try_bind_err _ _ _ _ _ _ Hnew). simpl. apply Hclose. unfold nothing_left, same_held in *. by rewrite <- Hk. }
  rewrite (try_bind_ok _ _ _ _ _ _ Hnew), or_close_run. fold (register opts h). fold (ready opts h d).
  destruct Hd as [Hdf Hdh]. pose proof (ready_held opts h d Ho n3) as Hr. pose proof (ready_result opts h d n3) as Hres.
  destruct (ready opts h d n3) as [[x|e] n4]; simpl in *; unfold same_held in *.
  - rewrite (Hres x eq_refl). rewrite Hk, Hheld in *. split; [done|]. split; [done|]. split; [congruence|done].
  - apply Hclose. left. rewrite dht_Close_spec, Hr, Hdh, Hk. rewrite Hk in Hdf. set_solver.
Qed.


(** ** The remote router *)

Notation load := (for_try (fun options opt => opt options) (p2p.no_options (D := D))).

Definition refresh_of (cfg : RoutingConfig) : Duration :=
  if decide (Cfg_RefreshInterval cfg > 0)%Z then Cfg_RefreshInterval cfg else RefreshInterval.

(** The options that a configuration gives, for a key. *)
Definition options_for (dstore : D) (cfg : RoutingConfig) (infos : list PeerInfo) (k : PrivKey) : p2p.options := {|
  p2p.Key := Some k; p2p.ListenAddress := Cfg_ListenAddress cfg; p2p.opt_BootstrapPeers := infos;
  p2p.opt_RefreshInterval := refresh_of cfg; p2p.Randevous := ProtocolRendezvous; p2p.APIRegistrer := None;
  p2p.DHTCustomOpts := Some (start_router.dht_options dstore) |}.

(** Where the key is from. *)
Definition key_from (cfg : RoutingConfig) (n : N) (k : PrivKey) : Prop :=
  if decide (Cfg_KeyPath cfg = "") then (crypto_GenerateKeyPair n).1 = Ok k
  else p2p.read_key (Cfg_KeyPath cfg) n = Ok k.

Lemma load_run dstore cfg n :
  let '(r, n') := load (start_router.remote_opts dstore cfg ++ [p2p.withRandomIdentity]) n in
  held n' = held n /\ match r with
  | Ok opts => exists infos k, p2p.bootstrap_infos (Cfg_BootstrapPeers cfg) = Ok infos /\ key_from cfg n k
      /\ opts = options_for dstore cfg infos k
  | Err e => p2p.bootstrap_infos (Cfg_BootstrapPeers cfg) = Err e
      \/ (forall k, ~ key_from cfg n k)
  end.
Proof.
  unfold start_router.remote_opts, key_from. simpl.
  unfold p2p.WithListenAddress, p2p.WithBootstrapAddrs, p2p.WithBootstrapPeers, p2p.WithRefreshInterval,
    p2p.WithRandevous, p2p.WithIdentityKeyPath, p2p.WithCustomDHTOpts, p2p.withRandomIdentity, p2p.WithIdentityKey,
    try_bind, bind, ret.
  destruct (p2p.bootstrap_infos (Cfg_BootstrapPeers cfg)) as [infos|e]; simpl; [|by auto].
  case_decide as Hp; simpl.
  - pose proof (GenerateKey_held n) as Hg. destruct (crypto_GenerateKeyPair n) as [[k|e] n1]; simpl in *.
    + split; [done|]. by exists infos, k.
    + split; [done|]. right. by intros k.
  - destruct (p2p.read_key (Cfg_KeyPath cfg) n) as [k|e]; simpl; (split; [done|]); [by exists infos, k|].
    right. by intros k.
Qed.

Lemma options_open_nothing dstore cfg infos k : opens_nothing (options_for dstore cfg infos k).
Proof. split; intros f [= <-] h. unfold start_router.dht_options. along. Qed.

(** The server that a configuration starts. *)
Lemma New_held dstore cfg n : let '(r, n') := p2p.New (start_router.remote_opts dstore cfg) n in
  match r with
  | Ok s => host_fd (p2p.srv_host s) ∉ held n /\ dht_fd (p2p.srv_dht s) ∉ {[host_fd (p2p.srv_host s)]} ∪ held n
      /\ held n' = {[dht_fd (p2p.srv_dht s)]} ∪ ({[host_fd (p2p.srv_host s)]} ∪ held n)
      /\ exists k, key_from cfg n k /\ peer_IDFromPublicKey (GetPublic k) = Ok (host_ID (p2p.srv_host s))
  | Err _ => nothing_left n n'
  end.
Proof.
  unfold p2p.New. pose proof (load_run dstore cfg n) as Hl.
  destruct (load _ n) as [[opts|e] n1] eqn:Hload; destruct Hl as [Hh1 Hl].
  2:{ erewrite try_bind_err by done. by left. }
  destruct Hl as (infos & k & _ & Hk & ->). rewrite (try_bind_ok _ _ _ _ _ _ Hload).
  pose proof (start_held (options_for dstore cfg infos k) n1 (options_open_nothing dstore cfg infos k)) as Hs.
  destruct (p2p.start _ n1) as [[[h d]|e] n2] eqn:Hstart.
  2:{ rewrite (try_bind_err _ _ _ _ _ _ Hstart). simpl. unfold nothing_left in *. by rewrite <- Hh1. }
  rewrite (try_bind_ok _ _ _ _ _ _ Hstart). simpl. destruct Hs as (Hf1 & Hf2 & Hh2 & k' & [= <-] & Hid).
  rewrite Hh1 in *. split; [done|]. split; [done|]. split; [done|]. by exists k.
Qed.

Lemma Close_held s n : held (p2p.Close s n).2 = held n ∖ {[host_fd (p2p.srv_host s); dht_fd (p2p.srv_dht s)]}.
Proof.
  unfold p2p.Close, bind. pose proof (host_Close_spec (p2p.srv_host s) n) as Hx.
  destruct (host_Close (p2p.srv_host s) n) as [[] n1]. rewrite dht_Close_spec. simpl in Hx. rewrite Hx. set_solver.
Qed.

Lemma after_Done_held s n :
  held (p2p.after_Done s n).2 = held n ∖ {[host_fd (p2p.srv_host s); dht_fd (p2p.srv_dht s)]}.
Proof.
  unfold p2p.after_Done, bind. pose proof (dht_Close_spec (p2p.srv_dht s) n) as Hx.
  destruct (dht_Close (p2p.srv_dht s) n) as [[] n1]. rewrite host_Close_spec. simpl in Hx. rewrite Hx. set_solver.
Qed.

(** The identity of a remote router. *)
Lemma newRemote_identity dstore cfg n remote n' : start_router.newRemote dstore cfg n = (Ok remote, n') ->
  exists k, key_from cfg n k
    /\ peer_IDFromPublicKey (GetPublic k) = Ok (host_ID (p2p.srv_host (start_router.rr_server remote))).
Proof.
  unfold start_router.newRemote, try_bind, bind. pose proof (New_held dstore cfg n) as Hn.
  destruct (p2p.New _ n) as [[s|e] n1]; [|done]. destruct Hn as (_ & _ & _ & Hk).
  destruct (start_router.rpc_New _ n1) as [[svc|e] n2]; [by intros [= <- _]|]. by destruct (p2p.Close s n2).
Qed.

Lemma newRemote_held dstore cfg n : let '(r, n') := start_router.newRemote dstore cfg n in
  match r with
  | Ok remote =>
      let server := start_router.rr_server remote in
      let new : gset positive := {[host_fd (p2p.srv_host server); dht_fd (p2p.srv_dht server)]} in
      start_router.rr_dstore remote = dstore /\ new ## held n /\ held n' = new ∪ held n
  | Err _ => nothing_left n n'
  end.
Proof.
  unfold start_router.newRemote. pose proof (New_held dstore cfg n) as Hn.
  destruct (p2p.New _ n) as [[s|e] n1] eqn:Hnew.
  2:{ by rewrite (try_bind_err _ _ _ _ _ _ Hnew). }
  rewrite (try_bind_ok _ _ _ _ _ _ Hnew). destruct Hn as (Hf1 & Hf2 & Hh & _).
  pose proof (rpc_New_held (p2p.srv_host s) n1) as Hr. destruct (start_router.rpc_New _ n1) as [[svc|e] n2] eqn:Hreg; simpl in Hr.
  - rewrite (try_bind_ok _ _ _ _ _ _ Hreg). simpl. rewrite Hr, Hh. split; [done|]. set_solver.
  - rewrite (try_bind_err _ _ _ _ _ _ Hreg). pose proof (Close_held s n2) as Hc. unfold bind.
    destruct (p2p.Close s n2) as [[] n3]. simpl in *. left. rewrite Hc, Hr, Hh. set_solver.
Qed.

(** C17. Starting the remote router takes all or nothing.  When newRemote succeeds,
    a host and a DHT are open that were not open before, the host has the peer ID of
    the key in the configured file, or of a new key when no file is configured, and
    Close gives both back, as does the end of the context, in any order.  When it
    fails, wherever it fails, everything it had opened is closed again, but for a DHT
    whose bootstrapping failed. *)
Theorem newRemote_all_or_nothing dstore cfg n :
  let '(r, n') := start_router.newRemote dstore cfg n in
  match r with
  | Ok remote =>
      let server := start_router.rr_server remote in
      let new : gset positive := {[host_fd (p2p.srv_host server); dht_fd (p2p.srv_dht server)]} in
      new ## held n /\ held n' = new ∪ held n
      /\ (exists k, key_from cfg n k /\ peer_IDFromPublicKey (GetPublic k) = Ok (host_ID (p2p.srv_host server)))
      /\ held (p2p.Close server n').2 = held n
      /\ held (p2p.after_Done server n').2 = held n
      /\ held (p2p.after_Done server (p2p.Close server n').2).2 = held n
  | Err _ => nothing_left n n'
  end.
Proof.
  pose proof (newRemote_held dstore cfg n) as H. pose proof (newRemote_identity dstore cfg n) as Hk.
  destruct (start_router.newRemote dstore cfg n) as [[remote|e] n']; [|done]. destruct H as (_ & Hd & Hh).
  specialize (Hk remote n' eq_refl). cbv zeta in *. rewrite !after_Done_held, !Close_held, Hh.
  split; [done|]. split; [done|]. split; [done|]. set_solver.
Qed.

End start.

(** ** Discovery *)

(** [connected n]: the peers the host is connected to; [up]: those that answer. *)
Class DiscoverySpec (N D : Type) `{!IdentityLib N} `{!P2pLib N D} (connected : N -> gset string) (up : gset string)
    : Prop := {
  Connected_spec h p n : Connected h p n = bool_decide (p ∈ connected n);
  DialPeer_spec h p n : let '(r, n') := DialPeer h p n in
    if decide (p ∈ up) then r = Ok tt /\ connected n' = {[p]} ∪ connected n
    else is_ok r = false /\ connected n' = connected n;
  FindPeers_connected d s n : connected (duitls_FindPeers d s n).2 = connected n;
}.

Section discovery.
Context {N D : Type} `{!IdentityLib N} `{!P2pLib N D} {connected : N -> gset string} {up : gset string}
  `{!DiscoverySpec N D connected up}.

(** The peers a round finds that are to be connected to. *)
Definition to_connect (h : Host) (peers : list PeerInfo) : gset string :=
  list_to_set (filter (fun id => id <> host_ID h /\ id ∈ up) (Peer_ID <$> peers)).

Lemma discover_peer_run h p n : connected (p2p.discover_peer h p n).2 = to_connect h [p] ∪ connected n.
Proof.
  unfold p2p.discover_peer, to_connect, bind. cbn [fmap list_fmap].
  rewrite filter_cons, filter_nil. case_decide as Hs.
  { rewrite decide_False by tauto. simpl. set_solver. }
  simpl. rewrite Connected_spec. case_bool_decide as Hc; simpl.
  - case_decide; simpl; set_solver.
  - pose proof (DialPeer_spec h (Peer_ID p) n) as Hd. destruct (DialPeer h (Peer_ID p) n) as [r n1]. simpl.
    case_decide as Hu; destruct Hd as [_ ->].
    + rewrite decide_True by done. simpl. set_solver.
    + rewrite decide_False by tauto. simpl. set_solver.
Qed.

(** A round of discovery connects to everybody it finds.  After a round that finds
    some peers, the host is connected to those it was connected to and to every peer
    found that answers and is not the host itself, and to nobody else; a peer that does
    not answer keeps none of the others away.  When the search fails, the connections
    stay as they are. *)
Theorem discover_exact h d rendezvous n :
  connected (p2p.discover_tick h d rendezvous n).2
  = match (duitls_FindPeers d rendezvous n).1 with
    | Ok peers => to_connect h peers ∪ connected n
    | Err _ => connected n
    end.
Proof.
  unfold p2p.discover_tick, try_bind, bind. pose proof (FindPeers_connected d rendezvous n) as Hf.
  destruct (duitls_FindPeers d rendezvous n) as [[peers|e] n1]; simpl in *; [|done]. rewrite <- Hf. clear Hf n.
  revert n1. induction peers as [|p peers IH]; intros n; simpl; [unfold to_connect; simpl; set_solver|].
  unfold bind. pose proof (discover_peer_run h p n) as Hp. destruct (p2p.discover_peer h p n) as [[] n1].
  rewrite IH. simpl in Hp. rewrite Hp. unfold to_connect. simpl. rewrite !filter_cons, filter_nil.
  case_decide; simpl; set_solver.
Qed.

End discovery.

(** ** The validators of the DHT *)

Section validators.
Context {D N T : Type} `{Hc : CidLib} `{!Network N}.
Context (me : string).
(** The DHT was given [dht_validators]: it takes no value under a namespace that none is
    for (go-libp2p-record, NamespacedValidator). *)
Context (refuses : forall key ns elems v n, Split "/" key = "" :: ns :: elems ->
  dht_validators !! ns = None -> exists e, dht_PutValue key v n = (Err e, n)).

Definition is_locator (l : string) : bool := HasPrefix l (Prefix NamespaceLocators).

(** Labels of locators are not announced.  Announcing the labels of a record leaves
    the network as announcing the others does: the DHT has a validator for each other
    namespace of labels, and none for locators. *)
Theorem locator_labels_not_announced ls cid (w : World D N T) :
  for_each (fun l => routeRemote.announceLabelToDHT me l cid) ls w
  = for_each (fun l => routeRemote.announceLabelToDHT me l cid) (filter (fun l => is_locator l = false) ls) w.
Proof.
  revert w. induction ls as [|l ls IH]; intros w; [done|]. rewrite filter_cons.
  destruct (is_locator l) eqn:Hl.
  - rewrite decide_False by done. rewrite <- IH. apply for_each_cons. unfold routeRemote.announceLabelToDHT.
    apply HasPrefix_true in Hl as [rest ->].
    destruct (refuses (BuildEnhancedLabelKey (Prefix NamespaceLocators +:+ rest) cid me) "locators"
      (Split "/" (rest +:+ "/" +:+ cid +:+ "/" +:+ me)) cid (w_net w)) as [e He].
    { done. }
    { done. }
    unfold bind, on_net. rewrite He. by destruct w.
  - rewrite decide_True by done. simpl. unfold bind. by destruct (routeRemote.announceLabelToDHT me l cid w) as [[] w1].
Qed.

End validators.

(** ** A machine *)

Module DemoP2p.

(** Files, open hosts and DHTs, connections, and how many keys were made. *)
Record Machine := {
  m_files : gmap string string; m_open : gset positive; m_peers : gset string; m_keys : nat }.

Definition set_open (s : gset positive) (m : Machine) : Machine :=
  {| m_files := m_files m; m_open := s; m_peers := m_peers m; m_keys := m_keys m |}.

Definition fresh_fd (s : gset positive) : positive := Pos.succ (set_fold Pos.max 1%positive s).

Lemma fresh_fd_not_in s : fresh_fd s ∉ s.
Proof.
  assert (H : forall x, x ∈ s -> (x <= set_fold Pos.max 1 s)%positive).
  { apply (set_fold_ind_L (fun r X => forall x, x ∈ X -> (x <= r)%positive)); [set_solver|].
    intros y X r _ IH x [->%elem_of_singleton|Hx]%elem_of_union; [lia|]. specialize (IH x Hx). lia. }
  intros Hin%H. unfold fresh_fd in Hin. lia.
Qed.

(** A key is a number, in a file as that many characters. *)
Fixpoint unary (n : nat) : string := match n with O => "" | S n => String "k" (unary n) end.

#[export] Instance numbers : IdentityLib Machine := {|
  EdPrivate := nat; EdPublic := nat; PrivKey := nat; PubKey := nat;
  ssh_ParseRawPrivateKey s := if decide (s = "rsa") then Ok None else Ok (Some (String.length s));
  crypto_UnmarshalEd25519PrivateKey k := Ok k; crypto_UnmarshalEd25519PublicKey k := Ok k;
  GetPublic k := k; peer_IDFromPublicKey k := Ok (unary k); ID_String id := id;
  crypto_GenerateKeyPair m := (Ok (m_keys m), {| m_files := m_files m; m_open := m_open m; m_peers := m_peers m;
    m_keys := S (m_keys m) |}) |}.

#[export] Instance files : HostFiles Machine := {|
  hf_ReadFile p m := match m_files m !! p with Some b => Ok b | None => Err (Plain "no such file") end;
  hf_WriteFile p b _ m := (Ok tt, {| m_files := <[p := b]> (m_files m); m_open := m_open m; m_peers := m_peers m;
    m_keys := m_keys m |});
  hf_MkdirAll _ _ m := (Ok tt, m);
  hf_UserHomeDir _ := Ok "/root" |}.

(** Peers that answer.  Datastores are numbered like hosts and DHTs. *)
Definition answering : gset string := {["p1"; "p3"]}.

#[export] Instance p2p_lib : P2pLib Machine positive := {|
  Host := positive * string; Dht := positive; PM := unit; RpcServer := unit; RpcClient := unit;
  libp2p_New addr key m := match key with
    | Some k => if decide (addr = "taken") then (Err (Plain "address already in use"), m)
                else (Ok (fresh_fd (m_open m), unary k), set_open ({[fresh_fd (m_open m)]} ∪ m_open m) m)
    | None => (Err (Plain "no key"), m)
    end;
  host_ID h := h.2; host_Addrs _ := ["/ip4/127.0.0.1"];
  host_Close h m := (tt, set_open (m_open m ∖ {[h.1]}) m);
  host_Connect _ _ m := (Ok tt, m);
  Peerstore_AddAddr _ _ _ m := (tt, m);
  dht_New _ _ m := (Ok (fresh_fd (m_open m)), set_open ({[fresh_fd (m_open m)]} ∪ m_open m) m);
  dht_Bootstrap _ m := (Ok tt, m);
  dht_Close d m := (tt, set_open (m_open m ∖ {[d]}) m);
  RefreshRoutingTable _ m := (tt, m);
  peer_AddrInfoFromString s := if decide (s = "") then Err (Plain "empty") else Ok {| Peer_ID := s; Peer_Addrs := [s] |};
  duitls_Advertise _ _ m := (tt, m);
  duitls_FindPeers _ _ m := (Ok ((fun id => {| Peer_ID := id; Peer_Addrs := [] |}) <$> ["p1"; "kk"; "p2"; "p3"]), m);
  Connected _ p m := bool_decide (p ∈ m_peers m);
  DialPeer _ p m := if decide (p ∈ answering) then (Ok tt, {| m_files := m_files m; m_open := m_open m;
      m_peers := {[p]} ∪ m_peers m; m_keys := m_keys m |}) else (Err (Plain "timeout"), m);
  providers_NewProviderManager _ _ m := (Ok tt, m);
  gorpc_NewServer _ _ m := (tt, m); gorpc_Register _ m := (Ok tt, m); gorpc_NewClientWithServer _ _ _ := tt;
  badger_NewDatastore _ m := (Ok (fresh_fd (m_open m)), set_open ({[fresh_fd (m_open m)]} ∪ m_open m) m);
  NewMapDatastore := 1%positive |}.

Definition host_number : Host (N := Machine) (D := positive) -> positive := fst.
Definition dht_number : Dht (N := Machine) (D := positive) -> positive := fun d => d.

#[export] Instance p2p_lib_spec : P2pSpec Machine positive m_open host_number dht_number.
Proof.
  split; try done.
  - intros addr [k|] m; simpl; [|done]. case_decide; [done|]. split; [apply fresh_fd_not_in|]. split; [done|]. by exists k.
  - intros h opts m. simpl. split; [apply fresh_fd_not_in|done].
Qed.

#[export] Instance p2p_discovery : DiscoverySpec Machine positive m_peers answering.
Proof. split; [done| |done]. intros h p m. simpl. by case_decide. Qed.

Definition cfg (keyPath : string) : RoutingConfig := {|
  Cfg_ListenAddress := "/ip4/0.0.0.0/tcp/8999"; Cfg_BootstrapPeers := []; Cfg_KeyPath := keyPath;
  Cfg_DatastoreDir := ""; Cfg_RefreshInterval := 0%Z |}.

Definition machine : Machine := {| m_files := {["id.key" := "kk"]}; m_open := {[5%positive]}; m_peers := {["p3"]}; m_keys := 7 |}.

Lemma newRemote_all_or_nothing_witness :
  exists remote m', start_router.newRemote (D := positive) 1%positive (cfg "id.key") machine = (Ok remote, m')
    /\ host_ID (p2p.srv_host (start_router.rr_server remote)) = "kk"
    /\ m_open (p2p.Close (start_router.rr_server remote) m').2 = {[5%positive]}.
Proof.
  pose proof (newRemote_all_or_nothing (D := positive) (held := m_open) (host_fd := host_number) (dht_fd := dht_number)
    1%positive (cfg "id.key") machine) as H.
  assert (Hok : is_ok (start_router.newRemote (N := Machine) 1%positive (cfg "id.key") machine).1 = true)
    by (vm_compute; reflexivity).
  destruct (start_router.newRemote 1%positive (cfg "id.key") machine) as [[remote|e] m']; [|discriminate Hok].
  destruct H as (_ & _ & (k & Hk & Hid) & Hc & _). exists remote, m'. split; [reflexivity|].
  injection Hk as <-. injection Hid as Hid. split; [symmetry; exact Hid|exact Hc].
Defined.

Lemma discover_exact_witness :
  m_peers (p2p.discover_tick (N := Machine) (D := positive) (9%positive, "kk") 10%positive "dir/connect" machine).2
  = to_connect (D := positive) (up := answering) (9%positive, "kk")
      ((fun id => {| Peer_ID := id; Peer_Addrs := [] |}) <$> ["p1"; "kk"; "p2"; "p3"]) ∪ {["p3"]}.
Proof. exact (discover_exact (connected := m_peers) (9%positive, "kk") 10%positive "dir/connect" machine). Defined.

(** A DHT that takes what it has a validator for. *)
Definition namespace_of_key (key : string) : string := nth 1 (Split "/" key) "".

#[local] Existing Instance DemoCore.cids.
#[local] Instance dht_net : Network (list (string * string)) := {|
  dht_Provide _ := ret (Ok tt);
  dht_PutValue k v := fun n => match dht_validators !! namespace_of_key k with
    | None => (Err (Plain "invalid record keytype"), n)
    | Some _ => (Ok tt, n ++ [(k, v)])
    end;
  RoutingTable_Size _ := 1%nat;
  rpc_CallLookup _ _ := ret (Err (Plain "no peer"));
  rpc_CallPull _ _ := ret (Err (Plain "no peer"));
  pm_AddProvider _ _ := ret (Ok tt);
  pm_GetProviders _ _ := Ok [] |}.

Lemma locator_labels_not_announced_witness :
  let w : World unit (list (string * string)) unit := {| w_ds := tt; w_net := []; w_store := tt; w_tick := 0 |} in
  w_net (for_each (fun l => routeRemote.announceLabelToDHT "me" l "c1")
    ["/skills/a"; "/locators/docker"] w).2 = [("/skills/a/c1/me", "c1")].
Proof.
  intros w. rewrite locator_labels_not_announced; [reflexivity|].
  intros key ns elems v n Hs Hv. unfold dht_PutValue, dht_net, namespace_of_key. rewrite Hs. simpl. rewrite Hv. eauto.
Defined.

End DemoP2p.
