(* ===== verification/NetworkKeys.v ===== *)
(** * The key of a node

    cli/cmd/network: [dirctl network init] makes a key and prints the peer ID it
    gives, [dirctl network info] prints the peer ID of a key file (Module
    [network]); the server takes its identity from the same file (p2p,
    WithIdentityKeyPath).  The three agree. *)

From S2P Require Import Prelude GoStrings GoUrl Interfaces CoreRecord Validators LabelKey RoutingWorld RoutingRemote P2p P2pSpec.

Open Scope string_scope.
Open Scope list_scope.
Open Scope go_scope.

(** Making keys (crypto/ed25519, crypto/x509, encoding/pem). *)
Class KeyGen (N : Type) `{!IdentityLib N} := {
  ed25519_GenerateKey : M N (result (EdPublic * EdPrivate));
  x509_MarshalPKCS8PrivateKey : EdPrivate -> result string;
  pem_EncodeToMemory : string -> string -> string;
}.

(** [filepath.Dir] and [filepath.Join]. *)
Definition path_Dir (path : string) : string :=
  match CutLast "/" path with Some (d, _) => filepath_Clean (d +:+ "/") | None => "." end.
Definition path_Join (a b : string) : string :=
  if decide (a = "") then filepath_Clean b else filepath_Clean (a +:+ "/" +:+ b).

Module network.
Section network.
Context {N : Type} `{!IdentityLib N} `{!HostFiles N} `{!KeyGen N}.

(** The text a command prints. *)
Definition print_ID (ID : string) : string := ID_String ID +:+ String "010" "".

(** *** init *)

Definition GenerateED25519OpenSSLKey : M N (result (EdPublic * string)) :=
  let? key := ed25519_GenerateKey else err => ret (Err (Wrap "failed to generate ED25519 key pair: " err)) in
  match x509_MarshalPKCS8PrivateKey key.2 with
  | Err err => ret (Err (Wrap "failed to marshal private key: " err))
  | Ok privBytes => ret (Ok (key.1, pem_EncodeToMemory "PRIVATE KEY" privBytes))
  end.

(** The file of the option [--output], or the default one. *)
Definition key_path (output : string) (n : N) : result string :=
  if decide (output <> "") then Ok output
  else match hf_UserHomeDir n with
       | Err err => Err (Wrap "error getting home directory: " err)
       | Ok homeDir => Ok (path_Join homeDir ".agntcy/dir/generated.key")
       end.

Definition init (output : string) : M N (result string) :=
  let? key := GenerateED25519OpenSSLKey
    else err => ret (Err (Wrap "failed to generate ED25519 key pair: " err)) in
  let? filePath := (fun n => (key_path output n, n)) else err => ret (Err err) in
  let? _u := hf_MkdirAll (path_Dir filePath) 493
    else err => ret (Err (Wrap "failed to create directory: " err)) in
  let? _v := hf_WriteFile filePath key.2 384
    else err => ret (Err (Wrap "failed to write private key to file: " err)) in
  match crypto_UnmarshalEd25519PublicKey key.1 with
  | Err err => ret (Err (Wrap "failed to unmarshal public key: " err))
  | Ok pubKey =>
      match peer_IDFromPublicKey pubKey with
      | Err err => ret (Err (Wrap "failed to generate peer ID from public key: " err))
      | Ok ID => ret (Ok (print_ID ID))
      end
  end.

(** *** info *)

Definition info_runCommand (path : string) (n : N) : result string :=
  match hf_ReadFile path n with
  | Err err => Err (Wrap "failed to read key file: " err)
  | Ok keyBytes =>
      match ssh_ParseRawPrivateKey keyBytes with
      | Err err => Err (Wrap "failed to parse private key: " err)
      | Ok None => Err (Plain "key is not an ED25519 private key")
      | Ok (Some ed25519Key) =>
          match crypto_UnmarshalEd25519PrivateKey ed25519Key with
          | Err err => Err (Wrap "failed to unmarshal identity key: " err)
          | Ok generatedKey =>
              match peer_IDFromPublicKey (GetPublic generatedKey) with
              | Err err => Err (Wrap "failed to generate peer ID from public key: " err)
              | Ok ID => Ok (print_ID ID)
              end
          end
      end
  end.

Definition info (args : list string) (n : N) : result string :=
  match args with
  | [path] => if decide (path = "") then Err (Plain "expected a non-empty argument") else info_runCommand path n
  | _ => Err (Plain "expected exactly one argument")
  end.

End network.
End network.

(** ** Laws *)

(** A key written in the PKCS#8 format is read back, and both halves of a pair
    give the same public key. *)
Class KeyGenSpec (N : Type) `{!IdentityLib N} `{!KeyGen N} (public_of : EdPrivate -> EdPublic) : Prop := {
  GenerateKey_spec n k : (ed25519_GenerateKey n).1 = Ok k -> k.1 = public_of k.2;
  PKCS8_spec priv der : x509_MarshalPKCS8PrivateKey priv = Ok der ->
    ssh_ParseRawPrivateKey (pem_EncodeToMemory "PRIVATE KEY" der) = Ok (Some priv);
  public_spec priv pk : crypto_UnmarshalEd25519PublicKey (public_of priv) = Ok pk ->
    exists sk, crypto_UnmarshalEd25519PrivateKey priv = Ok sk /\ GetPublic sk = pk;
}.

(** A file that was written is read back. *)
Class HostFilesSpec (N : Type) `{!HostFiles N} : Prop := {
  hf_write_read p b mode n n' : hf_WriteFile p b mode n = (Ok tt, n') -> hf_ReadFile p n' = Ok b;
}.

(** ** The three agree *)

Lemma clean_rel_nonempty l acc : Forall (fun x => x <> "") acc -> Forall (fun x => x <> "") (foldl clean_rel_step acc l).
Proof.
  revert acc. induction l as [|x l IH]; intros acc Ha; simpl; [done|]. apply IH. unfold clean_rel_step.
  case_decide as Hx; [done|]. case_decide; [|apply Forall_app; split; [done|constructor; [tauto|constructor]]].
  destruct (last acc) as [y|] eqn:Hl; [|by repeat constructor]. case_decide.
  - apply Forall_app. split; [done|]. by repeat constructor.
  - apply last_Some in Hl as [acc' ->]. rewrite removelast_last. by apply Forall_app in Ha as [? _].
Qed.

Lemma filepath_Clean_nonempty path : filepath_Clean path <> "".
Proof.
  unfold filepath_Clean. destruct (HasPrefix path "/"); [done|].
  pose proof (clean_rel_nonempty (Split "/" path) [] (Forall_nil_2 _)) as Hf.
  destruct (foldl clean_rel_step [] (Split "/" path)) as [|x l]; [done|].
  apply Forall_cons in Hf as [Hx _]. destruct l as [|y l]; [done|]. simpl. by destruct x.
Qed.

Section agree.
Context {N D : Type} `{!IdentityLib N} `{!HostFiles N} `{!KeyGen N} `{!P2pLib N D}
  {public_of : EdPrivate -> EdPublic} `{!KeyGenSpec N public_of} `{!HostFilesSpec N}.
Context {held : N -> gset positive} {host_fd : Host -> positive} {dht_fd : Dht -> positive}
  `{!P2pSpec N D held host_fd dht_fd}.

Lemma key_path_nonempty output n path : network.key_path output n = Ok path -> path <> "".
Proof.
  unfold network.key_path. case_decide; [by intros [= <-]|]. destruct (hf_UserHomeDir n) as [home|]; [|done].
  intros [= <-]. unfold path_Join. case_decide; apply filepath_Clean_nonempty.
Qed.

(** What a successful init leaves behind. *)
Lemma init_run output n text n' : network.init output n = (Ok text, n') ->
  exists n1 path sk ID, network.key_path output n1 = Ok path /\ p2p.read_key path n' = Ok sk
    /\ peer_IDFromPublicKey (GetPublic sk) = Ok ID /\ text = network.print_ID ID.
Proof.
  unfold network.init, network.GenerateED25519OpenSSLKey, try_bind, bind, ret.
  destruct (ed25519_GenerateKey n) as [[[pub priv]|e] n1] eqn:Hgen; simpl; [|done].
  pose proof (GenerateKey_spec n (pub, priv)) as Hpub. rewrite Hgen in Hpub. specialize (Hpub eq_refl). simpl in Hpub.
  destruct (x509_MarshalPKCS8PrivateKey priv) as [der|e] eqn:Hder; [|done].
  destruct (network.key_path output n1) as [path|e] eqn:Hp; [|done].
  destruct (hf_MkdirAll _ 493 n1) as [[[]|e] n2]; [|done]. simpl.
  destruct (hf_WriteFile path _ 384 n2) as [[[]|e] n3] eqn:Hw; [|done]. apply hf_write_read in Hw.
  destruct (crypto_UnmarshalEd25519PublicKey pub) as [pk|e] eqn:Hpk; [|done].
  destruct (peer_IDFromPublicKey pk) as [ID|e] eqn:Hid; [|done]. intros [= <- <-].
  rewrite Hpub in Hpk. destruct (public_spec priv pk Hpk) as (sk & Hsk & <-).
  exists n1, path, sk, ID. split; [done|]. split; [|done]. unfold p2p.read_key.
  by rewrite Hw, (PKCS8_spec priv der Hder), Hsk.
Qed.

(** C15. The key that init makes names the node.  When [network init] prints a peer ID,
    [network info] on the file it wrote prints the same, and so does a server that is
    started with this file as its key: the remote router that newRemote starts has
    that peer ID. *)
Theorem init_names_the_node output n text n' : network.init output n = (Ok text, n') ->
  exists path, path <> "" /\ (output <> "" -> path = output)
    /\ network.info [path] n' = Ok text
    /\ forall dstore cfg remote n'', Cfg_KeyPath cfg = path ->
         start_router.newRemote (D := D) dstore cfg n' = (Ok remote, n'') ->
         network.print_ID (host_ID (p2p.srv_host (start_router.rr_server remote))) = text.
Proof.
  intros Hinit. destruct (init_run _ _ _ _ Hinit) as (n1 & path & sk & ID & Hp & Hk & Hid & ->).
  pose proof (key_path_nonempty _ _ _ Hp) as Hne. exists path. split; [done|]. split.
  { intros Ho. unfold network.key_path in Hp. rewrite decide_True in Hp by done. by injection Hp. }
  split.
  - unfold network.info, network.info_runCommand. rewrite decide_False by done. unfold p2p.read_key in Hk.
    destruct (hf_ReadFile path n') as [b|]; [|done]. destruct (ssh_ParseRawPrivateKey b) as [[ed|]|]; [|done..].
    destruct (crypto_UnmarshalEd25519PrivateKey ed) as [sk'|]; [|done]. injection Hk as ->. by rewrite Hid.
  - intros dstore cfg remote n'' Hcfg Hrun. destruct (newRemote_identity _ _ _ _ _ Hrun) as (k & Hfrom & Hid').
    unfold key_from in Hfrom. rewrite Hcfg, decide_False, Hk in Hfrom by done. injection Hfrom as <-. congruence.
Qed.

End agree.

(** ** A machine that makes a key *)

Module DemoKeys.
Import DemoP2p.

#[export] Instance key_gen : KeyGen Machine := {|
  ed25519_GenerateKey m := (Ok (m_keys m, m_keys m), {| m_files := m_files m; m_open := m_open m;
    m_peers := m_peers m; m_keys := S (m_keys m) |});
  x509_MarshalPKCS8PrivateKey k := Ok (unary k);
  pem_EncodeToMemory _ b := b |}.

Lemma unary_length k : String.length (unary k) = k.
Proof. induction k as [|k IH]; [done|]. simpl. by rewrite IH. Qed.

Definition public_of : EdPrivate (N := Machine) -> EdPublic (N := Machine) := fun k => k.

#[export] Instance key_gen_spec : KeyGenSpec Machine public_of.
Proof.
  split.
  - by intros m k [= <-].
  - intros k der [= <-]. simpl. rewrite decide_False by (by destruct k). by rewrite unary_length.
  - intros k pk [= <-]. by exists k.
Qed.

#[export] Instance files_spec : HostFilesSpec Machine.
Proof. split. intros p b mode n n' [= <-]. simpl. by rewrite lookup_insert_eq. Qed.

Lemma init_names_the_node_witness :
  let nl := String "010" "" in
  exists m', network.init "node.key" machine = (Ok ("kkkkkkk" +:+ nl), m')
    /\ network.info ["node.key"] m' = Ok ("kkkkkkk" +:+ nl)
    /\ forall remote m'', start_router.newRemote (D := positive) 1%positive (cfg "node.key") m' = (Ok remote, m'') ->
         network.print_ID (host_ID (p2p.srv_host (start_router.rr_server remote))) = "kkkkkkk" +:+ nl.
Proof.
  intros nl. destruct (network.init "node.key" machine) as [r m'] eqn:Hrun.
  assert (Hr : (network.init "node.key" machine).1 = Ok ("kkkkkkk" +:+ nl)) by reflexivity.
  rewrite Hrun in Hr. simpl in Hr. rewrite Hr in Hrun. exists m'.
  destruct (init_names_the_node (D := positive) (public_of := public_of) (held := m_open) (host_fd := host_number)
    (dht_fd := dht_number) "node.key" machine _ m' Hrun) as (path & _ & Hp & Hi & Hs).
  rewrite Hp in Hi, Hs by discriminate.
  split; [rewrite Hr; reflexivity|]. split; [exact Hi|]. intros remote m''. apply (Hs 1%positive (cfg "node.key")). reflexivity.
Defined.

End DemoKeys.
