(* ===== verification/StoreCache.v ===== *)
(** * The cached record store

    server/store/cache/cache.go: a [StoreAPI] that keeps records and metadata
    of another [StoreAPI] in a datastore.  The file states what a record store
    promises ([StoreSpec], content-addressed maps) and shows that the cached
    store behaves as its source as long as operations do not interleave. *)

From S2P Require Import Prelude GoStrings Interfaces Adapters CoreRecord Validators LabelKey Metrics RoutingWorld RoutingLocal RoutingLocalSpec.

Open Scope string_scope.
Open Scope list_scope.
Open Scope go_scope.

Arguments GetCid : simpl never.
Arguments MarshalOASF : simpl never.

(** Protocol-buffer encoding of a message (google.golang.org/protobuf). *)
Class ProtoCodec (A : Type) := {
  proto_Marshal : A -> result string;
  proto_Unmarshal : string -> result A;
}.

Class ProtoCodecSpec (A : Type) `{ProtoCodec A} (ok : A -> Prop) : Prop := {
  proto_roundtrip a :
    ok a -> exists b, proto_Marshal a = Ok b /\ proto_Unmarshal b = Ok a;
}.

(** ** cache.go *)

Module cachedStore.
Section cachedStore.
Context {T D : Type} `{CidLib} `{!HashLib} `{!OasfJson} `{!StoreAPI T} `{!Datastore D}
  `{!ProtoCodec CoreRecord} `{!JsonCodec RecordMeta}.

(** The source store and the datastore that caches it. *)
Record Store := { source : T; cache : D }.

Definition on_source {A} (c : M T A) : M Store A := fun s =>
  let '(a, t) := c (source s) in (a, {| source := t; cache := cache s |}).

Definition on_cache {A} (c : M D A) : M Store A := fun s =>
  let '(a, d) := c (cache s) in (a, {| source := source s; cache := d |}).

Definition read_cache {A} (f : D -> A) : M Store A := fun s => (f (cache s), s).

Definition record_key (cid : string) : string := ds_NewKey ("/record/" +:+ cid).
Definition meta_key (cid : string) : string := ds_NewKey ("/meta/" +:+ cid).

Definition cacheRecord (record : CoreRecord) : M Store (result unit) :=
  let cid := GetCid (Some record) in
  if decide (cid = "") then ret (Err (Plain "record has no CID"))
  else match proto_Marshal record with
       | Err e => ret (Err (Wrap "failed to marshal record: " e))
       | Ok data => on_cache (ds_Put (record_key cid) data)
       end.

Definition getRecordFromCache (cid : string) (d : D) : result CoreRecord :=
  match ds_Get d (record_key cid) with
  | Err e => Err e
  | Ok data =>
      match proto_Unmarshal data with
      | Err e => Err (Wrap "failed to unmarshal record: " e)
      | Ok record => Ok record
      end
  end.

Definition cacheMeta (meta : RecordMeta) : M Store (result unit) :=
  let cid := Meta_Cid meta in
  if decide (cid = "") then ret (Err (Plain "metadata has no CID"))
  else match json_Marshal meta with
       | Err e => ret (Err (Wrap "failed to marshal metadata: " e))
       | Ok data => on_cache (ds_Put (meta_key cid) data)
       end.

Definition getMetaFromCache (cid : string) (d : D) : result RecordMeta :=
  match ds_Get d (meta_key cid) with
  | Err e => Err e
  | Ok data =>
      match json_Unmarshal data with
      | Err e => Err (Wrap "failed to unmarshal metadata: " e)
      | Ok meta => Ok meta
      end
  end.

Definition removeFromCache (cid : string) : M Store unit :=
  do! on_cache (ds_Delete (record_key cid)) then
  do! on_cache (ds_Delete (meta_key cid)) then
  ret tt.

(** A failure to cache is only logged. *)
Definition Push (record : option CoreRecord) : M Store (result RecordRef) :=
  let? ref := on_source (store_Push record) else e => ret (Err e) in
  match record with
  | None => ret (Ok ref)   (** a nil record has no CID and is not cached *)
  | Some record => do! cacheRecord record then ret (Ok ref)
  end.

(** Pull in two parts: what it asks the source, and what it does with the answer. *)
Definition pull_source (ref : option RecordRef) : M Store (result CoreRecord) :=
  on_source (store_Pull ref).

Definition pull_finish (r : result CoreRecord) : M Store (result CoreRecord) :=
  match r with
  | Err e => ret (Err e)
  | Ok record => do! cacheRecord record then ret (Ok record)
  end.

Definition Pull (ref : option RecordRef) : M Store (result CoreRecord) :=
  let cid := ref_GetCid ref in
  let! hit := read_cache (getRecordFromCache cid) in
  match hit with
  | Ok record => ret (Ok record)
  | Err _ => let! r := pull_source ref in pull_finish r
  end.

Definition Lookup (ref : option RecordRef) : M Store (result RecordMeta) :=
  let cid := ref_GetCid ref in
  let! hit := read_cache (getMetaFromCache cid) in
  match hit with
  | Ok meta => ret (Ok meta)
  | Err _ =>
      let? meta := on_source (store_Lookup ref) else e => ret (Err e) in
      do! cacheMeta meta then ret (Ok meta)
  end.

Definition Delete (ref : option RecordRef) : M Store (result unit) :=
  let cid := ref_GetCid ref in
  do! removeFromCache cid then
  on_source (store_Delete ref).

#[export] Instance api : StoreAPI Store := {|
  store_Push := Push; store_Pull := Pull; store_Lookup := Lookup; store_Delete := Delete;
|}.

End cachedStore.
End cachedStore.
#[export] Existing Instance cachedStore.api.
Arguments cachedStore.source {_ _}. Arguments cachedStore.cache {_ _}.

(** ** What a record store promises

    Its observable state is a map from CIDs to records and a map from CIDs to
    metadata. [allowed] says which answers and which changes an operation may
    show: a pull or lookup answers from the maps and changes nothing, a push
    files the record under its own CID or fails without effect, a delete removes
    the CID or fails and removes at most entries of that CID. *)

Definition Observable : Type := gmap string CoreRecord * gmap string RecordMeta.

Inductive store_op :=
  | OpPush (r : CoreRecord)
  | OpPull (c : string)
  | OpLookup (c : string)
  | OpDelete (c : string).

Inductive store_res :=
  | ResPush (r : result RecordRef)
  | ResPull (r : result CoreRecord)
  | ResLookup (r : result RecordMeta)
  | ResDelete (r : result unit).

Definition run_op {T} `{StoreAPI T} (op : store_op) : M T store_res :=
  match op with
  | OpPush r => let! x := store_Push (Some r) in ret (ResPush x)
  | OpPull c => let! x := store_Pull (Some {| ref_Cid := c |}) in ret (ResPull x)
  | OpLookup c => let! x := store_Lookup (Some {| ref_Cid := c |}) in ret (ResLookup x)
  | OpDelete c => let! x := store_Delete (Some {| ref_Cid := c |}) in ret (ResDelete x)
  end.

(** An answer that is the entry of a map, or an error when there is none. *)
Definition answers {A} (res : result A) (entry : option A) : Prop :=
  match entry with Some a => res = Ok a | None => is_ok res = false end.

Definition allowed `{HashLib} `{OasfJson} (op : store_op) (res : store_res) (a a' : Observable) : Prop :=
  match op, res with
  | OpPull c, ResPull x => answers x (a.1 !! c) /\ a' = a
  | OpLookup c, ResLookup x => answers x (a.2 !! c) /\ a' = a
  | OpPush r, ResPush (Ok ref) =>
      ref_Cid ref = GetCid (Some r) /\ a'.1 = <[GetCid (Some r) := r]> a.1
      /\ (forall c, c <> GetCid (Some r) -> a'.2 !! c = a.2 !! c)
      /\ (forall m, a.2 !! GetCid (Some r) = Some m -> a'.2 !! GetCid (Some r) = Some m)
  | OpPush r, ResPush (Err _) => a' = a
  | OpDelete c, ResDelete (Ok _) => a' = (delete c a.1, delete c a.2)
  | OpDelete c, ResDelete (Err _) =>
      (forall c', c' <> c -> a'.1 !! c' = a.1 !! c' /\ a'.2 !! c' = a.2 !! c')
      /\ a'.1 ⊆ a.1 /\ a'.2 ⊆ a.2
  | _, _ => False
  end.

(** Operations on the CIDs that the store knows how to handle and records that
    survive encoding. *)
Definition op_ok (known_cid : string -> Prop) (record_ok : CoreRecord -> Prop) (op : store_op) : Prop :=
  match op with
  | OpPush r => record_ok r
  | OpPull c | OpLookup c | OpDelete c => known_cid c
  end.

(** Every text that can be a path component. *)
Definition any_cid (c : string) : Prop := good_elem c = true.

(** [inv] delimits the states the promises are about, [known_cid] the CIDs. *)
Class StoreSpec (T : Type) `{HashLib} `{!OasfJson} `{!StoreAPI T}
    (inv : T -> Prop) (obs : T -> Observable) (known_cid : string -> Prop)
    (record_ok : CoreRecord -> Prop) (meta_ok : RecordMeta -> Prop) : Prop := {
  known_cid_good c : known_cid c -> good_elem c = true;
  obs_content t c r : inv t -> (obs t).1 !! c = Some r ->
    GetCid (Some r) = c /\ known_cid c /\ record_ok r;
  obs_metas t c m : inv t -> (obs t).2 !! c = Some m -> Meta_Cid m = c /\ known_cid c /\ meta_ok m;
  run_op_allowed t op : inv t -> op_ok known_cid record_ok op ->
    allowed op (run_op op t).1 (obs t) (obs (run_op op t).2) /\ inv (run_op op t).2;
}.

(** ** Single operations of a record store *)

Section operations.
Context {T : Type} `{HashLib} `{!OasfJson} `{!StoreAPI T}
  {inv : T -> Prop} {obs : T -> Observable} {known_cid : string -> Prop} {record_ok : CoreRecord -> Prop} {meta_ok : RecordMeta -> Prop}
  `{Hspec : !StoreSpec T inv obs known_cid record_ok meta_ok}.

(** What one operation of the store does, by [StoreSpec]. *)
Lemma store_op_step (op : store_op) (t : T) : inv t -> op_ok known_cid record_ok op ->
  allowed op (run_op op t).1 (obs t) (obs (run_op op t).2) /\ inv (run_op op t).2.
Proof. apply run_op_allowed. Qed.

Lemma store_Push_step r t : inv t -> record_ok r ->
  exists x t', store_Push (Some r) t = (x, t') /\ inv t' /\
    match x with
    | Ok ref => ref_Cid ref = GetCid (Some r) /\ (obs t').1 = <[GetCid (Some r) := r]> (obs t).1
    | Err _ => obs t' = obs t
    end.
Proof.
  intros Hi Hr. destruct (store_op_step (OpPush r) t Hi Hr) as [Ha Hi'].
  simpl in Ha, Hi'. unfold bind in Ha, Hi'.
  destruct (store_Push (Some r) t) as [x t']. simpl in *. exists x, t'. split; [done|]. split; [done|].
  destruct x; [naive_solver|done].
Qed.

Lemma store_Pull_step c t : inv t -> known_cid c ->
  exists x t', store_Pull (Some {| ref_Cid := c |}) t = (x, t') /\ inv t' /\ obs t' = obs t
    /\ answers x ((obs t).1 !! c).
Proof.
  intros Hi Hc. destruct (store_op_step (OpPull c) t Hi Hc) as [Ha Hi'].
  simpl in Ha, Hi'. unfold bind in Ha, Hi'.
  destruct (store_Pull _ t) as [x t']. simpl in *. exists x, t'. naive_solver.
Qed.

Lemma store_Lookup_step c t : inv t -> known_cid c ->
  exists x t', store_Lookup (Some {| ref_Cid := c |}) t = (x, t') /\ inv t' /\ obs t' = obs t
    /\ answers x ((obs t).2 !! c).
Proof.
  intros Hi Hc. destruct (store_op_step (OpLookup c) t Hi Hc) as [Ha Hi'].
  simpl in Ha, Hi'. unfold bind in Ha, Hi'.
  destruct (store_Lookup _ t) as [x t']. simpl in *. exists x, t'. naive_solver.
Qed.

Lemma store_Delete_step c t : inv t -> known_cid c ->
  exists x t', store_Delete (Some {| ref_Cid := c |}) t = (x, t') /\ inv t' /\
    match x with
    | Ok _ => (obs t').1 = delete c (obs t).1
    | Err _ => (obs t').1 ⊆ (obs t).1
    end.
Proof.
  intros Hi Hc. destruct (store_op_step (OpDelete c) t Hi Hc) as [Ha Hi'].
  simpl in Ha, Hi'. unfold bind in Ha, Hi'.
  destruct (store_Delete _ t) as [x t']. simpl in *. exists x, t'. split; [done|]. split; [done|].
  destruct x; [by rewrite Ha|naive_solver].
Qed.

End operations.

(** ** The cached store keeps the promises of its source *)

Section refinement.
Context {T D : Type} `{HashLib} `{!OasfJson} `{!StoreAPI T}
  {inv : T -> Prop} {obs : T -> Observable} {known_cid : string -> Prop} {record_ok : CoreRecord -> Prop} {meta_ok : RecordMeta -> Prop}
  `{Hsrc : !StoreSpec T inv obs known_cid record_ok meta_ok}.
Context `{Hd : !Datastore D} {view : D -> gmap string string} {bops : Batch -> list BatchOp}
  `{!DatastoreSpec D view bops}.
Context `{!ProtoCodec CoreRecord} `{!ProtoCodecSpec CoreRecord record_ok}
  `{!JsonCodec RecordMeta} `{!JsonCodecSpec RecordMeta meta_ok}.
Notation Store := (cachedStore.Store (T := T) (D := D)).

Definition rkey (c : string) : string := "/record/" +:+ c.
Definition mkey (c : string) : string := "/meta/" +:+ c.

Lemma record_key_eq c : good_elem c = true -> cachedStore.record_key c = rkey c.
Proof.
  intros Hc. unfold cachedStore.record_key. rewrite ds_NewKey_spec by done.
  apply (path_Clean_id _ ["record"; c]); [|done|by repeat constructor].
  change ("/record/" +:+ c) with ("/" +:+ "record" +:+ "/" +:+ c).
  by rewrite Split_rooted, Split_slash, (Split_no_sep _ c) by by apply good_elem_no_sep.
Qed.

Lemma meta_key_eq c : good_elem c = true -> cachedStore.meta_key c = mkey c.
Proof.
  intros Hc. unfold cachedStore.meta_key. rewrite ds_NewKey_spec by done.
  apply (path_Clean_id _ ["meta"; c]); [|done|by repeat constructor].
  change ("/meta/" +:+ c) with ("/" +:+ "meta" +:+ "/" +:+ c).
  by rewrite Split_rooted, Split_slash, (Split_no_sep _ c) by by apply good_elem_no_sep.
Qed.

(** What the cache holds agrees with what the source holds. *)
Definition cached_record (d : gmap string string) (c : string) (r : CoreRecord) : Prop :=
  exists b, d !! rkey c = Some b /\ proto_Unmarshal b = Ok r.
Definition cached_meta (d : gmap string string) (c : string) (m : RecordMeta) : Prop :=
  exists b, d !! mkey c = Some b /\ json_Unmarshal b = Ok m.

Definition coherent (d : gmap string string) (a : Observable) : Prop :=
  (forall c r, cached_record d c r -> a.1 !! c = Some r) /\
  (forall c m, cached_meta d c m -> a.2 !! c = Some m).

(** Agreement but for the record cached under one CID. *)
Definition coherent_but (c0 : string) (d : gmap string string) (a : Observable) : Prop :=
  (forall c r, c <> c0 -> cached_record d c r -> a.1 !! c = Some r) /\
  (forall c m, cached_meta d c m -> a.2 !! c = Some m).

Lemma coherent_weaken c0 d a : coherent d a -> coherent_but c0 d a.
Proof. intros [Hr Hm]. split; auto. Qed.

Lemma getRecord_Ok c d r :
  good_elem c = true -> cachedStore.getRecordFromCache c d = Ok r <-> cached_record (view d) c r.
Proof.
  intros Hc. unfold cachedStore.getRecordFromCache, cached_record.
  rewrite record_key_eq, ds_Get_spec by done. split.
  - repeat case_match; intros; simplify_eq; eauto.
  - by intros (b & -> & ->).
Qed.

Lemma getMeta_Ok c d m :
  good_elem c = true -> cachedStore.getMetaFromCache c d = Ok m <-> cached_meta (view d) c m.
Proof.
  intros Hc. unfold cachedStore.getMetaFromCache, cached_meta.
  rewrite meta_key_eq, ds_Get_spec by done. split.
  - repeat case_match; intros; simplify_eq; eauto.
  - by intros (b & -> & ->).
Qed.

Lemma keys_differ c c' : rkey c <> mkey c'.
Proof. done. Qed.

(** Caching keeps agreement. *)
Lemma cacheRecord_run r (s : Store) :
  inv (cachedStore.source s) -> (obs (cachedStore.source s)).1 !! GetCid (Some r) = Some r ->
  coherent_but (GetCid (Some r)) (view (cachedStore.cache s)) (obs (cachedStore.source s)) ->
  exists x s', cachedStore.cacheRecord r s = (x, s')
    /\ cachedStore.source s' = cachedStore.source s
    /\ coherent (view (cachedStore.cache s')) (obs (cachedStore.source s)).
Proof.
  intros Hinv Hr Hcoh. destruct (obs_content _ _ _ Hinv Hr) as (_ & Hc%known_cid_good & Hok).
  unfold cachedStore.cacheRecord. rewrite decide_False by (intros Heq; by rewrite Heq in Hc).
  destruct (proto_roundtrip r Hok) as (b & -> & Hb). rewrite record_key_eq by done.
  unfold cachedStore.on_cache. destruct (ds_Put_spec (cachedStore.cache s) (rkey (GetCid (Some r))) b) as [_ Hv].
  destruct (ds_Put _ b (cachedStore.cache s)) as [x d'] eqn:E. simpl in Hv.
  eexists _, _. split; [done|]. split; [done|]. simpl. rewrite Hv. destruct Hcoh as [Hcr Hcm]. split.
  - intros c r' (b' & Hl & Hu). apply lookup_insert_Some in Hl as [[Heq ->]|[Hne Hl]].
    + apply append_inj_l in Heq as <-. congruence.
    + apply Hcr; [by intros ->|]. by exists b'.
  - intros c m (b' & Hl & Hu). rewrite lookup_insert_ne in Hl by apply keys_differ.
    apply Hcm. by exists b'.
Qed.

Lemma cacheMeta_run m (s : Store) :
  inv (cachedStore.source s) -> (obs (cachedStore.source s)).2 !! Meta_Cid m = Some m ->
  coherent (view (cachedStore.cache s)) (obs (cachedStore.source s)) ->
  exists x s', cachedStore.cacheMeta m s = (x, s')
    /\ cachedStore.source s' = cachedStore.source s
    /\ coherent (view (cachedStore.cache s')) (obs (cachedStore.source s)).
Proof.
  intros Hinv Hm Hcoh. destruct (obs_metas _ _ _ Hinv Hm) as (_ & Hc%known_cid_good & Hok).
  unfold cachedStore.cacheMeta. rewrite decide_False by (intros Heq; by rewrite Heq in Hc).
  destruct (json_roundtrip m Hok) as (b & -> & Hb). rewrite meta_key_eq by done.
  unfold cachedStore.on_cache. destruct (ds_Put_spec (cachedStore.cache s) (mkey (Meta_Cid m)) b) as [_ Hv].
  destruct (ds_Put _ b (cachedStore.cache s)) as [x d'] eqn:E. simpl in Hv.
  eexists _, _. split; [done|]. split; [done|]. simpl. rewrite Hv. destruct Hcoh as [Hcr Hcm]. split.
  - intros c r (b' & Hl & Hu). rewrite lookup_insert_ne in Hl by (symmetry; apply keys_differ).
    apply Hcr. by exists b'.
  - intros c m' (b' & Hl & Hu). apply lookup_insert_Some in Hl as [[Heq ->]|[_ Hl]].
    + apply append_inj_l in Heq as <-. congruence.
    + apply Hcm. by exists b'.
Qed.

Lemma run_source op s (t' : T) x :
  inv (cachedStore.source s) -> op_ok known_cid record_ok op ->
  run_op op (cachedStore.source (D := D) s) = (x, t') ->
  allowed op x (obs (cachedStore.source s)) (obs t') /\ inv t'.
Proof.
  intros Hinv Hop Hrun. pose proof (run_op_allowed (cachedStore.source s) op Hinv Hop) as Ha.
  by rewrite Hrun in Ha.
Qed.

Lemma Pull_step c (s : Store) :
  known_cid c -> inv (cachedStore.source s) ->
  coherent (view (cachedStore.cache s)) (obs (cachedStore.source s)) ->
  exists x s', cachedStore.Pull (Some {| ref_Cid := c |}) s = (x, s')
    /\ answers x ((obs (cachedStore.source s)).1 !! c)
    /\ obs (cachedStore.source s') = obs (cachedStore.source s)
    /\ inv (cachedStore.source s')
    /\ coherent (view (cachedStore.cache s')) (obs (cachedStore.source s)).
Proof.
  intros Hc Hinv Hcoh. pose proof (known_cid_good c Hc) as Hg. unfold cachedStore.Pull. simpl (ref_GetCid _).
  erewrite bind_run by (unfold cachedStore.read_cache; done).
  destruct (cachedStore.getRecordFromCache c (cachedStore.cache s)) as [r|e] eqn:Hhit.
  { apply getRecord_Ok in Hhit; [|done]. apply (proj1 Hcoh) in Hhit. exists (Ok r), s. by rewrite Hhit. }
  unfold cachedStore.pull_source, cachedStore.on_source, bind at 1.
  destruct (store_Pull (Some {| ref_Cid := c |}) (cachedStore.source s)) as [x t'] eqn:Hp.
  assert (Hal : (answers x ((obs (cachedStore.source s)).1 !! c)
    /\ obs t' = obs (cachedStore.source s)) /\ inv t').
  { apply (run_source (OpPull c) s t' (ResPull x)); [done|done|].
    unfold run_op, bind, ret. by rewrite Hp. }
  destruct Hal as [[Hans Hobs] Hinv']. unfold cachedStore.pull_finish.
  destruct x as [r|e']; [|exists (Err e'), {| cachedStore.source := t'; cachedStore.cache := cachedStore.cache s |};
    simpl; by rewrite Hobs].
  assert (Hr : (obs (cachedStore.source s)).1 !! c = Some r).
  { unfold answers in Hans. destruct (_ !! c); [congruence|done]. }
  destruct (obs_content _ _ _ Hinv Hr) as (Hcid & _ & _).
  destruct (cacheRecord_run r {| cachedStore.source := t'; cachedStore.cache := cachedStore.cache s |})
    as (y & s' & Hrun & Hs & Hcoh'); simpl in *; rewrite ?Hobs, ?Hcid; [done|done|by apply coherent_weaken|].
  rewrite Hobs in Hcoh'. rewrite (bind_run _ _ _ _ _ Hrun).
  exists (Ok r), s'. by rewrite Hs, Hobs.
Qed.

Lemma Lookup_step c (s : Store) :
  known_cid c -> inv (cachedStore.source s) ->
  coherent (view (cachedStore.cache s)) (obs (cachedStore.source s)) ->
  exists x s', cachedStore.Lookup (Some {| ref_Cid := c |}) s = (x, s')
    /\ answers x ((obs (cachedStore.source s)).2 !! c)
    /\ obs (cachedStore.source s') = obs (cachedStore.source s)
    /\ inv (cachedStore.source s')
    /\ coherent (view (cachedStore.cache s')) (obs (cachedStore.source s)).
Proof.
  intros Hc Hinv Hcoh. pose proof (known_cid_good c Hc) as Hg. unfold cachedStore.Lookup. simpl (ref_GetCid _).
  erewrite bind_run by (unfold cachedStore.read_cache; done).
  destruct (cachedStore.getMetaFromCache c (cachedStore.cache s)) as [m|e] eqn:Hhit.
  { apply getMeta_Ok in Hhit; [|done]. apply (proj2 Hcoh) in Hhit. exists (Ok m), s. by rewrite Hhit. }
  unfold try_bind, cachedStore.on_source, bind at 1.
  destruct (store_Lookup (Some {| ref_Cid := c |}) (cachedStore.source s)) as [x t'] eqn:Hp.
  assert (Hal : (answers x ((obs (cachedStore.source s)).2 !! c)
    /\ obs t' = obs (cachedStore.source s)) /\ inv t').
  { apply (run_source (OpLookup c) s t' (ResLookup x)); [done|done|].
    unfold run_op, bind, ret. by rewrite Hp. }
  destruct Hal as [[Hans Hobs] Hinv'].
  destruct x as [m|e']; [|exists (Err e'), {| cachedStore.source := t'; cachedStore.cache := cachedStore.cache s |};
    simpl; by rewrite Hobs].
  assert (Hr : (obs (cachedStore.source s)).2 !! c = Some m).
  { unfold answers in Hans. destruct (_ !! c); [congruence|done]. }
  destruct (obs_metas _ _ _ Hinv Hr) as (Hcid & _ & _).
  destruct (cacheMeta_run m {| cachedStore.source := t'; cachedStore.cache := cachedStore.cache s |})
    as (y & s' & Hrun & Hs & Hcoh'); simpl in *; rewrite ?Hobs, ?Hcid; [done..|].
  rewrite Hobs in Hcoh'. rewrite (bind_run _ _ _ _ _ Hrun).
  exists (Ok m), s'. by rewrite Hs, Hobs.
Qed.

Lemma Push_step r (s : Store) :
  record_ok r -> inv (cachedStore.source s) ->
  coherent (view (cachedStore.cache s)) (obs (cachedStore.source s)) ->
  exists x s', cachedStore.Push (Some r) s = (x, s')
    /\ allowed (OpPush r) (ResPush x) (obs (cachedStore.source s)) (obs (cachedStore.source s'))
    /\ inv (cachedStore.source s')
    /\ coherent (view (cachedStore.cache s')) (obs (cachedStore.source s')).
Proof.
  intros Hok Hinv Hcoh. unfold cachedStore.Push, try_bind, cachedStore.on_source, bind at 1.
  destruct (store_Push (Some r) (cachedStore.source s)) as [x t'] eqn:Hp.
  assert (Hal : allowed (OpPush r) (ResPush x) (obs (cachedStore.source s)) (obs t') /\ inv t').
  { apply (run_source (OpPush r) s t' (ResPush x)); [done|done|]. unfold run_op, bind, ret. by rewrite Hp. }
  destruct Hal as [Hal Hinv'].
  destruct x as [ref|e].
  - destruct Hal as (Hcid & Hcont & Hmne & Hmeq). destruct Hcoh as [Hcr Hcm].
    destruct (cacheRecord_run r {| cachedStore.source := t'; cachedStore.cache := cachedStore.cache s |})
      as (y & s' & Hrun & Hs & Hcoh'); simpl in *.
    + done.
    + by rewrite Hcont, lookup_insert_eq.
    + split.
      * intros c r' Hne Hc. rewrite Hcont, lookup_insert_ne by done. by apply Hcr.
      * intros c m Hc. destruct (decide (c = GetCid (Some r))) as [->|Hne]; [by apply Hmeq, Hcm|].
        rewrite Hmne by done. by apply Hcm.
    + rewrite (bind_run _ _ _ _ _ Hrun). exists (Ok ref), s'. by rewrite Hs.
  - simpl in Hal. exists (Err e), {| cachedStore.source := t'; cachedStore.cache := cachedStore.cache s |}.
    simpl. by rewrite Hal.
Qed.

Lemma removeFromCache_run c (s : Store) :
  good_elem c = true ->
  exists d', cachedStore.removeFromCache c s
    = (tt, {| cachedStore.source := cachedStore.source s; cachedStore.cache := d' |})
    /\ view d' = delete (mkey c) (delete (rkey c) (view (cachedStore.cache s))).
Proof.
  intros Hc. unfold cachedStore.removeFromCache, bind, cachedStore.on_cache.
  rewrite record_key_eq, meta_key_eq by done.
  destruct (ds_Delete_spec (cachedStore.cache s) (rkey c)) as [_ Hv1].
  destruct (ds_Delete (rkey c) (cachedStore.cache s)) as [y d1]. simpl in *.
  destruct (ds_Delete_spec d1 (mkey c)) as [_ Hv2].
  destruct (ds_Delete (mkey c) d1) as [z d2]. simpl in *.
  exists d2. split; [done|]. by rewrite Hv2, Hv1.
Qed.

Lemma Delete_step c (s : Store) :
  known_cid c -> inv (cachedStore.source s) ->
  coherent (view (cachedStore.cache s)) (obs (cachedStore.source s)) ->
  exists x s', cachedStore.Delete (Some {| ref_Cid := c |}) s = (x, s')
    /\ allowed (OpDelete c) (ResDelete x) (obs (cachedStore.source s)) (obs (cachedStore.source s'))
    /\ inv (cachedStore.source s')
    /\ coherent (view (cachedStore.cache s')) (obs (cachedStore.source s')).
Proof.
  intros Hc Hinv [Hcr Hcm]. unfold cachedStore.Delete. simpl (ref_GetCid _).
  destruct (removeFromCache_run c s (known_cid_good c Hc)) as (d' & Hrun & Hv). rewrite (bind_run _ _ _ _ _ Hrun).
  unfold cachedStore.on_source. simpl.
  destruct (store_Delete (Some {| ref_Cid := c |}) (cachedStore.source s)) as [x t'] eqn:Hp.
  assert (Hal : allowed (OpDelete c) (ResDelete x) (obs (cachedStore.source s)) (obs t') /\ inv t').
  { apply (run_source (OpDelete c) s t' (ResDelete x)); [done|done|]. unfold run_op, bind, ret. by rewrite Hp. }
  destruct Hal as [Hal Hinv'].
  exists x, {| cachedStore.source := t'; cachedStore.cache := d' |}. split; [done|]. split; [done|].
  split; [done|].
  simpl. rewrite Hv.
  assert (Hother : forall c', c' <> c -> (obs t').1 !! c' = (obs (cachedStore.source s)).1 !! c'
    /\ (obs t').2 !! c' = (obs (cachedStore.source s)).2 !! c').
  { intros c' Hne. destruct x as [[]|e]; simpl in Hal; [|by apply (proj1 Hal)].
    rewrite Hal. simpl. by rewrite !lookup_delete_ne. }
  split; intros c' v (b & Hl & Hu).
  - apply lookup_delete_Some in Hl as [_ [Hne Hl]%lookup_delete_Some].
    rewrite (proj1 (Hother c' ltac:(congruence))). apply Hcr. by exists b.
  - apply lookup_delete_Some in Hl as [Hne [_ Hl]%lookup_delete_Some].
    rewrite (proj2 (Hother c' ltac:(congruence))). apply Hcm. by exists b.
Qed.

(** A sequence of operations, and a sequence of answers and changes that a store
    may show. *)
Fixpoint run_ops {S} `{StoreAPI S} (ops : list store_op) (s : S) : list store_res * S :=
  match ops with
  | [] => ([], s)
  | op :: ops => let '(x, s) := run_op op s in let '(xs, s) := run_ops ops s in (x :: xs, s)
  end.

Fixpoint allowed_run (ops : list store_op) (xs : list store_res) (a a' : Observable) : Prop :=
  match ops, xs with
  | [], [] => a' = a
  | op :: ops, x :: xs => exists a1, allowed op x a a1 /\ allowed_run ops xs a1 a'
  | _, _ => False
  end.

Lemma cached_step op (s : Store) :
  op_ok known_cid record_ok op -> inv (cachedStore.source s) -> coherent (view (cachedStore.cache s)) (obs (cachedStore.source s)) ->
  exists x s', run_op op s = (x, s')
    /\ allowed op x (obs (cachedStore.source s)) (obs (cachedStore.source s'))
    /\ inv (cachedStore.source s')
    /\ coherent (view (cachedStore.cache s')) (obs (cachedStore.source s')).
Proof.
  intros Hop Hinv Hcoh. destruct op as [r|c|c|c]; simpl in Hop.
  - destruct (Push_step r s Hop Hinv Hcoh) as (x & s' & Hrun & Ha & Hc).
    exists (ResPush x), s'. split; [|done]. unfold run_op. by rewrite (bind_run _ _ _ _ _ Hrun).
  - destruct (Pull_step c s Hop Hinv Hcoh) as (x & s' & Hrun & Ha & Ho & Hi & Hc).
    exists (ResPull x), s'. rewrite Ho. split; [|done]. unfold run_op. by rewrite (bind_run _ _ _ _ _ Hrun).
  - destruct (Lookup_step c s Hop Hinv Hcoh) as (x & s' & Hrun & Ha & Ho & Hi & Hc).
    exists (ResLookup x), s'. rewrite Ho. split; [|done]. unfold run_op. by rewrite (bind_run _ _ _ _ _ Hrun).
  - destruct (Delete_step c s Hop Hinv Hcoh) as (x & s' & Hrun & Ha & Hc).
    exists (ResDelete x), s'. split; [|done]. unfold run_op. by rewrite (bind_run _ _ _ _ _ Hrun).
Qed.

(** C2. The cache is transparent.  From a cache that agrees with its source (an
    empty one, for instance), every sequence of pushes, pulls, lookups and
    deletes on the cached store is answered as the source alone may answer it:
    a pull returns the record the source holds and fails when it holds none,
    whatever was cached, and the cache still agrees with the source at the end. *)
Theorem cached_store_refines_source ops (s : Store) :
  Forall (op_ok known_cid record_ok) ops -> inv (cachedStore.source s) ->
  coherent (view (cachedStore.cache s)) (obs (cachedStore.source s)) ->
  let '(xs, s') := run_ops ops s in
  allowed_run ops xs (obs (cachedStore.source s)) (obs (cachedStore.source s'))
  /\ coherent (view (cachedStore.cache s')) (obs (cachedStore.source s')).
Proof.
  intros Hops. revert s. induction ops as [|op ops IH]; intros s Hinv Hcoh; [done|].
  apply Forall_cons in Hops as [Hop Hops]. simpl.
  destruct (cached_step op s Hop Hinv Hcoh) as (x & s1 & -> & Ha & Hi1 & Hc1).
  specialize (IH Hops s1 Hi1 Hc1). destruct (run_ops ops s1) as [xs s2].
  destruct IH as [Hr Hc2]. split; [|done]. eauto.
Qed.

(** So a cached store is a record store again, for any client. *)
#[export] Instance cached_spec :
  StoreSpec Store
    (fun s => inv (cachedStore.source s)
      /\ coherent (view (cachedStore.cache s)) (obs (cachedStore.source s)))
    (fun s => obs (cachedStore.source s)) known_cid record_ok meta_ok.
Proof.
  split.
  - intros c. apply known_cid_good.
  - intros s c r [Hi _]. by apply obs_content.
  - intros s c m [Hi _]. by apply obs_metas.
  - intros s op [Hi Hc] Hop. destruct (cached_step op s Hop Hi Hc) as (x & s' & -> & Ha & Hi' & Hc').
    done.
Qed.

(** A delete that runs between the two halves of a pull leaves a stale record.
    When a pull has read the record from the source and a delete of the same
    CID runs before the pull caches what it read, the source no longer has the
    record but the cached store keeps returning it. *)
Theorem pull_delete_race c r (s : Store) :
  known_cid c -> inv (cachedStore.source s) ->
  (obs (cachedStore.source s)).1 !! c = Some r ->
  let '(x, s1) := cachedStore.pull_source (Some {| ref_Cid := c |}) s in
  let '(y, s2) := cachedStore.Delete (Some {| ref_Cid := c |}) s1 in
  let '(_, s3) := cachedStore.pull_finish x s2 in
  y = Ok tt ->
  (obs (cachedStore.source s3)).1 !! c = None
  /\ (cachedStore.Pull (Some {| ref_Cid := c |}) s3).1 = Ok r.
Proof.
  intros Hc Hinv Hr. pose proof (known_cid_good c Hc) as Hg. unfold cachedStore.pull_source, cachedStore.on_source at 1.
  destruct (store_Pull (Some {| ref_Cid := c |}) (cachedStore.source s)) as [x t1] eqn:Hp.
  assert (Hal : (answers x ((obs (cachedStore.source s)).1 !! c)
    /\ obs t1 = obs (cachedStore.source s)) /\ inv t1).
  { apply (run_source (OpPull c) s t1 (ResPull x)); [done|done|]. unfold run_op, bind, ret. by rewrite Hp. }
  destruct Hal as [[Hans Hobs] Hinv1]. rewrite Hr in Hans. simpl in Hans. subst x.
  unfold cachedStore.Delete. simpl (ref_GetCid _).
  destruct (removeFromCache_run c {| cachedStore.source := t1; cachedStore.cache := cachedStore.cache s |} (known_cid_good c Hc))
    as (d1 & Hrun & _). rewrite (bind_run _ _ _ _ _ Hrun). unfold cachedStore.on_source. simpl.
  destruct (store_Delete (Some {| ref_Cid := c |}) t1) as [y t2] eqn:Hdel.
  destruct (obs_content _ _ _ Hinv Hr) as (Hcid & _ & Hok).
  destruct (proto_roundtrip r Hok) as (b & Hm & Hb).
  unfold bind, cachedStore.cacheRecord. rewrite Hcid, Hm, decide_False by (intros Heq; by rewrite Heq in Hg).
  rewrite record_key_eq by done. unfold cachedStore.on_cache. simpl.
  destruct (ds_Put_spec d1 (rkey c) b) as [_ Hv]. destruct (ds_Put (rkey c) b d1) as [z d2]. simpl in Hv.
  intros ->. split.
  - pose proof (run_source (OpDelete c) {| cachedStore.source := t1; cachedStore.cache := d1 |} t2
      (ResDelete (Ok tt)) Hinv1 Hc) as Ha. unfold run_op, bind, ret in Ha. simpl in Ha.
    rewrite Hdel in Ha. destruct (Ha eq_refl) as [Hobs2 _]. simpl in *. rewrite Hobs2. apply lookup_delete_eq.
  - unfold cachedStore.Pull, bind, cachedStore.read_cache. simpl.
    rewrite (proj2 (getRecord_Ok c d2 r Hg)); [done|]. exists b. by rewrite Hv, lookup_insert_eq.
Qed.

End refinement.

(** ** An executable instance: a source that holds at most one record *)

Module DemoCache.
Import MapDatastore DemoCore DemoLocal.

Definition demo_rec : CoreRecord := {| GetData := Some demo_data |}.
Definition demo_id : string := GetCid (Some demo_rec).

#[local] Instance proto : ProtoCodec CoreRecord := {|
  proto_Marshal _ := Ok "r"; proto_Unmarshal _ := Ok demo_rec |}.

#[local] Instance proto_spec : ProtoCodecSpec CoreRecord (fun r => r = demo_rec).
Proof. split. intros a ->. by exists "r". Qed.

#[local] Instance meta_json : JsonCodec RecordMeta := {|
  json_Marshal _ := Ok ""; json_Unmarshal _ := Err (Plain "no metadata") |}.

#[local] Instance meta_json_spec : JsonCodecSpec RecordMeta (fun _ => False).
Proof. by split. Qed.

(** Whether the record is there. *)
#[local] Instance one : StoreAPI bool := {|
  store_Push _ := fun _ => (Ok {| ref_Cid := demo_id |}, true);
  store_Pull ref := fun t =>
    (if t && bool_decide (ref_GetCid ref = demo_id) then Ok demo_rec
     else Err (Status NotFound "record not found"), t);
  store_Lookup _ := fun t => (Err (Status NotFound "record not found"), t);
  store_Delete ref := fun t => (Ok tt, t && negb (bool_decide (ref_GetCid ref = demo_id)));
|}.

Definition one_obs (t : bool) : Observable :=
  (if t then {[ demo_id := demo_rec ]} else ∅, ∅).

#[local] Instance one_spec :
  StoreSpec bool (fun _ => True) one_obs any_cid (fun r => r = demo_rec) (fun _ => False).
Proof.
  split.
  - done.
  - intros [] c r _ Hc; simpl in Hc; [|done]. apply lookup_singleton_Some in Hc as [<- <-].
    split; [done|]. by split; vm_compute.
  - done.
  - intros t op _ Hop. split; [|done]. destruct op as [r|c|c|c]; simpl in *.
    + subst. split; [done|]. split; [|done]. destruct t; [|by rewrite insert_empty].
      simpl. by rewrite insert_singleton_eq.
    + split; [|done]. destruct t; simpl; [|done]. destruct (decide (c = demo_id)) as [->|Hne].
      * by rewrite bool_decide_true, lookup_singleton_eq.
      * by rewrite bool_decide_false, lookup_singleton_ne by done.
    + done.
    + destruct t; simpl; [|by rewrite !delete_empty]. destruct (decide (c = demo_id)) as [->|Hne].
      * rewrite bool_decide_true by done. simpl. by rewrite delete_singleton_eq, delete_empty.
      * rewrite bool_decide_false by done. simpl. by rewrite delete_singleton_ne, delete_empty by done.
Qed.

Definition demo_store0 : cachedStore.Store (T := bool) (D := gmap string string) :=
  {| cachedStore.source := true; cachedStore.cache := ∅ |}.

Lemma demo_coherent : coherent (view (cachedStore.cache demo_store0)) (one_obs true).
Proof. split; intros c v (b & Hb & _); done. Qed.

Definition demo_ops : list store_op :=
  [OpPush demo_rec; OpPull demo_id; OpDelete demo_id; OpPull demo_id].

Lemma cached_store_refines_source_witness :
  let '(xs, s') := run_ops demo_ops demo_store0 in
  allowed_run demo_ops xs (one_obs true) (one_obs (cachedStore.source s'))
  /\ coherent (view (cachedStore.cache s')) (one_obs (cachedStore.source s')).
Proof.
  apply (cached_store_refines_source demo_ops demo_store0).
  - repeat constructor.
  - exact I.
  - exact demo_coherent.
Defined.

Lemma pull_delete_race_witness :
  let '(x, s1) := cachedStore.pull_source (Some {| ref_Cid := demo_id |}) demo_store0 in
  let '(y, s2) := cachedStore.Delete (Some {| ref_Cid := demo_id |}) s1 in
  let '(_, s3) := cachedStore.pull_finish x s2 in
  y = Ok tt -> (one_obs (cachedStore.source s3)).1 !! demo_id = None
  /\ (cachedStore.Pull (Some {| ref_Cid := demo_id |}) s3).1 = Ok demo_rec.
Proof. apply (pull_delete_race demo_id demo_rec demo_store0); first [exact I | reflexivity]. Defined.

End DemoCache.
