(* ===== verification/StoreLocalFS.v ===== *)
(** * The local file-system store

    server/store/localfs/localfs.go: record contents and metadata as files named
    by CID in two directories.  The file system (afero) is outside the
    repository; on a file system that is up the store keeps the promises of
    [StoreSpec]. *)

From S2P Require Import Prelude GoStrings Interfaces Adapters CoreRecord RoutingLocalSpec StoreCache RoutingWorld.

Open Scope string_scope.
Open Scope list_scope.
Open Scope go_scope.

(** ** afero: a directory of files *)

Class Fs (F : Type) := {
  fs_ReadFile : F -> string -> result string;
  fs_TempFile : M F (result string);                       (** the new file's name *)
  fs_Write : string -> string -> M F (result unit);        (** to an open file *)
  fs_Rename : string -> string -> M F (result unit);
  fs_WriteReader : string -> string -> M F (result unit);
  fs_Remove : string -> M F (result unit);
}.

Definition ErrFileNotFound : string := "file does not exist".
Definition ErrFileExists : string := "file already exists".

(** A file system that is up, with its files. *)
Class FsSpec (F : Type) `{Fs F} (files : F -> gmap string string) : Prop := {
  ReadFile_spec f n : match files f !! n with
    | Some b => fs_ReadFile f n = Ok b
    | None => exists e, fs_ReadFile f n = Err e /\ errors_Is e ErrFileNotFound = true
    end;
  TempFile_spec f : exists n f', fs_TempFile f = (Ok n, f') /\ files f !! n = None
    /\ files f' = <[n := ""]> (files f);
  Write_spec f n b : exists f', fs_Write n b f = (Ok tt, f') /\ files f' = <[n := b]> (files f);
  Rename_spec f o n b : files f !! o = Some b ->
    exists f', fs_Rename o n f = (Ok tt, f') /\ files f' = <[n := b]> (delete o (files f));
  WriteReader_spec f n b : exists f', fs_WriteReader n b f = (Ok tt, f')
    /\ files f' = <[n := b]> (files f);
  Remove_spec f n : match files f !! n with
    | Some _ => exists f', fs_Remove n f = (Ok tt, f') /\ files f' = delete n (files f)
    | None => exists e, fs_Remove n f = (Err e, f) /\ errors_Is e ErrFileNotFound = true
    end;
}.

(** ** localfs.go *)

Module localfs.
Section localfs.
Context {F : Type} `{Fs F} `{HashLib} `{!OasfJson} `{!JsonCodec RecordMeta}.

Record store := { metaFs : F; dataFs : F }.

Definition on_meta {A} (c : M F A) : M store A := fun s =>
  let '(a, f) := c (metaFs s) in (a, {| metaFs := f; dataFs := dataFs s |}).

Definition on_data {A} (c : M F A) : M store A := fun s =>
  let '(a, f) := c (dataFs s) in (a, {| metaFs := metaFs s; dataFs := f |}).

Definition Lookup (ref : option RecordRef) : M store (result RecordMeta) := fun s =>
  (match fs_ReadFile (metaFs s) (ref_GetCid ref) with
   | Err e =>
       if errors_Is e ErrFileNotFound then
         Err (Status NotFound ("record not found: " +:+ ref_GetCid ref))
       else Err (internal "failed to read metadata: " e)
   | Ok metadataRaw =>
       match json_Unmarshal metadataRaw with
       | Err e => Err (internal "failed to unmarshal metadata: " e)
       | Ok metadata => Ok metadata
       end
   end, s).

Definition Pull (ref : option RecordRef) : M store (result CoreRecord) := fun s =>
  (match fs_ReadFile (dataFs s) (ref_GetCid ref) with
   | Err e =>
       if errors_Is e ErrFileNotFound then
         Err (Status NotFound ("record not found: " +:+ ref_GetCid ref))
       else Err (internal "failed to read record data: " e)
   | Ok recordData =>
       match UnmarshalOASF recordData with
       | Err e => Err (internal "failed to unmarshal OASF record: " e)
       | Ok record => Ok record
       end
   end, s).

Definition push_meta (recordCID : string) : RecordMeta := {|
  Meta_Cid := recordCID; Meta_Annotations := ∅;
  Meta_SchemaVersion := "v0.3.1"; Meta_CreatedAt := "" |}.

Definition Push (record : option CoreRecord) : M store (result RecordRef) :=
  let recordCID := GetCid record in
  if decide (recordCID = "") then
    ret (Err (Status Internal "failed to calculate CID for record"))
  else
    let recordRef := {| ref_Cid := recordCID |} in
    let! found := Lookup (Some recordRef) in
    match found with
    | Ok _ => ret (Ok recordRef)
    | Err _ =>
        match MarshalOASF record with
        | Err e => ret (Err (internal "failed to marshal record: " e))
        | Ok recordBytes =>
            let? contentsFile := on_data fs_TempFile
              else e => ret (Err (Status FailedPrecondition
                ("failed to create temp file for contents: " +:+ err_string e))) in
            let? _u := on_data (fs_Write contentsFile recordBytes)
              else e => ret (Err (internal "failed to write record contents: " e)) in
            let? _u := on_data (fs_Rename contentsFile recordCID)
              else e => ret (Err (if errors_Is e ErrFileExists
                then Status FailedPrecondition ("file already exists: " +:+ recordCID)
                else internal "failed to rename file: " e)) in
            match json_Marshal (push_meta recordCID) with
            | Err e => ret (Err (internal "failed to marshal metadata: " e))
            | Ok metadataRaw =>
                let? _u := on_meta (fs_WriteReader recordCID metadataRaw)
                  else e => ret (Err (if errors_Is e ErrFileExists
                    then Status FailedPrecondition ("metadata already exists: " +:+ recordCID)
                    else internal "failed to store metadata: " e)) in
                ret (Ok recordRef)
            end
        end
    end.

Definition Delete (ref : option RecordRef) : M store (result unit) :=
  let? _u := on_data (fs_Remove (ref_GetCid ref))
    else e => ret (Err (if errors_Is e ErrFileNotFound
      then Status NotFound ("record not found: " +:+ ref_GetCid ref)
      else internal "failed to remove contents: " e)) in
  let? _u := on_meta (fs_Remove (ref_GetCid ref))
    else e => ret (Err (if errors_Is e ErrFileNotFound
      then Status NotFound ("metadata not found: " +:+ ref_GetCid ref)
      else internal "failed to remove metadata: " e)) in
  ret (Ok tt).

#[export] Instance api : StoreAPI store := {|
  store_Push := Push; store_Pull := Pull; store_Lookup := Lookup; store_Delete := Delete;
|}.

End localfs.
End localfs.

#[export] Existing Instance localfs.api.
Arguments localfs.metaFs {_}. Arguments localfs.dataFs {_}.
Arguments GetCid : simpl never.
Arguments MarshalOASF : simpl never.
Arguments UnmarshalOASF : simpl never.

(** ** The store keeps the promises of a record store *)

Section promises.
Context {F : Type} `{Hfs : !Fs F} {files : F -> gmap string string} `{!FsSpec F files}.
Context `{HashLib} `{!OasfJson} `{!JsonCodec RecordMeta}.
(** The records considered: their canonical bytes read back, their CIDs are path
    components, and no two of them share a CID. *)
Context {record_ok : CoreRecord -> Prop}
  (record_bytes : forall r, record_ok r ->
     exists b, MarshalOASF (Some r) = Ok b /\ UnmarshalOASF b = Ok r)
  (record_cid : forall r, record_ok r -> good_elem (GetCid (Some r)) = true)
  (collision_free : forall r r', record_ok r -> record_ok r' ->
     GetCid (Some r) = GetCid (Some r') -> r = r').
Context {meta_ok : RecordMeta -> Prop} `{!JsonCodecSpec RecordMeta meta_ok}
  (push_meta_ok : forall c, good_elem c = true -> meta_ok (localfs.push_meta c)).
Notation store := (localfs.store (F := F)).

Definition decode_record (b : string) : option CoreRecord :=
  match UnmarshalOASF b with Ok r => Some r | Err _ => None end.
Definition decode_meta (b : string) : option RecordMeta :=
  match json_Unmarshal b with Ok m => Some m | Err _ => None end.

Definition fs_obs (s : store) : Observable :=
  (omap decode_record (files (localfs.dataFs s)), omap decode_meta (files (localfs.metaFs s))).

(** Every file holds the record or the metadata its name stands for, and the two
    directories have the same names. *)
Record fs_inv (s : store) : Prop := {
  inv_data c b : files (localfs.dataFs s) !! c = Some b -> good_elem c = true /\
    exists r, UnmarshalOASF b = Ok r /\ record_ok r /\ GetCid (Some r) = c;
  inv_meta c b : files (localfs.metaFs s) !! c = Some b ->
    exists m, json_Unmarshal b = Ok m /\ meta_ok m /\ Meta_Cid m = c;
  inv_names c : is_Some (files (localfs.metaFs s) !! c) <-> is_Some (files (localfs.dataFs s) !! c);
}.

Lemma obs_data s c : (fs_obs s).1 !! c = files (localfs.dataFs s) !! c ≫= decode_record.
Proof. apply lookup_omap. Qed.
Lemma obs_meta s c : (fs_obs s).2 !! c = files (localfs.metaFs s) !! c ≫= decode_meta.
Proof. apply lookup_omap. Qed.

Lemma Pull_answers s c :
  answers (localfs.Pull (Some {| ref_Cid := c |}) s).1 ((fs_obs s).1 !! c)
  /\ (localfs.Pull (Some {| ref_Cid := c |}) s).2 = s.
Proof.
  split; [|done]. rewrite obs_data. unfold localfs.Pull. simpl.
  pose proof (ReadFile_spec (localfs.dataFs s) c) as Hr.
  destruct (files (localfs.dataFs s) !! c) as [b|]; simpl.
  - rewrite Hr. unfold decode_record. by destruct (UnmarshalOASF b).
  - destruct Hr as (e & -> & ->). done.
Qed.

Lemma Lookup_answers s c :
  answers (localfs.Lookup (Some {| ref_Cid := c |}) s).1 ((fs_obs s).2 !! c)
  /\ (localfs.Lookup (Some {| ref_Cid := c |}) s).2 = s.
Proof.
  split; [|done]. rewrite obs_meta. unfold localfs.Lookup. simpl.
  pose proof (ReadFile_spec (localfs.metaFs s) c) as Hr.
  destruct (files (localfs.metaFs s) !! c) as [b|]; simpl.
  - rewrite Hr. unfold decode_meta. by destruct (json_Unmarshal b).
  - destruct Hr as (e & -> & ->). done.
Qed.

(** What is found is the record that was pushed. *)
Lemma found_is_pushed s r m :
  fs_inv s -> record_ok r -> (fs_obs s).2 !! GetCid (Some r) = Some m ->
  (fs_obs s).1 !! GetCid (Some r) = Some r.
Proof.
  intros Hinv Hok Hm. rewrite obs_meta in Hm. apply bind_Some in Hm as (mb & Hm & _).
  destruct (proj1 (inv_names _ Hinv _) (mk_is_Some _ _ Hm)) as [b Hb].
  destruct (inv_data _ Hinv _ _ Hb) as (_ & r' & Hu & Hok' & Hcid).
  rewrite obs_data, Hb. simpl. unfold decode_record. rewrite Hu.
  f_equal. by apply collision_free.
Qed.

Lemma not_found_absent s c e :
  fs_inv s -> (localfs.Lookup (Some {| ref_Cid := c |}) s).1 = Err e ->
  files (localfs.metaFs s) !! c = None /\ files (localfs.dataFs s) !! c = None.
Proof.
  intros Hinv Hl.
  assert (Hm : files (localfs.metaFs s) !! c = None).
  { destruct (files (localfs.metaFs s) !! c) as [mb|] eqn:Hm; [|done].
    destruct (inv_meta _ Hinv _ _ Hm) as (m & Hu & _). pose proof (Lookup_answers s c) as [Ha _].
    rewrite Hl, obs_meta, Hm in Ha. simpl in Ha. unfold decode_meta in Ha. by rewrite Hu in Ha. }
  split; [done|]. apply eq_None_not_Some. rewrite <- (inv_names _ Hinv), Hm. by intros [].
Qed.

(** A push that stores: the new files and the invariant. *)
Lemma push_stores s r :
  fs_inv s -> record_ok r -> (exists e, (localfs.Lookup (Some {| ref_Cid := GetCid (Some r) |}) s).1 = Err e) ->
  exists s' b mb, localfs.Push (Some r) s = (Ok {| ref_Cid := GetCid (Some r) |}, s')
    /\ files (localfs.dataFs s') = <[GetCid (Some r) := b]> (files (localfs.dataFs s))
    /\ files (localfs.metaFs s') = <[GetCid (Some r) := mb]> (files (localfs.metaFs s))
    /\ UnmarshalOASF b = Ok r /\ json_Unmarshal mb = Ok (localfs.push_meta (GetCid (Some r))).
Proof.
  intros Hinv Hok [e Hl]. pose proof (record_cid r Hok) as Hc. destruct (record_bytes r Hok) as (b & Hb & Hu).
  unfold localfs.Push. rewrite decide_False by (intros Heq; by rewrite Heq in Hc).
  rewrite (bind_run _ _ s (Err e) s); [|by rewrite <- Hl; apply surjective_pairing].
  rewrite Hb. destruct (TempFile_spec (localfs.dataFs s)) as (tmp & f1 & Ht & Hnew & Hf1).
  erewrite try_bind_ok by (unfold localfs.on_data; by rewrite Ht).
  destruct (Write_spec f1 tmp b) as (f2 & Hw & Hf2).
  erewrite try_bind_ok by (unfold localfs.on_data; simpl; by rewrite Hw).
  destruct (Rename_spec f2 tmp (GetCid (Some r)) b) as (f3 & Hr & Hf3); [by rewrite Hf2, lookup_insert_eq|].
  erewrite try_bind_ok by (unfold localfs.on_data; simpl; by rewrite Hr).
  destruct (json_roundtrip _ (push_meta_ok _ Hc)) as (mb & Hmb & Hmu). rewrite Hmb.
  destruct (WriteReader_spec (localfs.metaFs s) (GetCid (Some r)) mb) as (f4 & Hwr & Hf4).
  erewrite try_bind_ok by (unfold localfs.on_meta; simpl; by rewrite Hwr).
  eexists _, b, mb. split; [done|]. simpl. rewrite Hf4, Hf3, Hf2, Hf1.
  by rewrite insert_insert_eq, delete_insert_id by done.
Qed.

Lemma fs_Delete_run s c :
  fs_inv s -> exists x s', localfs.Delete (Some {| ref_Cid := c |}) s = (x, s')
    /\ match x with
       | Ok _ => files (localfs.dataFs s') = delete c (files (localfs.dataFs s))
           /\ files (localfs.metaFs s') = delete c (files (localfs.metaFs s))
           /\ is_Some (files (localfs.dataFs s) !! c)
       | Err e => s' = s /\ err_code e = Some NotFound /\ files (localfs.dataFs s) !! c = None
       end.
Proof.
  intros Hinv. unfold localfs.Delete. simpl (ref_GetCid _).
  pose proof (Remove_spec (localfs.dataFs s) c) as Hd. pose proof (Remove_spec (localfs.metaFs s) c) as Hm.
  pose proof (inv_names _ Hinv c) as Hn. destruct (files (localfs.dataFs s) !! c) as [b|] eqn:Hb.
  - destruct (proj2 Hn (mk_is_Some _ _ eq_refl)) as [mb Hmb]. rewrite Hmb in Hm.
    destruct Hd as (f1 & Hd & Hf1), Hm as (f2 & Hm & Hf2).
    erewrite try_bind_ok by (unfold localfs.on_data; by rewrite Hd).
    erewrite try_bind_ok by (unfold localfs.on_meta; simpl; by rewrite Hm).
    eexists (Ok tt), _. split; [done|]. simpl. rewrite Hf1, Hf2. eauto.
  - destruct Hd as (e & Hd & He).
    erewrite try_bind_err by (unfold localfs.on_data; by rewrite Hd). rewrite He.
    eexists (Err _), _. split; [done|]. by destruct s.
Qed.

Lemma fs_inv_delete s s' c :
  fs_inv s -> files (localfs.dataFs s') = delete c (files (localfs.dataFs s)) ->
  files (localfs.metaFs s') = delete c (files (localfs.metaFs s)) -> fs_inv s'.
Proof.
  intros Hinv Hd Hm. split; rewrite ?Hd, ?Hm.
  - intros c' b [_ Hb]%lookup_delete_Some. by apply (inv_data _ Hinv).
  - intros c' b [_ Hb]%lookup_delete_Some. by apply (inv_meta _ Hinv).
  - intros c'. rewrite !lookup_delete_is_Some. by rewrite (inv_names _ Hinv).
Qed.

Lemma fs_inv_insert s s' c b mb r m :
  fs_inv s -> files (localfs.dataFs s') = <[c := b]> (files (localfs.dataFs s)) ->
  files (localfs.metaFs s') = <[c := mb]> (files (localfs.metaFs s)) ->
  good_elem c = true -> UnmarshalOASF b = Ok r -> record_ok r -> GetCid (Some r) = c ->
  json_Unmarshal mb = Ok m -> meta_ok m -> Meta_Cid m = c -> fs_inv s'.
Proof.
  intros Hinv Hd Hm Hc Hu Hok Hcid Hmu Hmok Hmc. split; rewrite ?Hd, ?Hm.
  - intros c' b' [[<- <-]|[_ Hb]]%lookup_insert_Some; [by eauto|]. by apply (inv_data _ Hinv).
  - intros c' b' [[<- <-]|[_ Hb]]%lookup_insert_Some; [by eauto|]. by apply (inv_meta _ Hinv).
  - intros c'. rewrite !lookup_insert_is_Some. by rewrite (inv_names _ Hinv).
Qed.

Lemma Push_allowed s r :
  fs_inv s -> record_ok r ->
  exists x s', localfs.Push (Some r) s = (x, s')
    /\ allowed (OpPush r) (ResPush x) (fs_obs s) (fs_obs s') /\ fs_inv s'.
Proof.
  intros Hinv Hok. pose proof (record_cid r Hok) as Hc.
  destruct (localfs.Lookup (Some {| ref_Cid := GetCid (Some r) |}) s) as [[m|e] s1] eqn:Hl.
  - assert (s1 = s) as -> by by injection Hl.
    exists (Ok {| ref_Cid := GetCid (Some r) |}), s. split.
    { unfold localfs.Push. rewrite decide_False by (intros Heq; by rewrite Heq in Hc).
      by rewrite (bind_run _ _ _ _ _ Hl). }
    split; [|done]. simpl. split; [done|]. split; [|done]. symmetry. apply insert_id.
    pose proof (Lookup_answers s (GetCid (Some r))) as [Ha _]. rewrite Hl in Ha.
    destruct ((fs_obs s).2 !! GetCid (Some r)) as [m'|] eqn:Hm; [|done].
    by eapply found_is_pushed.
  - destruct (not_found_absent s (GetCid (Some r)) e Hinv) as [Hm Hd]; [by rewrite Hl|].
    destruct (push_stores s r Hinv Hok) as (s' & b & mb & Hrun & Hfd & Hfm & Hu & Hmu).
    { exists e. by rewrite Hl. }
    exists (Ok {| ref_Cid := GetCid (Some r) |}), s'. split; [done|]. split.
    + simpl. rewrite Hfd, Hfm. split; [done|]. split; [|split].
      * apply omap_insert_Some. unfold decode_record. by rewrite Hu.
      * intros c Hne. rewrite !lookup_omap. by rewrite lookup_insert_ne.
      * intros m. by rewrite lookup_omap, Hm.
    + eapply (fs_inv_insert s s'); eauto.
Qed.

(** C24. The file-system store is a record store.  On a file system that is up,
    for records that read back and whose CIDs do not collide: the answers and
    changes of every operation are those [StoreSpec] allows, and every operation
    keeps the two directories in step, each file holding what its name stands
    for.  Deleting a CID without a record gives NotFound and changes nothing. *)
Theorem localfs_is_record_store :
  StoreSpec store fs_inv fs_obs any_cid record_ok meta_ok /\
  forall s c, fs_inv s -> (fs_obs s).1 !! c = None ->
    exists e, localfs.Delete (Some {| ref_Cid := c |}) s = (Err e, s) /\ err_code e = Some NotFound.
Proof.
  split; [split|].
  - done.
  - intros s c r Hinv Hc. rewrite obs_data in Hc. apply bind_Some in Hc as (b & Hb & Hd).
    destruct (inv_data _ Hinv _ _ Hb) as (Hg & r' & Hu & Hok & Hcid).
    unfold decode_record in Hd. rewrite Hu in Hd. by simplify_eq.
  - intros s c m Hinv Hc. rewrite obs_meta in Hc. apply bind_Some in Hc as (b & Hb & Hd).
    destruct (proj1 (inv_names _ Hinv _) (mk_is_Some _ _ Hb)) as [b' Hb'].
    destruct (inv_data _ Hinv _ _ Hb') as (Hg & _).
    destruct (inv_meta _ Hinv _ _ Hb) as (m' & Hu & Hok & Hcid).
    unfold decode_meta in Hd. rewrite Hu in Hd. by simplify_eq.
  - intros s op Hinv Hop. destruct op as [r|c|c|c]; unfold run_op, bind.
    + destruct (Push_allowed s r Hinv Hop) as (x & s' & Hrun & Ha).
      change (store_Push (Some r) s) with (localfs.Push (Some r) s). by rewrite Hrun.
    + pose proof (Pull_answers s c) as [Ha _]. by simpl in *.
    + pose proof (Lookup_answers s c) as [Ha _]. by simpl in *.
    + destruct (fs_Delete_run s c Hinv) as (x & s' & Hrun & Hx).
      change (store_Delete (Some {| ref_Cid := c |}) s) with (localfs.Delete (Some {| ref_Cid := c |}) s).
      rewrite Hrun. simpl. destruct x as [[]|e].
      * destruct Hx as (Hd & Hm & _). split; [|by eapply fs_inv_delete].
        unfold fs_obs. by rewrite Hd, Hm, !omap_delete.
      * destruct Hx as [-> _]. done.
  - intros s c Hinv Hc. destruct (fs_Delete_run s c Hinv) as (x & s' & Hrun & Hx).
    destruct x as [[]|e]; [|destruct Hx as (-> & He & _); eauto].
    exfalso. destruct Hx as (_ & _ & [b Hb]). rewrite obs_data, Hb in Hc. simpl in Hc.
    destruct (inv_data _ Hinv _ _ Hb) as (_ & r & Hu & _). unfold decode_record in Hc. by rewrite Hu in Hc.
Qed.

End promises.

(** ** An executable instance: a directory is a finite map *)

Module DemoFs.
Import DemoCore StoreCache.DemoCache.

Notation Dir := (gmap string string) (only parsing).
Definition files (f : Dir) : gmap string string := f.

Definition temp_name (f : Dir) : string := fresh (dom f : gset string).

#[local] Instance dir_fs : Fs Dir := {|
  fs_ReadFile f n := match f !! n with Some b => Ok b | None => Err (Sentinel ErrFileNotFound) end;
  fs_TempFile := fun f => (Ok (temp_name f), <[temp_name f := ""]> f);
  fs_Write n b := fun f => (Ok tt, <[n := b]> f);
  fs_Rename o n := fun f => match f !! o with
    | Some b => (Ok tt, <[n := b]> (delete o f))
    | None => (Err (Sentinel ErrFileNotFound), f)
    end;
  fs_WriteReader n b := fun f => (Ok tt, <[n := b]> f);
  fs_Remove n := fun f => match f !! n with
    | Some _ => (Ok tt, delete n f)
    | None => (Err (Sentinel ErrFileNotFound), f)
    end;
|}.

#[local] Instance dir_fs_spec : FsSpec Dir files.
Proof.
  split; unfold files; simpl.
  - intros f n. destruct (f !! n); [done|]. by exists (Sentinel ErrFileNotFound).
  - intros f. eexists (temp_name f), _. split; [reflexivity|]. split; [|reflexivity].
    apply (not_elem_of_dom (D := gset string)). exact (is_fresh (dom f : gset string)).
  - eauto.
  - intros f o n b ->. eauto.
  - eauto.
  - intros f n. destruct (f !! n); [eauto|]. by exists (Sentinel ErrFileNotFound).
Qed.

#[local] Instance RecordMeta_countable : Countable RecordMeta.
Proof.
  refine (inj_countable'
    (fun m => (Meta_Cid m, Meta_Annotations m, Meta_SchemaVersion m, Meta_CreatedAt m))
    (fun '(a, b, c, d) => {| Meta_Cid := a; Meta_Annotations := b;
       Meta_SchemaVersion := c; Meta_CreatedAt := d |}) _). by intros [].
Defined.

#[local] Instance meta_codec : JsonCodec RecordMeta := BinaryCodec.codec RecordMeta.
#[local] Instance meta_codec_spec : JsonCodecSpec RecordMeta (fun _ => True) :=
  BinaryCodec.codec_spec RecordMeta.

Lemma demo_bytes r : r = demo_rec ->
  exists b, MarshalOASF (Some r) = Ok b /\ UnmarshalOASF b = Ok r.
Proof. intros ->. by apply (Unmarshal_Marshal demo_data). Qed.

Lemma demo_good r : r = demo_rec -> good_elem (GetCid (Some r)) = true.
Proof. intros ->. by vm_compute. Qed.

Lemma localfs_is_record_store_witness :
  StoreSpec (localfs.store (F := Dir)) (fs_inv (files := files) (record_ok := fun r => r = demo_rec)
      (meta_ok := fun _ => True)) (fs_obs (files := files)) any_cid (fun r => r = demo_rec) (fun _ => True).
Proof.
  refine (proj1 (localfs_is_record_store (files := files) demo_bytes demo_good _ _)).
  - intros r r' -> -> _. reflexivity.
  - intros c _. exact I.
Defined.

End DemoFs.
