(* ===== verification/OciAnnotations.v ===== *)
(** * Manifest annotations of the OCI store

    server/store/oci/annotations.go and constants.go: what of a record is
    written into the annotations of its manifest, and the metadata that is read
    back from them. *)

From stdpp Require Import pretty.
From S2P Require Import Prelude GoStrings Interfaces Adapters CoreRecord.

Open Scope string_scope.
Open Scope list_scope.

(** ** Keys (constants.go) *)

Definition manifestDirObjectKeyPrefix : string := "org.agntcy.dir".
Definition manifestDirObjectTypeKey : string := manifestDirObjectKeyPrefix +:+ "/type".

Definition MetadataKeyName : string := "name".
Definition MetadataKeyVersion : string := "version".
Definition MetadataKeyDescription : string := "description".
Definition MetadataKeyOASFVersion : string := "oasf-version".
Definition MetadataKeyCid : string := "cid".
Definition MetadataKeySchemaVersion : string := "schema-version".
Definition MetadataKeyCreatedAt : string := "created-at".
Definition MetadataKeyAuthors : string := "authors".
Definition MetadataKeySkills : string := "skills".
Definition MetadataKeyLocatorTypes : string := "locator-types".
Definition MetadataKeyExtensionNames : string := "extension-names".
Definition MetadataKeySigned : string := "signed".
Definition MetadataKeySignatureAlgo : string := "signature-algorithm".
Definition MetadataKeySignedAt : string := "signed-at".
Definition MetadataKeyPreviousCid : string := "previous-cid".
Definition MetadataKeyAuthorsCount : string := "authors-count".
Definition MetadataKeySkillsCount : string := "skills-count".
Definition MetadataKeyLocatorTypesCount : string := "locator-types-count".
Definition MetadataKeyExtensionCount : string := "extension-names-count".

(** The manifest key derived from a metadata key. *)
Definition manifest_key (metadataKey : string) : string :=
  manifestDirObjectKeyPrefix +:+ "/" +:+ metadataKey.

Definition ManifestKeyName : string := manifest_key MetadataKeyName.
Definition ManifestKeyVersion : string := manifest_key MetadataKeyVersion.
Definition ManifestKeyDescription : string := manifest_key MetadataKeyDescription.
Definition ManifestKeyOASFVersion : string := manifest_key MetadataKeyOASFVersion.
Definition ManifestKeyCid : string := manifest_key MetadataKeyCid.
Definition ManifestKeySchemaVersion : string := manifest_key MetadataKeySchemaVersion.
Definition ManifestKeyCreatedAt : string := manifest_key MetadataKeyCreatedAt.
Definition ManifestKeyAuthors : string := manifest_key MetadataKeyAuthors.
Definition ManifestKeySkills : string := manifest_key MetadataKeySkills.
Definition ManifestKeyLocatorTypes : string := manifest_key MetadataKeyLocatorTypes.
Definition ManifestKeyExtensionNames : string := manifest_key MetadataKeyExtensionNames.
Definition ManifestKeySigned : string := manifest_key MetadataKeySigned.
Definition ManifestKeySignatureAlgo : string := manifest_key MetadataKeySignatureAlgo.
Definition ManifestKeySignedAt : string := manifest_key MetadataKeySignedAt.
Definition ManifestKeyPreviousCid : string := manifest_key MetadataKeyPreviousCid.
Definition ManifestKeyCustomPrefix : string := manifestDirObjectKeyPrefix +:+ "/custom.".

(** ** Go maps of strings *)

Notation Annotations := (gmap string string) (only parsing).

(** [m[k]]: the zero value for a missing key. *)
Definition get (m : Annotations) (k : string) : string := default "" (m !! k).

(** [if v := e; v != "" { m[k] = v }]. *)
Definition set_if (v k : string) (m : Annotations) : Annotations :=
  if decide (v = "") then m else <[k := v]> m.

(** ** Writing *)

Definition oasf_version (record : CoreRecord) (annotations : Annotations) : Annotations :=
  match GetData record with
  | Some (Record_V1 _) => <[ManifestKeyOASFVersion := "v0.3.1"]> annotations
  | Some (Record_V2 _) => <[ManifestKeyOASFVersion := "v0.4.0"]> annotations
  | Some (Record_V3 _) => <[ManifestKeyOASFVersion := "v0.5.0"]> annotations
  | None => annotations
  end.

(** [if l := e; len(l) > 0 { m[k] = strings.Join(l, ",") }]. *)
Definition set_joined (l : list string) (k : string) (m : Annotations) : Annotations :=
  match l with [] => m | _ => <[k := Join l ","]> m end.

Definition signature_annotations (signature : option Signature) (annotations : Annotations)
  : Annotations :=
  match signature with
  | Some signature =>
      let annotations := <[ManifestKeySigned := "true"]> annotations in
      let annotations := set_if (GetAlgorithm signature) ManifestKeySignatureAlgo annotations in
      set_if (GetSignedAt signature) ManifestKeySignedAt annotations
  | None => <[ManifestKeySigned := "false"]> annotations
  end.

(** The loop over the custom annotations, in the order of the iteration. *)
Definition custom_annotations (custom : list (string * string)) (annotations : Annotations)
  : Annotations :=
  foldl (fun m '(key, value) => <[ManifestKeyCustomPrefix +:+ key := value]> m) annotations custom.

Definition extractManifestAnnotations (record : CoreRecord) : Annotations :=
  let annotations := <[manifestDirObjectTypeKey := "record"]> ∅ in
  match GetRecordData record with
  | None => annotations
  | Some recordData =>
      let annotations := oasf_version record annotations in
      let annotations := set_if (GetName recordData) ManifestKeyName annotations in
      let annotations := set_if (GetVersion recordData) ManifestKeyVersion annotations in
      let annotations := set_if (GetDescription recordData) ManifestKeyDescription annotations in
      let annotations := set_if (GetSchemaVersion recordData) ManifestKeySchemaVersion annotations in
      let annotations := set_if (GetCreatedAt recordData) ManifestKeyCreatedAt annotations in
      let annotations := set_joined (GetAuthors recordData) ManifestKeyAuthors annotations in
      let annotations := set_joined (Skill_GetName <$> GetSkills recordData)
                           ManifestKeySkills annotations in
      let annotations := set_joined (Loc_GetType <$> GetLocators recordData)
                           ManifestKeyLocatorTypes annotations in
      let annotations := set_joined (Ext_GetName <$> GetExtensions recordData)
                           ManifestKeyExtensionNames annotations in
      let annotations := signature_annotations (RD_GetSignature recordData) annotations in
      let annotations := set_if (GetPreviousRecordCid recordData) ManifestKeyPreviousCid annotations in
      custom_annotations (map_to_list (GetAnnotations recordData)) annotations
  end.

(** ** Reading *)

(** [nil] and the empty slice are both the empty list. *)
Definition parseCommaSeparated (value : string) : list string :=
  if decide (value = "") then []
  else filter (fun trimmed => trimmed <> "") (TrimSpace <$> Split "," value).

(** [if l := annotations[k]; l != "" { the list and its length }]. *)
Definition list_metadata (annotations : Annotations) (k key count_key : string) (meta : Annotations)
  : Annotations :=
  let l := get annotations k in
  if decide (l = "") then meta
  else <[count_key := pretty (Z.of_nat (length (parseCommaSeparated l)))]> (<[key := l]> meta).

Definition signed_metadata (annotations : Annotations) (meta : Annotations) : Annotations :=
  let signedStr := get annotations ManifestKeySigned in
  if decide (signedStr = "") then meta
  else
    let meta := <[MetadataKeySigned := signedStr]> meta in
    if decide (signedStr = "true") then
      let meta := set_if (get annotations ManifestKeySignatureAlgo) MetadataKeySignatureAlgo meta in
      set_if (get annotations ManifestKeySignedAt) MetadataKeySignedAt meta
    else meta.

(** The loop over all annotations, in the order of the iteration. *)
Definition custom_metadata (annotations : list (string * string)) (meta : Annotations) : Annotations :=
  foldl (fun m '(key, value) =>
    if HasPrefix key ManifestKeyCustomPrefix
    then <[TrimPrefix key ManifestKeyCustomPrefix := value]> m else m) meta annotations.

(** A nil map reads as the empty one. *)
Definition parseManifestAnnotations (annotations : Annotations) : RecordMeta :=
  let schemaVersion := get annotations ManifestKeySchemaVersion in
  let meta := ∅ in
  let meta := set_if (get annotations ManifestKeyName) MetadataKeyName meta in
  let meta := set_if (get annotations ManifestKeyVersion) MetadataKeyVersion meta in
  let meta := set_if (get annotations ManifestKeyDescription) MetadataKeyDescription meta in
  let meta := set_if (get annotations ManifestKeyOASFVersion) MetadataKeyOASFVersion meta in
  let meta := list_metadata annotations ManifestKeyAuthors MetadataKeyAuthors
                MetadataKeyAuthorsCount meta in
  let meta := list_metadata annotations ManifestKeySkills MetadataKeySkills
                MetadataKeySkillsCount meta in
  let meta := list_metadata annotations ManifestKeyLocatorTypes MetadataKeyLocatorTypes
                MetadataKeyLocatorTypesCount meta in
  let meta := list_metadata annotations ManifestKeyExtensionNames MetadataKeyExtensionNames
                MetadataKeyExtensionCount meta in
  let meta := signed_metadata annotations meta in
  let meta := set_if (get annotations ManifestKeyPreviousCid) MetadataKeyPreviousCid meta in
  let meta := custom_metadata (map_to_list annotations) meta in
  {| Meta_Cid := "";
     Meta_Annotations := meta;
     Meta_SchemaVersion := if decide (schemaVersion = "") then "v0.3.1" else schemaVersion;
     Meta_CreatedAt := get annotations ManifestKeyCreatedAt |}.

(** ** What the metadata shows of a record *)

(** The entries of the metadata by their keys, empty where there is none. *)
Definition count_of (l : list string) : string :=
  if decide (Join l "," = "") then ""
  else pretty (Z.of_nat (length (parseCommaSeparated (Join l ",")))).

Definition fields (r : CoreRecord) (rd : RecordData) : list (string * string) :=
  let version := match GetData r with Some d => wrapper_version d | None => "" end in
  let skills := Skill_GetName <$> GetSkills rd in
  let locators := Loc_GetType <$> GetLocators rd in
  let extensions := Ext_GetName <$> GetExtensions rd in
  let algorithm := match RD_GetSignature rd with Some s => GetAlgorithm s | None => "" end in
  let signed_at := match RD_GetSignature rd with Some s => GetSignedAt s | None => "" end in
  let signed := match RD_GetSignature rd with Some _ => "true" | None => "false" end in
  [("name", GetName rd); ("version", GetVersion rd); ("description", GetDescription rd);
   ("oasf-version", version);
   ("authors", Join (GetAuthors rd) ","); ("authors-count", count_of (GetAuthors rd));
   ("skills", Join skills ","); ("skills-count", count_of skills);
   ("locator-types", Join locators ","); ("locator-types-count", count_of locators);
   ("extension-names", Join extensions ","); ("extension-names-count", count_of extensions);
   ("signed", signed); ("signature-algorithm", algorithm); ("signed-at", signed_at);
   ("previous-cid", GetPreviousRecordCid rd)].

Definition metadata_of (r : CoreRecord) (rd : RecordData) : Annotations :=
  list_to_map (filter (fun kv => kv.2 <> "") (fields r rd)).

(** Annotations that agree with those of a record on the directory's own keys,
    but for the CID, which the store adds. *)
Definition keeps (a e : Annotations) : Prop :=
  forall k, HasPrefix k (manifestDirObjectKeyPrefix +:+ "/") = true -> k <> ManifestKeyCid ->
    a !! k = e !! k.

(** *** Single entries *)

Lemma get_set_if_eq v k m : get m k = "" -> get (set_if v k m) k = v.
Proof.
  unfold set_if. case_decide as Hv; [by intros ->|]. intros _. unfold get. by rewrite lookup_insert_eq.
Qed.

Lemma get_insert_eq v k m : get (<[k := v]> m) k = v.
Proof. unfold get. by rewrite lookup_insert_eq. Qed.

Lemma get_insert_ne v k k' m : k <> k' -> get (<[k := v]> m) k' = get m k'.
Proof. intros. unfold get. by rewrite lookup_insert_ne. Qed.

Lemma get_set_if_ne v k k' m : k <> k' -> get (set_if v k m) k' = get m k'.
Proof. intros. unfold set_if. case_decide; [done|]. by apply get_insert_ne. Qed.

Lemma set_joined_if l k m : get m k = "" -> get (set_joined l k m) k = Join l ",".
Proof. destruct l; [done|]. intros _. apply get_insert_eq. Qed.

Lemma get_joined_ne l k k' m : k <> k' -> get (set_joined l k m) k' = get m k'.
Proof. intros. destruct l; [done|]. by apply get_insert_ne. Qed.

Lemma get_oasf_version_eq r m :
  get m ManifestKeyOASFVersion = "" ->
  get (oasf_version r m) ManifestKeyOASFVersion
  = match GetData r with Some d => wrapper_version d | None => "" end.
Proof. unfold oasf_version. destruct (GetData r) as [[]|]; intros; rewrite ?get_insert_eq; done. Qed.

Lemma get_oasf_version_ne r k m :
  ManifestKeyOASFVersion <> k -> get (oasf_version r m) k = get m k.
Proof. intros. unfold oasf_version. repeat case_match; by rewrite ?get_insert_ne. Qed.

Lemma lookup_custom l k m :
  HasPrefix k ManifestKeyCustomPrefix = false -> custom_annotations l m !! k = m !! k.
Proof.
  intros Hk. revert m. induction l as [|[key v] l IH]; intros m; [done|]. simpl.
  rewrite IH, lookup_insert_ne; [done|]. intros <-. by rewrite HasPrefix_app in Hk.
Qed.

(** Custom annotations of a record are under their prefixed keys. *)
Lemma lookup_custom_key l k m :
  NoDup l.*1 -> m !! (ManifestKeyCustomPrefix +:+ k) = None ->
  custom_annotations l m !! (ManifestKeyCustomPrefix +:+ k) = list_to_map (M := Annotations) l !! k.
Proof.
  revert m. induction l as [|[key v] l IH]; intros m; [done|]. simpl. intros [Hx Hl]%NoDup_cons Hm.
  destruct (decide (key = k)) as [->|Hne].
  - rewrite lookup_insert_eq. clear IH Hm.
    assert (Hk : forall m, custom_annotations l m !! (ManifestKeyCustomPrefix +:+ k)
      = m !! (ManifestKeyCustomPrefix +:+ k)); [|by rewrite Hk, lookup_insert_eq].
    clear Hl. induction l as [|[key v'] l IH]; intros m'; [done|]. simpl in *.
    apply not_elem_of_cons in Hx as [Hne Hx]. rewrite IH by done.
    rewrite lookup_insert_ne; [done|]. by intros ?%append_inj_l.
  - rewrite lookup_insert_ne by done. apply IH; [done|].
    rewrite lookup_insert_ne; [done|]. by intros ?%append_inj_l.
Qed.

(** The loop that reads custom annotations back. *)
Lemma lookup_custom_metadata (l : list (string * string)) k m :
  NoDup l.*1 ->
  custom_metadata l m !! k
  = match list_to_map (M := Annotations) l !! (ManifestKeyCustomPrefix +:+ k) with
    | Some v => Some v | None => m !! k end.
Proof.
  revert m. induction l as [|[key v] l IH]; intros m; [done|].
  cbn [fmap list_fmap fst]. intros [Hx Hl]%NoDup_cons.
  change (custom_metadata ((key, v) :: l) m) with (custom_metadata l
    (if HasPrefix key ManifestKeyCustomPrefix
     then <[TrimPrefix key ManifestKeyCustomPrefix := v]> m else m)).
  rewrite IH by done. cbn [list_to_map foldr uncurry].
  destruct (decide (key = ManifestKeyCustomPrefix +:+ k)) as [->|Hne].
  - rewrite lookup_insert_eq.
    rewrite not_elem_of_list_to_map_1 by done.
    by rewrite HasPrefix_app, TrimPrefix_app, lookup_insert_eq.
  - rewrite lookup_insert_ne by done. case_match; [done|].
    destruct (HasPrefix key ManifestKeyCustomPrefix) eqn:Hp; [|done].
    apply HasPrefix_true in Hp as [k' ->]. rewrite TrimPrefix_app, lookup_insert_ne; [done|]. congruence.
Qed.

(** *** All entries *)

(** The entry of one key through the writing of the others. *)
#[local] Ltac decided := vm_compute; done.
#[local] Ltac annot :=
  repeat first
    [ rewrite get_set_if_ne by decided
    | rewrite get_joined_ne by decided
    | rewrite get_oasf_version_ne by decided
    | rewrite get_insert_ne by decided
    | rewrite get_set_if_eq | rewrite set_joined_if | rewrite get_oasf_version_eq
    | rewrite get_insert_eq ]; try done.

Lemma get_signature_ne s k m :
  ManifestKeySigned <> k -> ManifestKeySignatureAlgo <> k -> ManifestKeySignedAt <> k ->
  get (signature_annotations s m) k = get m k.
Proof.
  intros. destruct s; simpl; rewrite ?get_set_if_ne, ?get_insert_ne by done; done.
Qed.

Lemma get_signature s m :
  get m ManifestKeySignatureAlgo = "" -> get m ManifestKeySignedAt = "" ->
  get (signature_annotations s m) ManifestKeySigned
    = match s with Some _ => "true" | None => "false" end /\
  get (signature_annotations s m) ManifestKeySignatureAlgo
    = match s with Some s => GetAlgorithm s | None => "" end /\
  get (signature_annotations s m) ManifestKeySignedAt
    = match s with Some s => GetSignedAt s | None => "" end.
Proof. intros. destruct s; simpl; repeat split; annot. Qed.

(** The entries that the metadata is read from. *)
Lemma extracted r rd a :
  GetRecordData r = Some rd -> keeps a (extractManifestAnnotations r) ->
  get a ManifestKeyOASFVersion = match GetData r with Some d => wrapper_version d | None => "" end
  /\ get a ManifestKeyName = GetName rd /\ get a ManifestKeyVersion = GetVersion rd
  /\ get a ManifestKeyDescription = GetDescription rd
  /\ get a ManifestKeySchemaVersion = GetSchemaVersion rd
  /\ get a ManifestKeyCreatedAt = GetCreatedAt rd
  /\ get a ManifestKeyAuthors = Join (GetAuthors rd) ","
  /\ get a ManifestKeySkills = Join (Skill_GetName <$> GetSkills rd) ","
  /\ get a ManifestKeyLocatorTypes = Join (Loc_GetType <$> GetLocators rd) ","
  /\ get a ManifestKeyExtensionNames = Join (Ext_GetName <$> GetExtensions rd) ","
  /\ get a ManifestKeySigned = match RD_GetSignature rd with Some _ => "true" | None => "false" end
  /\ get a ManifestKeySignatureAlgo
      = match RD_GetSignature rd with Some s => GetAlgorithm s | None => "" end
  /\ get a ManifestKeySignedAt = match RD_GetSignature rd with Some s => GetSignedAt s | None => "" end
  /\ get a ManifestKeyPreviousCid = GetPreviousRecordCid rd.
Proof.
  intros Hrd Hk.
  assert (Hget : forall k, HasPrefix k (manifestDirObjectKeyPrefix +:+ "/") = true ->
    k <> ManifestKeyCid -> HasPrefix k ManifestKeyCustomPrefix = false ->
    get a k = get (set_if (GetPreviousRecordCid rd) ManifestKeyPreviousCid
      (signature_annotations (RD_GetSignature rd)
      (set_joined (Ext_GetName <$> GetExtensions rd) ManifestKeyExtensionNames
      (set_joined (Loc_GetType <$> GetLocators rd) ManifestKeyLocatorTypes
      (set_joined (Skill_GetName <$> GetSkills rd) ManifestKeySkills
      (set_joined (GetAuthors rd) ManifestKeyAuthors
      (set_if (GetCreatedAt rd) ManifestKeyCreatedAt
      (set_if (GetSchemaVersion rd) ManifestKeySchemaVersion
      (set_if (GetDescription rd) ManifestKeyDescription
      (set_if (GetVersion rd) ManifestKeyVersion
      (set_if (GetName rd) ManifestKeyName
      (oasf_version r (<[manifestDirObjectTypeKey := "record"]> ∅))))))))))))) k).
  { intros k H1 H2 H3. unfold get at 1. rewrite Hk by done. unfold extractManifestAnnotations.
    rewrite Hrd. by rewrite lookup_custom. }
  set (base := set_joined (Ext_GetName <$> GetExtensions rd) _ _) in Hget.
  assert (Hsig : get base ManifestKeySignatureAlgo = "" /\ get base ManifestKeySignedAt = "").
  { subst base. split; annot. }
  destruct (get_signature (RD_GetSignature rd) base (proj1 Hsig) (proj2 Hsig)) as (S1 & S2 & S3).
  repeat split; rewrite Hget by decided; rewrite ?get_set_if_eq;
    rewrite ?get_set_if_ne by decided; try done;
    rewrite get_signature_ne by decided; subst base; annot.
Qed.

Lemma pretty_N_go_length x s : (String.length s <= String.length (pretty_N_go x s))%nat.
Proof.
  revert s. induction (N.lt_wf_0 x) as [x _ IH]. intros s.
  destruct (decide (0 < x)%N) as [Hx|Hx].
  - rewrite pretty_N_go_step by done. etrans; [|apply IH; apply N.div_lt; lia]. simpl. lia.
  - assert (x = 0)%N as -> by lia. by rewrite pretty_N_go_0.
Qed.

Lemma pretty_N_not_empty (x : N) : pretty x <> "".
Proof.
  unfold pretty, pretty_N. case_decide as Hx; [done|]. rewrite pretty_N_go_step by lia. intros Heq.
  pose proof (pretty_N_go_length (x `div` 10) (String (pretty_N_char (x `mod` 10)) "")) as Hl.
  rewrite Heq in Hl. simpl in Hl. lia.
Qed.

Lemma pretty_nat_not_empty n : pretty (Z.of_nat n) <> "".
Proof. destruct n as [|n]; [done|]. exact (pretty_N_not_empty (N.pos (Pos.of_succ_nat n))). Qed.

Lemma list_metadata_set_if a k key ck m l :
  get a k = Join l "," ->
  list_metadata a k key ck m = set_if (count_of l) ck (set_if (Join l ",") key m).
Proof.
  intros Ha. unfold list_metadata, count_of, set_if. rewrite Ha.
  case_decide; [by rewrite decide_True|].
  rewrite decide_False by apply pretty_nat_not_empty. done.
Qed.

Lemma signed_metadata_set_if a m s :
  get a ManifestKeySigned = match s with Some _ => "true" | None => "false" end ->
  get a ManifestKeySignatureAlgo = match s with Some s => GetAlgorithm s | None => "" end ->
  get a ManifestKeySignedAt = match s with Some s => GetSignedAt s | None => "" end ->
  signed_metadata a m
  = set_if (match s with Some s => GetSignedAt s | None => "" end) "signed-at"
      (set_if (match s with Some s => GetAlgorithm s | None => "" end) "signature-algorithm"
        (set_if (match s with Some _ => "true" | None => "false" end) "signed" m)).
Proof. intros H1 H2 H3. unfold signed_metadata. rewrite H1, H2, H3. by destruct s. Qed.

Definition set_all (l : list (string * string)) (m : Annotations) : Annotations :=
  foldl (fun m '(k, v) => set_if v k m) m l.

Lemma set_all_lookup l m k :
  NoDup l.*1 ->
  set_all l m !! k
  = match (list_to_map (filter (fun kv => kv.2 <> "") l) : Annotations) !! k with
    | Some v => Some v | None => m !! k end.
Proof.
  revert m. induction l as [|[key v] l IH]; intros m; [done|].
  cbn [fmap list_fmap fst]. intros [Hx Hl]%NoDup_cons.
  change (set_all ((key, v) :: l) m) with (set_all l (set_if v key m)).
  rewrite IH, filter_cons by done. unfold set_if. cbn [snd].
  destruct (decide (v = "")) as [->|Hv]; [by rewrite decide_False by (intros []; done)|].
  rewrite decide_True by done. cbn [list_to_map foldr uncurry].
  destruct (decide (key = k)) as [->|Hne].
  - rewrite not_elem_of_list_to_map_1, !lookup_insert_eq; [done|].
    intros (kv & -> & Hkv)%list_elem_of_fmap. apply Hx.
    apply list_elem_of_filter in Hkv as [_ Hkv]. by apply list_elem_of_fmap_2.
  - by rewrite !lookup_insert_ne.
Qed.

(** Items that a comma-separated list keeps apart. *)
Definition plain_item (x : string) : Prop := no_sep "," x = true /\ TrimSpace x <> "".

Lemma count_of_plain l : Forall plain_item l -> l <> [] -> count_of l = pretty (Z.of_nat (length l)).
Proof.
  intros Hl Hne. unfold count_of.
  assert (Hsplit : Split "," (Join l ",") = l).
  { apply Split_Join; [done|]. eapply Forall_impl; [done|]. by intros x []. }
  rewrite decide_False.
  - unfold parseCommaSeparated. rewrite Hsplit. rewrite decide_False.
    + do 2 f_equal. assert (filter (fun t => t <> "") (TrimSpace <$> l) = TrimSpace <$> l) as ->.
      { clear Hne Hsplit. induction Hl as [|x l [_ Hx] _ IH]; [done|]. simpl.
        rewrite filter_cons, decide_True by done. by f_equal. }
      apply length_fmap.
    + intros Heq. rewrite Heq in Hsplit. simpl in Hsplit. subst l. inversion Hl as [|? ? [_ H]]; subst.
      by apply H.
  - intros Heq. rewrite Heq in Hsplit. simpl in Hsplit. subst l. inversion Hl as [|? ? [_ H]]; subst.
    by apply H.
Qed.

(** The type is always there. *)
Lemma extract_type r : extractManifestAnnotations r !! manifestDirObjectTypeKey = Some "record".
Proof.
  enough (Hg : get (extractManifestAnnotations r) manifestDirObjectTypeKey = "record").
  { unfold get in Hg. destruct (_ !! _); simpl in Hg; congruence. }
  unfold extractManifestAnnotations. destruct (GetRecordData r) as [rd|]; [|annot].
  unfold get at 1. rewrite lookup_custom by done.
  match goal with |- default "" (?m !! ?k) = _ => change (get m k = "record") end.
  rewrite get_set_if_ne, get_signature_ne by decided. annot.
Qed.

(** No key under the prefix of the custom annotations. *)
Definition no_custom (m : Annotations) : Prop := forall k, m !! (ManifestKeyCustomPrefix +:+ k) = None.

Lemma no_custom_insert key v m :
  HasPrefix key ManifestKeyCustomPrefix = false -> no_custom m -> no_custom (<[key := v]> m).
Proof.
  intros Hk Hm k. rewrite lookup_insert_ne; [apply Hm|]. intros ->. by rewrite HasPrefix_app in Hk.
Qed.

Lemma no_custom_set_if v key m :
  HasPrefix key ManifestKeyCustomPrefix = false -> no_custom m -> no_custom (set_if v key m).
Proof. intros. unfold set_if. case_decide; [done|]. by apply no_custom_insert. Qed.

Lemma no_custom_joined l key m :
  HasPrefix key ManifestKeyCustomPrefix = false -> no_custom m -> no_custom (set_joined l key m).
Proof. intros. destruct l; [done|]. by apply no_custom_insert. Qed.

Lemma no_custom_oasf r m : no_custom m -> no_custom (oasf_version r m).
Proof. intros. unfold oasf_version. repeat case_match; try apply no_custom_insert; done. Qed.

Lemma no_custom_signature s m : no_custom m -> no_custom (signature_annotations s m).
Proof.
  intros. destruct s; simpl; [do 2 (apply no_custom_set_if; [done|])|]; by apply no_custom_insert.
Qed.

Lemma fields_NoDup r rd : NoDup (fields r rd).*1.
Proof. apply (bool_decide_unpack _). vm_compute. exact I. Qed.

Lemma annotations_parse r rd a :
  GetRecordData r = Some rd -> keeps a (extractManifestAnnotations r) ->
  parseManifestAnnotations a = {|
    Meta_Cid := "";
    Meta_Annotations := GetAnnotations rd ∪ metadata_of r rd;
    Meta_SchemaVersion := if decide (GetSchemaVersion rd = "") then "v0.3.1" else GetSchemaVersion rd;
    Meta_CreatedAt := GetCreatedAt rd |}.
Proof.
  intros Hrd Hk.
  destruct (extracted r rd a Hrd Hk) as
    (E1 & E2 & E3 & E4 & E5 & E6 & E7 & E8 & E9 & E10 & E11 & E12 & E13 & E14).
  unfold parseManifestAnnotations. rewrite E5, E6. f_equal.
  erewrite !list_metadata_set_if, signed_metadata_set_if by done. rewrite E1, E2, E3, E4, E14.
  apply map_eq. intros k. rewrite lookup_custom_metadata by apply NoDup_fst_map_to_list.
  rewrite list_to_map_to_list, lookup_union.
  assert (Hcustom : a !! (ManifestKeyCustomPrefix +:+ k) = GetAnnotations rd !! k).
  { rewrite Hk by decided. unfold extractManifestAnnotations. rewrite Hrd.
    rewrite lookup_custom_key, list_to_map_to_list; [done|apply NoDup_fst_map_to_list|].
    match goal with |- ?m !! _ = None => enough (Hm : no_custom m) by apply Hm end.
    repeat first [apply no_custom_set_if; [done|] | apply no_custom_joined; [done|]
      | apply no_custom_signature | apply no_custom_oasf | apply no_custom_insert; [done|]].
    intros k'. apply lookup_empty. }
  rewrite Hcustom.
  match goal with |- match _ with Some v => Some v | None => ?m !! k end = _ =>
    change m with (set_all (fields r rd) ∅) end.
  rewrite set_all_lookup by apply fields_NoDup. rewrite lookup_empty.
  unfold metadata_of. destruct (GetAnnotations rd !! k), (list_to_map _ !! k); done.
Qed.

(** Metadata comes back from the manifest.  The annotations written for a
    record, however the registry extends them outside the directory's keys, read
    back as its creation time, its schema version (v0.3.1 when it states none)
    and an entry for every field that is not empty, the lists joined by commas
    and with their counts; a custom annotation of the record shows under its
    own key, and hides a field of that name.  A count is the number of items
    when no item is blank or contains a comma. *)
Theorem annotations_roundtrip r rd a :
  GetRecordData r = Some rd -> keeps a (extractManifestAnnotations r) ->
  parseManifestAnnotations a = {|
    Meta_Cid := "";
    Meta_Annotations := GetAnnotations rd ∪ metadata_of r rd;
    Meta_SchemaVersion := if decide (GetSchemaVersion rd = "") then "v0.3.1" else GetSchemaVersion rd;
    Meta_CreatedAt := GetCreatedAt rd |}
  /\ forall l, Forall plain_item l -> l <> [] -> count_of l = pretty (Z.of_nat (length l)).
Proof. intros. split; [by apply annotations_parse|intros; by apply count_of_plain]. Qed.

(** ** Witness *)

Module DemoAnnotations.
Import DemoCore.

(** A record with two authors and a custom annotation called as a field. *)
Definition noted : CoreRecord := {| GetData := Some (Record_V3 (Some {|
  ag_Annotations := {[ "name" := "mine" ]}; ag_SchemaVersion := "v0.5.0"; ag_Name := "demo";
  ag_Version := "1"; ag_Description := ""; ag_Authors := ["ann"; "bob"]; ag_CreatedAt := "today";
  ag_Skills := []; ag_Locators := []; ag_Extensions := []; ag_Signature := None;
  ag_PreviousCid := "" |})) |}.

Lemma annotations_roundtrip_witness :
  let m := Meta_Annotations (parseManifestAnnotations (extractManifestAnnotations noted)) in
  m !! "name" = Some "mine" /\ m !! "version" = Some "1" /\ m !! "authors-count" = Some "2"
  /\ m !! "description" = None.
Proof.
  destruct (annotations_roundtrip noted (V3DataAdapter (Some {|
    ag_Annotations := {[ "name" := "mine" ]}; ag_SchemaVersion := "v0.5.0"; ag_Name := "demo";
    ag_Version := "1"; ag_Description := ""; ag_Authors := ["ann"; "bob"]; ag_CreatedAt := "today";
    ag_Skills := []; ag_Locators := []; ag_Extensions := []; ag_Signature := None;
    ag_PreviousCid := "" |})) (extractManifestAnnotations noted) eq_refl) as [H _].
  - intros k _ _. reflexivity.
  - cbv zeta. rewrite H. repeat split; vm_compute; reflexivity.
Defined.

End DemoAnnotations.
