(* ===== verification/OciStore.v ===== *)
(** * The OCI record store

    server/store/oci/oci.go and internal.go: a record is a blob of its canonical
    bytes and a manifest that points to it, tagged with the CID of the record.
    The registry (oras-go: a local OCI layout or a remote repository) is outside
    the repository: the class [Registry] has the calls the store makes, and
    [RegistrySpec] what a registry that is up promises.  On such a registry the
    store keeps the promises of [StoreSpec]. *)

From S2P Require Import Prelude GoStrings Interfaces Adapters CoreRecord Validators LabelKey Metrics RoutingWorld RoutingLocal RoutingLocalSpec StoreCache OciAnnotations.

Open Scope string_scope.
Open Scope list_scope.
Open Scope go_scope.

Arguments MarshalOASF : simpl never.
Arguments UnmarshalOASF : simpl never.
Arguments GetCid : simpl never.
Arguments extractManifestAnnotations : simpl never.
Arguments parseManifestAnnotations : simpl never.

(** ** Descriptors and manifests (image-spec) *)

Section data.
Context `{HashLib}.

(** [ocispec.Descriptor] and [ocispec.Manifest], the fields the store uses. *)
Record Descriptor := {
  MediaType : string; Desc_Digest : Digest; Size : Z; Desc_Annotations : gmap string string }.

Record Manifest := { Man_Annotations : gmap string string; Layers : list Descriptor }.

(** [oras.PackManifestOptions]. *)
Record PackManifestOptions := {
  ManifestAnnotations : gmap string string; Pack_Layers : list Descriptor;
  Subject : option Descriptor }.

(** [digest.String()]. *)
Definition Digest_String (d : Digest) : string :=
  Algorithm_String (dg_Algorithm d) +:+ ":" +:+ dg_Hex d.

(** The dynamic type of [s.repo]. *)
Inductive RepoType := oci_Store | remote_Repository | other_Repo (name : string).

Definition type_name (t : RepoType) : string :=
  match t with
  | oci_Store => "*oci.Store" | remote_Repository => "*remote.Repository" | other_Repo name => name
  end.

(** [oras.GraphTarget] and the functions of oras-go on it.  Fetching gives a
    reader or an error, and reading all of it bytes or an error. *)
Class Registry (R : Type) := {
  repo_type : R -> RepoType;
  oras_PushBytes : string -> string -> M R (result Descriptor);
  oras_PackManifest : PackManifestOptions -> M R (result Descriptor);
  oras_Tag : string -> string -> M R (result unit);
  repo_Resolve : string -> R -> result Descriptor;
  repo_Fetch : Descriptor -> R -> result (result string);
  ociStore_Delete : Descriptor -> M R (result unit);
  manifests_Delete : Descriptor -> M R (result unit);
  (** the pages a query for referrers yields; [None] without the API *)
  repo_Referrers : R -> option (Descriptor -> result (list (list Descriptor)));
}.

End data.

(** ** The store *)

Module oci.
Section oci.
Context `{HashLib} `{!OasfJson} {R : Type} `{!Registry R} `{!JsonCodec Manifest}.

Definition validateRecordRef (ref : option RecordRef) : result unit :=
  match ref with
  | None => Err (Status InvalidArgument "record reference cannot be nil")
  | Some _ =>
      if decide (ref_GetCid ref = "") then
        Err (Status InvalidArgument "record CID cannot be empty")
      else Ok tt
  end.

(** Sizes that do not match are only logged. *)
Definition fetchAndParseManifestFromDescriptor (manifestDesc : Descriptor) (repo : R)
  : result Manifest :=
  match repo_Fetch manifestDesc repo with
  | Err err => Err (internal ("failed to fetch manifest for "
                      +:+ Digest_String (Desc_Digest manifestDesc) +:+ ": ") err)
  | Ok (Err err) => Err (internal ("failed to read manifest data for "
                      +:+ Digest_String (Desc_Digest manifestDesc) +:+ ": ") err)
  | Ok (Ok manifestData) =>
      match json_Unmarshal manifestData with
      | Err err => Err (internal ("failed to unmarshal manifest for "
                      +:+ Digest_String (Desc_Digest manifestDesc) +:+ ": ") err)
      | Ok manifest => Ok manifest
      end
  end.

Definition fetchAndParseManifest (cid : string) (repo : R) : result (Manifest * Descriptor) :=
  match repo_Resolve cid repo with
  | Err _ => Err (Status NotFound ("record not found: " +:+ cid))
  | Ok manifestDesc =>
      match fetchAndParseManifestFromDescriptor manifestDesc repo with
      | Err err => Err err
      | Ok manifest => Ok (manifest, manifestDesc)
      end
  end.

Definition lookup (ref : option RecordRef) (repo : R) : result RecordMeta :=
  match validateRecordRef ref with
  | Err err => Err err
  | Ok _ =>
      match fetchAndParseManifest (ref_GetCid ref) repo with
      | Err err => Err err
      | Ok (manifest, _) =>
          match Man_Annotations manifest !! manifestDirObjectTypeKey with
          | None => Err (Status Internal
              ("record type not found in manifest annotations for CID " +:+ ref_GetCid ref
               +:+ ": missing key " +:+ manifestDirObjectTypeKey))
          | Some _recordType =>
              let recordMeta := parseManifestAnnotations (Man_Annotations manifest) in
              Ok {| Meta_Cid := ref_GetCid ref; Meta_Annotations := Meta_Annotations recordMeta;
                    Meta_SchemaVersion := Meta_SchemaVersion recordMeta;
                    Meta_CreatedAt := Meta_CreatedAt recordMeta |}
          end
      end
  end.

Definition Lookup (ref : option RecordRef) : M R (result RecordMeta) :=
  fun repo => (lookup ref repo, repo).

Definition Push (record : option CoreRecord) : M R (result RecordRef) :=
  match MarshalOASF record with
  | Err err => ret (Err (internal "failed to marshal record: " err))
  | Ok recordBytes =>
      let? layerDesc := oras_PushBytes "application/json" recordBytes
        else err => ret (Err (internal "failed to push record bytes: " err)) in
      match ConvertDigestToCID (Desc_Digest layerDesc) with
      | Err err => ret (Err (internal "failed to convert digest to CID: " err))
      | Ok recordCID =>
          let expectedCID := GetCid record in
          if decide (recordCID <> expectedCID) then
            ret (Err (Status Internal ("CID mismatch: OCI digest CID (" +:+ recordCID
              +:+ ") != Record CID (" +:+ expectedCID +:+ ")")))
          else
            let recordRef := {| ref_Cid := recordCID |} in
            let! found := Lookup (Some recordRef) in
            match found with
            | Ok _ => ret (Ok recordRef)
            | Err _ =>
                let manifestAnnotations := match record with
                  | Some record => extractManifestAnnotations record
                  | None => <[manifestDirObjectTypeKey := "record"]> ∅ end in
                let manifestAnnotations := <[ManifestKeyCid := recordCID]> manifestAnnotations in
                let? manifestDesc := oras_PackManifest {|
                    ManifestAnnotations := manifestAnnotations; Pack_Layers := [layerDesc];
                    Subject := None |}
                  else err => ret (Err (internal "failed to pack manifest: " err)) in
                let cidTag := recordCID in
                let? _tagged := oras_Tag (Digest_String (Desc_Digest manifestDesc)) cidTag
                  else err => ret (Err (internal "failed to create CID tag: " err)) in
                ret (Ok recordRef)
            end
      end
  end.

Definition pull (ref : option RecordRef) (repo : R) : result CoreRecord :=
  match validateRecordRef ref with
  | Err err => Err err
  | Ok _ =>
      match fetchAndParseManifest (ref_GetCid ref) repo with
      | Err err => Err err
      | Ok (manifest, _manifestDesc) =>
          match Layers manifest with
          | [] => Err (Status Internal ("manifest has no layers for CID " +:+ ref_GetCid ref))
          | blobDesc :: _ =>
              match repo_Fetch blobDesc repo with
              | Err err => Err (Status NotFound ("record blob not found for CID " +:+ ref_GetCid ref
                             +:+ ": " +:+ err_string err))
              | Ok (Err err) => Err (internal ("failed to read record data for CID "
                             +:+ ref_GetCid ref +:+ ": ") err)
              | Ok (Ok recordData) =>
                  match UnmarshalOASF recordData with
                  | Err err => Err (internal ("failed to unmarshal record for CID "
                                 +:+ ref_GetCid ref +:+ ": ") err)
                  | Ok record => Ok record
                  end
              end
          end
      end
  end.

Definition Pull (ref : option RecordRef) : M R (result CoreRecord) :=
  fun repo => (pull ref repo, repo).

Definition deleteBlobForLocalStore (cid : string) : M R (result unit) :=
  match ConvertCIDToDigest cid with
  | Err err => ret (Err (Wrap "failed to convert CID to digest: " err))
  | Ok ociDigest =>
      let? _deleted := ociStore_Delete {|
          MediaType := ""; Desc_Digest := ociDigest; Size := 0; Desc_Annotations := ∅ |}
        else err => ret (Err (Wrap "failed to delete blob: " err)) in
      ret (Ok tt)
  end.

(** Deletion is best effort: what fails is collected and logged. *)
Definition deleteFromOCIStore (ref : option RecordRef) : M R (result unit) := fun repo =>
  match repo_type repo with
  | oci_Store =>
      (let cid := ref_GetCid ref in
       do! (match repo_Resolve cid repo with
            | Err err => ret (Err err)
            | Ok manifestDesc => ociStore_Delete manifestDesc
            end) then
       do! deleteBlobForLocalStore cid then
       ret (Ok tt)) repo
  | t => (Err (Status Internal ("expected *oci.Store, got " +:+ type_name t)), repo)
  end.

Definition deleteFromRemoteRepository (ref : option RecordRef) : M R (result unit) := fun repo =>
  match repo_type repo with
  | remote_Repository =>
      (let cid := ref_GetCid ref in
       do! (match repo_Resolve cid repo with
            | Err err => ret (Err err)
            | Ok manifestDesc => manifests_Delete manifestDesc
            end) then
       ret (Ok tt)) repo
  | t => (Err (Status Internal ("expected *remote.Repository, got " +:+ type_name t)), repo)
  end.

Definition Delete (ref : option RecordRef) : M R (result unit) := fun repo =>
  match validateRecordRef ref with
  | Err err => (Err err, repo)
  | Ok _ =>
      match repo_type repo with
      | oci_Store => deleteFromOCIStore ref repo
      | remote_Repository => deleteFromRemoteRepository ref repo
      | t => (Err (Status FailedPrecondition ("unsupported repo type: " +:+ type_name t)), repo)
      end
  end.

#[export] Instance api : StoreAPI R := {|
  store_Push := Push; store_Pull := Pull; store_Lookup := Lookup; store_Delete := Delete |}.

End oci.
End oci.
#[export] Existing Instance oci.api.

(** ** What a registry promises

    Seen from outside, a registry has contents by digest and references (tags)
    that resolve to descriptors.  A reference is followed here only when it is a
    CID in its canonical text. *)

Definition canonical `{HashLib} (c : string) : bool :=
  match ConvertCIDToDigest c with
  | Ok d => bool_decide (ConvertDigestToCID d = Ok c)
  | Err _ => false
  end.

Section laws.
Context `{HashLib} {R : Type} `{!Registry R} `{!JsonCodec Manifest}.
Context (blob_at : R -> Digest -> option string) (refs : R -> gmap string Descriptor).

(** Nothing that was there is lost, and no CID resolves otherwise. *)
Definition grows (r r' : R) : Prop :=
  (forall c, canonical c = true -> refs r' !! c = refs r !! c) /\
  (forall dg b, blob_at r dg = Some b -> blob_at r' dg = Some b).

(** The digests that the content a reference stands for consists of. *)
Definition reached (r : R) (d : Descriptor) (dg : Digest) : Prop :=
  dg = Desc_Digest d \/
  exists mb m l, blob_at r (Desc_Digest d) = Some mb /\ json_Unmarshal mb = Ok m
    /\ l ∈ Layers m /\ dg = Desc_Digest l.

(** Deleting the content of a digest: the references to it go, the others stay
    with all that they reach, and nothing appears.  A deletion may collect other
    content that nothing refers to. *)
Record deleted (dg : Digest) (r : R) (x : result unit) (r' : R) : Prop := {
  del_refs c d : canonical c = true -> refs r !! c = Some d -> Desc_Digest d = dg ->
    x = Ok tt /\ refs r' !! c = None;
  del_other c : canonical c = true ->
    (forall d, refs r !! c = Some d -> Desc_Digest d <> dg) -> refs r' !! c = refs r !! c;
  del_gone : x = Ok tt -> blob_at r' dg = None;
  del_ok b : blob_at r dg = Some b -> x = Ok tt;
  del_shrink dg' b : blob_at r' dg' = Some b -> blob_at r dg' = Some b;
  del_kept c d dg' : canonical c = true -> refs r' !! c = Some d -> dg' <> dg ->
    reached r d dg' -> blob_at r' dg' = blob_at r dg';
}.

(** The laws of a registry that is up.  Content is addressed by SHA-256; packing
    a manifest keeps the annotations it is given (it adds the creation time). *)
Class RegistrySpec : Prop := {
  Resolve_spec s r : match refs r !! s with
    | Some d => repo_Resolve s r = Ok d
    | None => exists e, repo_Resolve s r = Err e
    end;
  Fetch_spec d r : match blob_at r (Desc_Digest d) with
    | Some b => repo_Fetch d r = Ok (Ok b)
    | None => exists e, repo_Fetch d r = Err e
    end;
  PushBytes_spec mt b r : let '(x, r') := oras_PushBytes mt b r in
    grows r r' /\ repo_type r' = repo_type r /\
    match x with
    | Ok d => Desc_Digest d = NewDigestFromBytes SHA256 (Sum256 b)
        /\ blob_at r' (Desc_Digest d) = Some b
    | Err _ => True
    end;
  PackManifest_spec opts r : let '(x, r') := oras_PackManifest opts r in
    grows r r' /\ repo_type r' = repo_type r /\
    match x with
    | Ok d => refs r' !! Digest_String (Desc_Digest d) = Some d /\
        exists mb m, Desc_Digest d = NewDigestFromBytes SHA256 (Sum256 mb)
          /\ blob_at r' (Desc_Digest d) = Some mb /\ json_Unmarshal mb = Ok m
          /\ Layers m = Pack_Layers opts
          /\ forall k, HasPrefix k "org.opencontainers." = false ->
               Man_Annotations m !! k = ManifestAnnotations opts !! k
    | Err _ => True
    end;
  Tag_spec src dst r : let '(x, r') := oras_Tag src dst r in
    repo_type r' = repo_type r /\ (forall dg, blob_at r' dg = blob_at r dg) /\
    match refs r !! src with
    | Some d => x = Ok tt /\ refs r' = <[dst := d]> (refs r)
    | None => (exists e, x = Err e) /\ refs r' = refs r
    end;
  ociStore_Delete_spec d r : repo_type r = oci_Store -> let '(x, r') := ociStore_Delete d r in
    deleted (Desc_Digest d) r x r' /\ repo_type r' = repo_type r;
  manifests_Delete_spec d r : repo_type r = remote_Repository -> let '(x, r') := manifests_Delete d r in
    deleted (Desc_Digest d) r x r' /\ repo_type r' = repo_type r;
}.

End laws.
Arguments RegistrySpec {_ _} R {_ _}.
Arguments Resolve_spec {_ _ _ _ _ _ _ _}.
Arguments Fetch_spec {_ _ _ _ _ _ _ _}.
Arguments PushBytes_spec {_ _ _ _ _ _ _ _}.
Arguments PackManifest_spec {_ _ _ _ _ _ _ _}.
Arguments Tag_spec {_ _ _ _ _ _ _ _}.
Arguments ociStore_Delete_spec {_ _ _ _ _ _ _ _}.
Arguments manifests_Delete_spec {_ _ _ _ _ _ _ _}.

(** ** The store keeps the promises of a record store *)

Section promises.
Context `{HashLibSpec} `{!OasfJson} {R : Type} `{Hreg : !Registry R} `{!JsonCodec Manifest}
  {blob_at : R -> Digest -> option string} {refs : R -> gmap string Descriptor}
  `{!RegistrySpec R blob_at refs}.

(** The records considered: their canonical bytes are not empty and read back,
    their CIDs are path components, and no two share a CID.  [no_clash]: the hash
    of a record is not the hash of a manifest with layers. *)
Context {record_ok : CoreRecord -> Prop}
  (record_bytes : forall r, record_ok r ->
     exists b, MarshalOASF (Some r) = Ok b /\ b <> "" /\ UnmarshalOASF b = Ok r)
  (record_cid : forall r, record_ok r -> good_elem (GetCid (Some r)) = true)
  (collision_free : forall r r', record_ok r -> record_ok r' ->
     GetCid (Some r) = GetCid (Some r') -> r = r')
  (no_clash : forall r b mb m, record_ok r -> MarshalOASF (Some r) = Ok b ->
     json_Unmarshal mb = Ok m -> Layers m <> [] -> Sum256 b <> Sum256 mb).

(** The metadata that annotations give, under a CID. *)
Definition meta_with (c : string) (a : gmap string string) : RecordMeta :=
  let m := parseManifestAnnotations a in
  {| Meta_Cid := c; Meta_Annotations := Meta_Annotations m;
     Meta_SchemaVersion := Meta_SchemaVersion m; Meta_CreatedAt := Meta_CreatedAt m |}.

Context {meta_ok : RecordMeta -> Prop}
  (annotations_ok : forall r a, record_ok r -> keeps a (extractManifestAnnotations r) ->
     meta_ok (meta_with (GetCid (Some r)) a)).

Definition manifest_at (r : R) (d : Descriptor) : option Manifest :=
  b ← blob_at r (Desc_Digest d);
  match json_Unmarshal b with Ok m => Some m | Err _ => None end.

Definition record_at (r : R) (d : Descriptor) : option CoreRecord :=
  m ← manifest_at r d; l ← head (Layers m); b ← blob_at r (Desc_Digest l);
  match UnmarshalOASF b with Ok x => Some x | Err _ => None end.

Definition meta_at (c : string) (r : R) (d : Descriptor) : option RecordMeta :=
  m ← manifest_at r d;
  match Man_Annotations m !! manifestDirObjectTypeKey with
  | Some _ => Some (meta_with c (Man_Annotations m)) | None => None end.

(** What the registry shows under CIDs. *)
Definition oci_obs (r : R) : Observable :=
  (map_imap (fun c d => if canonical c then record_at r d else None) (refs r),
   map_imap (fun c d => if canonical c then meta_at c r d else None) (refs r)).

(** A CID in its canonical text that is not the CID of a manifest. *)
Definition record_cid_text (c : string) : Prop :=
  good_elem c = true /\ canonical c = true /\
  forall mb m, json_Unmarshal mb = Ok m -> Layers m <> [] ->
    ConvertCIDToDigest c <> Ok (NewDigestFromBytes SHA256 (Sum256 mb)).

(** A reference under which a record was pushed. *)
Record stored (r : R) (c : string) (d : Descriptor) (x : CoreRecord) : Prop := {
  st_ok : record_ok x;
  st_cid : GetCid (Some x) = c;
  st_manifest : exists mb m l b, Desc_Digest d = NewDigestFromBytes SHA256 (Sum256 mb)
    /\ blob_at r (Desc_Digest d) = Some mb /\ json_Unmarshal mb = Ok m /\ Layers m = [l]
    /\ keeps (Man_Annotations m) (extractManifestAnnotations x)
    /\ Desc_Digest l = NewDigestFromBytes SHA256 (Sum256 b)
    /\ MarshalOASF (Some x) = Ok b /\ blob_at r (Desc_Digest l) = Some b }.

(** Every CID that resolves stands for a record that was pushed. *)
Definition oci_inv (r : R) : Prop :=
  (repo_type r = oci_Store \/ repo_type r = remote_Repository) /\
  forall c d, canonical c = true -> refs r !! c = Some d -> exists x, stored r c d x.

(** *** Records and their digests *)

Lemma cid_digest x b :
  record_ok x -> MarshalOASF (Some x) = Ok b ->
  ConvertCIDToDigest (GetCid (Some x)) = Ok (NewDigestFromBytes SHA256 (Sum256 b)) /\
  ConvertDigestToCID (NewDigestFromBytes SHA256 (Sum256 b)) = Ok (GetCid (Some x)).
Proof.
  intros Hx Hb. destruct (record_bytes x Hx) as (b' & Hb' & Hne & _).
  assert (b' = b) as -> by congruence. destruct (GetCid_ok (Some x) b Hb) as [_ Hok]. destruct (Hok Hne) as (_ & Hd & _).
  split; [done|]. unfold GetCid. rewrite Hb. unfold CalculateDigest.
  rewrite (proj2 (Nat.eqb_neq _ _)) by (destruct b; done).
  destruct (digest_cid_digest (Sum256 b) (Sum256_length b)) as (c & -> & _). done.
Qed.

Lemma canonical_of dg c : ConvertCIDToDigest c = Ok dg -> ConvertDigestToCID dg = Ok c -> canonical c = true.
Proof. intros Hd Hc. unfold canonical. rewrite Hd. by apply bool_decide_true. Qed.

Lemma canonical_digest c : canonical c = true ->
  exists dg, ConvertCIDToDigest c = Ok dg /\ ConvertDigestToCID dg = Ok c.
Proof.
  unfold canonical. destruct (ConvertCIDToDigest c) as [dg|]; [|done]. intros H'%bool_decide_eq_true.
  eauto.
Qed.

Lemma record_cid_known x : record_ok x -> record_cid_text (GetCid (Some x)).
Proof.
  intros Hx. destruct (record_bytes x Hx) as (b & Hb & _ & _). destruct (cid_digest x b Hx Hb) as [Hcd Hdc].
  split; [by apply record_cid|]. split; [by eapply canonical_of|].
  intros mb m Hm Hl Heq. rewrite Hcd in Heq. injection Heq as Heq%new_digest_inj.
  by eapply no_clash.
Qed.

(** *** What the registry shows *)

Lemma stored_record r c d x : stored r c d x -> record_at r d = Some x.
Proof.
  intros [Hx _ (mb & m & l & b & _ & Hmb & Hm & Hl & _ & _ & Hb & Hat)].
  destruct (record_bytes x Hx) as (b' & Hb' & _ & Hu).
  assert (b' = b) as -> by congruence.
  unfold record_at, manifest_at. rewrite Hmb. simpl. rewrite Hm. simpl. rewrite Hl. simpl.
  rewrite Hat. simpl. by rewrite Hu.
Qed.

Lemma stored_meta r c d x : stored r c d x ->
  exists a, meta_at c r d = Some (meta_with c a) /\ keeps a (extractManifestAnnotations x).
Proof.
  intros [Hx _ (mb & m & l & b & _ & Hmb & Hm & Hl & Hk & _)].
  exists (Man_Annotations m). split; [|done]. unfold meta_at, manifest_at. rewrite Hmb. simpl.
  rewrite Hm. simpl. rewrite Hk by done. by rewrite extract_type.
Qed.

Lemma obs_records r c :
  (oci_obs r).1 !! c = if canonical c then refs r !! c ≫= record_at r else None.
Proof. unfold oci_obs. simpl. rewrite map_lookup_imap. destruct (refs r !! c), (canonical c); done. Qed.

Lemma obs_metadata r c :
  (oci_obs r).2 !! c = if canonical c then refs r !! c ≫= meta_at c r else None.
Proof. unfold oci_obs. simpl. rewrite map_lookup_imap. destruct (refs r !! c), (canonical c); done. Qed.

Lemma fetch_manifest d r :
  match manifest_at r d with
  | Some m => oci.fetchAndParseManifestFromDescriptor d r = Ok m
  | None => is_ok (oci.fetchAndParseManifestFromDescriptor d r) = false
  end.
Proof.
  unfold oci.fetchAndParseManifestFromDescriptor, manifest_at. pose proof (Fetch_spec d r) as Hf.
  destruct (blob_at r (Desc_Digest d)) as [b|]; simpl; [|destruct Hf as [e ->]; done].
  rewrite Hf. by destruct (json_Unmarshal b).
Qed.

Lemma valid_ref c : c <> "" -> oci.validateRecordRef (Some {| ref_Cid := c |}) = Ok tt.
Proof. intros. simpl. by rewrite decide_False. Qed.

Lemma lookup_answers c r : canonical c = true -> c <> "" ->
  answers (oci.lookup (Some {| ref_Cid := c |}) r) ((oci_obs r).2 !! c).
Proof.
  intros Hc Hne. rewrite obs_metadata, Hc. unfold oci.lookup. rewrite valid_ref by done.
  unfold oci.fetchAndParseManifest. simpl (ref_GetCid _). pose proof (Resolve_spec c r) as Hr.
  destruct (refs r !! c) as [d|]; simpl; [|by destruct Hr as [e ->]]. rewrite Hr.
  unfold meta_at. pose proof (fetch_manifest d r) as Hf.
  destruct (manifest_at r d) as [m|]; simpl.
  - rewrite Hf. by destruct (Man_Annotations m !! _).
  - by destruct (oci.fetchAndParseManifestFromDescriptor d r).
Qed.

Lemma pull_answers c r : canonical c = true -> c <> "" ->
  answers (oci.pull (Some {| ref_Cid := c |}) r) ((oci_obs r).1 !! c).
Proof.
  intros Hc Hne. rewrite obs_records, Hc. unfold oci.pull. rewrite valid_ref by done.
  unfold oci.fetchAndParseManifest. simpl (ref_GetCid _). pose proof (Resolve_spec c r) as Hr.
  destruct (refs r !! c) as [d|]; simpl; [|by destruct Hr as [e ->]]. rewrite Hr.
  unfold record_at. pose proof (fetch_manifest d r) as Hf.
  destruct (manifest_at r d) as [m|]; simpl; [|by destruct (oci.fetchAndParseManifestFromDescriptor d r)].
  rewrite Hf. destruct (Layers m) as [|l ls]; simpl; [done|]. pose proof (Fetch_spec l r) as Hl.
  destruct (blob_at r (Desc_Digest l)) as [b|]; simpl; [|by destruct Hl as [e ->]]. rewrite Hl.
  by destruct (UnmarshalOASF b).
Qed.

(** *** Changes of the registry *)

(** All references but one stand for what they stood for. *)
Definition same_but (c0 : option string) (r r' : R) : Prop :=
  forall c, canonical c = true -> Some c <> c0 ->
    refs r' !! c = refs r !! c /\
    forall d x, refs r !! c = Some d -> stored r c d x ->
      stored r' c d x /\ blob_at r' (Desc_Digest d) = blob_at r (Desc_Digest d).

Lemma same_but_trans c0 r1 r2 r3 : same_but c0 r1 r2 -> same_but c0 r2 r3 -> same_but c0 r1 r3.
Proof.
  intros H12 H23 c Hc Hne. destruct (H12 c Hc Hne) as [He2 Hs2]. destruct (H23 c Hc Hne) as [He3 Hs3].
  split; [congruence|]. intros d x Hd Hs. destruct (Hs2 d x Hd Hs) as [Hs' Hb].
  destruct (Hs3 d x) as [Hs'' Hb']; [congruence|done|]. split; [done|congruence].
Qed.

Lemma same_but_weaken c0 r r' : same_but None r r' -> same_but c0 r r'.
Proof. intros Hs c Hc _. by apply Hs. Qed.

Lemma grows_stored r r' c d x : grows blob_at refs r r' -> stored r c d x ->
  stored r' c d x /\ blob_at r' (Desc_Digest d) = blob_at r (Desc_Digest d).
Proof.
  intros [_ Hg] [Hx Hcid (mb & m & l & b & Hd & Hmb & Hm & Hl & Hk & Hdl & Hb & Hat)].
  split; [|rewrite Hmb; auto]. split; [done|done|]. exists mb, m, l, b. auto 10.
Qed.

Lemma grows_same r r' : grows blob_at refs r r' -> same_but None r r'.
Proof.
  intros Hg c Hc _. split; [by apply Hg|]. intros d x _. by apply grows_stored.
Qed.

(** The observable maps after a change that keeps all references but one. *)
Lemma same_obs c0 r r' c :
  oci_inv r -> same_but c0 r r' -> Some c <> c0 ->
  (oci_obs r').1 !! c = (oci_obs r).1 !! c /\ (oci_obs r').2 !! c = (oci_obs r).2 !! c.
Proof.
  intros [_ Hinv] Hs Hne. rewrite !obs_records, !obs_metadata.
  destruct (canonical c) eqn:Hc; [|done]. destruct (Hs c Hc Hne) as [-> Hst].
  destruct (refs r !! c) as [d|] eqn:Hd; simpl; [|done]. destruct (Hinv c d Hc Hd) as [x Hx].
  destruct (Hst d x eq_refl Hx) as [Hx' Hb]. split.
  - by rewrite (stored_record _ _ _ _ Hx), (stored_record _ _ _ _ Hx').
  - unfold meta_at, manifest_at. by rewrite Hb.
Qed.

Lemma same_none r r' :
  oci_inv r -> same_but None r r' -> repo_type r' = repo_type r -> oci_obs r' = oci_obs r /\ oci_inv r'.
Proof.
  intros Hinv Hs Ht. split.
  - apply injective_projections; apply map_eq; intros c;
      destruct (same_obs None r r' c Hinv Hs) as [H1' H2']; done.
  - destruct Hinv as [Htype Hinv]. split; [by rewrite Ht|]. intros c d Hc Hd.
    destruct (Hs c Hc) as [He Hst]; [done|]. rewrite He in Hd.
    destruct (Hinv c d Hc Hd) as [x Hx]. exists x. by apply (Hst d x).
Qed.

Lemma same_delete c0 r r' :
  oci_inv r -> same_but (Some c0) r r' -> refs r' !! c0 = None -> repo_type r' = repo_type r ->
  oci_obs r' = (delete c0 (oci_obs r).1, delete c0 (oci_obs r).2) /\ oci_inv r'.
Proof.
  intros Hinv Hs Hnone Ht. split.
  - apply injective_projections; apply map_eq; intros c; cbn [fst snd];
      (destruct (decide (c = c0)) as [->|Hne];
       [rewrite lookup_delete_eq; rewrite ?obs_records, ?obs_metadata, Hnone; by destruct (canonical c0)
       |rewrite lookup_delete_ne by done;
        destruct (same_obs (Some c0) r r' c Hinv Hs) as [H1' H2']; congruence]).
  - destruct Hinv as [Htype Hinv]. split; [by rewrite Ht|]. intros c d Hc Hd.
    destruct (decide (c = c0)) as [->|Hne]; [congruence|].
    destruct (Hs c Hc) as [He Hst]; [congruence|]. rewrite He in Hd.
    destruct (Hinv c d Hc Hd) as [x Hx]. exists x. by apply (Hst d x).
Qed.

(** *** Deleting *)

(** The digests a stored record needs. *)
Definition needs (r : R) (c : string) (d : Descriptor) (x : CoreRecord) (dg : Digest) : Prop :=
  dg = Desc_Digest d \/
  exists b, MarshalOASF (Some x) = Ok b /\ dg = NewDigestFromBytes SHA256 (Sum256 b).

Lemma deleted_same c0 dg r x r' :
  deleted blob_at refs dg r x r' ->
  (forall c d y, canonical c = true -> c <> c0 -> refs r !! c = Some d -> stored r c d y ->
     ~ needs r c d y dg) ->
  oci_inv r -> same_but (Some c0) r r'.
Proof.
  intros Hdel Hneeds [_ Hinv] c Hc Hne. assert (c <> c0) as Hne' by congruence.
  assert (Href : refs r' !! c = refs r !! c).
  { apply (del_other _ _ _ _ _ _ Hdel c Hc). intros d Hd Hdg. destruct (Hinv c d Hc Hd) as [y Hy].
    apply (Hneeds c d y Hc Hne' Hd Hy). by left. }
  split; [done|]. intros d y Hd Hy. rewrite Hd in Href.
  pose proof (Hneeds c d y Hc Hne' Hd Hy) as Hn.
  assert (Hkeep : forall dg', needs r c d y dg' -> reached blob_at r d dg' ->
    blob_at r' dg' = blob_at r dg').
  { intros dg' Hnd Hr. apply (del_kept _ _ _ _ _ _ Hdel c d dg' Hc Href); [|done].
    by intros ->. }
  destruct Hy as [Hok Hcid (mb & m & l & b & Hd1 & Hmb & Hm & Hl & Hk & Hdl & Hb & Hat)].
  assert (Hd' : blob_at r' (Desc_Digest d) = blob_at r (Desc_Digest d))
    by (apply Hkeep; by left).
  split; [|done]. split; [done|done|]. exists mb, m, l, b. rewrite Hd'.
  repeat (split; [done|]). rewrite Hkeep; [done| |].
  - right. by exists b.
  - right. exists mb, m, l. rewrite Hl. repeat (split; [done|]). split; [by left|done].
Qed.

(** The manifest of a CID is needed by no other CID. *)
Lemma manifest_not_needed c0 d0 x0 r c d y :
  stored r c0 d0 x0 -> c <> c0 -> stored r c d y -> ~ needs r c d y (Desc_Digest d0).
Proof.
  intros [Hx0 Hc0 (mb0 & m0 & l0 & b0 & Hd0 & Hmb0 & Hm0 & Hl0 & _ & Hdl0 & Hb0 & _)] Hne
    [Hy Hcid (mb & m & l & b & Hd & Hmb & Hm & Hl & _ & Hdl & Hb & _)] [Heq|(b' & Hb' & Heq)].
  - apply Hne. rewrite <- Heq, Hmb0 in Hmb. injection Hmb as ->.
    assert (m = m0) as -> by congruence. assert (l = l0) as -> by congruence.
    destruct (cid_digest y b Hy Hb) as [_ H2']. destruct (cid_digest x0 b0 Hx0 Hb0) as [_ H3'].
    rewrite <- Hdl in H2'. rewrite <- Hdl0 in H3'. congruence.
  - assert (b' = b) as -> by congruence. rewrite Hd0 in Heq.
    apply new_digest_inj in Heq. eapply (no_clash y b mb0 m0); [done..| |done]. by rewrite Hl0.
Qed.

(** The digest that a CID names is needed by no other CID. *)
Lemma blob_not_needed c0 dg r c d y :
  record_cid_text c0 -> ConvertCIDToDigest c0 = Ok dg -> c <> c0 -> stored r c d y ->
  ~ needs r c d y dg.
Proof.
  intros (_ & Hcan & Hman) Hdg Hne
    [Hy Hcid (mb & m & l & b & Hd & Hmb & Hm & Hl & _ & Hdl & Hb & _)] [Heq|(b' & Hb' & Heq)].
  - apply (Hman mb m Hm); [by rewrite Hl|]. by rewrite Hdg, Heq, Hd.
  - assert (b' = b) as -> by congruence. apply Hne.
    destruct (canonical_digest c0 Hcan) as (dg' & Hdg' & Hc0). destruct (cid_digest y b Hy Hb) as [_ Hc].
    congruence.
Qed.

(** Resolving a CID and deleting its manifest, by either way of deletion. *)
Lemma delete_manifest c (del : Descriptor -> M R (result unit)) r :
  oci_inv r -> record_cid_text c ->
  (forall d, let '(x, r') := del d r in
     deleted blob_at refs (Desc_Digest d) r x r' /\ repo_type r' = repo_type r) ->
  exists x r', (match repo_Resolve c r with Err err => ret (Err err) | Ok d => del d end) r = (x, r')
    /\ same_but (Some c) r r' /\ refs r' !! c = None /\ repo_type r' = repo_type r.
Proof.
  intros Hinv Hc Hdel. pose proof (Resolve_spec c r) as Hr.
  destruct (refs r !! c) as [d|] eqn:Hd.
  - rewrite Hr. specialize (Hdel d). destruct (del d r) as [x r']. destruct Hdel as [Hdel Ht].
    exists x, r'. split; [done|]. destruct Hc as (_ & Hcan & _).
    destruct (proj2 Hinv c d Hcan Hd) as [x0 Hx0].
    split; [|split; [by apply (del_refs _ _ _ _ _ _ Hdel c d)|done]].
    eapply deleted_same; [done| |done]. intros c' d' y Hcan' Hne Hd' Hy.
    by eapply manifest_not_needed.
  - destruct Hr as [e ->]. eexists _, r. split; [done|]. split; [|done].
    intros c' Hc' _. split; [done|]. intros d' y _ Hy. done.
Qed.

Lemma oci_Delete_run c r :
  oci_inv r -> record_cid_text c ->
  exists r', oci.Delete (Some {| ref_Cid := c |}) r = (Ok tt, r')
    /\ oci_obs r' = (delete c (oci_obs r).1, delete c (oci_obs r).2) /\ oci_inv r'.
Proof.
  intros Hinv Hc. pose proof Hc as (Hg & Hcan & _).
  assert (c <> "") as Hne by by intros ->.
  unfold oci.Delete. rewrite valid_ref by done.
  destruct (proj1 Hinv) as [Ht|Ht]; rewrite Ht.
  - unfold oci.deleteFromOCIStore. rewrite Ht. simpl (ref_GetCid _).
    destruct (delete_manifest c ociStore_Delete r Hinv Hc) as (x & r1 & Hrun & Hs1 & Hn1 & Ht1).
    { intros d. by apply ociStore_Delete_spec. }
    rewrite (bind_run _ _ _ _ _ Hrun). rewrite Ht in Ht1.
    destruct (canonical_digest c Hcan) as (dg & Hdg & Hdc).
    unfold oci.deleteBlobForLocalStore. rewrite Hdg.
    match goal with |- context [ociStore_Delete ?d] => pose proof (ociStore_Delete_spec d r1 Ht1) as Hd2;
      destruct (ociStore_Delete d r1) as [y r2] eqn:Hrun2 end.
    destruct Hd2 as [Hd2 Ht2]. simpl (Desc_Digest _) in Hd2.
    destruct (same_delete c r r1 Hinv Hs1 Hn1) as [_ Hinv1]; [congruence|].
    assert (Hs2 : same_but (Some c) r1 r2).
    { eapply deleted_same; [done| |done]. intros c' d' z Hcan' Hne' Hd' Hz. by eapply blob_not_needed. }
    assert (Hn2 : refs r2 !! c = None).
    { rewrite (del_other _ _ _ _ _ _ Hd2 c Hcan); [done|]. by rewrite Hn1. }
    exists r2. split.
    { unfold bind at 1, try_bind, bind. rewrite Hrun2. by destruct y. }
    apply same_delete; [done| |done|congruence]. by eapply same_but_trans.
  - unfold oci.deleteFromRemoteRepository. rewrite Ht. simpl (ref_GetCid _).
    destruct (delete_manifest c manifests_Delete r Hinv Hc) as (x & r1 & Hrun & Hs1 & Hn1 & Ht1).
    { intros d. by apply manifests_Delete_spec. }
    rewrite (bind_run _ _ _ _ _ Hrun). exists r1. split; [done|]. by apply same_delete.
Qed.

(** *** Pushing *)

(** The keys of the directory are not those of the registry. *)
Lemma not_registry_key k :
  HasPrefix k (manifestDirObjectKeyPrefix +:+ "/") = true -> HasPrefix k "org.opencontainers." = false.
Proof. intros [s ->]%HasPrefix_true. by vm_compute. Qed.


(** Tagging the manifest that was packed for a record. *)
Lemma tag_run x b l mb m dm r :
  oci_inv r -> record_ok x -> MarshalOASF (Some x) = Ok b ->
  refs r !! Digest_String (Desc_Digest dm) = Some dm ->
  Desc_Digest l = NewDigestFromBytes SHA256 (Sum256 b) -> blob_at r (Desc_Digest l) = Some b ->
  Desc_Digest dm = NewDigestFromBytes SHA256 (Sum256 mb) -> blob_at r (Desc_Digest dm) = Some mb ->
  json_Unmarshal mb = Ok m -> Layers m = [l] ->
  keeps (Man_Annotations m) (extractManifestAnnotations x) ->
  exists r', oras_Tag (Digest_String (Desc_Digest dm)) (GetCid (Some x)) r = (Ok tt, r')
    /\ oci_inv r'
    /\ (oci_obs r').1 = <[GetCid (Some x) := x]> (oci_obs r).1
    /\ forall c, c <> GetCid (Some x) -> (oci_obs r').2 !! c = (oci_obs r).2 !! c.
Proof.
  intros Hinv Hx Hb Hdm Hdl Hat Hdd Hmb Hm Hl Hk.
  pose proof (Tag_spec (Digest_String (Desc_Digest dm)) (GetCid (Some x)) r) as Ht.
  destruct (oras_Tag _ _ r) as [y r']. destruct Ht as (Htype & Hblob & Ht). rewrite Hdm in Ht.
  destruct Ht as [-> Hrefs]. exists r'. split; [done|].
  assert (Hcan : canonical (GetCid (Some x)) = true) by by apply record_cid_known.
  assert (Hst : forall c d y, stored r c d y -> stored r' c d y).
  { intros c d y [Hy Hcy (mb' & m' & l' & b' & Hd' & Hmb' & Hm' & Hl' & Hk' & Hdl' & Hb' & Hat')].
    split; [done|done|]. exists mb', m', l', b'. rewrite !Hblob. by repeat (split; [done|]). }
  assert (Hnew : stored r' (GetCid (Some x)) dm x).
  { split; [done|done|]. exists mb, m, l, b. rewrite !Hblob. by repeat (split; [done|]). }
  assert (Hsame : same_but (Some (GetCid (Some x))) r r').
  { intros c Hc Hne. split; [by rewrite Hrefs, lookup_insert_ne by congruence|].
    intros d y Hd Hy. split; [by apply Hst|]. by rewrite Hblob. }
  split; [|split].
  - destruct Hinv as [Hty Hinv]. split; [by rewrite Htype|]. intros c d Hc Hd. rewrite Hrefs in Hd.
    apply lookup_insert_Some in Hd as [[<- <-]|[Hne Hd]]; [by exists x|].
    destruct (Hinv c d Hc Hd) as [y Hy]. exists y. by apply Hst.
  - apply map_eq. intros c. destruct (decide (c = GetCid (Some x))) as [->|Hne].
    + rewrite lookup_insert_eq, obs_records, Hcan, Hrefs, lookup_insert_eq. simpl.
      by apply (stored_record _ (GetCid (Some x))).
    + rewrite lookup_insert_ne by done. eapply (same_obs (Some (GetCid (Some x)))); [done|done|congruence].
  - intros c Hne. eapply (same_obs (Some (GetCid (Some x)))); [done|done|congruence].
Qed.

Lemma oci_Push_run x r :
  oci_inv r -> record_ok x ->
  exists res r', oci.Push (Some x) r = (res, r') /\ oci_inv r'
    /\ allowed (OpPush x) (ResPush res) (oci_obs r) (oci_obs r').
Proof.
  intros Hinv Hx. unfold oci.Push. destruct (record_bytes x Hx) as (b & Hb & _ & _). rewrite Hb.
  destruct (cid_digest x b Hx Hb) as [Hcd Hdc].
  pose proof (record_cid_known x Hx) as (Hg & Hcan & _).
  assert (GetCid (Some x) <> "") as Hne by (intros Heq; by rewrite Heq in Hg).
  unfold try_bind at 1, bind at 1.
  pose proof (PushBytes_spec "application/json" b r) as Hp.
  destruct (oras_PushBytes "application/json" b r) as [y r1]. destruct Hp as (Hg1 & Ht1 & Hp).
  destruct (same_none r r1 Hinv (grows_same _ _ Hg1) Ht1) as [Ho1 Hinv1].
  destruct y as [l|e]; [|eexists _, r1; split; [done|]; split; [done|]; done].
  destruct Hp as [Hdl Hat]. rewrite Hdl, Hdc, decide_False by (intros ?; done).
  unfold bind at 1, oci.Lookup. pose proof (lookup_answers (GetCid (Some x)) r1 Hcan Hne) as Ha.
  destruct (oci.lookup _ r1) as [meta|e] eqn:Hl.
  { eexists _, r1. split; [done|]. split; [done|]. unfold allowed. rewrite Ho1. split; [done|].
    rewrite obs_metadata, Hcan in Ha.
    destruct (refs r1 !! GetCid (Some x)) as [d|] eqn:Hd; [|done].
    destruct (proj2 Hinv1 _ d Hcan Hd) as [x' Hx']. pose proof Hx' as [Hok' Hcid' _].
    assert (x' = x) as -> by by apply collision_free.
    rewrite insert_id; [done|]. rewrite <- Ho1, obs_records, Hcan, Hd. simpl. by eapply stored_record. }
  assert (Hnone : refs r1 !! GetCid (Some x) = None).
  { rewrite obs_metadata, Hcan in Ha. destruct (refs r1 !! GetCid (Some x)) as [d|] eqn:Hd; [|done].
    destruct (proj2 Hinv1 _ d Hcan Hd) as [x' Hx']. destruct (stored_meta _ _ _ _ Hx') as (a & Hm & _).
    simpl in Ha. by rewrite Hm in Ha. }
  unfold try_bind at 1, bind at 1.
  match goal with |- context [oras_PackManifest ?o] => set (opts := o) end.
  pose proof (PackManifest_spec opts r1) as Hpk.
  destruct (oras_PackManifest opts r1) as [y r2]. destruct Hpk as (Hg2 & Ht2 & Hpk).
  destruct (same_none r1 r2 Hinv1 (grows_same _ _ Hg2) Ht2) as [Ho2 Hinv2].
  destruct y as [dm|e']; [|eexists _, r2; split; [done|]; split; [done|]; unfold allowed; congruence].
  destruct Hpk as (Hdm & mb & m & Hdd & Hmb & Hm & Hlm & Hk).
  destruct (tag_run x b l mb m dm r2) as (r3 & Hrun & Hinv3 & Hr & Hother); try done.
  { by apply Hg2. }
  { intros k Hp Hne'. rewrite Hk by by apply not_registry_key. simpl.
    by rewrite lookup_insert_ne. }
  rewrite (try_bind_ok _ _ _ _ _ _ Hrun). eexists _, r3. split; [done|]. split; [done|].
  unfold allowed. split; [done|]. rewrite Hr, Ho2, Ho1. split; [done|]. split.
  - intros c Hc. rewrite Hother by done. by rewrite Ho2, Ho1.
  - intros m' Hm'. rewrite <- Ho1, obs_metadata, Hcan, Hnone in Hm'. done.
Qed.

(** *** The promises *)

Lemma oci_spec : StoreSpec R oci_inv oci_obs record_cid_text record_ok meta_ok.
Proof.
  split.
  - by intros c [].
  - intros r c x Hinv. rewrite obs_records. destruct (canonical c) eqn:Hc; [|done].
    destruct (refs r !! c) as [d|] eqn:Hd; [|done]. simpl. intros Hx.
    destruct (proj2 Hinv c d Hc Hd) as [y Hy]. rewrite (stored_record _ _ _ _ Hy) in Hx. simplify_eq.
    destruct Hy as [Hok <- _]. split; [done|]. split; [by apply record_cid_known|done].
  - intros r c m Hinv. rewrite obs_metadata. destruct (canonical c) eqn:Hc; [|done].
    destruct (refs r !! c) as [d|] eqn:Hd; [|done]. simpl. intros Hm.
    destruct (proj2 Hinv c d Hc Hd) as [y Hy]. destruct (stored_meta _ _ _ _ Hy) as (a & Ha & Hk).
    rewrite Ha in Hm. simplify_eq. destruct Hy as [Hok <- _].
    split; [done|]. split; [by apply record_cid_known|by apply (annotations_ok y)].
  - intros r op Hinv Hop.
    assert (Hne : forall c, record_cid_text c -> canonical c = true /\ c <> "").
    { intros c (Hg & Hc & _). split; [done|]. by intros ->. }
    destruct op as [x|c|c|c]; unfold run_op, bind; simpl in Hop.
    + destruct (oci_Push_run x r Hinv Hop) as (res & r' & Hrun & Hinv' & Ha).
      change (store_Push (Some x) r) with (oci.Push (Some x) r). by rewrite Hrun.
    + destruct (Hne c Hop). split; [|done]. split; [|done]. by apply pull_answers.
    + destruct (Hne c Hop). split; [|done]. split; [|done]. by apply lookup_answers.
    + destruct (oci_Delete_run c r Hinv Hop) as (r' & Hrun & Ho & Hinv').
      change (store_Delete (Some {| ref_Cid := c |}) r) with (oci.Delete (Some {| ref_Cid := c |}) r).
      by rewrite Hrun.
Qed.


(** A lookup shows the record.  The metadata of a stored record carries its
    CID, its creation time and schema version, and under every key the custom
    annotation of the record or the field of that name. *)
Theorem oci_lookup_shows r c x rd :
  oci_inv r -> (oci_obs r).1 !! c = Some x -> GetRecordData x = Some rd ->
  oci.Lookup (Some {| ref_Cid := c |}) r = (Ok {|
    Meta_Cid := c; Meta_Annotations := GetAnnotations rd ∪ metadata_of x rd;
    Meta_SchemaVersion := if decide (GetSchemaVersion rd = "") then "v0.3.1" else GetSchemaVersion rd;
    Meta_CreatedAt := GetCreatedAt rd |}, r).
Proof.
  intros Hinv Hx Hrd. rewrite obs_records in Hx. destruct (canonical c) eqn:Hc; [|done].
  destruct (refs r !! c) as [d|] eqn:Hd; [|done]. simpl in Hx.
  destruct (proj2 Hinv c d Hc Hd) as [y Hy]. rewrite (stored_record _ _ _ _ Hy) in Hx. simplify_eq.
  destruct (stored_meta _ _ _ _ Hy) as (a & Ha & Hk). destruct Hy as [Hok <- _].
  assert (Hne : GetCid (Some x) <> "").
  { destruct (record_cid_known x Hok) as (Hg & _). intros Heq. by rewrite Heq in Hg. }
  pose proof (lookup_answers _ r Hc Hne) as Hl. rewrite obs_metadata, Hc, Hd in Hl. simpl in Hl.
  rewrite Ha in Hl. simpl in Hl. unfold oci.Lookup. rewrite Hl. unfold meta_with.
  by rewrite (annotations_parse x rd a Hrd Hk).
Qed.

(** In a local layout, deleting by another text of the CID (in another base, say),
    under which nothing is tagged, removes the blob of the record and leaves its
    manifest: the record is still looked up and cannot be pulled. *)
Lemma Delete_other_text r c c' d x dg :
  oci_inv r -> repo_type r = oci_Store -> canonical c = true -> refs r !! c = Some d -> stored r c d x ->
  c' <> "" -> refs r !! c' = None -> ConvertCIDToDigest c = Ok dg -> ConvertCIDToDigest c' = Ok dg ->
  (forall mb m, json_Unmarshal mb = Ok m -> Layers m <> [] ->
    dg <> NewDigestFromBytes SHA256 (Sum256 mb)) ->
  exists r', oci.Delete (Some {| ref_Cid := c' |}) r = (Ok tt, r')
    /\ is_ok (oci.lookup (Some {| ref_Cid := c |}) r') = true
    /\ is_ok (oci.pull (Some {| ref_Cid := c |}) r') = false.
Proof.
  intros Hinv Ht Hcan Hd Hx Hne' Hc' Hdg Hdg' Hman.
  assert (Hne : c <> "").
  { destruct Hx as [Hok <- _]. destruct (record_cid_known x Hok) as (Hg & _). intros Heq.
    by rewrite Heq in Hg. }
  unfold oci.Delete. rewrite valid_ref, Ht by done. unfold oci.deleteFromOCIStore. rewrite Ht.
  simpl (ref_GetCid _). pose proof (Resolve_spec c' r) as Hr. rewrite Hc' in Hr. destruct Hr as [e ->].
  unfold bind at 1, ret at 1, oci.deleteBlobForLocalStore. rewrite Hdg'.
  match goal with |- context [ociStore_Delete ?d] => pose proof (ociStore_Delete_spec d r Ht) as Hdel;
    destruct (ociStore_Delete d r) as [y r'] eqn:Hrun end.
  destruct Hdel as [Hdel Ht']. simpl (Desc_Digest _) in Hdel. exists r'.
  split; [unfold try_bind, bind; rewrite Hrun; by destruct y|].
  destruct Hx as [Hok Hcid (mb & m & l & b & Hdd & Hmb & Hm & Hl & Hk & Hdl & Hb & Hat)].
  destruct (cid_digest x b Hok Hb) as [Hcd _]. rewrite Hcid, Hdg, <- Hdl in Hcd. injection Hcd as ->.
  assert (Hnd : Desc_Digest d <> Desc_Digest l).
  { rewrite Hdd. intros Heq. symmetry in Heq. revert Heq. apply (Hman mb m Hm). by rewrite Hl. }
  assert (Href : refs r' !! c = Some d).
  { rewrite (del_other _ _ _ _ _ _ Hdel c Hcan); [done|]. intros d' Hd'. congruence. }
  assert (Hmb' : blob_at r' (Desc_Digest d) = Some mb).
  { rewrite (del_kept _ _ _ _ _ _ Hdel c d); [done..|by left]. }
  assert (Hgone : blob_at r' (Desc_Digest l) = None).
  { apply (del_gone _ _ _ _ _ _ Hdel). by apply (del_ok _ _ _ _ _ _ Hdel b). }
  pose proof (lookup_answers c r' Hcan Hne) as Hla. pose proof (pull_answers c r' Hcan Hne) as Hpa.
  rewrite obs_metadata, Hcan, Href in Hla. rewrite obs_records, Hcan, Href in Hpa. simpl in Hla, Hpa.
  unfold meta_at, record_at, manifest_at in *. rewrite Hmb' in Hla, Hpa. simpl in Hla, Hpa.
  rewrite Hm in Hla, Hpa. simpl in Hla, Hpa. rewrite Hl in Hpa. simpl in Hpa. rewrite Hgone in Hpa.
  rewrite Hk, extract_type in Hla by done. simpl in Hla, Hpa. split; [by rewrite Hla|done].
Qed.

End promises.

(** ** An executable registry: a local layout as two finite maps *)

Module DemoOci.
Import DemoCore MapDatastore StoreCache.DemoCache.

#[local] Instance Descriptor_eq_dec : EqDecision Descriptor.
Proof. solve_decision. Defined.

#[local] Instance Descriptor_countable : Countable Descriptor.
Proof.
  refine (inj_countable' (A := string * (string * string) * Z * gmap string string)
    (fun d => (MediaType d, Desc_Digest d, Size d, Desc_Annotations d))
    (fun '(m, dg, s, a) => {| MediaType := m; Desc_Digest := dg; Size := s; Desc_Annotations := a |}) _).
  by intros [].
Defined.

#[local] Instance Manifest_eq_dec : EqDecision Manifest.
Proof. solve_decision. Defined.

#[local] Instance Manifest_countable : Countable Manifest.
Proof.
  refine (inj_countable' (fun m => (Man_Annotations m, Layers m))
    (fun '(a, l) => {| Man_Annotations := a; Layers := l |}) _).
  by intros [].
Defined.

(** A manifest is written with a mark that no record starts with. *)
#[local] Instance manifest_codec : JsonCodec Manifest := {|
  json_Marshal m := result_map (String.append "m") ((BinaryCodec.codec Manifest).(json_Marshal) m);
  json_Unmarshal s := match strip_prefix "m" s with
    | Some s => (BinaryCodec.codec Manifest).(json_Unmarshal) s
    | None => Err (Plain "no manifest") end |}.

Record Layout := { l_blobs : gmap (string * string) string; l_refs : gmap string Descriptor }.

Definition digest_of (b : string) : string * string := NewDigestFromBytes SHA256 (Sum256 b).

Definition describe (mt b : string) : Descriptor := {|
  MediaType := mt; Desc_Digest := digest_of b; Size := Z.of_nat (String.length b);
  Desc_Annotations := ∅ |}.

(** Content is written once; other content with the same digest is refused. *)
Definition put (b : string) (r : Layout) : option Layout :=
  match l_blobs r !! digest_of b with
  | Some b' => if decide (b' = b) then Some r else None
  | None => Some {| l_blobs := <[digest_of b := b]> (l_blobs r); l_refs := l_refs r |}
  end.

Definition set_ref (s : string) (d : Descriptor) (r : Layout) : Layout :=
  {| l_blobs := l_blobs r; l_refs := <[s := d]> (l_refs r) |}.

Definition remove (d : Descriptor) (r : Layout) : Layout := {|
  l_blobs := delete (Desc_Digest d) (l_blobs r);
  l_refs := filter (fun kv => Desc_Digest kv.2 <> Desc_Digest d) (l_refs r) |}.

Definition manifest_bytes (o : PackManifestOptions) : string :=
  "m" +:+ BinaryCodec.write (encode {| Man_Annotations := ManifestAnnotations o; Layers := Pack_Layers o |}).

Lemma manifest_roundtrip (m : Manifest) :
  json_Unmarshal ("m" +:+ BinaryCodec.write (encode m)) = Ok m.
Proof.
  destruct (@json_roundtrip _ _ _ (BinaryCodec.codec_spec Manifest) m I) as (b & Hb & Hm).
  injection Hb as <-. unfold json_Unmarshal at 1, manifest_codec.
  by rewrite (proj2 (strip_prefix_Some "m" ("m" +:+ BinaryCodec.write (encode m)) _) eq_refl).
Qed.

#[local] Instance layout : Registry Layout := {|
  repo_type _ := oci_Store;
  oras_PushBytes mt b := fun r => match put b r with
    | Some r => (Ok (describe mt b), r) | None => (Err (Plain "digest mismatch"), r) end;
  oras_PackManifest o := fun r => let b := manifest_bytes o in match put b r with
    | Some r => (Ok (describe "manifest" b),
        set_ref (Digest_String (digest_of b)) (describe "manifest" b) r)
    | None => (Err (Plain "digest mismatch"), r) end;
  oras_Tag src dst := fun r => match l_refs r !! src with
    | Some d => (Ok tt, set_ref dst d r) | None => (Err (Plain "not found"), r) end;
  repo_Resolve s r := match l_refs r !! s with Some d => Ok d | None => Err (Plain "not found") end;
  repo_Fetch d r := match l_blobs r !! Desc_Digest d with
    | Some b => Ok (Ok b) | None => Err (Plain "not found") end;
  ociStore_Delete d := fun r => (Ok tt, remove d r);
  manifests_Delete d := fun r => (Ok tt, remove d r);
  repo_Referrers _ := None;
|}.

Definition blob_at (r : Layout) (dg : string * string) : option string := l_blobs r !! dg.

Lemma put_grows b r r' : put b r = Some r' ->
  l_refs r' = l_refs r /\ blob_at r' (digest_of b) = Some b /\
  forall dg b', blob_at r dg = Some b' -> blob_at r' dg = Some b'.
Proof.
  unfold put, blob_at. destruct (l_blobs r !! digest_of b) as [b'|] eqn:Hb.
  - case_decide as Heq; [|done]. intros [= <-]. subst. done.
  - intros [= <-]. simpl. split; [done|]. split; [apply lookup_insert_eq|]. intros dg b' Hdg.
    rewrite lookup_insert_ne; [done|]. intros <-. congruence.
Qed.

(** No digest is a CID. *)
Lemma digest_not_canonical b : canonical (Digest_String (digest_of b)) = false.
Proof. reflexivity. Qed.

Lemma remove_deleted d r : deleted blob_at l_refs (Desc_Digest d) r (Ok tt) (remove d r).
Proof.
  split; unfold blob_at, remove; simpl; try done.
  - intros c d' _ Hc Hd. split; [done|]. apply map_lookup_filter_None. right.
    intros d'' Hd''. simpl. congruence.
  - intros c _ Hc. destruct (l_refs r !! c) as [d'|] eqn:Hd.
    + apply map_lookup_filter_Some. split; [done|]. by apply Hc.
    + apply map_lookup_filter_None. by left.
  - intros _. apply lookup_delete_eq.
  - intros dg b [_ ?]%lookup_delete_Some. done.
  - intros c d' dg _ _ Hne _. by rewrite lookup_delete_ne.
Qed.

#[local] Instance layout_spec : RegistrySpec Layout blob_at l_refs.
Proof.
  split; simpl.
  - intros s r. destruct (l_refs r !! s); eauto.
  - intros d r. unfold blob_at. generalize (Desc_Digest d). intros [a h].
    destruct (l_blobs r !! (a, h)); eauto.
  - intros mt b r. destruct (put b r) as [r'|] eqn:Hp; simpl; [|done].
    destruct (put_grows b r r' Hp) as (Hr & Hb & Hg). split; [|done]. split; [|done].
    intros c _. by rewrite Hr.
  - intros o r. destruct (put (manifest_bytes o) r) as [r'|] eqn:Hp; simpl; [|done].
    destruct (put_grows _ r r' Hp) as (Hr & Hb & Hg). split; [|split; [done|]].
    + split; [|done]. intros c Hc. simpl. rewrite lookup_insert_ne, Hr; [done|].
      intros <-. by rewrite digest_not_canonical in Hc.
    + split; [apply lookup_insert_eq|]. exists (manifest_bytes o).
      exists {| Man_Annotations := ManifestAnnotations o; Layers := Pack_Layers o |}.
      split; [done|]. split; [done|]. split; [|done].
      apply manifest_roundtrip.
  - intros src dst r. destruct (l_refs r !! src); simpl; eauto.
  - intros d r _. split; [apply remove_deleted|done].
  - intros d r _. split; [apply remove_deleted|done].
Qed.

Definition is_demo (r : CoreRecord) : Prop := r = demo_rec.

Lemma layout_bytes r : is_demo r -> exists b, MarshalOASF (Some r) = Ok b /\ b <> "" /\ UnmarshalOASF b = Ok r.
Proof. intros ->. exists "vv0.5.0". by vm_compute. Qed.

Lemma demo_cid r : is_demo r -> good_elem (GetCid (Some r)) = true.
Proof. intros ->. by vm_compute. Qed.

Lemma demo_injective r r' : is_demo r -> is_demo r' -> GetCid (Some r) = GetCid (Some r') -> r = r'.
Proof. by intros -> ->. Qed.

Lemma demo_no_clash r b mb (m : Manifest) : is_demo r -> MarshalOASF (Some r) = Ok b ->
  json_Unmarshal mb = Ok m -> Layers m <> [] -> Sum256 b <> Sum256 mb.
Proof.
  intros -> Hb Hm _. vm_compute in Hb. injection Hb as <-. simpl in Hm.
  destruct mb as [|x mb]; [done|]. simpl in Hm. case_decide as Hx; [|done]. subst x.
  simpl. unfold pad32. done.
Qed.

(** A layout in which the record was pushed. *)
Definition empty : Layout := {| l_blobs := ∅; l_refs := ∅ |}.

Lemma empty_inv : oci_inv (blob_at := blob_at) (refs := l_refs) (record_ok := is_demo) empty.
Proof. split; [by left|]. by intros c d _ Hd. Qed.

Definition pushed : Layout := (oci.Push (Some demo_rec) empty).2.

Lemma pushed_inv : oci_inv (blob_at := blob_at) (refs := l_refs) (record_ok := is_demo) pushed.
Proof.
  destruct (oci_Push_run (record_ok := is_demo) layout_bytes demo_cid demo_injective demo_no_clash
    demo_rec empty empty_inv eq_refl) as (res & r' & Hrun & Hinv & _).
  unfold pushed. by rewrite Hrun.
Qed.


Lemma oci_lookup_shows_witness :
  exists m, oci.Lookup (Some {| ref_Cid := demo_id |}) pushed = (Ok m, pushed)
    /\ Meta_Annotations m !! "oasf-version" = Some "v0.5.0" /\ Meta_Annotations m !! "name" = None.
Proof.
  eexists. split.
  - apply (oci_lookup_shows layout_bytes demo_cid demo_no_clash pushed demo_id demo_rec
      (V3DataAdapter (Some (bare "v0.5.0"))) pushed_inv); vm_compute; reflexivity.
  - split; vm_compute; reflexivity.
Defined.

End DemoOci.
