(* ===== verification/Search.v ===== *)
(** * The search index

    server/types/search.go, server/database/utils/utils.go,
    server/database/sqlite/record.go (with skill.go, locator.go, extension.go)
    and server/controller/search.go: records are indexed in SQL tables, and a
    search turns queries into filters and filters into one statement.  The
    tables are behind the class [Gorm]; its laws give a statement the meaning
    of a join. *)

From S2P Require Import Prelude GoStrings Interfaces Adapters CoreRecord.

Open Scope string_scope.
Open Scope list_scope.
Open Scope go_scope.

(** ** Queries (api/search/v1) *)

Module searchv1.

Inductive RecordQueryType :=
  | RECORD_QUERY_TYPE_UNSPECIFIED
  | RECORD_QUERY_TYPE_NAME
  | RECORD_QUERY_TYPE_VERSION
  | RECORD_QUERY_TYPE_SKILL_ID
  | RECORD_QUERY_TYPE_SKILL_NAME
  | RECORD_QUERY_TYPE_LOCATOR
  | RECORD_QUERY_TYPE_EXTENSION
  | RECORD_QUERY_TYPE_OTHER (n : Z).   (** any other number on the wire *)

#[export] Instance RecordQueryType_eq_dec : EqDecision RecordQueryType.
Proof. solve_decision. Defined.

Record RecordQuery := { GetType : RecordQueryType; GetValue : string }.

End searchv1.
Import searchv1.

(** ** Filters (types/search.go) *)

Record RecordFilters := mkFilters {
  Limit : Z; Offset : Z; F_Name : string; F_Version : string;
  SkillIDs : list Z; SkillNames : list string;
  LocatorTypes : list string; LocatorURLs : list string;
  ExtensionNames : list string; ExtensionVersions : list string }.

(** [&types.RecordFilters{}]. *)
Definition zero_filters : RecordFilters := mkFilters 0 0 "" "" [] [] [] [] [] [].

(** A [FilterOption] is a function that changes one field. *)
Definition FilterOption : Type := RecordFilters -> RecordFilters.

Definition WithLimit (limit : Z) : FilterOption := fun '(mkFilters _ o n v si sn lt lu en ev) =>
  mkFilters limit o n v si sn lt lu en ev.
Definition WithOffset (offset : Z) : FilterOption := fun '(mkFilters l _ n v si sn lt lu en ev) =>
  mkFilters l offset n v si sn lt lu en ev.
Definition WithName (name : string) : FilterOption := fun '(mkFilters l o _ v si sn lt lu en ev) =>
  mkFilters l o name v si sn lt lu en ev.
Definition WithVersion (version : string) : FilterOption := fun '(mkFilters l o n _ si sn lt lu en ev) =>
  mkFilters l o n version si sn lt lu en ev.
Definition WithSkillIDs (ids : list Z) : FilterOption := fun '(mkFilters l o n v _ sn lt lu en ev) =>
  mkFilters l o n v ids sn lt lu en ev.
Definition WithSkillNames (names : list string) : FilterOption := fun '(mkFilters l o n v si _ lt lu en ev) =>
  mkFilters l o n v si names lt lu en ev.
Definition WithLocatorTypes (types : list string) : FilterOption := fun '(mkFilters l o n v si sn _ lu en ev) =>
  mkFilters l o n v si sn types lu en ev.
Definition WithLocatorURLs (urls : list string) : FilterOption := fun '(mkFilters l o n v si sn lt _ en ev) =>
  mkFilters l o n v si sn lt urls en ev.
Definition WithExtensionNames (names : list string) : FilterOption := fun '(mkFilters l o n v si sn lt lu _ ev) =>
  mkFilters l o n v si sn lt lu names ev.
Definition WithExtensionVersions (versions : list string) : FilterOption := fun '(mkFilters l o n v si sn lt lu en _) =>
  mkFilters l o n v si sn lt lu en versions.

(** ** From queries to filters (database/utils/utils.go) *)

(** The body of the two cases that cut their value at the first colon. *)
Definition pair_options (first second : list string -> FilterOption) (value : string)
  : list FilterOption :=
  match SplitN2 ":" value with
  | [a] => if decide (TrimSpace a <> "") then [first [a]] else []
  | [a; b] =>
      (if decide (TrimSpace a <> "") then [first [a]] else []) ++
      (if decide (TrimSpace b <> "") then [second [b]] else [])
  | _ => []
  end.

(** One round of the loop of [QueryToFilters]. *)
Definition query_options (query : RecordQuery) : result (list FilterOption) :=
  match GetType query with
  | RECORD_QUERY_TYPE_UNSPECIFIED => Ok []
  | RECORD_QUERY_TYPE_NAME => Ok [WithName (GetValue query)]
  | RECORD_QUERY_TYPE_VERSION => Ok [WithVersion (GetValue query)]
  | RECORD_QUERY_TYPE_SKILL_ID =>
      match ParseUint64 (GetValue query) with
      | Err err => Err (Wrap ("failed to parse skill ID " +:+ GetValue query +:+ ": ") err)
      | Ok u64 => Ok [WithSkillIDs [u64]]
      end
  | RECORD_QUERY_TYPE_SKILL_NAME => Ok [WithSkillNames [GetValue query]]
  | RECORD_QUERY_TYPE_LOCATOR => Ok (pair_options WithLocatorTypes WithLocatorURLs (GetValue query))
  | RECORD_QUERY_TYPE_EXTENSION =>
      Ok (pair_options WithExtensionNames WithExtensionVersions (GetValue query))
  | RECORD_QUERY_TYPE_OTHER _ => Ok []
  end.

Fixpoint filters_loop (options : list FilterOption) (queries : list RecordQuery)
  : result (list FilterOption) :=
  match queries with
  | [] => Ok options
  | query :: queries =>
      match query_options query with
      | Err e => Err e
      | Ok o => filters_loop (options ++ o) queries
      end
  end.

Definition QueryToFilters (queries : list RecordQuery) : result (list FilterOption) :=
  filters_loop [] queries.

(** ** The tables and statements (database/sqlite) *)

Module sqlite.

(** Rows; the columns that GORM manages by itself (row IDs and time stamps) are
    left out. *)
Record Skill := { Sk_RecordCID : string; Sk_SkillID : Z; Sk_Name : string }.
Record Locator := { Lo_RecordCID : string; Lo_Type : string; Lo_URL : string }.
Record Extension := { Ex_RecordCID : string; Ex_Name : string; Ex_Version : string }.

(** A record row with its associations. *)
Record RecordRow := {
  R_RecordCID : string; R_Name : string; R_Version : string;
  R_Skills : list Skill; R_Locators : list Locator; R_Extensions : list Extension }.

(** The rows as values of the interfaces of types/record.go; what the tables do
    not keep is empty. [created] is [CreatedAt], formatted. *)
Definition Skill_view (skill : Skill) : Adapters.Skill := {|
  Skill_GetAnnotations := ∅; Skill_GetName := Sk_Name skill; Skill_GetID := Sk_SkillID skill |}.

Definition Locator_view (locator : Locator) : Adapters.Locator := {|
  Loc_GetAnnotations := ∅; Loc_GetType := Lo_Type locator; Loc_GetURL := Lo_URL locator;
  Loc_GetSize := 0; Loc_GetDigest := "" |}.

Definition Extension_view (extension : Extension) : Adapters.Extension := {|
  Ext_GetAnnotations := ∅; Ext_GetName := Ex_Name extension; Ext_GetVersion := Ex_Version extension;
  Ext_GetData := Some [] |}.

Definition RecordDataAdapter (created : string) (r : RecordRow) : RecordData := {|
  GetAnnotations := ∅; GetSchemaVersion := "v1"; GetName := R_Name r; GetVersion := R_Version r;
  GetDescription := ""; GetAuthors := []; GetCreatedAt := created;
  GetSkills := Skill_view <$> R_Skills r; GetLocators := Locator_view <$> R_Locators r;
  GetExtensions := Extension_view <$> R_Extensions r; RD_GetSignature := None;
  GetPreviousRecordCid := "" |}.

Definition convertSkills (skills : list Adapters.Skill) (recordCID : string) : list Skill :=
  (fun skill => {| Sk_RecordCID := recordCID; Sk_SkillID := Skill_GetID skill;
                   Sk_Name := Skill_GetName skill |}) <$> skills.

Definition convertLocators (locators : list Adapters.Locator) (recordCID : string) : list Locator :=
  (fun locator => {| Lo_RecordCID := recordCID; Lo_Type := Loc_GetType locator;
                     Lo_URL := Loc_GetURL locator |}) <$> locators.

Definition convertExtensions (extensions : list Adapters.Extension) (recordCID : string)
  : list Extension :=
  (fun extension => {| Ex_RecordCID := recordCID; Ex_Name := Ext_GetName extension;
                       Ex_Version := Ext_GetVersion extension |}) <$> extensions.

(** A statement that GORM builds for the model [Record], always DISTINCT:
    the joins on [record_cid], the conditions, LIMIT and OFFSET. *)
Inductive Table := skills | locators | extensions.

#[export] Instance Table_eq_dec : EqDecision Table.
Proof. solve_decision. Defined.

Inductive Cond :=
  | records_name_LIKE (pattern : string)
  | records_version_eq (version : string)
  | skills_skill_id_IN (ids : list Z)
  | skills_name_IN (names : list string)
  | locators_type_IN (types : list string)
  | locators_url_IN (urls : list string)
  | extensions_name_IN (names : list string)
  | extensions_version_IN (versions : list string).

Record Stmt := {
  St_Limit : option Z; St_Offset : option Z; St_Joins : list Table; St_Where : list Cond }.

Definition db_Distinct : Stmt :=
  {| St_Limit := None; St_Offset := None; St_Joins := []; St_Where := [] |}.
Definition db_Limit (n : Z) (q : Stmt) : Stmt :=
  {| St_Limit := Some n; St_Offset := St_Offset q; St_Joins := St_Joins q; St_Where := St_Where q |}.
Definition db_Offset (n : Z) (q : Stmt) : Stmt :=
  {| St_Limit := St_Limit q; St_Offset := Some n; St_Joins := St_Joins q; St_Where := St_Where q |}.
Definition db_Joins (t : Table) (q : Stmt) : Stmt :=
  {| St_Limit := St_Limit q; St_Offset := St_Offset q; St_Joins := St_Joins q ++ [t];
     St_Where := St_Where q |}.
Definition db_Where (c : Cond) (q : Stmt) : Stmt :=
  {| St_Limit := St_Limit q; St_Offset := St_Offset q; St_Joins := St_Joins q;
     St_Where := St_Where q ++ [c] |}.

(** The calls of GORM that the index makes. *)
Class Gorm (D : Type) := {
  gorm_First : string -> D -> result RecordRow;      (** [Where("record_cid = ?", cid).First] *)
  gorm_Create : RecordRow -> M D (result unit);
  gorm_Pluck : Stmt -> D -> result (list string);    (** [Pluck("record_cid", &cids)] *)
  gorm_Find : Stmt -> D -> result (list RecordRow);  (** with the three [Preload]s *)
  gorm_Delete : string -> M D (result Z);            (** rows affected *)
}.

(** [gorm.ErrRecordNotFound]. *)
Definition ErrRecordNotFound : error := Sentinel "record not found".

(** [if b { query = f(query) }]. *)
Definition when (b : bool) (f : Stmt -> Stmt) (query : Stmt) : Stmt := if b then f query else query.

Definition nonempty {A} (l : list A) : bool := match l with [] => false | _ => true end.

(** Pagination and filters, as [GetRecords] and [GetRecordCIDs] both add them. *)
Definition apply_filters (cfg : RecordFilters) (query : Stmt) : Stmt :=
  let query := when (bool_decide (Limit cfg > 0)%Z) (db_Limit (Limit cfg)) query in
  let query := when (bool_decide (Offset cfg > 0)%Z) (db_Offset (Offset cfg)) query in
  let query := when (bool_decide (F_Name cfg <> ""))
                 (db_Where (records_name_LIKE ("%" +:+ F_Name cfg +:+ "%"))) query in
  let query := when (bool_decide (F_Version cfg <> ""))
                 (db_Where (records_version_eq (F_Version cfg))) query in
  let query := when (nonempty (SkillIDs cfg) || nonempty (SkillNames cfg)) (fun query =>
    let query := db_Joins skills query in
    let query := when (nonempty (SkillIDs cfg)) (db_Where (skills_skill_id_IN (SkillIDs cfg))) query in
    when (nonempty (SkillNames cfg)) (db_Where (skills_name_IN (SkillNames cfg))) query) query in
  let query := when (nonempty (LocatorTypes cfg) || nonempty (LocatorURLs cfg)) (fun query =>
    let query := db_Joins locators query in
    let query := when (nonempty (LocatorTypes cfg)) (db_Where (locators_type_IN (LocatorTypes cfg))) query in
    when (nonempty (LocatorURLs cfg)) (db_Where (locators_url_IN (LocatorURLs cfg))) query) query in
  when (nonempty (ExtensionNames cfg) || nonempty (ExtensionVersions cfg)) (fun query =>
    let query := db_Joins extensions query in
    let query := when (nonempty (ExtensionNames cfg)) (db_Where (extensions_name_IN (ExtensionNames cfg))) query in
    when (nonempty (ExtensionVersions cfg)) (db_Where (extensions_version_IN (ExtensionVersions cfg))) query) query.

(** [for _, opt := range opts { if opt == nil ...; opt(cfg) }]. *)
Fixpoint apply_options (cfg : RecordFilters) (opts : list (option FilterOption))
  : result RecordFilters :=
  match opts with
  | [] => Ok cfg
  | None :: _ => Err (Plain "nil option provided")
  | Some opt :: opts => apply_options (opt cfg) opts
  end.

(** [types.Record] by its two methods, and its implementation for stored
    records (types/adapters/record.go). *)
Record TypesRecord := { Rec_GetCid : string; Rec_GetRecordData : option RecordData }.

Definition NewRecordAdapter `{HashLib} `{!OasfJson} (record : CoreRecord) : TypesRecord :=
  {| Rec_GetCid := GetCid (Some record); Rec_GetRecordData := GetRecordData record |}.

Section DB.
Context {D : Type} `{Gorm D}.

(** The outer [None] is the nil dereference of a record without data. *)
Definition AddRecord (record : TypesRecord) : M D (option (result unit)) :=
  let recordData := Rec_GetRecordData record in
  let cid := Rec_GetCid record in
  let! first := (fun d => (gorm_First cid d, d)) in
  match first with
  | Ok _ => ret (Some (Ok tt))
  | Err err =>
      if negb (errors_Is err "record not found")
      then ret (Some (Err (Wrap "failed to check existing record: " err)))
      else match recordData with
      | None => ret None
      | Some recordData =>
          let? _u := gorm_Create {|
              R_RecordCID := cid; R_Name := GetName recordData; R_Version := GetVersion recordData;
              R_Skills := convertSkills (GetSkills recordData) cid;
              R_Locators := convertLocators (GetLocators recordData) cid;
              R_Extensions := convertExtensions (GetExtensions recordData) cid |}
            else err => ret (Some (Err (Wrap "failed to add record to SQLite database: " err))) in
          ret (Some (Ok tt))
      end
  end.

Definition GetRecords (opts : list (option FilterOption)) (d : D) : result (list RecordRow) :=
  match apply_options zero_filters opts with
  | Err e => Err e
  | Ok cfg =>
      match gorm_Find (apply_filters cfg db_Distinct) d with
      | Err err => Err (Wrap "failed to query records: " err)
      | Ok dbRecords => Ok dbRecords
      end
  end.

Definition GetRecordCIDs (opts : list (option FilterOption)) (d : D) : result (list string) :=
  match apply_options zero_filters opts with
  | Err e => Err e
  | Ok cfg =>
      match gorm_Pluck (apply_filters cfg db_Distinct) d with
      | Err err => Err (Wrap "failed to query record CIDs: " err)
      | Ok cids => Ok cids
      end
  end.

Definition RemoveRecord (cid : string) : M D (result unit) :=
  let? _rows := gorm_Delete cid
    else err => ret (Err (Wrap "failed to remove record from search database: " err)) in
  ret (Ok tt).

End DB.
End sqlite.

(** ** The search handler (controller/search.go) *)

Module searchCtlr.
Section searchCtlr.
Context {D S : Type} `{sqlite.Gorm D}.
Context (Send : string -> M S (result unit)).   (** [srv.Send] *)

Definition send_cid (_u : unit) (cid : string) : M S (result unit) :=
  let? _v := Send cid else err => ret (Err (Wrap "failed to send record: " err)) in ret (Ok tt).

Definition Search (db : D) (queries : list RecordQuery) (limit offset : Z) : M S (result unit) :=
  match QueryToFilters queries with
  | Err err => ret (Err (Wrap "failed to create filter options: " err))
  | Ok filterOptions =>
      let filterOptions := filterOptions ++ [WithLimit limit; WithOffset offset] in
      match sqlite.GetRecordCIDs (Some <$> filterOptions) db with
      | Err err => ret (Err (Wrap "failed to get record CIDs: " err))
      | Ok recordCIDs => for_try send_cid tt recordCIDs
      end
  end.

End searchCtlr.
End searchCtlr.

(** ** What a statement means *)

Import sqlite.

Record Tables := {
  t_records : gmap string (string * string);   (** name and version by CID *)
  t_skills : list sqlite.Skill; t_locators : list sqlite.Locator;
  t_extensions : list sqlite.Extension }.

Definition joined {A} (on : bool) (rows : list A) : list (option A) :=
  if on then Some <$> rows else [None].

Definition joins (t : Table) (q : Stmt) : bool := bool_decide (t ∈ St_Joins q).

Definition is_in {A} `{EqDecision A} (x : A) (l : list A) : bool := bool_decide (x ∈ l).

(** A condition on a joined row; [like] is SQLite's LIKE. *)
Definition cond_holds (like : string -> string -> bool) (r : string * string)
    (s : option sqlite.Skill) (l : option sqlite.Locator) (e : option sqlite.Extension)
    (c : Cond) : bool :=
  match c with
  | records_name_LIKE p => like p r.1
  | records_version_eq v => bool_decide (r.2 = v)
  | skills_skill_id_IN ids => on s false (fun s => is_in (Sk_SkillID s) ids)
  | skills_name_IN ns => on s false (fun s => is_in (Sk_Name s) ns)
  | locators_type_IN ts => on l false (fun l => is_in (Lo_Type l) ts)
  | locators_url_IN us => on l false (fun l => is_in (Lo_URL l) us)
  | extensions_name_IN ns => on e false (fun e => is_in (Ex_Name e) ns)
  | extensions_version_IN vs => on e false (fun e => is_in (Ex_Version e) vs)
  end.

Definition own {A} (key : A -> string) (cid : string) (rows : list A) : list A :=
  filter (fun x => key x = cid) rows.

(** The CIDs of the joined rows that satisfy a statement's conditions. *)
Definition stmt_rows (like : string -> string -> bool) (T : Tables) (q : Stmt) : list string :=
  map_to_list (t_records T) ≫= fun '(cid, r) =>
  joined (joins skills q) (own Sk_RecordCID cid (t_skills T)) ≫= fun s =>
  joined (joins locators q) (own Lo_RecordCID cid (t_locators T)) ≫= fun l =>
  joined (joins extensions q) (own Ex_RecordCID cid (t_extensions T)) ≫= fun e =>
  if forallb (cond_holds like r s l e) (St_Where q) then [cid] else [].

Definition page {A} (q : Stmt) (rows : list A) : list A :=
  let rows := match St_Offset q with Some n => drop (Z.to_nat n) rows | None => rows end in
  match St_Limit q with Some n => take (Z.to_nat n) rows | None => rows end.

(** A row without its associations, and with them (preloaded). *)
Definition bare_row (cid : string) (r : string * string) : RecordRow := {|
  R_RecordCID := cid; R_Name := r.1; R_Version := r.2;
  R_Skills := []; R_Locators := []; R_Extensions := [] |}.

Definition row_of (T : Tables) (cid : string) : option RecordRow :=
  (fun r => {| R_RecordCID := cid; R_Name := r.1; R_Version := r.2;
               R_Skills := own Sk_RecordCID cid (t_skills T);
               R_Locators := own Lo_RecordCID cid (t_locators T);
               R_Extensions := own Ex_RecordCID cid (t_extensions T) |}) <$> t_records T !! cid.

Definition insert_row (r : RecordRow) (T : Tables) : Tables := {|
  t_records := <[R_RecordCID r := (R_Name r, R_Version r)]> (t_records T);
  t_skills := t_skills T ++ R_Skills r; t_locators := t_locators T ++ R_Locators r;
  t_extensions := t_extensions T ++ R_Extensions r |}.

Definition not_own {A} (key : A -> string) (cid : string) (rows : list A) : list A :=
  filter (fun x => key x <> cid) rows.

(** Deleting a record row; SQLite deletes the rows that refer to it only when
    foreign keys are enabled on the connection. *)
Definition delete_row (cascade : bool) (cid : string) (T : Tables) : Tables := {|
  t_records := delete cid (t_records T);
  t_skills := if cascade then not_own Sk_RecordCID cid (t_skills T) else t_skills T;
  t_locators := if cascade then not_own Lo_RecordCID cid (t_locators T) else t_locators T;
  t_extensions := if cascade then not_own Ex_RecordCID cid (t_extensions T) else t_extensions T |}.

(** ASCII lower case, as LIKE folds it. *)
Definition lower_ascii (c : ascii) : ascii :=
  let n := nat_of_ascii c in
  if decide (65 <= n <= 90)%nat then ascii_of_nat (n + 32) else c.

Fixpoint lower (s : string) : string :=
  match s with EmptyString => EmptyString | String c s => String (lower_ascii c) (lower s) end.

(** A pattern text without wildcards. *)
Definition plain (n : string) : bool := no_sep "%" n && no_sep "_" n.

(** The laws of a database that is up. *)
Class GormSpec (D : Type) `{Gorm D} (tables : D -> Tables) (like : string -> string -> bool) : Prop := {
  like_plain n s : plain n = true -> like ("%" +:+ n +:+ "%") s = Contains (lower s) (lower n);
  gorm_First_spec cid d :
    gorm_First cid d = match t_records (tables d) !! cid with
                       | Some r => Ok (bare_row cid r) | None => Err ErrRecordNotFound end;
  gorm_Create_spec r d : t_records (tables d) !! R_RecordCID r = None ->
    (gorm_Create r d).1 = Ok tt /\ tables (gorm_Create r d).2 = insert_row r (tables d);
  gorm_Pluck_spec q d : exists cids, NoDup cids
    /\ (forall c, c ∈ cids <-> c ∈ stmt_rows like (tables d) q)
    /\ gorm_Pluck q d = Ok (page q cids);
  gorm_Find_spec q d : exists cids, NoDup cids
    /\ (forall c, c ∈ cids <-> c ∈ stmt_rows like (tables d) q)
    /\ gorm_Find q d = Ok (page q (omap (row_of (tables d)) cids));
  gorm_Delete_spec cid d : exists n cascade,
    (gorm_Delete cid d).1 = Ok n /\ tables (gorm_Delete cid d).2 = delete_row cascade cid (tables d);
}.

(** ** What a search means *)

(** What a query asks of each filter. *)
Definition q_name (q : RecordQuery) : option string :=
  if decide (GetType q = RECORD_QUERY_TYPE_NAME) then Some (GetValue q) else None.
Definition q_version (q : RecordQuery) : option string :=
  if decide (GetType q = RECORD_QUERY_TYPE_VERSION) then Some (GetValue q) else None.
Definition q_skill_id (q : RecordQuery) : option Z :=
  if decide (GetType q = RECORD_QUERY_TYPE_SKILL_ID)
  then match ParseUint64 (GetValue q) with Ok n => Some n | Err _ => None end else None.
Definition q_skill_name (q : RecordQuery) : option string :=
  if decide (GetType q = RECORD_QUERY_TYPE_SKILL_NAME) then Some (GetValue q) else None.

(** The part before and the part after the first colon, unless blank. *)
Definition part_before (v : string) : option string :=
  a ← head (SplitN2 ":" v); if decide (TrimSpace a <> "") then Some a else None.
Definition part_after (v : string) : option string :=
  b ← SplitN2 ":" v !! 1%nat; if decide (TrimSpace b <> "") then Some b else None.

Definition q_part (t : RecordQueryType) (part : string -> option string) (q : RecordQuery)
  : option string := if decide (GetType q = t) then part (GetValue q) else None.
Definition q_locator_type := q_part RECORD_QUERY_TYPE_LOCATOR part_before.
Definition q_locator_url := q_part RECORD_QUERY_TYPE_LOCATOR part_after.
Definition q_extension_name := q_part RECORD_QUERY_TYPE_EXTENSION part_before.
Definition q_extension_version := q_part RECORD_QUERY_TYPE_EXTENSION part_after.

(** Of several queries that ask the same of a record, the last one counts. *)
Definition wants {A} (get : RecordQuery -> option A) (qs : list RecordQuery) : option A :=
  last (omap get qs).

Definition query_ok (q : RecordQuery) : bool :=
  if decide (GetType q = RECORD_QUERY_TYPE_SKILL_ID) then is_ok (ParseUint64 (GetValue q)) else true.

Definition opt_eq {A} `{EqDecision A} (o : option A) (x : A) : bool :=
  match o with None => true | Some a => bool_decide (x = a) end.

(** One element of the list has both values asked for. *)
Definition some_has {A B C} `{EqDecision B} `{EqDecision C} (ob : option B) (oc : option C)
    (f : A -> B) (g : A -> C) (l : list A) : bool :=
  match ob, oc with
  | None, None => true
  | _, _ => existsb (fun x => opt_eq ob (f x) && opt_eq oc (g x)) l
  end.

Definition accepts (like : string -> string -> bool) (qs : list RecordQuery) (rd : RecordData) : bool :=
  match wants q_name qs with
  | None => true
  | Some n =>
      if decide (n = "") then true
      else if plain n then Contains (lower (GetName rd)) (lower n)
      else like ("%" +:+ n +:+ "%") (GetName rd)
  end
  && match wants q_version qs with
     | None => true
     | Some v => if decide (v = "") then true else bool_decide (GetVersion rd = v)
     end
  && some_has (wants q_skill_id qs) (wants q_skill_name qs) Skill_GetID Skill_GetName (GetSkills rd)
  && some_has (wants q_locator_type qs) (wants q_locator_url qs) Loc_GetType Loc_GetURL (GetLocators rd)
  && some_has (wants q_extension_name qs) (wants q_extension_version qs) Ext_GetName Ext_GetVersion
       (GetExtensions rd).

(** ** The index as a map from CIDs to record data

    [data_of] is the data a CID stands for.  Rows of a removed record may stay
    behind, but they are rows of the record its CID stands for. *)

Definition children {A} (data_of : string -> option RecordData) (P : gmap string RecordData)
    (key : A -> string) (conv : RecordData -> string -> list A) (rows : list A) : Prop :=
  (forall x, x ∈ rows -> exists rd, data_of (key x) = Some rd /\ x ∈ conv rd (key x)) /\
  (forall c rd x, P !! c = Some rd -> x ∈ conv rd c -> x ∈ rows).

Definition conv_skills (rd : RecordData) := convertSkills (GetSkills rd).
Definition conv_locators (rd : RecordData) := convertLocators (GetLocators rd).
Definition conv_extensions (rd : RecordData) := convertExtensions (GetExtensions rd).

Record index_rep (data_of : string -> option RecordData) (P : gmap string RecordData) (T : Tables)
  : Prop := {
  ir_records c : t_records T !! c = (fun rd => (GetName rd, GetVersion rd)) <$> P !! c;
  ir_data c rd : P !! c = Some rd -> data_of c = Some rd;
  ir_skills : children data_of P Sk_RecordCID conv_skills (t_skills T);
  ir_locators : children data_of P Lo_RecordCID conv_locators (t_locators T);
  ir_extensions : children data_of P Ex_RecordCID conv_extensions (t_extensions T) }.

Inductive index_op :=
  | OpAdd (r : TypesRecord)
  | OpRemove (cid : string).

Definition run_index {D} `{Gorm D} (op : index_op) : M D (option (result unit)) :=
  match op with
  | OpAdd r => AddRecord r
  | OpRemove c => let! r := RemoveRecord c in ret (Some r)
  end.

Fixpoint run_indexes {D} `{Gorm D} (ops : list index_op) (d : D) : list (option (result unit)) * D :=
  match ops with
  | [] => ([], d)
  | op :: ops =>
      let '(x, d) := run_index op d in
      let '(xs, d) := run_indexes ops d in (x :: xs, d)
  end.

Definition spec_index (P : gmap string RecordData) (op : index_op) : gmap string RecordData :=
  match op with
  | OpAdd r => match Rec_GetRecordData r with
               | Some rd => <[Rec_GetCid r := rd]> P | None => P end
  | OpRemove c => delete c P
  end.

(** A record that is added has data, the data its CID stands for. *)
Definition index_op_ok (data_of : string -> option RecordData) (op : index_op) : Prop :=
  match op with
  | OpAdd r => Rec_GetRecordData r <> None /\ data_of (Rec_GetCid r) = Rec_GetRecordData r
  | OpRemove _ => True
  end.

(** ** Queries and filters *)

Section filters.

(** The options a query gives, none when it is in error. *)
Definition options_of (q : RecordQuery) : list FilterOption :=
  match query_options q with Ok o => o | Err _ => [] end.

Definition run_options : RecordFilters -> list FilterOption -> RecordFilters :=
  foldl (fun cfg opt => opt cfg).

Lemma query_options_ok q : is_ok (query_options q) = query_ok q.
Proof.
  unfold query_options, query_ok. destruct (GetType q); simpl; try done.
  by destruct (ParseUint64 (GetValue q)).
Qed.

Lemma filters_loop_spec acc qs :
  match filters_loop acc qs with
  | Ok opts => forallb query_ok qs = true /\ opts = acc ++ (qs ≫= options_of)
  | Err _ => forallb query_ok qs = false
  end.
Proof.
  revert acc. induction qs as [|q qs IH]; intros acc; simpl.
  { by rewrite app_nil_r. }
  rewrite <- query_options_ok. unfold options_of at 1.
  destruct (query_options q) as [o|e]; simpl; [|done].
  specialize (IH (acc ++ o)). destruct (filters_loop _ qs); [|done].
  destruct IH as [-> ->]. by rewrite app_assoc.
Qed.

Lemma apply_options_run cfg opts :
  apply_options cfg (Some <$> opts) = Ok (run_options cfg opts).
Proof. revert cfg. induction opts as [|o opts IH]; intros cfg; [done|]. apply IH. Qed.

(** A field after a new value for it was set, or not. *)
Definition set_to {A B} (o : option A) (f : A -> B) (old : B) : B :=
  match o with Some a => f a | None => old end.

Definition sing {A} (a : A) : list A := [a].

(** What a list of queries makes of the filters. *)
Definition filters_of (qs : list RecordQuery) (cfg : RecordFilters) : RecordFilters :=
  mkFilters (Limit cfg) (Offset cfg)
    (set_to (wants q_name qs) id (F_Name cfg)) (set_to (wants q_version qs) id (F_Version cfg))
    (set_to (wants q_skill_id qs) sing (SkillIDs cfg))
    (set_to (wants q_skill_name qs) sing (SkillNames cfg))
    (set_to (wants q_locator_type qs) sing (LocatorTypes cfg))
    (set_to (wants q_locator_url qs) sing (LocatorURLs cfg))
    (set_to (wants q_extension_name qs) sing (ExtensionNames cfg))
    (set_to (wants q_extension_version qs) sing (ExtensionVersions cfg)).

Lemma set_wants_cons {A B} (get : RecordQuery -> option A) (f : A -> B) q qs old :
  set_to (wants get (q :: qs)) f old = set_to (wants get qs) f (set_to (wants get [q]) f old).
Proof.
  unfold wants.
  change (omap get (q :: qs)) with (match get q with Some y => y :: omap get qs | None => omap get qs end).
  change (omap get [q]) with (match get q with Some y => [y] | None => [] end).
  destruct (get q) as [a|]; [|done]. rewrite last_cons. by destruct (last (omap get qs)).
Qed.

Lemma SplitN2_length sep s : (length (SplitN2 sep s) = 1 \/ length (SplitN2 sep s) = 2)%nat.
Proof.
  induction s as [|c s IH]; simpl; [by left|]. case_decide; [by right|].
  destruct (SplitN2 sep s); simpl in *; lia.
Qed.

Lemma pair_options_run first second value cfg :
  run_options cfg (pair_options first second value)
  = set_to (part_after value) (fun b => second [b])
      id (set_to (part_before value) (fun a => first [a]) id cfg).
Proof.
  unfold pair_options, part_before, part_after.
  destruct (SplitN2_length ":" value) as [Hl|Hl].
  all: destruct (SplitN2 ":" value) as [|a [|b [|]]]; simpl in Hl; try lia; simpl.
  all: repeat case_decide; done.
Qed.

Lemma one_query q cfg : run_options cfg (options_of q) = filters_of [q] cfg.
Proof.
  destruct cfg. destruct q as [t v]. unfold options_of, query_options, filters_of, wants,
    q_name, q_version, q_skill_id, q_skill_name, q_locator_type, q_locator_url,
    q_extension_name, q_extension_version, q_part. simpl.
  destruct t; simpl; try done.
  - by destruct (ParseUint64 v).
  - rewrite pair_options_run. by destruct (part_before v), (part_after v).
  - rewrite pair_options_run. by destruct (part_before v), (part_after v).
Qed.

Lemma run_queries qs cfg : run_options cfg (qs ≫= options_of) = filters_of qs cfg.
Proof.
  revert cfg. induction qs as [|q qs IH]; intros cfg; [by destruct cfg|].
  unfold run_options in *. simpl. rewrite foldl_app, IH.
  change (foldl _ cfg (options_of q)) with (run_options cfg (options_of q)).
  rewrite one_query. unfold filters_of; simpl. by rewrite <- !set_wants_cons.
Qed.

End filters.

(** ** Statements *)

Section statements.
Context (like : string -> string -> bool).

Lemma block_spec t x y c1 c2 q :
  let q' := when (x || y) (fun q =>
    let q := db_Joins t q in
    let q := when x (db_Where c1) q in when y (db_Where c2) q) q in
  St_Where q' = St_Where q ++ (if x then [c1] else []) ++ (if y then [c2] else [])
  /\ St_Joins q' = St_Joins q ++ (if x || y then [t] else [])
  /\ St_Limit q' = St_Limit q /\ St_Offset q' = St_Offset q.
Proof. destruct x, y; simpl; rewrite ?app_nil_r, <- ?app_assoc; done. Qed.

Lemma when_where b c q :
  St_Where (when b (db_Where c) q) = St_Where q ++ (if b then [c] else [])
  /\ St_Joins (when b (db_Where c) q) = St_Joins q
  /\ St_Limit (when b (db_Where c) q) = St_Limit q /\ St_Offset (when b (db_Where c) q) = St_Offset q.
Proof. destruct b; simpl; rewrite ?app_nil_r; done. Qed.

(** A statement of [apply_filters], field by field. *)
Lemma apply_filters_spec cfg :
  let q := apply_filters cfg db_Distinct in
  let opt (b : bool) (c : Cond) := if b then [c] else [] in
  St_Where q =
    opt (bool_decide (F_Name cfg <> "")) (records_name_LIKE ("%" +:+ F_Name cfg +:+ "%"))
    ++ opt (bool_decide (F_Version cfg <> "")) (records_version_eq (F_Version cfg))
    ++ opt (nonempty (SkillIDs cfg)) (skills_skill_id_IN (SkillIDs cfg))
    ++ opt (nonempty (SkillNames cfg)) (skills_name_IN (SkillNames cfg))
    ++ opt (nonempty (LocatorTypes cfg)) (locators_type_IN (LocatorTypes cfg))
    ++ opt (nonempty (LocatorURLs cfg)) (locators_url_IN (LocatorURLs cfg))
    ++ opt (nonempty (ExtensionNames cfg)) (extensions_name_IN (ExtensionNames cfg))
    ++ opt (nonempty (ExtensionVersions cfg)) (extensions_version_IN (ExtensionVersions cfg))
  /\ joins skills q = nonempty (SkillIDs cfg) || nonempty (SkillNames cfg)
  /\ joins locators q = nonempty (LocatorTypes cfg) || nonempty (LocatorURLs cfg)
  /\ joins extensions q = nonempty (ExtensionNames cfg) || nonempty (ExtensionVersions cfg)
  /\ St_Limit q = (if decide (Limit cfg > 0)%Z then Some (Limit cfg) else None)
  /\ St_Offset q = (if decide (Offset cfg > 0)%Z then Some (Offset cfg) else None).
Proof.
  cbv zeta. unfold joins, apply_filters. cbv zeta.
  repeat match goal with
  | |- context [when (?x || ?y) _ ?q] =>
      let H := fresh in
      epose proof (block_spec _ x y _ _ q) as H; cbv zeta in H;
      destruct H as (-> & -> & -> & ->)
  end.
  repeat match goal with
  | |- context [when ?b (db_Where ?c) ?q] =>
      destruct (when_where b c q) as (-> & -> & -> & ->)
  end.
  generalize (nonempty (SkillIDs cfg) || nonempty (SkillNames cfg)) as b1.
  generalize (nonempty (LocatorTypes cfg) || nonempty (LocatorURLs cfg)) as b2.
  generalize (nonempty (ExtensionNames cfg) || nonempty (ExtensionVersions cfg)) as b3.
  generalize (bool_decide (F_Name cfg <> "")) as n1. generalize (bool_decide (F_Version cfg <> "")) as n2.
  intros n2 n1 b3 b2 b1.
  destruct (decide (Limit cfg > 0)%Z) as [Hl|Hl];
    [rewrite (bool_decide_eq_true_2 _ Hl)|rewrite (bool_decide_eq_false_2 _ Hl)];
  (destruct (decide (Offset cfg > 0)%Z) as [Ho|Ho];
    [rewrite (bool_decide_eq_true_2 _ Ho)|rewrite (bool_decide_eq_false_2 _ Ho)]);
  unfold when; simpl; rewrite <- ?app_assoc; (split; [done|]); by destruct b1, b2, b3.
Qed.

(** One of the rows satisfies the (one or two) conditions on its table. *)
Definition part_holds {A B C} `{EqDecision B} `{EqDecision C} (bs : list B) (cs : list C)
    (f : A -> B) (g : A -> C) (rows : list A) : bool :=
  if nonempty bs || nonempty cs then
    existsb (fun x => implb (nonempty bs) (is_in (f x) bs) && implb (nonempty cs) (is_in (g x) cs)) rows
  else true.

Lemma forallb_opt (p : Cond -> bool) (b : bool) c :
  forallb p (if b then [c] else []) = implb b (p c).
Proof. destruct b; simpl; [by rewrite andb_true_r|done]. Qed.

Lemma part_joined {A B C} `{EqDecision B} `{EqDecision C} (bs : list B) (cs : list C)
    (f : A -> B) (g : A -> C) (rows : list A) :
  (exists o, o ∈ joined (nonempty bs || nonempty cs) rows
     /\ implb (nonempty bs) (on o false (fun x => is_in (f x) bs)) = true
     /\ implb (nonempty cs) (on o false (fun x => is_in (g x) cs)) = true)
  <-> part_holds bs cs f g rows = true.
Proof.
  unfold part_holds, joined. destruct (nonempty bs || nonempty cs) eqn:Hb.
  - rewrite existsb_exists. split.
    + intros (o & (x & -> & Hx)%list_elem_of_fmap & H1 & H2). exists x.
      split; [by apply list_elem_of_In|]. simpl in *. by rewrite H1, H2.
    + intros (x & Hx%list_elem_of_In & [H1 H2]%andb_true_iff). exists (Some x).
      split; [by apply list_elem_of_fmap_2|done].
  - apply orb_false_iff in Hb as [-> ->]. split; [done|]. intros _. exists None.
    split; [by apply list_elem_of_singleton|done].
Qed.

(** The CIDs a statement of [apply_filters] selects. *)
Lemma elem_of_filtered T cfg c :
  c ∈ stmt_rows like T (apply_filters cfg db_Distinct) <->
  exists r, t_records T !! c = Some r
    /\ (F_Name cfg <> "" -> like ("%" +:+ F_Name cfg +:+ "%") r.1 = true)
    /\ (F_Version cfg <> "" -> r.2 = F_Version cfg)
    /\ part_holds (SkillIDs cfg) (SkillNames cfg) Sk_SkillID Sk_Name
         (own Sk_RecordCID c (t_skills T)) = true
    /\ part_holds (LocatorTypes cfg) (LocatorURLs cfg) Lo_Type Lo_URL
         (own Lo_RecordCID c (t_locators T)) = true
    /\ part_holds (ExtensionNames cfg) (ExtensionVersions cfg) Ex_Name Ex_Version
         (own Ex_RecordCID c (t_extensions T)) = true.
Proof.
  pose proof (apply_filters_spec cfg) as Hq. cbv zeta in Hq.
  destruct Hq as (Hw & Hs & Hl & He & _ & _).
  unfold stmt_rows. rewrite Hw, Hs, Hl, He.
  rewrite list_elem_of_bind. split.
  - intros ((c' & r) & Hc & Hr%elem_of_map_to_list).
    repeat (apply list_elem_of_bind in Hc as (? & Hc & ?)).
    rewrite !forallb_app, !forallb_opt in Hc.
    match type of Hc with _ ∈ (if ?b then _ else _) => destruct b eqn:Hb; [|set_solver] end.
    apply list_elem_of_singleton in Hc as ->.
    repeat (apply andb_true_iff in Hb as [? Hb]).
    exists r. split; [done|]. split.
    { intros Hn. by rewrite bool_decide_eq_true_2 in * by done. }
    split; [|split; [|split]; apply part_joined; eauto].
    intros Hn. rewrite (bool_decide_eq_true_2 _ Hn) in *. simpl in *. by bool_to_prop.
  - intros (r & Hr & Hn & Hv & (s & Hs' & ? & ?)%part_joined & (l & Hl' & ? & ?)%part_joined
      & (e & He' & ? & ?)%part_joined).
    exists (c, r). split; [|by apply elem_of_map_to_list].
    apply list_elem_of_bind. exists s. split; [|done].
    apply list_elem_of_bind. exists l. split; [|done].
    apply list_elem_of_bind. exists e. split; [|done].
    rewrite !forallb_app, !forallb_opt.
    match goal with |- _ ∈ (if ?b then _ else _) => assert (b = true) as -> end.
    2:{ by apply list_elem_of_singleton. }
    repeat (apply andb_true_iff; split); try done.
    + case_bool_decide; [|done]. simpl. auto.
    + simpl. destruct (decide (F_Version cfg = "")) as [->|Hne]; [done|].
      rewrite (Hv Hne). by rewrite !bool_decide_eq_true_2.
Qed.

End statements.

(** ** The index *)

Section index.
Context {D : Type} `{!Gorm D} (tables : D -> Tables) (like : string -> string -> bool)
  `{!GormSpec D tables like}.
Context (data_of : string -> option RecordData).

Lemma existsb_equiv {A} (p : A -> bool) l l' :
  (forall x, x ∈ l <-> x ∈ l') -> existsb p l = existsb p l'.
Proof.
  intros Hl. apply eq_true_iff_eq. rewrite !existsb_exists.
  setoid_rewrite <- list_elem_of_In. by setoid_rewrite Hl.
Qed.

Lemma part_some {A B C X} `{EqDecision B} `{EqDecision C} (ob : option B) (oc : option C)
    (f : A -> B) (g : A -> C) (k : X -> A) (l : list X) rows :
  (forall x, x ∈ rows <-> x ∈ k <$> l) ->
  part_holds (set_to ob sing []) (set_to oc sing []) f g rows
  = some_has ob oc (f ∘ k) (g ∘ k) l.
Proof.
  intros Hrows. unfold part_holds. rewrite (existsb_equiv _ rows (k <$> l)) by done.
  assert (Hin : forall {Y} `{EqDecision Y} (a b : Y), is_in a [b] = bool_decide (a = b)).
  { intros. unfold is_in. apply bool_decide_ext. set_solver. }
  assert (Hex : forall p, existsb p (k <$> l) = existsb (p ∘ k) l).
  { intros p. clear Hrows. induction l as [|x l IH]; [done|]. simpl. by rewrite <- IH. }
  rewrite Hex. clear Hex Hrows. unfold some_has.
  destruct ob as [b|], oc as [c|]; simpl; [| | |done];
    (induction l as [|x l IH]; [done|]); simpl; rewrite IH; unfold sing; by rewrite ?Hin.
Qed.

Lemma own_children {A} (P : gmap string RecordData) (key : A -> string)
    (conv : RecordData -> string -> list A) rows c rd x :
  children data_of P key conv rows -> P !! c = Some rd -> data_of c = Some rd ->
  (forall x, x ∈ conv rd c -> key x = c) ->
  x ∈ own key c rows <-> x ∈ conv rd c.
Proof.
  intros [Hs Hc] HP Hd Hk. unfold own. rewrite list_elem_of_filter. split.
  - intros [<- Hx]. destruct (Hs x Hx) as (rd' & Hd' & Hx'). congruence.
  - intros Hx. split; [by apply Hk|]. by eapply Hc.
Qed.

(** The children of a record carry its CID. *)
Lemma conv_key {A X} (k : X -> A) (key : A -> string) (l : list X) c :
  (forall y, key (k y) = c) -> forall x, x ∈ k <$> l -> key x = c.
Proof. by intros Hk x (y & -> & _)%list_elem_of_fmap. Qed.

(** What is seen of the children of a record is what is seen of the data. *)
Lemma own_seen {A X B} (get : A -> B) (getX : X -> B) (k : X -> A) (l : list X) (P : gmap string RecordData)
    (key : A -> string) (conv : RecordData -> string -> list A) rows c rd (b : B) :
  children data_of P key conv rows -> P !! c = Some rd -> data_of c = Some rd ->
  conv rd c = k <$> l -> (forall y, key (k y) = c /\ get (k y) = getX y) ->
  (exists y, b = get y /\ y ∈ own key c rows) <-> (exists x, b = getX x /\ x ∈ l).
Proof.
  intros Hch HP Hd Hconv Hk.
  assert (Hown : forall y, y ∈ own key c rows <-> y ∈ k <$> l).
  { intros y. rewrite <- Hconv. eapply own_children; [done..|]. rewrite Hconv.
    apply conv_key. intros z. apply Hk. }
  split; [intros (y & -> & (x & -> & Hx)%Hown%list_elem_of_fmap)|intros (x & -> & Hx)].
  - exists x. split; [apply Hk|done].
  - exists (k x). split; [symmetry; apply Hk|]. by apply Hown, list_elem_of_fmap_2.
Qed.

Lemma like_name n s : n <> "" ->
  (if plain n then Contains (lower s) (lower n) else like ("%" +:+ n +:+ "%") s)
  = like ("%" +:+ n +:+ "%") s.
Proof. intros _. destruct (plain n) eqn:Hp; [|done]. by rewrite (like_plain (tables := tables)). Qed.

(** The CIDs that the statement for a list of queries selects. *)
Lemma elem_of_searched P T qs cfg c :
  index_rep data_of P T ->
  F_Name cfg = "" -> F_Version cfg = "" -> SkillIDs cfg = [] -> SkillNames cfg = [] ->
  LocatorTypes cfg = [] -> LocatorURLs cfg = [] -> ExtensionNames cfg = [] ->
  ExtensionVersions cfg = [] ->
  c ∈ stmt_rows like T (apply_filters (filters_of qs cfg) db_Distinct) <->
  exists rd, P !! c = Some rd /\ accepts like qs rd = true.
Proof.
  intros [Hr Hd Hs Hl He] H1 H2 H3 H4 H5 H6 H7 H8. rewrite elem_of_filtered, Hr. simpl.
  rewrite H1, H2, H3, H4, H5, H6, H7, H8.
  destruct (P !! c) as [rd|] eqn:HP; simpl; [|split; [by intros (? & ? & _)|by intros (? & ? & _)]].
  specialize (Hd _ _ HP).
  rewrite (part_some _ _ _ _ (fun s => {| Sk_RecordCID := c; Sk_SkillID := Skill_GetID s;
      Sk_Name := Skill_GetName s |}) (GetSkills rd)).
  2:{ intros x. apply (own_children P Sk_RecordCID conv_skills); [done..|]. by apply conv_key. }
  rewrite (part_some _ _ _ _ (fun l => {| Lo_RecordCID := c; Lo_Type := Loc_GetType l;
      Lo_URL := Loc_GetURL l |}) (GetLocators rd)).
  2:{ intros x. apply (own_children P Lo_RecordCID conv_locators); [done..|]. by apply conv_key. }
  rewrite (part_some _ _ _ _ (fun e => {| Ex_RecordCID := c; Ex_Name := Ext_GetName e;
      Ex_Version := Ext_GetVersion e |}) (GetExtensions rd)).
  2:{ intros x. apply (own_children P Ex_RecordCID conv_extensions); [done..|]. by apply conv_key. }
  unfold accepts.
  set (b1 := some_has (wants q_skill_id qs) _ _ _ _).
  set (b2 := some_has (wants q_locator_type qs) _ _ _ _).
  set (b3 := some_has (wants q_extension_name qs) _ _ _ _).
  transitivity ((set_to (wants q_name qs) id "" <> "" ->
      like ("%" +:+ set_to (wants q_name qs) id "" +:+ "%") (GetName rd) = true)
    /\ (set_to (wants q_version qs) id "" <> "" -> GetVersion rd = set_to (wants q_version qs) id "")
    /\ b1 = true /\ b2 = true /\ b3 = true); [naive_solver|].
  transitivity (match wants q_name qs with
    | None => true
    | Some n => if decide (n = "") then true
        else if plain n then Contains (lower (GetName rd)) (lower n)
        else like ("%" +:+ n +:+ "%") (GetName rd)
    end && match wants q_version qs with
     | None => true
     | Some v => if decide (v = "") then true else bool_decide (GetVersion rd = v)
     end && b1 && b2 && b3 = true); [|naive_solver].
  rewrite !andb_true_iff.
  assert (forall A B A' B' C1 C2 C3 : Prop, (A <-> A') -> (B <-> B') ->
    A /\ B /\ C1 /\ C2 /\ C3 <-> (((A' /\ B') /\ C1) /\ C2) /\ C3) as Hsplit by naive_solver.
  apply Hsplit.
  - destruct (wants q_name qs) as [n|]; simpl; [|done].
    case_decide as Hn; [done|]. rewrite like_name by done. naive_solver.
  - destruct (wants q_version qs) as [v|]; simpl; [|done].
    case_decide as Hv; [done|]. rewrite bool_decide_eq_true. naive_solver.
Qed.

(** *** Searching *)

Section search.
Context {S : Type} (Send : string -> M S (result unit)) (sent : S -> list string)
  (Send_ok : forall c s, (Send c s).1 = Ok tt /\ sent (Send c s).2 = sent s ++ [c]).

Lemma send_all cids s :
  exists s', for_try (searchCtlr.send_cid Send) tt cids s = (Ok tt, s') /\ sent s' = sent s ++ cids.
Proof.
  revert s. induction cids as [|c cids IH]; intros s; [exists s; by rewrite app_nil_r|].
  destruct (Send_ok c s) as [Hr Hs]. destruct (Send c s) as [r s1] eqn:E. simpl in Hr, Hs. subst r.
  destruct (IH s1) as (s' & Hrun & Hsent). exists s'. split.
  - erewrite for_try_cons; [done|]. unfold searchCtlr.send_cid. by rewrite (try_bind_ok _ _ _ _ _ _ E).
  - by rewrite Hsent, Hs, <- app_assoc.
Qed.

(** The selected rows that the limit and the offset of a request leave. *)
Definition window {A} (limit offset : Z) (l : list A) : list A :=
  let l := drop (Z.to_nat offset) l in if decide (limit = 0%Z) then l else take (Z.to_nat limit) l.

Lemma page_window {A} cfg (l : list A) : (0 <= Limit cfg)%Z -> (0 <= Offset cfg)%Z ->
  page (apply_filters cfg db_Distinct) l = window (Limit cfg) (Offset cfg) l.
Proof.
  intros Hl Ho. pose proof (apply_filters_spec cfg) as (_ & _ & _ & _ & Hli & Hof).
  unfold page, window. rewrite Hli, Hof.
  destruct (decide (Offset cfg > 0)%Z).
  - repeat case_decide; try done; lia.
  - assert (Offset cfg = 0%Z) as -> by lia. repeat case_decide; try done; lia.
Qed.

Lemma Search_run P d qs limit offset s :
  index_rep data_of P (tables d) -> (0 <= limit)%Z -> (0 <= offset)%Z ->
  if forallb query_ok qs then
    exists all s', searchCtlr.Search Send d qs limit offset s = (Ok tt, s')
      /\ sent s' = sent s ++ window limit offset all /\ NoDup all
      /\ forall c, c ∈ all <-> exists rd, P !! c = Some rd /\ accepts like qs rd = true
  else exists e, searchCtlr.Search Send d qs limit offset s = (Err e, s).
Proof.
  intros Hrep Hl Ho. unfold searchCtlr.Search, QueryToFilters.
  pose proof (filters_loop_spec [] qs) as Hq. destruct (filters_loop [] qs) as [opts|e].
  2:{ rewrite Hq. by eexists. }
  destruct Hq as [-> ->]. unfold GetRecordCIDs. rewrite apply_options_run. simpl.
  unfold run_options. rewrite foldl_app. fold (run_options zero_filters (qs ≫= options_of)).
  rewrite run_queries. simpl.
  set (cfg := mkFilters limit offset _ _ _ _ _ _ _ _).
  destruct (gorm_Pluck_spec (tables := tables) (like := like) (apply_filters cfg db_Distinct) d)
    as (all & Hnd & Hall & ->).
  destruct (send_all (page (apply_filters cfg db_Distinct) all) s) as (s' & Hrun & Hsent).
  exists all, s'. split; [done|]. rewrite Hsent, page_window by done. split; [done|]. split; [done|].
  intros c. rewrite Hall.
  by apply (elem_of_searched P (tables d) qs (WithOffset offset (WithLimit limit zero_filters)) c).
Qed.


(** Only the last query of a kind counts.  A search for skill [a] and skill
    [b] sends the records that have skill [b], whether or not they have [a]. *)
Theorem Search_last_skill_wins P d a b s :
  index_rep data_of P (tables d) ->
  let skill n := {| GetType := RECORD_QUERY_TYPE_SKILL_NAME; GetValue := n |} in
  exists s' all, searchCtlr.Search Send d [skill a; skill b] 0 0 s = (Ok tt, s')
    /\ sent s' = sent s ++ all
    /\ forall c, c ∈ all <->
         exists rd sk, P !! c = Some rd /\ sk ∈ GetSkills rd /\ Skill_GetName sk = b.
Proof.
  intros Hrep skill.
  destruct (Search_run P d [skill a; skill b] 0 0 s Hrep) as (all & s' & Hrun & Hsent & _ & Hall);
    [done..|].
  exists s', all. split; [done|]. split; [done|]. intros c. rewrite Hall.
  change (accepts like [skill a; skill b]) with (fun rd =>
    existsb (fun x => bool_decide (Skill_GetName x = b)) (GetSkills rd) && true && true).
  split.
  - intros (rd & HP & Hacc). rewrite !andb_true_r in Hacc. apply existsb_exists in Hacc as (sk & Hin & Hb).
    bool_to_prop. exists rd, sk. by rewrite list_elem_of_In.
  - intros (rd & sk & HP & Hin%list_elem_of_In & Hb). exists rd. split; [done|].
    rewrite !andb_true_r. apply existsb_exists. exists sk. by rewrite bool_decide_eq_true_2.
Qed.

End search.

(** What the index keeps of a record: its name, its version, and the skills,
    locators and extensions as sets. *)
Definition indexed_part (rd : RecordData) : string * string * gset (Z * string)
    * gset (string * string) * gset (string * string) :=
  (GetName rd, GetVersion rd,
   list_to_set ((fun s => (Skill_GetID s, Skill_GetName s)) <$> GetSkills rd),
   list_to_set ((fun l => (Loc_GetType l, Loc_GetURL l)) <$> GetLocators rd),
   list_to_set ((fun e => (Ext_GetName e, Ext_GetVersion e)) <$> GetExtensions rd)).

Lemma row_keeps (P : gmap string RecordData) T c rd created r :
  index_rep data_of P T -> P !! c = Some rd -> row_of T c = Some r ->
  R_RecordCID r = c /\ indexed_part (RecordDataAdapter created r) = indexed_part rd.
Proof.
  intros [Hr Hd Hs Hl He] HP Hrow. unfold row_of in Hrow. rewrite Hr, HP in Hrow. simplify_eq/=.
  split; [done|]. pose proof (Hd _ _ HP) as Hcd. unfold indexed_part. simpl.
  f_equal; [f_equal; [f_equal|]|]; apply set_eq; intros x;
    rewrite !elem_of_list_to_set, <- list_fmap_compose, !list_elem_of_fmap; simpl.
  - eapply (own_seen (fun y => (Sk_SkillID y, Sk_Name y))); [exact Hs|done..].
  - eapply (own_seen (fun y => (Lo_Type y, Lo_URL y))); [exact Hl|done..].
  - eapply (own_seen (fun y => (Ex_Name y, Ex_Version y))); [exact He|done..].
Qed.

(** The two queries agree.  For any filters, [GetRecords] and
    [GetRecordCIDs] select the same records: without limit and offset they
    return the same CIDs up to order, each once, and every record that
    [GetRecords] returns shows the name, the version, the skills, the locators
    and the extensions of the record that was indexed. *)
Theorem GetRecords_agrees P d opts created :
  index_rep data_of P (tables d) ->
  Limit (run_options zero_filters opts) = 0%Z -> Offset (run_options zero_filters opts) = 0%Z ->
  exists rows cids, GetRecords (Some <$> opts) d = Ok rows /\ GetRecordCIDs (Some <$> opts) d = Ok cids
    /\ R_RecordCID <$> rows ≡ₚ cids /\ NoDup cids
    /\ forall r, r ∈ rows -> exists rd, P !! R_RecordCID r = Some rd
         /\ indexed_part (RecordDataAdapter created r) = indexed_part rd.
Proof.
  intros Hrep Hl Ho. pose proof Hrep as [Hr _ _ _ _]. unfold GetRecords, GetRecordCIDs.
  rewrite !apply_options_run. set (cfg := run_options _ _) in *.
  destruct (gorm_Pluck_spec (tables := tables) (like := like) (apply_filters cfg db_Distinct) d)
    as (all & Hnd & Hall & ->).
  destruct (gorm_Find_spec (tables := tables) (like := like) (apply_filters cfg db_Distinct) d)
    as (all' & Hnd' & Hall' & ->).
  rewrite !page_window by lia. unfold window. rewrite Hl, Ho. simpl.
  eexists _, _. split; [done|]. split; [done|].
  assert (Hcids : forall c, c ∈ all' -> is_Some (P !! c)).
  { intros c Hc. apply Hall', elem_of_filtered in Hc as (r & Hr' & _).
    rewrite Hr in Hr'. by apply fmap_Some in Hr' as (rd & ? & _). }
  split; [|split; [done|]].
  - transitivity all'; [|apply NoDup_Permutation; [done..|]; intros c; by rewrite Hall, Hall'].
    clear Hall' Hnd'. induction all' as [|c l IH]; [done|]. simpl.
    destruct (Hcids c) as [rd HP]; [by left|]. unfold row_of at 1. rewrite Hr, HP. simpl.
    f_equiv. apply IH. intros c' Hc'. apply Hcids. by right.
  - intros r (c & Hc & Hrow)%list_elem_of_omap. destruct (Hcids c Hc) as [rd HP].
    destruct (row_keeps P (tables d) c rd created r Hrep HP Hrow) as [-> Hi]. by exists rd.
Qed.

(** *** Adding and removing records *)

Lemma children_insert {A} P key (conv : RecordData -> string -> list A) rows c rd :
  (forall rd x, x ∈ conv rd c -> key x = c) -> data_of c = Some rd ->
  children data_of P key conv rows -> children data_of (<[c := rd]> P) key conv (rows ++ conv rd c).
Proof.
  intros Hk Hd [Hs Hc]. split.
  - intros x [Hx|Hx]%elem_of_app; [by apply Hs|]. rewrite (Hk rd x Hx). by exists rd.
  - intros c' rd' x HP Hx. apply elem_of_app.
    destruct (decide (c' = c)) as [->|Hne]; simplify_map_eq; [by right|left; by eapply Hc].
Qed.

Lemma children_delete {A} P key (conv : RecordData -> string -> list A) rows c (cascade : bool) :
  (forall c' rd x, x ∈ conv rd c' -> key x = c') ->
  children data_of P key conv rows ->
  children data_of (delete c P) key conv (if cascade then not_own key c rows else rows).
Proof.
  intros Hk [Hs Hc]. unfold not_own. split.
  - intros x Hx. apply Hs. destruct cascade; [by apply list_elem_of_filter in Hx as [_ ?]|done].
  - intros c' rd x [Hne HP]%lookup_delete_Some Hx. specialize (Hc c' rd x HP Hx).
    destruct cascade; [|done]. apply list_elem_of_filter. split; [|done]. by rewrite (Hk c' rd x Hx).
Qed.

Lemma index_rep_delete P T c cascade :
  index_rep data_of P T -> index_rep data_of (delete c P) (delete_row cascade c T).
Proof.
  intros [Hr Hd Hs Hl He]. split; simpl.
  - intros c'. destruct (decide (c' = c)) as [->|Hne]; [by simplify_map_eq|].
    rewrite !lookup_delete_ne by done. apply Hr.
  - intros c' rd [_ HP]%lookup_delete_Some. by apply Hd.
  - apply children_delete; [|done]. intros ???. by apply conv_key.
  - apply children_delete; [|done]. intros ???. by apply conv_key.
  - apply children_delete; [|done]. intros ???. by apply conv_key.
Qed.

Lemma index_rep_insert P T c rd :
  data_of c = Some rd -> index_rep data_of P T ->
  index_rep data_of (<[c := rd]> P) (insert_row {|
    R_RecordCID := c; R_Name := GetName rd; R_Version := GetVersion rd;
    R_Skills := conv_skills rd c; R_Locators := conv_locators rd c;
    R_Extensions := conv_extensions rd c |} T).
Proof.
  intros Hcd [Hr Hd Hs Hl He]. split; simpl.
  - intros c'. destruct (decide (c' = c)) as [->|Hne]; [by simplify_map_eq|].
    rewrite !lookup_insert_ne by done. apply Hr.
  - intros c' rd'. destruct (decide (c' = c)) as [->|Hne]; intros; simplify_map_eq; auto.
  - apply children_insert; [|done..]. intros ??. by apply conv_key.
  - apply children_insert; [|done..]. intros ??. by apply conv_key.
  - apply children_insert; [|done..]. intros ??. by apply conv_key.
Qed.

Lemma AddRecord_run P c rd d :
  index_rep data_of P (tables d) -> data_of c = Some rd ->
  exists d', AddRecord {| Rec_GetCid := c; Rec_GetRecordData := Some rd |} d = (Some (Ok tt), d')
    /\ index_rep data_of (<[c := rd]> P) (tables d').
Proof.
  intros Hrep Hcd. pose proof Hrep as [Hr Hd _ _ _]. unfold AddRecord, bind. simpl.
  rewrite (gorm_First_spec (tables := tables) (like := like)), Hr.
  destruct (P !! c) as [rd'|] eqn:HP; simpl.
  - exists d. split; [done|]. rewrite insert_id; [done|]. by rewrite HP, <- (Hd _ _ HP), Hcd.
  - match goal with |- context [gorm_Create ?r] => set (row := r) end.
    destruct (gorm_Create_spec (tables := tables) (like := like) row d) as [Hok Ht].
    { simpl. by rewrite Hr, HP. }
    unfold try_bind, bind. destruct (gorm_Create row d) as [x d']. simpl in Hok, Ht. subst x.
    exists d'. split; [done|]. rewrite Ht. by apply index_rep_insert.
Qed.

Lemma RemoveRecord_run P c d :
  index_rep data_of P (tables d) ->
  exists d', RemoveRecord c d = (Ok tt, d') /\ index_rep data_of (delete c P) (tables d').
Proof.
  intros Hrep. unfold RemoveRecord, try_bind, bind.
  destruct (gorm_Delete_spec (tables := tables) (like := like) c d) as (n & cascade & Hok & Ht).
  destruct (gorm_Delete c d) as [x d']. simpl in Hok, Ht. subst x.
  exists d'. split; [done|]. rewrite Ht. by apply index_rep_delete.
Qed.

(** C25. The index is a map from CIDs to record data.  Whatever the sequence of
    additions and removals, every call succeeds, and the index then holds
    exactly the records added and not removed since, each with its own skills,
    locators and extensions, whether or not the database deletes the rows of
    removed records. *)
Theorem index_refines_map P ops d :
  index_rep data_of P (tables d) -> Forall (index_op_ok data_of) ops ->
  Forall (fun x => x = Some (Ok tt)) (run_indexes ops d).1
  /\ index_rep data_of (foldl spec_index P ops) (tables (run_indexes ops d).2).
Proof.
  revert P d. induction ops as [|op ops IH]; intros P d Hrep Hok; [by split; [constructor|]|].
  apply Forall_cons in Hok as [Hop Hok].
  assert (exists d', run_index op d = (Some (Ok tt), d') /\ index_rep data_of (spec_index P op) (tables d'))
    as (d' & Hrun & Hrep').
  { destruct op as [[c [rd|]]|c]; simpl in *; [|by destruct Hop|].
    - destruct Hop as [_ Hcd]. by apply AddRecord_run.
    - destruct (RemoveRecord_run P c d Hrep) as (d' & Hrun & Hrep'). exists d'.
      split; [by rewrite (bind_run _ _ _ _ _ Hrun)|done]. }
  destruct (IH _ _ Hrep' Hok) as [Hall Hfin]. simpl. rewrite Hrun.
  destruct (run_indexes ops d'). simpl in *. by split; [constructor|].
Qed.

End index.

(** ** An executable instance: tables in memory, foreign keys not enforced *)

Module DemoSearch.

Fixpoint sql_like (p s : string) : bool :=
  match p with
  | EmptyString => bool_decide (s = "")
  | String c p =>
      if decide (c = "%"%char) then
        (fix any (s : string) : bool :=
           sql_like p s || match s with EmptyString => false | String _ s => any s end) s
      else match s with
           | EmptyString => false
           | String x s =>
               (if decide (c = "_"%char) then true else bool_decide (lower_ascii c = lower_ascii x))
               && sql_like p s
           end
  end.

Lemma like_percent p s :
  sql_like (String "%" p) s
  = sql_like p s || match s with EmptyString => false | String _ s => sql_like (String "%" p) s end.
Proof. by destruct s. Qed.

Lemma like_any s : sql_like "%" s = true.
Proof. induction s as [|c s IH]; [done|]. simpl in *. by rewrite IH. Qed.

Lemma like_prefix n s : plain n = true -> sql_like (n +:+ "%") s = HasPrefix (lower s) (lower n).
Proof.
  unfold plain, HasPrefix. revert s. induction n as [|c n IH]; intros s Hn; [apply like_any|].
  simpl in Hn. bool_to_prop. destruct s as [|x s]; simpl; (rewrite decide_False by done); [done|].
  rewrite decide_False by done. rewrite IH.
  - repeat case_decide; case_bool_decide; done.
  - by apply andb_true_iff.
Qed.

Lemma like_contains n s : plain n = true -> sql_like ("%" +:+ n +:+ "%") s = Contains (lower s) (lower n).
Proof.
  intros Hn. rewrite (append_cons "%" ""), append_nil_l.
  induction s as [|x s IH]; rewrite like_percent, like_prefix by done; [done|].
  rewrite IH. done.
Qed.

Definition tables (d : Tables) : Tables := d.

#[export] Instance table_gorm : Gorm Tables := {|
  gorm_First cid d := match t_records d !! cid with
                      | Some r => Ok (bare_row cid r) | None => Err ErrRecordNotFound end;
  gorm_Create r := fun d =>
    match t_records d !! R_RecordCID r with
    | Some _ => (Err (Plain "UNIQUE constraint failed"), d)
    | None => (Ok tt, insert_row r d)
    end;
  gorm_Pluck q d := Ok (page q (remove_dups (stmt_rows sql_like d q)));
  gorm_Find q d := Ok (page q (omap (row_of d) (remove_dups (stmt_rows sql_like d q))));
  gorm_Delete cid := fun d => (Ok 1%Z, delete_row false cid d);
|}.

#[export] Instance table_gorm_spec : GormSpec Tables tables sql_like.
Proof.
  split.
  - intros. by apply like_contains.
  - done.
  - intros r d Hr. simpl. unfold tables in Hr. by rewrite Hr.
  - intros q d. exists (remove_dups (stmt_rows sql_like d q)).
    split; [apply NoDup_remove_dups|]. split; [|done]. intros c. apply elem_of_remove_dups.
  - intros q d. exists (remove_dups (stmt_rows sql_like d q)).
    split; [apply NoDup_remove_dups|]. split; [|done]. intros c. apply elem_of_remove_dups.
  - intros cid d. by exists 1%Z, false.
Qed.

Definition agent (name : string) (skills : list Adapters.Skill) : RecordData := {|
  GetAnnotations := ∅; GetSchemaVersion := "v0.5.0"; GetName := name; GetVersion := "1";
  GetDescription := ""; GetAuthors := []; GetCreatedAt := ""; GetSkills := skills;
  GetLocators := []; GetExtensions := []; RD_GetSignature := None; GetPreviousRecordCid := "" |}.

Definition a_skill (n : string) (id : Z) : Adapters.Skill :=
  {| Skill_GetAnnotations := ∅; Skill_GetName := n; Skill_GetID := id |}.

Definition one : RecordData := agent "Reader" [a_skill "nlp" 1; a_skill "qa" 2].
Definition two : RecordData := agent "writer" [a_skill "qa" 2].

Definition data_of (c : string) : option RecordData :=
  if decide (c = "c1") then Some one else if decide (c = "c2") then Some two else None.

Definition add (c : string) : index_op := OpAdd {| Rec_GetCid := c; Rec_GetRecordData := data_of c |}.

Definition empty : Tables :=
  {| t_records := ∅; t_skills := []; t_locators := []; t_extensions := [] |}.

Definition demo_ops : list index_op := [add "c1"; OpRemove "c1"; add "c2"; add "c1"; add "c1"].

Lemma empty_rep : index_rep data_of ∅ empty.
Proof. by split; try split; simpl; intros *; rewrite ?lookup_empty, ?elem_of_nil. Qed.

Lemma index_refines_map_witness :
  Forall (fun x => x = Some (Ok tt)) (run_indexes demo_ops empty).1 /\
  index_rep data_of (foldl spec_index ∅ demo_ops) (run_indexes demo_ops empty).2 /\
  foldl spec_index ∅ demo_ops !! "c1" = Some one.
Proof.
  destruct (index_refines_map tables sql_like data_of ∅ demo_ops empty empty_rep) as [H1 H2].
  - repeat constructor; discriminate.
  - split; [exact H1|]. split; [exact H2|reflexivity].
Defined.

Definition P2 : gmap string RecordData := <["c1" := one]> (<["c2" := two]> ∅).
Definition d2 : Tables := insert_row {|
    R_RecordCID := "c1"; R_Name := "Reader"; R_Version := "1"; R_Skills := conv_skills one "c1";
    R_Locators := []; R_Extensions := [] |} (insert_row {|
    R_RecordCID := "c2"; R_Name := "writer"; R_Version := "1"; R_Skills := conv_skills two "c2";
    R_Locators := []; R_Extensions := [] |} empty).

Lemma rep2 : index_rep data_of P2 d2.
Proof.
  apply (index_rep_insert data_of _ _ "c1" one eq_refl).
  apply (index_rep_insert data_of _ _ "c2" two eq_refl), empty_rep.
Qed.

Definition send (c : string) : M (list string) (result unit) := fun s => (Ok tt, s ++ [c]).

Lemma send_ok c s : (send c s).1 = Ok tt /\ (send c s).2 = s ++ [c].
Proof. done. Qed.

Definition demo_queries : list RecordQuery :=
  [{| GetType := RECORD_QUERY_TYPE_NAME; GetValue := "read" |};
   {| GetType := RECORD_QUERY_TYPE_SKILL_ID; GetValue := "1" |}].


(** Record two has no skill "nlp", and is found by a search for "nlp" and "qa". *)
Lemma Search_last_skill_wins_witness :
  exists s', searchCtlr.Search send d2
      [{| GetType := RECORD_QUERY_TYPE_SKILL_NAME; GetValue := "nlp" |};
       {| GetType := RECORD_QUERY_TYPE_SKILL_NAME; GetValue := "qa" |}] 0 0 [] = (Ok tt, s')
    /\ "c2" ∈ s'.
Proof.
  destruct (Search_last_skill_wins tables sql_like data_of send (fun s => s) send_ok P2 d2 "nlp" "qa" []
    rep2) as (s' & all & H1 & H2 & H3).
  exists s'. split; [exact H1|]. simpl in H2. rewrite H2. apply H3.
  exists two, (a_skill "qa" 2). split; [reflexivity|]. split; [left|reflexivity].
Defined.

Lemma GetRecords_agrees_witness :
  exists rows cids, GetRecords (Some <$> [WithSkillNames ["qa"]]) d2 = Ok rows
    /\ GetRecordCIDs (Some <$> [WithSkillNames ["qa"]]) d2 = Ok cids
    /\ R_RecordCID <$> rows ≡ₚ cids.
Proof.
  destruct (GetRecords_agrees tables sql_like data_of P2 d2 [WithSkillNames ["qa"]] "" rep2)
    as (rows & cids & H1 & H2 & H3 & _); [reflexivity|reflexivity|].
  exists rows, cids. split; [exact H1|]. split; [exact H2|exact H3].
Defined.

End DemoSearch.
