(* ===== verification/StoreController.v ===== *)
(** * The store service

    server/controller/store.go: the streaming handlers of the store service.
    Each handler answers the messages of its stream one by one until the stream
    ends or something fails; pushes and deletes also keep the search index in
    step with the store. *)

From S2P Require Import Prelude GoStrings Interfaces Adapters CoreRecord Validators LabelKey Metrics RoutingWorld RoutingLocal RoutingLocalSpec StoreCache Search.

Open Scope string_scope.
Open Scope list_scope.
Open Scope go_scope.

Arguments GetCid : simpl never.
Arguments MarshalOASF : simpl never.

Module storeCtrl.
Section storeCtrl.
Context {T D O : Type} `{HashLib} `{!OasfJson} `{!StoreAPI T} `{!sqlite.Gorm D}.
Context (proto_Size : CoreRecord -> Z).   (** [proto.Size] *)

Definition maxRecordSize : Z := (1024 * 1024 * 4)%Z.

(** The store, the database and the sending side of the stream. *)
Record Ctx := { c_store : T; c_db : D; c_out : O }.

Definition on_store {A} (c : M T A) : M Ctx A := fun w =>
  let '(a, t) := c (c_store w) in (a, {| c_store := t; c_db := c_db w; c_out := c_out w |}).
Definition on_db {A} (c : M D A) : M Ctx A := fun w =>
  let '(a, d) := c (c_db w) in (a, {| c_store := c_store w; c_db := d; c_out := c_out w |}).
Definition on_out {A} (c : M O A) : M Ctx A := fun w =>
  let '(a, o) := c (c_out w) in (a, {| c_store := c_store w; c_db := c_db w; c_out := o |}).

(** ** Validation *)

Definition validateRecord (record : CoreRecord) : result unit :=
  match GetData record with
  | None => Err (Status InvalidArgument "record has no data")
  | Some _ =>
      let recordSize := proto_Size record in
      if decide (recordSize > maxRecordSize)%Z then
        Err (Status InvalidArgument ("record size " +:+ pretty.pretty recordSize
          +:+ " bytes exceeds maximum allowed size of " +:+ pretty.pretty maxRecordSize +:+ " bytes (4MB)"))
      else Ok tt
  end.

Definition validateAndGetCID (record : CoreRecord) : result string :=
  match validateRecord record with
  | Err e => Err e
  | Ok _ =>
      let recordCID := GetCid (Some record) in
      if decide (recordCID = "") then Err (Status Internal "failed to calculate record CID")
      else Ok recordCID
  end.

Definition validateRecordRef (recordRef : option RecordRef) : result unit :=
  if decide (ref_GetCid recordRef = "") then Err (Status InvalidArgument "record cid is required")
  else Ok tt.

(** ** Push, Pull, Lookup and Delete

    [stream.Recv] gives the received messages in order, an error where
    receiving failed, and [io.EOF] at the end of the list. *)

(** The outer [None] is the panic of [AddRecord] on a record without data. *)
Definition pushRecordToStore (record : CoreRecord) : M Ctx (option (result RecordRef)) :=
  let? pushedRef := on_store (store_Push (Some record))
    else err => ret (Some (Err (internal "failed to push record to store: " err))) in
  let! added := on_db (sqlite.AddRecord (sqlite.NewRecordAdapter record)) in
  match added with
  | None => ret None
  | Some _ => ret (Some (Ok pushedRef))   (** an index error is only logged *)
  end.

Definition pullRecordFromStore (recordRef : option RecordRef) : M Ctx (result CoreRecord) :=
  let? record := on_store (store_Pull recordRef)
    else err => ret (Err (rewrap "failed to pull record: " err)) in
  ret (Ok record).

Fixpoint Push (Send : RecordRef -> M O (result unit)) (recv : list (result CoreRecord))
  : M Ctx (option (result unit)) :=
  match recv with
  | [] => ret (Some (Ok tt))
  | Err err :: _ => ret (Some (Err (internal "failed to receive record: " err)))
  | Ok record :: recv =>
      match validateAndGetCID record with
      | Err err => ret (Some (Err err))
      | Ok _ =>
          let! pushed := pushRecordToStore record in
          match pushed with
          | None => ret None
          | Some (Err err) => ret (Some (Err err))
          | Some (Ok pushedRef) =>
              let? _u := on_out (Send pushedRef)
                else err => ret (Some (Err (internal "failed to send record reference: " err))) in
              Push Send recv
          end
      end
  end.

Fixpoint Pull (Send : CoreRecord -> M O (result unit)) (recv : list (result RecordRef))
  : M Ctx (result unit) :=
  match recv with
  | [] => ret (Ok tt)
  | Err err :: _ => ret (Err (internal "failed to receive record reference: " err))
  | Ok recordRef :: recv =>
      match validateRecordRef (Some recordRef) with
      | Err err => ret (Err err)
      | Ok _ =>
          let? record := pullRecordFromStore (Some recordRef) else err => ret (Err err) in
          let? _u := on_out (Send record)
            else err => ret (Err (internal "failed to send record: " err)) in
          Pull Send recv
      end
  end.

Fixpoint Lookup (Send : RecordMeta -> M O (result unit)) (recv : list (result RecordRef))
  : M Ctx (result unit) :=
  match recv with
  | [] => ret (Ok tt)
  | Err err :: _ => ret (Err (internal "failed to receive record reference: " err))
  | Ok recordRef :: recv =>
      if decide (ref_Cid recordRef = "") then
        ret (Err (Status InvalidArgument "record cid is required"))
      else
        let? recordMeta := on_store (store_Lookup (Some recordRef))
          else err => ret (Err (rewrap "failed to lookup record: " err)) in
        let? _u := on_out (Send recordMeta)
          else err => ret (Err (internal "failed to send record metadata: " err)) in
        Lookup Send recv
  end.

Fixpoint Delete (recv : list (result RecordRef)) : M Ctx (result unit) :=
  match recv with
  | [] => ret (Ok tt)
  | Err err :: _ => ret (Err (internal "failed to receive record reference: " err))
  | Ok recordRef :: recv =>
      if decide (ref_Cid recordRef = "") then
        ret (Err (Status InvalidArgument "record cid is required"))
      else
        let? _u := on_store (store_Delete (Some recordRef))
          else err => ret (Err (rewrap "failed to delete record: " err)) in
        do! on_db (sqlite.RemoveRecord (ref_Cid recordRef)) then   (** an error is only logged *)
        Delete recv
  end.

(** ** Referrers: signatures and public keys attached to a record *)

Section referrers.
Context {Sig : Type}.   (** [signv1.Signature] *)

(** The optional methods of the store that the handlers look for. *)
Record SignatureStore := {
  sig_PushSignature : option (string -> option Sig -> M T (result unit));
  sig_PushPublicKey : option (string -> string -> M T (result unit));
  sig_PullSignature : option (string -> M T (result (option Sig)));
  sig_PullPublicKey : option (string -> M T (result string)) }.
Context (sigStore : SignatureStore).

Inductive PushReferrerOptions :=
  | PushReferrerRequest_Signature (signature : option Sig)
  | PushReferrerRequest_PublicKey (publicKey : string).
Record PushReferrerRequest := {
  PushReferrer_RecordRef : option RecordRef; PushReferrer_Options : option PushReferrerOptions }.
Record PushReferrerResponse := { Success : bool; ErrorMessage : option string }.

Inductive PullReferrerOptions :=
  | PullReferrerRequest_PullSignature
  | PullReferrerRequest_PullPublicKey.
Record PullReferrerRequest := {
  PullReferrer_RecordRef : option RecordRef; PullReferrer_Options : option PullReferrerOptions }.
Inductive PullReferrerResponse :=
  | PullReferrerResponse_Signature (signature : option Sig)
  | PullReferrerResponse_PublicKey (publicKey : string).

Definition push_failed (msg : string) : PushReferrerResponse :=
  {| Success := false; ErrorMessage := Some msg |}.

Definition pushSignatureReferrer (ref : option RecordRef) (signature : option Sig)
  : M Ctx PushReferrerResponse :=
  match sig_PushSignature sigStore with
  | None => ret (push_failed "signature storage not supported by current store implementation")
  | Some PushSignature =>
      let? _u := on_store (PushSignature (ref_GetCid ref) signature)
        else err => ret (push_failed ("failed to store signature for record " +:+ ref_GetCid ref
                                      +:+ ": " +:+ err_string err)) in
      ret {| Success := true; ErrorMessage := None |}
  end.

Definition pushPublicKeyReferrer (ref : option RecordRef) (publicKey : string)
  : M Ctx PushReferrerResponse :=
  match sig_PushPublicKey sigStore with
  | None => ret (push_failed "signature storage not supported by current store implementation")
  | Some PushPublicKey =>
      let? _u := on_store (PushPublicKey (ref_GetCid ref) publicKey)
        else err => ret (push_failed ("failed to store public key for record " +:+ ref_GetCid ref
                                      +:+ ": " +:+ err_string err)) in
      ret {| Success := true; ErrorMessage := None |}
  end.

Fixpoint PushReferrer (Send : PushReferrerResponse -> M O (result unit))
    (recv : list (result PushReferrerRequest)) : M Ctx (result unit) :=
  match recv with
  | [] => ret (Ok tt)
  | Err err :: _ => ret (Err (internal "failed to receive push referrer request: " err))
  | Ok request :: recv =>
      let ref := PushReferrer_RecordRef request in
      match validateRecordRef ref with
      | Err err => ret (Err err)
      | Ok _ =>
          match PushReferrer_Options request with
          | None => PushReferrer Send recv
          | Some options =>
              let! response := match options with
                | PushReferrerRequest_Signature s => pushSignatureReferrer ref s
                | PushReferrerRequest_PublicKey k => pushPublicKeyReferrer ref k
                end in
              let? _u := on_out (Send response)
                else err => ret (Err (internal "failed to send push referrer response: " err)) in
              PushReferrer Send recv
          end
      end
  end.

Definition pullSignatureReferrer (ref : option RecordRef) : M Ctx PullReferrerResponse :=
  match sig_PullSignature sigStore with
  | None => ret (PullReferrerResponse_Signature None)
  | Some PullSignature =>
      let? signature := on_store (PullSignature (ref_GetCid ref))
        else _err => ret (PullReferrerResponse_Signature None) in
      ret (PullReferrerResponse_Signature signature)
  end.

Definition pullPublicKeyReferrer (ref : option RecordRef) : M Ctx PullReferrerResponse :=
  match sig_PullPublicKey sigStore with
  | None => ret (PullReferrerResponse_PublicKey "")
  | Some PullPublicKey =>
      let? publicKey := on_store (PullPublicKey (ref_GetCid ref))
        else _err => ret (PullReferrerResponse_PublicKey "") in
      ret (PullReferrerResponse_PublicKey publicKey)
  end.

Fixpoint PullReferrer (Send : PullReferrerResponse -> M O (result unit))
    (recv : list (result PullReferrerRequest)) : M Ctx (result unit) :=
  match recv with
  | [] => ret (Ok tt)
  | Err err :: _ => ret (Err (internal "failed to receive pull referrer request: " err))
  | Ok request :: recv =>
      let ref := PullReferrer_RecordRef request in
      match validateRecordRef ref with
      | Err err => ret (Err err)
      | Ok _ =>
          match PullReferrer_Options request with
          | None => PullReferrer Send recv
          | Some options =>
              let! response := match options with
                | PullReferrerRequest_PullSignature => pullSignatureReferrer ref
                | PullReferrerRequest_PullPublicKey => pullPublicKeyReferrer ref
                end in
              let? _u := on_out (Send response)
                else err => ret (Err (internal "failed to send pull referrer response: " err)) in
              PullReferrer Send recv
          end
      end
  end.

End referrers.
End storeCtrl.
End storeCtrl.
Arguments storeCtrl.c_store {_ _ _}. Arguments storeCtrl.c_db {_ _ _}. Arguments storeCtrl.c_out {_ _ _}.

(** ** Store and index in step *)

(** Requests of a session, each with the messages its stream receives. *)
Inductive request :=
  | ReqPush (recv : list (result CoreRecord))
  | ReqPull (recv : list (result RecordRef))
  | ReqLookup (recv : list (result RecordRef))
  | ReqDelete (recv : list (result RecordRef)).

(** What the index should hold for the records of a store. *)
Definition index_of (a : Observable) : gmap string RecordData := omap GetRecordData a.1.

(** Filing records under their CIDs. *)
Definition file_record `{HashLib} `{!OasfJson} (m : gmap string CoreRecord) (r : CoreRecord) : gmap string CoreRecord :=
  <[GetCid (Some r) := r]> m.

Lemma filed `{HashLib} `{!OasfJson} rs m r :
  (forall r r', r ∈ rs -> r' ∈ rs -> GetCid (Some r) = GetCid (Some r') -> r = r') ->
  r ∈ rs -> foldl file_record m rs !! GetCid (Some r) = Some r.
Proof.
  induction rs as [|x rs IH] using rev_ind; intros Hinj Hr; [by apply elem_of_nil in Hr|].
  rewrite foldl_app. simpl. unfold file_record at 1.
  destruct (decide (GetCid (Some r) = GetCid (Some x))) as [He|Hne].
  - rewrite (Hinj r x) by (done || set_solver). apply lookup_insert_eq.
  - rewrite lookup_insert_ne by done. apply IH; [set_solver|].
    apply elem_of_app in Hr as [?|Hx]; [done|]. apply list_elem_of_singleton in Hx. congruence.
Qed.

Section service.
Context {T D O : Type} `{HashLib} `{!OasfJson} `{!StoreAPI T}
  {inv : T -> Prop} {obs : T -> Observable} {known_cid : string -> Prop} {record_ok : CoreRecord -> Prop} {meta_ok : RecordMeta -> Prop}
  `{Hsrc : !StoreSpec T inv obs known_cid record_ok meta_ok}.
Context `{!sqlite.Gorm D} (tables : D -> Tables) (like : string -> string -> bool) `{!GormSpec D tables like}.
Context (proto_Size : CoreRecord -> Z).
Context (data_of : string -> option RecordData)
  (data_of_record : forall r, record_ok r -> data_of (GetCid (Some r)) = GetRecordData r).
Notation Ctx := (storeCtrl.Ctx (T := T) (D := D) (O := O)).

(** Messages whose records survive encoding and whose CIDs are path components. *)
Definition record_msg_ok (m : result CoreRecord) : Prop :=
  forall r, m = Ok r -> is_ok (storeCtrl.validateAndGetCID proto_Size r) = true -> record_ok r.
Definition ref_msg_ok (m : result RecordRef) : Prop :=
  forall ref, m = Ok ref -> ref_Cid ref <> "" -> known_cid (ref_Cid ref).

Definition request_ok (req : request) : Prop :=
  match req with
  | ReqPush recv => Forall record_msg_ok recv
  | ReqPull recv | ReqLookup recv | ReqDelete recv => Forall ref_msg_ok recv
  end.

(** Every stored record is indexed; when [exact], nothing else is. *)
Record in_step (exact : Prop) (w : Ctx) : Prop := {
  is_inv : inv (storeCtrl.c_store w);
  is_index : exists P, index_rep data_of P (tables (storeCtrl.c_db w))
    /\ index_of (obs (storeCtrl.c_store w)) ⊆ P
    /\ (exact -> P = index_of (obs (storeCtrl.c_store w))) }.

(** The state with another store. *)
Definition set_store (t : T) (w : Ctx) : Ctx := {|
  storeCtrl.c_store := t; storeCtrl.c_db := storeCtrl.c_db w; storeCtrl.c_out := storeCtrl.c_out w |}.

Lemma run_on_store {A} (c : M T A) (w : Ctx) a t :
  c (storeCtrl.c_store w) = (a, t) ->
  storeCtrl.on_store c w = (a, set_store t w).
Proof. unfold storeCtrl.on_store. by intros ->. Qed.

Lemma validate_data r : is_ok (storeCtrl.validateAndGetCID proto_Size r) = true ->
  is_Some (GetRecordData r).
Proof.
  unfold storeCtrl.validateAndGetCID, storeCtrl.validateRecord.
  destruct r as [[[a|a|a]|]]; simpl; [by eauto..|done].
Qed.

(** Pushing a valid record. *)
Lemma pushRecord_run r (w : Ctx) exact :
  in_step exact w -> record_ok r -> is_Some (GetRecordData r) ->
  exists x w', storeCtrl.pushRecordToStore r w = (Some x, w') /\ in_step exact w'
    /\ storeCtrl.c_out w' = storeCtrl.c_out w
    /\ match x with
       | Ok ref => ref_Cid ref = GetCid (Some r)
           /\ (obs (storeCtrl.c_store w')).1 = <[GetCid (Some r) := r]> (obs (storeCtrl.c_store w)).1
       | Err e => err_code e = Some Internal /\ obs (storeCtrl.c_store w') = obs (storeCtrl.c_store w)
       end.
Proof.
  intros [Hi (P & Hrep & Hsub & Hex)] Hr [rd Hrd]. unfold storeCtrl.pushRecordToStore.
  destruct (store_Push_step r (storeCtrl.c_store w) Hi Hr) as (x & t & Hrun & Hi' & Hx).
  pose proof (run_on_store (store_Push (Some r)) w x t Hrun) as Hon.
  destruct x as [ref|e].
  - rewrite (try_bind_ok _ _ _ _ _ _ Hon). destruct Hx as [Hcid Hobs].
    destruct (AddRecord_run tables like data_of P (GetCid (Some r)) rd (storeCtrl.c_db w) Hrep)
      as (d & Hadd & Hrep'); [by rewrite data_of_record|].
    eexists (Ok ref), _. split; [|split; [|split; [|split]]].
    + unfold bind, storeCtrl.on_db. simpl. unfold sqlite.NewRecordAdapter. rewrite Hrd, Hadd. done.
    + split; simpl; [done|]. exists (<[GetCid (Some r) := rd]> P). unfold index_of.
      rewrite Hobs, (omap_insert_Some _ _ _ _ _ Hrd).
      split; [done|]. split; [by apply insert_mono|]. intros He. by rewrite (Hex He).
    + done.
    + done.
    + exact Hobs.
  - rewrite (try_bind_err _ _ _ _ _ _ Hon). eexists (Err _), _. split; [done|]. simpl.
    split; [|done]. split; simpl; [done|]. exists P. by rewrite Hx.
Qed.

Lemma in_step_out exact (w : Ctx) o : in_step exact w ->
  in_step exact {| storeCtrl.c_store := storeCtrl.c_store w; storeCtrl.c_db := storeCtrl.c_db w;
                   storeCtrl.c_out := o |}.
Proof. by intros [? ?]. Qed.

(** A store operation that shows no change keeps store and index in step. *)
Lemma in_step_same exact (w : Ctx) t : in_step exact w -> inv t -> obs t = obs (storeCtrl.c_store w) ->
  in_step exact (set_store t w).
Proof. intros [_ HP] Hi Ho. split; simpl; [done|]. by rewrite Ho. Qed.

(** ** The handlers keep store and index in step *)

Context (SendRef : RecordRef -> M O (result unit)) (SendRecord : CoreRecord -> M O (result unit))
  (SendMeta : RecordMeta -> M O (result unit)).

Definition run_request (req : request) : M Ctx (option (result unit)) :=
  match req with
  | ReqPush recv => storeCtrl.Push proto_Size SendRef recv
  | ReqPull recv => let! r := storeCtrl.Pull SendRecord recv in ret (Some r)
  | ReqLookup recv => let! r := storeCtrl.Lookup SendMeta recv in ret (Some r)
  | ReqDelete recv => let! r := storeCtrl.Delete recv in ret (Some r)
  end.

Fixpoint run_requests (reqs : list request) (w : Ctx) : list (option (result unit)) * Ctx :=
  match reqs with
  | [] => ([], w)
  | req :: reqs =>
      let '(x, w) := run_request req w in
      let '(xs, w) := run_requests reqs w in (x :: xs, w)
  end.

Lemma on_out_run {A} (c : M O A) (w : Ctx) a o : c (storeCtrl.c_out w) = (a, o) ->
  storeCtrl.on_out c w
  = (a, {| storeCtrl.c_store := storeCtrl.c_store w; storeCtrl.c_db := storeCtrl.c_db w; storeCtrl.c_out := o |}).
Proof. unfold storeCtrl.on_out. by intros ->. Qed.

Lemma Push_in_step exact recv (w : Ctx) :
  in_step exact w -> Forall record_msg_ok recv ->
  exists x w', storeCtrl.Push proto_Size SendRef recv w = (Some x, w') /\ in_step exact w'.
Proof.
  revert w. induction recv as [|m recv IH]; intros w Hw Hok; [by eexists _, _|].
  apply Forall_cons in Hok as [Hm Hok]. destruct m as [r|e]; simpl; [|by eexists _, _].
  destruct (storeCtrl.validateAndGetCID proto_Size r) as [c|e] eqn:Hv; [|by eexists _, _].
  assert (Hvalid : is_ok (storeCtrl.validateAndGetCID proto_Size r) = true) by by rewrite Hv.
  destruct (pushRecord_run r w exact Hw (Hm r eq_refl Hvalid) (validate_data r Hvalid))
    as (x & w1 & Hrun & Hw1 & _). rewrite (bind_run _ _ _ _ _ Hrun).
  destruct x as [ref|e]; [|by eexists _, _].
  destruct (SendRef ref (storeCtrl.c_out w1)) as [[[]|e] o] eqn:Hs.
  - rewrite (try_bind_ok _ _ _ _ _ _ (on_out_run _ w1 _ _ Hs)). apply IH; [by apply in_step_out|done].
  - rewrite (try_bind_err _ _ _ _ _ _ (on_out_run _ w1 _ _ Hs)). eexists _, _.
    split; [done|]. by apply in_step_out.
Qed.

Lemma Pull_in_step exact recv (w : Ctx) :
  in_step exact w -> Forall ref_msg_ok recv ->
  exists x w', storeCtrl.Pull SendRecord recv w = (x, w') /\ in_step exact w'.
Proof.
  revert w. induction recv as [|m recv IH]; intros w Hw Hok; [by eexists _, _|].
  apply Forall_cons in Hok as [Hm Hok]. destruct m as [ref|e]; simpl; [|by eexists _, _].
  unfold storeCtrl.validateRecordRef. case_decide as Hc; [by eexists _, _|].
  specialize (Hm ref eq_refl Hc). destruct ref as [c]. simpl in *.
  destruct (store_Pull_step c _ (is_inv _ _ Hw) Hm) as (x & t & Hrun & Hi & Ho & _).
  pose proof (in_step_same exact w t Hw Hi Ho) as Hw1. unfold storeCtrl.pullRecordFromStore.
  destruct x as [r|e].
  - erewrite try_bind_ok by by rewrite (try_bind_ok _ _ _ _ _ _ (run_on_store _ w _ _ Hrun)).
    destruct (SendRecord r (storeCtrl.c_out w)) as [[[]|e] o] eqn:Hs.
    + rewrite (try_bind_ok _ _ _ _ _ _ (on_out_run _ (set_store t w) _ _ Hs)). apply IH; [by apply (in_step_out _ (set_store t w))|done].
    + rewrite (try_bind_err _ _ _ _ _ _ (on_out_run _ (set_store t w) _ _ Hs)). eexists _, _. split; [done|].
      by apply (in_step_out _ (set_store t w)).
  - erewrite try_bind_err by by rewrite (try_bind_err _ _ _ _ _ _ (run_on_store _ w _ _ Hrun)).
    by eexists _, _.
Qed.

Lemma Lookup_in_step exact recv (w : Ctx) :
  in_step exact w -> Forall ref_msg_ok recv ->
  exists x w', storeCtrl.Lookup SendMeta recv w = (x, w') /\ in_step exact w'.
Proof.
  revert w. induction recv as [|m recv IH]; intros w Hw Hok; [by eexists _, _|].
  apply Forall_cons in Hok as [Hm Hok]. destruct m as [ref|e]; simpl; [|by eexists _, _].
  case_decide as Hc; [by eexists _, _|].
  specialize (Hm ref eq_refl Hc). destruct ref as [c]. simpl in *.
  destruct (store_Lookup_step c _ (is_inv _ _ Hw) Hm) as (x & t & Hrun & Hi & Ho & _).
  pose proof (in_step_same exact w t Hw Hi Ho) as Hw1.
  destruct x as [r|e].
  - rewrite (try_bind_ok _ _ _ _ _ _ (run_on_store _ w _ _ Hrun)).
    destruct (SendMeta r (storeCtrl.c_out w)) as [[[]|e] o] eqn:Hs.
    + rewrite (try_bind_ok _ _ _ _ _ _ (on_out_run _ (set_store t w) _ _ Hs)). apply IH; [by apply (in_step_out _ (set_store t w))|done].
    + rewrite (try_bind_err _ _ _ _ _ _ (on_out_run _ (set_store t w) _ _ Hs)). eexists _, _. split; [done|].
      by apply (in_step_out _ (set_store t w)).
  - rewrite (try_bind_err _ _ _ _ _ _ (run_on_store _ w _ _ Hrun)). by eexists _, _.
Qed.

Lemma in_step_weaken (e e' : Prop) w : (e' -> e) -> in_step e w -> in_step e' w.
Proof. intros He [Hi (P & ? & ? & ?)]. split; [done|]. exists P. auto. Qed.

(** One delete; a failed one may have removed the record, which then stays in
    the index. *)
Lemma delete_one exact c (w : Ctx) :
  in_step exact w -> known_cid c ->
  exists x t, store_Delete (Some {| ref_Cid := c |}) (storeCtrl.c_store w) = (x, t) /\
    match x with
    | Ok _ => exists d, sqlite.RemoveRecord c (storeCtrl.c_db w) = (Ok tt, d)
        /\ in_step exact {| storeCtrl.c_store := t; storeCtrl.c_db := d; storeCtrl.c_out := storeCtrl.c_out w |}
    | Err _ => in_step False (set_store t w)
    end.
Proof.
  intros [Hi (P & Hrep & Hsub & Hex)] Hc.
  destruct (store_Delete_step c _ Hi Hc) as (x & t & Hrun & Hi' & Hx). exists x, t. split; [done|].
  destruct x as [[]|e].
  - destruct (RemoveRecord_run tables like data_of P c (storeCtrl.c_db w) Hrep) as (d & Hd & Hrep').
    exists d. split; [done|]. split; simpl; [done|]. exists (delete c P). split; [done|].
    unfold index_of. rewrite Hx, omap_delete. split; [by apply delete_mono|].
    intros He. by rewrite (Hex He).
  - split; simpl; [done|]. exists P. split; [done|]. split; [|done].
    transitivity (index_of (obs (storeCtrl.c_store w))); [|done]. by apply map_omap_mono.
Qed.

Lemma Delete_in_step exact recv (w : Ctx) :
  in_step exact w -> Forall ref_msg_ok recv ->
  exists x w', storeCtrl.Delete recv w = (x, w') /\ in_step (exact /\ x = Ok tt) w'.
Proof.
  revert w. induction recv as [|m recv IH]; intros w Hw Hok.
  { eexists _, _. split; [done|]. by apply (in_step_weaken exact); [intros []|]. }
  apply Forall_cons in Hok as [Hm Hok]. destruct m as [ref|e]; simpl.
  2:{ eexists _, _. split; [done|]. by apply (in_step_weaken exact); [intros []|]. }
  case_decide as Hc.
  { eexists _, _. split; [done|]. by apply (in_step_weaken exact); [intros []|]. }
  specialize (Hm ref eq_refl Hc). destruct ref as [c]. simpl in *.
  destruct (delete_one exact c w Hw Hm) as (x & t & Hrun & Hx). destruct x as [[]|e].
  - destruct Hx as (d & Hd & Hw1). rewrite (try_bind_ok _ _ _ _ _ _ (run_on_store _ w _ _ Hrun)).
    unfold bind, storeCtrl.on_db. simpl. rewrite Hd. simpl. by apply IH.
  - rewrite (try_bind_err _ _ _ _ _ _ (run_on_store _ w _ _ Hrun)). eexists _, _. split; [done|].
    by apply (in_step_weaken False); [intros [_ [=]]|].
Qed.

(** A delete request of a session went through. *)
Definition delete_through (req : request) (x : option (result unit)) : Prop :=
  match req with ReqDelete _ => x = Some (Ok tt) | _ => True end.

Lemma request_in_step exact req (w : Ctx) :
  in_step exact w -> request_ok req ->
  exists x w', run_request req w = (Some x, w') /\ in_step (exact /\ delete_through req (Some x)) w'.
Proof.
  intros Hw Hok. destruct req as [recv|recv|recv|recv]; simpl in *.
  - destruct (Push_in_step exact recv w Hw Hok) as (x & w' & Hrun & Hw').
    exists x, w'. split; [done|]. by apply (in_step_weaken exact); [intros []|].
  - destruct (Pull_in_step exact recv w Hw Hok) as (x & w' & Hrun & Hw').
    exists x, w'. rewrite (bind_run _ _ _ _ _ Hrun). split; [done|].
    by apply (in_step_weaken exact); [intros []|].
  - destruct (Lookup_in_step exact recv w Hw Hok) as (x & w' & Hrun & Hw').
    exists x, w'. rewrite (bind_run _ _ _ _ _ Hrun). split; [done|].
    by apply (in_step_weaken exact); [intros []|].
  - destruct (Delete_in_step exact recv w Hw Hok) as (x & w' & Hrun & Hw').
    exists x, w'. rewrite (bind_run _ _ _ _ _ Hrun). split; [done|].
    by apply (in_step_weaken (exact /\ x = Ok tt)); [intros [? [= ->]]|].
Qed.

Lemma session_in_step exact reqs (w : Ctx) :
  in_step exact w -> Forall request_ok reqs ->
  exists xs w', run_requests reqs w = (xs, w') /\ Forall is_Some xs
    /\ in_step (exact /\ Forall2 delete_through reqs xs) w'.
Proof.
  revert exact w. induction reqs as [|req reqs IH]; intros exact w Hw Hok.
  { eexists _, _. split; [done|]. split; [done|]. by apply (in_step_weaken exact); [intros []|]. }
  apply Forall_cons in Hok as [Hreq Hok].
  destruct (request_in_step exact req w Hw Hreq) as (x & w1 & Hrun & Hw1).
  destruct (IH _ w1 Hw1 Hok) as (xs & w' & Hruns & Hsome & Hw').
  exists (Some x :: xs), w'. simpl. rewrite Hrun, Hruns. split; [done|]. split; [by constructor|].
  eapply in_step_weaken; [|done]. intros [He Hall]. inversion Hall; subst. done.
Qed.

(** C5. A search finds what is stored.  After any session of pushes, pulls,
    lookups and deletes through the store service, during which no handler
    panics, every stored record whose data satisfies the queries is among the
    CIDs the search handler selects; and when every delete went through, each
    selected CID is that of a stored record. *)
Theorem search_finds_stored {S : Type} (Send : string -> M S (result unit)) (sent : S -> list string)
    reqs (w : Ctx) qs limit offset s :
  (forall c s, (Send c s).1 = Ok tt /\ sent (Send c s).2 = sent s ++ [c]) ->
  in_step True w -> Forall request_ok reqs -> forallb query_ok qs = true ->
  (0 <= limit)%Z -> (0 <= offset)%Z ->
  let '(xs, w') := run_requests reqs w in
  let stored c := exists r rd, (obs (storeCtrl.c_store w')).1 !! c = Some r
                    /\ GetRecordData r = Some rd /\ accepts like qs rd = true in
  Forall is_Some xs /\
  exists all s', searchCtlr.Search Send (storeCtrl.c_db w') qs limit offset s = (Ok tt, s')
    /\ sent s' = sent s ++ window limit offset all /\ NoDup all
    /\ (forall c, stored c -> c ∈ all)
    /\ (Forall2 delete_through reqs xs -> forall c, c ∈ all -> stored c).
Proof.
  intros Hsend Hw Hok Hqs Hl Ho.
  destruct (session_in_step True reqs w Hw Hok) as (xs & w' & -> & Hsome & [_ (P & Hrep & Hsub & Hex)]).
  split; [done|].
  pose proof (Search_run tables like data_of Send sent Hsend P (storeCtrl.c_db w') qs limit offset s
    Hrep Hl Ho) as Hs. rewrite Hqs in Hs. destruct Hs as (all & s' & Hrun & Hsent & Hnd & Hall).
  exists all, s'. split; [done|]. split; [done|]. split; [done|]. split.
  - intros c (r & rd & Hr & Hrd & Hacc). apply Hall. exists rd. split; [|done].
    apply (lookup_weaken _ _ _ _ (proj2 (lookup_omap_Some _ _ _ _) (ex_intro _ r (conj Hrd Hr))) Hsub).
  - intros Hdel c Hc. apply Hall in Hc as (rd & HP & Hacc).
    rewrite (Hex (conj I Hdel)) in HP. unfold index_of in HP.
    apply lookup_omap_Some in HP as (r & Hrd & Hr). eauto.
Qed.

(** ** What the streams answer *)

Section streams.
Context (sentRef : O -> list RecordRef)
  (SendRef_ok : forall r o, (SendRef r o).1 = Ok tt /\ sentRef (SendRef r o).2 = sentRef o ++ [r]).
Context (sentRecord : O -> list CoreRecord)
  (SendRecord_ok : forall r o,
     (SendRecord r o).1 = Ok tt /\ sentRecord (SendRecord r o).2 = sentRecord o ++ [r]).

Definition ref_of (r : CoreRecord) : RecordRef := {| ref_Cid := GetCid (Some r) |}.

(** Why a push stream stops at a record. *)
Definition stops (r : CoreRecord) (e : error) : Prop :=
  match storeCtrl.validateAndGetCID proto_Size r with
  | Err e' => e = e' | Ok _ => err_code e = Some Internal end.

Lemma Push_run rs (w : Ctx) exact :
  in_step exact w -> Forall (fun r => record_msg_ok (Ok r)) rs ->
  exists n x w', storeCtrl.Push proto_Size SendRef (Ok <$> rs) w = (Some x, w')
    /\ in_step exact w'
    /\ sentRef (storeCtrl.c_out w') = sentRef (storeCtrl.c_out w) ++ (ref_of <$> take n rs)
    /\ (obs (storeCtrl.c_store w')).1 = foldl file_record (obs (storeCtrl.c_store w)).1 (take n rs)
    /\ ((n = length rs /\ x = Ok tt) \/ exists r e, rs !! n = Some r /\ x = Err e /\ stops r e).
Proof.
  revert w. induction rs as [|r rs IH]; intros w Hw Hok.
  { exists 0%nat, (Ok tt), w. split; [done|]. split; [done|]. rewrite app_nil_r. auto. }
  apply Forall_cons in Hok as [Hr Hok]. cbn [fmap list_fmap storeCtrl.Push].
  destruct (storeCtrl.validateAndGetCID proto_Size r) as [c|e] eqn:Hv.
  2:{ exists 0%nat, (Err e), w. rewrite app_nil_r. split; [done|]. split; [done|]. split; [done|].
      split; [done|]. right. exists r, e. unfold stops. by rewrite Hv. }
  assert (Hvalid : is_ok (storeCtrl.validateAndGetCID proto_Size r) = true) by by rewrite Hv.
  destruct (pushRecord_run r w exact Hw (Hr r eq_refl Hvalid) (validate_data r Hvalid))
    as (x & w1 & Hrun & Hw1 & Hout & Hx). rewrite (bind_run _ _ _ _ _ Hrun).
  destruct x as [ref|e].
  2:{ destruct Hx as [He Ho]. exists 0%nat, (Err e), w1. rewrite app_nil_r, Hout, Ho.
      split; [done|]. split; [done|]. split; [done|]. split; [done|].
      right. exists r, e. unfold stops. by rewrite Hv. }
  destruct Hx as [Href Ho].
  destruct (SendRef_ok ref (storeCtrl.c_out w1)) as [Hs1 Hs2].
  destruct (SendRef ref (storeCtrl.c_out w1)) as [u o] eqn:Hs. simpl in Hs1, Hs2. subst u.
  rewrite (try_bind_ok _ _ _ _ _ _ (on_out_run _ w1 _ _ Hs)).
  destruct (IH _ (in_step_out _ w1 o Hw1) Hok) as (n & x & w' & Hp & Hw' & Hsent & Hobs & Hend).
  exists (Datatypes.S n), x, w'. split; [done|]. split; [done|]. simpl in *.
  rewrite Hsent, Hobs, Hs2, Hout, Ho, <- app_assoc.
  assert (ref = ref_of r) as -> by (destruct ref; unfold ref_of; by f_equal).
  split; [done|]. split; [done|]. destruct Hend as [[-> ->]|?]; [by left|by right].
Qed.

(** A push stream.  The handler files a prefix of the received records under
    their CIDs, indexes them and answers each with its reference, in order.  It
    stops early only at a record that fails validation, with that error
    (InvalidArgument for a record with no data or of more than 4 MB), or that
    the store refuses, with Internal. *)
Theorem Push_stream rs (w : Ctx) exact :
  in_step exact w -> Forall (fun r => record_msg_ok (Ok r)) rs ->
  exists n x w', storeCtrl.Push proto_Size SendRef (Ok <$> rs) w = (Some x, w')
    /\ in_step exact w'
    /\ sentRef (storeCtrl.c_out w') = sentRef (storeCtrl.c_out w) ++ (ref_of <$> take n rs)
    /\ (obs (storeCtrl.c_store w')).1 = foldl file_record (obs (storeCtrl.c_store w)).1 (take n rs)
    /\ ((n = length rs /\ x = Ok tt) \/ exists r e, rs !! n = Some r /\ x = Err e /\ stops r e).
Proof. apply Push_run. Qed.

Lemma Pull_stream cs (w : Ctx) rs :
  inv (storeCtrl.c_store w) ->
  Forall2 (fun c r => (obs (storeCtrl.c_store w)).1 !! c = Some r) cs rs ->
  exists w', storeCtrl.Pull SendRecord (Ok <$> ((fun c => {| ref_Cid := c |}) <$> cs)) w = (Ok tt, w')
    /\ obs (storeCtrl.c_store w') = obs (storeCtrl.c_store w)
    /\ sentRecord (storeCtrl.c_out w') = sentRecord (storeCtrl.c_out w) ++ rs.
Proof.
  intros Hi Hall. revert w Hi Hall. revert rs. induction cs as [|c cs IH]; intros rs w Hi Hall.
  { inversion Hall; subst. exists w. by rewrite app_nil_r. }
  inversion Hall as [|? r ? rs' Hr Hall']; subst. cbn [fmap list_fmap storeCtrl.Pull].
  destruct (obs_content _ _ _ Hi Hr) as (_ & Hc & _).
  unfold storeCtrl.validateRecordRef.
  rewrite decide_False by (intros Heq; apply known_cid_good in Hc; simpl in Heq; by subst).
  destruct (store_Pull_step c _ Hi Hc) as (x & t & Hrun & Hi' & Ho & Ha).
  unfold answers in Ha. rewrite Hr in Ha. subst x. unfold storeCtrl.pullRecordFromStore.
  erewrite try_bind_ok by by rewrite (try_bind_ok _ _ _ _ _ _ (run_on_store _ w _ _ Hrun)).
  destruct (SendRecord_ok r (storeCtrl.c_out w)) as [Hs1 Hs2].
  destruct (SendRecord r (storeCtrl.c_out w)) as [u o] eqn:Hs. simpl in Hs1, Hs2. subst u.
  rewrite (try_bind_ok _ _ _ _ _ _ (on_out_run _ (set_store t w) _ _ Hs)).
  destruct (IH rs' {| storeCtrl.c_store := t; storeCtrl.c_db := storeCtrl.c_db w; storeCtrl.c_out := o |})
    as (w' & Hp & Ho' & Hsent); [done|simpl; by rewrite Ho|].
  exists w'. split; [done|]. simpl in *. by rewrite Ho', Ho, Hsent, Hs2, <- app_assoc.
Qed.

(** What was pushed can be pulled.  When a push stream ends without an error,
    it has answered one reference per record, and pulling these references
    through the pull stream sends back exactly the pushed records, in order. *)
Theorem push_then_pull rs (w : Ctx) exact :
  (forall r r', record_ok r -> record_ok r' -> GetCid (Some r) = GetCid (Some r') -> r = r') ->
  in_step exact w -> Forall record_ok rs ->
  forall w1, storeCtrl.Push proto_Size SendRef (Ok <$> rs) w = (Some (Ok tt), w1) ->
  exists refs w2, sentRef (storeCtrl.c_out w1) = sentRef (storeCtrl.c_out w) ++ refs
    /\ storeCtrl.Pull SendRecord (Ok <$> refs) w1 = (Ok tt, w2)
    /\ sentRecord (storeCtrl.c_out w2) = sentRecord (storeCtrl.c_out w1) ++ rs.
Proof.
  intros Hinj Hw Hok w1 Hrun.
  destruct (Push_run rs w exact Hw) as (n & x & w1' & Hrun' & [Hi _] & Hsent & Hobs & Hend).
  { eapply Forall_impl; [done|]. by intros r Hr r' [= <-]. }
  rewrite Hrun in Hrun'. simplify_eq. destruct Hend as [[-> _]|(? & ? & _ & [=] & _)].
  rewrite firstn_all in Hsent, Hobs.
  destruct (Pull_stream ((fun r => GetCid (Some r)) <$> rs) w1' rs Hi) as (w2 & Hpull & _ & Hs2).
  { rewrite Hobs, Forall2_fmap_l. apply Forall_Forall2_diag, Forall_forall. intros r Hr. simpl.
    apply filed; [|done]. rewrite Forall_forall in Hok. auto. }
  exists (ref_of <$> rs), w2. split; [done|]. split; [|done].
  rewrite <- (list_fmap_compose (fun r => GetCid (Some r)) (fun c => {| ref_Cid := c |}) rs) in Hpull.
  exact Hpull.
Qed.

End streams.
End service.

(** ** An executable instance *)

Module DemoController.
Import DemoCore DemoCache.
#[local] Existing Instances DemoSearch.table_gorm DemoSearch.table_gorm_spec DemoCache.one DemoCache.one_spec.

Definition Out : Type := list RecordRef * list CoreRecord.
Definition send_ref (r : RecordRef) : M Out (result unit) := fun o => (Ok tt, (o.1 ++ [r], o.2)).
Definition send_record (r : CoreRecord) : M Out (result unit) := fun o => (Ok tt, (o.1, o.2 ++ [r])).
Definition send_meta (m : RecordMeta) : M Out (result unit) := fun o => (Ok tt, o).
Definition size (r : CoreRecord) : Z := 100.

Definition data_of (c : string) : option RecordData :=
  if decide (c = demo_id) then GetRecordData demo_rec else None.

Lemma data_of_record r : r = demo_rec -> data_of (GetCid (Some r)) = GetRecordData r.
Proof. by intros ->. Qed.

Definition start : storeCtrl.Ctx (T := bool) (D := Tables) (O := Out) := {|
  storeCtrl.c_store := false; storeCtrl.c_db := DemoSearch.empty; storeCtrl.c_out := ([], []) |}.

Lemma start_in_step : in_step (obs := one_obs) (inv := fun _ => True) DemoSearch.tables data_of True start.
Proof.
  split; [done|]. exists ∅. split; [|done].
  by split; try split; simpl; intros *; rewrite ?lookup_empty, ?elem_of_nil.
Qed.

Definition demo_reqs : list request :=
  [ReqPush [Ok demo_rec]; ReqPull [Ok {| ref_Cid := demo_id |}]; ReqPush [Ok demo_rec]].

Lemma demo_reqs_ok : Forall (request_ok (known_cid := any_cid) (record_ok := fun r => r = demo_rec) size) demo_reqs.
Proof.
  assert (Hp : Forall (record_msg_ok (record_ok := fun r => r = demo_rec) size) [Ok demo_rec]).
  { constructor; [|constructor]. intros r Hr _. by injection Hr. }
  constructor; [exact Hp|]. constructor; [|constructor; [exact Hp|constructor]].
  constructor; [|constructor]. intros ref Hr _. injection Hr as <-. reflexivity.
Qed.

Lemma search_finds_stored_witness :
  let '(xs, w') := run_requests size send_ref send_record send_meta demo_reqs start in
  exists all, searchCtlr.Search DemoSearch.send (storeCtrl.c_db w') [] 0 0 [] = (Ok tt, all)
    /\ demo_id ∈ all /\ forall c, c ∈ all -> is_Some ((one_obs (storeCtrl.c_store w')).1 !! c).
Proof.
  pose proof (search_finds_stored DemoSearch.tables DemoSearch.sql_like size data_of
    data_of_record send_ref send_record send_meta DemoSearch.send (fun s => s) demo_reqs start [] 0 0 []
    DemoSearch.send_ok start_in_step demo_reqs_ok eq_refl) as H.
  destruct (run_requests size send_ref send_record send_meta demo_reqs start)
    as [xs w'] eqn:E.
  destruct H as (_ & all & s' & H1 & H2 & _ & H3 & H4); [discriminate|discriminate|].
  vm_compute in E. injection E as <- <-. exists s'. split; [exact H1|]. rewrite H2. split.
  - apply H3. exists demo_rec. eexists. split; [reflexivity|]. split; reflexivity.
  - intros c Hc. apply H4 in Hc as (r & rd & Hr & _); [rewrite Hr; eexists; reflexivity|].
    repeat constructor.
Defined.

Lemma Push_stream_witness :
  exists w', storeCtrl.Push size send_ref (Ok <$> [demo_rec; {| GetData := None |}]) start
      = (Some (Err (Status InvalidArgument "record has no data")), w')
    /\ (storeCtrl.c_out w').1 = [{| ref_Cid := demo_id |}].
Proof.
  destruct (Push_stream DemoSearch.tables DemoSearch.sql_like size data_of data_of_record
    send_ref fst (fun r o => conj eq_refl eq_refl) [demo_rec; {| GetData := None |}] start True start_in_step)
    as (n & x & w' & H1 & _ & H2 & _ & H3).
  { repeat constructor; intros r Hr Hv; injection Hr as <-; [reflexivity|discriminate Hv]. }
  exists w'. destruct H3 as [[-> ->]|(r & e & Hr & -> & Hs)].
  - exfalso. vm_compute in H1. discriminate H1.
  - destruct n as [|[|n]]; [injection Hr as <-|injection Hr as <-|destruct n; discriminate Hr].
    + exfalso. vm_compute in H1. injection H1 as <- <-. discriminate Hs.
    + split; [rewrite H1; f_equal; f_equal; unfold stops in Hs; simpl in Hs; rewrite Hs; reflexivity|].
      exact H2.
Defined.

Lemma push_then_pull_witness :
  exists w1 w2, storeCtrl.Push size send_ref (Ok <$> [demo_rec]) start = (Some (Ok tt), w1)
    /\ storeCtrl.Pull send_record [Ok {| ref_Cid := demo_id |}] w1 = (Ok tt, w2)
    /\ (storeCtrl.c_out w2).2 = [demo_rec].
Proof.
  destruct (storeCtrl.Push size send_ref (Ok <$> [demo_rec]) start) as [x w1] eqn:E.
  assert (x = Some (Ok tt) /\ (storeCtrl.c_out w1) = ([{| ref_Cid := demo_id |}], [])) as [-> Ho].
  { vm_compute in E. injection E as <- <-. split; reflexivity. }
  destruct (push_then_pull DemoSearch.tables DemoSearch.sql_like size data_of data_of_record
    send_ref send_record fst (fun r o => conj eq_refl eq_refl) snd (fun r o => conj eq_refl eq_refl)
    [demo_rec] start True) with (w1 := w1) as (refs & w2 & H1 & H2 & H3).
  - intros r r' -> ->. reflexivity.
  - exact start_in_step.
  - repeat constructor.
  - exact E.
  - exists w1, w2. split; [reflexivity|]. rewrite Ho in H1, H3. simpl in H1. subst refs.
    split; [exact H2|]. exact H3.
Defined.

End DemoController.
