(* ===== verification/OciReferrers.v ===== *)
(** * Signatures and public keys of stored records

    server/store/oci/referrers.go on top of OciStore: a signature is attached to
    the manifest of a record by cosign, under a tag made from the digest of the
    manifest; a public key is uploaded to zot and stored as a manifest whose
    subject is that of the record.  utils/cosign/sign.go (Module [cosign]):
    attaching.  controller/sign.go (Module [signCtrl]): verification by zot. *)

From S2P Require Import Prelude GoStrings GoUrl Interfaces Adapters Zot CoreRecord Validators LabelKey Metrics RoutingWorld RoutingLocal RoutingLocalSpec StoreCache OciAnnotations OciStore Search StoreController.

Open Scope string_scope.
Open Scope list_scope.
Open Scope go_scope.

Arguments MarshalOASF : simpl never.
Arguments UnmarshalOASF : simpl never.
Arguments GetCid : simpl never.

(** ** Data *)

(** [signv1.Signature]. *)
Record Signature := {
  Sig_Annotations : gmap string string; Sig_SignedAt : string; Sig_Algorithm : string;
  Sig_Signature : string; Sig_Certificate : string; Sig_ContentType : string;
  Sig_ContentBundle : string }.

Definition PublicKeyArtifactMediaType : string := "application/vnd.agntcy.dir.publickey.v1+pem".
Definition SignatureArtifactType : string := "application/vnd.dev.cosign.simplesigning.v1+json".
Definition SignatureAnnotation : string := "dev.cosignproject.cosign/signature".

(** [ociconfig.Config] with [ociconfig.AuthConfig], as far as referrers use it. *)
Record OciConfig := {
  Cfg_RegistryAddress : string; Cfg_RepositoryName : string; Cfg_Insecure : bool;
  Cfg_Username : string; Cfg_Password : string; Cfg_AccessToken : string }.

(** The functions of cosign and go-containerregistry that attach a signature;
    they reach the registry by its address. *)
Class Cosign (R : Type) := {
  ImageRef : Type; Repository : Type; StaticSignature : Type; SignedEntity : Type;
  name_ParseReference : string -> result ImageRef;
  ref_Context : ImageRef -> Repository;
  static_NewSignature : string -> string -> result StaticSignature;
  ociremote_SignedEntity : ImageRef -> R -> result SignedEntity;
  mutate_AttachSignatureToEntity : SignedEntity -> StaticSignature -> result SignedEntity;
  ociremote_WriteSignatures : Repository -> SignedEntity -> M R (result unit);
}.

(** ** Attaching (utils/cosign/sign.go) *)

Module cosign.

Record AttachSignatureOptions := { Opt_ImageRef : string; Opt_Signature : string; Opt_Payload : string }.

Definition AttachSignature {R} `{!Cosign R} (opts : AttachSignatureOptions) : M R (result unit) := fun r =>
  match name_ParseReference (Opt_ImageRef opts) with
  | Err err => (Err (Wrap "failed to parse image reference: " err), r)
  | Ok ref =>
  match static_NewSignature (Opt_Payload opts) (Opt_Signature opts) with
  | Err err => (Err (Wrap "failed to create static signature: " err), r)
  | Ok sig =>
  match ociremote_SignedEntity ref r with
  | Err err => (Err (Wrap "failed to create signed entity: " err), r)
  | Ok se =>
  match mutate_AttachSignatureToEntity se sig with
  | Err err => (Err (Wrap "failed to attach signature to entity: " err), r)
  | Ok newSE =>
      (let? _u := ociremote_WriteSignatures (ref_Context ref) newSE
         else err => ret (Err (Wrap "failed to write signatures: " err)) in
       ret (Ok tt)) r
  end end end end.

End cosign.

(** ** The referrers of the store *)

(** The registry, and HTTP to reach zot. *)
Record OciWorld (R N : Type) := { w_repo : R; w_http : N }.
Arguments w_repo {_ _}. Arguments w_http {_ _}.

(** [strings.Replace(s, ":", "-", 1)]. *)
Definition dash_first_colon (s : string) : string :=
  match Cut ":"%char s with (a, Some b) => a +:+ "-" +:+ b | (a, None) => a end.

Definition signature_tag `{HashLib} (d : Digest) : string :=
  dash_first_colon (Digest_String d) +:+ ".sig".

Module referrers.
Section referrers.
Context `{HashLib} `{!OasfJson} {R N : Type} `{!Registry R} `{!JsonCodec Manifest} `{!Cosign R}
  `{!HttpClient N} `{!JsonCodec GraphqlQuery} `{!JsonCodec GraphqlResponse}.
Context (url_error : string -> error) (config : OciConfig).
Notation W := (OciWorld R N).

Definition on_repo {A} (c : M R A) : M W A := fun w =>
  let '(a, r) := c (w_repo w) in (a, {| w_repo := r; w_http := w_http w |}).
Definition on_http {A} (c : M N A) : M W A := fun w =>
  let '(a, n) := c (w_http w) in (a, {| w_repo := w_repo w; w_http := n |}).
Definition read_repo {A} (f : R -> A) : M W A := fun w => (f (w_repo w), w).

(** The store itself, next to HTTP. *)
#[export] Instance api : StoreAPI W := {|
  store_Push record := on_repo (oci.Push record); store_Pull ref := on_repo (oci.Pull ref);
  store_Lookup ref := on_repo (oci.Lookup ref); store_Delete ref := on_repo (oci.Delete ref) |}.

Definition buildZotConfig : VerifyConfig := {|
  RegistryAddress := Cfg_RegistryAddress config; RepositoryName := Cfg_RepositoryName config;
  Username := Cfg_Username config; Password := Cfg_Password config;
  AccessToken := Cfg_AccessToken config; Insecure := Cfg_Insecure config |}.

Definition constructImageReference (recordCID : string) : string :=
  let registry := Cfg_RegistryAddress config in
  let repository := Cfg_RepositoryName config in
  let registry := TrimPrefix registry "http://" in
  let registry := TrimPrefix registry "https://" in
  registry +:+ "/" +:+ repository +:+ ":" +:+ recordCID.

(** The getters of a nil signature give zero values. *)
Definition attachSignatureWithCosign (recordCID : string) (signature : option Signature)
  : M R (result unit) :=
  let imageRef := constructImageReference recordCID in
  let attachOpts := {|
    cosign.Opt_ImageRef := imageRef;
    cosign.Opt_Signature := match signature with Some s => Sig_Signature s | None => "" end;
    cosign.Opt_Payload := match signature with
      | Some s => default "" (Sig_Annotations s !! "payload") | None => "" end |} in
  let? _u := cosign.AttachSignature attachOpts
    else err => ret (Err (Wrap "failed to attach signature: " err)) in
  ret (Ok tt).

Definition PushSignature (recordCID : string) (signature : option Signature) : M W (result unit) :=
  if decide (recordCID = "") then ret (Err (Status InvalidArgument "record CID is required"))
  else
    let? _u := on_repo (attachSignatureWithCosign recordCID signature)
      else err => ret (Err (internal "failed to attach signature with cosign: " err)) in
    ret (Ok tt).

(** An unexpected media type is only logged. *)
Definition extractSignatureFromManifest (manifestDesc : Descriptor) (repo : R) : result Signature :=
  match oci.fetchAndParseManifestFromDescriptor manifestDesc repo with
  | Err err => Err err
  | Ok manifest =>
      match Layers manifest with
      | [] => Err (Status Internal "signature manifest has no layers")
      | signatureBlobDesc :: _ =>
          match repo_Fetch signatureBlobDesc repo with
          | Err err => Err (Status NotFound ("signature blob not found for CID "
                         +:+ Digest_String (Desc_Digest manifestDesc) +:+ ": " +:+ err_string err))
          | Ok (Err err) => Err (internal ("failed to read signature data for CID "
                         +:+ Digest_String (Desc_Digest manifestDesc) +:+ ": ") err)
          | Ok (Ok signatureBlobData) =>
              let signatureValue := default "" (Desc_Annotations signatureBlobDesc !! SignatureAnnotation) in
              if decide (signatureValue = "") then
                Err (Status Internal "no signature value found in annotations")
              else Ok {|
                Sig_Annotations := {[ "payload" := signatureBlobData ]}; Sig_SignedAt := "";
                Sig_Algorithm := ""; Sig_Signature := signatureValue; Sig_Certificate := "";
                Sig_ContentType := ""; Sig_ContentBundle := "" |}
          end
      end
  end.

Definition pullSignature (recordCID : string) (repo : R) : result Signature :=
  if decide (recordCID = "") then Err (Status InvalidArgument "record CID is required")
  else match repo_Resolve recordCID repo with
  | Err err => Err (Status NotFound ("failed to resolve record manifest for CID " +:+ recordCID
                                     +:+ ": " +:+ err_string err))
  | Ok recordManifestDesc =>
      let cosignTag := signature_tag (Desc_Digest recordManifestDesc) in
      match repo_Resolve cosignTag repo with
      | Err err => Err (Status NotFound ("no signature found for record CID " +:+ recordCID
                                         +:+ ": " +:+ err_string err))
      | Ok signatureManifestDesc => extractSignatureFromManifest signatureManifestDesc repo
      end
  end.

Definition PullSignature (recordCID : string) : M W (result (option Signature)) :=
  read_repo (fun repo => result_map Some (pullSignature recordCID repo)).

Definition PushPublicKey (recordCID publicKey : string) : M W (result unit) :=
  if decide (publicKey = "") then ret (Err (Status InvalidArgument "public key is required"))
  else if decide (recordCID = "") then ret (Err (Status InvalidArgument "record CID is required"))
  else
    let? _u := on_http (zot.UploadPublicKey url_error buildZotConfig publicKey)
      else err => ret (Err (internal "failed to upload public key to zot for verification: " err)) in
    let? blobDesc := on_repo (oras_PushBytes PublicKeyArtifactMediaType publicKey)
      else err => ret (Err (Wrap "failed to push public key blob: " err)) in
    let? recordManifestDesc := read_repo (repo_Resolve recordCID)
      else err => ret (Err (Wrap "failed to resolve record manifest for subject: " err)) in
    let? _manifestDesc := on_repo (oras_PackManifest {|
        ManifestAnnotations := ∅; Pack_Layers := [blobDesc]; Subject := Some recordManifestDesc |})
      else err => ret (Err (Wrap "failed to pack public key manifest: " err)) in
    ret (Ok tt).

Definition isPublicKeyReferrer (repo : R) (referrer : Descriptor) : bool :=
  match oci.fetchAndParseManifestFromDescriptor referrer repo with
  | Err _ => false
  | Ok manifest =>
      match Layers manifest with
      | [] => false
      | layer :: _ => bool_decide (MediaType layer = PublicKeyArtifactMediaType)
      end
  end.

(** The callback: a page with no match leaves the variable as it is. *)
Definition search_page (repo : R) (publicKeyManifestDesc : option Descriptor) (page : list Descriptor)
  : option Descriptor :=
  match List.find (isPublicKeyReferrer repo) page with
  | Some referrer => Some referrer
  | None => publicKeyManifestDesc
  end.

Definition findPublicKeyReferrer (recordManifestDesc : Descriptor) (repo : R) : result Descriptor :=
  match repo_Referrers repo with
  | None => Err (Status Unimplemented "repository does not support OCI referrers API")
  | Some query =>
      match query recordManifestDesc with
      | Err err => Err (internal "failed to query referrers: " err)
      | Ok pages =>
          match foldl (search_page repo) None pages with
          | None => Err (Status NotFound "no public key referrer found")
          | Some publicKeyManifestDesc => Ok publicKeyManifestDesc
          end
      end
  end.

Definition extractPublicKeyFromManifest (manifestDesc : Descriptor) (recordCID : string) (repo : R)
  : result string :=
  match oci.fetchAndParseManifestFromDescriptor manifestDesc repo with
  | Err err => Err err
  | Ok manifest =>
      match Layers manifest with
      | [] => Err (Status Internal "public key manifest has no layers")
      | blobDesc :: _ =>
          match repo_Fetch blobDesc repo with
          | Err err => Err (Status NotFound ("public key blob not found for CID " +:+ recordCID
                                             +:+ ": " +:+ err_string err))
          | Ok (Err err) => Err (internal ("failed to read public key data for CID " +:+ recordCID
                                           +:+ ": ") err)
          | Ok (Ok publicKeyData) => Ok publicKeyData
          end
      end
  end.

Definition pullPublicKey (recordCID : string) (repo : R) : result string :=
  if decide (recordCID = "") then Err (Status InvalidArgument "record CID is required")
  else match repo_Resolve recordCID repo with
  | Err err => Err (Status NotFound ("failed to resolve record manifest for CID " +:+ recordCID
                                     +:+ ": " +:+ err_string err))
  | Ok recordManifestDesc =>
      match findPublicKeyReferrer recordManifestDesc repo with
      | Err err => Err err
      | Ok publicKeyManifestDesc => extractPublicKeyFromManifest publicKeyManifestDesc recordCID repo
      end
  end.

Definition PullPublicKey (recordCID : string) : M W (result string) := read_repo (pullPublicKey recordCID).

Definition VerifyWithZot (recordCID : string) : M W (result bool) :=
  let? result := on_http (zot.Verify url_error buildZotConfig recordCID)
    else err => ret (Err (Wrap "failed to verify with zot: " err)) in
  ret (Ok (IsTrusted result)).

(** The methods the store controller looks for. *)
Definition signature_store : storeCtrl.SignatureStore (T := W) (Sig := Signature) := {|
  storeCtrl.sig_PushSignature := Some PushSignature;
  storeCtrl.sig_PushPublicKey := Some PushPublicKey;
  storeCtrl.sig_PullSignature := Some PullSignature;
  storeCtrl.sig_PullPublicKey := Some PullPublicKey |}.

End referrers.
End referrers.
#[export] Existing Instance referrers.api.

(** ** The sign service (controller/sign.go) *)

Module signCtrl.
Section signCtrl.
Context {T : Type}.

Record VerifyResponse := { Success : bool; ErrorMessage : option string }.

(** [store.VerifyWithZot], when the store has it. *)
Context (zotStore : option (string -> M T (result bool))).

Definition Sign : result unit := Err (Status Unimplemented "server-side signing not implemented").

Definition verify (recordCID : string) : M T (result VerifyResponse) :=
  match zotStore with
  | None => ret (Err (Status Unimplemented "zot verification not available in this store configuration"))
  | Some VerifyWithZot =>
      let? verified := VerifyWithZot recordCID
        else err => ret (Err (internal "zot verification failed: " err)) in
      let errMsg := if verified then "" else "Signature verification failed" in
      ret (Ok {| Success := verified; ErrorMessage := Some errMsg |})
  end.

Definition Verify (recordRef : option RecordRef) : M T (result VerifyResponse) :=
  if decide (ref_GetCid recordRef = "") then ret (Err (Status InvalidArgument "record ref must be set"))
  else verify (ref_GetCid recordRef).

End signCtrl.
End signCtrl.

(** ** What registries promise about referrers and signatures *)

Section laws.
Context `{HashLib} {R : Type} `{!Registry R} `{!JsonCodec Manifest} `{!Cosign R}.
Context (blob_at : R -> Digest -> option string) (refs : R -> gmap string Descriptor)
  (** the digests of the manifests whose subject is a digest *)
  (referrers : R -> Digest -> list Digest).

(** The manifests stay referrers of the subjects they had. *)
Definition same_referrers (r r' : R) : Prop := forall sub dg, dg ∈ referrers r' sub <-> dg ∈ referrers r sub.

Class ReferrersSpec : Prop := {
  Referrers_spec d r query : repo_Referrers r = Some query -> exists pages, query d = Ok pages /\
    forall dg, dg ∈ Desc_Digest <$> mjoin pages <-> dg ∈ referrers r (Desc_Digest d);
  referrers_there r sub dg : dg ∈ referrers r sub -> is_Some (blob_at r dg);
  PushBytes_referrers mt b r : let '(x, r') := oras_PushBytes mt b r in
    same_referrers r r' /\ (is_Some (repo_Referrers r') <-> is_Some (repo_Referrers r))
    /\ match x with Ok d => MediaType d = mt | Err _ => True end;
  PackManifest_referrers opts r : let '(x, r') := oras_PackManifest opts r in
    (is_Some (repo_Referrers r') <-> is_Some (repo_Referrers r)) /\
    match x with
    | Ok d => forall sub dg, dg ∈ referrers r' sub <-> dg ∈ referrers r sub \/
        ((exists s, Subject opts = Some s /\ sub = Desc_Digest s) /\ dg = Desc_Digest d)
    | Err _ => same_referrers r r'
    end;
}.


(** *** Signatures *)

Context (ref_tag : ImageRef -> string) (sig_of : StaticSignature -> string * string)
  (** the digest that is signed, and the signatures *)
  (entity : SignedEntity -> Digest * list (string * string)).

(** A payload and its signature, as a layer of the manifest of signatures. *)
Definition sig_layer (r : R) (l : Descriptor) (ps : string * string) : Prop :=
  blob_at r (Desc_Digest l) = Some ps.1 /\ Desc_Annotations l !! SignatureAnnotation = Some ps.2.

(** The signatures of a digest, the oldest first. *)
Definition attached (r : R) (dg : Digest) (l : list (string * string)) : Prop :=
  match refs r !! signature_tag dg with
  | None => l = []
  | Some d => exists m, manifest_at (blob_at := blob_at) r d = Some m
                /\ Forall2 (sig_layer r) (Layers m) l
  end.

(** Texts that an image reference can carry as a tag. *)
Definition plain_tag (s : string) : bool := all_bytes (fun c => negb (one_of "/:@" c)) s.

Class CosignSpec : Prop := {
  (** pushing content does not move the tags of signatures *)
  PushBytes_tags mt b r dg : refs (oras_PushBytes mt b r).2 !! signature_tag dg = refs r !! signature_tag dg;
  PackManifest_tags opts r dg : refs (oras_PackManifest opts r).2 !! signature_tag dg = refs r !! signature_tag dg;
  ParseReference_spec host repository tag ref : plain_tag tag = true ->
    name_ParseReference (host +:+ "/" +:+ repository +:+ ":" +:+ tag) = Ok ref -> ref_tag ref = tag;
  NewSignature_spec payload sig x : static_NewSignature payload sig = Ok x -> sig_of x = (payload, sig);
  SignedEntity_spec ref r se : ociremote_SignedEntity ref r = Ok se ->
    exists d, refs r !! ref_tag ref = Some d /\ (entity se).1 = Desc_Digest d
      /\ attached r (Desc_Digest d) (entity se).2;
  AttachSignature_spec se sig se' : mutate_AttachSignatureToEntity se sig = Ok se' ->
    entity se' = ((entity se).1, (entity se).2 ++ [sig_of sig]);
  WriteSignatures_spec ref se r : let '(x, r') := ociremote_WriteSignatures (ref_Context ref) se r in
    repo_type r' = repo_type r
    /\ (forall dg b, blob_at r dg = Some b -> blob_at r' dg = Some b)
    /\ (forall s, s <> signature_tag (entity se).1 -> refs r' !! s = refs r !! s)
    /\ match x with
       | Ok _ => attached r' (entity se).1 (entity se).2
       | Err _ => refs r' !! signature_tag (entity se).1 = refs r !! signature_tag (entity se).1
       end;
}.

End laws.

Arguments ReferrersSpec {_ _} R {_}.
Arguments CosignSpec {_ _} R {_ _ _}.
Arguments Referrers_spec {_} {_} {_} {_} {_} {_} {_}.
Arguments referrers_there {_} {_} {_} {_} {_} {_} {_}.
Arguments PushBytes_referrers {_} {_} {_} {_} {_} {_} {_}.
Arguments PackManifest_referrers {_} {_} {_} {_} {_} {_} {_}.
Arguments PushBytes_tags {_} {_} {_} {_} {_} {_} {_} {_} {_} {_} {_} {_}.
Arguments PackManifest_tags {_} {_} {_} {_} {_} {_} {_} {_} {_} {_} {_} {_}.
Arguments ParseReference_spec {_} {_} {_} {_} {_} {_} {_} {_} {_} {_} {_} {_}.
Arguments NewSignature_spec {_} {_} {_} {_} {_} {_} {_} {_} {_} {_} {_} {_}.
Arguments SignedEntity_spec {_} {_} {_} {_} {_} {_} {_} {_} {_} {_} {_} {_}.
Arguments AttachSignature_spec {_} {_} {_} {_} {_} {_} {_} {_} {_} {_} {_} {_}.
Arguments WriteSignatures_spec {_} {_} {_} {_} {_} {_} {_} {_} {_} {_} {_} {_}.

(** ** What is attached is what is pulled *)

Section specs.
Context `{HashLib} `{!OasfJson} {R N : Type} `{Hreg : !Registry R} `{!JsonCodec Manifest} `{!Cosign R}
  `{!HttpClient N} `{!JsonCodec GraphqlQuery} `{!JsonCodec GraphqlResponse}
  {blob_at : R -> Digest -> option string} {refs : R -> gmap string Descriptor}
  `{!RegistrySpec R blob_at refs}.
Context (url_error : string -> error) (config : OciConfig).
Notation W := (OciWorld R N).
Notation manifest_at := (manifest_at (blob_at := blob_at)).

Lemma manifest_grows r r' d m :
  (forall dg b, blob_at r dg = Some b -> blob_at r' dg = Some b) ->
  manifest_at r d = Some m -> manifest_at r' d = Some m.
Proof.
  intros Hg. unfold OciStore.manifest_at. destruct (blob_at r (Desc_Digest d)) as [b|] eqn:Hb; [|done].
  simpl. by rewrite (Hg _ _ Hb).
Qed.

Lemma grows_trans r1 r2 r3 : grows blob_at refs r1 r2 -> grows blob_at refs r2 r3 -> grows blob_at refs r1 r3.
Proof.
  intros [Hr12 Hb12] [Hr23 Hb23]. split; [intros c Hc; rewrite Hr23, Hr12; done|]. eauto.
Qed.

(** *** Signatures *)

Section signatures.
Context {ref_tag : ImageRef -> string} {sig_of : StaticSignature -> string * string}
  {entity : SignedEntity -> Digest * list (string * string)}
  `{!CosignSpec R blob_at refs ref_tag sig_of entity}.
Notation attached := (attached blob_at refs).

Definition pair_of (signature : option Signature) : string * string :=
  match signature with
  | Some s => (default "" (Sig_Annotations s !! "payload"), Sig_Signature s)
  | None => ("", "")
  end.

(** The signature that is shown for a record: the oldest one. *)
Definition shown (l : list (string * string)) : option Signature :=
  match l with
  | (p, s) :: _ => if decide (s = "") then None else Some {|
      Sig_Annotations := {[ "payload" := p ]}; Sig_SignedAt := ""; Sig_Algorithm := "";
      Sig_Signature := s; Sig_Certificate := ""; Sig_ContentType := ""; Sig_ContentBundle := "" |}
  | [] => None
  end.

Lemma attached_grows r r' dg l :
  (forall dg b, blob_at r dg = Some b -> blob_at r' dg = Some b) ->
  refs r' !! signature_tag dg = refs r !! signature_tag dg -> attached r dg l -> attached r' dg l.
Proof.
  intros Hg Hr. unfold OciReferrers.attached. rewrite Hr. destruct (refs r !! signature_tag dg) as [d|]; [|done].
  intros (m & Hm & Hl). exists m. split; [by eapply manifest_grows|].
  eapply Forall2_impl; [exact Hl|]. intros ld [p s] [Hb Ha]. split; [by apply Hg|done].
Qed.

Lemma attached_unique r dg l l' : attached r dg l -> attached r dg l' -> l = l'.
Proof.
  unfold OciReferrers.attached. destruct (refs r !! signature_tag dg) as [d|]; [|congruence].
  intros (m & Hm & Hl) (m' & Hm' & Hl'). assert (m' = m) as -> by congruence. clear Hm Hm'. revert l' Hl'.
  induction Hl as [|ld [p s] ls l [Hb Ha] _ IH]; intros l' Hl'; inversion Hl' as [|? [p' s'] ? ? [Hb' Ha']]; subst; [done|].
  simpl in *. f_equal; [congruence|auto].
Qed.

(** Attaching through cosign. *)
Lemma AttachSignature_run c d l sig payload r :
  canonical c = true -> plain_tag c = true -> refs r !! c = Some d ->
  canonical (signature_tag (Desc_Digest d)) = false -> attached r (Desc_Digest d) l ->
  exists x r', cosign.AttachSignature {|
      cosign.Opt_ImageRef := referrers.constructImageReference config c;
      cosign.Opt_Signature := sig; cosign.Opt_Payload := payload |} r = (x, r')
    /\ repo_type r' = repo_type r /\ grows blob_at refs r r'
    /\ attached r' (Desc_Digest d) (l ++ if is_ok x then [(payload, sig)] else []).
Proof.
  intros Hc Hp Hd Hnt Hl. unfold cosign.AttachSignature.
  cbn [cosign.Opt_ImageRef cosign.Opt_Signature cosign.Opt_Payload].
  assert (Hsame : forall e : error, exists x r', (@Err unit e, r) = (x, r')
    /\ repo_type r' = repo_type r /\ grows blob_at refs r r'
    /\ attached r' (Desc_Digest d) (l ++ if is_ok x then [(payload, sig)] else [])).
  { intros e. eexists _, _. split; [done|]. split; [done|]. split; [done|]. simpl. by rewrite app_nil_r. }
  destruct (name_ParseReference _) as [ref|e] eqn:Href; [|apply Hsame].
  destruct (static_NewSignature _ _) as [ss|e] eqn:Hsig; [|apply Hsame].
  destruct (ociremote_SignedEntity ref _) as [se|e] eqn:Hse; [|apply Hsame].
  destruct (mutate_AttachSignatureToEntity se ss) as [se'|e] eqn:Hat; [|apply Hsame]. clear Hsame.
  pose proof (WriteSignatures_spec ref se' r) as Hw.
  unfold try_bind, bind, ret. destruct (ociremote_WriteSignatures _ se' r) as [x r'].
  destruct Hw as (Ht & Hb & Hr & Hx).
  apply (ParseReference_spec _ _ c ref Hp) in Href.
  apply NewSignature_spec in Hsig. apply AttachSignature_spec in Hat.
  destruct (SignedEntity_spec _ _ _ Hse) as (d' & Hd' & Hdg & Hl'). rewrite Href, Hd in Hd'. injection Hd' as <-.
  rewrite (attached_unique _ _ _ _ Hl' Hl) in Hat.
  rewrite Hat in Hr, Hx. simpl in Hr, Hx. rewrite Hdg, Hsig in *.
  assert (Hgrow : grows blob_at refs r r').
  { split; [|exact Hb]. intros c' Hc'. apply Hr. intros ->. by rewrite Hnt in Hc'. }
  destruct x as [[]|e]; eexists _, _; (split; [done|]; split; [done|]; split; [done|]); simpl; [done|].
  rewrite app_nil_r. by apply (attached_grows r).
Qed.

Lemma PushSignature_run c d l signature (w : W) :
  canonical c = true -> plain_tag c = true -> c <> "" -> refs (w_repo w) !! c = Some d ->
  canonical (signature_tag (Desc_Digest d)) = false -> attached (w_repo w) (Desc_Digest d) l ->
  exists x r', referrers.PushSignature config c signature w = (x, {| w_repo := r'; w_http := w_http w |})
    /\ repo_type r' = repo_type (w_repo w) /\ grows blob_at refs (w_repo w) r'
    /\ attached r' (Desc_Digest d) (l ++ if is_ok x then [pair_of signature] else []).
Proof.
  intros Hc Hp Hne Hd Hnt Hl. unfold referrers.PushSignature. rewrite decide_False by done.
  unfold referrers.on_repo, referrers.attachSignatureWithCosign, try_bind, bind, ret.
  destruct (AttachSignature_run c d l (pair_of signature).2 (pair_of signature).1 (w_repo w) Hc Hp Hd Hnt Hl)
    as (x & r' & Hrun & Ht & Hg & Hat).
  assert (Hopts : pair_of signature = ((pair_of signature).1, (pair_of signature).2))
    by (by destruct (pair_of signature)).
  rewrite <- Hopts in Hat. destruct signature as [s|]; simpl in Hrun; rewrite Hrun; destruct x; eauto 10.
Qed.

(** What is pulled. *)
Lemma pullSignature_answers c d l r :
  c <> "" -> refs r !! c = Some d -> attached r (Desc_Digest d) l ->
  answers (referrers.pullSignature c r) (shown l).
Proof.
  intros Hne Hd Hl. unfold referrers.pullSignature. rewrite decide_False by done.
  pose proof (Resolve_spec c r) as Hc. rewrite Hd in Hc. rewrite Hc. unfold OciReferrers.attached in Hl.
  pose proof (Resolve_spec (signature_tag (Desc_Digest d)) r) as Ht.
  destruct (refs r !! signature_tag (Desc_Digest d)) as [ds|]; [|destruct Ht as [e ->]; by subst].
  rewrite Ht. destruct Hl as (m & Hm & Hl). unfold referrers.extractSignatureFromManifest.
  pose proof (fetch_manifest (refs := refs) ds r) as Hf. rewrite Hm in Hf. rewrite Hf.
  destruct Hl as [|ld [p s] ls l [Hb Ha] _]; [done|]. simpl in Hb, Ha.
  pose proof (Fetch_spec ld r) as Hfl. rewrite Hb in Hfl. rewrite Hfl, Ha. simpl.
  by destruct (decide (s = "")).
Qed.

(** Signatures pushed one after the other for the same record. *)
Fixpoint push_signatures (c : string) (l : list (option Signature)) : M W (list (result unit)) :=
  match l with
  | [] => ret []
  | s :: l => let! x := referrers.PushSignature config c s in
              let! xs := push_signatures c l in ret (x :: xs)
  end.

(** The signatures the store took. *)
Fixpoint taken (l : list (option Signature)) (xs : list (result unit)) : list (string * string) :=
  match l, xs with
  | s :: l, x :: xs => (if is_ok x then [pair_of s] else []) ++ taken l xs
  | _, _ => []
  end.

(** The signature of a record.  Of the signatures that the store takes for a
    record, and those it had, pulling gives the oldest, with its payload; there is
    an error when there is none or when it is empty.  No CID resolves otherwise
    afterwards and no content is lost. *)
Theorem first_signature_is_pulled c d l signatures (w : W) :
  canonical c = true -> plain_tag c = true -> c <> "" -> refs (w_repo w) !! c = Some d ->
  canonical (signature_tag (Desc_Digest d)) = false -> attached (w_repo w) (Desc_Digest d) l ->
  let '(xs, w') := push_signatures c signatures w in
  answers (referrers.PullSignature c w').1 (Some <$> shown (l ++ taken signatures xs))
  /\ grows blob_at refs (w_repo w) (w_repo w') /\ repo_type (w_repo w') = repo_type (w_repo w).
Proof.
  intros Hc Hp Hne. revert l w. induction signatures as [|s signatures IH]; intros l w Hd Hnt Hl; simpl.
  - unfold referrers.PullSignature, referrers.read_repo. simpl. rewrite app_nil_r. split; [|done].
    pose proof (pullSignature_answers c d l (w_repo w) Hne Hd Hl) as Ha.
    destruct (shown l), (referrers.pullSignature c (w_repo w)); simpl in *; congruence.
  - destruct (PushSignature_run c d l s w Hc Hp Hne Hd Hnt Hl) as (x & r' & Hrun & Ht & Hg & Hat).
    unfold bind at 1. rewrite Hrun. set (w1 := Build_OciWorld _ _ _ _).
    assert (Hd1 : refs r' !! c = Some d) by (rewrite (proj1 Hg c Hc); done).
    specialize (IH _ w1 Hd1 Hnt Hat). unfold bind. destruct (push_signatures c signatures w1) as [xs w2].
    destruct IH as (Ha & Hg2 & Ht2). simpl. rewrite app_assoc. split; [done|].
    split; [by eapply grows_trans|simpl in *; congruence].
Qed.

End signatures.

(** *** Public keys *)

Section keys.
Context {referrers : R -> Digest -> list Digest} `{!ReferrersSpec R blob_at referrers}.

(** The first layer of a manifest that holds a public key. *)
Definition key_layer (r : R) (dg : Digest) : option Descriptor :=
  b ← blob_at r dg;
  match json_Unmarshal b with
  | Ok m => l ← head (Layers m); if decide (MediaType l = PublicKeyArtifactMediaType) then Some l else None
  | Err _ => None
  end.

Definition key_at (r : R) (dg : Digest) : option string := l ← key_layer r dg; blob_at r (Desc_Digest l).

(** The public keys of a subject. *)
Definition has_key (r : R) (sub : Digest) (k : string) : Prop :=
  exists dg, dg ∈ referrers r sub /\ key_at r dg = Some k.

(** The manifests of public keys have their keys. *)
Definition keys_inv (r : R) : Prop :=
  forall sub dg l, dg ∈ referrers r sub -> key_layer r dg = Some l -> is_Some (blob_at r (Desc_Digest l)).

Lemma isPublicKeyReferrer_spec r x :
  referrers.isPublicKeyReferrer r x = bool_decide (is_Some (key_layer r (Desc_Digest x))).
Proof.
  unfold referrers.isPublicKeyReferrer, key_layer. pose proof (fetch_manifest (refs := refs) x r) as Hf.
  unfold OciStore.manifest_at in Hf. destruct (blob_at r (Desc_Digest x)) as [b|]; simpl in *.
  - destruct (json_Unmarshal b) as [m|e].
    + rewrite Hf. destruct (Layers m) as [|l ls]; simpl; [done|]. by destruct (decide _); case_bool_decide.
    + by destruct (oci.fetchAndParseManifestFromDescriptor x r).
  - by destruct (oci.fetchAndParseManifestFromDescriptor x r).
Qed.

(** The search over the pages. *)
Lemma search_pages r pages acc :
  match foldl (referrers.search_page r) acc pages with
  | Some x => acc = Some x \/ (x ∈ mjoin pages /\ referrers.isPublicKeyReferrer r x = true)
  | None => acc = None /\ forall x, x ∈ mjoin pages -> referrers.isPublicKeyReferrer r x = false
  end.
Proof.
  revert acc. induction pages as [|page pages IH]; intros acc; simpl.
  { destruct acc; [by left|]. split; [done|]. by intros x ?%elem_of_nil. }
  specialize (IH (referrers.search_page r acc page)). unfold referrers.search_page in IH at 2.
  unfold referrers.search_page at 2 in IH.
  destruct (foldl _ _ pages) as [x|].
  - setoid_rewrite elem_of_app. destruct IH as [IH|[Hx Hk]]; [|right; auto].
    unfold referrers.search_page in IH. destruct (List.find _ page) as [y|] eqn:Hy; [|by left].
    injection IH as ->. apply find_some in Hy as [Hy Hk]. right. split; [left; by apply list_elem_of_In|done].
  - destruct IH as [IH Hn]. unfold referrers.search_page in IH.
    destruct (List.find _ page) as [y|] eqn:Hy; [done|]. split; [done|]. intros x [Hx|Hx]%elem_of_app; [|auto].
    apply (find_none _ _ Hy). by apply list_elem_of_In.
Qed.

Lemma pullPublicKey_finds c d query r :
  keys_inv r -> c <> "" -> refs r !! c = Some d -> repo_Referrers r = Some query ->
  match referrers.pullPublicKey c r with
  | Ok k => has_key r (Desc_Digest d) k
  | Err _ => forall k, ~ has_key r (Desc_Digest d) k
  end.
Proof.
  intros Hinv Hne Hd Hq. unfold referrers.pullPublicKey. rewrite decide_False by done.
  pose proof (Resolve_spec c r) as Hc. rewrite Hd in Hc. rewrite Hc.
  unfold referrers.findPublicKeyReferrer. rewrite Hq.
  destruct (Referrers_spec d r query Hq) as (pages & -> & Hp).
  pose proof (search_pages r pages None) as Hs. destruct (foldl _ None pages) as [x|].
  - destruct Hs as [Hs|[Hx Hk]]; [done|]. rewrite isPublicKeyReferrer_spec in Hk.
    apply bool_decide_eq_true in Hk as [l Hl].
    assert (Hr : Desc_Digest x ∈ referrers r (Desc_Digest d)).
    { apply Hp. by apply list_elem_of_fmap_2. }
    destruct (Hinv _ _ _ Hr Hl) as [k Hk].
    assert (Hkey : key_at r (Desc_Digest x) = Some k) by (unfold key_at; by rewrite Hl).
    unfold referrers.extractPublicKeyFromManifest. pose proof (fetch_manifest (refs := refs) x r) as Hf.
    unfold OciStore.manifest_at in Hf. unfold key_layer in Hl.
    destruct (blob_at r (Desc_Digest x)) as [b|]; simpl in *; [|done].
    destruct (json_Unmarshal b) as [m|]; [|done]. rewrite Hf. destruct (Layers m) as [|l' ls]; simpl in *; [done|].
    destruct (decide _) in Hl; [|done]. injection Hl as ->.
    pose proof (Fetch_spec l r) as Hfl. rewrite Hk in Hfl. rewrite Hfl. by exists (Desc_Digest x).
  - destruct Hs as [_ Hn]. intros k (dg & Hdg & Hk). apply Hp in Hdg.
    apply list_elem_of_fmap in Hdg as (x & -> & Hx). specialize (Hn x Hx).
    rewrite isPublicKeyReferrer_spec in Hn. apply bool_decide_eq_false in Hn. apply Hn.
    unfold key_at in Hk. destruct (key_layer r (Desc_Digest x)); [eauto|done].
Qed.

(** Of several pages, the last one with a key decides. *)
Lemma later_page_wins r d query pages page x :
  repo_Referrers r = Some query -> query d = Ok (pages ++ [page]) ->
  List.find (referrers.isPublicKeyReferrer r) page = Some x ->
  referrers.findPublicKeyReferrer d r = Ok x.
Proof.
  intros Hq Hp Hx. unfold referrers.findPublicKeyReferrer. rewrite Hq, Hp, foldl_app. simpl.
  unfold referrers.search_page at 1. by rewrite Hx.
Qed.

(** Keys stay when content stays. *)
Lemma key_layer_grows r r' dg :
  (forall dg b, blob_at r dg = Some b -> blob_at r' dg = Some b) ->
  is_Some (blob_at r dg) -> key_layer r' dg = key_layer r dg.
Proof. intros Hg [b Hb]. unfold key_layer. by rewrite Hb, (Hg _ _ Hb). Qed.

Lemma key_at_grows r r' sub dg :
  (forall dg b, blob_at r dg = Some b -> blob_at r' dg = Some b) -> keys_inv r ->
  dg ∈ referrers r sub -> key_at r' dg = key_at r dg.
Proof.
  intros Hg Hinv Hdg. unfold key_at. rewrite (key_layer_grows r r') by (done || by eapply referrers_there).
  destruct (key_layer r dg) as [l|] eqn:Hl; [|done]. simpl. destruct (Hinv _ _ _ Hdg Hl) as [k Hk].
  by rewrite Hk, (Hg _ _ Hk).
Qed.

Lemma keys_same r r' :
  (forall dg b, blob_at r dg = Some b -> blob_at r' dg = Some b) -> same_referrers referrers r r' ->
  keys_inv r -> keys_inv r' /\ forall sub k, has_key r' sub k <-> has_key r sub k.
Proof.
  intros Hg Hs Hinv. split.
  - intros sub dg l Hdg%Hs Hl. rewrite (key_layer_grows r r') in Hl by (done || by eapply referrers_there).
    destruct (Hinv _ _ _ Hdg Hl) as [k Hk]. rewrite (Hg _ _ Hk). eauto.
  - intros sub k. unfold has_key. setoid_rewrite (Hs sub).
    split; intros (dg & Hdg & Hk); exists dg; (split; [done|]); by rewrite (key_at_grows r r' sub) in *.
Qed.

Lemma key_packed r r' dg0 d k sub :
  (forall dg b, blob_at r dg = Some b -> blob_at r' dg = Some b) -> keys_inv r ->
  key_layer r' dg0 = Some d -> blob_at r' (Desc_Digest d) = Some k ->
  (forall sub' dg, dg ∈ referrers r' sub' <-> dg ∈ referrers r sub' \/ (sub' = sub /\ dg = dg0)) ->
  keys_inv r' /\ forall sub' k', has_key r' sub' k' <-> has_key r sub' k' \/ (sub' = sub /\ k' = k).
Proof.
  intros Hg Hinv Hl Hk Hr. assert (Hk0 : key_at r' dg0 = Some k) by (unfold key_at; by rewrite Hl). split.
  - intros sub' dg l [Hdg|[-> ->]]%Hr Hlay; [|assert (l = d) as -> by congruence; eauto].
    rewrite (key_layer_grows r r') in Hlay by (done || by eapply referrers_there).
    destruct (Hinv _ _ _ Hdg Hlay) as [k' Hk']. rewrite (Hg _ _ Hk'). eauto.
  - intros sub' k'. unfold has_key. setoid_rewrite Hr. split.
    + intros (dg & [Hdg|[-> ->]] & Hkey); [|right; split; [done|congruence]].
      left. exists dg. split; [done|]. by rewrite (key_at_grows r r' sub') in Hkey.
    + intros [(dg & Hdg & Hkey)|[-> ->]]; [|exists dg0; auto].
      exists dg. split; [by left|]. by rewrite (key_at_grows r r' sub').
Qed.

(** The effect of pushing a public key. *)
Record key_pushed (c k : string) (r : R) (x : result unit) (r' : R) : Prop := {
  kp_type : repo_type r' = repo_type r;
  kp_grows : grows blob_at refs r r';
  kp_query : is_Some (repo_Referrers r') <-> is_Some (repo_Referrers r);
  kp_inv : keys_inv r';
  kp_keys sub k' : has_key r' sub k' <-> has_key r sub k' \/
    (is_ok x = true /\ (exists d, refs r !! c = Some d /\ sub = Desc_Digest d) /\ k' = k) }.

Lemma key_refused c k r r' (e : error) :
  keys_inv r -> repo_type r' = repo_type r -> grows blob_at refs r r' ->
  (is_Some (repo_Referrers r') <-> is_Some (repo_Referrers r)) -> same_referrers referrers r r' ->
  key_pushed c k r (Err e) r'.
Proof.
  intros Hinv Ht Hg Hq Hs. destruct (keys_same r r' (proj2 Hg) Hs Hinv) as [Hi Hk].
  split; try done. intros sub k'. rewrite Hk. split; [by left|]. by intros [?|[? _]].
Qed.

Lemma PushPublicKey_run c k (w : W) :
  canonical c = true -> keys_inv (w_repo w) ->
  exists x w', referrers.PushPublicKey url_error config c k w = (x, w')
    /\ key_pushed c k (w_repo w) x (w_repo w').
Proof.
  intros Hc Hinv. destruct w as [r n]. simpl in *.
  assert (Hsame : forall (e : error) n', exists x (w' : W), (@Err unit e, {| w_repo := r; w_http := n' |}) = (x, w')
    /\ key_pushed c k r x (w_repo w')).
  { intros e n'. eexists _, _. split; [done|]. by apply key_refused. }
  unfold referrers.PushPublicKey. case_decide; [apply Hsame|]. case_decide; [apply Hsame|].
  unfold try_bind at 1, bind at 1, referrers.on_http. cbn [w_http w_repo].
  destruct (zot.UploadPublicKey _ _ _ n) as [[u|e] n']; [|apply Hsame]. clear Hsame u.
  unfold try_bind at 1, bind at 1, referrers.on_repo at 1. cbn [w_http w_repo].
  pose proof (PushBytes_spec PublicKeyArtifactMediaType k r) as Hpb.
  pose proof (PushBytes_referrers PublicKeyArtifactMediaType k r) as Hpr.
  destruct (oras_PushBytes _ k r) as [xb r1]. destruct Hpb as (Hg1 & Ht1 & Hb1), Hpr as (Hs1 & Hq1 & Hm1).
  destruct (keys_same r r1 (proj2 Hg1) Hs1 Hinv) as [Hi1 Hk1].
  assert (Hsame : forall (e : error) r2, repo_type r2 = repo_type r1 -> grows blob_at refs r1 r2 ->
    (is_Some (repo_Referrers r2) <-> is_Some (repo_Referrers r1)) -> same_referrers referrers r1 r2 ->
    exists x (w' : W), (@Err unit e, {| w_repo := r2; w_http := n' |}) = (x, w') /\ key_pushed c k r x (w_repo w')).
  { intros e r2 Ht2 Hg2 Hq2 Hs2. eexists _, _. split; [done|]. cbn [w_repo]. apply key_refused; [done|congruence| |tauto|].
    - by eapply grows_trans.
    - intros sub dg. by rewrite (Hs2 sub dg). }
  destruct xb as [bd|e]; [|by apply Hsame].
  unfold try_bind at 1, bind at 1, referrers.read_repo. cbn [w_http w_repo].
  pose proof (Resolve_spec c r1) as Hres. rewrite (proj1 Hg1 c Hc) in Hres.
  destruct (refs r !! c) as [d|] eqn:Hd; [rewrite Hres|destruct Hres as [e ->]; by apply Hsame].
  set (opts := Build_PackManifestOptions _ _ _).
  unfold try_bind at 1, bind at 1, referrers.on_repo at 1. cbn [w_http w_repo].
  pose proof (PackManifest_spec opts r1) as Hpm. pose proof (PackManifest_referrers opts r1) as Hmr.
  destruct (oras_PackManifest opts r1) as [xm r2]. destruct Hpm as (Hg2 & Ht2 & Hm2), Hmr as (Hq2 & Hs2).
  destruct xm as [md|e]; [|by apply Hsame]. clear Hsame.
  destruct Hm2 as (_ & mb & m & _ & Hmb & Hm & Hlay & _). destruct Hb1 as [_ Hb1].
  destruct (key_packed r1 r2 (Desc_Digest md) bd k (Desc_Digest d) (proj2 Hg2) Hi1) as [Hi2 Hk2].
  - unfold key_layer. rewrite Hmb. simpl. rewrite Hm, Hlay. simpl. by rewrite decide_True.
  - by apply (proj2 Hg2).
  - intros sub dg. rewrite Hs2. split; (intros [?|[Hx ->]]; [by left|right; split; [|done]]).
    + destruct Hx as (s & [= <-] & ->). done.
    + subst sub. by exists d.
  - eexists _, _. split; [done|]. cbn [w_repo].
    split; [congruence|by eapply grows_trans|tauto|done|]. intros sub k'. rewrite Hk2, Hk1. simpl. split.
    + intros [?|[-> ->]]; [by left|]. right. split; [done|]. split; [eauto|done].
    + intros [?|(_ & (d' & Hd' & ->) & ->)]; [by left|]. right. assert (d' = d) as -> by congruence. done.
Qed.

(** Public keys pushed one after the other, for records. *)
Fixpoint push_keys (l : list (string * string)) : M W (list (result unit)) :=
  match l with
  | [] => ret []
  | (c, k) :: l => let! x := referrers.PushPublicKey url_error config c k in
                   let! xs := push_keys l in ret (x :: xs)
  end.

(** The keys the store took, with their records. *)
Fixpoint given (l : list (string * string)) (xs : list (result unit)) : list (string * string) :=
  match l, xs with
  | ck :: l, x :: xs => (if is_ok x then [ck] else []) ++ given l xs
  | _, _ => []
  end.

Lemma given_sub l xs ck : ck ∈ given l xs -> ck ∈ l.
Proof.
  revert xs. induction l as [|ck' l IH]; intros [|x xs]; simpl; try by intros ?%elem_of_nil.
  intros [Hx|Hx]%elem_of_app; [|right; eauto]. destruct (is_ok x); [|by apply elem_of_nil in Hx].
  apply list_elem_of_singleton in Hx as ->. left.
Qed.

Lemma push_keys_run l (w : W) :
  Forall (fun ck => canonical ck.1 = true) l -> keys_inv (w_repo w) ->
  exists xs w', push_keys l w = (xs, w') /\ grows blob_at refs (w_repo w) (w_repo w')
    /\ (is_Some (repo_Referrers (w_repo w')) <-> is_Some (repo_Referrers (w_repo w)))
    /\ keys_inv (w_repo w')
    /\ forall sub k, has_key (w_repo w') sub k <-> has_key (w_repo w) sub k \/
         exists c d, (c, k) ∈ given l xs /\ refs (w_repo w) !! c = Some d /\ sub = Desc_Digest d.
Proof.
  intros Hl. revert w. induction Hl as [|[c k] l Hc Hl IH]; intros w Hinv; simpl in *.
  - exists [], w. repeat (split; [done|]). intros sub k. split; [by left|].
    intros [?|(c & d & Hx & _)]; [done|]. by apply elem_of_nil in Hx.
  - destruct (PushPublicKey_run c k w Hc Hinv) as (x & w1 & Hrun & [_ Hg1 Hq1 Hi1 Hk1]).
    destruct (IH w1 Hi1) as (xs & w2 & Hrun2 & Hg2 & Hq2 & Hi2 & Hk2).
    exists (x :: xs), w2. rewrite (bind_run _ _ _ _ _ Hrun), (bind_run _ _ _ _ _ Hrun2).
    split; [done|]. split; [by eapply grows_trans|]. split; [tauto|]. split; [done|].
    intros sub k'. rewrite Hk2, Hk1. simpl.
    assert (Href : forall c', c' ∈ (given l xs).*1 -> refs (w_repo w1) !! c' = refs (w_repo w) !! c').
    { intros c' Hc'. apply list_elem_of_fmap in Hc' as (ck & -> & Hck%given_sub).
      apply (proj1 Hg1). by eapply Forall_forall in Hl. }
    assert (Hin : forall c' k'', (c', k'') ∈ given l xs -> c' ∈ (given l xs).*1).
    { intros c' k'' Hck. by apply (list_elem_of_fmap_2 fst) in Hck. }
    setoid_rewrite elem_of_app. split.
    + intros [[?|(Hx & (d & Hd & ->) & ->)]|(c' & d & Hck & Hd & ->)]; [by left| |].
      * right. exists c, d. rewrite Hx. split; [left; by apply list_elem_of_singleton|done].
      * right. exists c', d. rewrite Href in Hd by eauto. auto.
    + intros [?|(c' & d & [Hx|Hck] & Hd & ->)]; [by left; left| |].
      * left. right. destruct (is_ok x); [|by apply elem_of_nil in Hx].
        apply list_elem_of_singleton in Hx as [= -> ->]. eauto.
      * right. exists c', d. rewrite Href by eauto. auto.
Qed.

(** The public key of a record.  After any pushes of public keys, pulling the key
    of a record gives one that the store took for it, or one it had; there is an
    error only when there is no key at all.  No CID resolves otherwise afterwards
    and no content is lost. *)
Theorem public_key_is_pulled l c d (w : W) :
  Forall (fun ck => canonical ck.1 = true) l -> keys_inv (w_repo w) ->
  is_Some (repo_Referrers (w_repo w)) ->
  canonical c = true -> c <> "" -> refs (w_repo w) !! c = Some d ->
  let '(xs, w') := push_keys l w in
  let mine k := has_key (w_repo w) (Desc_Digest d) k \/
    exists c' d', (c', k) ∈ given l xs /\ refs (w_repo w) !! c' = Some d' /\ Desc_Digest d' = Desc_Digest d in
  match (referrers.PullPublicKey c w').1 with
  | Ok k => mine k
  | Err _ => forall k, ~ mine k
  end /\ grows blob_at refs (w_repo w) (w_repo w') /\ keys_inv (w_repo w').
Proof.
  intros Hl Hinv Hq Hc Hne Hd.
  destruct (push_keys_run l w Hl Hinv) as (xs & w' & Hrun & Hg & Hq' & Hi & Hk). rewrite Hrun. cbn zeta.
  split; [|done]. apply Hq' in Hq as [query Hq].
  pose proof (pullPublicKey_finds c d query (w_repo w') Hi Hne) as Hp.
  rewrite (proj1 Hg c Hc) in Hp. specialize (Hp Hd Hq).
  assert (Hmine : forall k, has_key (w_repo w') (Desc_Digest d) k ->
    has_key (w_repo w) (Desc_Digest d) k \/
    exists c' d', (c', k) ∈ given l xs /\ refs (w_repo w) !! c' = Some d' /\ Desc_Digest d' = Desc_Digest d).
  { intros k [?|(c' & d' & ? & ? & ?)]%Hk; [by left|]. right. exists c', d'. auto. }
  unfold referrers.PullPublicKey, referrers.read_repo. simpl.
  destruct (referrers.pullPublicKey c (w_repo w')) as [k|e]; [by apply Hmine|].
  intros k Hm. apply (Hp k). apply Hk. destruct Hm as [?|(c' & d' & ? & ? & ?)]; [by left|]. right. exists c', d'. auto.
Qed.

End keys.
End specs.

(** ** Verification says what zot says *)

Section verification.
Context `{HashLib} `{!OasfJson} {R N : Type} `{!HttpClient N} `{!JsonCodec GraphqlQuery}
  `{!JsonCodec GraphqlResponse}.
Context (url_error : string -> error) (config : OciConfig).
Notation W := (OciWorld R N).

(** Verifying a record gives success exactly when zot answers that the record's
    first signature is trusted; every failure on the way is an error, never a
    success; the store is not touched. *)
Theorem verification_is_zots c (w : W) : c <> "" ->
  let '(x, w') := signCtrl.Verify (Some (referrers.VerifyWithZot url_error config)) (Some {| ref_Cid := c |}) w in
  w_repo w' = w_repo w /\
  match x with
  | Ok res => exists req resp body g, http_Do req (w_http w) = (Ok resp, w_http w')
      /\ StatusCode resp = StatusOK /\ Resp_Body resp = Ok body /\ json_Unmarshal body = Ok g
      /\ signCtrl.Success res = match Image_SignatureInfo g with [] => false | i :: _ => Info_IsTrusted i end
      /\ signCtrl.ErrorMessage res = Some (if signCtrl.Success res then "" else "Signature verification failed")
  | Err e => err_code e = Some Internal
  end.
Proof.
  intros Hc. unfold signCtrl.Verify. simpl (ref_GetCid _). rewrite decide_False by done.
  unfold signCtrl.verify, referrers.VerifyWithZot, try_bind, bind, referrers.on_http.
  destruct (zot.Verify url_error (referrers.buildZotConfig config) c (w_http w)) as [[res|e] n'] eqn:Hv; simpl; [|done].
  split; [done|]. destruct (Verify_trusted _ _ _ _ _ _ Hv) as (req & resp & body & g & Hd & Hs & Hb & Hj & _ & Ht).
  exists req, resp, body, g. auto 10.
Qed.

End verification.

(** ** An example: a registry that keeps subjects, with one record *)

Module DemoReferrers.
Import DemoCore MapDatastore StoreCache.DemoCache DemoOci.
#[local] Existing Instances DemoOci.Descriptor_eq_dec DemoOci.Descriptor_countable DemoOci.Manifest_eq_dec
  DemoOci.Manifest_countable DemoOci.manifest_codec DemoOci.layout DemoOci.layout_spec.

(** A layout, the subjects of its manifests, and its remote type. *)
Record Remote := { rm_layout : Layout; rm_subjects : list ((string * string) * (string * string)) }.

Definition on_layout {A} (c : M Layout A) : M Remote A := fun r =>
  let '(a, l) := c (rm_layout r) in (a, {| rm_layout := l; rm_subjects := rm_subjects r |}).

Definition referrers_of (r : Remote) (sub : string * string) : list (string * string) :=
  (filter (fun p => p.1 = sub /\ is_Some (blob_at (rm_layout r) p.2)) (rm_subjects r)).*2.

(** Subjects of manifests that are gone are forgotten before content is added. *)
Definition prune (r : Remote) : Remote := {|
  rm_layout := rm_layout r;
  rm_subjects := filter (fun p => is_Some (blob_at (rm_layout r) p.2)) (rm_subjects r) |}.

Definition add_subject (sub : option Descriptor) (x : result Descriptor) (r : Remote) : Remote :=
  match sub, x with
  | Some s, Ok d => {| rm_layout := rm_layout r;
                       rm_subjects := (Desc_Digest s, Desc_Digest d) :: rm_subjects r |}
  | _, _ => r
  end.

#[local] Instance remote : Registry Remote := {|
  repo_type _ := remote_Repository;
  oras_PushBytes mt b := fun r => on_layout (oras_PushBytes mt b) (prune r);
  oras_PackManifest o := fun r =>
    let '(x, r) := on_layout (oras_PackManifest o) (prune r) in (x, add_subject (Subject o) x r);
  oras_Tag src dst := on_layout (oras_Tag src dst);
  repo_Resolve s r := repo_Resolve s (rm_layout r);
  repo_Fetch d r := repo_Fetch d (rm_layout r);
  ociStore_Delete d := on_layout (ociStore_Delete d);
  manifests_Delete d := on_layout (manifests_Delete d);
  repo_Referrers r := Some (fun d =>
    Ok [(fun dg => {| MediaType := ""; Desc_Digest := dg; Size := 0; Desc_Annotations := ∅ |})
        <$> referrers_of r (Desc_Digest d)]);
|}.

Definition rm_blob_at (r : Remote) : string * string -> option string := blob_at (rm_layout r).
Definition rm_refs (r : Remote) : gmap string Descriptor := l_refs (rm_layout r).

#[local] Instance remote_spec : RegistrySpec Remote rm_blob_at rm_refs.
Proof.
  split; unfold rm_blob_at, rm_refs; cbn [repo_type oras_PushBytes oras_PackManifest oras_Tag repo_Resolve repo_Fetch
    ociStore_Delete manifests_Delete remote].
  - intros s r. exact (@Resolve_spec _ _ _ _ _ _ _ layout_spec s (rm_layout r)).
  - intros d r. exact (@Fetch_spec _ _ _ _ _ _ _ layout_spec d (rm_layout r)).
  - intros mt b r. pose proof (@PushBytes_spec _ _ _ _ _ _ _ layout_spec mt b (rm_layout r)) as Hp. unfold on_layout. change (rm_layout (prune r)) with (rm_layout r).
    destruct (oras_PushBytes mt b (rm_layout r)) as [x l]. simpl. by destruct Hp as (? & _ & ?).
  - intros o r. pose proof (@PackManifest_spec _ _ _ _ _ _ _ layout_spec o (rm_layout r)) as Hp. unfold on_layout. change (rm_layout (prune r)) with (rm_layout r).
    destruct (oras_PackManifest o (rm_layout r)) as [x l]. destruct Hp as (Hg & _ & Hx).
    destruct x, (Subject o); simpl; done.
  - intros src dst r. pose proof (@Tag_spec _ _ _ _ _ _ _ layout_spec src dst (rm_layout r)) as Hp. unfold on_layout.
    destruct (oras_Tag src dst (rm_layout r)) as [x l]. simpl. by destruct Hp as (_ & ? & ?).
  - done.
  - intros d r _. pose proof (@ociStore_Delete_spec _ _ _ _ _ _ _ layout_spec d (rm_layout r) eq_refl) as Hp. unfold on_layout. simpl in *.
    split; [|done]. destruct Hp as [[] _]. by split.
Qed.

Lemma elem_of_referrers r sub dg :
  dg ∈ referrers_of r sub <-> (sub, dg) ∈ rm_subjects r /\ is_Some (blob_at (rm_layout r) dg).
Proof.
  unfold referrers_of. rewrite list_elem_of_fmap. setoid_rewrite list_elem_of_filter. split.
  - intros ([s d] & -> & [Hs Hb] & Hp). simpl in *. by subst.
  - intros [Hp Hb]. by exists (sub, dg).
Qed.

Lemma referrers_grow l l' subs sub dg :
  (forall dg b, blob_at l dg = Some b -> blob_at l' dg = Some b) ->
  dg ∈ referrers_of {| rm_layout := l';
         rm_subjects := filter (fun p => is_Some (blob_at l p.2)) subs |} sub <->
  dg ∈ referrers_of {| rm_layout := l; rm_subjects := subs |} sub.
Proof.
  intros Hg. rewrite !elem_of_referrers. simpl. rewrite list_elem_of_filter. simpl.
  split; [tauto|]. intros [Hs [b Hb]]. rewrite Hb, (Hg _ _ Hb). eauto.
Qed.

#[local] Instance remote_referrers : ReferrersSpec Remote rm_blob_at referrers_of.
Proof.
  split; cbn [repo_Referrers oras_PushBytes oras_PackManifest remote].
  - intros d r query [= <-]. eexists. split; [done|]. intros dg. simpl. rewrite app_nil_r.
    rewrite <- list_fmap_compose. by rewrite list_fmap_id.
  - intros r sub dg Hdg. by apply elem_of_referrers in Hdg as [_ ?].
  - intros mt b [l subs]. unfold on_layout, prune. simpl.
    destruct (put b l) as [l'|] eqn:Hp; simpl; (split; [|split; [split; eauto|done]]); intros sub dg;
      apply referrers_grow; [|done]. by apply (put_grows b l l' Hp).
  - intros o [l subs]. unfold on_layout, prune. simpl.
    destruct (put (manifest_bytes o) l) as [l'|] eqn:Hp; simpl.
    + destruct (put_grows _ l l' Hp) as (_ & Hb & Hg).
      split; [destruct (Subject o); split; eauto|]. intros sub dg.
      pose proof (referrers_grow l (set_ref (Digest_String (digest_of (manifest_bytes o)))
        (describe "manifest" (manifest_bytes o)) l') subs sub dg Hg) as Hsame.
      destruct (Subject o) as [s|]; simpl.
      * rewrite <- Hsame, !elem_of_referrers. simpl. rewrite elem_of_cons. split.
        -- intros [[[= -> ->]|Hs] Hbl]; [right; split; [by exists s|done]|by left].
        -- intros [[Hs Hbl]|[(s' & [= <-] & ->) ->]]; [auto|]. split; [by left|].
           unfold blob_at in *. simpl. rewrite Hb. eauto.
      * rewrite Hsame. split; [by left|]. by intros [?|[(? & ? & _) _]].
    + split; [destruct (Subject o); split; eauto|]. intros sub dg.
      destruct (Subject o); by apply referrers_grow.
Qed.

(** Attaching: the payloads, a manifest of them, and its tag. *)
Definition layer_of (ps : string * string) : Descriptor := {|
  MediaType := SignatureArtifactType; Desc_Digest := digest_of ps.1;
  Size := Z.of_nat (String.length ps.1); Desc_Annotations := {[ SignatureAnnotation := ps.2 ]} |}.

Fixpoint put_all (l : list (string * string)) (r : Layout) : option Layout :=
  match l with [] => Some r | ps :: l => r ← put ps.1 r; put_all l r end.

Definition signatures_manifest (l : list (string * string)) : Manifest :=
  {| Man_Annotations := {[ "signatures" := "" ]}; Layers := layer_of <$> l |}.
Definition signatures_bytes (l : list (string * string)) : string :=
  "m" +:+ BinaryCodec.write (encode (signatures_manifest l)).

Definition write_signatures (dg : string * string) (l : list (string * string)) (r : Layout) : option Layout :=
  r ← put_all l r; r ← put (signatures_bytes l) r;
  Some (set_ref (signature_tag dg) (describe "manifest" (signatures_bytes l)) r).

Definition signature_of (r : Remote) (l : Descriptor) : option (string * string) :=
  p ← rm_blob_at r (Desc_Digest l); s ← Desc_Annotations l !! SignatureAnnotation; Some (p, s).

Definition signatures_of (r : Remote) (dg : string * string) : option (list (string * string)) :=
  match rm_refs r !! signature_tag dg with
  | None => Some []
  | Some d => m ← manifest_at (blob_at := rm_blob_at) r d; mapM (signature_of r) (Layers m)
  end.

#[local] Instance cosign_lib : Cosign Remote := {|
  ImageRef := string; Repository := unit; StaticSignature := string * string;
  SignedEntity := (string * string) * list (string * string);
  name_ParseReference s := match CutLast ":" s with
    | Some (_, tag) => Ok tag | None => Err (Plain "no tag") end;
  ref_Context _ := tt;
  static_NewSignature payload sig := Ok (payload, sig);
  ociremote_SignedEntity tag r := match rm_refs r !! tag with
    | None => Err (Plain "not found")
    | Some d => match signatures_of r (Desc_Digest d) with
                | Some l => Ok (Desc_Digest d, l) | None => Err (Plain "bad signatures") end end;
  mutate_AttachSignatureToEntity se ps := Ok (se.1, se.2 ++ [ps]);
  ociremote_WriteSignatures _ se := fun r => match write_signatures se.1 se.2 (rm_layout r) with
    | Some l => (Ok tt, {| rm_layout := l; rm_subjects := rm_subjects r |})
    | None => (Err (Plain "digest mismatch"), r) end;
|}.

Lemma put_all_grows l r r' : put_all l r = Some r' ->
  l_refs r' = l_refs r /\ (forall dg b, blob_at r dg = Some b -> blob_at r' dg = Some b) /\
  Forall (fun ps => blob_at r' (digest_of ps.1) = Some ps.1) l.
Proof.
  revert r. induction l as [|ps l IH]; intros r; simpl; [by intros [= ->]|].
  destruct (put ps.1 r) as [r1|] eqn:Hp; [|done]. simpl. intros Hr.
  destruct (put_grows _ _ _ Hp) as (Hr1 & Hb1 & Hg1). destruct (IH r1 Hr) as (Hr2 & Hg2 & Hl2).
  split; [congruence|]. split; [auto|]. constructor; [auto|done].
Qed.

Lemma cut_last_plain a s : plain_tag s = true -> CutLast ":" (a +:+ ":" +:+ s) = Some (a, s).
Proof.
  intros Hs. assert (Hnone : CutLast ":" s = None).
  { revert Hs. induction s as [|c s IH]; [done|]. unfold plain_tag, all_bytes in *. simpl.
    intros [Hc Hs]%andb_true_iff. rewrite (IH Hs). rewrite decide_False; [done|]. intros ->. done. }
  induction a as [|c a IH]; simpl; [by rewrite append_nil_l, Hnone|]. by rewrite IH.
Qed.

Lemma Cut_no_sep sep s a b : Cut sep s = (a, b) ->
  (forall x y, a <> x +:+ String sep y) /\ s = a +:+ match b with Some b => String sep b | None => "" end.
Proof.
  revert a b. induction s as [|c s IH]; intros a b; simpl.
  - intros [= <- <-]. split; [|done]. by intros [|].
  - case_decide as Hc; [subst; intros [= <- <-]; split; [by intros [|]|done]|].
    destruct (Cut sep s) as [a' b'] eqn:E. intros [= <- <-]. destruct (IH a' b' eq_refl) as [Hn ->].
    split; [|done]. intros [|c' x] y; simpl; intros [= ? ?]; [done|]. by eapply Hn.
Qed.

(** The tag of a signature is not the text of a digest. *)
Lemma tag_not_digest dg b : signature_tag dg <> Digest_String (digest_of b).
Proof.
  unfold signature_tag, dash_first_colon. destruct (Cut ":" (Digest_String dg)) as [a t] eqn:E.
  apply Cut_no_sep in E as [Hn Hs]. destruct t as [t|].
  - do 6 (destruct a as [|? a]; [discriminate|]). destruct a as [|x a]; [discriminate|].
    intros [= -> -> -> -> -> -> -> _]. by apply (Hn "sha256" a).
  - exfalso. rewrite append_nil_r in Hs. apply (Hn dg.1 dg.2). by rewrite <- Hs.
Qed.

Lemma layers_hold r l : Forall (fun ps => rm_blob_at r (digest_of ps.1) = Some ps.1) l ->
  Forall2 (sig_layer rm_blob_at r) (layer_of <$> l) l.
Proof.
  induction 1 as [|ps l Hps _ IH]; constructor; [|done]. split; [exact Hps|apply lookup_singleton_eq].
Qed.

#[local] Instance cosign_spec : CosignSpec Remote rm_blob_at rm_refs
  (fun tag : @ImageRef _ cosign_lib => tag) (fun ps => ps) (fun se => se).
Proof.
  split; cbn [name_ParseReference static_NewSignature ociremote_SignedEntity
    mutate_AttachSignatureToEntity ociremote_WriteSignatures ref_Context cosign_lib ImageRef SignedEntity StaticSignature].
  - intros mt b [l subs] dg. unfold rm_refs. simpl. unfold on_layout. simpl.
    destruct (put b l) as [l'|] eqn:Hp; simpl; [|done]. by destruct (put_grows b l l' Hp) as [-> _].
  - intros o [l subs] dg. unfold rm_refs. simpl. unfold on_layout. simpl.
    destruct (put (manifest_bytes o) l) as [l'|] eqn:Hp; simpl; [|by destruct (Subject o)].
    destruct (put_grows _ l l' Hp) as [Hr _].
    destruct (Subject o); simpl; rewrite lookup_insert_ne by (intros Heq; by apply (tag_not_digest dg (manifest_bytes o)));
      by rewrite Hr.
  - intros host repository tag ref Ht.
    assert (host +:+ "/" +:+ repository +:+ ":" +:+ tag = (host +:+ "/" +:+ repository) +:+ ":" +:+ tag)
      as -> by (by rewrite !append_assoc). rewrite cut_last_plain by done. by intros [= <-].
  - by intros payload sig x [= <-].
  - intros tag r se. destruct (rm_refs r !! tag) as [d|] eqn:Hd; [|done].
    destruct (signatures_of r (Desc_Digest d)) as [l|] eqn:Hl; [|done]. intros [= <-]. exists d.
    split; [done|]. split; [done|]. simpl. unfold attached, signatures_of in *.
    destruct (rm_refs r !! signature_tag (Desc_Digest d)) as [ds|]; [|congruence].
    destruct (manifest_at r ds) as [m|]; [|done]. simpl in Hl. exists m. split; [done|].
    apply mapM_Some in Hl. eapply Forall2_impl; [exact Hl|]. intros ld [p s] Hld. unfold signature_of in Hld.
    destruct (rm_blob_at r (Desc_Digest ld)) as [p'|] eqn:Hp; [|done]. simpl in Hld.
    destruct (Desc_Annotations ld !! SignatureAnnotation) as [s'|] eqn:Hs; [|done]. injection Hld as -> ->. done.
  - by intros se sig se' [= <-].
  - intros ref [dg l] [lay subs]. simpl. unfold write_signatures.
    destruct (put_all l lay) as [l1|] eqn:Hpa; simpl; [|done].
    destruct (put (signatures_bytes l) l1) as [l2|] eqn:Hpm; simpl; [|done].
    destruct (put_all_grows _ _ _ Hpa) as (Hr1 & Hg1 & Hl1). destruct (put_grows _ _ _ Hpm) as (Hr2 & Hb2 & Hg2).
    split; [done|]. split; [intros dg' b Hb; apply (Hg2 dg' b), (Hg1 dg' b), Hb|]. unfold rm_refs. simpl. split.
    + intros s Hs. rewrite lookup_insert_ne by done. congruence.
    + unfold attached, rm_refs. simpl. rewrite lookup_insert_eq.
      exists (signatures_manifest l). split.
      * unfold manifest_at.
        match goal with |- (?b ≫= _) = _ => change b with (blob_at l2 (digest_of (signatures_bytes l))) end.
        rewrite Hb2. cbn [mbind option_bind]. unfold signatures_bytes. rewrite (manifest_roundtrip (signatures_manifest l)). reflexivity.
      * apply layers_hold. eapply Forall_impl; [exact Hl1|]. intros ps Hps.
        exact (Hg2 (digest_of ps.1) ps.1 Hps).
Qed.

#[local] Instance zot_up : HttpClient unit := {|
  http_Do _ := ret (Ok {| StatusCode := StatusCreated; Resp_Body := Ok "" |}) |}.

Definition config : OciConfig := {|
  Cfg_RegistryAddress := "http://localhost:5000"; Cfg_RepositoryName := "dir"; Cfg_Insecure := true;
  Cfg_Username := ""; Cfg_Password := ""; Cfg_AccessToken := "" |}.

Definition start : OciWorld Remote unit :=
  {| w_repo := {| rm_layout := pushed; rm_subjects := [] |}; w_http := tt |}.

Definition a_signature (s : string) : Signature := {|
  Sig_Annotations := {[ "payload" := "the payload" ]}; Sig_SignedAt := ""; Sig_Algorithm := "";
  Sig_Signature := s; Sig_Certificate := ""; Sig_ContentType := ""; Sig_ContentBundle := "" |}.

Definition record_desc : Descriptor :=
  default (describe "" "") (rm_refs (w_repo start) !! demo_id).

Lemma record_there : rm_refs (w_repo start) !! demo_id = Some record_desc.
Proof. vm_compute. reflexivity. Qed.

Lemma first_signature_is_pulled_witness :
  let w' := (push_signatures config demo_id [Some (a_signature "first"); Some (a_signature "second")] start).2 in
  (referrers.PullSignature demo_id w').1 = Ok (Some (a_signature "first")).
Proof.
  pose proof (first_signature_is_pulled (N := unit) config demo_id record_desc []
    [Some (a_signature "first"); Some (a_signature "second")] start
    ltac:(vm_compute; reflexivity) ltac:(vm_compute; reflexivity) ltac:(discriminate) record_there
    ltac:(vm_compute; reflexivity) ltac:(vm_compute; reflexivity)) as Hf.
  assert (Hxs : exists x, (push_signatures config demo_id
      [Some (a_signature "first"); Some (a_signature "second")] start).1 = [Ok tt; x])
    by (vm_compute; eexists; reflexivity).
  destruct (push_signatures _ _ _ _) as [xs w']. destruct Hxs as [x Hxs]. cbn in Hxs. subst xs.
  cbn [snd]. destruct Hf as [Hf _]. revert Hf. generalize (referrers.PullSignature demo_id w').1. intros y Hf.
  destruct x; exact Hf.
Defined.

Lemma no_keys l :
  keys_inv (blob_at := rm_blob_at) (referrers := referrers_of) {| rm_layout := l; rm_subjects := [] |} /\
  forall sub k, ~ has_key (blob_at := rm_blob_at) (referrers := referrers_of)
    {| rm_layout := l; rm_subjects := [] |} sub k.
Proof.
  split.
  - intros sub dg ld Hdg. by apply elem_of_nil in Hdg.
  - intros sub k (dg & Hdg & _). by apply elem_of_nil in Hdg.
Qed.

Lemma public_key_is_pulled_witness :
  let w' := (push_keys Plain config [(demo_id, "a key")] start).2 in
  (referrers.PullPublicKey demo_id w').1 = Ok "a key".
Proof.
  destruct (no_keys pushed) as [Hinv Hnone].
  pose proof (public_key_is_pulled (N := unit) Plain config [(demo_id, "a key")] demo_id record_desc start
    ltac:(repeat constructor) Hinv ltac:(eexists; reflexivity) ltac:(vm_compute; reflexivity)
    ltac:(discriminate) record_there) as Hk.
  assert (Hxs : (push_keys Plain config [(demo_id, "a key")] start).1 = [Ok tt]) by (vm_compute; reflexivity).
  destruct (push_keys _ _ _ _) as [xs w']. cbn in Hxs. subst xs. destruct Hk as [Hk _].
  cbn [snd]. destruct (referrers.PullPublicKey demo_id w').1 as [k|e].
  - destruct Hk as [Hk|(c & d & Hin & _)]; [by apply Hnone in Hk|].
    apply list_elem_of_singleton in Hin. by injection Hin as _ ->.
  - exfalso. apply (Hk "a key"). right. exists demo_id, record_desc.
    split; [by apply list_elem_of_singleton|]. split; [exact record_there|done].
Defined.

End DemoReferrers.
