(* ===== verification/Client.v ===== *)
(** * The client of the store service

    client/store.go: single and batch calls over the streams of the store
    service.  gRPC is outside the repository: the class [StreamClient] has the
    calls the client makes on a stream, and [StreamSpec] what a connection that
    stays up does with them when a given handler serves it. *)

From S2P Require Import Prelude GoStrings Interfaces Adapters CoreRecord Validators LabelKey Metrics RoutingWorld RoutingLocal RoutingLocalSpec StoreCache Search StoreController.
From stdpp Require Import pretty.

Open Scope string_scope.
Open Scope list_scope.
Open Scope go_scope.

Arguments GetCid : simpl never.
Arguments MarshalOASF : simpl never.

(** ** Streams (grpc-go) *)

(** A bidirectional stream that sends [Req] and receives [Res]. *)
Class StreamClient (N Req Res : Type) := {
  Stream : Type;
  rpc_Open : M N (result Stream);
  stream_Send : Stream -> Req -> M N (result unit);
  stream_CloseSend : Stream -> M N (result unit);
  stream_Recv : Stream -> M N (result Res);
}.
Arguments Stream : clear implicits.
Arguments Stream N Req Res {_}.

Definition pretty_nat (i : nat) : string := pretty (Z.of_nat i).

Module client.

(** ** The calls *)

Section calls.
Context {N Req Res : Type} `{!StreamClient N Req Res}.

(** Opening a stream and sending one message over it. *)
Definition send_one (create send : string) (m : Req) : M N (result (Stream N Req Res)) :=
  let? stream := rpc_Open else err => ret (Err (Wrap create err)) in
  let? _u := stream_Send stream m else err => ret (Err (Wrap send err)) in
  let? _v := stream_CloseSend stream else err => ret (Err (Wrap "failed to close send stream: " err)) in
  ret (Ok stream).

(** The first message that comes back. *)
Definition receive_one (recv : string) (stream : Stream N Req Res) : M N (result Res) :=
  let? res := stream_Recv stream else err => ret (Err (Wrap recv err)) in
  ret (Ok res).

(** Sending and receiving many; [i] counts the messages. *)
Fixpoint send_all (send : string) (stream : Stream N Req Res) (i : nat) (l : list Req) : M N (result unit) :=
  match l with
  | [] => ret (Ok tt)
  | m :: l =>
      let? _u := stream_Send stream m
        else err => ret (Err (Wrap (send +:+ " " +:+ pretty_nat i +:+ ": ") err)) in
      send_all send stream (S i) l
  end.

Fixpoint receive_all (recv : string) (stream : Stream N Req Res) (i n : nat) : M N (result (list Res)) :=
  match n with
  | O => ret (Ok [])
  | S n =>
      let? res := stream_Recv stream
        else err => ret (Err (Wrap (recv +:+ " " +:+ pretty_nat i +:+ ": ") err)) in
      let? rest := receive_all recv stream (S i) n else err => ret (Err err) in
      ret (Ok (res :: rest))
  end.

Definition batch (create send recv : string) (l : list Req) : M N (result (list Res)) :=
  match l with
  | [] => ret (Ok [])
  | _ :: _ =>
      let? stream := rpc_Open else err => ret (Err (Wrap create err)) in
      let? _u := send_all send stream 0 l else err => ret (Err err) in
      let? _v := stream_CloseSend stream else err => ret (Err (Wrap "failed to close send stream: " err)) in
      receive_all recv stream 0 (length l)
  end.

End calls.

Section client.
Context {N : Type} `{!StreamClient N CoreRecord RecordRef} `{!StreamClient N RecordRef CoreRecord}
  `{!StreamClient N RecordRef RecordMeta} `{!StreamClient N RecordRef unit}.

Definition Push (record : CoreRecord) : M N (result RecordRef) :=
  let? stream := send_one "failed to create push stream: " "failed to send record: " record
    else err => ret (Err err) in
  receive_one "failed to receive record ref: " stream.

Definition Pull (recordRef : RecordRef) : M N (result CoreRecord) :=
  let? stream := send_one "failed to create pull stream: " "failed to send record ref: " recordRef
    else err => ret (Err err) in
  receive_one "failed to receive record: " stream.

Definition Lookup (recordRef : RecordRef) : M N (result RecordMeta) :=
  let? stream := send_one "failed to create lookup stream: " "failed to send record ref: " recordRef
    else err => ret (Err err) in
  receive_one "failed to receive record metadata: " stream.

(** Nothing is received. *)
Definition Delete (recordRef : RecordRef) : M N (result unit) :=
  let? _stream := send_one (Res := unit) "failed to create delete stream: " "failed to send record ref: " recordRef
    else err => ret (Err err) in
  ret (Ok tt).

Definition PushBatch (records : list CoreRecord) : M N (result (list RecordRef)) :=
  batch "failed to create push stream: " "failed to send record" "failed to receive record ref" records.

Definition PullBatch (recordRefs : list RecordRef) : M N (result (list CoreRecord)) :=
  batch "failed to create pull stream: " "failed to send record ref" "failed to receive record" recordRefs.

End client.

(** Referrers; [Req] and [Res] are the messages of the two services. *)
Section referrers.
Context {N PushReq PushRes PullReq PullRes : Type}
  `{!StreamClient N PushReq PushRes} `{!StreamClient N PullReq PullRes}.

(** The response is received and not looked at. *)
Definition PushReferrer (req : PushReq) : M N (result unit) :=
  let? stream := send_one (Res := PushRes) "failed to create push referrer stream: "
      "failed to send push referrer request: " req
    else err => ret (Err err) in
  let? _res := receive_one "failed to receive push referrer response: " stream
    else err => ret (Err err) in
  ret (Ok tt).

Definition PullReferrer (req : PullReq) : M N (result PullRes) :=
  let? stream := send_one "failed to create pull referrer stream: "
      "failed to send pull referrer request: " req
    else err => ret (Err err) in
  receive_one "failed to receive pull referrer response: " stream.

End referrers.
End client.

(** ** A connection that stays up

    [serve] is what the handler answers to the messages of a stream, and its
    status.  The effects of the handler are counted when the client has sent all
    its messages; nobody else uses the server meanwhile. *)

Inductive Phase (Req Res : Type) :=
  | Sending (sent : list Req)
  | Receiving (replies : list Res) (status : option error).
Arguments Sending {_ _}. Arguments Receiving {_ _}.

Section laws.
Context {N W Req Res : Type} `{!StreamClient N Req Res}.
Context (world : N -> W) (serve : list Req -> M W (list Res * option error))
  (phase : Stream N Req Res -> N -> option (Phase Req Res)).

Class StreamSpec : Prop := {
  Open_spec n : exists s n', rpc_Open n = (Ok s, n') /\ world n' = world n /\ phase s n' = Some (Sending []);
  Send_spec s l m n : phase s n = Some (Sending l) ->
    exists n', stream_Send s m n = (Ok tt, n') /\ world n' = world n /\ phase s n' = Some (Sending (l ++ [m]));
  CloseSend_spec s l n : phase s n = Some (Sending l) ->
    exists n', stream_CloseSend s n = (Ok tt, n') /\ world n' = (serve l (world n)).2
      /\ phase s n' = Some (Receiving (serve l (world n)).1.1 (serve l (world n)).1.2);
  Recv_spec s replies status n : phase s n = Some (Receiving replies status) ->
    exists x n', stream_Recv s n = (x, n') /\ world n' = world n /\
    match replies with
    | res :: replies => x = Ok res /\ phase s n' = Some (Receiving replies status)
    | [] => x = Err (default (Sentinel "EOF") status)
    end;
}.

(** A single call. *)
Lemma send_one_run `{!StreamSpec} create send m n :
  exists s n', client.send_one create send m n = (Ok s, n') /\ world n' = (serve [m] (world n)).2
    /\ phase s n' = Some (Receiving (serve [m] (world n)).1.1 (serve [m] (world n)).1.2).
Proof.
  destruct (Open_spec n) as (s & n1 & H1 & Hw1 & Hp1).
  destruct (Send_spec s [] m n1 Hp1) as (n2 & H2 & Hw2 & Hp2).
  destruct (CloseSend_spec s _ n2 Hp2) as (n3 & H3 & Hw3 & Hp3).
  exists s, n3. unfold client.send_one.
  rewrite (try_bind_ok _ _ _ _ _ _ H1), (try_bind_ok _ _ _ _ _ _ H2), (try_bind_ok _ _ _ _ _ _ H3).
  rewrite Hw2, Hw1 in *. done.
Qed.

Lemma receive_one_run `{!StreamSpec} recv s replies status n :
  phase s n = Some (Receiving replies status) ->
  exists n', client.receive_one recv s n = (match replies with
      | res :: _ => Ok res | [] => Err (Wrap recv (default (Sentinel "EOF") status)) end, n')
    /\ world n' = world n.
Proof.
  intros Hp. destruct (Recv_spec s _ _ n Hp) as (x & n' & Hr & Hw & Hx). exists n'.
  unfold client.receive_one. destruct replies as [|res replies].
  - subst. by rewrite (try_bind_err _ _ _ _ _ _ Hr).
  - destruct Hx as [-> _]. by rewrite (try_bind_ok _ _ _ _ _ _ Hr).
Qed.

(** A batch. *)
Lemma send_all_run `{!StreamSpec} send s i l sent n :
  phase s n = Some (Sending sent) ->
  exists n', client.send_all send s i l n = (Ok tt, n') /\ world n' = world n
    /\ phase s n' = Some (Sending (sent ++ l)).
Proof.
  revert i sent n. induction l as [|m l IH]; intros i sent n Hp.
  - exists n. by rewrite app_nil_r.
  - destruct (Send_spec s sent m n Hp) as (n1 & H1 & Hw1 & Hp1).
    destruct (IH (S i) _ n1 Hp1) as (n2 & H2 & Hw2 & Hp2). exists n2. cbn [client.send_all].
    rewrite (try_bind_ok _ _ _ _ _ _ H1), Hw2, Hw1. by rewrite <- app_assoc in Hp2.
Qed.

Lemma receive_all_run `{!StreamSpec} recv s i k replies status n :
  phase s n = Some (Receiving replies status) ->
  exists x n', client.receive_all recv s i k n = (x, n') /\ world n' = world n /\
    if decide (k <= length replies)%nat then x = Ok (take k replies) else is_ok x = false.
Proof.
  revert i replies n. induction k as [|k IH]; intros i replies n Hp.
  - exists (Ok []), n. done.
  - destruct (Recv_spec s _ _ n Hp) as (x & n1 & H1 & Hw1 & Hx). cbn [client.receive_all].
    destruct replies as [|res replies].
    + subst x. eexists _, n1. rewrite (try_bind_err _ _ _ _ _ _ H1). done.
    + destruct Hx as [-> Hp1]. destruct (IH (S i) replies n1 Hp1) as (x & n2 & H2 & Hw2 & Hx2).
      exists (match x with Ok rest => Ok (res :: rest) | Err e => Err e end), n2.
      rewrite (try_bind_ok _ _ _ _ _ _ H1).
      split; [destruct x; [by rewrite (try_bind_ok _ _ _ _ _ _ H2)|by rewrite (try_bind_err _ _ _ _ _ _ H2)]|].
      split; [congruence|]. simpl.
      destruct (decide (k <= length replies)%nat) as [Hk|Hk];
        [rewrite decide_True by lia; by subst|rewrite decide_False by lia; by destruct x].
Qed.

Lemma batch_run `{!StreamSpec} create send recv l n : l <> [] ->
  exists x n', client.batch create send recv l n = (x, n') /\ world n' = (serve l (world n)).2 /\
    if decide (length l <= length (serve l (world n)).1.1)%nat
    then x = Ok (take (length l) (serve l (world n)).1.1) else is_ok x = false.
Proof.
  intros Hl. destruct (Open_spec n) as (s & n1 & H1 & Hw1 & Hp1).
  destruct (send_all_run send s 0 l [] n1 Hp1) as (n2 & H2 & Hw2 & Hp2).
  destruct (CloseSend_spec s _ n2 Hp2) as (n3 & H3 & Hw3 & Hp3).
  destruct (receive_all_run recv s 0 (length l) _ _ n3 Hp3) as (x & n4 & H4 & Hw4 & Hx).
  exists x, n4. destruct l as [|m l]; [done|]. unfold client.batch.
  rewrite (try_bind_ok _ _ _ _ _ _ H1), (try_bind_ok _ _ _ _ _ _ H2), (try_bind_ok _ _ _ _ _ _ H3).
  rewrite Hw2, Hw1 in *. simpl (_ ++ _) in *. rewrite Hw3 in Hw4. done.
Qed.

End laws.

(** ** Clients of the store controller *)

(** Sending on the server's side. *)
Definition reply {A} (a : A) : M (list A) (result unit) := fun sent => (Ok tt, sent ++ [a]).

Section service.
Context {T D : Type} `{HashLib} `{!OasfJson} `{!StoreAPI T}
  {inv : T -> Prop} {obs : T -> Observable} {known_cid : string -> Prop} {record_ok : CoreRecord -> Prop}
  {meta_ok : RecordMeta -> Prop} `{Hsrc : !StoreSpec T inv obs known_cid record_ok meta_ok}.
Context `{!sqlite.Gorm D} (tables : D -> Tables) (like : string -> string -> bool) `{!GormSpec D tables like}.
Context (proto_Size : CoreRecord -> Z).
Context (data_of : string -> option RecordData)
  (data_of_record : forall r, record_ok r -> data_of (GetCid (Some r)) = GetRecordData r).
Notation Server := (T * D)%type.

Definition ctx_of {A} (w : Server) : storeCtrl.Ctx (T := T) (D := D) (O := list A) :=
  {| storeCtrl.c_store := w.1; storeCtrl.c_db := w.2; storeCtrl.c_out := [] |}.

(** The status of a handler; when it panics, the connection breaks. *)
Definition status_of (x : option (result unit)) : option error :=
  match x with Some (Ok _) => None | Some (Err e) => Some e | None => Some (Plain "connection closed") end.

(** The handlers as the client meets them. *)
Definition push_service (ms : list CoreRecord) : M Server (list RecordRef * option error) := fun w =>
  let '(x, c) := storeCtrl.Push proto_Size reply (Ok <$> ms) (ctx_of w) in
  ((storeCtrl.c_out c, status_of x), (storeCtrl.c_store c, storeCtrl.c_db c)).
Definition pull_service (ms : list RecordRef) : M Server (list CoreRecord * option error) := fun w =>
  let '(x, c) := storeCtrl.Pull reply (Ok <$> ms) (ctx_of w) in
  ((storeCtrl.c_out c, status_of (Some x)), (storeCtrl.c_store c, storeCtrl.c_db c)).
Definition delete_service (ms : list RecordRef) : M Server (list unit * option error) := fun w =>
  let '(x, c) := storeCtrl.Delete (Ok <$> ms) (@ctx_of unit w) in
  (([], status_of (Some x)), (storeCtrl.c_store c, storeCtrl.c_db c)).

Context {N : Type} (world : N -> Server) `{!StreamClient N CoreRecord RecordRef}
  `{!StreamClient N RecordRef CoreRecord} `{!StreamClient N RecordRef unit}
  {push_phase : Stream N CoreRecord RecordRef -> N -> option (Phase CoreRecord RecordRef)}
  {pull_phase : Stream N RecordRef CoreRecord -> N -> option (Phase RecordRef CoreRecord)}
  {delete_phase : Stream N RecordRef unit -> N -> option (Phase RecordRef unit)}
  `{Hpush : !StreamSpec world push_service push_phase} `{Hpull : !StreamSpec world pull_service pull_phase}
  `{Hdelete : !StreamSpec world delete_service delete_phase}.

Lemma push_served ms (w : Server) exact :
  in_step (inv := inv) (obs := obs) tables data_of exact (@ctx_of RecordRef w) ->
  Forall (fun r => record_msg_ok (record_ok := record_ok) proto_Size (Ok r)) ms ->
  exists k, (push_service ms w).1.1 = ref_of <$> take k ms
    /\ inv (push_service ms w).2.1
    /\ (obs (push_service ms w).2.1).1 = foldl file_record (obs w.1).1 (take k ms)
    /\ (k = length ms \/ exists r e, ms !! k = Some r /\ (push_service ms w).1.2 = Some e /\ stops proto_Size r e).
Proof.
  intros Hw Hms. unfold push_service.
  destruct (Push_run tables like proto_Size data_of data_of_record reply (fun o => o)
    (fun r o => conj eq_refl eq_refl) ms _ exact Hw Hms) as (k & x & c & -> & [Hi _] & Hs & Ho & Hend).
  exists k. simpl in *. split; [done|]. split; [done|]. split; [done|].
  destruct Hend as [[-> _]|(r & e & Hr & -> & Hst)]; [by left|right]. by exists r, e.
Qed.

(** Batches of the client.  Pushing a batch files a prefix of the records; it
    answers [Ok] exactly when all of them are filed, with one reference per record
    in order, and then pulling the batch of these references gives the records
    back. *)
Theorem batch_roundtrip rs (n : N) exact :
  (forall r r', record_ok r -> record_ok r' -> GetCid (Some r) = GetCid (Some r') -> r = r') ->
  in_step (inv := inv) (obs := obs) tables data_of exact (@ctx_of RecordRef (world n)) -> Forall record_ok rs ->
  exists k x n1, client.PushBatch rs n = (x, n1)
    /\ (obs (world n1).1).1 = foldl file_record (obs (world n).1).1 (take k rs)
    /\ ((k < length rs)%nat /\ is_ok x = false
        \/ k = length rs /\ x = Ok (ref_of <$> rs)
           /\ exists n2, client.PullBatch (ref_of <$> rs) n1 = (Ok rs, n2) /\ obs (world n2).1 = obs (world n1).1).
Proof.
  intros Hinj Hw Hok. destruct (decide (rs = [])) as [->|Hne].
  { exists 0%nat, (Ok []), n. split; [done|]. split; [done|]. right. split; [done|]. split; [done|]. by exists n. }
  assert (Hms : Forall (fun r => record_msg_ok (record_ok := record_ok) proto_Size (Ok r)) rs).
  { eapply Forall_impl; [exact Hok|]. by intros r Hr r' [= <-]. }
  destruct (push_served rs (world n) exact Hw Hms) as (k & Hrep & Hi & Hobs & Hk).
  destruct (batch_run world push_service push_phase "failed to create push stream: " "failed to send record"
    "failed to receive record ref" rs n Hne) as (x & n1 & Hrun & Hw1 & Hx).
  exists (min k (length rs)), x, n1. unfold client.PushBatch. split; [done|].
  rewrite Hw1, Hobs, Hrep, length_fmap, length_take in *.
  assert (Htk : take (min k (length rs)) rs = take k rs).
  { destruct (decide (k <= length rs)%nat); [by rewrite Nat.min_l by lia|].
    by rewrite Nat.min_r, !take_ge by lia. }
  split; [by rewrite Htk|]. destruct Hk as [->|(r & e & Hr & _)].
  2:{ left. apply lookup_lt_Some in Hr. rewrite decide_False in Hx by lia. split; [lia|done]. }
  right. rewrite Nat.min_id in *. rewrite decide_True in Hx by lia. split; [done|].
  rewrite firstn_all in *. rewrite take_ge in Hx by (by rewrite length_fmap). split; [done|].
  destruct (batch_run world pull_service pull_phase "failed to create pull stream: " "failed to send record ref"
    "failed to receive record" (ref_of <$> rs) n1) as (y & n2 & Hrun2 & Hw2 & Hy).
  { by destruct rs. }
  exists n2. unfold client.PullBatch. rewrite Hrun2. rewrite Hw2.
  destruct (Pull_stream (inv := inv) reply (fun o => o) (fun r o => conj eq_refl eq_refl)
    ((fun r => GetCid (Some r)) <$> rs) (@ctx_of CoreRecord (world n1)) rs) as (c & Hrd & Ho2 & Hs2).
  { simpl. by rewrite Hw1. }
  { simpl. rewrite Hw1, Hobs, Forall2_fmap_l. apply Forall_Forall2_diag, Forall_forall. intros r Hr.
    apply filed; [|done]. rewrite Forall_forall in Hok. auto. }
  rewrite <- (list_fmap_compose (fun r => GetCid (Some r)) (fun c => {| ref_Cid := c |}) rs) in Hrd.
  assert (Hps : pull_service (ref_of <$> rs) (world n1) = ((rs, None), (storeCtrl.c_store c, storeCtrl.c_db c))).
  { unfold pull_service. change (ref_of <$> rs) with (((fun c => {| ref_Cid := c |}) ∘ (fun r => GetCid (Some r))) <$> rs).
    rewrite Hrd. simpl in Hs2. by rewrite Hs2. }
  rewrite Hps in *. simpl in *. split; [|simpl in *; congruence].
  rewrite length_fmap, decide_True in Hy by lia. subst y. by rewrite firstn_all.
Qed.

(** Deleting does not wait for the server: the answer is [Ok] whatever the server
    says. *)
Lemma delete_not_awaited ref (n : N) :
  exists n', client.Delete ref n = (Ok tt, n') /\ world n' = (delete_service [ref] (world n)).2.
Proof.
  destruct (send_one_run world delete_service delete_phase "failed to create delete stream: "
    "failed to send record ref: " ref n) as (s & n' & Hrun & Hw & _).
  exists n'. unfold client.Delete. by rewrite (try_bind_ok _ _ _ _ _ _ Hrun).
Qed.

End service.

(** ** A connection within one process *)

Section loopback.
Context {N W Req Res : Type} (world : N -> W) (set_world : W -> N -> N)
  (get : N -> option (Phase Req Res)) (set : option (Phase Req Res) -> N -> N)
  (serve : list Req -> M W (list Res * option error)).

Definition loopback : StreamClient N Req Res := {|
  Stream := unit;
  rpc_Open := fun n => (Ok tt, set (Some (Sending [])) n);
  stream_Send _ m := fun n => match get n with
    | Some (Sending l) => (Ok tt, set (Some (Sending (l ++ [m]))) n)
    | _ => (Err (Plain "not sending"), n) end;
  stream_CloseSend _ := fun n => match get n with
    | Some (Sending l) => let '((replies, status), w) := serve l (world n) in
        (Ok tt, set (Some (Receiving replies status)) (set_world w n))
    | _ => (Err (Plain "not sending"), n) end;
  stream_Recv _ := fun n => match get n with
    | Some (Receiving (res :: replies) status) => (Ok res, set (Some (Receiving replies status)) n)
    | Some (Receiving [] status) => (Err (default (Sentinel "EOF") status), n)
    | _ => (Err (Plain "not receiving"), n) end |}.

Lemma loopback_spec :
  (forall w n, world (set_world w n) = w) -> (forall p n, world (set p n) = world n) ->
  (forall p n, get (set p n) = p) ->
  @StreamSpec N W Req Res loopback world serve (fun _ => get).
Proof.
  intros Hww Hwp Hpp. split; simpl.
  - intros n. eexists tt, _. split; [done|]. by rewrite Hwp, Hpp.
  - intros _ l m n ->. eexists. split; [done|]. by rewrite Hwp, Hpp.
  - intros _ l n ->. destruct (serve l (world n)) as [[replies status] w]. eexists. split; [done|].
    by rewrite Hwp, Hww, Hpp.
  - intros _ replies status n ->. destruct replies as [|res replies]; [by eexists _, n|].
    eexists _, _. split; [done|]. by rewrite Hwp, Hpp.
Qed.

End loopback.

Module DemoClient.
Import DemoCore DemoCache DemoController.
#[local] Existing Instances DemoSearch.table_gorm DemoSearch.table_gorm_spec DemoCache.one DemoCache.one_spec.

(** The server and the two streams. *)
Record Net := { net_world : bool * Tables; net_push : option (Phase CoreRecord RecordRef);
                net_pull : option (Phase RecordRef CoreRecord) }.
Definition set_world (w : bool * Tables) (n : Net) : Net :=
  {| net_world := w; net_push := net_push n; net_pull := net_pull n |}.

#[local] Instance push_client : StreamClient Net CoreRecord RecordRef :=
  loopback net_world set_world net_push
    (fun p n => {| net_world := net_world n; net_push := p; net_pull := net_pull n |}) (push_service size).
#[local] Instance pull_client : StreamClient Net RecordRef CoreRecord :=
  loopback net_world set_world net_pull
    (fun p n => {| net_world := net_world n; net_push := net_push n; net_pull := p |}) pull_service.

#[local] Instance push_up : StreamSpec net_world (push_service size) (fun _ => net_push).
Proof. by apply loopback_spec. Qed.
#[local] Instance pull_up : StreamSpec net_world pull_service (fun _ => net_pull).
Proof. by apply loopback_spec. Qed.

Definition net0 : Net := {| net_world := (false, DemoSearch.empty); net_push := None; net_pull := None |}.

Lemma batch_roundtrip_witness :
  exists n1 n2, client.PushBatch [demo_rec] net0 = (Ok [{| ref_Cid := demo_id |}], n1)
    /\ client.PullBatch [{| ref_Cid := demo_id |}] n1 = (Ok [demo_rec], n2).
Proof.
  destruct (batch_roundtrip (record_ok := fun r => r = demo_rec) (known_cid := any_cid) (obs := one_obs)
    (inv := fun _ => True) DemoSearch.tables DemoSearch.sql_like size data_of data_of_record net_world [demo_rec] net0 True)
    as (k & x & n1 & Hrun & _ & Hend).
  - by intros r r' -> ->.
  - split; [exact I|]. exists ∅. split; [|done].
    by split; try split; simpl; intros *; rewrite ?lookup_empty, ?elem_of_nil.
  - by constructor.
  - destruct Hend as [[_ Hx]|(-> & -> & n2 & Hpull & _)].
    + exfalso. vm_compute in Hrun. injection Hrun as <- _. discriminate Hx.
    + exists n1, n2. split; [exact Hrun|exact Hpull].
Defined.

End DemoClient.
