(* ===== verification/Signing.v ===== *)
(** * Signing records

    client/sign.go (Module [signer]): the client signs a payload with the digest
    that the CID of a record names, with a private key or through sigstore, and
    pushes the public key and the signature to the store.  utils/cosign/sign.go
    and payload.go (Module [cosign_sign]): making the payload and the signature. *)

From S2P Require Import Prelude GoStrings GoUrl Interfaces Adapters Zot CoreRecord Validators LabelKey Metrics RoutingWorld RoutingLocal RoutingLocalSpec StoreCache OciAnnotations OciStore Search StoreController OciReferrers Client.

Open Scope string_scope.
Open Scope list_scope.
Open Scope go_scope.

Arguments GetCid : simpl never.

(** ** Base64 (encoding/base64, the standard encoding) *)

Definition base64_char (n : Z) : ascii :=
  ascii_of_nat (Z.to_nat
    (if decide (n < 26)%Z then n + 65
     else if decide (n < 52)%Z then n + 71
     else if decide (n < 62)%Z then n - 4
     else if decide (n = 62)%Z then 43 else 47)).

Definition sextet (n shift : Z) : ascii := base64_char (Z.land (Z.shiftr n shift) 63).

Fixpoint base64_EncodeToString (s : string) : string :=
  match s with
  | EmptyString => ""
  | String a EmptyString =>
      let n := Z.shiftl (code a) 16 in
      String (sextet n 18) (String (sextet n 12) "==")
  | String a (String b EmptyString) =>
      let n := Z.lor (Z.shiftl (code a) 16) (Z.shiftl (code b) 8) in
      String (sextet n 18) (String (sextet n 12) (String (sextet n 6) "="))
  | String a (String b (String c s)) =>
      let n := Z.lor (Z.lor (Z.shiftl (code a) 16) (Z.shiftl (code b) 8)) (code c) in
      String (sextet n 18) (String (sextet n 12) (String (sextet n 6) (String (sextet n 0)
        (base64_EncodeToString s))))
  end.

Example base64_three : base64_EncodeToString "Man" = "TWFu". Proof. reflexivity. Qed.
Example base64_two : base64_EncodeToString "light work" = "bGlnaHQgd29yaw==". Proof. reflexivity. Qed.

(** ** Requests (api/sign/v1) *)

(** An option that is not set reads as the empty text. *)
Record SignOpts := {
  FulcioUrl : string; RekorUrl : string; TimestampUrl : string; OidcProviderUrl : string }.
Record SignWithOIDC := { IdToken : string; Oidc_Options : option SignOpts }.
Record SignWithKey := { PrivateKey : string; Key_Password : option string }.

Inductive SignProviderRequest :=
  | SignRequestProvider_Oidc (oidc : option SignWithOIDC)
  | SignRequestProvider_Key (key : option SignWithKey).
Record SignRequestProvider := { Provider_Request : option SignProviderRequest }.
Record SignRequest := { Sign_RecordRef : option RecordRef; Sign_Provider : option SignRequestProvider }.

(** ** Making signatures (utils/cosign) *)

(** The payload, a JSON document with the digest. *)
Record Payload := { DockerManifestDigest : string }.

(** Signing with a private key (cosign, sigstore's cryptoutils).  A signature can
    use randomness. *)
Class KeyLib (N : Type) := {
  SignerVerifier : Type; CryptoPublicKey : Type;
  cosign_LoadPrivateKey : string -> string -> result SignerVerifier;
  SignMessage : SignerVerifier -> string -> M N (result string);
  sv_PublicKey : SignerVerifier -> result CryptoPublicKey;
  MarshalPublicKeyToPEM : CryptoPublicKey -> result string;
}.

(** Sigstore (sigstore-go).  A service is valid from one hour before to one hour
    after it is listed. *)
Record Service := { Svc_URL : string; MajorAPIVersion : Z }.
Inductive ServiceSelector := ServiceSelector_ANY.
Record RemoteOptions := { BaseURL : string; Timeout : Z; Retries : Z }.
Record BundleOptions := {
  Fulcio : RemoteOptions; Bundle_IDToken : string;
  TimestampAuthorities : list RemoteOptions; TransparencyLogs : list RemoteOptions }.

Class Sigstore (N : Type) := {
  SigningConfig : Type; Keypair : Type; Bundle : Type;
  root_NewSigningConfig : list Service -> list Service -> list Service -> ServiceSelector ->
    list Service -> ServiceSelector -> M N (result SigningConfig);
  FulcioCertificateAuthorityURLs : SigningConfig -> list Service;
  TimestampAuthorityURLs : SigningConfig -> list Service;
  TimestampAuthorityURLsConfig : SigningConfig -> ServiceSelector;
  RekorLogURLs : SigningConfig -> list Service;
  RekorLogURLsConfig : SigningConfig -> ServiceSelector;
  root_SelectService : list Service -> list Z -> M N (result string);
  root_SelectServices : list Service -> ServiceSelector -> list Z -> M N (result (list string));
  sign_NewEphemeralKeypair : M N (result Keypair);
  sign_Bundle : string -> Keypair -> BundleOptions -> M N (result Bundle);
  bundle_Signature : Bundle -> string;
  GetPublicKeyPem : Keypair -> result string;
}.

Module cosign_sign.

Definition DefaultFulcioURL : string := "https://fulcio.sigstage.dev".
Definition DefaultRekorURL : string := "https://rekor.sigstage.dev".
Definition DefaultTimestampURL : string := "https://timestamp.sigstage.dev/api/v1/timestamp".
Definition DefaultOIDCProviderURL : string := "https://oauth2.sigstage.dev/auth".
(** In seconds. *)
Definition DefaultFulcioTimeout : Z := 30.
Definition DefaultTimestampAuthorityTimeout : Z := 30.
Definition DefaultRekorTimeout : Z := 90.

Definition setOrDefault (value defaultValue : string) : string :=
  if decide (value = "") then defaultValue else value.

Definition GeneratePayload `{!JsonCodec Payload} (digest : string) : result string :=
  match json_Marshal {| DockerManifestDigest := digest |} with
  | Err err => Err (Wrap "failed to marshal payload: " err)
  | Ok payloadBytes => Ok payloadBytes
  end.

(** [SignBlobOIDCResult] and [SignBlobKeyResult]. *)
Record SignBlobResult := { Res_Signature : string; Res_PublicKey : string }.

Record SignBlobOIDCOptions := {
  Opt_Payload : string; Opt_IDToken : string; Opt_FulcioURL : string; Opt_RekorURL : string;
  Opt_TimestampURL : string; Opt_OIDCProviderURL : string }.

Definition service (url : string) : list Service := [{| Svc_URL := url; MajorAPIVersion := 1 |}].

Section oidc.
Context {N : Type} `{!Sigstore N}.

(** The signing options, from the configuration of the services. *)
Definition bundle_options (opts : SignBlobOIDCOptions) : M N (result BundleOptions) :=
  let? signingConfig := root_NewSigningConfig
      (service (setOrDefault (Opt_FulcioURL opts) DefaultFulcioURL))
      (service (setOrDefault (Opt_OIDCProviderURL opts) DefaultOIDCProviderURL))
      (service (setOrDefault (Opt_RekorURL opts) DefaultRekorURL)) ServiceSelector_ANY
      (service (setOrDefault (Opt_TimestampURL opts) DefaultTimestampURL)) ServiceSelector_ANY
    else err => ret (Err (Wrap "failed to create signing config: " err)) in
  let? fulcioURL := root_SelectService (FulcioCertificateAuthorityURLs signingConfig) [1%Z]
    else err => ret (Err (Wrap "failed to select fulcio URL: " err)) in
  let? tsaURLs := root_SelectServices (TimestampAuthorityURLs signingConfig)
      (TimestampAuthorityURLsConfig signingConfig) [1%Z]
    else err => ret (Err (Wrap "failed to select timestamp authority URL: " err)) in
  let? rekorURLs := root_SelectServices (RekorLogURLs signingConfig)
      (RekorLogURLsConfig signingConfig) [1%Z]
    else err => ret (Err (Wrap "failed to select rekor URL: " err)) in
  ret (Ok {|
    Fulcio := {| BaseURL := fulcioURL; Timeout := DefaultFulcioTimeout; Retries := 1 |};
    Bundle_IDToken := Opt_IDToken opts;
    TimestampAuthorities :=
      (fun url => {| BaseURL := url; Timeout := DefaultTimestampAuthorityTimeout; Retries := 1 |}) <$> tsaURLs;
    TransparencyLogs :=
      (fun url => {| BaseURL := url; Timeout := DefaultRekorTimeout; Retries := 1 |}) <$> rekorURLs |}).

Definition SignBlobWithOIDC (opts : SignBlobOIDCOptions) : M N (result SignBlobResult) :=
  let? signOpts := bundle_options opts else err => ret (Err err) in
  let? signKeypair := sign_NewEphemeralKeypair
    else err => ret (Err (Wrap "failed to create ephemeral keypair: " err)) in
  let? sigBundle := sign_Bundle (Opt_Payload opts) signKeypair signOpts
    else err => ret (Err (Wrap "failed to sign record: " err)) in
  match GetPublicKeyPem signKeypair with
  | Err err => ret (Err (Wrap "failed to get public key: " err))
  | Ok publicKeyPEM => ret (Ok {|
      Res_Signature := base64_EncodeToString (bundle_Signature sigBundle); Res_PublicKey := publicKeyPEM |})
  end.

End oidc.

Section key.
Context {N : Type} `{!KeyLib N}.

Definition SignBlobWithKey (payload privateKey password : string) : M N (result SignBlobResult) :=
  match cosign_LoadPrivateKey privateKey password with
  | Err err => ret (Err (Wrap "loading private key: " err))
  | Ok sv =>
      let? sig := SignMessage sv payload else err => ret (Err (Wrap "signing blob: " err)) in
      match sv_PublicKey sv with
      | Err err => ret (Err (Wrap "getting public key: " err))
      | Ok pubKey =>
          match MarshalPublicKeyToPEM pubKey with
          | Err err => ret (Err (Wrap "getting public key: " err))
          | Ok publicKeyPEM => ret (Ok {|
              Res_Signature := base64_EncodeToString sig; Res_PublicKey := publicKeyPEM |})
          end
      end
  end.

End key.
End cosign_sign.

(** ** The client (client/sign.go) *)

Notation PushReq := (storeCtrl.PushReferrerRequest (Sig := Signature)).
Notation PullRes := (storeCtrl.PullReferrerResponse (Sig := Signature)).

Module signer.
Section signer.
Context `{HashLib} {N : Type} `{!KeyLib N} `{!Sigstore N} `{!JsonCodec Payload}
  `{!StreamClient N PushReq storeCtrl.PushReferrerResponse}.

Definition pushReferrersToStore (recordCID : string) (signature : Signature) (publicKey : string)
  : M N (result unit) :=
  let? _u := client.PushReferrer (PushRes := storeCtrl.PushReferrerResponse) {|
      storeCtrl.PushReferrer_RecordRef := Some {| ref_Cid := recordCID |};
      storeCtrl.PushReferrer_Options := Some (storeCtrl.PushReferrerRequest_PublicKey publicKey) |}
    else err => ret (Err (Wrap "failed to store public key: " err)) in
  let? _v := client.PushReferrer (PushRes := storeCtrl.PushReferrerResponse) {|
      storeCtrl.PushReferrer_RecordRef := Some {| ref_Cid := recordCID |};
      storeCtrl.PushReferrer_Options := Some (storeCtrl.PushReferrerRequest_Signature (Some signature)) |}
    else err => ret (Err (Wrap "failed to store signature: " err)) in
  ret (Ok tt).

Definition signature_object (signature payload : string) : Signature := {|
  Sig_Annotations := {[ "payload" := payload ]}; Sig_SignedAt := ""; Sig_Algorithm := "";
  Sig_Signature := signature; Sig_Certificate := ""; Sig_ContentType := ""; Sig_ContentBundle := "" |}.

(** The end of both ways of signing. *)
Definition push_signed (recordCID payload : string) (signed : cosign_sign.SignBlobResult)
  : M N (result Signature) :=
  let signatureObj := signature_object (cosign_sign.Res_Signature signed) payload in
  let? _u := pushReferrersToStore recordCID signatureObj (cosign_sign.Res_PublicKey signed)
    else err => ret (Err (Wrap "failed to push referrers to store: " err)) in
  ret (Ok signatureObj).

Definition key_of (req : SignRequest) : option SignWithKey :=
  match Sign_Provider req ≫= Provider_Request with Some (SignRequestProvider_Key k) => k | _ => None end.
Definition oidc_of (req : SignRequest) : option SignWithOIDC :=
  match Sign_Provider req ≫= Provider_Request with Some (SignRequestProvider_Oidc o) => o | _ => None end.

Definition SignWithOIDC (req : SignRequest) : M N (result Signature) :=
  match Sign_RecordRef req with
  | None => ret (Err (Plain "record ref must be set"))
  | Some _ =>
      let oidcSigner := oidc_of req in
      match ConvertCIDToDigest (ref_GetCid (Sign_RecordRef req)) with
      | Err err => ret (Err (Wrap "failed to convert CID to digest: " err))
      | Ok digest =>
          match cosign_sign.GeneratePayload (Digest_String digest) with
          | Err err => ret (Err (Wrap "failed to generate payload: " err))
          | Ok payloadBytes =>
              let url f := match oidcSigner ≫= Oidc_Options with Some opts => f opts | None => "" end in
              let? signed := cosign_sign.SignBlobWithOIDC {|
                  cosign_sign.Opt_Payload := payloadBytes;
                  cosign_sign.Opt_IDToken := match oidcSigner with Some o => IdToken o | None => "" end;
                  cosign_sign.Opt_FulcioURL := url FulcioUrl; cosign_sign.Opt_RekorURL := url RekorUrl;
                  cosign_sign.Opt_TimestampURL := url TimestampUrl;
                  cosign_sign.Opt_OIDCProviderURL := url OidcProviderUrl |}
                else err => ret (Err (Wrap "failed to sign with OIDC: " err)) in
              push_signed (ref_GetCid (Sign_RecordRef req)) payloadBytes signed
          end
      end
  end.

Definition SignWithKey (req : SignRequest) : M N (result Signature) :=
  let keySigner := key_of req in
  let password := default "" (keySigner ≫= Key_Password) in
  match ConvertCIDToDigest (ref_GetCid (Sign_RecordRef req)) with
  | Err err => ret (Err (Wrap "failed to convert CID to digest: " err))
  | Ok digest =>
      match cosign_sign.GeneratePayload (Digest_String digest) with
      | Err err => ret (Err (Wrap "failed to generate payload: " err))
      | Ok payloadBytes =>
          let? signed := cosign_sign.SignBlobWithKey payloadBytes
              (match keySigner with Some k => PrivateKey k | None => "" end) password
            else err => ret (Err (Wrap "failed to sign with key: " err)) in
          push_signed (ref_GetCid (Sign_RecordRef req)) payloadBytes signed
      end
  end.

Definition Sign (req : SignRequest) : M N (result Signature) :=
  match Sign_Provider req with
  | None => ret (Err (Plain "signature provider must be specified"))
  | Some provider =>
      match Provider_Request provider with
      | Some (SignRequestProvider_Key _) => SignWithKey req
      | Some (SignRequestProvider_Oidc _) => SignWithOIDC req
      | None => ret (Err (Plain "unsupported signature provider type: <nil>"))
      end
  end.

End signer.
End signer.

(** ** From the client to the registry and back *)

Section service.
Context {T D : Type} `{!StoreAPI T} (sigStore : storeCtrl.SignatureStore (T := T) (Sig := Signature)).
Notation Server := (T * D)%type.

Definition push_referrer_service (ms : list PushReq)
  : M Server (list storeCtrl.PushReferrerResponse * option error) := fun w =>
  let '(x, c) := storeCtrl.PushReferrer sigStore reply (Ok <$> ms) (ctx_of w) in
  ((storeCtrl.c_out c, status_of (Some x)), (storeCtrl.c_store c, storeCtrl.c_db c)).

Definition pull_referrer_service (ms : list storeCtrl.PullReferrerRequest)
  : M Server (list PullRes * option error) := fun w =>
  let '(x, c) := storeCtrl.PullReferrer sigStore reply (Ok <$> ms) (ctx_of w) in
  ((storeCtrl.c_out c, status_of (Some x)), (storeCtrl.c_store c, storeCtrl.c_db c)).

Definition to_push (c : string) (o : storeCtrl.PushReferrerOptions (Sig := Signature)) : PushReq := {|
  storeCtrl.PushReferrer_RecordRef := Some {| ref_Cid := c |}; storeCtrl.PushReferrer_Options := Some o |}.
Definition to_pull (c : string) : storeCtrl.PullReferrerRequest := {|
  storeCtrl.PullReferrer_RecordRef := Some {| ref_Cid := c |};
  storeCtrl.PullReferrer_Options := Some storeCtrl.PullReferrerRequest_PullSignature |}.

(** What the store is asked to do. *)
Definition push_effect (c : string) (o : storeCtrl.PushReferrerOptions (Sig := Signature)) (t : T) : T :=
  match o with
  | storeCtrl.PushReferrerRequest_PublicKey k =>
      match storeCtrl.sig_PushPublicKey sigStore with Some push => (push c k t).2 | None => t end
  | storeCtrl.PushReferrerRequest_Signature s =>
      match storeCtrl.sig_PushSignature sigStore with Some push => (push c s t).2 | None => t end
  end.

(** The handler always answers, whether or not the store took what was pushed. *)
Lemma push_referrer_served c o (w : Server) : c <> "" ->
  exists res, push_referrer_service [to_push c o] w = (([res], None), (push_effect c o w.1, w.2)).
Proof.
  intros Hc. unfold push_referrer_service. cbn [fmap list_fmap storeCtrl.PushReferrer to_push
    storeCtrl.PushReferrer_RecordRef storeCtrl.PushReferrer_Options].
  unfold storeCtrl.validateRecordRef. simpl (ref_GetCid _). rewrite decide_False by done.
  unfold storeCtrl.pushPublicKeyReferrer, storeCtrl.pushSignatureReferrer, push_effect.
  destruct o as [s|k]; simpl (ref_GetCid _).
  - destruct (storeCtrl.sig_PushSignature sigStore) as [push|]; [|by eexists].
    unfold bind, try_bind, bind, storeCtrl.on_store. simpl. destruct (push c s w.1) as [[u|e] t]; simpl; by eexists.
  - destruct (storeCtrl.sig_PushPublicKey sigStore) as [push|]; [|by eexists].
    unfold bind, try_bind, bind, storeCtrl.on_store. simpl. destruct (push c k w.1) as [[u|e] t]; simpl; by eexists.
Qed.

(** A signature that cannot be pulled is answered by none. *)
Lemma pull_served c (w : Server) : c <> "" ->
  exists w', pull_referrer_service [to_pull c] w
    = (([storeCtrl.PullReferrerResponse_Signature (
          match storeCtrl.sig_PullSignature sigStore with
          | Some pull => match (pull c w.1).1 with Ok s => s | Err _ => None end
          | None => None end)], None), w').
Proof.
  intros Hc. unfold pull_referrer_service. cbn [fmap list_fmap storeCtrl.PullReferrer to_pull
    storeCtrl.PullReferrer_RecordRef storeCtrl.PullReferrer_Options].
  unfold storeCtrl.validateRecordRef. simpl (ref_GetCid _). rewrite decide_False by done.
  unfold storeCtrl.pullSignatureReferrer. simpl (ref_GetCid _).
  destruct (storeCtrl.sig_PullSignature sigStore) as [pull|]; [|by eexists].
  unfold bind, try_bind, bind, storeCtrl.on_store. simpl. destruct (pull c w.1) as [[s|e] t]; simpl; by eexists.
Qed.

Context `{HashLib} {N : Type} (world : N -> Server) `{!KeyLib N} `{!Sigstore N} `{!JsonCodec Payload}
  `{!StreamClient N PushReq storeCtrl.PushReferrerResponse}
  `{!StreamClient N storeCtrl.PullReferrerRequest PullRes}
  {push_phase : Stream N PushReq storeCtrl.PushReferrerResponse -> N -> option (Phase PushReq storeCtrl.PushReferrerResponse)}
  {pull_phase : Stream N storeCtrl.PullReferrerRequest PullRes -> N -> option (Phase storeCtrl.PullReferrerRequest PullRes)}
  `{Hpush : !StreamSpec world push_referrer_service push_phase}
  `{Hpull : !StreamSpec world pull_referrer_service pull_phase}.

Lemma PushReferrer_run c o (n : N) : c <> "" ->
  exists n', client.PushReferrer (PushRes := storeCtrl.PushReferrerResponse) (to_push c o) n = (Ok tt, n')
    /\ world n' = (push_effect c o (world n).1, (world n).2).
Proof.
  intros Hc. destruct (send_one_run world push_referrer_service push_phase
    "failed to create push referrer stream: " "failed to send push referrer request: " (to_push c o) n)
    as (s & n1 & H1 & Hw1 & Hp1).
  destruct (push_referrer_served c o (world n) Hc) as [res Hres]. rewrite Hres in *. simpl in Hw1, Hp1.
  destruct (receive_one_run world push_referrer_service push_phase "failed to receive push referrer response: "
    s _ _ n1 Hp1) as (n2 & H2 & Hw2).
  exists n2. unfold client.PushReferrer.
  rewrite (try_bind_ok _ _ _ _ _ _ H1), (try_bind_ok _ _ _ _ _ _ H2). split; [done|congruence].
Qed.

Lemma PullReferrer_run c (n : N) : c <> "" ->
  exists n', client.PullReferrer (to_pull c) n
    = (Ok (storeCtrl.PullReferrerResponse_Signature (
          match storeCtrl.sig_PullSignature sigStore with
          | Some pull => match (pull c (world n).1).1 with Ok s => s | Err _ => None end
          | None => None end)), n').
Proof.
  intros Hc. destruct (send_one_run world pull_referrer_service pull_phase
    "failed to create pull referrer stream: " "failed to send pull referrer request: " (to_pull c) n)
    as (s & n1 & H1 & Hw1 & Hp1).
  destruct (pull_served c (world n) Hc) as [w' Hres]. rewrite Hres in *. simpl in Hw1, Hp1.
  destruct (receive_one_run world pull_referrer_service pull_phase "failed to receive pull referrer response: "
    s _ _ n1 Hp1) as (n2 & H2 & Hw2).
  exists n2. unfold client.PullReferrer. by rewrite (try_bind_ok _ _ _ _ _ _ H1), H2.
Qed.

(** Both referrers are pushed, the key first; the client reports success
    whatever the store answered. *)
Lemma push_signed_run c payload signed (n : N) : c <> "" ->
  exists n', signer.push_signed c payload signed n
      = (Ok (signer.signature_object (cosign_sign.Res_Signature signed) payload), n')
    /\ (world n').1 = push_effect c (storeCtrl.PushReferrerRequest_Signature
          (Some (signer.signature_object (cosign_sign.Res_Signature signed) payload)))
        (push_effect c (storeCtrl.PushReferrerRequest_PublicKey (cosign_sign.Res_PublicKey signed)) (world n).1).
Proof.
  intros Hc. destruct (PushReferrer_run c (storeCtrl.PushReferrerRequest_PublicKey
    (cosign_sign.Res_PublicKey signed)) n Hc) as (n1 & H1 & Hw1).
  destruct (PushReferrer_run c (storeCtrl.PushReferrerRequest_Signature
    (Some (signer.signature_object (cosign_sign.Res_Signature signed) payload))) n1 Hc) as (n2 & H2 & Hw2).
  exists n2. unfold signer.push_signed, signer.pushReferrersToStore.
  unfold to_push in H1, H2.
  erewrite try_bind_ok by (by rewrite (try_bind_ok _ _ _ _ _ _ H1), (try_bind_ok _ _ _ _ _ _ H2)).
  split; [done|]. by rewrite Hw2, Hw1.
Qed.

(** A store that takes no referrers at all: signing succeeds and stores nothing. *)
Lemma unsupported_store_signs c payload signed (n : N) : c <> "" ->
  storeCtrl.sig_PushPublicKey sigStore = None -> storeCtrl.sig_PushSignature sigStore = None ->
  exists sig n', signer.push_signed c payload signed n = (Ok sig, n') /\ (world n').1 = (world n).1.
Proof.
  intros Hc Hk Hs. destruct (push_signed_run c payload signed n Hc) as (n' & Hrun & Hw).
  eexists _, n'. split; [exact Hrun|]. rewrite Hw. unfold push_effect. by rewrite Hk, Hs.
Qed.

End service.

Lemma base64_empty s : base64_EncodeToString s = "" <-> s = "".
Proof. destruct s as [|a [|b [|c s]]]; simpl; done. Qed.

Section registry.
Context `{HashLib} `{!OasfJson} {R P D : Type} `{Hreg : !Registry R} `{!JsonCodec Manifest} `{!Cosign R}
  `{!HttpClient P} `{!JsonCodec GraphqlQuery} `{!JsonCodec GraphqlResponse}
  {blob_at : R -> Digest -> option string} {refs : R -> gmap string Descriptor}
  `{!RegistrySpec R blob_at refs}
  {ref_tag : ImageRef -> string} {sig_of : StaticSignature -> string * string}
  {entity : SignedEntity -> Digest * list (string * string)}
  `{!CosignSpec R blob_at refs ref_tag sig_of entity}.
Context (url_error : string -> error) (config : OciConfig).
Notation Server := (OciWorld R P * D)%type.
Notation sigStore := (referrers.signature_store url_error config).

(** Pushing a public key leaves the records and their signatures as they are. *)
Lemma PushPublicKey_keeps c k (w : OciWorld R P) :
  let r' := w_repo (referrers.PushPublicKey url_error config c k w).2 in
  grows blob_at refs (w_repo w) r' /\
  forall dg, refs r' !! signature_tag dg = refs (w_repo w) !! signature_tag dg.
Proof.
  unfold referrers.PushPublicKey. case_decide; [done|]. case_decide; [done|].
  unfold try_bind, bind, referrers.on_http, referrers.on_repo, referrers.read_repo. destruct w as [r n]. simpl.
  destruct (zot.UploadPublicKey _ _ _ n) as [[u|e] n']; [|done]. simpl.
  pose proof (PushBytes_spec PublicKeyArtifactMediaType k r) as Hp.
  pose proof (PushBytes_tags PublicKeyArtifactMediaType k r) as Ht.
  destruct (oras_PushBytes _ k r) as [[bd|e] r1]; simpl in *; destruct Hp as (Hg & _); [|done].
  destruct (repo_Resolve c r1) as [d|e]; [|done]. simpl. set (opts := Build_PackManifestOptions _ _ _).
  pose proof (PackManifest_spec opts r1) as Hp2. pose proof (PackManifest_tags opts r1) as Ht2.
  destruct (oras_PackManifest opts r1) as [x r2]. destruct Hp2 as (Hg2 & _). simpl in *.
  assert (Hres : grows blob_at refs r r2 /\ forall dg, refs r2 !! signature_tag dg = refs r !! signature_tag dg).
  { split; [by eapply grows_trans|]. intros dg. by rewrite Ht2. }
  by destruct x.
Qed.

Context {N : Type} (world : N -> Server) `{!KeyLib N} `{!Sigstore N} `{!JsonCodec Payload}
  `{!StreamClient N PushReq storeCtrl.PushReferrerResponse}
  `{!StreamClient N storeCtrl.PullReferrerRequest PullRes}
  {push_phase : Stream N PushReq storeCtrl.PushReferrerResponse -> N -> option (Phase PushReq storeCtrl.PushReferrerResponse)}
  {pull_phase : Stream N storeCtrl.PullReferrerRequest PullRes -> N -> option (Phase storeCtrl.PullReferrerRequest PullRes)}
  `{Hpush : !StreamSpec world (push_referrer_service sigStore) push_phase}
  `{Hpull : !StreamSpec world (pull_referrer_service sigStore) pull_phase}.
Context (SignMessage_local : forall sv payload n, world (SignMessage sv payload n).2 = world n).

(** What the signature is made of. *)
Lemma SignBlob_run payload key password (n : N) :
  let '(x, n') := cosign_sign.SignBlobWithKey payload key password n in
  world n' = world n /\
  match x with
  | Ok signed => exists sv raw, cosign_LoadPrivateKey key password = Ok sv
      /\ (SignMessage sv payload n).1 = Ok raw /\ cosign_sign.Res_Signature signed = base64_EncodeToString raw
  | Err _ => True
  end.
Proof.
  unfold cosign_sign.SignBlobWithKey. destruct (cosign_LoadPrivateKey key password) as [sv|e]; [|done].
  unfold try_bind, bind. pose proof (SignMessage_local sv payload n) as Hw.
  destruct (SignMessage sv payload n) as [[raw|e] n'] eqn:Hs; [|done]. simpl in Hw.
  destruct (sv_PublicKey sv) as [pk|e]; [|done]. destruct (MarshalPublicKeyToPEM pk) as [pem|e]; [|done].
  split; [done|]. exists sv, raw. by rewrite Hs.
Qed.


End registry.

(** ** An example *)

Module DemoSigning.
Import DemoCore MapDatastore StoreCache.DemoCache DemoOci DemoReferrers.
#[local] Existing Instances DemoOci.manifest_codec DemoReferrers.remote DemoReferrers.remote_spec
  DemoReferrers.cosign_lib DemoReferrers.cosign_spec DemoReferrers.zot_up.

Notation Srv := (OciWorld Remote unit * unit)%type.
Record Net := { net_world : Srv; net_push : option (Phase PushReq storeCtrl.PushReferrerResponse);
                net_pull : option (Phase storeCtrl.PullReferrerRequest PullRes) }.
Definition set_world (w : Srv) (n : Net) : Net :=
  {| net_world := w; net_push := net_push n; net_pull := net_pull n |}.

#[local] Instance payload_codec : JsonCodec Payload := {|
  json_Marshal p := Ok ("{" +:+ DockerManifestDigest p +:+ "}"); json_Unmarshal _ := Err (Plain "not read") |}.
#[local] Instance keys : KeyLib Net := {|
  SignerVerifier := string; CryptoPublicKey := string; cosign_LoadPrivateKey key _ := Ok key;
  SignMessage _ payload := fun n => (Ok payload, n); sv_PublicKey key := Ok ("public " +:+ key);
  MarshalPublicKeyToPEM k := Ok k |}.
#[local] Instance no_sigstore : Sigstore Net := {|
  SigningConfig := unit; Keypair := unit; Bundle := unit;
  root_NewSigningConfig _ _ _ _ _ _ := ret (Err (Plain "no network"));
  FulcioCertificateAuthorityURLs _ := []; TimestampAuthorityURLs _ := [];
  TimestampAuthorityURLsConfig _ := ServiceSelector_ANY; RekorLogURLs _ := [];
  RekorLogURLsConfig _ := ServiceSelector_ANY; root_SelectService _ _ := ret (Err (Plain "no network"));
  root_SelectServices _ _ _ := ret (Err (Plain "no network"));
  sign_NewEphemeralKeypair := ret (Err (Plain "no network"));
  sign_Bundle _ _ _ := ret (Err (Plain "no network")); bundle_Signature _ := "";
  GetPublicKeyPem _ := Err (Plain "no key") |}.

Notation sigs := (referrers.signature_store Plain config).
#[local] Instance push_client : StreamClient Net PushReq storeCtrl.PushReferrerResponse :=
  loopback net_world set_world net_push
    (fun p n => {| net_world := net_world n; net_push := p; net_pull := net_pull n |})
    (push_referrer_service sigs).
#[local] Instance pull_client : StreamClient Net storeCtrl.PullReferrerRequest PullRes :=
  loopback net_world set_world net_pull
    (fun p n => {| net_world := net_world n; net_push := net_push n; net_pull := p |})
    (pull_referrer_service sigs).
#[local] Instance push_up : StreamSpec net_world (push_referrer_service sigs) (fun _ => net_push).
Proof. by apply loopback_spec. Qed.
#[local] Instance pull_up : StreamSpec net_world (pull_referrer_service sigs) (fun _ => net_pull).
Proof. by apply loopback_spec. Qed.

Definition net0 : Net := {| net_world := (start, tt); net_push := None; net_pull := None |}.

Definition request : SignRequest := {|
  Sign_RecordRef := Some {| ref_Cid := demo_id |};
  Sign_Provider := Some {| Provider_Request := Some (SignRequestProvider_Key
    (Some {| PrivateKey := "key"; Key_Password := None |})) |} |}.

Lemma attached_none : attached rm_blob_at rm_refs (w_repo (net_world net0).1) (Desc_Digest record_desc) [].
Proof. vm_compute. reflexivity. Qed.

Lemma sign_local sv payload (n : Net) : net_world (SignMessage sv payload n).2 = net_world n.
Proof. reflexivity. Qed.


End DemoSigning.
