(* ===== verification/Keypair.v ===== *)
(** * Key pairs of cosign

    utils/cosign/keys.go (Module [keypair]): loading a private key, the hint that names
    its public key, and signing data with it.  Reading the password is in [Cli]. *)

From S2P Require Import Prelude GoStrings Interfaces CoreRecord Signing.

Open Scope string_scope.
Open Scope list_scope.
Open Scope go_scope.

(** Kinds of public keys, the curve of an ECDSA key by its name. *)
Inductive KeyKind := rsa_PublicKey | ecdsa_PublicKey (curve : string) | ed25519_PublicKey | other_PublicKey.

(** Private keys (sigstore's cryptoutils, crypto).  [as_Signer] is the type assertion on
    [crypto.Signer]; signing is given a SHA-256 digest and its hash function. *)
Class SignerLib (N : Type) `{!KeyLib N} := {
  CryptoPrivateKey : Type; Signer : Type;
  UnmarshalPEMToPrivateKey : string -> string -> result CryptoPrivateKey;
  as_Signer : CryptoPrivateKey -> option Signer;
  signer_Public : Signer -> CryptoPublicKey;
  key_kind : CryptoPublicKey -> KeyKind;
  signer_Sign : Signer -> string -> M N (result string);
  MarshalPublicKeyToDER : CryptoPublicKey -> result string;
}.

Module keypair.
Section keypair.
Context `{HashLib} {N : Type} `{!KeyLib N} `{!SignerLib N}.

Inductive HashAlgorithm := HashAlgorithm_SHA2_256.

Record Keypair := { Hint : string; privateKey : Signer; hashAlgorithm : HashAlgorithm }.

Definition GenerateHintFromPublicKey (pubKey : string) : string := base64_EncodeToString (Sum256 pubKey).

Definition LoadKeypair (privateKeyBytes pw : string) : result Keypair :=
  if decide (privateKeyBytes = "") then Err (Plain "private key bytes cannot be empty")
  else match UnmarshalPEMToPrivateKey privateKeyBytes pw with
  | Err err => Err (Wrap "unmarshal PEM to private key: " err)
  | Ok privateKey =>
      match cosign_LoadPrivateKey privateKeyBytes pw with
      | Err err => Err (Wrap "failed to load private key: " err)
      | Ok v =>
          match sv_PublicKey v with
          | Err err => Err (Wrap "failed to get public key: " err)
          | Ok pubKey =>
              match MarshalPublicKeyToDER pubKey with
              | Err err => Err (Wrap "failed to marshal public key: " err)
              | Ok pubKeyBytes =>
                  match as_Signer privateKey with
                  | None => Err (Plain "private key does not implement crypto.Signer")
                  | Some signer => Ok {| Hint := GenerateHintFromPublicKey pubKeyBytes; privateKey := signer;
                                         hashAlgorithm := HashAlgorithm_SHA2_256 |}
                  end
              end
          end
      end
  end.

Definition GetHashAlgorithm (e : Keypair) : HashAlgorithm := hashAlgorithm e.
Definition GetHint (e : Keypair) : string := Hint e.

Definition GetKeyAlgorithm (e : Keypair) : string :=
  match key_kind (signer_Public (privateKey e)) with
  | rsa_PublicKey => "RSA"
  | ecdsa_PublicKey curve =>
      if decide (curve = "P-256") then "ECDSA-P256"
      else if decide (curve = "P-384") then "ECDSA-P384"
      else if decide (curve = "P-521") then "ECDSA-P521"
      else "ECDSA"
  | ed25519_PublicKey => "Ed25519"
  | other_PublicKey => "Unknown"
  end.

Definition GetPublicKeyPem (e : Keypair) : result string :=
  match MarshalPublicKeyToPEM (signer_Public (privateKey e)) with
  | Err err => Err (Wrap "failed to marshal public key to PEM: " err)
  | Ok pubKeyBytes => Ok pubKeyBytes
  end.

(** A signature with the digest that it is for. *)
Definition SignData (e : Keypair) (data : string) : M N (result (string * string)) :=
  let digest := Sum256 data in
  let? signature := signer_Sign (privateKey e) digest else err => ret (Err (Wrap "failed to sign data: " err)) in
  ret (Ok (signature, digest)).

End keypair.
End keypair.

(** ** Loaded key pairs *)

(** Both ways of reading a key file give the same key; a signature that is made is valid
    for the digest.  crypto/ed25519 refuses a digest of SHA-256: it takes messages that
    are not hashed, or hashed with SHA-512. *)
Class SignerSpec (N : Type) `{!KeyLib N} `{!SignerLib N} (valid : CryptoPublicKey -> string -> string -> Prop)
    : Prop := {
  same_key pem pw k s sv pk : UnmarshalPEMToPrivateKey pem pw = Ok k -> as_Signer k = Some s ->
    cosign_LoadPrivateKey pem pw = Ok sv -> sv_PublicKey sv = Ok pk -> pk = signer_Public s;
  Sign_spec s digest n : match key_kind (signer_Public s) with
    | ed25519_PublicKey => exists e, (signer_Sign s digest n).1 = Err e
    | _ => forall sig, (signer_Sign s digest n).1 = Ok sig -> valid (signer_Public s) digest sig
    end;
}.

Section loaded.
Context `{HashLib} {N : Type} `{!KeyLib N} `{!SignerLib N} {valid : CryptoPublicKey -> string -> string -> Prop}
  `{!SignerSpec N valid}.

(** A key pair that is loaded stands for one public key: the hint is its hash, its PEM
    form is what is shown, and a signature over data is valid for the hash of the data.
    No data can be signed with an Ed25519 key, although such a key loads and is reported
    as one. *)
Theorem loaded_keypair pem pw e data n : keypair.LoadKeypair pem pw = Ok e ->
  exists pk, (exists sv, cosign_LoadPrivateKey pem pw = Ok sv /\ sv_PublicKey sv = Ok pk) /\
  (exists der, MarshalPublicKeyToDER pk = Ok der /\ keypair.GetHint e = base64_EncodeToString (Sum256 der)) /\
  (forall text, keypair.GetPublicKeyPem e = Ok text -> MarshalPublicKeyToPEM pk = Ok text) /\
  match (keypair.SignData e data n).1 with
  | Ok (signature, digest) => digest = Sum256 data /\ valid pk digest signature
      /\ keypair.GetKeyAlgorithm e <> "Ed25519"
  | Err _ => True
  end /\
  (keypair.GetKeyAlgorithm e = "Ed25519" -> exists err, (keypair.SignData e data n).1 = Err err).
Proof.
  unfold keypair.LoadKeypair. case_decide; [done|].
  destruct (UnmarshalPEMToPrivateKey pem pw) as [k|] eqn:Hk; [|done].
  destruct (cosign_LoadPrivateKey pem pw) as [sv|] eqn:Hsv; [|done].
  destruct (sv_PublicKey sv) as [pk|] eqn:Hpk; [|done].
  destruct (MarshalPublicKeyToDER pk) as [der|] eqn:Hder; [|done].
  destruct (as_Signer k) as [s|] eqn:Hs; [|done]. intros [= <-].
  pose proof (same_key pem pw k s sv pk Hk Hs Hsv Hpk) as ->.
  assert (Halg : forall h a, keypair.GetKeyAlgorithm (keypair.Build_Keypair h s a) = "Ed25519"
    <-> key_kind (signer_Public s) = ed25519_PublicKey).
  { intros h a. unfold keypair.GetKeyAlgorithm. simpl. destruct (key_kind _); repeat case_decide; split; congruence. }
  exists (signer_Public s). split; [by exists sv|]. split; [by exists der|]. split.
  { intros text. unfold keypair.GetPublicKeyPem. simpl. destruct (MarshalPublicKeyToPEM _); congruence. }
  rewrite Halg. unfold keypair.SignData, try_bind, bind. simpl. pose proof (Sign_spec s (Sum256 data) n) as Hsign.
  destruct (signer_Sign s (Sum256 data) n) as [[sig|e] n1]; simpl in *.
  - split; [split; [done|]; rewrite Halg; destruct (key_kind _); try (split; [by apply Hsign|done])|].
    + by destruct Hsign.
    + intros Hed. rewrite Hed in Hsign. by destruct Hsign.
  - split; [done|]. intros _. by eexists.
Qed.

End loaded.

Module DemoKeypair.
#[local] Existing Instance DemoCore.cids.
#[local] Existing Instance DemoCore.hashes.

(** A key file holds the kind of its key and a number, as one text. *)
#[export] Instance texts : KeyLib unit := {|
  SignerVerifier := string; CryptoPublicKey := string;
  cosign_LoadPrivateKey pem _ := Ok pem;
  SignMessage sv m n := (Ok (sv +:+ m), n);
  sv_PublicKey sv := Ok sv;
  MarshalPublicKeyToPEM pk := Ok ("PEM " +:+ pk) |}.

Definition kind_of (pk : string) : KeyKind :=
  if HasPrefix pk "ed25519" then ed25519_PublicKey else ecdsa_PublicKey "P-256".

#[export] Instance signers : SignerLib unit := {|
  CryptoPrivateKey := string; Signer := string;
  UnmarshalPEMToPrivateKey pem _ := Ok pem; as_Signer k := Some k; signer_Public s := s;
  key_kind := kind_of;
  signer_Sign s digest n := match kind_of s with
    | ed25519_PublicKey => (Err (Plain "expected opts.HashFunc() zero"), n)
    | _ => (Ok (s +:+ digest), n)
    end;
  MarshalPublicKeyToDER pk := Ok pk |}.

Definition made_by : CryptoPublicKey (N := unit) -> string -> string -> Prop := fun pk digest sig =>
  sig = (pk : string) +:+ digest.

#[export] Instance signers_spec : SignerSpec unit made_by.
Proof.
  split; [by intros pem pw k s sv pk [= <-] [= <-] [= <-] [= <-]|].
  intros s digest []. simpl. destruct (kind_of s); simpl; try (by intros sig [= <-]). by eexists.
Qed.

Lemma loaded_keypair_witness :
  (exists e sig, keypair.LoadKeypair "p256 1" "pw" = Ok e /\ keypair.GetKeyAlgorithm e = "ECDSA-P256"
     /\ (keypair.SignData e "data" tt).1 = Ok (sig, Sum256 "data") /\ sig = "p256 1" +:+ Sum256 "data")
  /\ exists e err, keypair.LoadKeypair "ed25519 1" "pw" = Ok e /\ (keypair.SignData e "data" tt).1 = Err err.
Proof.
  split.
  - assert (He : exists e, keypair.LoadKeypair "p256 1" "pw" = Ok e) by (eexists; reflexivity). destruct He as [e He].
    destruct (loaded_keypair (valid := made_by) "p256 1" "pw" e "data" tt He)
      as (pk & (sv & [= <-] & [= <-]) & _ & _ & Hs & _). injection He as <-.
    destruct Hs as (_ & Hs & _). eexists _, _. split; [reflexivity|]. split; [reflexivity|]. split; [reflexivity|exact Hs].
  - assert (He : exists e, keypair.LoadKeypair "ed25519 1" "pw" = Ok e) by (eexists; reflexivity). destruct He as [e He].
    destruct (loaded_keypair (valid := made_by) "ed25519 1" "pw" e "data" tt He) as (pk & _ & _ & _ & _ & Hfail).
    exists e. destruct Hfail as [err Herr]; [injection He as <-; reflexivity|]. exists err. split; [exact He|exact Herr].
Defined.

End DemoKeypair.
