(* ===== verification/Tables.v ===== *)
(** * Tables of the SQL database

    Publications and synchronisations are rows of tables that the same GORM calls
    work on (database/sqlite/publication.go, sync.go).  GORM is outside the
    repository: [Table] has the calls, [TableSpec] what they promise of the list
    of rows, and [ListTable] is a table that computes. *)

From S2P Require Import Prelude Search.

(** A row has a primary key, an ID (a UUID in an indexed column) and a status. *)
Class TableRow (Row St : Type) := {
  row_key : Row -> nat;
  row_id : Row -> string;
  row_status : Row -> St;
  with_key : nat -> Row -> Row;
  row_key_with k r : row_key (with_key k r) = k;
}.

Class Table (D Row St : Type) := {
  tbl_Create : Row -> M D (result unit);            (** assigns the primary key *)
  tbl_First : string -> D -> result Row;            (** [Where("id = ?", id).First] *)
  tbl_Find : Z -> option Z -> D -> result (list Row);
                                                    (** [Offset(o).Limit(l).Find] *)
  tbl_FindByStatus : St -> D -> result (list Row);  (** [Where("status = ?", st).Find] *)
  tbl_Save : Row -> M D (result unit);              (** all columns, by primary key *)
  tbl_Delete : string -> M D (result unit);         (** [Where("id = ?", id).Delete] *)
}.
Arguments tbl_Delete {D Row St _}.

(** ** Laws *)

Section rows.
Context `{TableRow Row St} `{!EqDecision St}.

Definition first_by_id (id : string) (rows : list Row) : option Row :=
  head (filter (fun p => row_id p = id) rows).

Definition with_status (st : St) (rows : list Row) : list Row :=
  filter (fun p => row_status p = st) rows.

(** The rows after the one of an ID was changed. *)
Definition update_by (id : string) (f : Row -> Row) : list Row -> list Row :=
  fmap (fun p => if decide (row_id p = id) then f p else p).

(** A database that is up; [rows] are the rows in primary-key order. *)
Class TableSpec (D : Type) `{!Table D Row St} (rows : D -> list Row) : Prop := {
  rows_keys d : NoDup (row_key <$> rows d);
  tbl_Create_spec p d : (tbl_Create p d).1 = Ok tt /\
    exists k, rows (tbl_Create p d).2 = rows d ++ [with_key k p];
  tbl_First_spec id d :
    tbl_First id d = match first_by_id id (rows d) with
                     | Some p => Ok p | None => Err sqlite.ErrRecordNotFound end;
  tbl_Find_spec o l d : (0 <= o)%Z ->
    tbl_Find o l d = Ok (let ps := drop (Z.to_nat o) (rows d) in
                         match l with Some n => take (Z.to_nat n) ps | None => ps end);
  tbl_FindByStatus_spec st d : tbl_FindByStatus st d = Ok (with_status st (rows d));
  tbl_Save_spec p d : row_key p ∈ row_key <$> rows d ->
    (tbl_Save p d).1 = Ok tt /\
    rows (tbl_Save p d).2
    = (fun q => if decide (row_key q = row_key p) then p else q) <$> rows d;
  tbl_Delete_spec id d : (tbl_Delete id d).1 = Ok tt /\
    rows (tbl_Delete id d).2 = filter (fun p => row_id p <> id) (rows d);
}.

(** ** Rows by ID *)

(** A key without duplicates determines the element. *)
Lemma key_inj {A B} (f : A -> B) ps p q :
  NoDup (f <$> ps) -> p ∈ ps -> q ∈ ps -> f p = f q -> p = q.
Proof.
  intros Hnd [i Hi]%list_elem_of_lookup [j Hj]%list_elem_of_lookup Hf.
  assert (i = j) as ->; [|congruence].
  apply (NoDup_lookup (f <$> ps) i j (f p)); [done|..]; rewrite list_lookup_fmap.
  - by rewrite Hi.
  - rewrite Hj. simpl. by rewrite Hf.
Qed.

Lemma NoDup_fmap_filter {A B} (f : A -> B) (Q : A -> Prop) `{forall x, Decision (Q x)} l :
  NoDup (f <$> l) -> NoDup (f <$> filter Q l).
Proof.
  induction l as [|x l IH]; [done|]. simpl. intros [Hx Hl]%NoDup_cons. rewrite filter_cons.
  case_decide; [|by apply IH]. simpl. constructor; [|by apply IH].
  intros (y & Hy & [_ Hin]%list_elem_of_filter)%list_elem_of_fmap. apply Hx. rewrite Hy.
  by apply list_elem_of_fmap_2.
Qed.

Lemma first_by_id_Some id ps p : first_by_id id ps = Some p -> p ∈ ps /\ row_id p = id.
Proof.
  unfold first_by_id. intros Hp.
  assert (Hin : p ∈ filter (fun p => row_id p = id) ps).
  { destruct (filter _ ps); simplify_eq/=. left. }
  apply list_elem_of_filter in Hin. tauto.
Qed.

Lemma first_by_id_None id ps : first_by_id id ps = None <-> id ∉ row_id <$> ps.
Proof.
  unfold first_by_id. split.
  - intros Hp (p & -> & Hin)%list_elem_of_fmap.
    assert (Hf : p ∈ filter (fun q => row_id q = row_id p) ps) by by apply list_elem_of_filter.
    destruct (filter _ ps); [by apply elem_of_nil in Hf|done].
  - intros Hid. destruct (filter _ ps) as [|q l] eqn:Hf; [done|].
    assert (Hq : q ∈ q :: l) by left. rewrite <- Hf in Hq.
    apply list_elem_of_filter in Hq as [<- Hq]. by destruct Hid; apply list_elem_of_fmap_2.
Qed.

Lemma first_by_id_elem ps p : NoDup (row_id <$> ps) -> p ∈ ps -> first_by_id (row_id p) ps = Some p.
Proof.
  intros Hnd Hp. destruct (first_by_id (row_id p) ps) as [q|] eqn:Hq.
  - apply first_by_id_Some in Hq as [Hq Heq]. f_equal. by apply (key_inj row_id ps).
  - apply first_by_id_None in Hq. by destruct Hq; apply list_elem_of_fmap_2.
Qed.

Lemma first_by_id_app id ps l :
  (exists p, first_by_id id ps = Some p) -> first_by_id id (ps ++ l) = first_by_id id ps.
Proof. intros [p Hp]. unfold first_by_id in *. rewrite filter_app. by destruct (filter _ ps). Qed.

Lemma first_by_id_snoc id ps p :
  id ∉ row_id <$> ps -> row_id p = id -> first_by_id id (ps ++ [p]) = Some p.
Proof.
  intros Hp Hid. unfold first_by_id. rewrite filter_app.
  apply first_by_id_None in Hp. unfold first_by_id in Hp.
  destruct (filter _ ps) as [|q l]; [|done]. simpl. by rewrite filter_cons, decide_True.
Qed.

Lemma update_by_absent id f ps : id ∉ row_id <$> ps -> update_by id f ps = ps.
Proof.
  intros Hid. unfold update_by. rewrite <- (list_fmap_id ps) at 2.
  apply list_fmap_ext. intros i p Hp. rewrite decide_False; [done|].
  intros <-. apply Hid. eapply list_elem_of_fmap_2, list_elem_of_lookup_2, Hp.
Qed.

Section update.
Context (f : Row -> Row) (f_id : forall p, row_id (f p) = row_id p).

Lemma ids_update id ps : row_id <$> update_by id f ps = row_id <$> ps.
Proof using f_id.
  unfold update_by. rewrite <- list_fmap_compose. apply list_fmap_ext.
  intros i p _. simpl. by case_decide.
Qed.

Lemma elem_update id ps p : p ∈ update_by id f ps ->
  (exists q, q ∈ ps /\ row_id q = id /\ p = f q) \/ (p ∈ ps /\ row_id p <> id).
Proof using.
  unfold update_by. intros (q & -> & Hq)%list_elem_of_fmap. case_decide; [left; eauto|by right].
Qed.

Lemma first_by_id_update id id' ps :
  first_by_id id (update_by id' f ps)
  = if decide (id' = id) then f <$> first_by_id id ps else first_by_id id ps.
Proof using f_id.
  unfold first_by_id, update_by. induction ps as [|p ps IH]; [by case_decide|].
  rewrite fmap_cons, !filter_cons.
  destruct (decide (row_id p = id')) as [<-|Hne]; [rewrite f_id|]; destruct (decide (row_id p = id));
    simpl; try done; case_decide; congruence.
Qed.
End update.

(** ** What a table in this state does *)

Context {D : Type} `{!Table D Row St} (rows : D -> list Row) `{!TableSpec D rows}.

Lemma First_ok id d p : first_by_id id (rows d) = Some p -> tbl_First id d = Ok p.
Proof. intros Hp. by rewrite (tbl_First_spec (rows := rows)), Hp. Qed.

Lemma First_absent id d : id ∉ row_id <$> rows d -> tbl_First id d = Err sqlite.ErrRecordNotFound.
Proof. intros Hp%first_by_id_None. by rewrite (tbl_First_spec (rows := rows)), Hp. Qed.

(** Saving a changed row by its primary key changes the row of its ID only. *)
Lemma Save_run f id p d :
  NoDup (row_id <$> rows d) -> first_by_id id (rows d) = Some p -> row_key (f p) = row_key p ->
  exists d', tbl_Save (f p) d = (Ok tt, d') /\ rows d' = update_by id f (rows d).
Proof.
  intros Hid [Hp <-]%first_by_id_Some Hk.
  destruct (tbl_Save_spec (rows := rows) (f p) d) as [Hs Hr].
  { rewrite Hk. by apply list_elem_of_fmap_2. }
  destruct (tbl_Save (f p) d) as [x d']. simpl in Hs, Hr. subst x. exists d'. split; [done|].
  rewrite Hr, Hk. unfold update_by. apply list_fmap_ext. intros i q Hi.
  assert (Hq : q ∈ rows d) by by eapply list_elem_of_lookup_2.
  pose proof (rows_keys (rows := rows) d) as Hkeys.
  destruct (decide (row_key q = row_key p)) as [Hg|Hg], (decide (row_id q = row_id p)) as [Hi'|Hi'];
    try done.
  - by rewrite (key_inj row_key (rows d) q p).
  - by destruct Hi'; rewrite (key_inj row_key (rows d) q p).
  - by destruct Hg; rewrite (key_inj row_id (rows d) q p).
Qed.

Lemma Create_table_run p d : exists d' k,
  tbl_Create p d = (Ok tt, d') /\ rows d' = rows d ++ [with_key k p].
Proof.
  destruct (tbl_Create_spec (rows := rows) p d) as [Hc (k & Hr)].
  destruct (tbl_Create p d) as [x d']. simpl in *. subst. eauto.
Qed.

End rows.
Arguments TableSpec {_ _ _ _} D {_}.

(** ** A table that computes

    A list of rows without duplicate keys; a change that would duplicate a key is
    refused. *)

Module ListTable.
Section ListTable.
Context `{TableRow Row St} `{!EqDecision St}.

Definition T : Type := { l : list Row | NoDup (row_key <$> l) }.

Definition rows (d : T) : list Row := `d.

Definition empty : T := exist _ [] NoDup_nil_2.

Definition store (l : list Row) (d : T) : result unit * T :=
  match decide (NoDup (row_key <$> l)) with
  | left H => (Ok tt, exist _ l H)
  | right _ => (Err (Plain "UNIQUE constraint failed"), d)
  end.

Definition table : Table T Row St := {|
  tbl_Create p := fun d => store (rows d ++ [with_key (fresh (row_key <$> rows d)) p]) d;
  tbl_First id d := match first_by_id id (rows d) with
                    | Some p => Ok p | None => Err sqlite.ErrRecordNotFound end;
  tbl_Find o l d := Ok (let ps := drop (Z.to_nat o) (rows d) in
                        match l with Some n => take (Z.to_nat n) ps | None => ps end);
  tbl_FindByStatus st d := Ok (with_status st (rows d));
  tbl_Save p := fun d => store ((fun q => if decide (row_key q = row_key p) then p else q) <$> rows d) d;
  tbl_Delete id := fun d => store (filter (fun p => row_id p <> id) (rows d)) d;
|}.

Lemma store_run l d : NoDup (row_key <$> l) -> (store l d).1 = Ok tt /\ rows (store l d).2 = l.
Proof. intros Hl. unfold store. by destruct (decide _). Qed.

Lemma spec : TableSpec (H := H) T (Table0 := table) rows.
Proof.
  split; simpl; try done.
  - intros [l Hl]. exact Hl.
  - intros p d. destruct (store_run (rows d ++ [with_key (fresh (row_key <$> rows d)) p]) d) as [H1 H2].
    + rewrite fmap_app. apply NoDup_app. split; [by destruct d as [l Hl]|].
      split; [|apply NoDup_singleton]. intros k Hk ->%list_elem_of_singleton.
      rewrite row_key_with in Hk. by eapply (infinite_is_fresh (row_key <$> rows d)).
    + split; [done|]. eauto.
  - intros p d Hp. apply store_run. rewrite <- list_fmap_compose.
    rewrite (list_fmap_ext _ row_key); [by destruct d as [l Hl]|].
    intros i q _. simpl. by case_decide.
  - intros id d. apply store_run, NoDup_fmap_filter. by destruct d as [l Hl].
Qed.

(** A database that holds such a table among others. *)
Section part.
Context {D : Type} (part : D -> T) (set_part : T -> D -> D)
  (part_set : forall t d, part (set_part t d) = t).

Definition lift {A} (c : M T A) : M D A := fun d => let '(x, t) := c (part d) in (x, set_part t d).

Definition part_table : Table D Row St := {|
  tbl_Create p := lift (@tbl_Create _ _ _ table p);
  tbl_First id d := @tbl_First _ _ _ table id (part d);
  tbl_Find o l d := @tbl_Find _ _ _ table o l (part d);
  tbl_FindByStatus st d := @tbl_FindByStatus _ _ _ table st (part d);
  tbl_Save p := lift (@tbl_Save _ _ _ table p);
  tbl_Delete id := lift (@tbl_Delete _ _ _ table id);
|}.

Lemma lift_run {A} (c : M T A) d :
  (lift c d).1 = (c (part d)).1 /\ rows (part (lift c d).2) = rows (c (part d)).2.
Proof using part_set. unfold lift. destruct (c (part d)) as [x t]. simpl. by rewrite part_set. Qed.

Lemma part_spec : TableSpec (H := H) D (Table0 := part_table) (fun d => rows (part d)).
Proof using part_set.
  pose proof spec as Hs.
  split; simpl; intros; try (apply (@rows_keys _ _ _ _ _ _ _ Hs)); try done;
    match goal with |- context [lift ?c ?d] => destruct (lift_run c d) as [-> ->] end.
  - apply (@tbl_Create_spec _ _ _ _ _ _ _ Hs).
  - by apply (@tbl_Save_spec _ _ _ _ _ _ _ Hs).
  - apply (@tbl_Delete_spec _ _ _ _ _ _ _ Hs).
Qed.

End part.
End ListTable.
End ListTable.
