(* ===== verification/Publication.v ===== *)
(** * Publications

    server/database/sqlite/publication.go, server/controller/publication.go and
    server/publication: a publish request is stored as a publication, a
    scheduler dispatches pending publications to a queue, and workers announce
    the records each one names.  The scheduler and the workers run concurrently;
    their interleavings are a step relation. *)

From S2P Require Import Prelude GoStrings Interfaces Adapters CoreRecord Search Tables.

Open Scope string_scope.
Open Scope list_scope.
Open Scope go_scope.

(** ** Data (api/routing/v1, database/sqlite/publication.go) *)

Inductive PublicationStatus :=
  | PUBLICATION_STATUS_UNSPECIFIED
  | PUBLICATION_STATUS_PENDING
  | PUBLICATION_STATUS_IN_PROGRESS
  | PUBLICATION_STATUS_COMPLETED
  | PUBLICATION_STATUS_FAILED.

#[export] Instance PublicationStatus_eq_dec : EqDecision PublicationStatus.
Proof. solve_decision. Defined.

(** The request of a [PublishRequest], nil when none is set. *)
Inductive PublishRequest_Request :=
  | PublishRequest_RecordRefs (refs : list RecordRef)
  | PublishRequest_Queries (queries : list searchv1.RecordQuery).
Record PublishRequest := { GetRequest' : option PublishRequest_Request }.

Record Publication := {
  GormID : nat; Pub_ID : string; RequestJSON : string; Pub_Status : PublicationStatus;
  CreatedTime : string; LastUpdateTime : string }.

#[export] Instance publication_row : TableRow Publication PublicationStatus := {
  row_key := GormID; row_id := Pub_ID; row_status := Pub_Status;
  with_key k p := {| GormID := k; Pub_ID := Pub_ID p; RequestJSON := RequestJSON p;
    Pub_Status := Pub_Status p; CreatedTime := CreatedTime p; LastUpdateTime := LastUpdateTime p |};
  row_key_with _ _ := eq_refl }.

(** The table of publications. *)
Notation PubTable D := (Table D Publication PublicationStatus).

(** The router as the publication service uses it (types/routing.go). *)
Class RoutingAPI (R : Type) := {
  routing_Publish : option RecordRef -> option CoreRecord -> M R (result unit);
}.

(** What the service works on; every reading of the clock and every new UUID
    advances [p_tick]. *)
Record PubWorld (D T R : Type) := { p_db : D; p_store : T; p_routing : R; p_tick : nat }.
Arguments p_db {_ _ _}. Arguments p_store {_ _ _}. Arguments p_routing {_ _ _}. Arguments p_tick {_ _ _}.

Section lift.
Context {D T R : Type}.
Notation W := (PubWorld D T R).

Definition pub_read {A} (f : D -> A) : M W A := fun w => (f (p_db w), w).
Definition pub_db {A} (c : M D A) : M W A := fun w =>
  let '(a, d) := c (p_db w) in
  (a, {| p_db := d; p_store := p_store w; p_routing := p_routing w; p_tick := p_tick w |}).
Definition pub_store {A} (c : M T A) : M W A := fun w =>
  let '(a, t) := c (p_store w) in
  (a, {| p_db := p_db w; p_store := t; p_routing := p_routing w; p_tick := p_tick w |}).
Definition pub_routing {A} (c : M R A) : M W A := fun w =>
  let '(a, r) := c (p_routing w) in
  (a, {| p_db := p_db w; p_store := p_store w; p_routing := r; p_tick := p_tick w |}).
(** The next value of a supply (clock readings, UUIDs). *)
Definition pub_next {A} (supply : nat -> A) : M W A := fun w =>
  (supply (p_tick w),
   {| p_db := p_db w; p_store := p_store w; p_routing := p_routing w; p_tick := S (p_tick w) |}).
End lift.

(** ** The table (database/sqlite/publication.go) *)

Module pubDB.
Section pubDB.
Context {D T R : Type} `{!PubTable D} `{!JsonCodec PublishRequest}.
Context (uuid_NewString : nat -> string) (now_RFC3339 : nat -> string).
Notation W := (PubWorld D T R).

Definition GetRequest (pub : Publication) : option PublishRequest :=
  match json_Unmarshal (RequestJSON pub) with Err _ => None | Ok request => Some request end.

Definition CreatePublication (request : PublishRequest) : M W (result string) :=
  match json_Marshal request with
  | Err err => ret (Err (Wrap "failed to marshal publish request: " err))
  | Ok requestJSON =>
      let! now := pub_next now_RFC3339 in
      let! id := pub_next uuid_NewString in
      let? _u := pub_db (tbl_Create {|
          GormID := 0; Pub_ID := id; RequestJSON := requestJSON;
          Pub_Status := PUBLICATION_STATUS_PENDING; CreatedTime := now; LastUpdateTime := now |})
        else err => ret (Err (Wrap "failed to create publication: " err)) in
      ret (Ok id)
  end.

Definition GetPublicationByID (publicationID : string) (d : D) : result Publication :=
  tbl_First publicationID d.

Definition GetPublications (offset limit : Z) (d : D) : result (list Publication) :=
  tbl_Find offset (if decide (limit > 0)%Z then Some limit else None) d.

Definition GetPublicationsByStatus (status : PublicationStatus) (d : D) : result (list Publication) :=
  tbl_FindByStatus status d.

Definition UpdatePublicationStatus (publicationID : string) (status : PublicationStatus)
  : M W (result unit) :=
  let? publication := pub_read (GetPublicationByID publicationID) else err => ret (Err err) in
  let! now := pub_next now_RFC3339 in
  let? _u := pub_db (tbl_Save {|
      GormID := GormID publication; Pub_ID := Pub_ID publication;
      RequestJSON := RequestJSON publication; Pub_Status := status;
      CreatedTime := CreatedTime publication; LastUpdateTime := now |})
    else err => ret (Err err) in
  ret (Ok tt).

Definition DeletePublication (publicationID : string) : M W (result unit) :=
  let? _u := pub_db (tbl_Delete (Row := Publication) publicationID) else err => ret (Err err) in ret (Ok tt).

End pubDB.
End pubDB.

(** ** The publication service (controller/publication.go) *)

Module publicationCtlr.
Section publicationCtlr.
Context {D T R S : Type} `{!PubTable D} `{!JsonCodec PublishRequest}.
Context (uuid_NewString : nat -> string) (now_RFC3339 : nat -> string).
Notation W := (PubWorld D T R).

Record ListPublicationsItem := {
  Item_PublicationId : string; Item_Status : PublicationStatus;
  Item_CreatedTime : string; Item_LastUpdateTime : string }.

Definition item_of (publication : Publication) : ListPublicationsItem := {|
  Item_PublicationId := Pub_ID publication; Item_Status := Pub_Status publication;
  Item_CreatedTime := CreatedTime publication; Item_LastUpdateTime := LastUpdateTime publication |}.

(** The first checks of [CreatePublication]. *)
Definition validate (req : option PublishRequest) : result PublishRequest :=
  match req with
  | None => Err (Status InvalidArgument "publish request cannot be nil")
  | Some req =>
      match GetRequest' req with
      | Some (PublishRequest_RecordRefs []) =>
          Err (Status InvalidArgument "record refs cannot be empty")
      | Some (PublishRequest_Queries []) => Err (Status InvalidArgument "queries cannot be empty")
      | Some _ => Ok req
      | None => Err (Status InvalidArgument
          "invalid publish request: must specify record_refs, queries, or all_records")
      end
  end.

Definition CreatePublication (req : option PublishRequest) : M W (result string) :=
  match validate req with
  | Err e => ret (Err e)
  | Ok req =>
      let? id := pubDB.CreatePublication uuid_NewString now_RFC3339 req
        else err => ret (Err (Wrap "failed to create publication: " err)) in
      ret (Ok id)
  end.

Definition send_item (Send : ListPublicationsItem -> M S (result unit)) (_u : unit)
    (publication : Publication) : M S (result unit) :=
  let? _v := Send (item_of publication)
    else err => ret (Err (Wrap "failed to send publication object: " err)) in
  ret (Ok tt).

Definition ListPublications (Send : ListPublicationsItem -> M S (result unit)) (d : D)
    (offset limit : Z) : M S (result unit) :=
  match pubDB.GetPublications offset limit d with
  | Err err => ret (Err (Wrap "failed to list publications: " err))
  | Ok publications => for_try (send_item Send) tt publications
  end.

Definition GetPublication (publicationId : string) (d : D) : result ListPublicationsItem :=
  if decide (publicationId = "") then
    Err (Status InvalidArgument "publication_id cannot be empty")
  else match pubDB.GetPublicationByID publicationId d with
  | Err err => Err (Wrap "failed to get publication by ID: " err)
  | Ok publicationObj => Ok (item_of publicationObj)
  end.

End publicationCtlr.
End publicationCtlr.

(** ** The worker (publication/worker.go) *)

Module Worker.
Section Worker.
Context {D T R : Type} `{!PubTable D} `{!sqlite.Gorm D} `{!StoreAPI T} `{!RoutingAPI R}
  `{!JsonCodec PublishRequest}.
Context (now_RFC3339 : nat -> string).
Notation W := (PubWorld D T R).

Definition getCIDsFromRequest (request : PublishRequest) (d : D) : result (list string) :=
  match GetRequest' request with
  | Some (PublishRequest_RecordRefs refs) => Ok (ref_Cid <$> refs)
  | Some (PublishRequest_Queries queries) =>
      match QueryToFilters queries with
      | Err err => Err (Wrap "failed to convert query to filter options: " err)
      | Ok filterOpts => sqlite.GetRecordCIDs (Some <$> filterOpts) d
      end
  | None => Err (Plain "unknown request type")
  end.

Definition announceToDHT (cid : string) : M W (result unit) :=
  let recordRef := Some {| ref_Cid := cid |} in
  let? record := pub_store (store_Pull recordRef)
    else err => ret (Err (Wrap "failed to pull record from store: " err)) in
  let? _u := pub_routing (routing_Publish recordRef (Some record))
    else err => ret (Err (Wrap "failed to publish record to DHT: " err)) in
  ret (Ok tt).

(** Failures to write the status are logged. *)
Definition markPublicationCompleted (publicationID : string) : M W unit :=
  do! pubDB.UpdatePublicationStatus now_RFC3339 publicationID PUBLICATION_STATUS_COMPLETED then ret tt.
Definition markPublicationFailed (publicationID : string) : M W unit :=
  do! pubDB.UpdatePublicationStatus now_RFC3339 publicationID PUBLICATION_STATUS_FAILED then ret tt.

Definition announce_one (successCount : nat) (cid : string) : M W nat :=
  let! r := announceToDHT cid in
  ret (match r with Err _ => successCount | Ok _ => S successCount end).

Definition processPublication (publicationID : string) : M W unit :=
  let? publicationObj := pub_read (pubDB.GetPublicationByID publicationID)
    else err => markPublicationFailed publicationID in
  match pubDB.GetRequest publicationObj with
  | None => markPublicationFailed publicationID
  | Some request =>
      let? cids := pub_read (getCIDsFromRequest request)
        else err => markPublicationFailed publicationID in
      match cids with
      | [] => markPublicationCompleted publicationID
      | _ =>
          let! successCount := for_acc announce_one 0%nat cids in
          if decide (successCount = length cids) then markPublicationCompleted publicationID
          else markPublicationFailed publicationID
      end
  end.

End Worker.
End Worker.

(** ** The scheduler (publication/scheduler.go) *)

Module Scheduler.
Section Scheduler.
Context {D T R : Type} `{!PubTable D}.
Context (now_RFC3339 : nat -> string).
Notation W := (PubWorld D T R).

(** The capacity of [workQueue] (publication/publication.go). *)
Definition workQueueSize : nat := 100.

(** The scheduler's world: the service's and the queue it sends to. *)
Definition dispatch (publication : Publication) : M (W * list string) unit := fun '(w, queue) =>
  if decide (length queue < workQueueSize)%nat then
    let '(_, w) := pubDB.UpdatePublicationStatus now_RFC3339 (Pub_ID publication)
                     PUBLICATION_STATUS_IN_PROGRESS w in
    (tt, (w, queue ++ [Pub_ID publication]))
  else (tt, (w, queue)).

Definition processPendingPublications : M (W * list string) unit := fun '(w, queue) =>
  match pubDB.GetPublicationsByStatus PUBLICATION_STATUS_PENDING (p_db w) with
  | Err _ => (tt, (w, queue))
  | Ok publications => for_each dispatch publications (w, queue)
  end.

End Scheduler.
End Scheduler.

(** ** One publication *)

Section publication.
Context {D T R : Type} `{!PubTable D} (rows : D -> list Publication) `{!TableSpec D rows}
  `{!sqlite.Gorm D} `{!StoreAPI T} `{!RoutingAPI R} `{!JsonCodec PublishRequest}.
Context (now : nat -> string).
Notation W := (PubWorld D T R).

Definition set_status (st : PublicationStatus) (t : string) (p : Publication) : Publication := {|
  GormID := GormID p; Pub_ID := Pub_ID p; RequestJSON := RequestJSON p; Pub_Status := st;
  CreatedTime := CreatedTime p; LastUpdateTime := t |}.

Definition update_rows (id : string) (st : PublicationStatus) (t : string)
  : list Publication -> list Publication := update_by id (set_status st t).

Lemma first_by_Pub_ID ps p :
  NoDup (Pub_ID <$> ps) -> p ∈ ps -> first_by_id (Pub_ID p) ps = Some p.
Proof. exact (first_by_id_elem ps p). Qed.

Lemma Update_run id st (w : W) :
  NoDup (Pub_ID <$> rows (p_db w)) ->
  if decide (id ∈ Pub_ID <$> rows (p_db w)) then
    exists d, pubDB.UpdatePublicationStatus now id st w
        = (Ok tt, {| p_db := d; p_store := p_store w; p_routing := p_routing w; p_tick := S (p_tick w) |})
      /\ rows d = update_rows id st (now (p_tick w)) (rows (p_db w))
  else pubDB.UpdatePublicationStatus now id st w = (Err sqlite.ErrRecordNotFound, w).
Proof.
  intros Hnd. unfold pubDB.UpdatePublicationStatus, pubDB.GetPublicationByID. case_decide as Hid.
  - destruct (first_by_id id (rows (p_db w))) as [p|] eqn:Hp; [|by apply first_by_id_None in Hp].
    erewrite try_bind_ok by (unfold pub_read; by rewrite (First_ok rows _ _ _ Hp)).
    unfold bind at 1, pub_next. simpl.
    destruct (Save_run rows (set_status st (now (p_tick w))) id p (p_db w)) as (d & Hs & Hr); [done..|].
    exists d. split; [|done]. unfold try_bind, bind, pub_db. simpl.
    change (tbl_Save _) with (tbl_Save (set_status st (now (p_tick w)) p)). by rewrite Hs.
  - erewrite try_bind_err; [done|]. unfold pub_read. by rewrite (First_absent rows).
Qed.

(** The announcements of a list of CIDs, as a function of store and router. *)
Definition announce (cid : string) (tr : T * R) : result unit * (T * R) :=
  let '(x, t) := store_Pull (Some {| ref_Cid := cid |}) tr.1 in
  match x with
  | Err e => (Err (Wrap "failed to pull record from store: " e), (t, tr.2))
  | Ok record =>
      let '(y, r) := routing_Publish (Some {| ref_Cid := cid |}) (Some record) tr.2 in
      (match y with Err e => Err (Wrap "failed to publish record to DHT: " e) | Ok _ => Ok tt end, (t, r))
  end.

Fixpoint announce_all (cids : list string) (tr : T * R) : list (result unit) * (T * R) :=
  match cids with
  | [] => ([], tr)
  | cid :: cids =>
      let '(x, tr) := announce cid tr in
      let '(xs, tr) := announce_all cids tr in (x :: xs, tr)
  end.

Definition successes (xs : list (result unit)) : nat := length (filter (fun x => is_ok x = true) xs).

Lemma announce_run cid (w : W) :
  Worker.announceToDHT cid w
  = ((announce cid (p_store w, p_routing w)).1,
     {| p_db := p_db w; p_store := (announce cid (p_store w, p_routing w)).2.1;
        p_routing := (announce cid (p_store w, p_routing w)).2.2; p_tick := p_tick w |}).
Proof.
  unfold Worker.announceToDHT, announce, try_bind, bind, pub_store, pub_routing. simpl.
  destruct (store_Pull _ _) as [[r|e] t]; simpl; [|done].
  by destruct (routing_Publish _ _ _) as [[[]|e] r'].
Qed.

Lemma announce_loop cids n (w : W) :
  for_acc Worker.announce_one n cids w
  = ((n + successes (announce_all cids (p_store w, p_routing w)).1)%nat,
     {| p_db := p_db w; p_store := (announce_all cids (p_store w, p_routing w)).2.1;
        p_routing := (announce_all cids (p_store w, p_routing w)).2.2; p_tick := p_tick w |}).
Proof.
  revert n w. induction cids as [|cid cids IH]; intros n w.
  { simpl. unfold successes. simpl. rewrite Nat.add_0_r. by destruct w. }
  cbn [for_acc announce_all].
  erewrite bind_run.
  2:{ unfold Worker.announce_one. erewrite bind_run by apply announce_run. done. }
  rewrite IH. simpl. destruct (announce cid _) as [x [t r]]. simpl.
  destruct (announce_all cids (t, r)) as [xs [t' r']]. simpl.
  f_equal. unfold successes. rewrite filter_cons. destruct x; simpl; lia.
Qed.

Lemma successes_le xs : (successes xs <= length xs)%nat.
Proof. unfold successes. apply length_filter. Qed.

Lemma announce_all_length cids tr : length (announce_all cids tr).1 = length cids.
Proof.
  revert tr. induction cids as [|c cids IH]; intros tr; [done|]. simpl.
  destruct (announce c tr) as [x tr1]. specialize (IH tr1).
  destruct (announce_all cids tr1). simpl in *. lia.
Qed.

Lemma successes_all xs : successes xs = length xs <-> forallb is_ok xs = true.
Proof.
  unfold successes. induction xs as [|x xs IH]; [done|]. rewrite filter_cons.
  pose proof (successes_le xs) as Hle. unfold successes in Hle.
  destruct x; simpl.
  - rewrite <- IH. lia.
  - split; [lia|done].
Qed.

(** What processing a publication announces. *)
Definition to_announce (id : string) (d : D) : option (list string) :=
  p ← first_by_id id (rows d);
  req ← pubDB.GetRequest p;
  match Worker.getCIDsFromRequest req d with Ok cids => Some cids | Err _ => None end.

Definition final_status (id : string) (w : W) : PublicationStatus :=
  match to_announce id (p_db w) with
  | Some cids => if forallb is_ok (announce_all cids (p_store w, p_routing w)).1
                 then PUBLICATION_STATUS_COMPLETED else PUBLICATION_STATUS_FAILED
  | None => PUBLICATION_STATUS_FAILED
  end.

Definition effects (id : string) (w : W) : T * R :=
  match to_announce id (p_db w) with
  | Some cids => (announce_all cids (p_store w, p_routing w)).2
  | None => (p_store w, p_routing w)
  end.

Lemma mark_run id st (w : W) (c : M W unit) :
  NoDup (Pub_ID <$> rows (p_db w)) ->
  c = bind (pubDB.UpdatePublicationStatus now id st) (fun _ => ret tt) ->
  exists w' t, c w = (tt, w') /\ p_store w' = p_store w /\ p_routing w' = p_routing w
    /\ (p_tick w <= p_tick w')%nat
    /\ rows (p_db w') = update_rows id st t (rows (p_db w)).
Proof.
  intros Hnd ->. pose proof (Update_run id st w Hnd) as Hu. case_decide as Hid.
  - destruct Hu as (d & Hu & Hr). rewrite (bind_run _ _ _ _ _ Hu). eexists _, _.
    split; [done|]. simpl. split; [done|]. split; [done|]. split; [lia|done].
  - rewrite (bind_run _ _ _ _ _ Hu). exists w, "". split; [done|]. repeat (split; [done|]).
    by rewrite <- (update_by_absent id (set_status st "") (rows (p_db w))) at 1.
Qed.

Lemma process_run id (w : W) :
  NoDup (Pub_ID <$> rows (p_db w)) ->
  exists w' t, Worker.processPublication now id w = (tt, w')
    /\ (p_store w', p_routing w') = effects id w /\ (p_tick w <= p_tick w')%nat
    /\ rows (p_db w') = update_rows id (final_status id w) t (rows (p_db w)).
Proof.
  intros Hnd. unfold Worker.processPublication, final_status, effects, to_announce.
  assert (Hfail : exists w' t, Worker.markPublicationFailed now id w = (tt, w')
    /\ (p_store w', p_routing w') = (p_store w, p_routing w) /\ (p_tick w <= p_tick w')%nat
    /\ rows (p_db w') = update_rows id PUBLICATION_STATUS_FAILED t (rows (p_db w))).
  { destruct (mark_run id PUBLICATION_STATUS_FAILED w _ Hnd eq_refl)
      as (w' & t & Hrun & Hs & Hr & Ht & Hrows).
    exists w', t. rewrite Hs, Hr. done. }
  pose proof (tbl_First_spec (rows := rows) id (p_db w)) as Hf.
  destruct (first_by_id id (rows (p_db w))) as [p|]; simpl.
  2:{ erewrite try_bind_err; [exact Hfail|]. unfold pub_read, pubDB.GetPublicationByID. by rewrite Hf. }
  erewrite try_bind_ok by (unfold pub_read, pubDB.GetPublicationByID; by rewrite Hf).
  destruct (pubDB.GetRequest p) as [req|]; simpl; [|exact Hfail].
  destruct (Worker.getCIDsFromRequest req (p_db w)) as [cids|e] eqn:Hc; simpl.
  2:{ erewrite try_bind_err; [exact Hfail|]. unfold pub_read. by rewrite Hc. }
  erewrite try_bind_ok by (unfold pub_read; by rewrite Hc).
  destruct cids as [|c cids].
  { destruct (mark_run id PUBLICATION_STATUS_COMPLETED w _ Hnd eq_refl)
      as (w' & t & Hrun & Hs & Hr & Ht & Hrows).
    exists w', t. rewrite Hs, Hr. done. }
  erewrite bind_run by apply announce_loop.
  pose proof (announce_all_length (c :: cids) (p_store w, p_routing w)) as Hlen.
  pose proof (successes_all (announce_all (c :: cids) (p_store w, p_routing w)).1) as Hall.
  rewrite Hlen in Hall. set (tr := announce_all (c :: cids) _) in *.
  set (w1 := {| p_db := _; p_store := tr.2.1; p_routing := _; p_tick := _ |}).
  case_decide as Hs.
  - rewrite (proj1 Hall Hs).
    destruct (mark_run id PUBLICATION_STATUS_COMPLETED w1 _ Hnd eq_refl)
      as (w' & t & Hrun & Hst & Hr & Ht & Hrows).
    exists w', t. rewrite Hst, Hr. unfold w1; simpl. by destruct tr.2.
  - destruct (forallb is_ok tr.1) eqn:Hok; [by destruct Hs; apply Hall|].
    destruct (mark_run id PUBLICATION_STATUS_FAILED w1 _ Hnd eq_refl)
      as (w' & t & Hrun & Hst & Hr & Ht & Hrows).
    exists w', t. rewrite Hst, Hr. unfold w1; simpl. by destruct tr.2.
Qed.

(** Processing a publication.  The worker resolves the request to CIDs,
    announces every one of them in order whatever becomes of the others, and
    sets the publication, and no other, to COMPLETED when all announcements
    succeeded (or there were none) and to FAILED otherwise; a request that does
    not decode or resolve is FAILED without any announcement. *)
Theorem processPublication_outcome id (w : W) :
  NoDup (Pub_ID <$> rows (p_db w)) ->
  exists w' t st, Worker.processPublication now id w = (tt, w')
    /\ rows (p_db w') = update_rows id st t (rows (p_db w))
    /\ match to_announce id (p_db w) with
       | None => st = PUBLICATION_STATUS_FAILED
           /\ p_store w' = p_store w /\ p_routing w' = p_routing w
       | Some cids =>
           let '(xs, tr) := announce_all cids (p_store w, p_routing w) in
           length xs = length cids /\ (p_store w', p_routing w') = tr
           /\ st = if decide (Forall (fun x => is_ok x = true) xs)
                   then PUBLICATION_STATUS_COMPLETED else PUBLICATION_STATUS_FAILED
       end.
Proof.
  intros Hnd. destruct (process_run id w Hnd) as (w' & t & Hrun & He & _ & Hr).
  exists w', t, (final_status id w). split; [done|]. split; [done|].
  unfold final_status, effects in *. destruct (to_announce id (p_db w)) as [cids|]; [|by simplify_eq].
  pose proof (announce_all_length cids (p_store w, p_routing w)) as Hlen.
  destruct (announce_all cids (p_store w, p_routing w)) as [xs tr]. simpl in *.
  split; [done|]. split; [done|]. case_decide as Hall.
  - assert (forallb is_ok xs = true) as ->; [|done]. apply forallb_forall.
    intros x Hx%list_elem_of_In. by eapply Forall_forall in Hall.
  - destruct (forallb is_ok xs) eqn:Hf; [|done]. destruct Hall.
    apply Forall_forall. intros x Hx%list_elem_of_In. eapply forallb_forall in Hf; done.
Qed.

(** The requests that the publication service takes. *)
Definition names_something (req : option PublishRequest) : bool :=
  match req with
  | Some {| GetRequest' := Some (PublishRequest_RecordRefs (_ :: _)) |}
  | Some {| GetRequest' := Some (PublishRequest_Queries (_ :: _)) |} => true
  | _ => false
  end.

Lemma validate_spec req :
  if names_something req then exists r, req = Some r /\ publicationCtlr.validate req = Ok r
  else exists e, publicationCtlr.validate req = Err e /\ err_code e = Some InvalidArgument.
Proof. destruct req as [[[[[]|[]]|]]|]; simpl; eauto. Qed.

Definition new_row (id b t : string) : Publication := {|
  GormID := 0; Pub_ID := id; RequestJSON := b; Pub_Status := PUBLICATION_STATUS_PENDING;
  CreatedTime := t; LastUpdateTime := t |}.

Lemma Create_run (uuid : nat -> string) r b (w : W) :
  json_Marshal r = Ok b ->
  exists d k, pubDB.CreatePublication uuid now r w
      = (Ok (uuid (S (p_tick w))),
         {| p_db := d; p_store := p_store w; p_routing := p_routing w; p_tick := S (S (p_tick w)) |})
    /\ rows d = rows (p_db w) ++ [with_key k (new_row (uuid (S (p_tick w))) b (now (p_tick w)))].
Proof.
  intros Hm. unfold pubDB.CreatePublication. rewrite Hm.
  set (p0 := new_row (uuid (S (p_tick w))) b (now (p_tick w))).
  destruct (tbl_Create_spec (rows := rows) p0 (p_db w)) as [Hc (k & Hr)].
  exists (tbl_Create p0 (p_db w)).2, k. split; [|done].
  cbv [bind try_bind pub_next pub_db]. simpl. fold (new_row (uuid (S (p_tick w))) b (now (p_tick w))).
  fold p0. destruct (tbl_Create p0 (p_db w)) as [x d]. simpl in *. by subst.
Qed.

(** Creating a publication.  A request that names no records and no queries
    is refused with InvalidArgument and changes nothing.  Any other one
    is stored as a new PENDING publication: it can be read back under the
    returned ID with its request, and the publications that were there stay. *)
Theorem CreatePublication_stored (uuid : nat -> string) (req_ok : PublishRequest -> Prop)
    `{!JsonCodecSpec PublishRequest req_ok} req (w : W) :
  (forall i, uuid i ∉ Pub_ID <$> rows (p_db w)) -> (forall i, uuid i <> "") ->
  (forall r, req = Some r -> req_ok r) ->
  (names_something req = false ->
    exists e, publicationCtlr.CreatePublication uuid now req w = (Err e, w)
      /\ err_code e = Some InvalidArgument) /\
  (names_something req = true ->
    exists id w' p, publicationCtlr.CreatePublication uuid now req w = (Ok id, w')
      /\ rows (p_db w') = rows (p_db w) ++ [p] /\ p_store w' = p_store w /\ p_routing w' = p_routing w
      /\ publicationCtlr.GetPublication id (p_db w') = Ok (publicationCtlr.item_of p)
      /\ Pub_ID p = id /\ Pub_Status p = PUBLICATION_STATUS_PENDING /\ pubDB.GetRequest p = req).
Proof.
  intros Hfresh Hne Hok. pose proof (validate_spec req) as Hv. unfold publicationCtlr.CreatePublication.
  destruct (names_something req); (split; intros [=]).
  - destruct Hv as (r & -> & Hv). rewrite Hv.
    destruct (json_roundtrip r (Hok r eq_refl)) as (b & Hm & Hu).
    destruct (Create_run uuid r b w Hm) as (d & k & Hrun & Hr).
    rewrite (try_bind_ok _ _ _ _ _ _ Hrun). eexists _, _, (with_key k (new_row _ b _)).
    split; [done|]. simpl. split; [exact Hr|]. split; [done|]. split; [done|].
    split; [|split; [done|split; [done|]]].
    + unfold publicationCtlr.GetPublication. rewrite decide_False by done.
      unfold pubDB.GetPublicationByID.
      rewrite (First_ok rows _ d (with_key k (new_row (uuid (S (p_tick w))) b (now (p_tick w)))));
        [done|].
      rewrite Hr. by apply first_by_id_snoc; [apply Hfresh|].
    + unfold pubDB.GetRequest. simpl. by rewrite Hu.
  - destruct Hv as (e & -> & He). eauto.
Qed.

End publication.

(** ** Scheduler and workers running concurrently

    The scheduler reads the pending publications at a tick, then for each one
    either sends it and afterwards sets its status, or skips it because the
    queue is full.  A worker takes a publication off the queue and later has
    processed it; what it does in between reads only the request of its
    publication, which never changes, and the status is written at the end, so
    the processing takes effect as one step.  [sy_sent] and [sy_done] log which
    publications were sent and processed. *)

Inductive SchedulerState :=
  | Idle
  | Dispatching (pending : list string)                 (** the rest of the tick *)
  | Marking (id : string) (pending : list string).      (** sent, status not yet set *)

Section system.
Context {D T R : Type} `{!PubTable D} (rows : D -> list Publication) `{!TableSpec D rows}
  `{!sqlite.Gorm D} `{!StoreAPI T} `{!RoutingAPI R}
  `{!JsonCodec PublishRequest}.
Context (uuid now : nat -> string) (uuid_inj : forall i j, uuid i = uuid j -> i = j).
Notation W := (PubWorld D T R).

Record PubSys := {
  sy_w : W; sy_queue : list string; sy_sched : SchedulerState; sy_busy : list string;
  sy_sent : list string; sy_done : list string }.

(** The steps of the scheduler within a tick and of the workers. *)
Inductive work_step : PubSys -> PubSys -> Prop :=
  | work_send w q id l b sent dn :
      (length q < Scheduler.workQueueSize)%nat ->
      work_step (Build_PubSys w q (Dispatching (id :: l)) b sent dn)
               (Build_PubSys w (q ++ [id]) (Marking id l) b (sent ++ [id]) dn)
  | work_skip w q id l b sent dn :
      ~ (length q < Scheduler.workQueueSize)%nat ->
      work_step (Build_PubSys w q (Dispatching (id :: l)) b sent dn)
               (Build_PubSys w q (Dispatching l) b sent dn)
  | work_mark w w' r q id l b sent dn :
      pubDB.UpdatePublicationStatus now id PUBLICATION_STATUS_IN_PROGRESS w = (r, w') ->
      work_step (Build_PubSys w q (Marking id l) b sent dn)
               (Build_PubSys w' q (Dispatching l) b sent dn)
  | work_rest w q b sent dn :
      work_step (Build_PubSys w q (Dispatching []) b sent dn) (Build_PubSys w q Idle b sent dn)
  | work_take w id q c b sent dn :
      work_step (Build_PubSys w (id :: q) c b sent dn) (Build_PubSys w q c (b ++ [id]) sent dn)
  | work_finish w w' q c b1 id b2 sent dn :
      Worker.processPublication now id w = (tt, w') ->
      work_step (Build_PubSys w q c (b1 ++ id :: b2) sent dn)
               (Build_PubSys w' q c (b1 ++ b2) sent (dn ++ [id])).

(** With the requests of clients and the ticker of the scheduler. *)
Inductive pub_step : PubSys -> PubSys -> Prop :=
  | step_create req r w w' q c b sent dn :
      pubDB.CreatePublication uuid now req w = (r, w') ->
      pub_step (Build_PubSys w q c b sent dn) (Build_PubSys w' q c b sent dn)
  | step_tick w q b sent dn ps :
      pubDB.GetPublicationsByStatus PUBLICATION_STATUS_PENDING (p_db w) = Ok ps ->
      pub_step (Build_PubSys w q Idle b sent dn)
               (Build_PubSys w q (Dispatching (Pub_ID <$> ps)) b sent dn)
  | step_work s s' : work_step s s' -> pub_step s s'.

(** A service with an empty table. *)
Definition initial (s : PubSys) : Prop :=
  rows (p_db (sy_w s)) = [] /\ sy_queue s = [] /\ sy_sched s = Idle /\ sy_busy s = []
  /\ sy_sent s = [] /\ sy_done s = [].

Definition reachable (s : PubSys) : Prop := exists s0, initial s0 /\ rtc pub_step s0 s.

Definition ids (s : PubSys) : list string := Pub_ID <$> rows (p_db (sy_w s)).

Record pub_inv (s : PubSys) : Prop := {
  pi_ids : NoDup (ids s);
  pi_drawn id : id ∈ ids s -> exists i, (i < p_tick (sy_w s))%nat /\ id = uuid i;
  pi_perm : sy_sent s ≡ₚ sy_queue s ++ sy_busy s ++ sy_done s;
  pi_nodup : NoDup (sy_sent s);
  pi_known id : id ∈ sy_sent s -> id ∈ ids s;
  pi_cap : (length (sy_queue s) <= Scheduler.workQueueSize)%nat;
  pi_pending p : p ∈ rows (p_db (sy_w s)) -> Pub_Status p = PUBLICATION_STATUS_PENDING ->
    Pub_ID p ∈ sy_sent s -> exists l, sy_sched s = Marking (Pub_ID p) l;
  pi_sched : match sy_sched s with
    | Idle => True
    | Dispatching l => NoDup l /\ forall id, id ∈ l -> id ∈ ids s /\ id ∉ sy_sent s
    | Marking i l => i ∈ sy_sent s /\ NoDup l /\ forall id, id ∈ l -> id ∈ ids s /\ id ∉ sy_sent s
    end }.

Lemma update_rows_ids id st t ps : Pub_ID <$> update_rows id st t ps = Pub_ID <$> ps.
Proof. exact (ids_update (set_status st t) (fun _ => eq_refl) id ps). Qed.

Lemma update_rows_elem id st t ps p : p ∈ update_rows id st t ps ->
  (Pub_ID p = id /\ Pub_Status p = st) \/ (p ∈ ps /\ Pub_ID p <> id).
Proof. intros [(q & _ & Hq & ->)|?]%elem_update; [by left|by right]. Qed.

(** A status update, as scheduler and workers make it, keeps the invariant when
    it takes the publication out of PENDING. *)
Lemma inv_update s id st t w' c' b' dn' :
  pub_inv s -> st <> PUBLICATION_STATUS_PENDING ->
  rows (p_db w') = update_rows id st t (rows (p_db (sy_w s))) -> (p_tick (sy_w s) <= p_tick w')%nat ->
  sy_busy s ++ sy_done s ≡ₚ b' ++ dn' ->
  (c' = sy_sched s \/ exists l, sy_sched s = Marking id l /\ c' = Dispatching l) ->
  pub_inv (Build_PubSys w' (sy_queue s) c' b' (sy_sent s) dn').
Proof.
  intros [Hids Hdr Hp Hnd Hk Hc Hpe Hs] Hst Hr Ht Hb Hsched.
  assert (Hids' : ids (Build_PubSys w' (sy_queue s) c' b' (sy_sent s) dn') = ids s).
  { unfold ids. simpl. by rewrite Hr, update_rows_ids. }
  split; rewrite ?Hids'; simpl; try done.
  - intros i Hi. destruct (Hdr i Hi) as (n & Hn & ->). exists n. split; [lia|done].
  - by rewrite Hp, Hb.
  - intros p. rewrite Hr. intros Hin Hpp Hsent. apply update_rows_elem in Hin as [[_ ?]|[Hin Hne]]; [congruence|].
    destruct (Hpe p Hin Hpp Hsent) as [l Hl]. destruct Hsched as [->|(l' & Hl' & ->)]; [eauto|congruence].
  - destruct Hsched as [->|(l & Hl & ->)]; [done|]. rewrite Hl in Hs. tauto.
Qed.

Lemma inv_create s req r w' :
  pub_inv s -> pubDB.CreatePublication uuid now req (sy_w s) = (r, w') ->
  pub_inv (Build_PubSys w' (sy_queue s) (sy_sched s) (sy_busy s) (sy_sent s) (sy_done s))
  /\ exists l, rows (p_db w') = rows (p_db (sy_w s)) ++ l /\ forall p, p ∈ l -> Pub_ID p ∉ ids s.
Proof.
  intros Hinv Hrun. destruct (json_Marshal req) as [b|e] eqn:Hm.
  2:{ unfold pubDB.CreatePublication in Hrun. rewrite Hm in Hrun. injection Hrun as <- <-.
      split; [by destruct s|]. exists []. rewrite app_nil_r. split; [done|]. by intros p ?%elem_of_nil. }
  destruct (Create_run rows now uuid req b (sy_w s) Hm) as (d & k & Hrun' & Hr).
  rewrite Hrun in Hrun'. injection Hrun' as -> ->.
  destruct Hinv as [Hids Hdr Hp Hnd Hk Hc Hpe Hs].
  assert (Hnew : uuid (S (p_tick (sy_w s))) ∉ ids s).
  { intros Hin. destruct (Hdr _ Hin) as (i & Hi & He). apply uuid_inj in He. lia. }
  split.
  2:{ exists [with_key k (new_row (uuid (S (p_tick (sy_w s)))) b (now (p_tick (sy_w s))))].
      split; [done|]. intros p ->%list_elem_of_singleton. done. }
  match goal with |- pub_inv ?x => set (s' := x) end.
  assert (Hids' : ids s' = ids s ++ [uuid (S (p_tick (sy_w s)))]).
  { unfold ids, s'. simpl. by rewrite Hr, fmap_app. }
  split; rewrite ?Hids'; unfold s'; simpl; try done.
  - apply NoDup_app. split; [done|]. split; [|apply NoDup_singleton].
    intros x Hx ->%list_elem_of_singleton. done.
  - intros x [Hin| ->%list_elem_of_singleton]%elem_of_app.
    + destruct (Hdr x Hin) as (i & Hi & ->). exists i. split; [lia|done].
    + eexists. split; [|done]. lia.
  - intros id Hin. apply elem_of_app. auto.
  - intros p. rewrite Hr. intros [Hin| ->%list_elem_of_singleton]%elem_of_app; [by apply Hpe|].
    simpl. intros _ Hsent%Hk. done.
  - destruct (sy_sched s); [done|..].
    + destruct Hs as [? Hs]. split; [done|]. intros x Hin. destruct (Hs x Hin). set_solver.
    + destruct Hs as (? & ? & Hs). split; [done|]. split; [done|].
      intros x Hin. destruct (Hs x Hin). set_solver.
Qed.

Lemma step_inv s s' : pub_inv s -> pub_step s s' -> pub_inv s'.
Proof.
  intros Hinv Hstep. destruct Hstep as
    [req r w w' q c b sent dn Hrun|w q b sent dn ps Hps|s s'
    [w q id l b sent dn Hlen|w q id l b sent dn Hlen
    |w w' r q id l b sent dn Hrun|w q b sent dn|w id q c b sent dn|w w' q c b1 id b2 sent dn Hrun]].
  - by apply (inv_create (Build_PubSys w q c b sent dn) req r w').
  - destruct Hinv as [Hids Hdr Hp Hnd Hk Hc Hpe Hs]. simpl in *. split; try done; simpl.
    { intros p Hin Hst Hsent. destruct (Hpe p Hin Hst Hsent) as [l' [=]]. }
    unfold pubDB.GetPublicationsByStatus in Hps. rewrite (tbl_FindByStatus_spec (rows := rows)) in Hps.
    injection Hps as <-. split.
    + apply NoDup_fmap_filter, Hids.
    + intros id (p & -> & [Hst Hin]%list_elem_of_filter)%list_elem_of_fmap.
      split; [by apply list_elem_of_fmap_2|]. intros Hsent.
      destruct (Hpe p Hin Hst Hsent) as [l [=]].
  - destruct Hinv as [Hids Hdr Hp Hnd Hk Hc Hpe Hs]. simpl in *.
    destruct Hs as [[Hnl Hl]%NoDup_cons Hs].
    destruct (Hs id) as [Hin Hns]; [by left|].
    split; try done; simpl.
    + rewrite Hp, <- !app_assoc. apply Permutation_app_head. rewrite app_assoc. apply Permutation_app_comm.
    + apply NoDup_app. split; [done|]. split; [|apply NoDup_singleton].
      intros x Hx ->%list_elem_of_singleton. done.
    + intros x [Hx| ->%list_elem_of_singleton]%elem_of_app; auto.
    + rewrite length_app. simpl. lia.
    + intros p Hpin Hst [Hx|Hx%list_elem_of_singleton]%elem_of_app.
      * destruct (Hpe p Hpin Hst Hx) as [l' [=]].
      * exists l. by rewrite Hx.
    + split; [set_solver|]. split; [done|]. intros x Hx. destruct (Hs x) as [? Hxs]; [by right|].
      split; [done|]. intros [?| ->%list_elem_of_singleton]%elem_of_app; done.
  - destruct Hinv as [Hids Hdr Hp Hnd Hk Hc Hpe Hs]. simpl in *. split; try done; simpl.
    + intros p Hin Hst Hsent. destruct (Hpe p Hin Hst Hsent) as [l' [=]].
    + destruct Hs as [[_ Hl]%NoDup_cons Hs]. split; [done|]. intros x Hx. apply Hs. by right.
  - pose proof (Update_run rows now id PUBLICATION_STATUS_IN_PROGRESS w (pi_ids _ Hinv)) as Hu.
    assert (Hid : id ∈ Pub_ID <$> rows (p_db w)).
    { apply (pi_known _ Hinv). apply (pi_sched _ Hinv). }
    rewrite decide_True in Hu by done. destruct Hu as (d & Hu & Hr). rewrite Hrun in Hu.
    injection Hu as -> ->.
    eapply (inv_update (Build_PubSys w q (Marking id l) b sent dn) id PUBLICATION_STATUS_IN_PROGRESS);
      simpl; eauto; done.
  - destruct Hinv as [Hids Hdr Hp Hnd Hk Hc Hpe Hs]. simpl in *. split; try done; simpl.
    intros p Hin Hst Hsent. destruct (Hpe p Hin Hst Hsent) as [l' [=]].
  - destruct Hinv as [Hids Hdr Hp Hnd Hk Hc Hpe Hs]. simpl in *. split; try done; simpl; [|lia].
    rewrite Hp, <- (app_assoc b). simpl. by rewrite (app_assoc q b (id :: dn)), <- Permutation_middle, <- app_assoc.
  - destruct (process_run rows now id w (pi_ids _ Hinv)) as (w1 & t & Hrun' & _ & Ht & Hr).
    rewrite Hrun in Hrun'. injection Hrun' as <-.
    eapply (inv_update (Build_PubSys w q c (b1 ++ id :: b2) sent dn) id); simpl; eauto.
    + unfold final_status. repeat case_match; done.
    + rewrite <- !app_assoc. simpl. apply Permutation_app_head.
      by rewrite (app_assoc b2 dn [id]), (Permutation_app_comm (b2 ++ dn) [id]).
Qed.

Lemma reachable_inv s : reachable s -> pub_inv s.
Proof.
  intros (s0 & (Hr & Hq & Hc & Hb & Hs & Hd) & Hsteps).
  assert (H0 : pub_inv s0).
  { destruct s0. simpl in *. subst. split; unfold ids; simpl; rewrite ?Hr; simpl; try done;
      try constructor; try lia; by intros ? ?%elem_of_nil. }
  clear Hr Hq Hc Hb Hs Hd. induction Hsteps as [|s0 s1 s2 Hstep _ IH]; [done|].
  by apply IH, (step_inv s0).
Qed.

(** C21. Every publication is dispatched at most once.  In every reachable state
    of scheduler, queue, workers and clients, no publication was sent twice; the
    publications sent are those in the queue, being processed or processed, each
    once; the queue holds at most 100; and a publication that was sent is no
    longer PENDING, unless the scheduler is just about to set its status. *)
Theorem dispatched_once s :
  reachable s ->
  NoDup (sy_sent s) /\ sy_sent s ≡ₚ sy_queue s ++ sy_busy s ++ sy_done s
  /\ (length (sy_queue s) <= Scheduler.workQueueSize)%nat
  /\ (forall id, id ∈ sy_sent s -> exists p, first_by_id id (rows (p_db (sy_w s))) = Some p
        /\ (Pub_Status p = PUBLICATION_STATUS_PENDING -> exists l, sy_sched s = Marking id l)).
Proof.
  intros Hinv%reachable_inv. pose proof Hinv as [Hids _ Hp Hnd Hk Hc Hpe _].
  split; [done|]. split; [done|]. split; [done|]. intros id Hid.
  pose proof (Hk id Hid) as Hin. apply list_elem_of_fmap in Hin as (p & -> & Hin).
  exists p. split; [by apply first_by_Pub_ID|]. auto.
Qed.

(** A publication that was processed and whose status is set. *)
Definition settled (id : string) (s : PubSys) : Prop :=
  id ∈ sy_done s /\ forall l, sy_sched s <> Marking id l.

Lemma first_by_id_other id id' st t ps :
  id' <> id -> first_by_id id (update_rows id' st t ps) = first_by_id id ps.
Proof.
  intros Hne. unfold update_rows. by rewrite first_by_id_update, decide_False.
Qed.

Lemma settled_step id s s' :
  pub_inv s -> settled id s -> pub_step s s' ->
  settled id s' /\ first_by_id id (rows (p_db (sy_w s'))) = first_by_id id (rows (p_db (sy_w s))).
Proof.
  intros Hinv [Hd Hm] Hstep.
  assert (Hsent : id ∈ sy_sent s).
  { rewrite (pi_perm _ Hinv). apply elem_of_app. right. apply elem_of_app. by right. }
  assert (Hrow : exists p, first_by_id id (rows (p_db (sy_w s))) = Some p).
  { pose proof (pi_known _ Hinv id Hsent) as Hin. apply list_elem_of_fmap in Hin as (p & -> & Hin).
    exists p. apply first_by_Pub_ID; [apply (pi_ids _ Hinv)|done]. }
  destruct Hstep as
    [req r w w' q c b sent dn Hrun|w q b sent dn ps Hps|s s'
    [w q i l b sent dn Hlen|w q i l b sent dn Hlen
    |w w' r q i l b sent dn Hrun|w q b sent dn|w i q c b sent dn|w w' q c b1 i b2 sent dn Hrun]];
    simpl in *.
  - destruct (inv_create _ _ _ _ Hinv Hrun) as [_ (l & Hr & _)]. simpl in Hr.
    split; [done|]. by rewrite Hr, first_by_id_app.
  - split; [|done]. by split.
  - split; [|done]. split; [done|]. simpl. intros l' [= -> ->].
    destruct (proj2 (pi_sched _ Hinv) id) as [_ Hns]; [by left|done].
  - split; [|done]. by split.
  - split; [by split|]. pose proof (Update_run rows now i PUBLICATION_STATUS_IN_PROGRESS w (pi_ids _ Hinv)) as Hu.
    assert (Hne : i <> id) by (intros ->; by destruct (Hm l)).
    case_decide; [destruct Hu as (d & Hu & Hr)|]; rewrite Hrun in Hu; injection Hu as -> ->; [|done].
    simpl. by rewrite Hr, first_by_id_other.
  - split; [|done]. by split.
  - split; [|done]. by split.
  - assert (Hne : i <> id).
    { intros ->. pose proof (pi_nodup _ Hinv) as Hnd. rewrite (pi_perm _ Hinv) in Hnd. simpl in Hnd.
      apply NoDup_app in Hnd as (_ & _ & Hnd). apply NoDup_app in Hnd as (_ & Hdis & _).
      apply (Hdis id); [set_solver|done]. }
    split; [split; [set_solver|done]|].
    destruct (process_run rows now i w (pi_ids _ Hinv)) as (w1 & t & Hrun' & _ & _ & Hr).
    rewrite Hrun in Hrun'. injection Hrun' as <-. by rewrite Hr, first_by_id_other.
Qed.

Lemma settled_keeps id s s' :
  reachable s -> settled id s -> rtc pub_step s s' ->
  first_by_id id (rows (p_db (sy_w s'))) = first_by_id id (rows (p_db (sy_w s))).
Proof.
  intros Hinv%reachable_inv Hs Hsteps. induction Hsteps as [|s0 s1 s2 Hstep _ IH]; [done|].
  destruct (settled_step id s0 s1 Hinv Hs Hstep) as [Hs1 <-]. apply IH; [|done].
  by apply (step_inv s0).
Qed.

(** A processed publication is never touched again.  Once a worker has
    processed a publication and the scheduler is not about to set its status, its
    row stays as it is in every later state. *)
Theorem settled_is_final id s s' :
  reachable s -> settled id s -> rtc pub_step s s' ->
  first_by_id id (rows (p_db (sy_w s'))) = first_by_id id (rows (p_db (sy_w s))).
Proof. apply settled_keeps. Qed.

(** The scheduler can undo a worker's verdict.  The scheduler sends a
    publication before it sets its status; when a worker has processed it by
    then, the status becomes IN_PROGRESS and stays IN_PROGRESS for ever, whatever
    the worker found. *)
Theorem verdict_lost id l s s1 s2 :
  reachable s -> sy_sched s = Marking id l -> id ∈ sy_done s ->
  pub_step s s1 -> sy_sched s1 = Dispatching l -> rtc pub_step s1 s2 ->
  exists p, first_by_id id (rows (p_db (sy_w s2))) = Some p
    /\ Pub_Status p = PUBLICATION_STATUS_IN_PROGRESS.
Proof.
  intros Hreach Hm Hd Hstep Hc Hsteps. pose proof (reachable_inv s Hreach) as Hinv.
  assert (Hreach1 : reachable s1).
  { destruct Hreach as (s0 & H0 & Hs0). exists s0. split; [done|]. by eapply rtc_r. }
  rewrite (settled_keeps id s1 s2); [|done| |done].
  - destruct Hstep as [| |? ? []]; simpl in *; simplify_eq.
    match goal with H : pubDB.UpdatePublicationStatus _ _ _ _ = _ |- _ => rename H into Hrun end.
    pose proof (Update_run rows now id PUBLICATION_STATUS_IN_PROGRESS w (pi_ids _ Hinv)) as Hu.
    assert (Hin : id ∈ Pub_ID <$> rows (p_db w)) by apply (pi_known _ Hinv), (pi_sched _ Hinv).
    rewrite decide_True in Hu by done. destruct Hu as (d & Hu & Hr).
    rewrite Hrun in Hu. injection Hu as -> ->. simpl. rewrite Hr.
    apply list_elem_of_fmap in Hin as (p & -> & Hp).
    exists (set_status PUBLICATION_STATUS_IN_PROGRESS (now (p_tick w)) p). split; [|done].
    apply (first_by_Pub_ID (update_rows (Pub_ID p) PUBLICATION_STATUS_IN_PROGRESS (now (p_tick w))
      (rows (p_db w))) (set_status PUBLICATION_STATUS_IN_PROGRESS (now (p_tick w)) p)).
    + rewrite update_rows_ids. apply (pi_ids _ Hinv).
    + unfold update_rows. apply list_elem_of_fmap. exists p. by rewrite decide_True.
  - split; [|by rewrite Hc]. by destruct Hstep as [| |? ? []]; simpl in *; simplify_eq.
Qed.

(** *** Progress *)

(** The steps left to scheduler and workers; no run of them is longer. *)
Definition work_left (s : PubSys) : nat :=
  match sy_sched s with
  | Idle => 0
  | Dispatching l => 5 * length l + 1
  | Marking _ l => 5 * length l + 2
  end + 2 * length (sy_queue s) + length (sy_busy s).

Lemma work_decreases s s' : work_step s s' -> (work_left s' < work_left s)%nat.
Proof.
  unfold work_left. intros []; simpl; rewrite ?length_app; simpl; try lia.
Qed.

(** Wherever nothing is left to do, scheduler, queue and workers are at rest. *)
Lemma work_left_step s :
  (exists s', work_step s s') \/ (sy_sched s = Idle /\ sy_queue s = [] /\ sy_busy s = []).
Proof.
  destruct s as [w q c b sent dn]. simpl. destruct c as [|[|i l]|i l].
  - destruct q as [|i q]; [|left; eexists; apply work_take]. destruct b as [|i b]; [by right|left].
    destruct (Worker.processPublication now i w) as [[] w'] eqn:Hrun.
    eexists. by apply (work_finish w w' [] Idle [] i b).
  - left. eexists. apply work_rest.
  - left. destruct (decide (length q < Scheduler.workQueueSize)%nat); eexists; [by apply work_send|by apply work_skip].
  - left. destruct (pubDB.UpdatePublicationStatus now i PUBLICATION_STATUS_IN_PROGRESS w) as [r w'] eqn:Hrun.
    eexists. by eapply work_mark.
Qed.

(** On its way to the workers: sent, or yet to be sent to a queue with room. *)
Definition on_its_way (id : string) (s : PubSys) : Prop :=
  id ∈ sy_sent s \/
  match sy_sched s with
  | Idle => False
  | Dispatching l | Marking _ l =>
      id ∈ l /\ (length (sy_queue s) + length l <= Scheduler.workQueueSize)%nat
  end.

Lemma on_its_way_step id s s' : on_its_way id s -> work_step s s' -> on_its_way id s'.
Proof.
  unfold on_its_way. intros Hw Hstep. destruct Hstep; simpl in *;
    (destruct Hw as [Hw|Hw]; [left; set_solver|]); try done.
  - destruct Hw as [[->|Hin]%elem_of_cons Hlen]; [left; set_solver|right].
    rewrite length_app. simpl. split; [done|lia].
  - destruct Hw as [Hin Hlen]. lia.
  - by right.
  - destruct Hw as [?%elem_of_nil _]. done.
  - right. destruct c; [done|..]; destruct Hw; (split; [done|lia]).
  - by right.
Qed.


(** The steps of the scheduler, taken without interruption, are what
    [processPendingPublications] does. *)
Lemma dispatch_steps ps w q b sent dn :
  exists sent', rtc pub_step (Build_PubSys w q (Dispatching (Pub_ID <$> ps)) b sent dn)
    (Build_PubSys (for_each (Scheduler.dispatch now) ps (w, q)).2.1
       (for_each (Scheduler.dispatch now) ps (w, q)).2.2 Idle b sent' dn).
Proof.
  revert w q sent. induction ps as [|p ps IH]; intros w q sent.
  { exists sent. simpl. apply rtc_once, step_work, work_rest. }
  simpl. unfold bind, Scheduler.dispatch at 1 3. case_decide as Hlen.
  - destruct (pubDB.UpdatePublicationStatus now (Pub_ID p) PUBLICATION_STATUS_IN_PROGRESS w)
      as [r w1] eqn:Hu.
    destruct (IH w1 (q ++ [Pub_ID p]) (sent ++ [Pub_ID p])) as (sent' & Hs). exists sent'.
    eapply rtc_l; [by apply step_work, work_send|]. eapply rtc_l; [by eapply step_work, work_mark|]. done.
  - destruct (IH w q sent) as (sent' & Hs). exists sent'.
    eapply rtc_l; [by apply step_work, work_skip|]. done.
Qed.

(** A tick of the scheduler is a run of the system.  Whatever the state of
    the queue, [processPendingPublications] is one of the runs of the scheduler's
    steps: the one in which no other step comes between. *)
Theorem tick_is_a_run w q b sent dn :
  exists sent', rtc pub_step (Build_PubSys w q Idle b sent dn)
    (Build_PubSys (Scheduler.processPendingPublications now (w, q)).2.1
       (Scheduler.processPendingPublications now (w, q)).2.2 Idle b sent' dn).
Proof.
  unfold Scheduler.processPendingPublications.
  destruct (pubDB.GetPublicationsByStatus PUBLICATION_STATUS_PENDING (p_db w)) as [ps|e] eqn:Hps.
  - destruct (dispatch_steps ps w q b sent dn) as (sent' & Hs). exists sent'.
    eapply rtc_l; [by apply step_tick|done].
  - exists sent. done.
Qed.

End system.

(** ** An executable instance *)

Module DemoPublication.
Import DemoCore DemoSearch.
Definition DB : Type := ListTable.T (Row := Publication) * Tables.

Definition rows (d : DB) : list Publication := ListTable.rows d.1.

#[local] Instance pub_table : PubTable DB := ListTable.part_table fst (fun t d => (t, d.2)).

#[local] Instance pub_table_spec : TableSpec DB rows.
Proof. by apply ListTable.part_spec. Qed.

(** The search index beside it. *)
#[local] Instance db_gorm : sqlite.Gorm DB := {|
  sqlite.gorm_First c d := sqlite.gorm_First c d.2;
  sqlite.gorm_Create r := fun d => let '(x, t) := sqlite.gorm_Create r d.2 in (x, (d.1, t));
  sqlite.gorm_Pluck q d := sqlite.gorm_Pluck q d.2;
  sqlite.gorm_Find q d := sqlite.gorm_Find q d.2;
  sqlite.gorm_Delete c := fun d => let '(x, t) := sqlite.gorm_Delete c d.2 in (x, (d.1, t));
|}.

#[local] Instance one_store : StoreAPI unit := {|
  store_Push _ := fun t => (Err (Plain "read only"), t);
  store_Pull ref := fun t =>
    (if bool_decide (ref_GetCid ref = "c1") then Ok {| GetData := None |}
     else Err (Status NotFound "record not found"), t);
  store_Lookup _ := fun t => (Err (Status NotFound "record not found"), t);
  store_Delete _ := fun t => (Ok tt, t);
|}.

(** A router that remembers what it published. *)
#[local] Instance log_router : RoutingAPI (list string) := {|
  routing_Publish ref _ := fun r => (Ok tt, r ++ [ref_GetCid ref]); |}.

Definition refs_request (c : string) : PublishRequest :=
  {| GetRequest' := Some (PublishRequest_RecordRefs [{| ref_Cid := c |}]) |}.

Definition req_ok (r : PublishRequest) : Prop := exists c, r = refs_request c.

#[local] Instance req_codec : JsonCodec PublishRequest := {|
  json_Marshal r := match GetRequest' r with
    | Some (PublishRequest_RecordRefs [ref]) => Ok (ref_Cid ref) | _ => Err (Plain "unsupported") end;
  json_Unmarshal s := Ok (refs_request s);
|}.

#[local] Instance req_codec_spec : JsonCodecSpec PublishRequest req_ok.
Proof. split. intros a [c ->]. by exists c. Qed.

Fixpoint uuid (n : nat) : string := match n with O => "u" | S n => String "x" (uuid n) end.

Lemma uuid_inj i j : uuid i = uuid j -> i = j.
Proof. revert j. induction i as [|i IH]; intros [|j]; simpl; intros; simplify_eq; auto. Qed.

Definition now (n : nat) : string := "t".

Notation World := (PubWorld DB unit (list string)).

Definition w0 : World := {|
  p_db := (ListTable.empty, DemoSearch.empty); p_store := tt; p_routing := []; p_tick := 0 |}.

(** The world after a publication for a record was created, and after it was processed. *)
Definition w1 (c : string) : World := (pubDB.CreatePublication uuid now (refs_request c) w0).2.
Definition w2 (c : string) : World := (Worker.processPublication now "xu" (w1 c)).2.

Lemma processPublication_outcome_witness :
  exists w' t, Worker.processPublication now "xu" (w1 "c1") = (tt, w')
    /\ rows (p_db w') = update_rows "xu" PUBLICATION_STATUS_COMPLETED t (rows (p_db (w1 "c1")))
    /\ p_routing w' = ["c1"].
Proof.
  destruct (processPublication_outcome rows now "xu" (w1 "c1")) as (w' & t & st & H1 & H2 & H3).
  { apply (bool_decide_unpack _). vm_compute. exact I. }
  exists w', t. split; [exact H1|].
  assert (E : to_announce rows "xu" (p_db (w1 "c1")) = Some ["c1"]) by (vm_compute; reflexivity).
  rewrite E in H3.
  destruct (announce_all ["c1"] (p_store (w1 "c1"), p_routing (w1 "c1"))) as [xs tr] eqn:Ea.
  vm_compute in Ea. injection Ea as <- <-. destruct H3 as (_ & He & Hst). vm_compute in Hst. subst st.
  split; [exact H2|]. injection He as _ He. exact He.
Defined.

Lemma CreatePublication_stored_witness :
  (exists e, publicationCtlr.CreatePublication uuid now None w0 = (Err e, w0)
     /\ err_code e = Some InvalidArgument) /\
  exists id w' p, publicationCtlr.CreatePublication uuid now (Some (refs_request "c1")) w0 = (Ok id, w')
    /\ publicationCtlr.GetPublication id (p_db w') = Ok (publicationCtlr.item_of p)
    /\ Pub_Status p = PUBLICATION_STATUS_PENDING /\ pubDB.GetRequest p = Some (refs_request "c1").
Proof.
  assert (Hf : forall i, uuid i ∉ Pub_ID <$> rows (p_db w0)) by (intros i; apply not_elem_of_nil).
  assert (Hn : forall i, uuid i <> "") by (intros [|i]; discriminate).
  split.
  - refine (proj1 (CreatePublication_stored rows now uuid req_ok None w0 Hf Hn _) eq_refl). discriminate.
  - destruct (CreatePublication_stored rows now uuid req_ok (Some (refs_request "c1")) w0 Hf Hn) as [_ H].
    + intros r Hr. injection Hr as <-. exists "c1". reflexivity.
    + destruct (H eq_refl) as (id & w' & p & H1 & _ & _ & _ & H5 & _ & H7 & H8).
      exists id, w', p. split; [exact H1|]. split; [exact H5|]. split; [exact H7|exact H8].
Defined.

(** A run in which the worker is faster than the scheduler. *)
Definition s_sent (c : string) : PubSys :=
  Build_PubSys (w1 c) ["xu"] (Marking "xu" []) [] ["xu"] [].
Definition s_done (c : string) : PubSys :=
  Build_PubSys (w2 c) [] (Marking "xu" []) [] ["xu"] ["xu"].
Definition s_marked (c : string) : PubSys :=
  Build_PubSys (pubDB.UpdatePublicationStatus now "xu" PUBLICATION_STATUS_IN_PROGRESS (w2 c)).2
    [] (Dispatching []) [] ["xu"] ["xu"].

Lemma s_sent_reachable c : reachable rows uuid now (s_sent c).
Proof.
  exists (Build_PubSys w0 [] Idle [] [] []). split; [done|].
  eapply rtc_l; [apply (step_create uuid now (refs_request c) (pubDB.CreatePublication uuid now (refs_request c) w0).1 w0 (w1 c)), surjective_pairing|].
  eapply rtc_l; [apply step_tick; reflexivity|].
  eapply rtc_l; [|apply rtc_refl].
  apply step_work, (work_send now (w1 c) [] "xu" []). unfold Scheduler.workQueueSize. simpl. lia.
Qed.

Lemma done_after_sent c : rtc (pub_step uuid now) (s_sent c) (s_done c).
Proof.
  eapply rtc_l; [apply step_work, work_take|].
  eapply rtc_l; [apply step_work, (work_finish now (w1 c) (w2 c) [] (Marking "xu" []) [] "xu" [])|apply rtc_refl].
  unfold w2. by destruct (Worker.processPublication now "xu" (w1 c)) as [[] w].
Qed.

Lemma s_done_reachable c : reachable rows uuid now (s_done c).
Proof.
  destruct (s_sent_reachable c) as (s0 & H0 & Hs). exists s0. split; [done|].
  etrans; [exact Hs|apply done_after_sent].
Qed.

Lemma dispatched_once_witness :
  NoDup (sy_sent (s_sent "c1")) /\ sy_sent (s_sent "c1") ≡ₚ ["xu"].
Proof.
  destruct (dispatched_once rows uuid now uuid_inj (s_sent "c1") (s_sent_reachable "c1")) as (H1 & H2 & _).
  split; [exact H1|exact H2].
Defined.

Lemma mark_step c : pub_step uuid now (s_done c) (s_marked c).
Proof. apply step_work, (work_mark now (w2 c) _ (pubDB.UpdatePublicationStatus now "xu" PUBLICATION_STATUS_IN_PROGRESS (w2 c)).1), surjective_pairing. Qed.

(** All announcements succeeded, the worker set COMPLETED, and the publication
    stays IN_PROGRESS. *)
Lemma verdict_lost_witness :
  (exists p, first_by_id "xu" (rows (p_db (w2 "c1"))) = Some p
     /\ Pub_Status p = PUBLICATION_STATUS_COMPLETED) /\
  exists p, first_by_id "xu" (rows (p_db (sy_w (s_marked "c1")))) = Some p
    /\ Pub_Status p = PUBLICATION_STATUS_IN_PROGRESS.
Proof.
  split; [eexists; split; vm_compute; reflexivity|].
  apply (verdict_lost rows uuid now uuid_inj "xu" [] (s_done "c1") (s_marked "c1") (s_marked "c1")).
  - apply s_done_reachable.
  - reflexivity.
  - left.
  - apply mark_step.
  - reflexivity.
  - apply rtc_refl.
Defined.

Lemma settled_is_final_witness :
  first_by_id "xu" (rows (p_db (sy_w (Build_PubSys (sy_w (s_marked "c1")) [] Idle [] ["xu"] ["xu"]))))
  = first_by_id "xu" (rows (p_db (sy_w (s_marked "c1")))).
Proof.
  apply (settled_is_final rows uuid now uuid_inj "xu" (s_marked "c1")).
  - destruct (s_done_reachable "c1") as (s0 & H0 & Hs). exists s0. split; [exact H0|].
    eapply rtc_r; [exact Hs|apply mark_step].
  - split; [left|]. intros l Hl. discriminate Hl.
  - apply rtc_once, step_work, work_rest.
Defined.

(** The publication just created is found by the next tick. *)
Definition s_created : PubSys := Build_PubSys (w1 "c1") [] Idle [] [] [].


End DemoPublication.
