(* ===== verification/RoutingService.v ===== *)
(** * The routing service

    server/controller/routing.go, and the router as the publication workers use
    it: the file connects the parts.  A publication is created by a request,
    processed by a worker, and published by the router; a record is unpublished
    by a request directly. *)

From S2P Require Import Prelude GoStrings Interfaces Adapters CoreRecord Validators LabelKey Metrics RoutingWorld RoutingLocal RoutingLocalSpec RoutingRemote RoutingRemoteSpec Routing StoreCache Search Publication Tables.

Open Scope string_scope.
Open Scope list_scope.
Open Scope go_scope.

Arguments GetCid : simpl never.
Arguments getLabels : simpl never.

(** ** The handlers *)

Module routingCtlr.

(** Publishing creates a publication. *)
Section publish.
Context {D T R : Type} `{!PubTable D} `{!JsonCodec PublishRequest}.
Context (uuid_NewString now_RFC3339 : nat -> string).

Definition Publish (req : PublishRequest) : M (PubWorld D T R) (result unit) :=
  let? _publicationID := pubDB.CreatePublication uuid_NewString now_RFC3339 req
    else err => ret (Err (internal "failed to create publication: " err)) in
  ret (Ok tt).
End publish.

Section list.
Context {D N T S : Type} `{!Datastore D} `{!JsonCodec LabelMetadata} `{!JsonCodec Metrics}.
Context (localPeerID : string) (Send : ListResponse -> M S (result unit)).

Definition send_response (_u : unit) (item : ListResponse) : M S (result unit) :=
  let? _v := Send item else err => ret (Err (internal "failed to send list response: " err)) in
  ret (Ok tt).

Definition List (d : D) (queries : list RecordQuery) (limit : Z) : M S (result unit) :=
  match route.List localPeerID d queries limit with
  | Err err => ret (Err (rewrap "failed to list: " err))
  | Ok items => for_try send_response tt items
  end.
End list.

Section unpublish.
Context {D N T : Type} `{!Datastore D} `{!StoreAPI T} `{!JsonCodec LabelMetadata} `{!JsonCodec Metrics}.
Context (localPeerID : string).
Notation W := (World D N T).

Inductive UnpublishRequest_Request :=
  | UnpublishRequest_RecordRefs (refs : list (option RecordRef))
  | UnpublishRequest_Queries (queries : list RecordQuery).

Definition getRecord (ref : option RecordRef) : M W (result CoreRecord) :=
  if decide (ref = None \/ ref_GetCid ref = "") then
    ret (Err (Status InvalidArgument "object reference is required and must have a CID"))
  else
    let? _meta := on_store (store_Lookup ref)
      else err => ret (Err (rewrap "failed to lookup object: " err)) in
    let? record := on_store (store_Pull ref)
      else err => ret (Err (rewrap "failed to pull object: " err)) in
    ret (Ok record).

Definition unpublish_ref (_u : unit) (ref : option RecordRef) : M W (result unit) :=
  let? record := getRecord ref
    else err => ret (Err (rewrap "failed to get record: " err)) in
  let? _v := route.Unpublish localPeerID ref (Some record)
    else err => ret (Err (rewrap "failed to unpublish: " err)) in
  ret (Ok tt).

Definition Unpublish (req : option UnpublishRequest_Request) : M W (result unit) :=
  match req with
  | Some (UnpublishRequest_RecordRefs refs) => for_try unpublish_ref tt refs
  | _ => ret (Err (Status InvalidArgument "unpublish request must specify record_refs"))
  end.
End unpublish.

End routingCtlr.

(** ** The router behind the publication workers *)

Definition router_api {D N T : Type} `{!Datastore D} `{!CidLib} `{!Network N} `{!StoreAPI T}
    `{!JsonCodec LabelMetadata} `{!JsonCodec Metrics} (clock : nat -> Time) (me : string)
    (has_remote : bool) : RoutingAPI (World D N T) :=
  {| routing_Publish := route.Publish clock me has_remote |}.

(** ** From a publication to the published records *)

Section publishing.
Context {DB D N T U : Type} `{!PubTable DB} (rows : DB -> list Publication) `{!TableSpec DB rows}
  `{!sqlite.Gorm DB} `{!JsonCodec PublishRequest}.
Context `{HashLib} `{!OasfJson} `{Hst : !StoreAPI T} {inv : T -> Prop} {obs : T -> Observable}
  {known_cid : string -> Prop} {record_ok : CoreRecord -> Prop} {meta_ok : RecordMeta -> Prop}
  `{Hsrc : !StoreSpec T inv obs known_cid record_ok meta_ok} `{Hu : !StoreAPI U}.
Context `{Hd : !Datastore D} {view : D -> gmap string string} {bops : Batch -> list BatchOp}
  `{!DatastoreSpec D view bops} `{!Network N} `{!JsonCodec LabelMetadata} `{!JsonCodec Metrics}.
Context {md_ok : LabelMetadata -> Prop} `{!JsonCodecSpec LabelMetadata md_ok}
  {text_ok : string -> Prop}
  `{!JsonCodecSpec Metrics (fun m => forall l, l ∈ dom (Data m) -> text_ok l)}.
Context (now : nat -> string) (clock : nat -> Time)
  (clock_ok : forall i, md_ok {| Timestamp := clock i; LastSeen := clock (S i) |}).
Context (me : string) (me_good : good_elem me = true) (has_remote : bool).
Context (puts_log : N -> list (string * string))
  (log_put : forall k v n, puts_log (dht_PutValue k v n).2 = puts_log n ++ [(k, v)]).
Notation Router := (World D N U).
#[local] Instance router : RoutingAPI Router := router_api clock me has_remote.

Lemma announce_router P c r (tr : T * Router) :
  inv tr.1 -> (obs tr.1).1 !! c = Some r ->
  rep (text_ok := text_ok) me P (view (w_ds tr.2)) ->
  call_ok (text_ok := text_ok) P (CallPublish c r) ->
  exists x t w', announce c tr = (x, (t, w')) /\ inv t /\ obs t = obs tr.1
    /\ rep (text_ok := text_ok) me (spec_call P (CallPublish c r)) (view (w_ds w'))
    /\ (route.hasPeersInRoutingTable has_remote (w_net tr.2) = false ->
        x = Ok tt /\ w_net w' = w_net tr.2).
Proof.
  destruct tr as [t w]. simpl. intros Hi Hr Hrep (Hc & Hls & Hb). unfold announce. simpl.
  destruct (obs_content _ _ _ Hi Hr) as (_ & Hcok & _).
  pose proof (run_op_allowed t (OpPull c) Hi Hcok) as [Ha Hi']. simpl in Ha, Hi'. unfold bind in Ha, Hi'.
  destruct (store_Pull (Some {| ref_Cid := c |}) t) as [y t']. simpl in Ha, Hi'.
  destruct Ha as [Ha Ho]. unfold answers in Ha. rewrite Hr in Ha. subst y.
  destruct (route_publish_local clock clock_ok me me_good has_remote puts_log log_put P c r w Hrep Hc Hls Hb)
    as (res & w' & Hrun & Hrep' & _ & Hno). rewrite Hrun.
  eexists _, t', w'. split; [done|]. split; [done|]. split; [done|]. split; [done|].
  intros Hp. destruct (Hno Hp) as [-> ?]. done.
Qed.

Lemma announce_all_router cs rs P (tr : T * Router) :
  inv tr.1 -> Forall2 (fun c r => (obs tr.1).1 !! c = Some r) cs rs ->
  rep (text_ok := text_ok) me P (view (w_ds tr.2)) ->
  calls_ok (text_ok := text_ok) P (zip_with CallPublish cs rs) ->
  exists xs t w', announce_all cs tr = (xs, (t, w')) /\ obs t = obs tr.1
    /\ rep (text_ok := text_ok) me (foldl spec_call P (zip_with CallPublish cs rs)) (view (w_ds w'))
    /\ (route.hasPeersInRoutingTable has_remote (w_net tr.2) = false ->
        Forall (fun x => is_ok x = true) xs).
Proof.
  intros Hi Hall. revert P tr Hi Hall. revert rs.
  induction cs as [|c cs IH]; intros rs P tr Hi Hall Hrep Hok.
  { inversion Hall; subst. destruct tr as [t w]. by exists [], t, w. }
  inversion Hall as [|? r ? rs' Hr Hall']; subst. simpl in Hok. destruct Hok as [Hc Hok].
  destruct (announce_router P c r tr Hi Hr Hrep Hc) as (x & t & w & Hrun & Hi' & Ho & Hrep' & Hno).
  destruct (IH rs' (spec_call P (CallPublish c r)) (t, w)) as (xs & t' & w' & Hruns & Ho' & Hrep'' & Hnos);
    simpl; [done|by rewrite Ho|done|done|].
  exists (x :: xs), t', w'. simpl. rewrite Hrun, Hruns. split; [done|].
  simpl in Ho'. split; [by rewrite Ho', Ho|]. split; [done|].
  intros Hp. destruct (Hno Hp) as [-> Hn]. constructor; [done|]. apply Hnos. simpl. by rewrite Hn.
Qed.

(** C22. A publication reaches the router.  When a worker processes a publication
    whose request resolves to CIDs the store has records for, every one of these
    records is published at the local router afterwards, with its labels and its
    counts, even when announcing it to the network fails; with no peers the
    publication becomes COMPLETED. *)
Theorem publication_reaches_router id cs rs P (w : PubWorld DB T Router) :
  NoDup (Pub_ID <$> rows (p_db w)) -> to_announce rows id (p_db w) = Some cs ->
  inv (p_store w) -> Forall2 (fun c r => (obs (p_store w)).1 !! c = Some r) cs rs ->
  rep (text_ok := text_ok) me P (view (w_ds (p_routing w))) ->
  calls_ok (text_ok := text_ok) P (zip_with CallPublish cs rs) ->
  exists w' st t, Worker.processPublication now id w = (tt, w')
    /\ rows (p_db w') = update_rows id st t (rows (p_db w))
    /\ rep (text_ok := text_ok) me (foldl spec_call P (zip_with CallPublish cs rs))
         (view (w_ds (p_routing w')))
    /\ (route.hasPeersInRoutingTable has_remote (w_net (p_routing w)) = false ->
        st = PUBLICATION_STATUS_COMPLETED).
Proof.
  intros Hnd Hcs Hi Hall Hrep Hok.
  destruct (process_run rows now id w Hnd) as (w' & t & Hrun & He & _ & Hr).
  exists w', (final_status rows id w), t. split; [done|]. split; [done|].
  unfold effects, final_status in *. rewrite Hcs in *.
  destruct (announce_all_router cs rs P (p_store w, p_routing w) Hi Hall Hrep Hok)
    as (xs & t' & r' & Hruns & _ & Hrep' & Hno).
  rewrite Hruns in *. simpl in *. injection He as _ ->. split; [done|].
  intros Hp. assert (forallb is_ok xs = true) as ->; [|done].
  apply forallb_forall. intros x Hx%list_elem_of_In. specialize (Hno Hp). by eapply Forall_forall in Hno.
Qed.

End publishing.

(** ** Unpublishing *)

Section unpublishing.
Context {D N T : Type} `{HashLib} `{!OasfJson} `{Hst : !StoreAPI T} {inv : T -> Prop} {obs : T -> Observable}
  {known_cid : string -> Prop} {record_ok : CoreRecord -> Prop} {meta_ok : RecordMeta -> Prop}
  `{Hsrc : !StoreSpec T inv obs known_cid record_ok meta_ok}.
Context `{Hd : !Datastore D} {view : D -> gmap string string} {bops : Batch -> list BatchOp}
  `{!DatastoreSpec D view bops} `{!JsonCodec LabelMetadata} `{!JsonCodec Metrics}.
Context {text_ok : string -> Prop}
  `{!JsonCodecSpec Metrics (fun m => forall l, l ∈ dom (Data m) -> text_ok l)}.
Context (me : string) (me_good : good_elem me = true).
Notation W := (World D N T).

(** Looking a reference up and pulling it. *)
Lemma getRecord_run c (w : W) :
  inv (w_store w) -> known_cid c ->
  exists x t, routingCtlr.getRecord (Some {| ref_Cid := c |}) w
      = (x, {| w_ds := w_ds w; w_net := w_net w; w_store := t; w_tick := w_tick w |})
    /\ inv t /\ obs t = obs (w_store w)
    /\ match x with
       | Ok r => (obs (w_store w)).1 !! c = Some r
       | Err _ => (obs (w_store w)).1 !! c = None \/ (obs (w_store w)).2 !! c = None
       end.
Proof.
  intros Hi Hc. unfold routingCtlr.getRecord.
  rewrite decide_False by (intros [|Heq]; [done|]; apply known_cid_good in Hc; simpl in Heq; by subst).
  pose proof (run_op_allowed (w_store w) (OpLookup c) Hi Hc) as [Ha Hi1]. simpl in Ha, Hi1.
  unfold bind in Ha, Hi1.
  unfold try_bind at 1, bind at 1, on_store at 1.
  destruct (store_Lookup (Some {| ref_Cid := c |}) (w_store w)) as [m t1]. simpl in Ha, Hi1.
  destruct Ha as [Ha1 Ho1]. destruct m as [m|e].
  2:{ eexists _, t1. split; [done|]. split; [done|]. split; [done|]. right. unfold answers in Ha1.
      by destruct ((obs (w_store w)).2 !! c). }
  pose proof (run_op_allowed t1 (OpPull c) Hi1 Hc) as [Ha Hi2]. simpl in Ha, Hi2. unfold bind in Ha, Hi2.
  unfold try_bind, bind, on_store. simpl.
  destruct (store_Pull (Some {| ref_Cid := c |}) t1) as [r t2]. simpl in Ha, Hi2.
  destruct Ha as [Ha2 Ho2]. rewrite Ho1 in *.
  exists (match r with Ok r => Ok r | Err e => Err (rewrap "failed to pull object: " e) end), t2.
  split; [by destruct r|]. split; [done|]. split; [done|].
  unfold answers in Ha2. destruct r as [r|e], ((obs (w_store w)).1 !! c); simplify_eq/=; auto.
Qed.

(** Unpublishing a list of records.  The handler works through the references
    in order; the records of a prefix of them are no longer published, everything
    else is.  It succeeds when it has worked through all of them, and otherwise
    has stopped at a reference without a record or metadata in the store. *)
Theorem Unpublish_prefix cs P (w : W) :
  inv (w_store w) -> rep (text_ok := text_ok) me P (view (w_ds w)) ->
  NoDup cs -> Forall known_cid cs ->
  (forall c r, c ∈ cs -> (obs (w_store w)).1 !! c = Some r -> P !! c = Some (getLabels (Some r))) ->
  exists n res w', routingCtlr.Unpublish me
      (Some (routingCtlr.UnpublishRequest_RecordRefs ((fun c => Some {| ref_Cid := c |}) <$> cs))) w = (res, w')
    /\ rep (text_ok := text_ok) me (foldl (fun P c => delete c P) P (take n cs)) (view (w_ds w'))
    /\ ((n = length cs /\ res = Ok tt) \/
        exists c, cs !! n = Some c /\ is_ok res = false
          /\ ((obs (w_store w)).1 !! c = None \/ (obs (w_store w)).2 !! c = None)).
Proof.
  simpl. revert P w. induction cs as [|c cs IH]; intros P w Hi Hrep Hnd Hg HP.
  { exists 0%nat, (Ok tt), w. split; [done|]. split; [done|]. by left. }
  apply NoDup_cons in Hnd as [Hnc Hnd]. apply Forall_cons in Hg as [Hc Hg].
  destruct (getRecord_run c w Hi Hc) as (x & t & Hget & Hi' & Ho & Hx).
  destruct x as [r|e].
  2:{ eexists 0%nat, (Err _),
        {| w_ds := w_ds w; w_net := w_net w; w_store := t; w_tick := w_tick w |}.
      split; [|split; [exact Hrep|]].
      - cbn [fmap list_fmap for_try]. erewrite bind_run;
          [|unfold routingCtlr.unpublish_ref; by rewrite (try_bind_err _ _ _ _ _ _ Hget)].
        reflexivity.
      - right. exists c. done. }
  set (w1 := {| w_ds := w_ds w; w_net := w_net w; w_store := t; w_tick := w_tick w |}) in *.
  assert (HPc : P !! c = Some (getLabels (Some r))) by (apply HP; [left|done]).
  destruct (Unpublish_step me me_good P w1 c r Hrep HPc) as (w2 & Hrun & Hrep2).
  assert (Hone : routingCtlr.unpublish_ref me tt (Some {| ref_Cid := c |}) w = (Ok tt, w2)).
  { unfold routingCtlr.unpublish_ref. rewrite (try_bind_ok _ _ _ _ _ _ Hget).
    unfold route.Unpublish. unfold try_bind at 1. erewrite bind_run; [|by rewrite (try_bind_ok _ _ _ _ _ _ Hrun)].
    reflexivity. }
  assert (Hst2 : w_store w2 = t).
  { destruct (rep_good _ _ _ Hrep _ _ HPc) as [Hg' Hls].
    destruct (Unpublish_run me me_good P w1 c r Hrep Hg' Hls) as (w2' & ? & ? & Hrun2 & _ & Hst2 & _).
    rewrite Hrun in Hrun2. by injection Hrun2 as <-. }
  destruct (IH (delete c P) w2) as (n & res & w' & Hruns & Hrep' & Hend); try done.
  { by rewrite Hst2. }
  { intros c' r' Hin Hr'. rewrite Hst2, Ho in Hr'. rewrite lookup_delete_ne by (intros ->; done).
    apply HP; [by right|done]. }
  exists (S n), res, w'. split; [|split; [exact Hrep'|]].
  - cbn [fmap list_fmap for_try]. rewrite (bind_run _ _ _ _ _ Hone). exact Hruns.
  - rewrite Hst2, Ho in Hend. destruct Hend as [[-> ->]|?]; [by left|by right].
Qed.

End unpublishing.

(** ** Witnesses *)

Module DemoService.
Import MapDatastore DemoCore DemoLocal DemoRemote DemoPublication.

Definition qa : CoreRecord := demo_record "nlp/qa".
Definition qa_id : string := GetCid (Some qa).
Definition qa_meta : RecordMeta :=
  {| Meta_Cid := qa_id; Meta_Annotations := ∅; Meta_SchemaVersion := "v0.5.0"; Meta_CreatedAt := "" |}.

(** A read-only store with one record. *)
#[local] Instance read_only : StoreAPI bool := {|
  store_Push _ := fun t => (Err (Plain "read only"), t);
  store_Pull ref := fun t =>
    (if bool_decide (ref_GetCid ref = qa_id) then Ok qa else Err (Status NotFound "record not found"), t);
  store_Lookup ref := fun t =>
    (if bool_decide (ref_GetCid ref = qa_id) then Ok qa_meta else Err (Status NotFound "record not found"), t);
  store_Delete _ := fun t => (Err (Plain "read only"), t);
|}.

Definition read_only_obs (_t : bool) : Observable := ({[ qa_id := qa ]}, {[ qa_id := qa_meta ]}).

#[local] Instance read_only_spec :
  StoreSpec bool (fun _ => True) read_only_obs any_cid (fun _ => True) (fun _ => True).
Proof.
  split.
  - done.
  - intros t c r _ Hc. simpl in Hc. apply lookup_singleton_Some in Hc as [<- <-].
    split; [reflexivity|]. split; [reflexivity|done].
  - intros t c m _ Hc. simpl in Hc. apply lookup_singleton_Some in Hc as [<- <-].
    split; [reflexivity|]. split; [reflexivity|done].
  - intros t op _ _. split; [|done]. destruct op as [r|c|c|c]; simpl; [done| | |done].
    all: split; [|done]; destruct (decide (c = qa_id)) as [->|Hne];
      [by rewrite bool_decide_true, lookup_singleton_eq
      |by rewrite bool_decide_false, lookup_singleton_ne by done].
Qed.

#[local] Existing Instances pub_table pub_table_spec db_gorm req_codec req_codec_spec.

(** The router before anything is published. *)
Definition router0 : RoutingWorld.World (gmap string string) Net unit :=
  {| w_ds := ∅; w_net := []; w_store := tt; w_tick := 0 |}.

(** A publication for the record was created. *)
Definition pub0 : PubWorld DB bool (RoutingWorld.World (gmap string string) Net unit) :=
  {| p_db := p_db (w1 qa_id); p_store := true; p_routing := router0; p_tick := 2 |}.

Lemma publication_reaches_router_witness :
  exists w' t, Worker.processPublication (RoutingAPI0 := router clock "me" false) now "xu" pub0 = (tt, w')
    /\ rows (p_db w') = update_rows "xu" PUBLICATION_STATUS_COMPLETED t (rows (p_db pub0))
    /\ rep (text_ok := fun _ => True) "me" (spec_publish qa_id (getLabels (Some qa)) ∅)
         (view (w_ds (p_routing w'))).
Proof.
  destruct (publication_reaches_router rows now clock (fun _ => I) "me" eq_refl false net_log net_log_put
    "xu" [qa_id] [qa] ∅ pub0) as (w' & st & t & H1 & H2 & H3 & H4).
  - apply (bool_decide_unpack _). vm_compute. exact I.
  - vm_compute. reflexivity.
  - exact I.
  - repeat constructor.
  - apply rep_empty; reflexivity.
  - split; [|exact I]. apply demo_publish_ok; [reflexivity|reflexivity|vm_compute; discriminate].
  - exists w', t. rewrite (H4 eq_refl) in H2. split; [exact H1|]. split; [exact H2|exact H3].
Defined.

(** The record is published. *)
Definition router1 : RoutingWorld.World (gmap string string) Net bool :=
  {| w_ds := w_ds (run_call "me" clock (CallPublish qa_id qa) demo_world).2;
     w_net := []; w_store := true; w_tick := 2 |}.

Lemma router1_rep :
  rep (text_ok := fun _ => True) "me" (spec_publish qa_id (getLabels (Some qa)) ∅) (view (w_ds router1)).
Proof.
  destruct (Publish_step (text_ok := fun _ => True) "me" eq_refl clock (fun _ => I) ∅ demo_world
    qa_id qa) as (w' & Hrun & Hrep).
  - by apply rep_empty.
  - done.
  - by apply demo_labels_ok.
  - intros l. apply demo_bound. by vm_compute.
  - unfold router1, run_call. simpl. by rewrite Hrun.
Qed.

Lemma Unpublish_prefix_witness :
  exists n res w', routingCtlr.Unpublish "me"
      (Some (routingCtlr.UnpublishRequest_RecordRefs [Some {| ref_Cid := qa_id |}])) router1 = (res, w')
    /\ rep (text_ok := fun _ => True) "me"
         (foldl (fun P c => delete c P) (spec_publish qa_id (getLabels (Some qa)) ∅) (take n [qa_id]))
         (view (w_ds w'))
    /\ n = 1%nat /\ res = Ok tt.
Proof.
  destruct (Unpublish_prefix "me" eq_refl [qa_id] (spec_publish qa_id (getLabels (Some qa)) ∅) router1)
    as (n & res & w' & H1 & H2 & H3).
  - exact I.
  - exact router1_rep.
  - apply NoDup_singleton.
  - repeat constructor.
  - intros c r Hc Hr. apply list_elem_of_singleton in Hc. subst c. simpl in Hr.
    rewrite lookup_singleton_eq in Hr. injection Hr as <-. reflexivity.
  - exists n, res, w'. split; [exact H1|]. split; [exact H2|].
    destruct H3 as [[Hn Hr]|(c & Hc & _ & Ho)]; [by split|].
    destruct n as [|n]; [|discriminate Hc]. injection Hc as <-. exfalso.
    simpl in Ho. rewrite !lookup_singleton_eq in Ho. by destruct Ho.
Defined.

End DemoService.
