(* ===== verification/Sync.v ===== *)
(** * Synchronisation with other directories

    database/sqlite/sync.go (Module [syncDB]), controller/sync.go ([syncCtlr]),
    sync/worker.go ([SyncWorker]; its edits of the zot configuration are in
    ZotConfig) and sync/scheduler.go ([SyncScheduler]): a client asks for a
    remote directory to be mirrored; the scheduler hands pending creations and
    deletions to workers; a worker has zot mirror the registry of the remote
    directory and the monitor index what arrives. *)

From S2P Require Import Prelude GoStrings GoUrl Interfaces ZotConfig Search Tables.

Open Scope string_scope.
Open Scope list_scope.
Open Scope go_scope.

(** ** Data (api/store/v1, database/sqlite/sync.go, sync/types) *)

Inductive SyncStatus :=
  | SYNC_STATUS_UNSPECIFIED
  | SYNC_STATUS_PENDING
  | SYNC_STATUS_IN_PROGRESS
  | SYNC_STATUS_FAILED
  | SYNC_STATUS_DELETE_PENDING
  | SYNC_STATUS_DELETED.

#[export] Instance SyncStatus_eq_dec : EqDecision SyncStatus.
Proof. solve_decision. Defined.

(** GORM keeps the columns CreatedAt and UpdatedAt; no code reads them. *)
Record Sync := {
  Sync_GormID : nat; Sync_ID : string; RemoteDirectoryURL : string; RemoteRegistryURL : string;
  Sync_Status : SyncStatus }.

#[export] Instance sync_row : TableRow Sync SyncStatus := {
  row_key := Sync_GormID; row_id := Sync_ID; row_status := Sync_Status;
  with_key k p := {| Sync_GormID := k; Sync_ID := Sync_ID p;
    RemoteDirectoryURL := RemoteDirectoryURL p; RemoteRegistryURL := RemoteRegistryURL p;
    Sync_Status := Sync_Status p |};
  row_key_with _ _ := eq_refl }.

(** The table of synchronisations. *)
Notation SyncTable D := (Table D Sync SyncStatus).

Definition WorkItemTypeSyncCreate : string := "sync-create".
Definition WorkItemTypeSyncDelete : string := "sync-delete".
Record WorkItem := { Type_ : string; SyncID : string; Item_RemoteDirectoryURL : string }.

Record RequestRegistryCredentialsResponse := {
  Success : bool; ErrorMessage : string; RemoteRegistryUrl : string }.

(** The gRPC client of a remote directory's sync service. *)
Class SyncClient (N C : Type) := {
  grpc_NewClient : string -> M N (result C);
  client_RequestRegistryCredentials : C -> string -> M N (result RequestRegistryCredentialsResponse);
}.

(** The registry monitor as the worker uses it (sync/monitor). *)
Class MonitorAPI (Mo : Type) := {
  mon_StartSyncMonitoring : string -> M Mo (result unit);
  mon_StopSyncMonitoring : string -> M Mo (result unit);
}.

(** What the service works on; every new UUID advances [s_tick]. *)
Record SyncWorld (D F Mo N : Type) := {
  s_db : D; s_files : F; s_monitor : Mo; s_net : N; s_tick : nat }.
Arguments s_db {_ _ _ _}. Arguments s_files {_ _ _ _}. Arguments s_monitor {_ _ _ _}.
Arguments s_net {_ _ _ _}. Arguments s_tick {_ _ _ _}.

Section lift.
Context {D F Mo N : Type}.
Notation W := (SyncWorld D F Mo N).

Definition sync_read {A} (f : D -> A) : M W A := fun w => (f (s_db w), w).
Definition sync_db {A} (c : M D A) : M W A := fun w =>
  let '(a, d) := c (s_db w) in
  (a, {| s_db := d; s_files := s_files w; s_monitor := s_monitor w; s_net := s_net w; s_tick := s_tick w |}).
Definition on_files {A} (c : M F A) : M W A := fun w =>
  let '(a, f) := c (s_files w) in
  (a, {| s_db := s_db w; s_files := f; s_monitor := s_monitor w; s_net := s_net w; s_tick := s_tick w |}).
Definition on_monitor {A} (c : M Mo A) : M W A := fun w =>
  let '(a, m) := c (s_monitor w) in
  (a, {| s_db := s_db w; s_files := s_files w; s_monitor := m; s_net := s_net w; s_tick := s_tick w |}).
Definition sync_net {A} (c : M N A) : M W A := fun w =>
  let '(a, n) := c (s_net w) in
  (a, {| s_db := s_db w; s_files := s_files w; s_monitor := s_monitor w; s_net := n; s_tick := s_tick w |}).
Definition sync_next {A} (supply : nat -> A) : M W A := fun w =>
  (supply (s_tick w), {| s_db := s_db w; s_files := s_files w; s_monitor := s_monitor w;
                         s_net := s_net w; s_tick := S (s_tick w) |}).
End lift.

(** ** The table (database/sqlite/sync.go) *)

Module syncDB.
Section syncDB.
Context {D F Mo N : Type} `{!SyncTable D}.
Context (uuid_NewString : nat -> string).
Notation W := (SyncWorld D F Mo N).

Definition CreateSync (remoteURL : string) : M W (result string) :=
  let! id := sync_next uuid_NewString in
  let? _u := sync_db (tbl_Create {|
      Sync_GormID := 0; Sync_ID := id; RemoteDirectoryURL := remoteURL; RemoteRegistryURL := "";
      Sync_Status := SYNC_STATUS_PENDING |})
    else err => ret (Err err) in
  ret (Ok id).

Definition GetSyncByID (syncID : string) (d : D) : result Sync := tbl_First syncID d.

Definition GetSyncs (offset limit : Z) (d : D) : result (list Sync) :=
  tbl_Find offset (if decide (limit > 0)%Z then Some limit else None) d.

Definition GetSyncsByStatus (status : SyncStatus) (d : D) : result (list Sync) :=
  tbl_FindByStatus status d.

Definition UpdateSyncStatus (syncID : string) (status : SyncStatus) : M W (result unit) :=
  let? sync := sync_read (GetSyncByID syncID) else err => ret (Err err) in
  let? _u := sync_db (tbl_Save {|
      Sync_GormID := Sync_GormID sync; Sync_ID := Sync_ID sync;
      RemoteDirectoryURL := RemoteDirectoryURL sync; RemoteRegistryURL := RemoteRegistryURL sync;
      Sync_Status := status |})
    else err => ret (Err err) in
  ret (Ok tt).

Definition UpdateSyncRemoteRegistry (syncID remoteRegistry : string) : M W (result unit) :=
  let? sync := sync_read (GetSyncByID syncID) else err => ret (Err err) in
  let? _u := sync_db (tbl_Save {|
      Sync_GormID := Sync_GormID sync; Sync_ID := Sync_ID sync;
      RemoteDirectoryURL := RemoteDirectoryURL sync; RemoteRegistryURL := remoteRegistry;
      Sync_Status := Sync_Status sync |})
    else err => ret (Err err) in
  ret (Ok tt).

Definition GetSyncRemoteRegistry (syncID : string) (d : D) : result string :=
  match GetSyncByID syncID d with
  | Err err => Err err
  | Ok sync => Ok (RemoteRegistryURL sync)
  end.

Definition DeleteSync (syncID : string) : M W (result unit) :=
  let? _u := sync_db (tbl_Delete (Row := Sync) syncID) else err => ret (Err err) in
  ret (Ok tt).

End syncDB.
End syncDB.

(** ** The sync service (controller/sync.go) *)

(** [ociconfig.DefaultRegistryAddress]. *)
Definition DefaultRegistryAddress : string := "127.0.0.1:5000".

Module syncCtlr.
Section syncCtlr.
Context {D F Mo N S : Type} `{!SyncTable D}.
Context (uuid_NewString : nat -> string) (url_error : string -> error).
Notation W := (SyncWorld D F Mo N).

Definition validateRemoteDirectoryURL (rawURL : string) : result unit :=
  if decide (rawURL = "") then Err (Plain "remote directory URL is required")
  else if negb (Contains rawURL "://") then
    if negb (Contains rawURL ":") then
      Err (Plain "URL must include port (e.g., 'host:port' or 'http://host:port')")
    else Ok tt
  else match url_Parse rawURL with
  | None => Err (Wrap "failed to parse URL: " (url_error rawURL))
  | Some parsedURL =>
      if decide (Scheme parsedURL <> "http" /\ Scheme parsedURL <> "https") then
        Err (Plain ("unsupported scheme '" +:+ Scheme parsedURL
                    +:+ "', only 'http' and 'https' are supported"))
      else if decide (Hostname parsedURL = "") then Err (Plain "URL must include a hostname")
      else Ok tt
  end.

Definition CreateSync (remoteDirectoryUrl : string) : M W (result string) :=
  match validateRemoteDirectoryURL remoteDirectoryUrl with
  | Err err => ret (Err (Status InvalidArgument ("invalid remote directory URL: " +:+ err_string err)))
  | Ok _ =>
      let? id := syncDB.CreateSync uuid_NewString remoteDirectoryUrl
        else err => ret (Err (Wrap "failed to create sync: " err)) in
      ret (Ok id)
  end.

(** [ListSyncsItem] and [GetSyncResponse]. *)
Record SyncView := { View_SyncId : string; View_RemoteDirectoryUrl : string; View_Status : SyncStatus }.

Definition view_of (sync : Sync) : SyncView := {|
  View_SyncId := Sync_ID sync; View_RemoteDirectoryUrl := RemoteDirectoryURL sync;
  View_Status := Sync_Status sync |}.

Definition send_sync (Send : SyncView -> M S (result unit)) (_u : unit) (sync : Sync) : M S (result unit) :=
  let? _v := Send (view_of sync) else err => ret (Err (Wrap "failed to send sync object: " err)) in
  ret (Ok tt).

Definition ListSyncs (Send : SyncView -> M S (result unit)) (d : D) (offset limit : Z)
  : M S (result unit) :=
  match syncDB.GetSyncs offset limit d with
  | Err err => ret (Err (Wrap "failed to list syncs: " err))
  | Ok syncs => for_try (send_sync Send) tt syncs
  end.

Definition GetSync (syncId : string) (d : D) : result SyncView :=
  match syncDB.GetSyncByID syncId d with
  | Err err => Err (Wrap "failed to get sync by ID: " err)
  | Ok syncObj => Ok (view_of syncObj)
  end.

Definition DeleteSync (syncId : string) : M W (result unit) :=
  let? syncObj := sync_read (syncDB.GetSyncByID syncId)
    else err => ret (Err (Wrap "failed to get sync: " err)) in
  if decide (Sync_Status syncObj = SYNC_STATUS_DELETED) then
    ret (Err (Status NotFound "sync has already been deleted"))
  else
    let? _u := syncDB.UpdateSyncStatus syncId SYNC_STATUS_DELETE_PENDING
      else err => ret (Err (Wrap "failed to mark sync for deletion: " err)) in
    ret (Ok tt).

Definition RequestRegistryCredentials (registryAddress requestingNodeId : string)
  : RequestRegistryCredentialsResponse :=
  if decide (requestingNodeId = "") then
    {| Success := false; ErrorMessage := "requesting node ID is required"; RemoteRegistryUrl := "" |}
  else
    let registryURL := if decide (registryAddress = "") then DefaultRegistryAddress else registryAddress in
    {| Success := true; ErrorMessage := ""; RemoteRegistryUrl := registryURL |}.

End syncCtlr.
End syncCtlr.

(** ** The worker (sync/worker.go) *)

Module SyncWorker.
Section SyncWorker.
Context {D F Mo N C : Type} `{!SyncTable D} `{!OsFiles F} `{!JsonCodec ZotConfig} `{!MonitorAPI Mo}
  `{!SyncClient N C}.
Context (url_error : string -> error).
Notation W := (SyncWorld D F Mo N).

Definition negotiateCredentials (remoteDirectoryURL : string) : M N (result string) :=
  let? conn := grpc_NewClient remoteDirectoryURL
    else err => ret (Err (Wrap ("failed to create gRPC connection to remote node "
                                +:+ remoteDirectoryURL +:+ ": ") err)) in
  let requestingNodeID := "directory://local-node" in
  let? resp := client_RequestRegistryCredentials conn requestingNodeID
    else err => ret (Err (Wrap ("failed to request registry credentials from "
                                +:+ remoteDirectoryURL +:+ ": ") err)) in
  if negb (Success resp) then
    ret (Err (Plain ("credential negotiation failed: " +:+ ErrorMessage resp)))
  else ret (Ok (RemoteRegistryUrl resp)).

Definition addSync (item : WorkItem) : M W (result unit) :=
  let? remoteRegistryURL := sync_net (negotiateCredentials (Item_RemoteDirectoryURL item))
    else err => ret (Err (Wrap "failed to negotiate credentials: " err)) in
  let? _u := syncDB.UpdateSyncRemoteRegistry (SyncID item) remoteRegistryURL
    else err => ret (Err (Wrap "failed to update sync remote registry: " err)) in
  let? _v := on_files (zotsync.addRegistryToZotSync url_error remoteRegistryURL)
    else err => ret (Err (Wrap "failed to add registry to zot sync: " err)) in
  let? _w := on_monitor (mon_StartSyncMonitoring (SyncID item))
    else err => ret (Err (Wrap "failed to start registry monitoring: " err)) in
  ret (Ok tt).

(** A failure to stop monitoring is only logged. *)
Definition deleteSync (item : WorkItem) : M W (result unit) :=
  let? remoteRegistryURL := sync_read (syncDB.GetSyncRemoteRegistry (SyncID item))
    else err => ret (Err (Wrap "failed to get remote registry URL: " err)) in
  let? _u := on_files (zotsync.removeRegistryFromZotSync url_error remoteRegistryURL)
    else err => ret (Err (Wrap "failed to remove registry from zot sync: " err)) in
  do! on_monitor (mon_StopSyncMonitoring (SyncID item)) then
  ret (Ok tt).

(** The work of an item, and the status it calls for. *)
Definition work (item : WorkItem) : M W SyncStatus :=
  if decide (Type_ item = WorkItemTypeSyncCreate) then
    let! err := addSync item in
    ret (if is_ok err then SYNC_STATUS_IN_PROGRESS else SYNC_STATUS_FAILED)
  else if decide (Type_ item = WorkItemTypeSyncDelete) then
    let! err := deleteSync item in
    ret (if is_ok err then SYNC_STATUS_DELETED else SYNC_STATUS_FAILED)
  else ret SYNC_STATUS_UNSPECIFIED.

Definition processWorkItem (item : WorkItem) : M W unit :=
  let! finalStatus := work item in
  do! syncDB.UpdateSyncStatus (SyncID item) finalStatus then
  ret tt.

End SyncWorker.
End SyncWorker.

(** ** The scheduler (sync/scheduler.go) *)

Module SyncScheduler.
Section SyncScheduler.
Context {D F Mo N : Type} `{!SyncTable D}.
Notation W := (SyncWorld D F Mo N).

(** The capacity of [workQueue] (sync/sync.go). *)
Definition workQueueSize : nat := 100.

Definition in_world {A} (c : M W A) : M (W * list WorkItem) A := fun '(w, queue) =>
  let '(a, w) := c w in (a, (w, queue)).

(** The context of the scheduler is live. *)
Definition dispatchWorkItem (workItem : WorkItem) : M (W * list WorkItem) (result unit) :=
  fun '(w, queue) =>
    if decide (length queue < workQueueSize)%nat then (Ok tt, (w, queue ++ [workItem]))
    else (Err (Plain "worker queue is full"), (w, queue)).

Definition item_for (type : string) (sync : Sync) : WorkItem := {|
  Type_ := type; SyncID := Sync_ID sync; Item_RemoteDirectoryURL := RemoteDirectoryURL sync |}.

Definition dispatch_creation (sync : Sync) : M (W * list WorkItem) unit :=
  let? _u := in_world (syncDB.UpdateSyncStatus (Sync_ID sync) SYNC_STATUS_IN_PROGRESS)
    else _err => ret tt in
  let? _v := dispatchWorkItem (item_for WorkItemTypeSyncCreate sync)
    else _err => (do! in_world (syncDB.UpdateSyncStatus (Sync_ID sync) SYNC_STATUS_PENDING) then ret tt) in
  ret tt.

Definition processPendingSyncCreations : M (W * list WorkItem) (result unit) :=
  let? syncs := in_world (sync_read (syncDB.GetSyncsByStatus SYNC_STATUS_PENDING))
    else err => ret (Err (Wrap "failed to get pending syncs from database: " err)) in
  do! for_each dispatch_creation syncs then ret (Ok tt).

Definition dispatch_deletion (sync : Sync) : M (W * list WorkItem) unit :=
  do! dispatchWorkItem (item_for WorkItemTypeSyncDelete sync) then ret tt.

Definition processPendingSyncDeletions : M (W * list WorkItem) (result unit) :=
  let? syncs := in_world (sync_read (syncDB.GetSyncsByStatus SYNC_STATUS_DELETE_PENDING))
    else err => ret (Err (Wrap "failed to get delete pending syncs from database: " err)) in
  do! for_each dispatch_deletion syncs then ret (Ok tt).

(** Failures are logged. *)
Definition processPendingSyncs : M (W * list WorkItem) unit :=
  do! processPendingSyncCreations then
  do! processPendingSyncDeletions then
  ret tt.

End SyncScheduler.
End SyncScheduler.
