(* ===== verification/SyncSpec.v ===== *)
(** * What a work item of a synchronisation does

    The outcome of creating and of deleting a synchronisation on every branch, and
    the way of one synchronisation from the request of a client to its deletion:
    through the controller, the scheduler, the worker, the configuration of zot
    and the monitor. *)

From S2P Require Import Prelude GoStrings GoUrl Interfaces ZotConfig Search Tables Sync.

Open Scope string_scope.
Open Scope list_scope.
Open Scope go_scope.

(** A monitor that is up, with the synchronisations it watches for. *)
Class MonitorSpec (Mo : Type) `{!MonitorAPI Mo} (active : Mo -> gset string) : Prop := {
  Start_spec id m : exists m', mon_StartSyncMonitoring id m = (Ok tt, m')
    /\ active m' = {[id]} ∪ active m;
  Stop_spec id m : exists m', mon_StopSyncMonitoring id m = (Ok tt, m')
    /\ active m' = active m ∖ {[id]};
}.

Definition set_sync_status (st : SyncStatus) (p : Sync) : Sync := {|
  Sync_GormID := Sync_GormID p; Sync_ID := Sync_ID p; RemoteDirectoryURL := RemoteDirectoryURL p;
  RemoteRegistryURL := RemoteRegistryURL p; Sync_Status := st |}.

Definition set_registry (url : string) (p : Sync) : Sync := {|
  Sync_GormID := Sync_GormID p; Sync_ID := Sync_ID p; RemoteDirectoryURL := RemoteDirectoryURL p;
  RemoteRegistryURL := url; Sync_Status := Sync_Status p |}.

(** ** Changing one row *)

Section table.
Context {D F Mo N : Type} `{!SyncTable D} (rows : D -> list Sync) `{!TableSpec D rows}.
Notation W := (SyncWorld D F Mo N).

Definition set_db (w : W) (d : D) : W :=
  {| s_db := d; s_files := s_files w; s_monitor := s_monitor w; s_net := s_net w; s_tick := s_tick w |}.

Definition sync_ids (w : W) : list string := Sync_ID <$> rows (s_db w).

(** Read a row, change it, save it. *)
Definition change (f : Sync -> Sync) (id : string) : M W (result unit) :=
  let? sync := sync_read (syncDB.GetSyncByID id) else err => ret (Err err) in
  let? _u := sync_db (tbl_Save (f sync)) else err => ret (Err err) in
  ret (Ok tt).

Lemma UpdateSyncStatus_change id st : syncDB.UpdateSyncStatus id st = change (set_sync_status st) id.
Proof. done. Qed.

Lemma UpdateSyncRemoteRegistry_change id url :
  syncDB.UpdateSyncRemoteRegistry id url = change (set_registry url) id.
Proof. done. Qed.

Lemma change_run f id (w : W) :
  (forall p, Sync_GormID (f p) = Sync_GormID p) -> NoDup (sync_ids w) -> id ∈ sync_ids w ->
  exists d, change f id w = (Ok tt, set_db w d) /\ rows d = update_by id f (rows (s_db w)).
Proof.
  intros Hf Hnd Hid. unfold change, syncDB.GetSyncByID.
  destruct (first_by_id id (rows (s_db w))) as [p|] eqn:Hp; [|by apply first_by_id_None in Hp].
  erewrite try_bind_ok by (unfold sync_read; by rewrite (First_ok rows _ _ _ Hp)).
  destruct (Save_run rows f id p (s_db w)) as (d & Hs & Hr); [done..|].
  exists d. split; [|done]. unfold try_bind, bind, sync_db. by rewrite Hs.
Qed.

Lemma change_absent f id (w : W) :
  id ∉ sync_ids w -> change f id w = (Err sqlite.ErrRecordNotFound, w).
Proof.
  intros Hid. unfold change. erewrite try_bind_err; [done|].
  unfold sync_read, syncDB.GetSyncByID. by rewrite (First_absent rows).
Qed.

(** A status update, whether the row is there or not. *)
Lemma status_run id st (w : W) : NoDup (sync_ids w) ->
  exists x d, syncDB.UpdateSyncStatus id st w = (x, set_db w d)
    /\ rows d = update_by id (set_sync_status st) (rows (s_db w))
    /\ is_ok x = bool_decide (id ∈ sync_ids w).
Proof.
  intros Hnd. rewrite UpdateSyncStatus_change. destruct (decide (id ∈ sync_ids w)) as [Hid|Hid].
  - destruct (change_run (set_sync_status st) id w) as (d & Hrun & Hr); [done..|].
    exists (Ok tt), d. by rewrite bool_decide_true.
  - exists (Err sqlite.ErrRecordNotFound), (s_db w). rewrite change_absent by done.
    rewrite update_by_absent, bool_decide_false by done. split; [by destruct w|done].
Qed.

Lemma change_ids f id ps : (forall p, Sync_ID (f p) = Sync_ID p) ->
  Sync_ID <$> update_by id f ps = Sync_ID <$> ps.
Proof. intros Hf. exact (ids_update f Hf id ps). Qed.

Lemma change_find f id ps p :
  (forall p, Sync_ID (f p) = Sync_ID p) -> first_by_id id ps = Some p ->
  first_by_id id (update_by id f ps) = Some (f p).
Proof. intros Hf Hp. rewrite first_by_id_update, decide_True, Hp; done. Qed.

Lemma update_by_twice f g id ps : (forall p, Sync_ID (f p) = Sync_ID p) ->
  update_by id g (update_by id f ps) = update_by id (g ∘ f) ps.
Proof.
  intros Hf. unfold update_by. rewrite <- list_fmap_compose. apply list_fmap_ext. intros i p _.
  cbn. destruct (decide (Sync_ID p = id)) as [Hp|Hp]; [by rewrite Hf, decide_True|by rewrite decide_False].
Qed.

Lemma first_in id ps p : first_by_id id ps = Some p -> id ∈ Sync_ID <$> ps.
Proof. intros [Hp <-]%first_by_id_Some. by apply list_elem_of_fmap_2. Qed.

End table.

(** ** The outcome of a work item *)

Section outcome.
Context {D F Mo N C : Type} `{!SyncTable D} (rows : D -> list Sync) `{!TableSpec D rows}
  `{!OsFiles F} (files : F -> gmap string string) `{!OsFilesSpec F files}
  `{!JsonCodec ZotConfig} {config_ok : ZotConfig -> Prop} `{!JsonCodecSpec ZotConfig config_ok}
  `{!MonitorAPI Mo} {active : Mo -> gset string} `{!MonitorSpec Mo active} `{!SyncClient N C}.
Context (url_error : string -> error) (with_sync_ok : forall c s, config_ok c -> config_ok (zotsync.with_sync c s)).
Notation W := (SyncWorld D F Mo N).
Notation norm_of := (zotsync.normalizeRegistryURL url_error).

(** A service that is up, with the configuration of zot. *)
Record ready (w : W) (c : ZotConfig) : Prop := {
  rd_ids : NoDup (sync_ids rows w);
  rd_config : config_is (files := files) (s_files w) c;
  rd_ok : config_ok c }.

Lemma normalize_empty : is_ok (norm_of "") = false.
Proof. done. Qed.

Lemma add_fails url f c : config_is (files := files) f c -> is_ok (norm_of url) = false ->
  exists e, zotsync.addRegistryToZotSync url_error url f = (Err e, f).
Proof.
  intros Hf Hn. unfold zotsync.addRegistryToZotSync. case_decide; [eauto|].
  rewrite (read_config f c Hf). destruct (norm_of url); [done|eauto].
Qed.

(** Removing with no sync extension configured succeeds before the URL is looked at. *)
Lemma remove_fails url f c : config_is (files := files) f c -> is_ok (norm_of url) = false ->
  exists x, zotsync.removeRegistryFromZotSync url_error url f = (x, f)
    /\ is_ok x = bool_decide (url <> "" /\ (Config_Extensions c ≫= Ext_Sync) = None).
Proof.
  intros Hf Hn. unfold zotsync.removeRegistryFromZotSync. case_decide as Hu.
  { eexists. split; [done|]. rewrite bool_decide_false; [done|tauto]. }
  rewrite (read_config f c Hf). destruct (Config_Extensions c ≫= Ext_Sync).
  - destruct (norm_of url); [done|]. eexists. split; [done|]. rewrite bool_decide_false; [done|]. naive_solver.
  - eexists. split; [done|]. by rewrite bool_decide_true.
Qed.

(** What a status update leaves of the rest. *)
Lemma finish_run id st (w : W) c : ready w c ->
  exists x w', syncDB.UpdateSyncStatus id st w = (x, w') /\ ready w' c
    /\ rows (s_db w') = update_by id (set_sync_status st) (rows (s_db w))
    /\ s_files w' = s_files w /\ s_monitor w' = s_monitor w /\ s_net w' = s_net w
    /\ s_tick w' = s_tick w.
Proof.
  intros [Hi Hc Ho]. destruct (status_run rows id st w Hi) as (x & d & Hrun & Hr & _).
  exists x, (set_db w d). split; [done|]. split; [split; [|done|done]|by repeat split].
  unfold sync_ids in *. simpl. by rewrite Hr, change_ids.
Qed.

(** The result of adding a synchronisation, by what the remote directory answers. *)
Lemma addSync_run id url (w : W) c p :
  ready w c -> first_by_id id (rows (s_db w)) = Some p ->
  let '(answer, n) := SyncWorker.negotiateCredentials url (s_net w) in
  exists x w' c', SyncWorker.addSync url_error {| Type_ := WorkItemTypeSyncCreate; SyncID := id;
      Item_RemoteDirectoryURL := url |} w = (x, w')
    /\ ready w' c' /\ s_net w' = n /\ s_tick w' = s_tick w /\ same_besides c c'
    /\ match answer with
       | Err _ => is_ok x = false /\ rows (s_db w') = rows (s_db w) /\ registries c' = registries c
           /\ active (s_monitor w') = active (s_monitor w)
       | Ok reg => rows (s_db w') = update_by id (set_registry reg) (rows (s_db w)) /\
           match norm_of reg with
           | Err _ => is_ok x = false /\ registries c' = registries c
               /\ active (s_monitor w') = active (s_monitor w)
           | Ok norm => x = Ok tt
               /\ registries c' = (if mirrored norm c then registries c
                                   else registries c ++ [zotsync.new_registry norm])
               /\ active (s_monitor w') = {[id]} ∪ active (s_monitor w)
           end
       end.
Proof using TableSpec0 OsFilesSpec0 JsonCodecSpec0 MonitorSpec0 with_sync_ok.
  intros [Hi Hc Ho] Hp. pose proof (first_in _ _ _ Hp) as Hin. unfold SyncWorker.addSync. simpl.
  destruct (SyncWorker.negotiateCredentials url (s_net w)) as [answer n] eqn:Hneg.
  set (w1 := {| s_db := s_db w; s_files := s_files w; s_monitor := s_monitor w; s_net := n;
                s_tick := s_tick w |} : W).
  assert (Hnet : sync_net (SyncWorker.negotiateCredentials url) w = (answer, w1)) by (unfold sync_net; by rewrite Hneg).
  destruct answer as [reg|e].
  2:{ erewrite try_bind_err by exact Hnet. eexists _, w1, c.
      split; [done|]. split; [by split|]. by repeat split. }
  erewrite try_bind_ok by exact Hnet.
  rewrite UpdateSyncRemoteRegistry_change.
  destruct (change_run rows (set_registry reg) id w1) as (d & Hrun & Hr); [done..|].
  rewrite (try_bind_ok _ _ _ _ _ _ Hrun).
  assert (Hi2 : NoDup (Sync_ID <$> rows d)) by (by rewrite Hr, change_ids).
  destruct (norm_of reg) as [norm|e] eqn:Hn.
  - destruct (add_run url_error with_sync_ok reg norm (s_files w) c Hc Ho Hn)
      as (f & c' & Ha & Hf & Hco & Hs & Hreg).
    erewrite try_bind_ok by (unfold on_files; simpl; rewrite Ha; done).
    destruct (Start_spec (active := active) id (s_monitor w)) as (m & Hm & Hact).
    erewrite try_bind_ok by (unfold on_monitor; simpl; rewrite Hm; done).
    eexists _, _, c'. split; [done|]. split; [by split|]. repeat (split; [done|]). done.
  - destruct (add_fails reg (s_files w) c Hc) as [e' Ha]; [by rewrite Hn|].
    erewrite try_bind_err by (unfold on_files; simpl; rewrite Ha; done).
    eexists _, _, c. split; [done|]. split; [by split|]. by repeat split.
Qed.

Lemma deleteSync_run id url (w : W) c p :
  ready w c -> first_by_id id (rows (s_db w)) = Some p ->
  exists x w' c', SyncWorker.deleteSync url_error {| Type_ := WorkItemTypeSyncDelete; SyncID := id;
      Item_RemoteDirectoryURL := url |} w = (x, w')
    /\ ready w' c' /\ rows (s_db w') = rows (s_db w) /\ s_tick w' = s_tick w /\ s_net w' = s_net w
    /\ same_besides c c'
    /\ (RemoteRegistryURL p = "" -> is_ok x = false)
    /\ if is_ok x then active (s_monitor w') = active (s_monitor w) ∖ {[id]}
         /\ forall norm, norm_of (RemoteRegistryURL p) = Ok norm ->
              registries c' = filter (fun r => zotsync.has_url norm r = false) (registries c)
       else is_ok (norm_of (RemoteRegistryURL p)) = false /\ c' = c /\ s_monitor w' = s_monitor w.
Proof using TableSpec0 OsFilesSpec0 JsonCodecSpec0 MonitorSpec0 with_sync_ok.
  intros Hready Hp. pose proof Hready as [Hi Hc Ho]. unfold SyncWorker.deleteSync. simpl.
  assert (Hget : sync_read (syncDB.GetSyncRemoteRegistry id) w = (Ok (RemoteRegistryURL p), w)).
  { unfold sync_read, syncDB.GetSyncRemoteRegistry, syncDB.GetSyncByID. by rewrite (First_ok rows _ _ _ Hp). }
  rewrite (try_bind_ok _ _ _ _ _ _ Hget).
  destruct (Stop_spec (active := active) id (s_monitor w)) as (m & Hm & Hact).
  destruct (norm_of (RemoteRegistryURL p)) as [norm|e] eqn:Hn.
  - destruct (remove_run url_error with_sync_ok _ norm (s_files w) c Hc Ho Hn)
      as (f & c' & Hr & Hf & Hco & Hs & Hreg).
    erewrite try_bind_ok by (unfold on_files; rewrite Hr; done).
    erewrite bind_run by (unfold on_monitor; simpl; rewrite Hm; done).
    eexists _, _, c'. split; [done|]. split; [by split|]. repeat (split; [done|]).
    split; [intros Hu; by rewrite Hu in Hn|]. simpl. split; [done|]. by intros ? [= <-].
  - destruct (remove_fails (RemoteRegistryURL p) (s_files w) c Hc) as (x & Hr & Hx); [by rewrite Hn|].
    destruct x as [[]|e'].
    + erewrite try_bind_ok by (unfold on_files; rewrite Hr; done).
      erewrite bind_run by (unfold on_monitor; simpl; rewrite Hm; done).
      eexists _, _, c. split; [done|]. split; [by split|].
      repeat (split; [by auto using same_besides_refl|]). simpl in Hx. symmetry in Hx. bool_to_prop.
      split; [intros Hu; by destruct Hx|]. done.
    + erewrite try_bind_err by (unfold on_files; rewrite Hr; done).
      eexists _, _, c. split; [done|]. split; [by split|].
      repeat (split; [by auto using same_besides_refl|]). by repeat split; destruct w.
Qed.

(** The work of an item, then its status. *)
Lemma sync_process_run item st (w w1 : W) c :
  SyncWorker.work url_error item w = (st, w1) -> ready w1 c ->
  exists w', SyncWorker.processWorkItem url_error item w = (tt, w') /\ ready w' c
    /\ rows (s_db w') = update_by (SyncID item) (set_sync_status st) (rows (s_db w1))
    /\ s_files w' = s_files w1 /\ s_monitor w' = s_monitor w1 /\ s_net w' = s_net w1
    /\ s_tick w' = s_tick w1.
Proof using TableSpec0.
  intros Hw Hready. unfold SyncWorker.processWorkItem. rewrite (bind_run _ _ _ _ _ Hw).
  destruct (finish_run (SyncID item) st w1 c Hready) as (x & w' & Hrun & Hr).
  exists w'. by rewrite (bind_run _ _ _ _ _ Hrun).
Qed.

Definition creation (id url : string) : WorkItem :=
  {| Type_ := WorkItemTypeSyncCreate; SyncID := id; Item_RemoteDirectoryURL := url |}.
Definition deletion (id url : string) : WorkItem :=
  {| Type_ := WorkItemTypeSyncDelete; SyncID := id; Item_RemoteDirectoryURL := url |}.

Lemma creation_run id url (w : W) c p :
  ready w c -> first_by_id id (rows (s_db w)) = Some p ->
  let '(answer, n) := SyncWorker.negotiateCredentials url (s_net w) in
  exists w' c', SyncWorker.processWorkItem url_error (creation id url) w = (tt, w')
    /\ ready w' c' /\ s_net w' = n /\ s_tick w' = s_tick w /\ same_besides c c'
    /\ match answer with
       | Err _ => rows (s_db w') = update_by id (set_sync_status SYNC_STATUS_FAILED) (rows (s_db w))
           /\ registries c' = registries c /\ active (s_monitor w') = active (s_monitor w)
       | Ok reg =>
           match norm_of reg with
           | Err _ => rows (s_db w')
               = update_by id (set_sync_status SYNC_STATUS_FAILED ∘ set_registry reg) (rows (s_db w))
               /\ registries c' = registries c /\ active (s_monitor w') = active (s_monitor w)
           | Ok norm => rows (s_db w')
               = update_by id (set_sync_status SYNC_STATUS_IN_PROGRESS ∘ set_registry reg) (rows (s_db w))
               /\ registries c' = (if mirrored norm c then registries c
                                   else registries c ++ [zotsync.new_registry norm])
               /\ active (s_monitor w') = {[id]} ∪ active (s_monitor w)
           end
       end.
Proof using TableSpec0 OsFilesSpec0 JsonCodecSpec0 MonitorSpec0 with_sync_ok.
  intros Hready Hp. pose proof (addSync_run id url w c p Hready Hp) as Ha.
  destruct (SyncWorker.negotiateCredentials url (s_net w)) as [answer n].
  destruct Ha as (x & w1 & c' & Hrun & Hready1 & Hn & Ht & Hs & Hcase).
  destruct (sync_process_run (creation id url) (if is_ok x then SYNC_STATUS_IN_PROGRESS else SYNC_STATUS_FAILED)
    w w1 c') as (w' & Hp' & Hready' & Hr & _ & Hm & Hn' & Ht').
  { unfold SyncWorker.work, creation. simpl. by rewrite (bind_run _ _ _ _ _ Hrun). }
  { done. }
  exists w', c'. rewrite Hn', Ht', Hr, Hm. simpl. repeat (split; [done|]).
  destruct answer as [reg|e]; [|destruct Hcase as (-> & -> & -> & ->); done].
  destruct Hcase as [-> Hcase]. rewrite update_by_twice by done.
  destruct (norm_of reg); destruct Hcase as (-> & -> & ->); done.
Qed.

Lemma deletion_run id url (w : W) c p :
  ready w c -> first_by_id id (rows (s_db w)) = Some p ->
  exists w' c' st, SyncWorker.processWorkItem url_error (deletion id url) w = (tt, w')
    /\ ready w' c' /\ rows (s_db w') = update_by id (set_sync_status st) (rows (s_db w))
    /\ s_tick w' = s_tick w /\ s_net w' = s_net w /\ same_besides c c'
    /\ (RemoteRegistryURL p = "" -> st = SYNC_STATUS_FAILED)
    /\ ((st = SYNC_STATUS_DELETED /\ active (s_monitor w') = active (s_monitor w) ∖ {[id]}
         /\ forall norm, norm_of (RemoteRegistryURL p) = Ok norm ->
              registries c' = filter (fun r => zotsync.has_url norm r = false) (registries c)) \/
        (st = SYNC_STATUS_FAILED /\ is_ok (norm_of (RemoteRegistryURL p)) = false /\ c' = c
         /\ active (s_monitor w') = active (s_monitor w))).
Proof using TableSpec0 OsFilesSpec0 JsonCodecSpec0 MonitorSpec0 with_sync_ok.
  intros Hready Hp.
  destruct (deleteSync_run id url w c p Hready Hp) as
    (x & w1 & c' & Hrun & Hready1 & Hrows & Ht & Hn & Hs & Hu & Hcase).
  destruct (sync_process_run (deletion id url) (if is_ok x then SYNC_STATUS_DELETED else SYNC_STATUS_FAILED)
    w w1 c') as (w' & Hp' & Hready' & Hr & _ & Hm & Hn' & Ht').
  { unfold SyncWorker.work, deletion. simpl. by rewrite (bind_run _ _ _ _ _ Hrun). }
  { done. }
  exists w', c', (if is_ok x then SYNC_STATUS_DELETED else SYNC_STATUS_FAILED).
  rewrite Hn', Ht', Hr, Hm, Hrows. simpl. repeat (split; [done|]).
  split; [intros Hempty; by rewrite Hu|].
  destruct (is_ok x); [left|right; destruct Hcase as (? & -> & ->)]; done.
Qed.

(** The outcome of a work item.  Creating a synchronisation asks the
    remote directory for its registry.  When it has one, the registry is
    recorded with the synchronisation, zot mirrors it, the monitor watches, and
    the synchronisation is IN_PROGRESS; otherwise the synchronisation is FAILED
    and zot and the monitor are as before.  Deleting removes the registry of the
    synchronisation from zot and stops the monitor, and the synchronisation is
    DELETED; one that never got a registry is FAILED instead.  No other
    synchronisation and nothing else of zot's configuration changes. *)
Theorem processWorkItem_outcome id url (w : W) c p :
  ready w c -> first_by_id id (rows (s_db w)) = Some p ->
  (let '(answer, n) := SyncWorker.negotiateCredentials url (s_net w) in
   exists w' c', SyncWorker.processWorkItem url_error (creation id url) w = (tt, w')
    /\ ready w' c' /\ s_net w' = n /\ same_besides c c' /\
    match result_map (fun reg => (reg, norm_of reg)) answer with
    | Ok (reg, Ok norm) =>
        rows (s_db w')
        = update_by id (set_sync_status SYNC_STATUS_IN_PROGRESS ∘ set_registry reg) (rows (s_db w))
        /\ mirrored norm c' = true /\ id ∈ active (s_monitor w')
        /\ forall r, r ∈ registries c -> r ∈ registries c'
    | Ok (reg, Err _) =>
        rows (s_db w') = update_by id (set_sync_status SYNC_STATUS_FAILED ∘ set_registry reg) (rows (s_db w))
        /\ registries c' = registries c /\ active (s_monitor w') = active (s_monitor w)
    | Err _ =>
        rows (s_db w') = update_by id (set_sync_status SYNC_STATUS_FAILED) (rows (s_db w))
        /\ registries c' = registries c /\ active (s_monitor w') = active (s_monitor w)
    end) /\
  (exists w' c' st, SyncWorker.processWorkItem url_error (deletion id url) w = (tt, w')
    /\ ready w' c' /\ same_besides c c'
    /\ rows (s_db w') = update_by id (set_sync_status st) (rows (s_db w))
    /\ match norm_of (RemoteRegistryURL p) with
       | Ok norm => st = SYNC_STATUS_DELETED /\ mirrored norm c' = false /\ id ∉ active (s_monitor w')
           /\ forall r, zotsync.has_url norm r = false -> r ∈ registries c -> r ∈ registries c'
       | Err _ => RemoteRegistryURL p = "" ->
           st = SYNC_STATUS_FAILED /\ registries c' = registries c
           /\ active (s_monitor w') = active (s_monitor w)
       end).
Proof using TableSpec0 OsFilesSpec0 JsonCodecSpec0 MonitorSpec0 with_sync_ok.
  intros Hready Hp. split.
  - pose proof (creation_run id url w c p Hready Hp) as Hc.
    destruct (SyncWorker.negotiateCredentials url (s_net w)) as [answer n].
    destruct Hc as (w' & c' & Hrun & Hready' & Hn & _ & Hs & Hcase). exists w', c'.
    repeat (split; [done|]). destruct answer as [reg|]; simpl; [|done].
    destruct (norm_of reg) as [norm|]; [|done]. destruct Hcase as (Hr & Hreg & Ha). split; [done|].
    split; [by rewrite (mirrored_add norm c c' Hreg), bool_decide_true|]. split; [set_solver|].
    intros r Hin. rewrite Hreg. destruct (mirrored norm c); [done|]. apply elem_of_app. by left.
  - destruct (deletion_run id url w c p Hready Hp) as
      (w' & c' & st & Hrun & Hready' & Hr & _ & _ & Hs & Hu & Hcase).
    exists w', c', st. repeat (split; [done|]). destruct (norm_of (RemoteRegistryURL p)) as [norm|e].
    + destruct Hcase as [(-> & Ha & Hreg)|(_ & [=] & _)]. specialize (Hreg norm eq_refl).
      split; [done|]. split; [unfold mirrored; rewrite Hreg; apply filter_has_url|].
      split; [set_solver|]. intros r Hf Hin. rewrite Hreg. by apply list_elem_of_filter.
    + intros Hempty. specialize (Hu Hempty) as ->. destruct Hcase as [(? & _)|(_ & _ & -> & Ha)]; done.
Qed.

End outcome.

(** ** A tick of the scheduler with one synchronisation waiting *)

Section tick.
Context {D F Mo N : Type} `{!SyncTable D} (rows : D -> list Sync) `{!TableSpec D rows}.
Notation W := (SyncWorld D F Mo N).

Lemma listed st (w : W) q :
  SyncScheduler.in_world (sync_read (syncDB.GetSyncsByStatus st)) (w, q)
  = (Ok (with_status st (rows (s_db w))), (w, q)).
Proof.
  unfold SyncScheduler.in_world, sync_read, syncDB.GetSyncsByStatus.
  by rewrite (tbl_FindByStatus_spec (rows := rows)).
Qed.

Lemma dispatch_room item (w : W) q : (length q < SyncScheduler.workQueueSize)%nat ->
  SyncScheduler.dispatchWorkItem item (w, q) = (Ok tt, (w, q ++ [item])).
Proof. intros Hq. unfold SyncScheduler.dispatchWorkItem. by rewrite decide_True. Qed.

Lemma tick_creation p (w : W) q :
  NoDup (sync_ids rows w) -> (length q < SyncScheduler.workQueueSize)%nat ->
  with_status SYNC_STATUS_PENDING (rows (s_db w)) = [p] ->
  with_status SYNC_STATUS_DELETE_PENDING
    (update_by (Sync_ID p) (set_sync_status SYNC_STATUS_IN_PROGRESS) (rows (s_db w))) = [] ->
  exists d, SyncScheduler.processPendingSyncs (w, q)
      = (tt, (set_db w d, q ++ [creation (Sync_ID p) (RemoteDirectoryURL p)]))
    /\ rows d = update_by (Sync_ID p) (set_sync_status SYNC_STATUS_IN_PROGRESS) (rows (s_db w)).
Proof using TableSpec0.
  intros Hnd Hq Hp Hd.
  assert (Hin : Sync_ID p ∈ sync_ids rows w).
  { apply list_elem_of_fmap_2. assert (Hpp : p ∈ [p]) by left. rewrite <- Hp in Hpp.
    by apply list_elem_of_filter in Hpp as [_ ?]. }
  destruct (change_run rows (set_sync_status SYNC_STATUS_IN_PROGRESS) (Sync_ID p) w) as (d & Hrun & Hr);
    [done..|]. exists d. split; [|done].
  unfold SyncScheduler.processPendingSyncs, SyncScheduler.processPendingSyncCreations,
    SyncScheduler.processPendingSyncDeletions.
  erewrite bind_run.
  2:{ rewrite (try_bind_ok _ _ _ _ _ _ (listed SYNC_STATUS_PENDING w q)), Hp. simpl.
      erewrite bind_run; [done|]. unfold SyncScheduler.dispatch_creation.
      erewrite bind_run.
      2:{ erewrite try_bind_ok by (unfold SyncScheduler.in_world; rewrite UpdateSyncStatus_change, Hrun; done).
          by erewrite try_bind_ok by (by apply dispatch_room). }
      done. }
  erewrite bind_run; [done|].
  rewrite (try_bind_ok _ _ _ _ _ _ (listed SYNC_STATUS_DELETE_PENDING _ _)). simpl. by rewrite Hr, Hd.
Qed.

Lemma tick_deletion p (w : W) q :
  (length q < SyncScheduler.workQueueSize)%nat ->
  with_status SYNC_STATUS_PENDING (rows (s_db w)) = [] ->
  with_status SYNC_STATUS_DELETE_PENDING (rows (s_db w)) = [p] ->
  SyncScheduler.processPendingSyncs (w, q)
  = (tt, (w, q ++ [deletion (Sync_ID p) (RemoteDirectoryURL p)])).
Proof using TableSpec0.
  intros Hq Hp Hd.
  unfold SyncScheduler.processPendingSyncs, SyncScheduler.processPendingSyncCreations,
    SyncScheduler.processPendingSyncDeletions.
  erewrite bind_run.
  2:{ rewrite (try_bind_ok _ _ _ _ _ _ (listed SYNC_STATUS_PENDING w q)), Hp. done. }
  erewrite bind_run; [done|].
  rewrite (try_bind_ok _ _ _ _ _ _ (listed SYNC_STATUS_DELETE_PENDING w q)), Hd. simpl.
  erewrite bind_run; [done|]. unfold SyncScheduler.dispatch_deletion.
  erewrite bind_run by (erewrite bind_run by (by apply dispatch_room); done). done.
Qed.

End tick.

(** ** From the request to the deletion *)

Section lifecycle.
Context {D F Mo N C : Type} `{!SyncTable D} (rows : D -> list Sync) `{!TableSpec D rows}
  `{!OsFiles F} (files : F -> gmap string string) `{!OsFilesSpec F files}
  `{!JsonCodec ZotConfig} {config_ok : ZotConfig -> Prop} `{!JsonCodecSpec ZotConfig config_ok}
  `{!MonitorAPI Mo} {active : Mo -> gset string} `{!MonitorSpec Mo active} `{!SyncClient N C}.
Context (url_error : string -> error) (with_sync_ok : forall c s, config_ok c -> config_ok (zotsync.with_sync c s)).
Context (uuid : nat -> string).
Notation W := (SyncWorld D F Mo N).
Notation norm_of := (zotsync.normalizeRegistryURL url_error).

(** What the rows of the others and one row of our own look like. *)
Definition row (k : nat) (id url reg : string) (st : SyncStatus) : Sync := {|
  Sync_GormID := k; Sync_ID := id; RemoteDirectoryURL := url; RemoteRegistryURL := reg; Sync_Status := st |}.

Definition quiet (ps : list Sync) : Prop :=
  Forall (fun p => Sync_Status p <> SYNC_STATUS_PENDING /\ Sync_Status p <> SYNC_STATUS_DELETE_PENDING) ps.

Lemma quiet_none ps st : quiet ps -> st = SYNC_STATUS_PENDING \/ st = SYNC_STATUS_DELETE_PENDING ->
  with_status st ps = [].
Proof.
  intros Hq Hst. unfold with_status. induction Hq as [|p ps [H1 H2] _ IH]; [done|].
  rewrite filter_cons, decide_False; [done|]. simpl. destruct Hst; congruence.
Qed.

Lemma status_snoc st ps p : quiet ps -> st = SYNC_STATUS_PENDING \/ st = SYNC_STATUS_DELETE_PENDING ->
  with_status st (ps ++ [p]) = if decide (Sync_Status p = st) then [p] else [].
Proof.
  intros Hq Hst. unfold with_status. rewrite filter_app. fold (with_status st ps).
  rewrite quiet_none by done. simpl. rewrite filter_cons. simpl. by case_decide.
Qed.

Lemma update_snoc id f ps p :
  id ∉ Sync_ID <$> ps -> Sync_ID p = id -> update_by id f (ps ++ [p]) = ps ++ [f p].
Proof.
  intros Hid Hp. unfold update_by. rewrite fmap_app. simpl. rewrite decide_True by done.
  f_equal. exact (update_by_absent id f ps Hid).
Qed.

Lemma find_snoc id ps p : id ∉ Sync_ID <$> ps -> Sync_ID p = id -> first_by_id id (ps ++ [p]) = Some p.
Proof. exact (first_by_id_snoc id ps p). Qed.

(** The answer of a remote directory that is configured with a registry. *)
Lemma negotiated url (conn : C) (n n1 n2 : N) addr :
  grpc_NewClient url n = (Ok conn, n1) ->
  client_RequestRegistryCredentials conn "directory://local-node" n1
  = (Ok (syncCtlr.RequestRegistryCredentials addr "directory://local-node"), n2) ->
  SyncWorker.negotiateCredentials url n
  = (Ok (if decide (addr = "") then DefaultRegistryAddress else addr), n2).
Proof.
  intros H1 H2. unfold SyncWorker.negotiateCredentials.
  rewrite (try_bind_ok _ _ _ _ _ _ H1), (try_bind_ok _ _ _ _ _ _ H2).
  unfold syncCtlr.RequestRegistryCredentials. by rewrite decide_False by done.
Qed.

Lemma create_run url (w : W) :
  exists d k, syncDB.CreateSync uuid url w
    = (Ok (uuid (s_tick w)), {| s_db := d; s_files := s_files w; s_monitor := s_monitor w;
                                s_net := s_net w; s_tick := S (s_tick w) |})
    /\ rows d = rows (s_db w) ++ [row k (uuid (s_tick w)) url "" SYNC_STATUS_PENDING].
Proof using TableSpec0.
  unfold syncDB.CreateSync.
  destruct (Create_table_run rows (row 0 (uuid (s_tick w)) url "" SYNC_STATUS_PENDING) (s_db w))
    as (d & k & Hc & Hr).
  exists d, k. unfold bind at 1, sync_next. split; [|exact Hr]. unfold try_bind, bind, sync_db. simpl.
  change (tbl_Create _) with (tbl_Create (row 0 (uuid (s_tick w)) url "" SYNC_STATUS_PENDING)).
  by rewrite Hc.
Qed.

Lemma get_run id (d : D) p : first_by_id id (rows d) = Some p -> syncCtlr.GetSync id d = Ok (syncCtlr.view_of p).
Proof using TableSpec0.
  intros Hp. unfold syncCtlr.GetSync, syncDB.GetSyncByID. by rewrite (First_ok rows _ _ _ Hp).
Qed.

(** Asking for a deletion. *)
Lemma delete_run id (w : W) p :
  NoDup (sync_ids rows w) -> first_by_id id (rows (s_db w)) = Some p ->
  if decide (Sync_Status p = SYNC_STATUS_DELETED) then
    syncCtlr.DeleteSync id w = (Err (Status NotFound "sync has already been deleted"), w)
  else exists d, syncCtlr.DeleteSync id w = (Ok tt, set_db w d)
    /\ rows d = update_by id (set_sync_status SYNC_STATUS_DELETE_PENDING) (rows (s_db w)).
Proof using TableSpec0.
  intros Hnd Hp. unfold syncCtlr.DeleteSync, syncDB.GetSyncByID.
  assert (Hget : sync_read (fun d => tbl_First id d) w = (Ok p, w)) by (unfold sync_read; by rewrite (First_ok rows _ _ _ Hp)).
  rewrite (try_bind_ok _ _ _ _ _ _ Hget). case_decide; [done|].
  destruct (change_run rows (set_sync_status SYNC_STATUS_DELETE_PENDING) id w) as (d & Hrun & Hr);
    [done|done|by eapply first_in|].
  exists d. rewrite UpdateSyncStatus_change, (try_bind_ok _ _ _ _ _ _ Hrun). done.
Qed.

Lemma start_run url addr conn n1 n2 norm (w : W) c :
  ready rows files (config_ok := config_ok) w c -> quiet (rows (s_db w)) ->
  uuid (s_tick w) ∉ sync_ids rows w ->
  syncCtlr.validateRemoteDirectoryURL url_error url = Ok tt ->
  grpc_NewClient url (s_net w) = (Ok conn, n1) ->
  client_RequestRegistryCredentials conn "directory://local-node" n1
  = (Ok (syncCtlr.RequestRegistryCredentials addr "directory://local-node"), n2) ->
  let reg := if decide (addr = "") then DefaultRegistryAddress else addr in
  let id := uuid (s_tick w) in
  norm_of reg = Ok norm ->
  exists s1 s2 s3 c3 k, syncCtlr.CreateSync uuid url_error url w = (Ok id, s1)
    /\ SyncScheduler.processPendingSyncs (s1, []) = (tt, (s2, [creation id url]))
    /\ SyncWorker.processWorkItem url_error (creation id url) s2 = (tt, s3)
    /\ ready rows files (config_ok := config_ok) s3 c3
    /\ rows (s_db s3) = rows (s_db w) ++ [row k id url reg SYNC_STATUS_IN_PROGRESS]
    /\ registries c3 = (if mirrored norm c then registries c
                        else registries c ++ [zotsync.new_registry norm])
    /\ active (s_monitor s3) = {[id]} ∪ active (s_monitor w).
Proof using TableSpec0 OsFilesSpec0 JsonCodecSpec0 MonitorSpec0 with_sync_ok.
  intros [Hi Hc Ho] Hq Hf Hv Hn1 Hn2 reg id Hnorm.
  destruct (create_run url w) as (d1 & k & Hcr & Hr1). fold id in Hcr, Hr1.
  set (s1 := {| s_db := d1; s_files := s_files w; s_monitor := s_monitor w;
                s_net := s_net w; s_tick := S (s_tick w) |} : W) in *.
  assert (Hi1 : NoDup (sync_ids rows s1)).
  { unfold sync_ids, s1. simpl. rewrite Hr1, fmap_app. simpl. apply NoDup_app.
    split; [done|]. split; [|apply NoDup_singleton]. by intros x Hx ->%list_elem_of_singleton. }
  pose (p1 := row k id url "" SYNC_STATUS_PENDING).
  destruct (tick_creation rows p1 s1 []) as (d2 & Htick & Hr2).
  { done. } { unfold SyncScheduler.workQueueSize. simpl. lia. }
  { unfold s1. simpl. rewrite Hr1, status_snoc by auto. done. }
  { unfold s1. simpl. rewrite Hr1, update_snoc by done. rewrite status_snoc by auto. done. }
  simpl in Htick, Hr2. rewrite Hr1, update_snoc in Hr2 by done.
  pose (p2 := row k id url "" SYNC_STATUS_IN_PROGRESS). change (set_sync_status _ _) with p2 in Hr2.
  assert (Hready2 : ready rows files (config_ok := config_ok) (set_db s1 d2) c).
  { split; [|done|done]. unfold sync_ids in *. unfold s1 in Hi1. simpl in *. rewrite Hr2, fmap_app.
    by rewrite Hr1, fmap_app in Hi1. }
  assert (Hp2 : first_by_id id (rows (s_db (set_db s1 d2))) = Some p2).
  { simpl. rewrite Hr2. by apply find_snoc. }
  pose proof (creation_run rows files url_error with_sync_ok id url (set_db s1 d2) c p2 Hready2 Hp2) as Hrun.
  simpl (s_net _) in Hrun. rewrite (negotiated url conn (s_net w) n1 n2 addr Hn1 Hn2) in Hrun.
  fold reg in Hrun. rewrite Hnorm in Hrun.
  destruct Hrun as (s3 & c3 & Hrun & Hready3 & _ & _ & _ & Hr3 & Hreg & Hact).
  simpl in Hr3. rewrite Hr2, update_snoc in Hr3 by done.
  exists s1, (set_db s1 d2), s3, c3, k. split.
  { unfold syncCtlr.CreateSync. by rewrite Hv, (try_bind_ok _ _ _ _ _ _ Hcr). }
  done.
Qed.

Lemma stop_run k id url reg norm (w : W) c ps :
  ready rows files (config_ok := config_ok) w c -> quiet ps -> id ∉ Sync_ID <$> ps ->
  rows (s_db w) = ps ++ [row k id url reg SYNC_STATUS_IN_PROGRESS] -> norm_of reg = Ok norm ->
  exists s4 s5 s6 c6, syncCtlr.DeleteSync id w = (Ok tt, s4)
    /\ SyncScheduler.processPendingSyncs (s4, []) = (tt, (s5, [deletion id url]))
    /\ SyncWorker.processWorkItem url_error (deletion id url) s5 = (tt, s6)
    /\ ready rows files (config_ok := config_ok) s6 c6
    /\ rows (s_db s6) = ps ++ [row k id url reg SYNC_STATUS_DELETED]
    /\ registries c6 = filter (fun r => zotsync.has_url norm r = false) (registries c)
    /\ active (s_monitor s6) = active (s_monitor w) ∖ {[id]}.
Proof using TableSpec0 OsFilesSpec0 JsonCodecSpec0 MonitorSpec0 with_sync_ok.
  intros [Hi Hc Ho] Hq Hf Hr Hnorm.
  assert (Hp : first_by_id id (rows (s_db w)) = Some (row k id url reg SYNC_STATUS_IN_PROGRESS)).
  { rewrite Hr. by apply find_snoc. }
  pose proof (delete_run id w _ Hi Hp) as (d4 & Hdel & Hr4).
  rewrite Hr, update_snoc in Hr4 by done.
  pose (p4 := row k id url reg SYNC_STATUS_DELETE_PENDING). change (set_sync_status _ _) with p4 in Hr4.
  assert (Hready4 : ready rows files (config_ok := config_ok) (set_db w d4) c).
  { split; [|done|done]. unfold sync_ids in *. simpl. rewrite Hr4, fmap_app. by rewrite Hr, fmap_app in Hi. }
  assert (Hp4 : first_by_id id (rows (s_db (set_db w d4))) = Some p4).
  { simpl. rewrite Hr4. by apply find_snoc. }
  destruct (deletion_run rows files url_error with_sync_ok id url (set_db w d4) c p4 Hready4 Hp4) as
    (s6 & c6 & st & Hrun & Hready6 & Hr6 & _ & _ & _ & _ & Hcase).
  simpl in Hr6. rewrite Hr4, update_snoc in Hr6 by done. simpl in Hcase. rewrite Hnorm in Hcase.
  destruct Hcase as [(-> & Hact & Hreg)|(_ & [=] & _)].
  exists (set_db w d4), (set_db w d4), s6, c6. split; [done|]. split.
  { apply (tick_deletion rows p4 (set_db w d4) []).
    - unfold SyncScheduler.workQueueSize. simpl. lia.
    - simpl. rewrite Hr4, status_snoc by auto. done.
    - simpl. rewrite Hr4, status_snoc by auto. done. }
  specialize (Hreg norm eq_refl). repeat (split; [done|]). done.
Qed.


(** A synchronisation that is deleted before the scheduler saw it ends up FAILED:
    it has no registry that could be removed. *)
Lemma deleted_before_start k id url (w : W) c ps :
  ready rows files (config_ok := config_ok) w c -> quiet ps -> id ∉ Sync_ID <$> ps ->
  rows (s_db w) = ps ++ [row k id url "" SYNC_STATUS_PENDING] ->
  exists s4 s5 s6, syncCtlr.DeleteSync id w = (Ok tt, s4)
    /\ SyncScheduler.processPendingSyncs (s4, []) = (tt, (s5, [deletion id url]))
    /\ SyncWorker.processWorkItem url_error (deletion id url) s5 = (tt, s6)
    /\ rows (s_db s6) = ps ++ [row k id url "" SYNC_STATUS_FAILED].
Proof using TableSpec0 OsFilesSpec0 JsonCodecSpec0 MonitorSpec0 with_sync_ok.
  intros [Hi Hc Ho] Hq Hf Hr.
  assert (Hp : first_by_id id (rows (s_db w)) = Some (row k id url "" SYNC_STATUS_PENDING)).
  { rewrite Hr. by apply find_snoc. }
  pose proof (delete_run id w _ Hi Hp) as (d4 & Hdel & Hr4).
  rewrite Hr, update_snoc in Hr4 by done.
  pose (p4 := row k id url "" SYNC_STATUS_DELETE_PENDING). change (set_sync_status _ _) with p4 in Hr4.
  assert (Hp4 : first_by_id id (rows (s_db (set_db w d4))) = Some p4).
  { simpl. rewrite Hr4. by apply find_snoc. }
  destruct (deletion_run rows files url_error with_sync_ok id url (set_db w d4) c p4) as
    (s6 & c6 & st & Hrun & _ & Hr6 & _ & _ & _ & Hu & _).
  { split; [|done|done]. unfold sync_ids in *. simpl. rewrite Hr4, fmap_app. by rewrite Hr, fmap_app in Hi. }
  { done. }
  rewrite Hu in Hr6 by done. simpl in Hr6. rewrite Hr4, update_snoc in Hr6 by done.
  exists (set_db w d4), (set_db w d4), s6. split; [done|]. split; [|done].
  apply (tick_deletion rows p4 (set_db w d4) []).
  - unfold SyncScheduler.workQueueSize. simpl. lia.
  - simpl. rewrite Hr4, status_snoc by auto. done.
  - simpl. rewrite Hr4, status_snoc by auto. done.
Qed.

End lifecycle.

(** ** An executable instance *)

Module DemoSync.
Import DemoZot.

#[export] Instance sync_table : SyncTable (ListTable.T (Row := Sync)) := ListTable.table.
#[export] Instance sync_table_spec : TableSpec (ListTable.T (Row := Sync)) ListTable.rows := ListTable.spec.

(** A monitor that is the set of what it watches. *)
#[export] Instance set_monitor : MonitorAPI (gset string) := {|
  mon_StartSyncMonitoring id := fun m => (Ok tt, {[id]} ∪ m);
  mon_StopSyncMonitoring id := fun m => (Ok tt, m ∖ {[id]}) |}.
#[export] Instance set_monitor_spec : MonitorSpec (gset string) id.
Proof. split; eauto. Qed.

(** Directories by URL, each with the registry address of its configuration. *)
#[export] Instance directories : SyncClient (gmap string string) string := {|
  grpc_NewClient url := fun n => (Ok url, n);
  client_RequestRegistryCredentials url node := fun n =>
    (match n !! url with
     | Some addr => Ok (syncCtlr.RequestRegistryCredentials addr node)
     | None => Err (Plain "connection refused") end, n) |}.

Fixpoint uuid (n : nat) : string := match n with O => "u" | S n => String "x" (uuid n) end.

Notation W := (SyncWorld (ListTable.T (Row := Sync)) (gmap string string) (gset string) (gmap string string)).

Definition w0 : W := {|
  s_db := ListTable.empty; s_files := disk; s_monitor := ∅;
  s_net := {["dir.example.org:8888" := "10.0.0.1:5000"]}; s_tick := 0 |}.

Definition is_ready : W -> ZotConfig -> Prop :=
  ready ListTable.rows id (config_ok := fun _ => True).

Lemma w0_ready : is_ready w0 plain_config.
Proof. split; [constructor|apply disk_config|done]. Qed.


(** A world with one synchronisation that a worker has started on. *)
Definition w1 : W := (syncCtlr.CreateSync uuid no_url "dir.example.org:8888" w0).2.

Lemma w1_ready : is_ready w1 plain_config.
Proof.
  split; [|apply disk_config|done]. apply (bool_decide_unpack _). vm_compute. exact I.
Qed.

Lemma processWorkItem_outcome_witness :
  exists w' c', SyncWorker.processWorkItem no_url (creation "u" "dir.example.org:8888") w1 = (tt, w')
    /\ mirrored "http://10.0.0.1:5000" c' = true /\ "u" ∈ s_monitor w'.
Proof.
  destruct (processWorkItem_outcome ListTable.rows id no_url (config_ok := fun _ => True) (fun _ _ _ => I)
    (active := id) "u" "dir.example.org:8888" w1 plain_config (row 0 "u" "dir.example.org:8888" "" SYNC_STATUS_PENDING) w1_ready)
    as [H _].
  - vm_compute. reflexivity.
  - assert (E : SyncWorker.negotiateCredentials "dir.example.org:8888" (s_net w1) = (Ok "10.0.0.1:5000", s_net w1))
      by (vm_compute; reflexivity).
    rewrite E in H. destruct H as (w' & c' & H1 & _ & _ & _ & H2).
    assert (E2 : result_map (fun reg => (reg, zotsync.normalizeRegistryURL no_url reg)) (Ok "10.0.0.1:5000")
      = Ok ("10.0.0.1:5000", Ok "http://10.0.0.1:5000")) by reflexivity.
    rewrite E2 in H2. destruct H2 as (_ & H2 & H3 & _).
    exists w', c'. split; [exact H1|]. split; [exact H2|exact H3].
Defined.

End DemoSync.
