(* ===== verification/SyncSystem.v ===== *)
(** * The sync service running concurrently

    Clients, the scheduler and the workers of the sync service share the table
    and the work queue.  Their interleavings are a step relation: each call of the
    database is a step, and so is the work of an item, which changes no status.
    The scheduler marks a synchronisation before it sends it, so a creation is
    sent at most once; but a worker sets the status it found whatever happened
    meanwhile. *)

From S2P Require Import Prelude GoStrings GoUrl Interfaces ZotConfig Search Tables Sync SyncSpec.

Open Scope string_scope.
Open Scope list_scope.
Open Scope go_scope.

(** Where the scheduler is in [processPendingSyncs]. *)
Inductive SyncSchedulerState :=
  | S_Idle
  | S_Creations (pending : list Sync)                (** the rest of the creations *)
  | S_Dispatch (sync : Sync) (pending : list Sync)   (** marked IN_PROGRESS, not yet sent *)
  | S_Revert (sync : Sync) (pending : list Sync)     (** the queue was full *)
  | S_Deletions (pending : list Sync).               (** the rest of the deletions *)

(** What a worker does with the item it took. *)
Inductive Job := Running (item : WorkItem) | Verdict (item : WorkItem) (st : SyncStatus).
Definition job_item (j : Job) : WorkItem := match j with Running i | Verdict i _ => i end.

Definition is_creation (i : WorkItem) : Prop := Type_ i = WorkItemTypeSyncCreate.
Definition is_deletion (i : WorkItem) : Prop := Type_ i = WorkItemTypeSyncDelete.
#[export] Instance is_creation_dec i : Decision (is_creation i).
Proof. unfold is_creation. apply _. Defined.

(** The synchronisations that the creations of a list are for. *)
Definition created (l : list WorkItem) : list string := SyncID <$> filter is_creation l.

Section system.
Context {D F Mo N C : Type} `{!SyncTable D} (rows : D -> list Sync) `{!TableSpec D rows}
  `{!OsFiles F} `{!JsonCodec ZotConfig} `{!MonitorAPI Mo} `{!SyncClient N C}.
Context (url_error : string -> error) (uuid : nat -> string) (uuid_inj : forall i j, uuid i = uuid j -> i = j).
Notation W := (SyncWorld D F Mo N).

(** The state, with logs of the creations sent, of the items done and of the
    deletions that clients were granted. *)
Record SyncSys := {
  ss_w : W; ss_queue : list WorkItem; ss_sched : SyncSchedulerState; ss_busy : list Job;
  ss_sent : list string; ss_done : list WorkItem; ss_asked : list string }.

Inductive sync_step : SyncSys -> SyncSys -> Prop :=
  | step_create url r w w' q c b s d a :
      syncCtlr.CreateSync uuid url_error url w = (r, w') ->
      sync_step (Build_SyncSys w q c b s d a) (Build_SyncSys w' q c b s d a)
  | step_ask id w w' q c b s d a :
      syncCtlr.DeleteSync id w = (Ok tt, w') ->
      sync_step (Build_SyncSys w q c b s d a) (Build_SyncSys w' q c b s d (a ++ [id]))
  | step_refuse id e w w' q c b s d a :
      syncCtlr.DeleteSync id w = (Err e, w') ->
      sync_step (Build_SyncSys w q c b s d a) (Build_SyncSys w' q c b s d a)
  | step_tick ps w q b s d a :
      syncDB.GetSyncsByStatus SYNC_STATUS_PENDING (s_db w) = Ok ps ->
      sync_step (Build_SyncSys w q S_Idle b s d a) (Build_SyncSys w q (S_Creations ps) b s d a)
  | step_mark p l w w' q b s d a :
      syncDB.UpdateSyncStatus (Sync_ID p) SYNC_STATUS_IN_PROGRESS w = (Ok tt, w') ->
      sync_step (Build_SyncSys w q (S_Creations (p :: l)) b s d a)
                (Build_SyncSys w' q (S_Dispatch p l) b s d a)
  | step_unmarked p l e w w' q b s d a :
      syncDB.UpdateSyncStatus (Sync_ID p) SYNC_STATUS_IN_PROGRESS w = (Err e, w') ->
      sync_step (Build_SyncSys w q (S_Creations (p :: l)) b s d a)
                (Build_SyncSys w' q (S_Creations l) b s d a)
  | step_dispatch p l w q b s d a :
      (length q < SyncScheduler.workQueueSize)%nat ->
      sync_step (Build_SyncSys w q (S_Dispatch p l) b s d a)
                (Build_SyncSys w (q ++ [SyncScheduler.item_for WorkItemTypeSyncCreate p]) (S_Creations l) b
                   (s ++ [Sync_ID p]) d a)
  | step_full p l w q b s d a :
      ~ (length q < SyncScheduler.workQueueSize)%nat ->
      sync_step (Build_SyncSys w q (S_Dispatch p l) b s d a) (Build_SyncSys w q (S_Revert p l) b s d a)
  | step_revert p l r w w' q b s d a :
      syncDB.UpdateSyncStatus (Sync_ID p) SYNC_STATUS_PENDING w = (r, w') ->
      sync_step (Build_SyncSys w q (S_Revert p l) b s d a) (Build_SyncSys w' q (S_Creations l) b s d a)
  | step_deletions ps w q b s d a :
      syncDB.GetSyncsByStatus SYNC_STATUS_DELETE_PENDING (s_db w) = Ok ps ->
      sync_step (Build_SyncSys w q (S_Creations []) b s d a) (Build_SyncSys w q (S_Deletions ps) b s d a)
  | step_delete p l w q b s d a :
      (length q < SyncScheduler.workQueueSize)%nat ->
      sync_step (Build_SyncSys w q (S_Deletions (p :: l)) b s d a)
                (Build_SyncSys w (q ++ [SyncScheduler.item_for WorkItemTypeSyncDelete p]) (S_Deletions l) b s d a)
  | step_skip p l w q b s d a :
      ~ (length q < SyncScheduler.workQueueSize)%nat ->
      sync_step (Build_SyncSys w q (S_Deletions (p :: l)) b s d a) (Build_SyncSys w q (S_Deletions l) b s d a)
  | step_rest w q b s d a :
      sync_step (Build_SyncSys w q (S_Deletions []) b s d a) (Build_SyncSys w q S_Idle b s d a)
  | step_take i w q c b s d a :
      sync_step (Build_SyncSys w (i :: q) c b s d a) (Build_SyncSys w q c (b ++ [Running i]) s d a)
  | step_work i st w w' q c b1 b2 s d a :
      SyncWorker.work url_error i w = (st, w') ->
      sync_step (Build_SyncSys w q c (b1 ++ Running i :: b2) s d a)
                (Build_SyncSys w' q c (b1 ++ Verdict i st :: b2) s d a)
  | step_finish i st r w w' q c b1 b2 s d a :
      syncDB.UpdateSyncStatus (SyncID i) st w = (r, w') ->
      sync_step (Build_SyncSys w q c (b1 ++ Verdict i st :: b2) s d a)
                (Build_SyncSys w' q c (b1 ++ b2) s (d ++ [i]) a).

(** A service with an empty table. *)
Definition sync_initial (s : SyncSys) : Prop :=
  rows (s_db (ss_w s)) = [] /\ ss_queue s = [] /\ ss_sched s = S_Idle /\ ss_busy s = []
  /\ ss_sent s = [] /\ ss_done s = [] /\ ss_asked s = [].

Definition sync_reachable (s : SyncSys) : Prop := exists s0, sync_initial s0 /\ rtc sync_step s0 s.

Definition known (s : SyncSys) : list string := sync_ids rows (ss_w s).

(** An item that the scheduler has reason to send. *)
Definition item_ok (sent asked ids : list string) (i : WorkItem) : Prop :=
  SyncID i ∈ ids /\ (is_creation i /\ SyncID i ∈ sent \/ is_deletion i /\ SyncID i ∈ asked).

Definition job_ok (j : Job) : Prop :=
  match j with
  | Running _ => True
  | Verdict i st =>
      (st = SYNC_STATUS_IN_PROGRESS \/ st = SYNC_STATUS_FAILED) \/ st = SYNC_STATUS_DELETED /\ is_deletion i
  end.

(** Synchronisations of a tick that are not sent yet. *)
Definition unsent (sent ids : list string) (l : list Sync) : Prop :=
  NoDup (Sync_ID <$> l) /\ forall id, id ∈ Sync_ID <$> l -> id ∈ ids /\ id ∉ sent.

(** A row whose status fits what was sent and asked for. *)
Definition row_ok (sent asked : list string) (p : Sync) : Prop :=
  Sync_Status p <> SYNC_STATUS_UNSPECIFIED
  /\ (Sync_Status p = SYNC_STATUS_PENDING -> Sync_ID p ∉ sent)
  /\ (Sync_Status p = SYNC_STATUS_DELETE_PENDING \/ Sync_Status p = SYNC_STATUS_DELETED ->
        Sync_ID p ∈ asked).

Definition not_pending (id : string) (ps : list Sync) : Prop :=
  Forall (fun p => Sync_ID p = id -> Sync_Status p <> SYNC_STATUS_PENDING) ps.

Definition sched_ok (sent asked : list string) (ps : list Sync) (c : SyncSchedulerState) : Prop :=
  match c with
  | S_Idle => True
  | S_Creations l => unsent sent (Sync_ID <$> ps) l
  | S_Dispatch p l => unsent sent (Sync_ID <$> ps) (p :: l) /\ not_pending (Sync_ID p) ps
  | S_Revert p l => unsent sent (Sync_ID <$> ps) (p :: l)
  | S_Deletions l => forall id, id ∈ Sync_ID <$> l -> id ∈ Sync_ID <$> ps /\ id ∈ asked
  end.

Record sync_inv (s : SyncSys) : Prop := {
  si_ids : NoDup (known s);
  si_drawn id : id ∈ known s -> exists i, (i < s_tick (ss_w s))%nat /\ id = uuid i;
  si_perm : ss_sent s ≡ₚ created (ss_queue s) ++ created (job_item <$> ss_busy s) ++ created (ss_done s);
  si_nodup : NoDup (ss_sent s);
  si_known id : id ∈ ss_sent s -> id ∈ known s;
  si_cap : (length (ss_queue s) <= SyncScheduler.workQueueSize)%nat;
  si_queue : Forall (item_ok (ss_sent s) (ss_asked s) (known s)) (ss_queue s);
  si_items : Forall (item_ok (ss_sent s) (ss_asked s) (known s)) (job_item <$> ss_busy s);
  si_jobs : Forall job_ok (ss_busy s);
  si_rows : Forall (row_ok (ss_sent s) (ss_asked s)) (rows (s_db (ss_w s)));
  si_sched : sched_ok (ss_sent s) (ss_asked s) (rows (s_db (ss_w s))) (ss_sched s) }.

(** ** What steps do to the rows *)

(** The rows changed, in at most one row, and the clock did not go back. *)
Lemma work_rows i (w w' : W) st : NoDup (sync_ids rows w) ->
  SyncWorker.work url_error i w = (st, w') ->
  job_ok (Verdict i st) \/ (~ is_creation i /\ ~ is_deletion i).
Proof.
  intros Hnd. unfold SyncWorker.work, is_creation, is_deletion, bind. case_decide.
  - destruct (SyncWorker.addSync url_error i w) as [x w1]. intros [= <- <-]. left. simpl.
    destruct (is_ok x); auto.
  - case_decide; [|auto]. destruct (SyncWorker.deleteSync url_error i w) as [x w1].
    intros [= <- <-]. left. simpl. destruct (is_ok x); auto.
Qed.

(** The rows up to the recorded registries. *)
Definition same_but_registry (ps ps' : list Sync) : Prop :=
  (fun p => (Sync_GormID p, Sync_ID p, RemoteDirectoryURL p, Sync_Status p)) <$> ps'
  = (fun p => (Sync_GormID p, Sync_ID p, RemoteDirectoryURL p, Sync_Status p)) <$> ps.

Lemma registry_same id reg ps : same_but_registry ps (update_by id (set_registry reg) ps).
Proof.
  unfold same_but_registry, update_by. rewrite <- list_fmap_compose. apply list_fmap_ext.
  intros i p _. simpl. by case_decide.
Qed.

Lemma addSync_rows i (w : W) : NoDup (sync_ids rows w) ->
  let w' := (SyncWorker.addSync url_error i w).2 in
  same_but_registry (rows (s_db w)) (rows (s_db w')) /\ s_tick w' = s_tick w.
Proof.
  intros Hnd. unfold SyncWorker.addSync, try_bind, bind, sync_net, on_files, on_monitor.
  destruct (SyncWorker.negotiateCredentials _ (s_net w)) as [[reg|e] n]; simpl; [|done].
  set (w1 := Build_SyncWorld _ _ _ _ _ _ _ _ _).
  rewrite UpdateSyncRemoteRegistry_change.
  destruct (decide (SyncID i ∈ sync_ids rows w1)) as [Hin|Hin].
  - destruct (change_run rows (set_registry reg) (SyncID i) w1) as (d & -> & Hr); [done..|].
    assert (Hs : same_but_registry (rows (s_db w)) (rows d)) by (rewrite Hr; apply registry_same).
    simpl. destruct (zotsync.addRegistryToZotSync _ _ _) as [[[]|] f]; simpl; [|done].
    by destruct (mon_StartSyncMonitoring _ _) as [[[]|] m].
  - by rewrite (change_absent rows).
Qed.

Lemma deleteSync_rows i (w : W) :
  let w' := (SyncWorker.deleteSync url_error i w).2 in s_db w' = s_db w /\ s_tick w' = s_tick w.
Proof.
  unfold SyncWorker.deleteSync, try_bind, bind, sync_read, on_files, on_monitor.
  destruct (syncDB.GetSyncRemoteRegistry _ _) as [reg|e]; simpl; [|done].
  destruct (zotsync.removeRegistryFromZotSync _ _ _) as [[[]|] f]; simpl; [|done].
  by destruct (mon_StopSyncMonitoring _ _) as [x m].
Qed.

Lemma work_keeps i (w w' : W) st : NoDup (sync_ids rows w) ->
  SyncWorker.work url_error i w = (st, w') ->
  same_but_registry (rows (s_db w)) (rows (s_db w')) /\ s_tick w' = s_tick w.
Proof.
  intros Hnd. unfold SyncWorker.work, bind. case_decide; [|case_decide].
  - pose proof (addSync_rows i w Hnd) as Ha. destruct (SyncWorker.addSync _ _ _). by intros [= <- <-].
  - pose proof (deleteSync_rows i w) as [Hd Ht]. destruct (SyncWorker.deleteSync _ _ _).
    intros [= <- <-]. simpl in *. by rewrite Hd, Ht.
  - by intros [= <- <-].
Qed.

Lemma same_ids ps ps' : same_but_registry ps ps' -> Sync_ID <$> ps' = Sync_ID <$> ps.
Proof. intros Hs. apply (f_equal (fmap (fun x => x.1.1.2))) in Hs. by rewrite <- !list_fmap_compose in Hs. Qed.

(** What holds of IDs and statuses stays. *)
Lemma same_Forall (P : string -> SyncStatus -> Prop) ps ps' : same_but_registry ps ps' ->
  Forall (fun p => P (Sync_ID p) (Sync_Status p)) ps -> Forall (fun p => P (Sync_ID p) (Sync_Status p)) ps'.
Proof.
  intros Hs HP. apply (f_equal (fmap (fun x => (x.1.1.2, x.2)))) in Hs.
  rewrite <- !list_fmap_compose in Hs. apply Forall_forall. intros p Hp.
  pose proof (list_elem_of_fmap_2 (fun p => (Sync_ID p, Sync_Status p)) _ _ Hp) as Hin.
  change (((fun x => (x.1.1.2, x.2)) ∘ (fun p => (Sync_GormID p, Sync_ID p, RemoteDirectoryURL p, Sync_Status p))
    <$> ps') = ((fun p => (Sync_ID p, Sync_Status p)) <$> ps)) in Hs.
  change ((Sync_ID p, Sync_Status p) ∈ ((fun x => (x.1.1.2, x.2)) ∘ (fun p => (Sync_GormID p, Sync_ID p, RemoteDirectoryURL p, Sync_Status p)) <$> ps')) in Hin.
  rewrite Hs in Hin. apply list_elem_of_fmap in Hin as (q & [= -> ->] & Hq). by eapply Forall_forall in HP.
Qed.

Lemma update_Forall (P : string -> SyncStatus -> Prop) id st ps :
  Forall (fun p => P (Sync_ID p) (Sync_Status p)) ps -> (id ∈ Sync_ID <$> ps -> P id st) ->
  Forall (fun p => P (Sync_ID p) (Sync_Status p)) (update_by id (set_sync_status st) ps).
Proof.
  intros HP Hst. apply Forall_forall. intros p [(q & Hq & <- & ->)|[Hin _]]%elem_update.
  - simpl. apply Hst. by apply list_elem_of_fmap_2.
  - by eapply Forall_forall in HP.
Qed.

Lemma item_ok_mono sent sent' asked asked' ids ids' i :
  sent ⊆ sent' -> asked ⊆ asked' -> ids ⊆ ids' -> item_ok sent asked ids i -> item_ok sent' asked' ids' i.
Proof. unfold item_ok. set_solver. Qed.

Lemma created_app l l' : created (l ++ l') = created l ++ created l'.
Proof. unfold created. by rewrite filter_app, fmap_app. Qed.

(** ** The invariant *)

(** A change of the table that keeps IDs, takes nothing back to PENDING and
    leaves rows in order. *)
Lemma inv_table s w' a' :
  sync_inv s -> Sync_ID <$> rows (s_db w') = known s -> (s_tick (ss_w s) <= s_tick w')%nat ->
  ss_asked s ⊆ a' -> Forall (row_ok (ss_sent s) a') (rows (s_db w')) ->
  (forall id, not_pending id (rows (s_db (ss_w s))) -> not_pending id (rows (s_db w'))) ->
  sync_inv (Build_SyncSys w' (ss_queue s) (ss_sched s) (ss_busy s) (ss_sent s) (ss_done s) a').
Proof.
  intros [Hi Hdr Hp Hnd Hk Hc Hq Hb Hj Hr Hs] Hids Ht Ha Hr' Hnp.
  assert (Hkn : known (Build_SyncSys w' (ss_queue s) (ss_sched s) (ss_busy s) (ss_sent s) (ss_done s) a') = known s)
    by done.
  split; rewrite ?Hkn; simpl; try done.
  - intros id Hid. destruct (Hdr id Hid) as (n & Hn & ->). exists n. split; [lia|done].
  - eapply Forall_impl; [exact Hq|]. intros i. by apply item_ok_mono.
  - eapply Forall_impl; [exact Hb|]. intros i. by apply item_ok_mono.
  - unfold known, sync_ids in Hids. destruct (ss_sched s); simpl in *; rewrite ?Hids; try done.
    + destruct Hs as [? Hnps]. split; [done|by apply Hnp].
    + intros id Hid. destruct (Hs id Hid). split; [done|by apply Ha].
Qed.

Lemma inv_sched s c' :
  sync_inv s -> sched_ok (ss_sent s) (ss_asked s) (rows (s_db (ss_w s))) c' ->
  sync_inv (Build_SyncSys (ss_w s) (ss_queue s) c' (ss_busy s) (ss_sent s) (ss_done s) (ss_asked s)).
Proof. intros [Hi Hdr Hp Hnd Hk Hc Hq Hb Hj Hr Hs] Hc'. by split. Qed.

(** A status set by a worker, the scheduler or a client. *)
Lemma inv_status s id st r w' a' :
  sync_inv s -> syncDB.UpdateSyncStatus id st (ss_w s) = (r, w') -> ss_asked s ⊆ a' ->
  st <> SYNC_STATUS_UNSPECIFIED -> st <> SYNC_STATUS_PENDING ->
  (st = SYNC_STATUS_DELETE_PENDING \/ st = SYNC_STATUS_DELETED -> id ∈ a') ->
  sync_inv (Build_SyncSys w' (ss_queue s) (ss_sched s) (ss_busy s) (ss_sent s) (ss_done s) a').
Proof.
  intros Hinv Hrun Ha Hu Hp Hd. pose proof (si_ids _ Hinv) as Hi.
  destruct (status_run rows id st (ss_w s) Hi) as (x & d & Hrun' & Hr & _).
  rewrite Hrun in Hrun'. injection Hrun' as -> ->.
  apply inv_table; simpl; try done.
  - rewrite Hr. by apply change_ids.
  - rewrite Hr. apply (update_Forall (fun i st => st <> SYNC_STATUS_UNSPECIFIED
      /\ (st = SYNC_STATUS_PENDING -> i ∉ ss_sent s)
      /\ (st = SYNC_STATUS_DELETE_PENDING \/ st = SYNC_STATUS_DELETED -> i ∈ a'))); [|done].
    eapply Forall_impl; [apply (si_rows _ Hinv)|]. intros p (? & ? & Hpa). set_solver.
  - intros i Hn. rewrite Hr. by apply (update_Forall (fun i' st => i' = i -> st <> SYNC_STATUS_PENDING)).
Qed.

Lemma sync_inv_create s url r w' :
  sync_inv s -> syncCtlr.CreateSync uuid url_error url (ss_w s) = (r, w') ->
  sync_inv (Build_SyncSys w' (ss_queue s) (ss_sched s) (ss_busy s) (ss_sent s) (ss_done s) (ss_asked s)).
Proof.
  intros Hinv Hrun. unfold syncCtlr.CreateSync in Hrun.
  destruct (syncCtlr.validateRemoteDirectoryURL url_error url).
  2:{ injection Hrun as <- <-. by destruct s. }
  destruct (create_run rows uuid url (ss_w s)) as (d & k & Hcr & Hr).
  rewrite (try_bind_ok _ _ _ _ _ _ Hcr) in Hrun. injection Hrun as <- <-.
  destruct Hinv as [Hi Hdr Hp Hnd Hk Hc Hq Hb Hj Hrs Hs].
  set (id := uuid (s_tick (ss_w s))) in *.
  assert (Hnew : id ∉ known s).
  { intros Hin. destruct (Hdr _ Hin) as (i & Hi' & He). apply uuid_inj in He. lia. }
  match goal with |- sync_inv ?x => set (s' := x) end.
  assert (Hids' : known s' = known s ++ [id]).
  { unfold known, sync_ids, s'. simpl. by rewrite Hr, fmap_app. }
  split; rewrite ?Hids'; unfold s'; simpl; try done.
  - apply NoDup_app. split; [done|]. split; [|apply NoDup_singleton].
    by intros x Hx ->%list_elem_of_singleton.
  - intros x [Hin| ->%list_elem_of_singleton]%elem_of_app.
    + destruct (Hdr x Hin) as (i & Hi' & ->). exists i. split; [lia|done].
    + eexists. split; [|done]. lia.
  - intros x Hin. apply elem_of_app. auto.
  - eapply Forall_impl; [exact Hq|]. intros i. apply item_ok_mono; set_solver.
  - eapply Forall_impl; [exact Hb|]. intros i. apply item_ok_mono; set_solver.
  - rewrite Hr. apply Forall_app. split; [done|]. apply Forall_singleton. split; [done|]. simpl.
    split; [intros _ Hsent; by apply Hnew, Hk|]. by intros [?|?].
  - unfold sched_ok, unsent in *. rewrite Hr, !fmap_app. unfold known, sync_ids in *.
    destruct (ss_sched s) as [|l|p l|p l|l]; try done.
    + split; [apply Hs|]. intros x Hx. destruct Hs as [_ Hs]. destruct (Hs x Hx). set_solver.
    + destruct Hs as [[Hl Hs] Hn]. split; [split; [done|]|].
      { intros x Hx. destruct (Hs x Hx). set_solver. }
      apply Forall_app. split; [done|]. apply Forall_singleton. intros Heq. exfalso.
      apply Hnew. change (id = Sync_ID p) in Heq. rewrite Heq. apply (Hs (Sync_ID p)). simpl. left.
    + split; [apply Hs|]. intros x Hx. destruct Hs as [_ Hs]. destruct (Hs x Hx). set_solver.
    + intros x Hx. destruct (Hs x Hx). set_solver.
Qed.

Lemma deletion_refused id (w w' : W) e : NoDup (sync_ids rows w) ->
  syncCtlr.DeleteSync id w = (Err e, w') -> w' = w.
Proof.
  intros Hnd Hrun. destruct (first_by_id id (rows (s_db w))) as [p|] eqn:Hp.
  - pose proof (delete_run rows id w p Hnd Hp) as Hd. case_decide; rewrite Hrun in Hd; [congruence|].
    by destruct Hd as (d & [=] & _).
  - unfold syncCtlr.DeleteSync in Hrun. erewrite try_bind_err in Hrun; [by injection Hrun|].
    unfold sync_read, syncDB.GetSyncByID. apply first_by_id_None in Hp. by rewrite (First_absent rows).
Qed.

Lemma deletion_granted id (w w' : W) : NoDup (sync_ids rows w) ->
  syncCtlr.DeleteSync id w = (Ok tt, w') ->
  exists p d, first_by_id id (rows (s_db w)) = Some p /\ Sync_Status p <> SYNC_STATUS_DELETED
    /\ w' = set_db w d /\ rows d = update_by id (set_sync_status SYNC_STATUS_DELETE_PENDING) (rows (s_db w)).
Proof.
  intros Hnd Hrun. destruct (first_by_id id (rows (s_db w))) as [p|] eqn:Hp.
  - pose proof (delete_run rows id w p Hnd Hp) as Hd. case_decide; rewrite Hrun in Hd; [congruence|].
    destruct Hd as (d & [= ->] & Hr). eauto 10.
  - unfold syncCtlr.DeleteSync in Hrun. erewrite try_bind_err in Hrun; [by injection Hrun|].
    unfold sync_read, syncDB.GetSyncByID. apply first_by_id_None in Hp. by rewrite (First_absent rows).
Qed.

Lemma inv_ask s id w' :
  sync_inv s -> syncCtlr.DeleteSync id (ss_w s) = (Ok tt, w') ->
  sync_inv (Build_SyncSys w' (ss_queue s) (ss_sched s) (ss_busy s) (ss_sent s) (ss_done s) (ss_asked s ++ [id])).
Proof.
  intros Hinv Hrun.
  destruct (deletion_granted id (ss_w s) w' (si_ids _ Hinv) Hrun) as (p & d & _ & _ & -> & Hr).
  apply inv_table; simpl; try done.
  - rewrite Hr. by apply change_ids.
  - set_solver.
  - rewrite Hr. apply (update_Forall (fun i st => st <> SYNC_STATUS_UNSPECIFIED
      /\ (st = SYNC_STATUS_PENDING -> i ∉ ss_sent s)
      /\ (st = SYNC_STATUS_DELETE_PENDING \/ st = SYNC_STATUS_DELETED -> i ∈ ss_asked s ++ [id]))).
    + eapply Forall_impl; [apply (si_rows _ Hinv)|]. intros q (? & ? & Hpa). set_solver.
    + set_solver.
  - intros i Hn. rewrite Hr. by apply (update_Forall (fun i' st => i' = i -> st <> SYNC_STATUS_PENDING)).
Qed.

Lemma inv_work s i st w' b1 b2 :
  sync_inv s -> ss_busy s = b1 ++ Running i :: b2 ->
  SyncWorker.work url_error i (ss_w s) = (st, w') ->
  sync_inv (Build_SyncSys w' (ss_queue s) (ss_sched s) (b1 ++ Verdict i st :: b2) (ss_sent s) (ss_done s) (ss_asked s)).
Proof.
  intros Hinv Hb Hrun. destruct (work_keeps i _ w' st (si_ids _ Hinv) Hrun) as [Hsame Ht].
  assert (Hinv' : sync_inv (Build_SyncSys w' (ss_queue s) (ss_sched s) (ss_busy s) (ss_sent s) (ss_done s) (ss_asked s))).
  { apply inv_table; simpl; try done; [by apply same_ids|lia|..].
    - apply (same_Forall (fun i st => st <> SYNC_STATUS_UNSPECIFIED
        /\ (st = SYNC_STATUS_PENDING -> i ∉ ss_sent s)
        /\ (st = SYNC_STATUS_DELETE_PENDING \/ st = SYNC_STATUS_DELETED -> i ∈ ss_asked s)) _ _ Hsame),
        (si_rows _ Hinv).
    - intros id. by apply (same_Forall (fun i' st => i' = id -> st <> SYNC_STATUS_PENDING)). }
  pose proof (si_ids _ Hinv) as Hi. destruct Hinv' as [Hi' Hdr Hp Hnd Hk Hc Hq Hbi Hj Hrs Hs]. simpl in *.
  assert (Heq : job_item <$> (b1 ++ Verdict i st :: b2) = job_item <$> ss_busy s).
  { by rewrite Hb, !fmap_app. }
  split; simpl; rewrite ?Heq; try done. rewrite Hb in Hj.
  apply Forall_app in Hj as [Hj1 [_ Hj2]%Forall_cons]. apply Forall_app. split; [done|].
  constructor; [|done]. destruct (work_rows i _ w' st Hi Hrun) as [?|[Hnc Hnd']]; [done|].
  rewrite Hb, fmap_app in Hbi. apply Forall_app in Hbi as [_ [Hio _]%Forall_cons].
  exfalso. simpl in Hio. unfold item_ok in Hio. tauto.
Qed.

Lemma inv_finish s i st r w' b1 b2 :
  sync_inv s -> ss_busy s = b1 ++ Verdict i st :: b2 ->
  syncDB.UpdateSyncStatus (SyncID i) st (ss_w s) = (r, w') ->
  sync_inv (Build_SyncSys w' (ss_queue s) (ss_sched s) (b1 ++ b2) (ss_sent s) (ss_done s ++ [i]) (ss_asked s)).
Proof.
  intros Hinv Hb Hrun. pose proof (si_jobs _ Hinv) as Hj. rewrite Hb in Hj.
  apply Forall_app in Hj as [Hj1 [Hji Hj2]%Forall_cons].
  pose proof (si_items _ Hinv) as Hio. rewrite Hb, fmap_app in Hio.
  apply Forall_app in Hio as [_ [Hio _]%Forall_cons]. simpl in Hio.
  assert (Hd : is_deletion i -> SyncID i ∈ ss_asked s).
  { intros Hdel. destruct Hio as [_ [[Hcr _]|[_ ?]]]; [|done]. unfold is_creation, is_deletion in *.
    rewrite Hdel in Hcr. discriminate Hcr. }
  assert (Hinv' := inv_status s (SyncID i) st r w' (ss_asked s) Hinv Hrun).
  destruct Hinv' as [Hi' Hdr Hp Hnd Hk Hc Hq Hbi Hj Hrs Hs]; simpl in *.
  { done. } { destruct Hji as [[->| ->]|[-> _]]; done. } { destruct Hji as [[->| ->]|[-> _]]; done. }
  { intros Hst. destruct Hji as [[->| ->]|[_ ?]]; [by destruct Hst..|auto]. }
  split; simpl; try done.
  - rewrite Hp, Hb, fmap_app, fmap_cons, !created_app. simpl.
    change (i :: (job_item <$> b2)) with ([i] ++ (job_item <$> b2)). rewrite !fmap_app, !created_app.
    rewrite <- !app_assoc. apply Permutation_app_head, Permutation_app_head.
    rewrite (app_assoc (created [i])), (Permutation_app_comm (created [i])), <- app_assoc.
    apply Permutation_app_head, Permutation_app_comm.
  - rewrite Hb, fmap_app, fmap_cons in Hbi. apply Forall_app in Hbi as [? [_ ?]%Forall_cons].
    rewrite fmap_app. by apply Forall_app.
  - by apply Forall_app.
Qed.

(** Marking, and putting back, a synchronisation that is not sent. *)
Lemma inv_mark s p l st r w' :
  sync_inv s -> unsent (ss_sent s) (known s) (p :: l) ->
  syncDB.UpdateSyncStatus (Sync_ID p) st (ss_w s) = (r, w') ->
  st = SYNC_STATUS_IN_PROGRESS \/ st = SYNC_STATUS_PENDING ->
  ss_sched s = S_Creations (p :: l) \/ ss_sched s = S_Revert p l ->
  sync_inv (Build_SyncSys w' (ss_queue s)
    (if decide (st = SYNC_STATUS_PENDING) then S_Creations l else S_Dispatch p l)
    (ss_busy s) (ss_sent s) (ss_done s) (ss_asked s)).
Proof.
  intros Hinv Hun Hrun Hst Hc. pose proof (si_ids _ Hinv) as Hi.
  destruct (status_run rows (Sync_ID p) st (ss_w s) Hi) as (x & d & Hrun' & Hr & _).
  rewrite Hrun in Hrun'. injection Hrun' as -> ->.
  assert (Hids : Sync_ID <$> rows d = known s) by (rewrite Hr; by apply change_ids).
  destruct Hinv as [_ Hdr Hp Hnd Hk Hcap Hq Hb Hj Hrs Hs].
  assert (Hkn : forall c, known (Build_SyncSys (set_db (ss_w s) d) (ss_queue s) c (ss_busy s) (ss_sent s)
    (ss_done s) (ss_asked s)) = known s) by done.
  split; rewrite ?Hkn; simpl; try done.
  - rewrite Hr. apply (update_Forall (fun i st => st <> SYNC_STATUS_UNSPECIFIED
      /\ (st = SYNC_STATUS_PENDING -> i ∉ ss_sent s)
      /\ (st = SYNC_STATUS_DELETE_PENDING \/ st = SYNC_STATUS_DELETED -> i ∈ ss_asked s))); [done|].
    intros _. split; [by destruct Hst as [->| ->]|]. split; [|by destruct Hst as [->| ->]; intros [?|?]].
    intros _. apply (proj2 Hun). left.
  - case_decide as Hpend; simpl; unfold unsent in *; rewrite Hids.
    + destruct Hun as [[_ ?]%NoDup_cons Hun]. split; [done|]. intros id Hid. apply Hun. by right.
    + split; [done|]. unfold not_pending. rewrite Hr. apply Forall_forall.
      intros q [(q' & _ & _ & ->)|[_ Hne]]%elem_update; [by intros _|]. intros Heq. by destruct Hne.
Qed.

Lemma sync_step_inv s s' : sync_inv s -> sync_step s s' -> sync_inv s'.
Proof.
  intros Hinv Hstep. destruct Hstep as
    [url r w w' q c b sn d a Hrun|id w w' q c b sn d a Hrun|id e w w' q c b sn d a Hrun
    |ps w q b sn d a Hps|p l w w' q b sn d a Hrun|p l e w w' q b sn d a Hrun|p l w q b sn d a Hlen
    |p l w q b sn d a Hlen|p l r w w' q b sn d a Hrun|ps w q b sn d a Hps|p l w q b sn d a Hlen
    |p l w q b sn d a Hlen|w q b sn d a|i w q c b sn d a|i st w w' q c b1 b2 sn d a Hrun
    |i st r w w' q c b1 b2 sn d a Hrun].
  - exact (sync_inv_create (Build_SyncSys w q c b sn d a) url r w' Hinv Hrun).
  - exact (inv_ask (Build_SyncSys w q c b sn d a) id w' Hinv Hrun).
  - by rewrite (deletion_refused id w w' e (si_ids _ Hinv) Hrun).
  - apply (inv_sched _ (S_Creations ps) Hinv). simpl.
    unfold syncDB.GetSyncsByStatus in Hps. rewrite (tbl_FindByStatus_spec (rows := rows)) in Hps.
    injection Hps as <-. split; [by apply NoDup_fmap_filter, (si_ids _ Hinv)|].
    intros id (p & -> & [Hst Hin]%list_elem_of_filter)%list_elem_of_fmap.
    split; [by apply list_elem_of_fmap_2|].
    pose proof (proj1 (Forall_forall _ _) (si_rows _ Hinv) p Hin) as (_ & Hp & _). by apply Hp.
  - apply (inv_mark (Build_SyncSys w q (S_Creations (p :: l)) b sn d a) p l SYNC_STATUS_IN_PROGRESS (Ok tt) w' Hinv (si_sched _ Hinv) Hrun);
      simpl; auto.
  - exfalso. destruct (status_run rows (Sync_ID p) SYNC_STATUS_IN_PROGRESS w (si_ids _ Hinv))
      as (x & d' & Hrun' & _ & Hx). rewrite Hrun in Hrun'. injection Hrun' as <- ->.
    symmetry in Hx. simpl in Hx. bool_to_prop. apply Hx. apply (si_sched _ Hinv). left.
  - destruct Hinv as [Hi Hdr Hp Hnd Hk Hc Hq Hb Hj Hrs Hs]. simpl in *. destruct Hs as [[Hnl Hl] Hnp].
    destruct (Hl (Sync_ID p)) as [Hin Hns]; [by left|]. apply NoDup_cons in Hnl as [Hpl Hnl].
    split; simpl; try done.
    + rewrite created_app. rewrite Hp, <- !app_assoc. apply Permutation_app_head.
      rewrite (Permutation_app_comm (created [_])), <- app_assoc. done.
    + apply NoDup_app. split; [done|]. split; [|apply NoDup_singleton].
      by intros x Hx ->%list_elem_of_singleton.
    + intros x [Hx| ->%list_elem_of_singleton]%elem_of_app; auto.
    + rewrite length_app. simpl. lia.
    + apply Forall_app. split; [eapply Forall_impl; [exact Hq|]; intros i; apply item_ok_mono; set_solver|].
      apply Forall_singleton. split; [done|]. left. split; [done|]. simpl. set_solver.
    + eapply Forall_impl; [exact Hb|]. intros i. apply item_ok_mono; set_solver.
    + apply Forall_forall. intros r Hr. pose proof (proj1 (Forall_forall _ _) Hrs r Hr) as (? & Hrp & ?).
      pose proof (proj1 (Forall_forall _ _) Hnp r Hr) as Hrn. simpl in Hrn.
      split; [done|]. split; [|done]. intros Hst [Hx|Hx%list_elem_of_singleton]%elem_of_app; [by apply Hrp|].
      by apply Hrn.
    + split; [done|]. intros x Hx. destruct (Hl x); [by right|]. split; [done|].
      intros [?|Heq%list_elem_of_singleton]%elem_of_app; [done|]. by subst.
  - apply (inv_sched _ (S_Revert p l) Hinv). apply (si_sched _ Hinv).
  - apply (inv_mark (Build_SyncSys w q (S_Revert p l) b sn d a) p l SYNC_STATUS_PENDING r w' Hinv (si_sched _ Hinv) Hrun);
      simpl; auto.
  - apply (inv_sched _ (S_Deletions ps) Hinv). simpl.
    unfold syncDB.GetSyncsByStatus in Hps. rewrite (tbl_FindByStatus_spec (rows := rows)) in Hps.
    injection Hps as <-. intros id (p & -> & [Hst Hin]%list_elem_of_filter)%list_elem_of_fmap.
    split; [by apply list_elem_of_fmap_2|].
    pose proof (proj1 (Forall_forall _ _) (si_rows _ Hinv) p Hin) as (_ & _ & Hp). apply Hp. by left.
  - pose proof (inv_sched _ (S_Deletions l) Hinv) as Hinv'.
    destruct Hinv' as [Hi Hdr Hp Hnd Hk Hc Hq Hb Hj Hrs Hs]; simpl in *.
    { intros id Hid. apply (si_sched _ Hinv). by right. }
    destruct (si_sched _ Hinv (Sync_ID p)) as [Hin Ha]; [left|].
    split; simpl; try done.
    + rewrite created_app. simpl. by rewrite app_nil_r.
    + rewrite length_app. simpl. lia.
    + apply Forall_app. split; [done|]. apply Forall_singleton. split; [done|]. right. done.
  - apply (inv_sched _ (S_Deletions l) Hinv). intros id Hid. apply (si_sched _ Hinv). by right.
  - by apply (inv_sched _ S_Idle Hinv).
  - destruct Hinv as [Hi Hdr Hp Hnd Hk Hc Hq Hb Hj Hrs Hs]. simpl in *.
    apply Forall_cons in Hq as [Hqi Hq].
    split; simpl; try done.
    + rewrite fmap_app, created_app, Hp.
      assert (created (i :: q) = created [i] ++ created q) as -> by (by rewrite <- created_app).
      change (job_item <$> [Running i]) with [i]. solve_Permutation.
    + lia.
    + rewrite fmap_app. apply Forall_app. split; [done|by apply Forall_singleton].
    + apply Forall_app. split; [done|by apply Forall_singleton].
  - by apply (inv_work (Build_SyncSys w q c (b1 ++ Running i :: b2) sn d a) i st w' b1 b2).
  - by apply (inv_finish (Build_SyncSys w q c (b1 ++ Verdict i st :: b2) sn d a) i st r w' b1 b2).
Qed.

Lemma sync_reachable_inv s : sync_reachable s -> sync_inv s.
Proof.
  intros (s0 & (Hr & Hq & Hc & Hb & Hs & Hd & Ha) & Hsteps).
  assert (H0 : sync_inv s0).
  { destruct s0. simpl in *. subst. split; unfold known, sync_ids; simpl; rewrite ?Hr; simpl; try done;
      try constructor; try lia; by intros ? ?%elem_of_nil. }
  clear Hr Hq Hc Hb Hs Hd Ha. induction Hsteps as [|s0 s1 s2 Hstep _ IH]; [done|].
  by apply IH, (sync_step_inv s0).
Qed.

(** The sync service keeps its books.  In every reachable state of clients,
    scheduler and workers: the creation of a synchronisation was sent at most
    once, and the ones sent are in the queue, with a worker or done, each once;
    the queue holds at most 100 items, each for a known synchronisation; one
    whose creation was sent is no longer PENDING; no status is UNSPECIFIED; and
    one is only DELETE_PENDING or DELETED when a client asked for it. *)
Theorem sync_books s :
  sync_reachable s ->
  NoDup (ss_sent s)
  /\ ss_sent s ≡ₚ created (ss_queue s) ++ created (job_item <$> ss_busy s) ++ created (ss_done s)
  /\ (length (ss_queue s) <= SyncScheduler.workQueueSize)%nat
  /\ (forall i, i ∈ ss_queue s ++ (job_item <$> ss_busy s) -> SyncID i ∈ known s
        /\ (is_creation i \/ is_deletion i /\ SyncID i ∈ ss_asked s))
  /\ (forall p, p ∈ rows (s_db (ss_w s)) -> Sync_Status p <> SYNC_STATUS_UNSPECIFIED
        /\ (Sync_ID p ∈ ss_sent s -> Sync_Status p <> SYNC_STATUS_PENDING)
        /\ (Sync_Status p = SYNC_STATUS_DELETE_PENDING \/ Sync_Status p = SYNC_STATUS_DELETED ->
              Sync_ID p ∈ ss_asked s)).
Proof.
  intros [Hi Hdr Hp Hnd Hk Hc Hq Hb Hj Hrs Hs]%sync_reachable_inv.
  do 3 (split; [done|]). split.
  - intros i Hin. rewrite elem_of_app in Hin.
    assert (Hio : item_ok (ss_sent s) (ss_asked s) (known s) i).
    { rewrite Forall_forall in Hq, Hb. destruct Hin; auto. }
    destruct Hio as [? Hio]. split; [done|]. tauto.
  - intros p Hin. rewrite Forall_forall in Hrs. destruct (Hrs p Hin) as (? & Hpe & ?).
    split; [done|]. split; [|done]. intros Hsent Hst. by apply Hpe.
Qed.

(** ** The code's loops are runs *)

Lemma creations_run ps w q b sn d a :
  exists sn', rtc sync_step (Build_SyncSys w q (S_Creations ps) b sn d a)
    (Build_SyncSys (for_each SyncScheduler.dispatch_creation ps (w, q)).2.1
       (for_each SyncScheduler.dispatch_creation ps (w, q)).2.2 (S_Creations []) b sn' d a).
Proof.
  revert w q sn. induction ps as [|p ps IH]; intros w q sn; [by exists sn|].
  destruct (syncDB.UpdateSyncStatus (Sync_ID p) SYNC_STATUS_IN_PROGRESS w) as [[[]|e] w1] eqn:Hu.
  - assert (Hm : SyncScheduler.in_world (syncDB.UpdateSyncStatus (Sync_ID p) SYNC_STATUS_IN_PROGRESS) (w, q)
      = (Ok tt, (w1, q))) by (unfold SyncScheduler.in_world; by rewrite Hu).
    destruct (decide (length q < SyncScheduler.workQueueSize)%nat) as [Hlen|Hlen].
    + rewrite (for_each_cons _ p ps _ (w1, q ++ [SyncScheduler.item_for WorkItemTypeSyncCreate p])).
      * destruct (IH w1 (q ++ [SyncScheduler.item_for WorkItemTypeSyncCreate p]) (sn ++ [Sync_ID p])) as (sn' & Hs).
        exists sn'. eapply rtc_l; [by apply step_mark|]. by eapply rtc_l; [apply step_dispatch|].
      * unfold SyncScheduler.dispatch_creation. rewrite (try_bind_ok _ _ _ _ _ _ Hm).
        by rewrite (try_bind_ok _ _ _ _ _ _ (dispatch_room _ w1 q Hlen)).
    + destruct (syncDB.UpdateSyncStatus (Sync_ID p) SYNC_STATUS_PENDING w1) as [r w2] eqn:Hr.
      rewrite (for_each_cons _ p ps _ (w2, q)).
      * destruct (IH w2 q sn) as (sn' & Hs). exists sn'. eapply rtc_l; [by apply step_mark|].
        eapply rtc_l; [by apply step_full|]. by eapply rtc_l; [eapply step_revert|].
      * unfold SyncScheduler.dispatch_creation. rewrite (try_bind_ok _ _ _ _ _ _ Hm).
        erewrite try_bind_err by (unfold SyncScheduler.dispatchWorkItem; by rewrite decide_False).
        by erewrite bind_run by (unfold SyncScheduler.in_world; by rewrite Hr).
  - rewrite (for_each_cons _ p ps _ (w1, q)).
    + destruct (IH w1 q sn) as (sn' & Hs). exists sn'. by eapply rtc_l; [eapply step_unmarked|].
    + unfold SyncScheduler.dispatch_creation.
      by erewrite try_bind_err by (unfold SyncScheduler.in_world; by rewrite Hu).
Qed.

Lemma deletions_run ps w q b sn d a :
  rtc sync_step (Build_SyncSys w q (S_Deletions ps) b sn d a)
    (Build_SyncSys (for_each SyncScheduler.dispatch_deletion ps (w, q)).2.1
       (for_each SyncScheduler.dispatch_deletion ps (w, q)).2.2 S_Idle b sn d a).
Proof.
  revert q. induction ps as [|p ps IH]; intros q; [apply rtc_once, step_rest|].
  destruct (decide (length q < SyncScheduler.workQueueSize)%nat) as [Hlen|Hlen].
  - rewrite (for_each_cons _ p ps _ (w, q ++ [SyncScheduler.item_for WorkItemTypeSyncDelete p])).
    + by eapply rtc_l; [apply step_delete|].
    + unfold SyncScheduler.dispatch_deletion. by rewrite (bind_run _ _ _ _ _ (dispatch_room _ w q Hlen)).
  - rewrite (for_each_cons _ p ps _ (w, q)).
    + by eapply rtc_l; [apply step_skip|].
    + unfold SyncScheduler.dispatch_deletion.
      by erewrite bind_run by (unfold SyncScheduler.dispatchWorkItem; by rewrite decide_False).
Qed.

(** A tick of the scheduler, and the processing of an item by a worker, are runs of
    the steps in which no other step comes between. *)
Theorem sync_code_runs :
  (forall w q b sn d a, exists sn', rtc sync_step (Build_SyncSys w q S_Idle b sn d a)
     (Build_SyncSys (SyncScheduler.processPendingSyncs (w, q)).2.1
        (SyncScheduler.processPendingSyncs (w, q)).2.2 S_Idle b sn' d a)) /\
  (forall i w q c b sn d a, rtc sync_step (Build_SyncSys w (i :: q) c b sn d a)
     (Build_SyncSys (SyncWorker.processWorkItem url_error i w).2 q c b sn (d ++ [i]) a)).
Proof.
  split.
  - intros w q b sn d a.
    unfold SyncScheduler.processPendingSyncs, SyncScheduler.processPendingSyncCreations,
      SyncScheduler.processPendingSyncDeletions.
    pose proof (listed rows SYNC_STATUS_PENDING w q) as Hl.
    destruct (creations_run (with_status SYNC_STATUS_PENDING (rows (s_db w))) w q b sn d a) as (sn' & Hs).
    destruct (for_each SyncScheduler.dispatch_creation (with_status SYNC_STATUS_PENDING (rows (s_db w))) (w, q))
      as [[] [w1 q1]] eqn:Hc. simpl in Hs. exists sn'.
    erewrite bind_run by (rewrite (try_bind_ok _ _ _ _ _ _ Hl); by rewrite (bind_run _ _ _ _ _ Hc)).
    pose proof (listed rows SYNC_STATUS_DELETE_PENDING w1 q1) as Hl1.
    pose proof (deletions_run (with_status SYNC_STATUS_DELETE_PENDING (rows (s_db w1))) w1 q1 b sn' d a) as Hs1.
    destruct (for_each SyncScheduler.dispatch_deletion (with_status SYNC_STATUS_DELETE_PENDING (rows (s_db w1))) (w1, q1))
      as [[] [w2 q2]] eqn:Hd. simpl in Hs1.
    erewrite bind_run by (rewrite (try_bind_ok _ _ _ _ _ _ Hl1); by rewrite (bind_run _ _ _ _ _ Hd)). simpl.
    eapply rtc_l; [apply (step_tick (with_status SYNC_STATUS_PENDING (rows (s_db w))));
      apply (tbl_FindByStatus_spec (rows := rows))|].
    etrans; [exact Hs|]. eapply rtc_l; [|exact Hs1].
    apply step_deletions. apply (tbl_FindByStatus_spec (rows := rows)).
  - intros i w q c b sn d a. unfold SyncWorker.processWorkItem.
    destruct (SyncWorker.work url_error i w) as [st w1] eqn:Hw. rewrite (bind_run _ _ _ _ _ Hw).
    destruct (syncDB.UpdateSyncStatus (SyncID i) st w1) as [r w2] eqn:Hu. rewrite (bind_run _ _ _ _ _ Hu). simpl.
    eapply rtc_l; [apply step_take|]. eapply rtc_l; [by eapply (step_work i st w w1 q c b [])|].
    eapply rtc_l; [by eapply (step_finish i st r w1 w2 q c b [])|]. rewrite app_nil_r. done.
Qed.

(** ** A deletion can be lost *)

(** How often the deletion of a synchronisation was granted. *)
Definition asked_for (id : string) (s : SyncSys) : nat := length (filter (fun x => x = id) (ss_asked s)).

(** No deletion of it is on its way to a worker. *)
Definition no_deletion (id : string) (s : SyncSys) : Prop :=
  (forall i, i ∈ ss_queue s ++ (job_item <$> ss_busy s) -> SyncID i = id -> ~ is_deletion i) /\
  match ss_sched s with S_Deletions l => id ∉ Sync_ID <$> l | _ => True end.

(** The status a worker leaves a creation with. *)
Definition resting (st : SyncStatus) : Prop := st = SYNC_STATUS_IN_PROGRESS \/ st = SYNC_STATUS_FAILED.

(** Created, with nothing on its way, and not marked for deletion. *)
Record forgotten (id : string) (s : SyncSys) : Prop := {
  fo_inv : sync_inv s;
  fo_sent : id ∈ ss_sent s;
  fo_items : Forall (fun i => SyncID i <> id) (ss_queue s ++ (job_item <$> ss_busy s));
  fo_sched : match ss_sched s with S_Deletions l => id ∉ Sync_ID <$> l | _ => True end;
  fo_status : Forall (fun p => Sync_ID p = id -> resting (Sync_Status p)) (rows (s_db (ss_w s))) }.

Lemma asked_mono id s s' : sync_step s s' -> (asked_for id s <= asked_for id s')%nat.
Proof. unfold asked_for. intros []; simpl; try lia. rewrite filter_app, length_app. lia. Qed.

Lemma other_status id id' st r (w w' : W) : NoDup (sync_ids rows w) -> id' <> id ->
  syncDB.UpdateSyncStatus id' st w = (r, w') ->
  forall P : SyncStatus -> Prop,
  Forall (fun p => Sync_ID p = id -> P (Sync_Status p)) (rows (s_db w)) ->
  Forall (fun p => Sync_ID p = id -> P (Sync_Status p)) (rows (s_db w')).
Proof.
  intros Hnd Hne Hrun P HP. destruct (status_run rows id' st w Hnd) as (x & d & Hrun' & Hr & _).
  rewrite Hrun in Hrun'. injection Hrun' as -> ->. simpl. rewrite Hr.
  by apply (update_Forall (fun i st => i = id -> P st)).
Qed.

Lemma forgotten_step id s s' :
  forgotten id s -> sync_step s s' -> asked_for id s' = asked_for id s -> forgotten id s'.
Proof.
  intros [Hinv Hsent Hit Hsc Hst] Hstep Hasked.
  pose proof (sync_step_inv s s' Hinv Hstep) as Hinv'.
  assert (Hun : forall l, unsent (ss_sent s) (known s) l -> id ∉ Sync_ID <$> l).
  { intros l [_ Hl] Hin. by destruct (Hl id Hin). }
  pose proof (si_ids _ Hinv) as Hi. pose proof (si_sched _ Hinv) as Hsch.
  destruct Hstep as
    [url r w w' q c b sn d a Hrun|id' w w' q c b sn d a Hrun|id' e w w' q c b sn d a Hrun
    |ps w q b sn d a Hps|p l w w' q b sn d a Hrun|p l e w w' q b sn d a Hrun|p l w q b sn d a Hlen
    |p l w q b sn d a Hlen|p l r w w' q b sn d a Hrun|ps w q b sn d a Hps|p l w q b sn d a Hlen
    |p l w q b sn d a Hlen|w q b sn d a|i w q c b sn d a|i st w w' q c b1 b2 sn d a Hrun
    |i st r w w' q c b1 b2 sn d a Hrun]; simpl in *; (split; simpl; [done|..]); try done.
  - unfold syncCtlr.CreateSync in Hrun. destruct (syncCtlr.validateRemoteDirectoryURL url_error url).
    2:{ by injection Hrun as <- <-. }
    destruct (create_run rows uuid url w) as (d' & k & Hcr & Hr).
    rewrite (try_bind_ok _ _ _ _ _ _ Hcr) in Hrun. injection Hrun as <- <-. simpl. rewrite Hr.
    apply Forall_app. split; [done|]. apply Forall_singleton. simpl. intros Heq.
    pose proof (si_known _ Hinv id Hsent) as Hkn. destruct (si_drawn _ Hinv id Hkn) as (n & Hn & ->).
    apply uuid_inj in Heq. simpl in Hn. lia.
  - destruct (deletion_granted id' w w' Hi Hrun) as (p & d' & _ & _ & -> & Hr). simpl. rewrite Hr.
    apply (update_Forall (fun i st => i = id -> resting st)); [done|].
    intros _ ->. unfold asked_for in Hasked. simpl in Hasked. rewrite filter_app, length_app, filter_cons, decide_True in Hasked by done.
    simpl in Hasked. lia.
  - by rewrite (deletion_refused id' w w' e Hi Hrun).
  - eapply other_status; [exact Hi| |exact Hrun|done]. intros Heq. apply (Hun (p :: l) Hsch). rewrite <- Heq. left.
  - eapply other_status; [exact Hi| |exact Hrun|done]. intros Heq. apply (Hun (p :: l) Hsch). rewrite <- Heq. left.
  - set_solver.
  - rewrite <- app_assoc. apply Forall_app in Hit as [? ?]. apply Forall_app. split; [done|].
    constructor; [|done]. simpl. intros Heq. destruct Hsch as [Hsch _]. apply (Hun (p :: l) Hsch). rewrite <- Heq. left.
  - eapply other_status; [exact Hi| |exact Hrun|done]. intros Heq. apply (Hun (p :: l) Hsch). rewrite <- Heq. left.
  - unfold syncDB.GetSyncsByStatus in Hps. rewrite (tbl_FindByStatus_spec (rows := rows)) in Hps.
    injection Hps as <-. intros (p & -> & [Hpst Hin]%list_elem_of_filter)%list_elem_of_fmap.
    rewrite Forall_forall in Hst. simpl in Hpst. destruct (Hst p Hin eq_refl); congruence.
  - rewrite <- app_assoc. apply Forall_app in Hit as [? ?]. apply Forall_app. split; [done|].
    constructor; [|done]. simpl. intros Heq. apply Hsc. rewrite <- Heq. left.
  - set_solver.
  - set_solver.
  - inversion Hit as [|? ? Hi1 Hi2]; subst. rewrite fmap_app. simpl. rewrite app_assoc.
    apply Forall_app. split; [done|by apply Forall_singleton].
  - rewrite fmap_app in *. done.
  - destruct (work_keeps i w w' st Hi Hrun) as [Hsame _].
    by apply (same_Forall (fun i st => i = id -> resting st) _ _ Hsame).
  - rewrite fmap_app in *. apply Forall_app in Hit as [? Hit]. apply Forall_app in Hit as [? [_ ?]%Forall_cons].
    apply Forall_app. split; [done|]. by apply Forall_app.
  - eapply other_status; [exact Hi| |exact Hrun|done]. rewrite Forall_forall in Hit. apply Hit.
    apply elem_of_app. right. rewrite fmap_app. apply elem_of_app. right. left.
Qed.

Lemma asked_mono_run id s s' : rtc sync_step s s' -> (asked_for id s <= asked_for id s')%nat.
Proof. induction 1 as [|s s1 s' Hs _ IH]; [done|]. pose proof (asked_mono id s s1 Hs). lia. Qed.

Lemma forgotten_run id s s' :
  forgotten id s -> rtc sync_step s s' -> asked_for id s' = asked_for id s -> forgotten id s'.
Proof.
  intros Hf Hsteps. induction Hsteps as [|s s1 s' Hs Hsteps IH]; intros Hasked; [done|].
  pose proof (asked_mono id s s1 Hs). pose proof (asked_mono_run id s1 s' Hsteps).
  apply IH; [|lia]. apply (forgotten_step id s s1); [done|done|lia].
Qed.

(** The worker that finishes a creation leaves it forgotten. *)
Lemma finish_forgets id url st s b1 b2 r w' :
  sync_inv s -> no_deletion id s -> ss_busy s = b1 ++ Verdict (creation id url) st :: b2 ->
  syncDB.UpdateSyncStatus id st (ss_w s) = (r, w') ->
  forgotten id (Build_SyncSys w' (ss_queue s) (ss_sched s) (b1 ++ b2) (ss_sent s)
    (ss_done s ++ [creation id url]) (ss_asked s)).
Proof.
  intros Hinv [Hnd Hsc] Hb Hrun.
  assert (Hcr : created (job_item <$> ss_busy s) ≡ₚ id :: created (job_item <$> (b1 ++ b2))).
  { rewrite Hb, !fmap_app, !created_app, fmap_cons. simpl.
    change (creation id url :: (job_item <$> b2)) with ([creation id url] ++ (job_item <$> b2)).
    rewrite created_app. change (created [creation id url]) with [id]. solve_Permutation. }
  assert (Hnew : id ∉ created (ss_queue s) /\ id ∉ created (job_item <$> (b1 ++ b2))).
  { pose proof (si_nodup _ Hinv) as Hdup. rewrite (si_perm _ Hinv), Hcr in Hdup. simpl in Hdup.
    rewrite <- Permutation_middle in Hdup. apply NoDup_cons in Hdup as [Hdup _]. set_solver. }
  assert (Hsent : id ∈ ss_sent s) by (rewrite (si_perm _ Hinv), Hcr; set_solver).
  assert (Hv : resting st).
  { pose proof (si_jobs _ Hinv) as Hj. rewrite Hb in Hj. apply Forall_app in Hj as [_ [Hj _]%Forall_cons].
    by destruct Hj as [?|[_ ?]]. }
  split; simpl; try done.
  - by apply (inv_finish s (creation id url) st r w' b1 b2).
  - apply Forall_forall. intros i Hi Heq.
    assert (Hin : i ∈ ss_queue s ++ (job_item <$> ss_busy s)).
    { rewrite Hb, !fmap_app, fmap_cons in *. set_solver. }
    assert (Hio : item_ok (ss_sent s) (ss_asked s) (known s) i).
    { pose proof (si_queue _ Hinv) as H1. pose proof (si_items _ Hinv) as H2. rewrite Forall_forall in H1, H2.
      apply elem_of_app in Hin as [?|?]; auto. }
    destruct Hio as [_ [[Hc _]|[Hd _]]]; [|by eapply Hnd].
    destruct Hnew as [H1 H2]. apply elem_of_app in Hi as [Hi|Hi]; [apply H1|apply H2];
      unfold created; rewrite <- Heq; apply list_elem_of_fmap_2, list_elem_of_filter; done.
  - destruct (status_run rows id st (ss_w s) (si_ids _ Hinv)) as (x & d & Hrun' & Hr & _).
    rewrite Hrun in Hrun'. injection Hrun' as -> ->. simpl. rewrite Hr. apply Forall_forall.
    intros p [(q & _ & _ & ->)|[_ Hne]]%elem_update Heq; [done|]. by destruct Hne.
Qed.

(** A deletion can be lost.  A client may delete a synchronisation while a
    worker is still creating it: the request is granted, but when the worker
    then sets the status it found, the request is overwritten.  From then on the
    synchronisation stays IN_PROGRESS or FAILED for ever, unless a client
    asks for its deletion again. *)
Theorem deletion_lost id url st s s2 b1 b2 r w' :
  sync_reachable s -> no_deletion id s -> ss_busy s = b1 ++ Verdict (creation id url) st :: b2 ->
  syncDB.UpdateSyncStatus id st (ss_w s) = (r, w') ->
  let s1 := Build_SyncSys w' (ss_queue s) (ss_sched s) (b1 ++ b2) (ss_sent s)
              (ss_done s ++ [creation id url]) (ss_asked s) in
  sync_step s s1 /\
  (rtc sync_step s1 s2 -> asked_for id s2 = asked_for id s ->
   exists p, first_by_id id (rows (s_db (ss_w s2))) = Some p /\ resting (Sync_Status p)).
Proof.
  intros Hinv%sync_reachable_inv Hnd Hb Hrun s1.
  assert (Hstep : sync_step s s1).
  { destruct s. simpl in *. subst. by eapply (step_finish (creation id url)). }
  split; [done|]. intros Hsteps Hasked.
  assert (Hf : forgotten id s2).
  { apply (forgotten_run id s1 s2); [by eapply finish_forgets|done|done]. }
  destruct (first_by_id id (rows (s_db (ss_w s2)))) as [p|] eqn:Hp.
  - exists p. split; [done|]. apply first_by_id_Some in Hp as [Hin Hid].
    pose proof (fo_status _ _ Hf) as Hst. rewrite Forall_forall in Hst. by apply Hst.
  - apply first_by_id_None in Hp. destruct Hp. apply (si_known _ (fo_inv _ _ Hf)), (fo_sent _ _ Hf).
Qed.

End system.

(** ** A run in which a deletion is lost *)

Module DemoSystem.
Import DemoZot DemoSync.

Definition url : string := "dir.example.org:8888".
Definition p1 : Sync := row 0 "u" url "" SYNC_STATUS_PENDING.

Definition w2 : W := (syncDB.UpdateSyncStatus "u" SYNC_STATUS_IN_PROGRESS w1).2.
Definition w3 : W := (SyncWorker.work no_url (creation "u" url) w2).2.
Definition w4 : W := (syncCtlr.DeleteSync "u" w3).2.
Definition w5 : W := (syncDB.UpdateSyncStatus "u" SYNC_STATUS_IN_PROGRESS w4).2.

Notation step := (sync_step no_url uuid).
Notation reach := (sync_reachable ListTable.rows no_url uuid).

Lemma run_to {A B} (c : A * B) a : c.1 = a -> c = (a, c.2).
Proof. intros <-. apply surjective_pairing. Qed.

Lemma sync_uuid_inj i j : uuid i = uuid j -> i = j.
Proof. revert j. induction i as [|i IH]; intros [|j]; simpl; intros; simplify_eq; auto. Qed.

(** The creation is with a worker, and the client deletes the synchronisation. *)
Definition s_taken : SyncSys :=
  Build_SyncSys w2 [] S_Idle [Running (creation "u" url)] ["u"] [] [].
Definition s_asked : SyncSys :=
  Build_SyncSys w4 [] S_Idle [Verdict (creation "u" url) SYNC_STATUS_IN_PROGRESS] ["u"] [] ["u"].

Lemma s_taken_reachable : reach s_taken.
Proof.
  exists (Build_SyncSys w0 [] S_Idle [] [] [] []). split; [done|].
  eapply rtc_l; [apply (step_create no_url uuid url (Ok "u") w0 w1); by apply run_to|].
  eapply rtc_l; [by apply (step_tick no_url uuid [p1])|].
  eapply rtc_l; [apply (step_mark no_url uuid p1 [] w1 w2); by apply run_to|].
  eapply rtc_l; [apply step_dispatch; unfold SyncScheduler.workQueueSize; simpl; lia|].
  eapply rtc_l; [by apply (step_deletions no_url uuid [])|].
  eapply rtc_l; [apply step_rest|]. eapply rtc_l; [apply step_take|]. apply rtc_refl.
Qed.

Lemma s_asked_reachable : reach s_asked.
Proof.
  destruct s_taken_reachable as (s0 & H0 & Hs). exists s0. split; [done|].
  eapply rtc_r; [eapply rtc_r; [exact Hs|]|].
  - apply (step_work no_url uuid (creation "u" url) SYNC_STATUS_IN_PROGRESS w2 w3 [] S_Idle [] []).
    by apply run_to.
  - apply (step_ask no_url uuid "u" w3 w4 [] S_Idle _ ["u"] [] []). by apply run_to.
Qed.

Lemma sync_books_witness :
  NoDup (ss_sent s_asked) /\ ss_sent s_asked ≡ₚ created (job_item <$> ss_busy s_asked).
Proof.
  destruct (sync_books ListTable.rows no_url uuid sync_uuid_inj s_asked s_asked_reachable) as (H1 & H2 & _).
  split; [exact H1|exact H2].
Defined.

(** The client was told that the synchronisation is marked for deletion, and the
    synchronisation is IN_PROGRESS for good. *)
Lemma deletion_lost_witness :
  (exists p, first_by_id "u" (ListTable.rows (s_db (ss_w s_asked))) = Some p
     /\ Sync_Status p = SYNC_STATUS_DELETE_PENDING) /\
  exists p, first_by_id "u" (ListTable.rows (s_db w5)) = Some p /\ resting (Sync_Status p).
Proof.
  split; [eexists; split; vm_compute; reflexivity|].
  refine (proj2 (deletion_lost ListTable.rows no_url uuid sync_uuid_inj "u" url SYNC_STATUS_IN_PROGRESS s_asked
    (Build_SyncSys w5 [] S_Idle [] ["u"] [creation "u" url] ["u"]) [] [] (Ok tt) w5 s_asked_reachable _ eq_refl _) _ _).
  - split; [|exact I]. intros i Hi Heq Hd. apply list_elem_of_singleton in Hi. subst i. discriminate Hd.
  - apply run_to. vm_compute. reflexivity.
  - apply rtc_refl.
  - reflexivity.
Defined.

End DemoSystem.
