(* ===== verification/Monitor.v ===== *)
(** * The registry monitor

    server/sync/monitor/monitor.go: while a synchronisation is active, the monitor
    lists the tags of the local registry at every tick, and indexes the records
    that zot has brought in since the last listing. *)

From S2P Require Import Prelude GoStrings GoUrl Interfaces Adapters CoreRecord Validators LabelKey Metrics RoutingWorld RoutingLocal RoutingLocalSpec StoreCache Search Zot Sync SyncSpec.

Open Scope string_scope.
Open Scope list_scope.
Open Scope go_scope.

(** ** Data.  Time stamps are left out: no code reads them. *)

Record RegistrySnapshot := { Snap_Tags : list string; ContentHash : string }.

Definition EmptySnapshot : RegistrySnapshot := {| Snap_Tags := []; ContentHash := "" |}.

Record RegistryChanges := { NewTags : list string; HasChanges : bool }.

(** The goroutines the service starts. *)
Inductive Goroutine :=
  | RunRegistryMonitoring (cancelled : bool)
  | GracefulShutdown.

(** [MonitorService]: what changes, and the goroutines started so far, the latest first. *)
Record MonitorService := {
  isRunning : bool; lastSnapshot : option RegistrySnapshot; activeSyncs : gset string;
  goroutines : list Goroutine }.

(** [NewMonitorService]. *)
Definition NewMonitorService : MonitorService :=
  {| isRunning := false; lastSnapshot := None; activeSyncs := ∅; goroutines := [] |}.

(** The tags of the repository (oras-go): pages, and an error that ended them. *)
Class TagLister (R : Type) := { repo_Tags : R -> list (list string) * option error }.

(** The world of a check; [PullPublicKey] is the optional method of the store. *)
Record MonitorWorld (R T D N : Type) := {
  m_service : MonitorService; m_repo : R; m_store : T; m_db : D; m_http : N }.
Arguments m_service {_ _ _ _}. Arguments m_repo {_ _ _ _}. Arguments m_store {_ _ _ _}.
Arguments m_db {_ _ _ _}. Arguments m_http {_ _ _ _}.

(** [hex.EncodeToString]. *)
Definition hex_digit (n : nat) : ascii := ascii_of_nat (if (n <? 10)%nat then 48 + n else 87 + n).
Fixpoint hex_EncodeToString (s : string) : string :=
  match s with
  | EmptyString => ""
  | String c s =>
      String (hex_digit (nat_of_ascii c / 16)) (String (hex_digit (nat_of_ascii c mod 16)) (hex_EncodeToString s))
  end.

Module monitor.

(** ** Starting and stopping *)

(** [cancelMonitor]: the context of the monitoring last started. *)
Fixpoint cancelMonitor (l : list Goroutine) : list Goroutine :=
  match l with
  | [] => []
  | RunRegistryMonitoring _ :: l => RunRegistryMonitoring true :: l
  | g :: l => g :: cancelMonitor l
  end.

Definition startMonitoring (s : MonitorService) : MonitorService :=
  if isRunning s then s
  else {| isRunning := true; lastSnapshot := lastSnapshot s; activeSyncs := activeSyncs s;
          goroutines := RunRegistryMonitoring false :: goroutines s |}.

Definition StartSyncMonitoring (syncID : string) : M MonitorService (result unit) := fun s =>
  let s := {| isRunning := isRunning s; lastSnapshot := lastSnapshot s;
              activeSyncs := {[syncID]} ∪ activeSyncs s; goroutines := goroutines s |} in
  if decide (size (activeSyncs s) = 1%nat /\ isRunning s = false) then (Ok tt, startMonitoring s)
  else (Ok tt, s).

Definition StopSyncMonitoring (syncID : string) : M MonitorService (result unit) := fun s =>
  let s := {| isRunning := isRunning s; lastSnapshot := lastSnapshot s;
              activeSyncs := activeSyncs s ∖ {[syncID]}; goroutines := goroutines s |} in
  if decide (size (activeSyncs s) = 0%nat /\ isRunning s = true) then
    (Ok tt, {| isRunning := false; lastSnapshot := lastSnapshot s; activeSyncs := activeSyncs s;
               goroutines := GracefulShutdown :: cancelMonitor (goroutines s) |})
  else (Ok tt, s).

Definition Stop : M MonitorService (result unit) := fun s =>
  let s := if isRunning s then
             {| isRunning := false; lastSnapshot := lastSnapshot s; activeSyncs := activeSyncs s;
                goroutines := cancelMonitor (goroutines s) |}
           else s in
  (Ok tt, {| isRunning := isRunning s; lastSnapshot := lastSnapshot s; activeSyncs := ∅;
             goroutines := goroutines s |}).

#[export] Instance api : MonitorAPI MonitorService := {|
  mon_StartSyncMonitoring := StartSyncMonitoring; mon_StopSyncMonitoring := StopSyncMonitoring |}.

(** ** Listing and comparing *)

(** [strings.ToLower] on ASCII texts. *)
Definition isDuplicateRecordError (err : error) : bool :=
  let errStr := ToLower (err_string err) in
  Contains errStr "duplicate" || Contains errStr "already exists"
  || Contains errStr "unique constraint" || Contains errStr "primary key".

Definition isRepositoryNotFoundError (err : error) : bool :=
  let errStr := err_string err in
  Contains errStr "404"
  && (Contains errStr "name unknown" || Contains errStr "repository name not known"
      || Contains errStr "not found").

Section listing.
Context `{HashLib} {R : Type} `{!TagLister R}.

Definition createContentHash (tags : list string) : string :=
  hex_EncodeToString (Sum256 (String.concat "" ((fun tag => tag +:+ "|") <$> tags))).

Definition createRegistrySnapshot (repo : R) : result RegistrySnapshot :=
  let '(pages, err) := repo_Tags repo in
  let tags := filter (fun tag => IsValidCID tag = true) (mjoin pages) in
  match err with
  | Some err =>
      if isRepositoryNotFoundError err then Ok EmptySnapshot
      else Err (Wrap "failed to list repository tags: " err)
  | None => Ok {| Snap_Tags := tags; ContentHash := createContentHash tags |}
  end.

Definition detectChanges (oldSnapshot newSnapshot : RegistrySnapshot) : RegistryChanges :=
  if decide (ContentHash oldSnapshot = ContentHash newSnapshot) then
    {| NewTags := []; HasChanges := false |}
  else
    let oldTags : gset string := list_to_set (Snap_Tags oldSnapshot) in
    let addedTags := filter (fun tag => tag ∉ oldTags) (Snap_Tags newSnapshot) in
    {| NewTags := addedTags; HasChanges := (0 <? length addedTags)%nat |}.

End listing.

(** ** Indexing *)

Section check.
Context `{HashLib} `{!OasfJson} {R T D N : Type} `{!TagLister R} `{!StoreAPI T} `{!sqlite.Gorm D}
  `{!HttpClient N}.
Context (url_error : string -> error) (ociConfig : VerifyConfig)
  (PullPublicKey : option (string -> M T (result string))).
Notation W := (MonitorWorld R T D N).

Definition on_store {A} (c : M T A) : M W A := fun w =>
  let '(a, t) := c (m_store w) in
  (a, {| m_service := m_service w; m_repo := m_repo w; m_store := t; m_db := m_db w; m_http := m_http w |}).
Definition on_db {A} (c : M D A) : M W A := fun w =>
  let '(a, d) := c (m_db w) in
  (a, {| m_service := m_service w; m_repo := m_repo w; m_store := m_store w; m_db := d; m_http := m_http w |}).
Definition on_http {A} (c : M N A) : M W A := fun w =>
  let '(a, n) := c (m_http w) in
  (a, {| m_service := m_service w; m_repo := m_repo w; m_store := m_store w; m_db := m_db w; m_http := n |}).
Definition set_lastSnapshot (snapshot : RegistrySnapshot) : M W unit := fun w =>
  (tt, {| m_service := {| isRunning := isRunning (m_service w); lastSnapshot := Some snapshot;
                          activeSyncs := activeSyncs (m_service w);
                          goroutines := goroutines (m_service w) |};
          m_repo := m_repo w; m_store := m_store w; m_db := m_db w; m_http := m_http w |}).

(** The outer [None] is a panic. *)
Definition indexRecord (tag : string) : M W (option (result unit)) :=
  let? record := on_store (store_Pull (Some {| ref_Cid := tag |}))
    else err => ret (Some (Err (Wrap "failed to pull record from local store: " err))) in
  let! added := on_db (sqlite.AddRecord (sqlite.NewRecordAdapter record)) in
  match added with
  | None => ret None
  | Some (Err err) =>
      if isDuplicateRecordError err then ret (Some (Ok tt))
      else ret (Some (Err (Wrap "failed to add record to database: " err)))
  | Some (Ok _) => ret (Some (Ok tt))
  end.

Definition uploadPublicKey (tag : string) : M W (result unit) :=
  match PullPublicKey with
  | None => ret (Ok tt)
  | Some pull =>
      let? publicKey := on_store (pull tag)
        else err => ret (Err (Wrap "failed to pull public key: " err)) in
      let? _u := on_http (zot.UploadPublicKey url_error ociConfig publicKey)
        else err => ret (Err (Wrap "failed to upload public key to zot for verification: " err)) in
      ret (Ok tt)
  end.

(** Errors are logged, and the loop goes on. *)
Definition process_tag (tag : string) : M W (option unit) :=
  let! indexed := indexRecord tag in
  match indexed with
  | None => ret None
  | Some _ => do! uploadPublicKey tag then ret (Some tt)
  end.

Fixpoint processChanges (tags : list string) : M W (option unit) :=
  match tags with
  | [] => ret (Some tt)
  | tag :: tags =>
      let! x := process_tag tag in
      match x with None => ret None | Some _ => processChanges tags end
  end.

Definition performMonitoringCheck : M W (option unit) := fun w =>
  match createRegistrySnapshot (m_repo w) with
  | Err _ => (Some tt, w)
  | Ok snapshot =>
      match lastSnapshot (m_service w) with
      | None => (None, w)      (** [oldSnapshot] is a nil pointer *)
      | Some oldSnapshot =>
          let changes := detectChanges oldSnapshot snapshot in
          (let! x := (if HasChanges changes then processChanges (NewTags changes) else ret (Some tt)) in
           match x with
           | None => ret None
           | Some _ => do! set_lastSnapshot snapshot then ret (Some tt)
           end) w
      end
  end.

Fixpoint checks (ticks : nat) : M W (option unit) :=
  match ticks with
  | O => ret (Some tt)
  | S n =>
      let! x := performMonitoringCheck in
      match x with None => ret None | Some _ => checks n end
  end.

(** A loop that is cancelled after [ticks] ticks. *)
Definition runRegistryMonitoring (ticks : nat) : M W (option unit) := fun w =>
  match createRegistrySnapshot (m_repo w) with
  | Err _ => (Some tt, w)
  | Ok snapshot => (do! set_lastSnapshot snapshot then checks ticks) w
  end.

(** Its time-out is two ticks. *)
Definition gracefulShutdown (ticks : nat) : M W (option unit) := checks (min ticks 2).

End check.
End monitor.
#[export] Existing Instance monitor.api.

(** ** The monitor runs exactly while synchronisations are active *)

#[export] Instance Goroutine_eq_dec : EqDecision Goroutine.
Proof. solve_decision. Defined.

(** The goroutines that watch and were not cancelled. *)
Definition watching (s : MonitorService) : list Goroutine :=
  filter (fun g => g = RunRegistryMonitoring false) (goroutines s).

Inductive monitor_op := OpStart (id : string) | OpStop (id : string) | OpStopAll.

Definition run_monitor_op (s : MonitorService) (op : monitor_op) : MonitorService :=
  match op with
  | OpStart id => (monitor.StartSyncMonitoring id s).2
  | OpStop id => (monitor.StopSyncMonitoring id s).2
  | OpStopAll => (monitor.Stop s).2
  end.

Definition spec_monitor_op (active : gset string) (op : monitor_op) : gset string :=
  match op with
  | OpStart id => {[id]} ∪ active
  | OpStop id => active ∖ {[id]}
  | OpStopAll => ∅
  end.

Record monitor_inv (s : MonitorService) (active : gset string) : Prop := {
  mi_active : activeSyncs s = active;
  mi_running : isRunning s = bool_decide (active <> ∅);
  mi_watching : length (watching s) = if isRunning s then 1%nat else 0%nat;
  mi_cancel : filter (fun g => g = RunRegistryMonitoring false) (monitor.cancelMonitor (goroutines s)) = [] }.

Lemma cancel_twice l : monitor.cancelMonitor (monitor.cancelMonitor l) = monitor.cancelMonitor l.
Proof. induction l as [|[] l IH]; simpl; by rewrite ?IH. Qed.

#[export] Instance monitor_spec : MonitorSpec MonitorService activeSyncs.
Proof.
  split; intros id m; unfold mon_StartSyncMonitoring, mon_StopSyncMonitoring; simpl.
  - unfold monitor.StartSyncMonitoring, monitor.startMonitoring. simpl. case_decide as Hd; [|eauto].
    destruct Hd as [_ ->]. eauto.
  - unfold monitor.StopSyncMonitoring. simpl. case_decide; eauto.
Qed.

Lemma monitor_op_inv s active op :
  monitor_inv s active -> monitor_inv (run_monitor_op s op) (spec_monitor_op active op).
Proof.
  intros [Ha Hr Hw Hc]. destruct op as [id|id|]; simpl.
  - unfold monitor.StartSyncMonitoring, monitor.startMonitoring, watching in *. simpl. rewrite Ha.
    assert (Hne : {[id]} ∪ active <> ∅) by set_solver.
    destruct (decide (size ({[id]} ∪ active) = 1%nat /\ isRunning s = false)) as [Hd|Hd].
    + destruct Hd as [_ Hrun]. rewrite Hrun in Hw |- *. apply nil_length_inv in Hw.
      split; unfold watching; simpl; [done|by rewrite bool_decide_true| |done].
      exact (f_equal (fun l => S (length l)) Hw).
    + split; unfold watching; simpl; [done| |done|done]. rewrite bool_decide_true by done. rewrite Hr in *.
      apply bool_decide_true. intros ->. apply Hd. split; [by rewrite union_empty_r_L, size_singleton|done].
  - unfold monitor.StopSyncMonitoring, watching in *. simpl. rewrite Ha.
    destruct (decide (size (active ∖ {[id]}) = 0%nat /\ isRunning s = true)) as [Hd|Hd].
    + destruct Hd as [Hs Hrun]. apply size_empty_inv in Hs. unfold_leibniz.
      split; unfold watching; simpl; rewrite ?filter_cons, ?cancel_twice, ?Hc; [done| |done|done].
      rewrite bool_decide_false; [done|]. intros Hne. set_solver.
    + split; unfold watching; simpl; [done| |done|done]. rewrite Hr. apply bool_decide_ext. split.
      * intros Hne He. apply Hd. rewrite He, size_empty. split; [done|]. rewrite Hr. by apply bool_decide_true.
      * set_solver.
  - unfold monitor.Stop, watching in *. destruct (isRunning s) eqn:Hrun;
      (split; unfold watching; simpl; rewrite ?Hrun, ?cancel_twice, ?Hc;
       [done|by rewrite bool_decide_false by (intros H; by apply H)|done|done]).
Qed.

(** The monitor runs exactly while synchronisations are active.  After any
    sequence of starts and stops, the active synchronisations are those started
    and not stopped since, the monitor is running exactly when there is one, and
    then exactly one goroutine watches the registry: none is started twice, and
    every one is cancelled when the last synchronisation stops. *)
Theorem monitor_runs ops :
  let s := foldl run_monitor_op NewMonitorService ops in
  let active := foldl spec_monitor_op ∅ ops in
  activeSyncs s = active /\ (isRunning s = true <-> active <> ∅)
  /\ length (watching s) = (if decide (active = ∅) then 0 else 1)%nat.
Proof.
  intros s active. assert (Hi : monitor_inv s active).
  { unfold s, active. assert (H0 : monitor_inv NewMonitorService ∅) by done. revert H0.
    generalize NewMonitorService, (∅ : gset string). induction ops as [|op ops IH]; intros s0 a0 H0; [done|].
    by apply IH, monitor_op_inv. }
  destruct Hi as [Ha Hr Hw _]. split; [done|]. rewrite Hr in *. split; [apply bool_decide_eq_true|].
  rewrite Hw. case_decide; [by rewrite bool_decide_false by tauto|by rewrite bool_decide_true].
Qed.

(** ** What a check indexes *)

Section check.
Context `{HashLib} `{!OasfJson} {R T D N : Type} `{!TagLister R} `{!StoreAPI T} `{!sqlite.Gorm D}
  `{!HttpClient N}.
Context {inv : T -> Prop} {obs : T -> Observable} {known_cid : string -> Prop}
  {record_ok : CoreRecord -> Prop} {meta_ok : RecordMeta -> Prop}
  `{Hspec : !StoreSpec T inv obs known_cid record_ok meta_ok}.
Context {tables : D -> Tables} {like : string -> string -> bool} `{!GormSpec D tables like}.
(** The data a CID stands for; the records of the store have data. *)
Context (data_of : string -> option RecordData)
  (data_of_record : forall r, record_ok r -> data_of (GetCid (Some r)) = GetRecordData r)
  (record_data : forall r, record_ok r -> is_Some (GetRecordData r)).
Context (url_error : string -> error) (ociConfig : VerifyConfig)
  (PullPublicKey : option (string -> M T (result string)))
  (pull_key_keeps : forall pull tag t, PullPublicKey = Some pull -> inv t ->
     inv (pull tag t).2 /\ obs (pull tag t).2 = obs t).
Notation W := (MonitorWorld R T D N).
Notation check := (monitor.performMonitoringCheck url_error ociConfig PullPublicKey).

(** The data of the stored records under a list of tags. *)
Definition arrived (tags : list string) (records : gmap string CoreRecord) : gmap string RecordData :=
  filter (fun kv => kv.1 ∈ tags) (omap GetRecordData records).

Lemma arrived_cons tag tags m :
  arrived (tag :: tags) m = match m !! tag ≫= GetRecordData with
                            | Some rd => <[tag := rd]> (arrived tags m) | None => arrived tags m end.
Proof.
  apply map_eq. intros c. unfold arrived. apply option_eq. intros x.
  rewrite map_lookup_filter_Some, lookup_omap. simpl. rewrite elem_of_cons.
  destruct (m !! tag ≫= GetRecordData) as [rd|] eqn:Hrd.
  - rewrite lookup_insert_Some, map_lookup_filter_Some, lookup_omap. simpl.
    destruct (decide (c = tag)) as [->|Hne]; [rewrite Hrd; split; [intros [[= ->] _]; by left|intros [[_ ->]|[? _]]; [split; auto|done]]|].
    naive_solver.
  - rewrite map_lookup_filter_Some, lookup_omap. simpl.
    destruct (decide (c = tag)) as [->|Hne]; [rewrite Hrd; naive_solver|naive_solver].
Qed.

Lemma upload_keeps tag (w : W) : inv (m_store w) ->
  exists x w', monitor.uploadPublicKey url_error ociConfig PullPublicKey tag w = (x, w')
    /\ inv (m_store w') /\ obs (m_store w') = obs (m_store w) /\ m_db w' = m_db w
    /\ m_service w' = m_service w /\ m_repo w' = m_repo w.
Proof.
  intros Hi. unfold monitor.uploadPublicKey. destruct PullPublicKey as [pull|] eqn:Hp; [|eauto 10].
  destruct (pull_key_keeps pull tag (m_store w) eq_refl Hi) as [Hi' Ho'].
  unfold try_bind, bind, monitor.on_store, monitor.on_http.
  destruct (pull tag (m_store w)) as [[key|e] t]; simpl in *; [|eauto 10].
  destruct (zot.UploadPublicKey _ _ _ _) as [[[]|e] n]; simpl; eauto 10.
Qed.

(** One new tag. *)
Lemma process_tag_run P tag (w : W) :
  inv (m_store w) -> known_cid tag -> index_rep data_of P (tables (m_db w)) ->
  exists w', monitor.process_tag url_error ociConfig PullPublicKey tag w = (Some tt, w')
    /\ inv (m_store w') /\ obs (m_store w') = obs (m_store w)
    /\ m_service w' = m_service w /\ m_repo w' = m_repo w
    /\ index_rep data_of (match (obs (m_store w)).1 !! tag ≫= GetRecordData with
                          | Some rd => <[tag := rd]> P | None => P end) (tables (m_db w')).
Proof.
  intros Hi Hk Hrep. unfold monitor.process_tag, monitor.indexRecord.
  destruct (store_Pull_step tag (m_store w) Hi Hk) as (x & t & Hrun & Hi' & Ho & Hx).
  set (w1 := {| m_service := m_service w; m_repo := m_repo w; m_store := t; m_db := m_db w; m_http := m_http w |}).
  assert (Hon : monitor.on_store (store_Pull (Some {| ref_Cid := tag |})) w = (x, w1)).
  { unfold monitor.on_store. by rewrite Hrun. }
  destruct ((obs (m_store w)).1 !! tag) as [r|] eqn:Hr; simpl in *.
  - subst x. destruct (obs_content (m_store w) tag r Hi Hr) as (Hcid & _ & Hok).
    destruct (record_data r Hok) as [rd Hrd]. rewrite Hrd.
    destruct (AddRecord_run tables like data_of P tag rd (m_db w) Hrep) as (d & Hadd & Hrep').
    { by rewrite <- Hcid, data_of_record. }
    set (w2 := {| m_service := m_service w; m_repo := m_repo w; m_store := t; m_db := d; m_http := m_http w |}).
    destruct (upload_keeps tag w2 Hi') as (y & w' & Hup & Hi2 & Ho2 & Hdb & Hs & Hrp).
    assert (Hadd' : monitor.on_db (sqlite.AddRecord (sqlite.NewRecordAdapter r)) w1 = (Some (Ok tt), w2)).
    { unfold monitor.on_db, sqlite.NewRecordAdapter. simpl. by rewrite Hrd, Hcid, Hadd. }
    exists w'. erewrite bind_run by (rewrite (try_bind_ok _ _ _ _ _ _ Hon); by rewrite (bind_run _ _ _ _ _ Hadd')).
    cbn beta iota. rewrite (bind_run _ _ _ _ _ Hup). rewrite Hdb, Ho2, Hs, Hrp. simpl. by rewrite Ho.
  - destruct x as [r|e]; [done|].
    destruct (upload_keeps tag w1 Hi') as (y & w' & Hup & Hi2 & Ho2 & Hdb & Hs & Hrp).
    exists w'. erewrite bind_run by (by rewrite (try_bind_err _ _ _ _ _ _ Hon)).
    cbn beta iota. rewrite (bind_run _ _ _ _ _ Hup). rewrite Hdb, Ho2, Hs, Hrp. simpl. by rewrite Ho.
Qed.

Lemma processChanges_run tags P (w : W) :
  inv (m_store w) -> Forall known_cid tags -> index_rep data_of P (tables (m_db w)) ->
  exists w', monitor.processChanges url_error ociConfig PullPublicKey tags w = (Some tt, w')
    /\ inv (m_store w') /\ obs (m_store w') = obs (m_store w)
    /\ m_service w' = m_service w /\ m_repo w' = m_repo w
    /\ index_rep data_of (arrived tags (obs (m_store w)).1 ∪ P) (tables (m_db w')).
Proof.
  revert P w. induction tags as [|tag tags IH]; intros P w Hi Hk Hrep.
  - exists w. repeat (split; [done|]). assert (arrived [] (obs (m_store w)).1 ∪ P = P) as ->; [|done].
    assert (arrived [] (obs (m_store w)).1 = ∅) as ->; [|by rewrite (left_id_L ∅ _)].
    apply map_eq. intros c. rewrite lookup_empty. apply map_lookup_filter_None. right. by intros ? _ ?%elem_of_nil.
  - apply Forall_cons in Hk as [Hk1 Hk2].
    destruct (process_tag_run P tag w Hi Hk1 Hrep) as (w1 & Hrun & Hi1 & Ho1 & Hs1 & Hr1 & Hrep1).
    destruct (IH _ w1 Hi1 Hk2 Hrep1) as (w2 & Hrun2 & Hi2 & Ho2 & Hs2 & Hr2 & Hrep2).
    exists w2. simpl. rewrite (bind_run _ _ _ _ _ Hrun). rewrite Hs2, Hr2, Ho2, Hs1, Hr1, Ho1.
    repeat (split; [done|]). rewrite Ho1 in Hrep2. rewrite arrived_cons.
    destruct ((obs (m_store w)).1 !! tag ≫= GetRecordData) as [rd|] eqn:Hrd; [|done].
    assert (<[tag := rd]> (arrived tags (obs (m_store w)).1) ∪ P
      = arrived tags (obs (m_store w)).1 ∪ <[tag := rd]> P) as ->; [|done].
    apply map_eq. intros c. destruct (decide (c = tag)) as [->|Hne].
    + rewrite lookup_union, lookup_insert_eq, lookup_union, lookup_insert_eq.
      destruct (arrived tags _ !! tag) as [x|] eqn:Hx; simpl; [|by destruct (P !! tag)].
      apply map_lookup_filter_Some in Hx as [Hx _]. rewrite lookup_omap, Hrd in Hx. injection Hx as ->.
      by destruct (P !! tag).
    + by rewrite lookup_union, lookup_insert_ne, lookup_union, lookup_insert_ne by done.
Qed.

(** C11. A check indexes what arrived.  Against the last listing, a check adds to
    the search index the records of exactly those new tags that the store has,
    and remembers the new listing; the store is as before and nothing panics.
    [Hhash]: different listings have different hashes. *)
Theorem check_indexes P (w : W) old snapshot :
  inv (m_store w) -> index_rep data_of P (tables (m_db w)) ->
  lastSnapshot (m_service w) = Some old ->
  monitor.createRegistrySnapshot (m_repo w) = Ok snapshot ->
  Forall known_cid (Snap_Tags snapshot) ->
  forall Hhash : ContentHash old = ContentHash snapshot -> Snap_Tags snapshot ⊆ Snap_Tags old,
  exists w' new, check w = (Some tt, w')
    /\ (forall tag, tag ∈ new <-> tag ∈ Snap_Tags snapshot /\ tag ∉ Snap_Tags old)
    /\ index_rep data_of (arrived new (obs (m_store w)).1 ∪ P) (tables (m_db w'))
    /\ inv (m_store w') /\ obs (m_store w') = obs (m_store w)
    /\ lastSnapshot (m_service w') = Some snapshot
    /\ activeSyncs (m_service w') = activeSyncs (m_service w).
Proof.
  intros Hi Hrep Hold Hsnap Hk Hhash. unfold monitor.performMonitoringCheck. rewrite Hsnap, Hold.
  unfold monitor.detectChanges. case_decide as Hh.
  - eexists _, []. split; [done|]. simpl. split; [specialize (Hhash Hh); set_solver|].
    split; [|done]. assert (arrived [] (obs (m_store w)).1 ∪ P = P) as ->; [|done].
    assert (arrived [] (obs (m_store w)).1 = ∅) as ->; [|by rewrite (left_id_L ∅ _)].
    apply map_eq. intros c. rewrite lookup_empty. apply map_lookup_filter_None. right. by intros ? _ ?%elem_of_nil.
  - set (new := filter _ _). simpl (HasChanges _). simpl (NewTags _).
    assert (Hnew : forall tag, tag ∈ new <-> tag ∈ Snap_Tags snapshot /\ tag ∉ Snap_Tags old).
    { intros tag. unfold new. rewrite list_elem_of_filter, elem_of_list_to_set. tauto. }
    assert (Hrun : exists w1, (if (0 <? length new)%nat
        then monitor.processChanges url_error ociConfig PullPublicKey new else ret (Some tt)) w = (Some tt, w1)
      /\ inv (m_store w1) /\ obs (m_store w1) = obs (m_store w) /\ m_service w1 = m_service w
      /\ index_rep data_of (arrived new (obs (m_store w)).1 ∪ P) (tables (m_db w1))).
    { assert (Hkn : Forall known_cid new).
      { rewrite Forall_forall in Hk |- *. intros tag [Ht _]%Hnew. by apply Hk. }
      destruct (processChanges_run new P w Hi Hkn Hrep) as (w1 & Hpc & Hi1 & Ho1 & Hs1 & _ & Hrep1).
      exists w1. split; [|done]. clear - Hpc. by destruct new. }
    destruct Hrun as (w1 & Hrun & Hi1 & Ho1 & Hs1 & Hrep1).
    eexists _, new. rewrite (bind_run _ _ _ _ _ Hrun). split; [done|]. simpl. by rewrite Hs1.
Qed.

(** A tag is looked at once: when its record cannot be pulled at that time, later
    checks of the same listing do nothing. *)
Lemma missed_not_retried (w : W) snapshot :
  lastSnapshot (m_service w) = Some snapshot ->
  monitor.createRegistrySnapshot (m_repo w) = Ok snapshot ->
  check w = (Some tt, w).
Proof.
  intros Hl Hs. unfold monitor.performMonitoringCheck. rewrite Hs, Hl. unfold monitor.detectChanges.
  rewrite decide_True by done. simpl. unfold bind, ret, monitor.set_lastSnapshot. destruct w as [[] ? ? ? ?].
  simpl in *. by rewrite Hl.
Qed.

(** The last synchronisation stops before the first listing succeeded: the final
    checks compare with a snapshot that is not there, and panic. *)
Lemma early_stop_panics id snapshot (w : W) n :
  m_service w = (monitor.StopSyncMonitoring id (monitor.StartSyncMonitoring id NewMonitorService).2).2 ->
  monitor.createRegistrySnapshot (m_repo w) = Ok snapshot ->
  GracefulShutdown ∈ goroutines (m_service w) /\
  (monitor.gracefulShutdown url_error ociConfig PullPublicKey (S n) w).1 = None.
Proof.
  intros Hw Hs.
  assert (Hst : monitor.StartSyncMonitoring id NewMonitorService
    = (Ok tt, {| isRunning := true; lastSnapshot := None; activeSyncs := {[id]} ∪ ∅;
                 goroutines := [RunRegistryMonitoring false] |})).
  { unfold monitor.StartSyncMonitoring. cbn zeta. rewrite decide_True; [done|].
    split; [|done]. cbn [activeSyncs NewMonitorService]. by rewrite union_empty_r_L, size_singleton. }
  rewrite Hst in Hw. unfold monitor.StopSyncMonitoring in Hw. cbn zeta in Hw. rewrite decide_True in Hw.
  2:{ split; [|done]. apply size_empty_iff. cbn [activeSyncs]. set_solver. }
  rewrite Hw. split; [cbn; set_solver|].
  unfold monitor.gracefulShutdown. simpl. unfold bind, monitor.performMonitoringCheck. by rewrite Hs, Hw.
Qed.

End check.

(** ** An example: one record arrives in an empty registry mirror *)

Module DemoMonitor.
Import DemoCore DemoCache.
#[local] Existing Instances DemoSearch.table_gorm DemoSearch.table_gorm_spec DemoCache.one DemoCache.one_spec.

#[local] Instance listing : TagLister (list string) := {| repo_Tags tags := ([tags], None) |}.
#[local] Instance no_http : HttpClient unit := {| http_Do _ := ret (Err (Plain "no network")) |}.

Definition data_of (c : string) : option RecordData :=
  if decide (c = demo_id) then GetRecordData demo_rec else None.

Definition config : VerifyConfig :=
  {| RegistryAddress := "localhost:5000"; RepositoryName := "dir"; Username := ""; Password := "";
     AccessToken := ""; Insecure := true |}.

Definition start : MonitorWorld (list string) bool Tables unit :=
  {| m_service := {| isRunning := true; lastSnapshot := Some EmptySnapshot; activeSyncs := {["sync"]};
                     goroutines := [RunRegistryMonitoring false] |};
     m_repo := ["latest"; demo_id]; m_store := true; m_db := DemoSearch.empty; m_http := tt |}.

Lemma check_indexes_witness :
  exists w', monitor.performMonitoringCheck Plain config None start = (Some tt, w')
    /\ index_rep data_of (omap GetRecordData {[ demo_id := demo_rec ]}) (DemoSearch.tables (m_db w')).
Proof.
  destruct (check_indexes (R := list string) (N := unit) (record_ok := fun r => r = demo_rec) (like := DemoSearch.sql_like) data_of
    ltac:(intros r ->; reflexivity) ltac:(intros r ->; eexists; reflexivity) Plain config None
    ltac:(discriminate) ∅ start EmptySnapshot
    {| Snap_Tags := [demo_id]; ContentHash := monitor.createContentHash [demo_id] |})
    as (w' & new & Hrun & Hnew & Hrep & _ & Hobs & _ & _).
  - exact I.
  - by split; try split; simpl; intros *; rewrite ?lookup_empty, ?elem_of_nil.
  - reflexivity.
  - vm_compute. reflexivity.
  - repeat constructor.
  - intros H. exfalso. vm_compute in H. discriminate H.
  - exists w'. split; [exact Hrun|].
    enough (arrived new (one_obs (m_store start)).1 ∪ ∅ = omap GetRecordData {[ demo_id := demo_rec ]})
      as <- by exact Hrep.
    rewrite (right_id_L ∅ _). apply map_eq. intros c. apply option_eq. intros rd. unfold arrived.
    rewrite map_lookup_filter_Some, !lookup_omap, Hnew. cbn [fst Snap_Tags]. rewrite list_elem_of_singleton. cbn [Snap_Tags EmptySnapshot m_store start one_obs fst].
    split; [tauto|]. intros Hc. split; [done|]. split; [|apply not_elem_of_nil].
    destruct (decide (c = demo_id)) as [->|Hne]; [done|]. by rewrite lookup_singleton_ne in Hc.
Defined.

End DemoMonitor.
