(* ===== verification/Lifecycle.v ===== *)
(** * The life of a service

    publication/publication.go and sync/sync.go start a service in the same way: a
    goroutine for the scheduler and [WorkerCount] for the workers, a channel of
    work between them, and a wait group that counts the goroutines; Stop closes
    [stopCh] and waits.  Run of the scheduler and of the workers are loops around a
    [select].  This file has the loops over any scheduler and workers ([Parts]); the
    two services are instances.

    A [select] takes any of its cases that is ready.  Contexts are not cancelled. *)

From S2P Require Import Prelude.

(** What a service does between its [select]s: [lf_tick] is the ticker's case, when
    the scheduler is at rest; [lf_sched] the rest of [processPending...]; [lf_take]
    a worker that takes an item, [lf_work] one that goes on with it and [lf_finish]
    one that has processed it; [lf_client] the requests of clients.  [lf_busy] counts the items in work. *)
Class Parts (Sys : Type) := {
  lf_client : relation Sys; lf_tick : relation Sys; lf_sched : relation Sys;
  lf_take : relation Sys; lf_work : relation Sys; lf_finish : relation Sys;
  lf_resting : Sys -> Prop; lf_busy : Sys -> nat;
}.

(** Laws, for the states of an invariant: what moves what, that nothing is stuck,
    and a measure of the work that is left, which a tick raises by a bound. *)
Class PartsSpec (Sys : Type) `{!Parts Sys} (inv : Sys -> Prop) (left cost : Sys -> nat) : Prop := {
  client_spec s s' : inv s -> lf_client s s' -> inv s' /\ lf_busy s' = lf_busy s /\ (lf_resting s -> lf_resting s');
  tick_spec s s' : inv s -> lf_tick s s' ->
    inv s' /\ lf_busy s' = lf_busy s /\ (left s' <= left s + cost s)%nat;
  sched_spec s s' : inv s -> lf_sched s s' ->
    inv s' /\ lf_busy s' = lf_busy s /\ ~ lf_resting s /\ (left s' < left s)%nat /\ cost s' = cost s;
  take_spec s s' : inv s -> lf_take s s' ->
    inv s' /\ lf_busy s' = S (lf_busy s) /\ (left s' < left s)%nat /\ cost s' = cost s /\ (lf_resting s -> lf_resting s');
  work_spec s s' : inv s -> lf_work s s' ->
    inv s' /\ lf_busy s' = lf_busy s /\ lf_busy s <> 0%nat /\ (left s' < left s)%nat /\ cost s' = cost s
    /\ (lf_resting s -> lf_resting s');
  finish_spec s s' : inv s -> lf_finish s s' ->
    inv s' /\ lf_busy s = S (lf_busy s') /\ (left s' < left s)%nat /\ cost s' = cost s /\ (lf_resting s -> lf_resting s');
  tick_progress s : inv s -> lf_resting s -> exists s', lf_tick s s';
  sched_progress s : inv s -> lf_resting s \/ exists s', lf_sched s s';
  finish_progress s : inv s -> lf_busy s <> 0%nat -> exists s', lf_work s s' \/ lf_finish s s';
}.

(** A scheduler that has not yet done its first round, one in its loop, and one
    that has returned. *)
Inductive SchedulerRun := Starting | Looping | Returned.

Section service.
Context {Sys : Type} `{!Parts Sys}.

(** The service: idle workers are at their [select], busy ones process an item. *)
Record Service := {
  sv_sys : Sys; sv_scheduler : SchedulerRun; sv_idle : nat; sv_wg : nat;
  sv_stopCh : bool;        (** closed *)
  sv_stopped : bool }.     (** Stop has returned *)

Definition Start (WorkerCount : nat) (s : Sys) : Service := {|
  sv_sys := s; sv_scheduler := Starting; sv_idle := WorkerCount; sv_wg := S WorkerCount;
  sv_stopCh := false; sv_stopped := false |}.

(** What the goroutines do that Stop waits for, and the return of Stop. *)
Inductive drain_step : relation Service :=
  | svc_first s s' i g b r : lf_resting s -> lf_tick s s' ->
      drain_step (Build_Service s Starting i g b r) (Build_Service s' Looping i g b r)
  | svc_sched s s' i g b r : lf_sched s s' ->
      drain_step (Build_Service s Looping i g b r) (Build_Service s' Looping i g b r)
  | svc_take s s' c i g b r : lf_take s s' ->
      drain_step (Build_Service s c (S i) g b r) (Build_Service s' c i g b r)
  | svc_work s s' c i g b r : lf_work s s' ->
      drain_step (Build_Service s c i g b r) (Build_Service s' c i g b r)
  | svc_finish s s' c i g b r : lf_finish s s' ->
      drain_step (Build_Service s c i g b r) (Build_Service s' c (S i) g b r)
  | svc_sched_end s i g r : lf_resting s ->
      drain_step (Build_Service s Looping i g true r) (Build_Service s Returned i (pred g) true r)
  | svc_worker_end s c i g r :
      drain_step (Build_Service s c (S i) g true r) (Build_Service s c i (pred g) true r)
  | svc_wait s c i :
      drain_step (Build_Service s c i 0 true false) (Build_Service s c i 0 true true).

(** With the requests of clients, the ticker and the call of Stop. *)
Inductive service_step : relation Service :=
  | svc_client s s' c i g b r : lf_client s s' ->
      service_step (Build_Service s c i g b r) (Build_Service s' c i g b r)
  | svc_tick s s' i g b r : lf_resting s -> lf_tick s s' ->
      service_step (Build_Service s Looping i g b r) (Build_Service s' Looping i g b r)
  | svc_stop s c i g r :
      service_step (Build_Service s c i g false r) (Build_Service s c i g true r)
  | svc_drain v v' : drain_step v v' -> service_step v v'.

Section laws.
Context (inv : Sys -> Prop) (left cost : Sys -> nat) `{!PartsSpec Sys inv left cost}.

Definition scheduler_alive (c : SchedulerRun) : nat := match c with Returned => 0 | _ => 1 end.

(** The wait group counts the goroutines. *)
Record service_inv (workers : nat) (v : Service) : Prop := {
  sv_inv : inv (sv_sys v);
  sv_count : sv_wg v = (scheduler_alive (sv_scheduler v) + sv_idle v + lf_busy (sv_sys v))%nat;
  sv_workers : (sv_idle v + lf_busy (sv_sys v) <= workers)%nat;
  sv_rest : sv_scheduler v <> Looping -> lf_resting (sv_sys v);
  sv_done : sv_stopped v = true -> sv_stopCh v = true /\ sv_wg v = 0%nat }.

Lemma start_inv n s : inv s -> lf_busy s = 0%nat -> lf_resting s -> service_inv n (Start n s).
Proof. intros Hi Hb Hr. split; simpl; try done; lia. Qed.

Lemma drain_inv n v v' : service_inv n v -> drain_step v v' -> service_inv n v'.
Proof.
  intros [Hi Hc Hw Hr Hd] Hstep. destruct Hstep; simpl in *.
  - destruct (tick_spec s s' Hi) as (? & Hb & _); [done|]. split; simpl; rewrite ?Hb; try done.
  - destruct (sched_spec s s' Hi) as (? & Hb & _); [done|]. split; simpl; rewrite ?Hb; done.
  - destruct (take_spec s s' Hi) as (? & Hb & _ & _ & Hr'); [done|]. split; simpl; rewrite ?Hb; auto; lia.
  - destruct (work_spec s s' Hi) as (? & Hb & _ & _ & _ & Hr'); [done|]. split; simpl; rewrite ?Hb; auto.
  - destruct (finish_spec s s' Hi) as (? & Hb & _ & _ & Hr'); [done|]. split; simpl; auto; lia.
  - split; simpl; auto; try lia. intros Hst. destruct (Hd Hst). split; [done|lia].
  - split; simpl; auto; try lia. intros Hst. destruct (Hd Hst). split; [done|lia].
  - split; simpl; auto.
Qed.

Lemma service_step_inv n v v' : service_inv n v -> service_step v v' -> service_inv n v'.
Proof.
  intros Hinv Hstep. destruct Hstep; [..|by eapply drain_inv]; destruct Hinv as [Hi Hc Hw Hr Hd]; simpl in *.
  - destruct (client_spec s s' Hi) as (? & Hb & Hr'); [done|]. split; simpl; rewrite ?Hb; auto.
  - destruct (tick_spec s s' Hi) as (? & Hb & _); [done|]. split; simpl; rewrite ?Hb; done.
  - split; simpl; auto. intros Hst. by destruct (Hd Hst).
Qed.

Lemma service_run_inv n v v' : service_inv n v -> rtc service_step v v' -> service_inv n v'.
Proof. intros Hinv Hsteps. induction Hsteps; [done|]. by apply IHHsteps, (service_step_inv n x). Qed.

(** When Stop has returned, only clients go on. *)
Lemma stopped_step n v v' : service_inv n v -> sv_stopped v = true -> service_step v v' ->
  lf_client (sv_sys v) (sv_sys v') /\ sv_stopped v' = true.
Proof.
  intros [Hi Hc Hw Hr Hd] Hst Hstep. destruct (Hd Hst) as [Hclosed Hwg]. rewrite Hwg in Hc.
  destruct Hstep as [| | |v v' Hdr]; simpl in *; [done|lia|done|].
  destruct Hdr as [| | |s s' c i g b r Hs|s s' c i g b r Hs| | |]; simpl in *; try lia; try done.
  - destruct (work_spec s s' Hi Hs) as (_ & _ & Hb & _). lia.
  - destruct (finish_spec s s' Hi Hs) as (_ & Hb & _). lia.
Qed.

Lemma stopped_run n v v' : service_inv n v -> sv_stopped v = true -> rtc service_step v v' ->
  rtc lf_client (sv_sys v) (sv_sys v').
Proof.
  intros Hinv Hst Hsteps. induction Hsteps as [|v v1 v2 Hstep _ IH]; [done|].
  destruct (stopped_step n v v1 Hinv Hst Hstep) as [Hc Hst1]. eapply rtc_l; [exact Hc|].
  apply IH; [|done]. by eapply service_step_inv.
Qed.

(** What is left until Stop returns. *)
Definition to_return (v : Service) : nat :=
  (left (sv_sys v) + match sv_scheduler v with Starting => cost (sv_sys v) + 2 | Looping => 1 | Returned => 0 end
   + sv_idle v + lf_busy (sv_sys v) + if sv_stopped v then 0 else 1)%nat.

Lemma drain_decreases n v v' : service_inv n v -> drain_step v v' -> (to_return v' < to_return v)%nat.
Proof.
  intros [Hi Hc Hw Hr Hd] Hstep. unfold to_return. destruct Hstep; simpl in *.
  - destruct (tick_spec s s' Hi) as (_ & -> & Hl); [done|]. lia.
  - destruct (sched_spec s s' Hi) as (_ & -> & _ & Hl & _); [done|]. lia.
  - destruct (take_spec s s' Hi) as (_ & -> & Hl & -> & _); [done|]. lia.
  - destruct (work_spec s s' Hi) as (_ & -> & _ & Hl & -> & _); [done|]. lia.
  - destruct (finish_spec s s' Hi) as (_ & -> & Hl & -> & _); [done|]. lia.
  - lia.
  - lia.
  - lia.
Qed.

Lemma drain_progress n v : service_inv n v -> sv_stopCh v = true ->
  sv_stopped v = true \/ exists v', drain_step v v'.
Proof.
  intros [Hi Hc Hw Hr Hd] Hclosed. destruct v as [s c i g b r]. simpl in *. subst b.
  destruct r; [by left|right]. destruct i as [|i]; [|eexists; apply svc_worker_end].
  destruct (decide (lf_busy s = 0%nat)) as [Hb|Hb];
    [|destruct (finish_progress s Hi Hb) as [s' [Hs|Hs]]; eexists; [by apply svc_work|by apply svc_finish]].
  destruct c.
  - assert (Hrest : lf_resting s) by (by apply Hr). destruct (tick_progress s Hi Hrest) as [s' Hs].
    eexists. by apply (svc_first s s').
  - destruct (sched_progress s Hi) as [Hrest|[s' Hs]]; eexists; [by apply svc_sched_end|by apply svc_sched].
  - rewrite Hb in Hc. simpl in Hc. subst g. eexists. apply svc_wait.
Qed.

Lemma drain_stopCh v v' : drain_step v v' -> sv_stopCh v = true -> sv_stopCh v' = true.
Proof. by intros []. Qed.

(** Stop returns: once [stopCh] is closed, in whatever order the goroutines go on,
    with no further tick. *)
Lemma stop_inevitable n v : service_inv n v -> sv_stopCh v = true ->
  inevitably drain_step (fun v' => sv_stopped v' = true) v.
Proof.
  intros Hinv Hclosed.
  apply (inevitably_measure _ _ (fun v => service_inv n v /\ sv_stopCh v = true) to_return); [| |done].
  - intros v1 v2 [Hi Hcl] Hstep. split; [|by eapply drain_decreases].
    split; [by eapply drain_inv|by eapply drain_stopCh].
  - intros v1 [Hi Hcl]. by eapply drain_progress.
Qed.

(** C10. Stop returns and leaves silence.  For a service that was started with some
    workers, in every state after [stopCh] was closed: in whatever order scheduler
    and workers go on, Stop returns, if the ticker does not fire again; there are
    never more items in work than workers; and from the moment that Stop has
    returned, nothing happens but requests of clients, whatever was in the queue. *)
Theorem stop_returns n s v : inv s -> lf_busy s = 0%nat -> lf_resting s ->
  rtc service_step (Start n s) v -> sv_stopCh v = true ->
  inevitably drain_step (fun v' => sv_stopped v' = true) v
  /\ (lf_busy (sv_sys v) <= n)%nat
  /\ forall v1 v2, rtc service_step v v1 -> sv_stopped v1 = true -> rtc service_step v1 v2 ->
       rtc lf_client (sv_sys v1) (sv_sys v2).
Proof.
  intros Hi Hb Hr Hrun Hclosed.
  assert (Hv : service_inv n v) by (eapply service_run_inv; [by apply start_inv|done]).
  split; [by eapply stop_inevitable|]. split; [destruct Hv; lia|]. intros v1 v2 H1 Hst H2.
  eapply stopped_run; [by eapply service_run_inv|done|done].
Qed.

End laws.

(** The steps of the parts, in any order. *)
Definition part_step (s s' : Sys) : Prop :=
  lf_client s s' \/ lf_tick s s' \/ lf_sched s s' \/ lf_take s s' \/ lf_work s s' \/ lf_finish s s'.

Lemma service_runs v v' : rtc service_step v v' -> rtc part_step (sv_sys v) (sv_sys v').
Proof.
  intros Hsteps. induction Hsteps as [|v v1 v2 Hstep _ IH]; [done|].
  assert (Hs : part_step (sv_sys v) (sv_sys v1) \/ sv_sys v1 = sv_sys v).
  { unfold part_step. destruct Hstep as [| | |v v' []]; simpl; auto 8. }
  destruct Hs as [Hs|Hs]; [by eapply rtc_l|by rewrite <- Hs].
Qed.

End service.
Arguments Service Sys : clear implicits.
