(* ===== verification/Services.v ===== *)
(** * The services started and stopped

    The service of publications and the one of syncs as instances of [Lifecycle]:
    every run of a started service is a run of its step relation, Stop returns,
    and what Stop leaves in the queue of publications is lost. *)

From S2P Require Import Prelude GoStrings GoUrl Interfaces Adapters CoreRecord ZotConfig Search Tables StoreController RoutingWorld Publication Sync SyncSpec SyncSystem Lifecycle.

(** ** Publications *)

Section publications.
Context {D T R : Type} `{!PubTable D} (rows : D -> list Publication) `{!TableSpec D rows}
  `{!sqlite.Gorm D} `{!StoreAPI T} `{!RoutingAPI R} `{!JsonCodec PublishRequest}.
Context (uuid now : nat -> string) (uuid_inj : forall i j, uuid i = uuid j -> i = j).
Notation Sys := (PubSys (D := D) (T := T) (R := R)).
Notation pub_step := (pub_step uuid now).
Notation work_step := (work_step now).

Inductive pub_client : relation Sys :=
  | pub_create req r w w' q c b sent dn :
      pubDB.CreatePublication uuid now req w = (r, w') ->
      pub_client (Build_PubSys w q c b sent dn) (Build_PubSys w' q c b sent dn).
Inductive pub_tick : relation Sys :=
  | pub_round w q b sent dn ps :
      pubDB.GetPublicationsByStatus PUBLICATION_STATUS_PENDING (p_db w) = Ok ps ->
      pub_tick (Build_PubSys w q Idle b sent dn) (Build_PubSys w q (Dispatching (Pub_ID <$> ps)) b sent dn).

#[export] Instance pub_parts : Parts Sys := {|
  lf_client := pub_client; lf_tick := pub_tick;
  lf_sched s s' := work_step s s' /\ sy_sched s' <> sy_sched s;
  lf_take s s' := work_step s s' /\ length (sy_busy s') = S (length (sy_busy s));
  lf_work _ _ := False;
  lf_finish s s' := work_step s s' /\ length (sy_busy s) = S (length (sy_busy s'));
  lf_resting s := sy_sched s = Idle;
  lf_busy s := length (sy_busy s) |}.

(** At most this much is added by a tick. *)
Definition tick_cost (s : Sys) : nat := (5 * length (rows (p_db (sy_w s))) + 1)%nat.

Lemma part_is_pub_step s s' : part_step s s' -> pub_step s s'.
Proof.
  intros [[]|[[]|[[Hs _]|[[Hs _]|[[]|[Hs _]]]]]]; [by eapply Publication.step_create|by eapply Publication.step_tick|by apply Publication.step_work..].
Qed.

(** A started service runs its step relation. *)
Lemma service_runs_pub n s v : rtc service_step (Start n s) v -> rtc pub_step s (sv_sys v).
Proof.
  intros Hrun%service_runs. simpl in Hrun. clear -Hrun. induction Hrun; [done|].
  eapply rtc_l; [by apply part_is_pub_step|done].
Qed.

Lemma rows_length id st (w w' : PubWorld D T R) r : NoDup (Pub_ID <$> rows (p_db w)) ->
  pubDB.UpdatePublicationStatus now id st w = (r, w') -> length (rows (p_db w')) = length (rows (p_db w)).
Proof.
  intros Hnd Hrun. pose proof (Update_run rows now id st w Hnd) as Hu. case_decide.
  - destruct Hu as (d & Hu & Hr). rewrite Hrun in Hu. injection Hu as -> ->. simpl. rewrite Hr.
    unfold update_rows, update_by. apply length_fmap.
  - rewrite Hrun in Hu. by injection Hu as -> ->.
Qed.

#[export] Instance pub_parts_spec : PartsSpec Sys (pub_inv rows uuid) work_left tick_cost.
Proof.
  split.
  - intros s s' Hi Hs. split; [eapply step_inv; [done..|]; apply part_is_pub_step; by left|]. by destruct Hs.
  - intros s s' Hi Hs. split; [eapply step_inv; [done..|]; apply part_is_pub_step; by right; left|].
    destruct Hs as [w q b sent dn ps Hps]. split; [done|]. unfold work_left, tick_cost. simpl.
    unfold pubDB.GetPublicationsByStatus in Hps. rewrite (tbl_FindByStatus_spec (rows := rows)) in Hps.
    injection Hps as <-. rewrite length_fmap. unfold with_status.
    pose proof (length_filter (fun p => row_status p = PUBLICATION_STATUS_PENDING) (rows (p_db w))). lia.
  - intros s s' Hi [Hs Hne]. split; [by eapply step_inv, Publication.step_work|].
    pose proof (work_decreases _ _ _ Hs) as Hl. unfold tick_cost. pose proof (pi_ids _ _ _ Hi) as Hnd. unfold ids in Hnd.
    destruct Hs as [| |w w' r q i l b sent dn Hrun| | |]; simpl in *; try done.
    by rewrite (rows_length i _ w w' r Hnd Hrun).
  - intros s s' Hi [Hs Hb]. split; [by eapply step_inv, Publication.step_work|]. split; [done|].
    pose proof (work_decreases _ _ _ Hs) as Hl. unfold tick_cost. destruct Hs; simpl in *; try lia; [done|].
    rewrite !length_app in Hb. simpl in Hb. lia.
  - done.
  - intros s s' Hi [Hs Hb]. split; [by eapply step_inv, Publication.step_work|]. split; [done|].
    pose proof (work_decreases _ _ _ Hs) as Hl. unfold tick_cost.
    destruct Hs as [| | | |w i q c b sent dn|w w' q c b1 i b2 sent dn Hrun]; simpl in *; try lia; [|].
    { rewrite length_app in Hb. simpl in Hb. lia. }
    destruct (process_run rows now i w (pi_ids _ _ _ Hi)) as (w1 & t & Hrun' & _ & _ & Hr).
    rewrite Hrun in Hrun'. injection Hrun' as <-. rewrite Hr. unfold update_rows, update_by. by rewrite length_fmap.
  - intros s Hi Hr. destruct s as [w q c b sent dn]. simpl in Hr. subst c. eexists. apply (pub_round w q b sent dn).
    apply (tbl_FindByStatus_spec (rows := rows)).
  - intros s Hi. destruct s as [w q c b sent dn]. simpl. destruct c as [|[|i l]|i l]; [by left|right..].
    + eexists. split; [apply work_rest|done].
    + destruct (decide (length q < Scheduler.workQueueSize)%nat); eexists; [split; [by apply work_send|done]|].
      split; [by apply work_skip|]. simpl. intros [= Heq]. apply (f_equal length) in Heq. simpl in Heq. lia.
    + destruct (pubDB.UpdatePublicationStatus now i PUBLICATION_STATUS_IN_PROGRESS w) as [r w'] eqn:Hrun.
      eexists. split; [by eapply work_mark|done].
  - intros s Hi Hb. destruct s as [w q c [|i b] sent dn]; [done|].
    destruct (Worker.processPublication now i w) as [[] w'] eqn:Hrun. eexists. right.
    split; [by apply (work_finish now w w' q c [] i b)|done].
Qed.

(** What was sent and not processed has not got a verdict. *)
Definition no_verdict (s : Sys) : Prop :=
  forall p, p ∈ rows (p_db (sy_w s)) -> Pub_ID p ∉ sy_done s ->
    Pub_Status p = PUBLICATION_STATUS_PENDING \/ Pub_Status p = PUBLICATION_STATUS_IN_PROGRESS.

Lemma no_verdict_step s s' : pub_inv rows uuid s -> no_verdict s -> pub_step s s' -> no_verdict s'.
Proof.
  intros Hi Hn Hs. destruct Hs as
    [req r w w' q c b sent dn Hrun|w q b sent dn ps Hps|s s'
    [w q i l b sent dn Hlen|w q i l b sent dn Hlen
    |w w' r q i l b sent dn Hrun|w q b sent dn|w i q c b sent dn|w w' q c b1 i b2 sent dn Hrun]];
    try exact Hn; intros p; simpl.
  - destruct (json_Marshal req) as [bytes|e] eqn:Hm.
    2:{ unfold pubDB.CreatePublication in Hrun. rewrite Hm in Hrun. injection Hrun as <- <-. apply Hn. }
    destruct (Create_run rows now uuid req bytes w Hm) as (d & k & Hrun' & Hr). rewrite Hrun in Hrun'.
    injection Hrun' as -> ->. simpl. rewrite Hr.
    intros [Hin| ->%list_elem_of_singleton]%elem_of_app Hd; [by apply (Hn p)|by left].
  - pose proof (Update_run rows now i PUBLICATION_STATUS_IN_PROGRESS w (pi_ids _ _ _ Hi)) as Hu.
    case_decide; [destruct Hu as (d & Hu & Hr)|]; rewrite Hrun in Hu; injection Hu as -> ->; [|apply Hn].
    simpl. rewrite Hr. intros [[_ ->]|[Hin _]]%update_rows_elem Hd; [by right|by apply (Hn p)].
  - destruct (process_run rows now i w (pi_ids _ _ _ Hi)) as (w1 & t & Hrun' & _ & _ & Hr).
    rewrite Hrun in Hrun'. injection Hrun' as <-. rewrite Hr.
    intros [[-> _]|[Hin _]]%update_rows_elem Hd; [set_solver|]. apply (Hn p); [done|]. simpl. set_solver.
Qed.

Lemma no_verdict_run s0 s : initial rows s0 -> rtc pub_step s0 s -> pub_inv rows uuid s /\ no_verdict s.
Proof.
  intros H0 Hrun. assert (Hi0 : pub_inv rows uuid s0) by (eapply (reachable_inv rows uuid now uuid_inj); exists s0; by split).
  assert (Hn0 : no_verdict s0) by (intros p; destruct H0 as [-> _]; by intros ?%elem_of_nil).
  clear H0. induction Hrun as [|s s1 s2 Hs _ IH]; [done|].
  apply IH; [by eapply Publication.step_inv|by eapply no_verdict_step].
Qed.

(** A publication nobody will send: IN_PROGRESS and unknown to the service. *)
Definition stranded (id : string) (s : Sys) : Prop :=
  pub_inv rows uuid s /\ id ∉ sy_sent s
  /\ match sy_sched s with Idle => True | Dispatching l | Marking _ l => id ∉ l end
  /\ exists p, first_by_id id (rows (p_db (sy_w s))) = Some p /\ Pub_Status p = PUBLICATION_STATUS_IN_PROGRESS.

Lemma stranded_step id s s' : stranded id s -> pub_step s s' -> stranded id s'.
Proof.
  intros (Hi & Hns & Hl & p & Hp & Hst) Hs. split; [by eapply step_inv|]. pose proof (pi_ids _ _ _ Hi) as Hnd.
  pose proof (pi_sched _ _ _ Hi) as Hsch. pose proof (pi_perm _ _ _ Hi) as Hperm.
  destruct Hs as
    [req r w w' q c b sent dn Hrun|w q b sent dn ps Hps|s s'
    [w q i l b sent dn Hlen|w q i l b sent dn Hlen
    |w w' r q i l b sent dn Hrun|w q b sent dn|w i q c b sent dn|w w' q c b1 i b2 sent dn Hrun]];
    simpl in *; try (split; [set_solver|]; split; [set_solver|]; by exists p).
  - destruct (inv_create rows uuid now uuid_inj (Build_PubSys w q c b sent dn) req r w' Hi Hrun) as [_ (l & Hr & _)]. simpl in Hr.
    split; [done|]. split; [done|]. exists p. split; [|done]. rewrite Hr, first_by_id_app; [done|by exists p].
  - split; [done|]. split; [|by exists p]. unfold pubDB.GetPublicationsByStatus in Hps.
    rewrite (tbl_FindByStatus_spec (rows := rows)) in Hps. injection Hps as <-.
    intros (p' & -> & [Hst' Hin]%list_elem_of_filter)%list_elem_of_fmap.
    pose proof (first_by_Pub_ID _ _ Hnd Hin) as Hp'. change (first_by_id (Pub_ID p') (rows (p_db w)) = Some p') in Hp'.
    simpl in Hst'. congruence.
  - split; [done|]. split; [done|]. exists p. split; [|done].
    pose proof (Update_run rows now i PUBLICATION_STATUS_IN_PROGRESS w Hnd) as Hu.
    case_decide; [destruct Hu as (d & Hu & Hr)|]; rewrite Hrun in Hu; injection Hu as -> ->; [|done].
    simpl. rewrite Hr, first_by_id_other; [done|]. intros ->. by apply Hns, Hsch.
  - split; [done|]. split; [by destruct c|]. exists p. split; [|done].
    destruct (process_run rows now i w Hnd) as (w1 & t & Hrun' & _ & _ & Hr).
    rewrite Hrun in Hrun'. injection Hrun' as <-. rewrite Hr, first_by_id_other; [done|].
    intros ->. apply Hns. rewrite Hperm. set_solver.
Qed.

(** The service started again on the database of before. *)
Definition restarted (s : Sys) : Sys := Build_PubSys (sy_w s) [] Idle [] [] [].

(** C28. What is in the queue when the service stops is lost.  A publication that was sent
    and that no worker has taken when Stop returns is IN_PROGRESS; a service that
    is started again on the database never sends it to a worker, whatever happens,
    and it stays IN_PROGRESS: the scheduler looks for PENDING publications only. *)
Theorem queue_lost_at_stop n s0 v id s : initial rows s0 ->
  rtc service_step (Start n s0) v -> sv_stopped v = true -> id ∈ sy_queue (sv_sys v) ->
  rtc pub_step (restarted (sv_sys v)) s ->
  id ∉ sy_sent s /\ exists p, first_by_id id (rows (p_db (sy_w s))) = Some p
    /\ Pub_Status p = PUBLICATION_STATUS_IN_PROGRESS.
Proof.
  intros H0 Hrun Hst Hq Hrun'. pose proof (no_verdict_run _ _ H0 (service_runs_pub _ _ _ Hrun)) as [Hi Hn].
  destruct (no_verdict_run s0 s0 H0) as [Hi0 _]; [done|].
  assert (Hv : service_inv (pub_inv rows uuid) n v).
  { apply (service_run_inv (pub_inv rows uuid) work_left (tick_cost) n (Start n s0)); [|exact Hrun]. destruct H0 as (_ & _ & Hc & Hb & _).
    apply start_inv; [done| |done]. simpl. by rewrite Hb. }
  assert (Hidle : sy_sched (sv_sys v) = Idle).
  { apply (sv_rest _ _ _ Hv). pose proof (sv_count _ _ _ Hv). destruct (sv_done _ _ _ Hv Hst) as [_ Hwg].
    intros Hc. rewrite Hc in *. simpl in *. lia. }
  assert (Hs : stranded id (restarted (sv_sys v))).
  { assert (Hsent : id ∈ sy_sent (sv_sys v)) by (rewrite (pi_perm _ _ _ Hi); set_solver).
    assert (Hnd : id ∉ sy_done (sv_sys v)).
    { pose proof (pi_nodup _ _ _ Hi) as Hnd. rewrite (pi_perm _ _ _ Hi) in Hnd.
      apply NoDup_app in Hnd as (_ & Hdis & _). specialize (Hdis id Hq). set_solver. }
    pose proof (pi_known _ _ _ Hi id Hsent) as Hin. apply list_elem_of_fmap in Hin as (p & -> & Hin).
    split; [|split; [apply not_elem_of_nil|split; [done|]]].
    - destruct Hi as [Hids Hdr _ _ _ _ _ _]. split; simpl; try done; try constructor; try lia;
        intros; by (match goal with H : _ ∈ [] |- _ => apply elem_of_nil in H end).
    - exists p. split; [by apply first_by_Pub_ID; [apply (pi_ids _ _ _ Hi)|]|].
      destruct (Hn p Hin Hnd) as [Hp|Hp]; [|done]. destruct (pi_pending _ _ _ Hi p Hin Hp Hsent) as [l Hl]. congruence. }
  clear -Hs Hrun' uuid_inj TableSpec0. induction Hrun' as [s|s s1 s2 Hstep _ IH]; [destruct Hs as (_ & ? & _ & ?); done|].
  by apply IH, (stranded_step id s).
Qed.

End publications.

(** ** Synchronisations *)

Section syncs.
Context {D F Mo N C : Type} `{!SyncTable D} (rows : D -> list Sync) `{!TableSpec D rows}
  `{!OsFiles F} `{!JsonCodec ZotConfig} `{!MonitorAPI Mo} `{!SyncClient N C}.
Context (url_error : string -> error) (uuid : nat -> string) (uuid_inj : forall i j, uuid i = uuid j -> i = j).
Notation Sys := (SyncSys (D := D) (F := F) (Mo := Mo) (N := N)).
Notation step := (sync_step (C := C) url_error uuid).

Inductive sync_client : relation Sys :=
  | client_create url r w w' q c b s d a :
      syncCtlr.CreateSync uuid url_error url w = (r, w') ->
      sync_client (Build_SyncSys w q c b s d a) (Build_SyncSys w' q c b s d a)
  | client_ask id w w' q c b s d a :
      syncCtlr.DeleteSync id w = (Ok tt, w') ->
      sync_client (Build_SyncSys w q c b s d a) (Build_SyncSys w' q c b s d (a ++ [id]))
  | client_refuse id e w w' q c b s d a :
      syncCtlr.DeleteSync id w = (Err e, w') ->
      sync_client (Build_SyncSys w q c b s d a) (Build_SyncSys w' q c b s d a).
Inductive sync_tick : relation Sys :=
  | sync_round ps w q b s d a :
      syncDB.GetSyncsByStatus SYNC_STATUS_PENDING (s_db w) = Ok ps ->
      sync_tick (Build_SyncSys w q S_Idle b s d a) (Build_SyncSys w q (S_Creations ps) b s d a).

#[export] Instance sync_parts : Parts Sys := {|
  lf_client := sync_client; lf_tick := sync_tick;
  lf_sched s s' := step s s' /\ ss_sched s <> S_Idle /\ ss_sched s' <> ss_sched s;
  lf_take s s' := step s s' /\ length (ss_busy s') = S (length (ss_busy s));
  lf_work s s' := step s s' /\ length (ss_busy s') = length (ss_busy s) /\ ss_busy s' <> ss_busy s;
  lf_finish s s' := step s s' /\ length (ss_busy s) = S (length (ss_busy s'));
  lf_resting s := ss_sched s = S_Idle;
  lf_busy s := length (ss_busy s) |}.

Definition row_count (s : Sys) : nat := length (rows (s_db (ss_w s))).
Definition job_left (j : Job) : nat := match j with Running _ => 2 | Verdict _ _ => 1 end.
Definition sched_left (R : nat) (c : SyncSchedulerState) : nat :=
  match c with
  | S_Idle => 0
  | S_Creations l => 6 * length l + 4 * R + 3
  | S_Dispatch _ l => 6 * length l + 4 * R + 8
  | S_Revert _ l => 6 * length l + 4 * R + 7
  | S_Deletions l => 4 * length l + 1
  end.
Definition sync_left (s : Sys) : nat :=
  (3 * length (ss_queue s) + sum_list_with job_left (ss_busy s) + sched_left (row_count s) (ss_sched s))%nat.
Definition sync_cost (s : Sys) : nat := (10 * row_count s + 3)%nat.

Lemma part_is_sync_step s s' : part_step s s' -> step s s'.
Proof.
  intros [[]|[[]|[[Hs _]|[[Hs _]|[[Hs _]|[Hs _]]]]]]; try done; by econstructor.
Qed.

(** A started service runs its step relation. *)
Lemma service_runs_sync n s v : rtc service_step (Start n s) v -> rtc step s (sv_sys v).
Proof.
  intros Hrun%service_runs. simpl in Hrun. clear -Hrun. induction Hrun; [done|].
  eapply rtc_l; [by apply part_is_sync_step|done].
Qed.

Lemma status_count id st (w w' : SyncWorld D F Mo N) r : NoDup (sync_ids rows w) ->
  syncDB.UpdateSyncStatus id st w = (r, w') -> length (rows (s_db w')) = length (rows (s_db w)).
Proof.
  intros Hnd Hrun. destruct (status_run rows id st w Hnd) as (x & d & Hrun' & Hr & _).
  rewrite Hrun in Hrun'. injection Hrun' as -> ->. simpl. rewrite Hr. unfold update_by. apply length_fmap.
Qed.

Lemma status_list_le st (d : D) ps : syncDB.GetSyncsByStatus st d = Ok ps -> (length ps <= length (rows d))%nat.
Proof.
  unfold syncDB.GetSyncsByStatus. rewrite (tbl_FindByStatus_spec (rows := rows)). intros [= <-].
  unfold with_status. apply length_filter.
Qed.

(** No step of scheduler or workers adds or removes rows, and each takes from what is left. *)
Lemma sync_decreases s s' : sync_inv rows uuid s -> step s s' -> ~ sync_client s s' -> ~ sync_tick s s' ->
  row_count s' = row_count s /\ (sync_left s' < sync_left s)%nat.
Proof.
  intros Hi Hs Hnc Hnt. pose proof (si_ids _ _ _ Hi) as Hnd. unfold known in Hnd. unfold sync_left, row_count.
  destruct Hs as
    [url r w w' q c b sn d a Hrun|id w w' q c b sn d a Hrun|id e w w' q c b sn d a Hrun
    |ps w q b sn d a Hps|p l w w' q b sn d a Hrun|p l e w w' q b sn d a Hrun|p l w q b sn d a Hlen
    |p l w q b sn d a Hlen|p l r w w' q b sn d a Hrun|ps w q b sn d a Hps|p l w q b sn d a Hlen
    |p l w q b sn d a Hlen|w q b sn d a|i w q c b sn d a|i st w w' q c b1 b2 sn d a Hrun
    |i st r w w' q c b1 b2 sn d a Hrun]; simpl in *;
    try (exfalso; first [apply Hnc; by econstructor|apply Hnt; by econstructor]);
    try (rewrite (status_count _ _ _ _ _ Hnd Hrun); split; [done|]; rewrite ?sum_list_with_app; simpl; lia);
    try (split; [done|]; rewrite ?length_app, ?sum_list_with_app; simpl; lia).
  - apply status_list_le in Hps. split; [done|]. lia.
  - destruct (work_keeps rows url_error i w w' st Hnd Hrun) as [Hsame _].
    apply (f_equal length) in Hsame. rewrite !length_fmap in Hsame. rewrite Hsame. split; [done|].
    rewrite !sum_list_with_app. simpl. lia.
Qed.

Lemma step_not_outside s s' : ss_sched s' <> ss_sched s /\ ss_sched s <> S_Idle \/ ss_busy s' <> ss_busy s ->
  ~ sync_client s s' /\ ~ sync_tick s s'.
Proof.
  intros Hne. split; intros Hs; destruct Hs; simpl in Hne; destruct Hne as [[Hne Hni]|Hne]; congruence.
Qed.

(** What the steps of a class share. *)
Lemma inner_step s s' : sync_inv rows uuid s -> step s s' ->
  ss_sched s' <> ss_sched s /\ ss_sched s <> S_Idle \/ ss_busy s' <> ss_busy s ->
  sync_inv rows uuid s' /\ (sync_left s' < sync_left s)%nat /\ sync_cost s' = sync_cost s.
Proof.
  intros Hi Hs [Hnc Hnt]%step_not_outside. destruct (sync_decreases s s' Hi Hs Hnc Hnt) as [Hr Hl].
  split; [by eapply sync_step_inv|]. split; [done|]. unfold sync_cost. by rewrite Hr.
Qed.

Lemma busy_keeps_sched s s' : step s s' -> ss_busy s' <> ss_busy s -> ss_sched s' = ss_sched s.
Proof. by intros []. Qed.

Lemma sched_keeps_busy s s' : step s s' -> ss_sched s' <> ss_sched s -> ss_busy s' = ss_busy s.
Proof. by intros []. Qed.

Lemma length_differs {A} (l l' : list A) : length l <> length l' -> l <> l'.
Proof. by intros Hne ->. Qed.

Lemma sched_goes_on s : ss_sched s = S_Idle \/ exists s', step s s' /\ ss_sched s <> S_Idle /\ ss_sched s' <> ss_sched s.
Proof.
  destruct s as [w q c b sn d a]. simpl. destruct c as [|[|p l]|p l|p l|[|p l]]; [by left|right..].
  - eexists. split; [|split]; [apply step_deletions; apply (tbl_FindByStatus_spec (rows := rows))|done|done].
  - destruct (syncDB.UpdateSyncStatus (Sync_ID p) SYNC_STATUS_IN_PROGRESS w) as [[[]|e] w'] eqn:Hrun; eexists;
      (split; [|split]); [by apply step_mark|done|done|by eapply step_unmarked|done|].
    simpl. intros [= Heq]. apply (f_equal length) in Heq. simpl in Heq. lia.
  - destruct (decide (length q < SyncScheduler.workQueueSize)%nat); eexists; (split; [|split]);
      [by apply step_dispatch|done|done|by apply step_full|done|done].
  - destruct (syncDB.UpdateSyncStatus (Sync_ID p) SYNC_STATUS_PENDING w) as [r w'] eqn:Hrun. eexists.
    split; [|split]; [by eapply step_revert|done|done].
  - eexists. split; [|split]; [apply step_rest|done|done].
  - assert (Hne : S_Deletions l <> S_Deletions (p :: l)).
    { intros [= Heq]. apply (f_equal length) in Heq. simpl in Heq. lia. }
    destruct (decide (length q < SyncScheduler.workQueueSize)%nat); eexists; (split; [|split]);
      [by apply step_delete|done|done|by apply step_skip|done|done].
Qed.

#[export] Instance sync_parts_spec : PartsSpec Sys (sync_inv rows uuid) sync_left sync_cost.
Proof.
  split.
  - intros s s' Hi Hs. split; [eapply sync_step_inv; [done..|]; apply part_is_sync_step; by left|]. by destruct Hs.
  - intros s s' Hi Hs. split; [eapply sync_step_inv; [done..|]; apply part_is_sync_step; by right; left|].
    destruct Hs as [ps w q b sn d a Hps]. split; [done|]. apply status_list_le in Hps.
    unfold sync_left, sync_cost, row_count. simpl. lia.
  - intros s s' Hi (Hs & Hni & Hne). destruct (inner_step s s' Hi Hs) as (? & ? & ?); [by left|].
    split; [done|]. simpl. by rewrite (sched_keeps_busy s s').
  - intros s s' Hi (Hs & Hb). assert (Hne : ss_busy s' <> ss_busy s) by (apply length_differs; lia).
    destruct (inner_step s s' Hi Hs) as (? & ? & ?); [by right|]. simpl.
    by rewrite (busy_keeps_sched s s').
  - intros s s' Hi (Hs & Hb & Hne). destruct (inner_step s s' Hi Hs) as (? & ? & ?); [by right|]. simpl.
    split; [done|]. split; [done|]. rewrite (busy_keeps_sched s s') by done. split; [|done].
    intros Hz. apply Hne. rewrite Hz in Hb. apply nil_length_inv in Hz, Hb. congruence.
  - intros s s' Hi (Hs & Hb). assert (Hne : ss_busy s' <> ss_busy s) by (apply length_differs; lia).
    destruct (inner_step s s' Hi Hs) as (? & ? & ?); [by right|]. simpl.
    by rewrite (busy_keeps_sched s s').
  - intros s Hi Hr. destruct s as [w q c b sn d a]. simpl in Hr. subst c. eexists. eapply (sync_round _ w q b sn d a).
    apply (tbl_FindByStatus_spec (rows := rows)).
  - intros s Hi. apply sched_goes_on.
  - intros s Hi Hb. destruct s as [w q c [|[i|i st] b] sn d a]; [done| |].
    + destruct (SyncWorker.work url_error i w) as [st w'] eqn:Hrun. eexists. left.
      split; [by apply (step_work url_error uuid i st w w' q c [] b)|]. done.
    + destruct (syncDB.UpdateSyncStatus (SyncID i) st w) as [r w'] eqn:Hrun. eexists. right.
      split; [by apply (step_finish url_error uuid i st r w w' q c [] b)|]. done.
Qed.

End syncs.

(** ** A service that stops with a publication in its queue *)

Module DemoServices.
Import DemoPublication.
#[local] Existing Instance pub_table.
#[local] Existing Instance pub_table_spec.
#[local] Existing Instance db_gorm.
#[local] Existing Instance one_store.
#[local] Existing Instance log_router.
#[local] Existing Instance req_codec.

Notation PubSystem := (PubSys (D := DB) (T := unit) (R := list string)).

#[local] Instance demo_parts : Parts PubSystem := pub_parts uuid now.
#[local] Instance demo_spec : PartsSpec PubSystem (pub_inv rows uuid) work_left (tick_cost rows) :=
  pub_parts_spec rows uuid now uuid_inj.

Definition at_start : PubSystem := Build_PubSys w0 [] Idle [] [] [].
Definition marked_world : World := (pubDB.UpdatePublicationStatus now "xu" PUBLICATION_STATUS_IN_PROGRESS (w1 "c1")).2.
Definition queued (c : SchedulerState) : PubSystem := Build_PubSys marked_world ["xu"] c [] ["xu"] [].

(** A client creates a publication, the scheduler sends it, and Stop is called
    before the one worker takes it. *)
Definition v_stopping : Service PubSystem := {|
  sv_sys := queued Idle; sv_scheduler := Looping; sv_idle := 1; sv_wg := 2; sv_stopCh := true; sv_stopped := false |}.
Definition v_stopped : Service PubSystem := {|
  sv_sys := queued Idle; sv_scheduler := Returned; sv_idle := 0; sv_wg := 0; sv_stopCh := true; sv_stopped := true |}.

Lemma work_sched s s' i g b r : work_step now s s' -> sy_sched s' <> sy_sched s ->
  service_step (Build_Service (Sys := PubSystem) s Looping i g b r) (Build_Service s' Looping i g b r).
Proof. intros Hs Hne. by apply svc_drain, svc_sched. Qed.

Lemma v_stopping_run : rtc service_step (Start 1 at_start) v_stopping.
Proof.
  eapply rtc_l; [apply (svc_client _ (Build_PubSys (w1 "c1") [] Idle [] [] [])),
    (pub_create uuid now (refs_request "c1") (pubDB.CreatePublication uuid now (refs_request "c1") w0).1), surjective_pairing|].
  eapply rtc_l; [apply svc_drain, svc_first; [done|apply pub_round; reflexivity]|].
  eapply rtc_l; [apply work_sched; [apply (work_send now (w1 "c1") [] "xu" []); unfold Scheduler.workQueueSize; simpl; lia|done]|].
  eapply rtc_l; [apply work_sched; [apply (work_mark now (w1 "c1") marked_world
    (pubDB.UpdatePublicationStatus now "xu" PUBLICATION_STATUS_IN_PROGRESS (w1 "c1")).1), surjective_pairing|done]|].
  eapply rtc_l; [apply work_sched; [apply work_rest|done]|].
  apply rtc_once, svc_stop.
Qed.

Lemma v_stopped_run : rtc service_step v_stopping v_stopped.
Proof.
  eapply rtc_l; [by apply svc_drain, svc_sched_end|]. eapply rtc_l; [by apply svc_drain, svc_worker_end|].
  by apply rtc_once, svc_drain, svc_wait.
Qed.

Lemma at_start_initial : initial rows at_start.
Proof. done. Qed.

Lemma at_start_inv : pub_inv rows uuid at_start.
Proof. apply (reachable_inv rows uuid now uuid_inj). exists at_start. split; [exact at_start_initial|done]. Qed.

Lemma stop_returns_witness :
  inevitably drain_step (fun v' => sv_stopped v' = true) v_stopping
  /\ (lf_busy (sv_sys v_stopping) <= 1)%nat.
Proof.
  destruct (stop_returns (Parts0 := demo_parts) (pub_inv rows uuid) work_left (tick_cost rows) 1 at_start v_stopping
    at_start_inv eq_refl eq_refl v_stopping_run eq_refl) as (H1 & H2 & _).
  split; [exact H1|exact H2].
Defined.

Lemma queue_lost_at_stop_witness :
  exists s, rtc (pub_step uuid now) (restarted (queued Idle)) s /\ "xu" ∉ sy_sent s
    /\ exists p, first_by_id "xu" (rows (p_db (sy_w s))) = Some p /\ Pub_Status p = PUBLICATION_STATUS_IN_PROGRESS.
Proof.
  exists (Build_PubSys marked_world [] Idle [] [] []).
  assert (H : rtc (pub_step uuid now) (restarted (queued Idle)) (Build_PubSys marked_world [] Idle [] [] [])).
  { eapply rtc_l; [apply Publication.step_tick; reflexivity|]. apply rtc_once, Publication.step_work, work_rest. }
  split; [exact H|].
  apply (queue_lost_at_stop rows uuid now uuid_inj 1 at_start v_stopped "xu" _ at_start_initial).
  - exact (transitivity v_stopping_run v_stopped_run).
  - reflexivity.
  - left.
  - exact H.
Defined.

End DemoServices.
