(* ===== verification/SyncStop.v ===== *)
(** * The end of the sync service, and what a restart forgets

    The last part of Stop in sync/sync.go, after the wait of [Lifecycle]: the
    monitor is stopped.  The monitor here is the one of [Monitor], run by the steps
    of [SyncSystem]: it only watches for synchronisations whose creation was sent,
    and for none after Stop.  The database outlives the process and the monitor
    does not: what was IN_PROGRESS stays so, and is not watched again. *)

From S2P Require Import Prelude GoStrings GoUrl Interfaces ZotConfig Search Tables Sync SyncSpec SyncSystem Lifecycle Services Monitor.

Open Scope string_scope.
Open Scope list_scope.
Open Scope go_scope.

Section sync_stop.
Context {D F N C : Type} `{!SyncTable D} (rows : D -> list Sync) `{!TableSpec D rows}
  `{!OsFiles F} `{!JsonCodec ZotConfig} `{!SyncClient N C}.
Context (url_error : string -> error) (uuid : nat -> string) (uuid_inj : forall i j, uuid i = uuid j -> i = j).
Notation W := (SyncWorld D F MonitorService N).
Notation Sys := (SyncSys (D := D) (F := F) (Mo := MonitorService) (N := N)).
Notation step := (sync_step (C := C) url_error uuid).
Notation inv := (sync_inv rows uuid).
#[local] Instance parts : Parts Sys := sync_parts (C := C) url_error uuid.

(** ** Stop, after the wait *)

Definition stop_monitor : M W (result unit) :=
  let? _u := on_monitor monitor.Stop
    else err => ret (Err (Wrap "failed to stop monitor service: " err)) in
  ret (Ok tt).

(** ** How steps move the monitor *)

(** The monitor stays, stops watching for a synchronisation, or starts for one
    whose creation is in [sent]. *)
Definition monitor_moves (sent : list string) (m m' : MonitorService) : Prop :=
  m' = m \/ (exists id, m' = run_monitor_op m (OpStop id))
  \/ exists id, id ∈ sent /\ m' = run_monitor_op m (OpStart id).

Lemma status_monitor id st (w w' : W) r :
  syncDB.UpdateSyncStatus id st w = (r, w') -> s_monitor w' = s_monitor w.
Proof.
  unfold syncDB.UpdateSyncStatus, try_bind, bind, sync_read, sync_db.
  destruct (syncDB.GetSyncByID id (s_db w)) as [p|e]; [|by intros [= _ <-]]. simpl.
  by destruct (tbl_Save _ (s_db w)) as [[|] d]; intros [= _ <-].
Qed.

Lemma create_monitor url (w w' : W) r :
  syncCtlr.CreateSync uuid url_error url w = (r, w') -> s_monitor w' = s_monitor w.
Proof.
  unfold syncCtlr.CreateSync, syncDB.CreateSync, try_bind, bind, sync_next, sync_db.
  destruct (syncCtlr.validateRemoteDirectoryURL url_error url); [|by intros [= _ <-]]. simpl.
  by destruct (tbl_Create _ (s_db w)) as [[|] d]; intros [= _ <-].
Qed.

Lemma delete_monitor id (w w' : W) r :
  syncCtlr.DeleteSync id w = (r, w') -> s_monitor w' = s_monitor w.
Proof.
  unfold syncCtlr.DeleteSync, try_bind, bind, sync_read.
  destruct (syncDB.GetSyncByID id (s_db w)) as [p|e]; [|by intros [= _ <-]]. case_decide; [by intros [= _ <-]|].
  destruct (syncDB.UpdateSyncStatus id SYNC_STATUS_DELETE_PENDING w) as [x w1] eqn:Hu. apply status_monitor in Hu.
  by destruct x; intros [= _ <-].
Qed.

Lemma addSync_monitor i (w : W) :
  monitor_moves [SyncID i] (s_monitor w) (s_monitor (SyncWorker.addSync (C := C) url_error i w).2).
Proof.
  unfold SyncWorker.addSync, syncDB.UpdateSyncRemoteRegistry, try_bind, bind, sync_net, sync_read, sync_db,
    on_files, on_monitor.
  destruct (SyncWorker.negotiateCredentials _ (s_net w)) as [[reg|e] n]; simpl; [|by left].
  destruct (syncDB.GetSyncByID (SyncID i) (s_db w)) as [p|e]; simpl; [|by left].
  destruct (tbl_Save _ (s_db w)) as [[|] d]; simpl; [|by left].
  destruct (zotsync.addRegistryToZotSync _ _ _) as [[[]|] f]; simpl; [|by left].
  right; right. exists (SyncID i). split; [left|]. simpl.
  by destruct (monitor.StartSyncMonitoring (SyncID i) (s_monitor w)) as [[[]|] m].
Qed.

Lemma deleteSync_monitor i (w : W) :
  monitor_moves [] (s_monitor w) (s_monitor (SyncWorker.deleteSync url_error i w).2).
Proof.
  unfold SyncWorker.deleteSync, try_bind, bind, sync_read, on_files, on_monitor.
  destruct (syncDB.GetSyncRemoteRegistry _ _) as [reg|e]; simpl; [|by left].
  destruct (zotsync.removeRegistryFromZotSync _ _ _) as [[[]|] f]; simpl; [|by left].
  right; left. exists (SyncID i). simpl. by destruct (monitor.StopSyncMonitoring (SyncID i) (s_monitor w)) as [x m].
Qed.

Lemma moves_mono sent sent' m m' : sent ⊆ sent' -> monitor_moves sent m m' -> monitor_moves sent' m m'.
Proof. unfold monitor_moves. set_solver. Qed.

Lemma work_monitor i (w w' : W) st sent : SyncWorker.work (C := C) url_error i w = (st, w') ->
  (is_creation i -> SyncID i ∈ sent) -> monitor_moves sent (s_monitor w) (s_monitor w').
Proof.
  unfold SyncWorker.work, bind. intros Hrun Hsent. case_decide as Hc; [|case_decide].
  - pose proof (addSync_monitor i w) as Ha. destruct (SyncWorker.addSync _ _ _). injection Hrun as <- <-.
    eapply moves_mono; [|exact Ha]. specialize (Hsent Hc). set_solver.
  - pose proof (deleteSync_monitor i w) as Hd. destruct (SyncWorker.deleteSync _ _ _). injection Hrun as <- <-.
    eapply moves_mono; [|exact Hd]. set_solver.
  - injection Hrun as <- <-. by left.
Qed.

Lemma step_monitor s s' : inv s -> step s s' ->
  monitor_moves (ss_sent s) (s_monitor (ss_w s)) (s_monitor (ss_w s')) /\ ss_sent s ⊆ ss_sent s'.
Proof.
  intros Hi Hs. pose proof (si_items _ _ _ Hi) as Hit. split; [|by destruct Hs; simpl; set_solver].
  destruct Hs as
    [url r w w' q c b sn d a Hrun|id w w' q c b sn d a Hrun|id e w w' q c b sn d a Hrun
    |ps w q b sn d a Hps|p l w w' q b sn d a Hrun|p l e w w' q b sn d a Hrun|p l w q b sn d a Hlen
    |p l w q b sn d a Hlen|p l r w w' q b sn d a Hrun|ps w q b sn d a Hps|p l w q b sn d a Hlen
    |p l w q b sn d a Hlen|w q b sn d a|i w q c b sn d a|i st w w' q c b1 b2 sn d a Hrun
    |i st r w w' q c b1 b2 sn d a Hrun]; simpl in *;
    try (by left); try (left; first [by eapply create_monitor|by eapply delete_monitor|by eapply status_monitor]).
  apply (work_monitor i w w' st sn Hrun). intros Hc. rewrite fmap_app in Hit.
  apply Forall_app in Hit as [_ [[_ Hio] _]%Forall_cons]. simpl in Hio.
  destruct Hio as [[_ ?]|[Hd _]]; [done|]. unfold is_creation, is_deletion in *. rewrite Hc in Hd. discriminate Hd.
Qed.

Lemma moves_inv sent m m' active : monitor_moves sent m m' -> monitor_inv m active ->
  (forall id, id ∈ active -> id ∈ sent) ->
  exists active', monitor_inv m' active' /\ forall id, id ∈ active' -> id ∈ sent.
Proof.
  intros [->|[[id ->]|(id & Hid & ->)]] Hm Ha; [by exists active| |].
  - exists (active ∖ {[id]}). split; [by apply (monitor_op_inv m active (OpStop id))|]. set_solver.
  - exists ({[id]} ∪ active). split; [by apply (monitor_op_inv m active (OpStart id))|]. set_solver.
Qed.

(** The monitor of a running service. *)
Lemma run_monitor s s' active : inv s -> monitor_inv (s_monitor (ss_w s)) active ->
  (forall id, id ∈ active -> id ∈ ss_sent s) -> rtc step s s' ->
  inv s' /\ exists active', monitor_inv (s_monitor (ss_w s')) active'
    /\ forall id, id ∈ active' -> id ∈ ss_sent s'.
Proof.
  intros Hi Hm Ha Hrun. revert active Hi Hm Ha. induction Hrun as [s|s s1 s2 Hs _ IH]; intros active Hi Hm Ha; [by eauto|].
  destruct (step_monitor s s1 Hi Hs) as [Hmv Hsub]. destruct (moves_inv _ _ _ active Hmv Hm Ha) as (a1 & Hm1 & Ha1).
  apply (IH a1); [by eapply sync_step_inv|done|]. intros id Hid. by apply Hsub, Ha1.
Qed.

Lemma initial_inv (s : Sys) : sync_initial rows s -> inv s.
Proof.
  intros H0. apply (sync_reachable_inv (C := C) rows url_error uuid uuid_inj). by exists s.
Qed.

(** The monitor of the service that is stopped.  In every state of a service that
    was started on an empty table, the monitor watches only for synchronisations
    whose creation was sent, with one goroutine at most; and the end of Stop
    succeeds and leaves none, nothing else changed. *)
Theorem stop_leaves_no_monitor n s0 v : sync_initial rows s0 -> s_monitor (ss_w s0) = NewMonitorService ->
  rtc service_step (Start n s0) v ->
  let w := ss_w (sv_sys v) in
  (forall id, id ∈ activeSyncs (s_monitor w) -> id ∈ ss_sent (sv_sys v))
  /\ (length (watching (s_monitor w)) <= 1)%nat
  /\ exists m, stop_monitor w = (Ok tt, Build_SyncWorld _ _ _ _ (s_db w) (s_files w) m (s_net w) (s_tick w))
    /\ activeSyncs m = ∅ /\ isRunning m = false /\ watching m = [].
Proof.
  intros H0 Hm0 Hrun w.
  destruct (run_monitor s0 (sv_sys v) ∅ (initial_inv s0 H0)) as (_ & active & Hm & Ha).
  { by rewrite Hm0. } { set_solver. } { by apply (service_runs_sync url_error uuid n). }
  fold w in Hm, Ha. rewrite (mi_active _ _ Hm). split; [done|]. split.
  { rewrite (mi_watching _ _ Hm). destruct (isRunning _); lia. }
  pose proof (monitor_op_inv _ _ OpStopAll Hm) as [Hs Hr Hw _]. simpl in *.
  rewrite bool_decide_false in Hr by (intros Hne; by apply Hne). rewrite Hr in Hw. apply nil_length_inv in Hw.
  exists (monitor.Stop (s_monitor w)).2. done.
Qed.

(** ** A restart *)

(** The process is gone: nothing is in the queue or in work, and the monitor is
    new.  The logs are those of the new process; for what is marked for deletion a
    client has asked. *)
Definition marked (p : Sync) : bool :=
  bool_decide (Sync_Status p = SYNC_STATUS_DELETE_PENDING \/ Sync_Status p = SYNC_STATUS_DELETED).

Definition sync_restarted (s : Sys) : Sys :=
  let w := ss_w s in
  Build_SyncSys (Build_SyncWorld _ _ _ _ (s_db w) (s_files w) NewMonitorService (s_net w) (s_tick w))
    [] S_Idle [] [] [] (Sync_ID <$> filter (fun p => marked p = true) (rows (s_db w))).

(** A synchronisation that nobody will create. *)
Definition outside (id : string) (c : SyncSchedulerState) : Prop :=
  match c with
  | S_Creations l => id ∉ Sync_ID <$> l
  | S_Dispatch p l | S_Revert p l => id ∉ Sync_ID <$> (p :: l)
  | _ => True
  end.

(** IN_PROGRESS, or changed by a deletion that a client asked for. *)
Definition settled (id : string) (asked : list string) (st : SyncStatus) : Prop :=
  st <> SYNC_STATUS_PENDING /\ (st = SYNC_STATUS_IN_PROGRESS \/ id ∈ asked).
Definition settled_in (id : string) (asked : list string) (ps : list Sync) : Prop :=
  Forall (fun p => Sync_ID p = id -> settled id asked (Sync_Status p)) ps.

Record unwatched (id : string) (s : Sys) : Prop := {
  un_inv : inv s;
  un_known : id ∈ known rows s;
  un_sent : id ∉ ss_sent s;
  un_sched : outside id (ss_sched s);
  un_status : settled_in id (ss_asked s) (rows (s_db (ss_w s)));
  un_active : id ∉ activeSyncs (s_monitor (ss_w s)) }.

Lemma restarted_inv s : inv s -> inv (sync_restarted s).
Proof.
  intros Hi. pose proof (si_rows _ _ _ Hi) as Hr. destruct Hi as [Hids Hdr _ _ _ _ _ _ _ _ _].
  split; simpl; try done; try constructor; try lia;
    try (intros; by (match goal with H : _ ∈ [] |- _ => apply elem_of_nil in H end)).
  apply Forall_forall. intros p Hp. rewrite Forall_forall in Hr. destruct (Hr p Hp) as (Hu & _ & _).
  split; [done|]. split; [set_solver|]. intros Hd. apply list_elem_of_fmap_2, list_elem_of_filter. split; [|done].
  unfold marked. by rewrite bool_decide_true.
Qed.

Lemma restarted_unwatched s p : inv s -> p ∈ rows (s_db (ss_w s)) ->
  Sync_Status p = SYNC_STATUS_IN_PROGRESS -> unwatched (Sync_ID p) (sync_restarted s).
Proof.
  intros Hi Hp Hst. split; simpl; [by apply restarted_inv|by apply list_elem_of_fmap_2|set_solver|done| |set_solver].
  apply Forall_forall. intros q Hq Heq.
  assert (q = p) as ->; [|split; [by rewrite Hst|by left]].
  pose proof (si_ids _ _ _ Hi) as Hnd. by eapply (key_inj Sync_ID).
Qed.

(** Setting the status of another synchronisation, or of one whose deletion was asked for. *)
Lemma settled_set id id' st asked (w w' : W) r : NoDup (sync_ids rows w) ->
  syncDB.UpdateSyncStatus id' st w = (r, w') -> (id' = id -> settled id asked st) ->
  settled_in id asked (rows (s_db w)) -> settled_in id asked (rows (s_db w')).
Proof.
  intros Hnd Hrun Hst Hok. destruct (status_run rows id' st w Hnd) as (x & d & Hrun' & Hr & _).
  rewrite Hrun in Hrun'. injection Hrun' as -> ->. simpl. rewrite Hr.
  by apply (update_Forall (fun i st => i = id -> settled id asked st)).
Qed.

Lemma moves_outside id sent m m' : monitor_moves sent m m' -> id ∉ sent ->
  id ∉ activeSyncs m -> id ∉ activeSyncs m'.
Proof.
  intros Hmv Hs Ha. destruct Hmv as [->|[[id' ->]|(id' & Hid & ->)]]; [done|..]; simpl.
  - destruct (Stop_spec (active := activeSyncs) id' m) as (m1 & Hrun & Ha'). simpl in Hrun. rewrite Hrun. set_solver.
  - destruct (Start_spec (active := activeSyncs) id' m) as (m1 & Hrun & Ha'). simpl in Hrun. rewrite Hrun. set_solver.
Qed.

Lemma create_rows url (w w' : W) r : syncCtlr.CreateSync uuid url_error url w = (r, w') ->
  w' = w \/ exists p, rows (s_db w') = rows (s_db w) ++ [p] /\ Sync_ID p = uuid (s_tick w).
Proof.
  intros Hrun. unfold syncCtlr.CreateSync in Hrun.
  destruct (syncCtlr.validateRemoteDirectoryURL url_error url); [|injection Hrun as <- <-; by left].
  destruct (create_run rows uuid url w) as (d' & k & Hcr & Hr).
  rewrite (try_bind_ok _ _ _ _ _ _ Hcr) in Hrun. injection Hrun as <- <-. right. by eexists.
Qed.

(** What a step does to the table, and the IDs it keeps. *)
Lemma step_rows id s s' : inv s -> step s s' -> id ∈ known rows s -> id ∉ ss_sent s -> outside id (ss_sched s) ->
  settled_in id (ss_asked s) (rows (s_db (ss_w s))) ->
  id ∈ known rows s' /\ settled_in id (ss_asked s') (rows (s_db (ss_w s'))).
Proof.
  intros Hi Hs Hk Hn Ho Hst. pose proof (si_ids _ _ _ Hi) as Hnd. unfold known, sync_ids in *.
  assert (Hids : forall id' st r w', syncDB.UpdateSyncStatus id' st (ss_w s) = (r, w') ->
    Sync_ID <$> rows (s_db w') = Sync_ID <$> rows (s_db (ss_w s))).
  { intros id' st r w' Hrun. destruct (status_run rows id' st (ss_w s) Hnd) as (x & d & Hrun' & Hr & _).
    rewrite Hrun in Hrun'. injection Hrun' as _ ->. simpl. rewrite Hr. by apply change_ids. }
  destruct Hs as
    [url r w w' q c b sn d a Hrun|id' w w' q c b sn d a Hrun|id' e w w' q c b sn d a Hrun
    |ps w q b sn d a Hps|p l w w' q b sn d a Hrun|p l e w w' q b sn d a Hrun|p l w q b sn d a Hlen
    |p l w q b sn d a Hlen|p l r w w' q b sn d a Hrun|ps w q b sn d a Hps|p l w q b sn d a Hlen
    |p l w q b sn d a Hlen|w q b sn d a|i w q c b sn d a|i st w w' q c b1 b2 sn d a Hrun
    |i st r w w' q c b1 b2 sn d a Hrun]; simpl in *; try done;
    try (rewrite (Hids _ _ _ _ Hrun); split; [done|];
         apply (settled_set id _ _ a _ _ _ Hnd Hrun); [set_solver|done]).
  - destruct (create_rows url w w' r Hrun) as [->|(p & Hr & Hp)]; [done|]. rewrite Hr, fmap_app. split; [set_solver|].
    apply Forall_app. split; [done|]. apply Forall_singleton. intros Heq.
    destruct (si_drawn _ _ _ Hi id Hk) as (n & Hlt & ->). rewrite Hp in Heq. apply uuid_inj in Heq. simpl in Hlt. lia.
  - destruct (deletion_granted rows id' w w' Hnd Hrun) as (p & dd & _ & _ & -> & Hr). simpl. rewrite Hr.
    split; [by rewrite change_ids|]. apply (update_Forall (fun i st => i = id -> settled id (a ++ [id']) st)).
    + eapply Forall_impl; [exact Hst|]. unfold settled. intros p' Hp Heq. specialize (Hp Heq). set_solver.
    + unfold settled. intros _ ->. set_solver.
  - by rewrite (deletion_refused rows id' w w' e Hnd Hrun).
  - destruct (work_keeps rows url_error i w w' st Hnd Hrun) as [Hsame _].
    rewrite (same_ids _ _ Hsame). split; [done|].
    by apply (same_Forall (fun i st => i = id -> settled id a st) _ _ Hsame).
  - rewrite (Hids _ _ _ _ Hrun). split; [done|]. apply (settled_set id _ _ a _ _ _ Hnd Hrun); [|done]. intros Heq.
    pose proof (si_jobs _ _ _ Hi) as Hj. pose proof (si_items _ _ _ Hi) as Hit. simpl in *. rewrite fmap_app in Hit.
    apply Forall_app in Hj as [_ [Hj _]%Forall_cons], Hit as [_ [[_ Hio] _]%Forall_cons]. simpl in *. rewrite Heq in *.
    split; [destruct Hj as [[->| ->]|[-> _]]; done|]. tauto.
Qed.

Lemma unwatched_step id s s' : unwatched id s -> step s s' -> unwatched id s'.
Proof.
  intros [Hi Hk Hn Ho Hst Ha] Hs. destruct (step_rows id s s') as [Hk' Hst']; [done..|].
  destruct (step_monitor s s' Hi Hs) as [Hmv _]. pose proof (moves_outside id _ _ _ Hmv Hn Ha) as Ha'.
  assert (id ∉ ss_sent s' /\ outside id (ss_sched s')) as [Hn' Ho'].
  { clear Hmv Ha Ha' Hk' Hst'. destruct Hs as [| | |ps w q b sn d a Hps| | | | | | | | | | | |]; simpl in *;
      try (split; set_solver).
    split; [done|]. unfold syncDB.GetSyncsByStatus in Hps. rewrite (tbl_FindByStatus_spec (rows := rows)) in Hps.
    injection Hps as <-. intros (p & -> & [Hst' Hin]%list_elem_of_filter)%list_elem_of_fmap.
    unfold settled_in in Hst. rewrite Forall_forall in Hst. by destruct (Hst p Hin eq_refl). }
  split; [by eapply sync_step_inv|done..].
Qed.

(** C29. A restart ends the monitoring.  A synchronisation that is IN_PROGRESS when the
    process of a started sync service ends is never watched by the service that is
    started again on the database, whatever clients, scheduler and workers do: the
    scheduler looks for PENDING synchronisations only.  Until a client asks for its
    deletion it stays IN_PROGRESS. *)
Theorem monitoring_lost_at_restart n s0 v id p s : sync_initial rows s0 ->
  rtc service_step (Start n s0) v -> p ∈ rows (s_db (ss_w (sv_sys v))) -> Sync_ID p = id ->
  Sync_Status p = SYNC_STATUS_IN_PROGRESS -> rtc step (sync_restarted (sv_sys v)) s ->
  id ∉ activeSyncs (s_monitor (ss_w s))
  /\ exists p', first_by_id id (rows (s_db (ss_w s))) = Some p'
    /\ (Sync_Status p' = SYNC_STATUS_IN_PROGRESS \/ id ∈ ss_asked s).
Proof.
  intros H0 Hrun Hp <- Hst Hrun'.
  assert (Hv : inv (sv_sys v)).
  { apply (sync_reachable_inv (C := C) rows url_error uuid uuid_inj). exists s0. split; [done|].
    by apply (service_runs_sync url_error uuid n). }
  pose proof (restarted_unwatched (sv_sys v) p Hv Hp Hst) as Hu. clear -Hu Hrun' uuid_inj TableSpec0.
  induction Hrun' as [s|s s1 s2 Hstep _ IH]; [|by apply IH, (unwatched_step _ s)].
  destruct Hu as [Hi Hk _ _ Hse Ha]. split; [done|].
  destruct (first_by_id (Sync_ID p) (rows (s_db (ss_w s)))) as [p'|] eqn:Hp'; [|by apply first_by_id_None in Hp'].
  exists p'. split; [done|]. apply first_by_id_Some in Hp' as [Hin Hid].
  unfold settled_in in Hse. rewrite Forall_forall in Hse. by destruct (Hse p' Hin Hid).
Qed.

End sync_stop.

(** ** A synchronisation that is watched *)

Module DemoSyncStop.
Import DemoZot DemoSync DemoSystem.

Notation MW := (SyncWorld (ListTable.T (Row := Sync)) (gmap string string) MonitorService (gmap string string)).
Notation SyncSystem := (SyncSys (D := ListTable.T (Row := Sync)) (F := gmap string string)
  (Mo := MonitorService) (N := gmap string string)).
Notation step := (sync_step (C := string) no_url uuid).

#[local] Instance demo_parts : Parts SyncSystem := sync_parts (C := string) no_url uuid.

Definition m0 : MW := {|
  s_db := ListTable.empty; s_files := disk; s_monitor := NewMonitorService; s_net := s_net w0; s_tick := 0 |}.
Definition m1 : MW := (syncCtlr.CreateSync uuid no_url url m0).2.
Definition m2 : MW := (syncDB.UpdateSyncStatus "u" SYNC_STATUS_IN_PROGRESS m1).2.
Definition m3 : MW := (SyncWorker.work no_url (creation "u" url) m2).2.
Definition m4 : MW := (syncDB.UpdateSyncStatus "u" SYNC_STATUS_IN_PROGRESS m3).2.

Definition before : SyncSystem := Build_SyncSys m0 [] S_Idle [] [] [] [].
Definition watched : SyncSystem := Build_SyncSys m4 [] S_Idle [] ["u"] [creation "u" url] [].
Definition v_watched : Service SyncSystem := {|
  sv_sys := watched; sv_scheduler := Looping; sv_idle := 1; sv_wg := 2; sv_stopCh := false; sv_stopped := false |}.

Lemma sched_part s s' i g b r : step s s' -> ss_sched s <> S_Idle -> ss_sched s' <> ss_sched s ->
  service_step (Build_Service (Sys := SyncSystem) s Looping i g b r) (Build_Service s' Looping i g b r).
Proof. intros Hs Hne Hne'. by apply svc_drain, svc_sched. Qed.

Lemma v_watched_run : rtc service_step (Start 1 before) v_watched.
Proof.
  eapply rtc_l; [apply (svc_client _ (Build_SyncSys m1 [] S_Idle [] [] [] [])),
    (client_create no_url uuid url (Ok "u") m0 m1); by apply run_to|].
  eapply rtc_l; [apply svc_drain, svc_first; [done|by apply (sync_round [p1])]|].
  eapply rtc_l; [apply sched_part; [apply (step_mark no_url uuid p1 [] m1 m2); by apply run_to|done..]|].
  eapply rtc_l; [apply sched_part; [apply step_dispatch; unfold SyncScheduler.workQueueSize; simpl; lia|done..]|].
  eapply rtc_l; [apply sched_part; [by apply (step_deletions no_url uuid [])|done..]|].
  eapply rtc_l; [apply sched_part; [apply step_rest|done..]|].
  eapply rtc_l; [apply svc_drain, svc_take; split; [apply step_take|done]|].
  eapply rtc_l; [apply svc_drain, svc_work; split; [|split];
    [apply (step_work no_url uuid (creation "u" url) SYNC_STATUS_IN_PROGRESS m2 m3 [] S_Idle [] []); by apply run_to|done..]|].
  eapply rtc_l; [apply svc_drain, svc_finish; split;
    [apply (step_finish no_url uuid (creation "u" url) SYNC_STATUS_IN_PROGRESS (Ok tt) m3 m4 [] S_Idle [] []);
     by apply run_to|done]|].
  done.
Qed.

Lemma stop_leaves_no_monitor_witness :
  activeSyncs (s_monitor m4) = {["u"]} /\ length (watching (s_monitor m4)) = 1%nat
  /\ exists m, (stop_monitor m4).2 = Build_SyncWorld _ _ _ _ (s_db m4) (s_files m4) m (s_net m4) (s_tick m4)
    /\ activeSyncs m = ∅ /\ watching m = [].
Proof.
  split; [reflexivity|]. split; [reflexivity|].
  destruct (stop_leaves_no_monitor ListTable.rows no_url uuid sync_uuid_inj 1 before v_watched)
    as (_ & _ & m & Hm & Ha & _ & Hw).
  - repeat split.
  - reflexivity.
  - exact v_watched_run.
  - exists m. cbn [sv_sys v_watched watched ss_w] in Hm. rewrite Hm. split; [reflexivity|]. split; [exact Ha|exact Hw].
Defined.

Lemma monitoring_lost_at_restart_witness :
  "u" ∈ activeSyncs (s_monitor m4) /\
  exists s, rtc step (sync_restarted ListTable.rows watched) s /\ "u" ∉ activeSyncs (s_monitor (ss_w s))
    /\ exists p, first_by_id "u" (ListTable.rows (s_db (ss_w s))) = Some p.
Proof.
  split; [vm_compute; done|].
  set (w := ss_w (sync_restarted ListTable.rows watched)).
  assert (H : rtc step (sync_restarted ListTable.rows watched) (Build_SyncSys w [] S_Idle [] [] [] [])).
  { eapply rtc_l; [by apply (step_tick no_url uuid [])|].
    eapply rtc_l; [by apply (step_deletions no_url uuid [])|]. apply rtc_once, step_rest. }
  exists (Build_SyncSys w [] S_Idle [] [] [] []). split; [exact H|].
  destruct (monitoring_lost_at_restart ListTable.rows no_url uuid sync_uuid_inj 1 before v_watched "u"
    (row 0 "u" url "10.0.0.1:5000" SYNC_STATUS_IN_PROGRESS) (Build_SyncSys w [] S_Idle [] [] [] [])) as (Ha & p & Hp & _).
  - repeat split.
  - exact v_watched_run.
  - left.
  - reflexivity.
  - reflexivity.
  - exact H.
  - split; [exact Ha|]. exists p. exact Hp.
Defined.

End DemoSyncStop.
