(* ===== verification/Authz.v ===== *)
(** * Authorization

    server/authz: which trust domain may call which method of the API.  The
    decision is made by casbin on the model of model.conf and the policies of
    authorizer.go; the interceptors of interceptor.go stand before every handler. *)

From S2P Require Import Prelude GoStrings GoUrl.

Open Scope string_scope.
Open Scope list_scope.
Open Scope go_scope.

(** ** casbin

    The two matching functions that model.conf names.  [regexMatch] is
    [regexp.MatchString] of the policy's text in the request's; it panics on a
    text that is no regular expression, and the enforcer turns a panic into an
    error. *)
Class Casbin := {
  keyMatch : string -> string -> bool;
  regexMatch : string -> string -> result bool;
}.

Module authz.

(** ** Configuration (config/config.go) *)

Record Config := { Enabled : bool; SocketPath : string; TrustDomain : string }.

Definition Validate (c : Config) : result unit :=
  if decide (SocketPath c = "") then Err (Plain "socket path is required")
  else if decide (TrustDomain c = "") then Err (Plain "trust domain is required")
  else Ok tt.

(** ** Policies (authorizer.go) *)

Definition StoreService_Pull : string := "/store.v1.StoreService/Pull".
Definition StoreService_PullReferrer : string := "/store.v1.StoreService/PullReferrer".
Definition StoreService_Lookup : string := "/store.v1.StoreService/Lookup".
Definition SyncService_RequestRegistryCredentials : string := "/store.v1.SyncService/RequestRegistryCredentials".

Definition allowedExternalAPIMethods : list string :=
  [StoreService_Pull; StoreService_PullReferrer; StoreService_Lookup; SyncService_RequestRegistryCredentials].

Record Policy := { p_trust_domain : string; p_api_method : string }.

Definition getPolicies (cfg : Config) : list Policy :=
  {| p_trust_domain := TrustDomain cfg; p_api_method := "*" |}
  :: ((fun method => {| p_trust_domain := "*"; p_api_method := method |}) <$> allowedExternalAPIMethods).

Section enforcer.
Context `{Casbin}.

(** [keyMatch(r, p) || regexMatch(r, p)]; the right side is evaluated only when
    the left one is false. *)
Definition field_matches (r p : string) : result bool :=
  if keyMatch r p then Ok true else regexMatch r p.

(** [m] of model.conf. *)
Definition matcher (trust_domain api_method : string) (p : Policy) : result bool :=
  match field_matches trust_domain (p_trust_domain p) with
  | Err err => Err err
  | Ok false => Ok false
  | Ok true => field_matches api_method (p_api_method p)
  end.

(** [e] of model.conf: some policy matches; the first match decides. *)
Fixpoint Enforce (policies : list Policy) (trust_domain api_method : string) : result bool :=
  match policies with
  | [] => Ok false
  | p :: policies =>
      match matcher trust_domain api_method p with
      | Err err => Err err
      | Ok true => Ok true
      | Ok false => Enforce policies trust_domain api_method
      end
  end.

(** [Authorizer]: an enforcer with its policies. *)
Record Authorizer := { enforcer : list Policy }.
Definition NewAuthorizer (cfg : Config) : Authorizer := {| enforcer := getPolicies cfg |}.
Definition Authorize (a : Authorizer) (trustDomain apiMethod : string) : result bool :=
  Enforce (enforcer a) trustDomain apiMethod.

(** ** Interceptors (interceptor.go) *)

(** The context of a call: the trust domain of the authenticated peer. *)
Definition Context := option string.
Definition InterceptorFn : Type := Context -> string -> result unit.

Definition NewInterceptor (authorizer : Authorizer) : InterceptorFn := fun ctx apiMethod =>
  match ctx with
  | None => Err (Status Unauthenticated "not authenticated")
  | Some trustDomain =>
      match Authorize authorizer trustDomain apiMethod with
      | Err err => Err (Status Internal ("something went wrong: " +:+ err_string err))
      | Ok allowed =>
          if allowed then Ok tt
          else Err (Status PermissionDenied ("not allowed to access " +:+ apiMethod))
      end
  end.

Definition UnaryInterceptorFor {W Req Res} (fn : InterceptorFn) (ctx : Context) (req : Req)
    (FullMethod : string) (handler : Req -> M W (result Res)) : M W (result Res) :=
  match fn ctx FullMethod with
  | Err err => ret (Err err)
  | Ok _ => handler req
  end.

Definition StreamInterceptorFor {W} (fn : InterceptorFn) (ctx : Context) (FullMethod : string)
    (handler : M W (result unit)) : M W (result unit) :=
  match fn ctx FullMethod with
  | Err err => ret (Err err)
  | Ok _ => handler
  end.

End enforcer.
End authz.

(** ** Who may call what

    Regular expressions of letters, digits, [/], [-], [_] and dots: a dot stands
    for any byte but a newline, everything else for itself, and the match can be
    anywhere in the text. *)

Definition re_char (c : ascii) : bool := is_alpha c || is_digit c || one_of "/-_." c.
Definition simple_re : string -> bool := all_bytes re_char.

Fixpoint re_here (p s : string) : bool :=
  match p, s with
  | EmptyString, _ => true
  | String _ _, EmptyString => false
  | String c p, String x s =>
      (if decide (c = "."%char) then negb (bool_decide (x = ascii_of_nat 10)) else bool_decide (c = x))
      && re_here p s
  end.

Fixpoint re_search (p s : string) : bool :=
  re_here p s || match s with EmptyString => false | String _ s => re_search p s end.

(** casbin's functions on the policies' texts. *)
Class CasbinSpec `{Casbin} : Prop := {
  keyMatch_star r : keyMatch r "*" = true;
  keyMatch_text r p : simple_re p = true -> keyMatch r p = bool_decide (r = p);
  regexMatch_simple r p : simple_re p = true -> regexMatch r p = Ok (re_search p r);
}.

Lemma re_here_self p : simple_re p = true -> re_here p p = true.
Proof.
  unfold simple_re, all_bytes. induction p as [|c p IH]; [done|]. simpl. intros [Hc Hp]%andb_true_iff.
  rewrite IH by done. destruct (decide (c = "."%char)) as [->|_]; [done|].
  rewrite bool_decide_true by done. done.
Qed.

Lemma re_here_search p s : re_here p s = true -> re_search p s = true.
Proof. intros Hh. destruct s; cbn [re_search]; by rewrite Hh. Qed.

Lemma re_search_self p : simple_re p = true -> re_search p p = true.
Proof. intros Hp. by apply re_here_search, re_here_self. Qed.

(** A text matches wherever it occurs. *)
Lemma re_search_prefix p s t : simple_re p = true -> re_search p (p +:+ s +:+ t) = true.
Proof.
  intros Hp. assert (Hh : forall u, re_here p (p +:+ u) = true).
  { intros u. revert Hp. unfold simple_re, all_bytes. induction p as [|c p IH]; [done|]. simpl.
    intros [Hc Hp]%andb_true_iff. rewrite IH by done.
    destruct (decide (c = "."%char)) as [->|_]; [done|]. rewrite bool_decide_true by done. done. }
  by apply re_here_search, Hh.
Qed.

Section decisions.
Context `{CasbinSpec}.

Lemma field_simple r p : simple_re p = true -> authz.field_matches r p = Ok (re_search p r).
Proof.
  intros Hp. unfold authz.field_matches. rewrite keyMatch_text by done. case_bool_decide as He.
  - subst. by rewrite re_search_self.
  - by apply regexMatch_simple.
Qed.

Lemma field_star r : authz.field_matches r "*" = Ok true.
Proof. unfold authz.field_matches. by rewrite keyMatch_star. Qed.

Lemma Enforce_external methods td m : Forall (fun p => simple_re p = true) methods ->
  authz.Enforce ((fun method => {| authz.p_trust_domain := "*"; authz.p_api_method := method |}) <$> methods) td m
  = Ok (existsb (fun p => re_search p m) methods).
Proof.
  induction 1 as [|p l Hp _ IH]; [done|]. cbn [fmap list_fmap authz.Enforce existsb].
  unfold authz.matcher. simpl. rewrite field_star, field_simple by done.
  by destruct (re_search p m).
Qed.

Lemma Enforce_cons p l td m : authz.Enforce (p :: l) td m =
  match authz.matcher td m p with
  | Err err => Err err | Ok true => Ok true | Ok false => authz.Enforce l td m
  end.
Proof. done. Qed.

(** The decision, for every trust domain and method. *)
Lemma Authorize_decides cfg td m : simple_re (authz.TrustDomain cfg) = true ->
  authz.Authorize (authz.NewAuthorizer cfg) td m
  = Ok (re_search (authz.TrustDomain cfg) td
        || existsb (fun p => re_search p m) authz.allowedExternalAPIMethods).
Proof.
  intros Hd. unfold authz.Authorize, authz.NewAuthorizer, authz.getPolicies. simpl authz.enforcer.
  rewrite Enforce_cons. unfold authz.matcher. cbn [authz.p_trust_domain authz.p_api_method].
  rewrite field_simple by done. destruct (re_search (authz.TrustDomain cfg) td); [by rewrite field_star|].
  change (false || ?b) with b. apply (Enforce_external authz.allowedExternalAPIMethods). by repeat constructor.
Qed.

(** The methods of the API. *)
Definition api_methods : list string :=
  ["/sign.v1.SignService/Sign"; "/sign.v1.SignService/Verify"; "/routing.v1.RoutingService/Publish";
   "/routing.v1.RoutingService/Unpublish"; "/routing.v1.RoutingService/Search"; "/routing.v1.RoutingService/List";
   "/routing.v1.PublicationService/CreatePublication"; "/routing.v1.PublicationService/ListPublications";
   "/routing.v1.PublicationService/GetPublication"; "/search.v1.SearchService/Search";
   "/store.v1.SyncService/CreateSync"; "/store.v1.SyncService/ListSyncs"; "/store.v1.SyncService/GetSync";
   "/store.v1.SyncService/DeleteSync"; "/store.v1.SyncService/RequestRegistryCredentials";
   "/store.v1.StoreService/Push"; "/store.v1.StoreService/Pull"; "/store.v1.StoreService/Lookup";
   "/store.v1.StoreService/Delete"; "/store.v1.StoreService/PushReferrer"; "/store.v1.StoreService/PullReferrer"].

Lemma external_exact m : m ∈ api_methods ->
  existsb (fun p => re_search p m) authz.allowedExternalAPIMethods
  = bool_decide (m ∈ authz.allowedExternalAPIMethods).
Proof.
  intros Hm. unfold api_methods in Hm.
  repeat (apply elem_of_cons in Hm as [->|Hm]; [vm_compute; reflexivity|]). by apply elem_of_nil in Hm.
Qed.

(** The rule of the deployment: who reaches a handler, and what the others get. *)
Definition guarded {W Res} (cfg : authz.Config) (peer : option string) (m : string)
    (handler : M W (result Res)) : M W (result Res) :=
  match peer with
  | None => ret (Err (Status Unauthenticated "not authenticated"))
  | Some td =>
      if re_search (authz.TrustDomain cfg) td || bool_decide (m ∈ authz.allowedExternalAPIMethods)
      then handler
      else ret (Err (Status PermissionDenied ("not allowed to access " +:+ m)))
  end.

(** C18. What the interceptors let through.  A call of an API method, unary or
    streaming, reaches its handler exactly when the peer is authenticated and its
    trust domain matches the configured one or the method is one of the four for
    outsiders; otherwise nothing changes and the answer is Unauthenticated or
    PermissionDenied. *)
Theorem only_allowed_calls_run {W Req Res} cfg (peer : option string) m (req : Req)
    (unary : Req -> M W (result Res)) (stream : M W (result unit)) :
  simple_re (authz.TrustDomain cfg) = true -> m ∈ api_methods ->
  let interceptor := authz.NewInterceptor (authz.NewAuthorizer cfg) in
  authz.UnaryInterceptorFor interceptor peer req m unary = guarded cfg peer m (unary req) /\
  authz.StreamInterceptorFor interceptor peer m stream = guarded cfg peer m stream.
Proof.
  intros Hd Hm. unfold authz.UnaryInterceptorFor, authz.StreamInterceptorFor, authz.NewInterceptor, guarded.
  destruct peer as [td|]; [|done].
  rewrite Authorize_decides, external_exact by done. by destruct (_ || _).
Qed.

(** A stranger whose trust domain only starts with ours may do everything. *)
Lemma similar_domain_allowed cfg rest suffix m : simple_re (authz.TrustDomain cfg) = true ->
  authz.Authorize (authz.NewAuthorizer cfg) (authz.TrustDomain cfg +:+ rest +:+ suffix) m = Ok true.
Proof. intros Hd. rewrite Authorize_decides by done. by rewrite re_search_prefix. Qed.

End decisions.

(** ** An example *)

Module DemoAuthz.

#[local] Instance casbin : Casbin := {|
  keyMatch r p := bool_decide (p = "*") || bool_decide (r = p);
  regexMatch r p := if simple_re p then Ok (re_search p r) else Err (Plain "no regular expression") |}.

#[local] Instance casbin_spec : CasbinSpec.
Proof.
  split; simpl; [done| |].
  - intros r p Hp. rewrite (bool_decide_false (p = "*")); [done|]. by intros ->.
  - by intros r p ->.
Qed.

Definition cfg : authz.Config :=
  {| authz.Enabled := true; authz.SocketPath := "/run/spire.sock"; authz.TrustDomain := "dir.com" |}.

Definition delete : M nat (result unit) := fun n => (Ok tt, S n).

(** A stranger's Delete is refused; a peer of the domain, and one whose domain
    only contains its name, may delete. *)
Lemma only_allowed_calls_run_witness :
  let call td := authz.StreamInterceptorFor (authz.NewInterceptor (authz.NewAuthorizer cfg)) (Some td)
    "/store.v1.StoreService/Delete" delete 0%nat in
  call "dir.com" = (Ok tt, 1%nat) /\ (call "other.com").2 = 0%nat /\ call "dir.com.evil.org" = (Ok tt, 1%nat).
Proof.
  assert (Hm : "/store.v1.StoreService/Delete" ∈ api_methods) by (unfold api_methods; set_solver).
  assert (Hd : simple_re (authz.TrustDomain cfg) = true) by reflexivity.
  assert (Hs : forall td, _) by
    (intros td; exact (proj2 (only_allowed_calls_run cfg (Some td) "/store.v1.StoreService/Delete" tt
       (fun _ => delete) delete Hd Hm))).
  cbn beta zeta. rewrite !Hs. vm_compute. auto.
Defined.

End DemoAuthz.
