(* ===== verification/ServerConfig.v ===== *)
(** * Configuration

    server/config: LoadConfig reads the configuration of the server from a file, the
    environment and defaults (Module [config]); client/config.go does so for the
    client, without a file (Module [clientconfig]).  The libraries, viper and
    mapstructure, are the classes [Viper] and [Mapstructure]. *)

From S2P Require Import Prelude GoStrings GoUrl Interfaces CoreRecord LabelKey RoutingWorld RoutingRemote P2p ZotConfig Search Tables Sync Authz.

Open Scope string_scope.
Open Scope list_scope.
Open Scope go_scope.

(** ** The libraries *)

(** A setting, as a default, a file or a variable gives it. *)
Inductive Value :=
  | VString (s : string) | VBool (b : bool) | VInt (z : Z) | VDuration (d : Duration) | VList (l : list Value).

(** A viper in its process: [M V] is an operation on it.  [viper_AllSettings] is what
    [Unmarshal] decodes: the keys that viper knows, with their values. *)
Class Viper (V : Type) := {
  viper_NewWithOptions : string -> list (ascii * ascii) -> M V unit;   (** KeyDelimiter, EnvKeyReplacer *)
  viper_SetConfigName : string -> M V unit;
  viper_SetConfigType : string -> M V unit;
  viper_AddConfigPath : string -> M V unit;
  viper_SetEnvPrefix : string -> M V unit;
  viper_AllowEmptyEnv : bool -> M V unit;
  viper_AutomaticEnv : M V unit;
  viper_ReadInConfig : M V (result unit);
  ConfigFileNotFoundError : error -> bool;                             (** errors.As *)
  viper_BindEnv : string -> M V unit;
  viper_SetDefault : string -> Value -> M V unit;
  viper_AllSettings : V -> string -> option Value;
}.

(** Decoding with the hooks for texts, durations and lists (separated by commas). *)
Class Mapstructure := {
  decode_string : Value -> result string;
  decode_bool : Value -> result bool;
  decode_int : Value -> result Z;
  decode_duration : Value -> result Duration;
  decode_strings : Value -> result (list string);
  decode_Error : list error -> error;              (** the errors of all fields, joined *)
}.

(** ** Decoding a structure *)

Section fields.
Context `{!Mapstructure}.

(** A field that is not set keeps its zero value. *)
Definition field {A} (decode : Value -> result A) (zero : A) (settings : string -> option Value) (key : string)
  : result A :=
  match settings key with None => Ok zero | Some v => decode v end.

Definition error_of {A} (r : result A) : list error := match r with Ok _ => [] | Err e => [e] end.
Definition value_of {A} (zero : A) (r : result A) : A := match r with Ok a => a | Err _ => zero end.

Definition text_field (settings : string -> option Value) (key : string) : result string :=
  field decode_string "" settings key.
Definition bool_field (settings : string -> option Value) (key : string) : result bool :=
  field decode_bool false settings key.
Definition int_field (settings : string -> option Value) (key : string) : result Z :=
  field decode_int 0%Z settings key.
Definition time_field (settings : string -> option Value) (key : string) : result Duration :=
  field decode_duration 0%Z settings key.

End fields.

(** ** The server (server/config/config.go) *)

(** The configurations of the parts. *)
Record OciAuthConfig := {
  Insecure : bool; Oci_Username : string; Oci_Password : string; RefreshToken : string; AccessToken : string }.
Record OciStoreConfig := {
  LocalDir : string; CacheDir : string; Oci_RegistryAddress : string; Oci_RepositoryName : string;
  Oci_AuthConfig : OciAuthConfig }.
Record DatabaseConfig := { DBType : string; SQLite_DBPath : string }.
Record WorkersConfig := { SchedulerInterval : Duration; WorkerCount : Z; WorkerTimeout : Duration }.
Record SyncServiceConfig := { Sync_Workers : WorkersConfig; RegistryMonitor_CheckInterval : Duration }.

Module config.

Record Config := {
  ListenAddress : string; HealthCheckAddress : string; Authz : authz.Config;
  Provider : string; LocalFS_Dir : string; OCI : OciStoreConfig; Routing : RoutingConfig;
  Database : DatabaseConfig; Sync : SyncServiceConfig; Publication : WorkersConfig }.

Definition DefaultEnvPrefix : string := "DIRECTORY_SERVER".
Definition DefaultListenAddress : string := "0.0.0.0:8888".
Definition DefaultHealthCheckAddress : string := "0.0.0.0:8889".
Definition DefaultProvider : string := "oci".
Definition DefaultConfigName : string := "server.config".
Definition DefaultConfigType : string := "yml".
Definition DefaultConfigPath : string := "/etc/agntcy/dir".

(** Defaults of the parts (routing/config, store/localfs/config, store/oci/config,
    database/sqlite/config, sync/config, publication/config). *)
Definition DefaultRoutingListenAddress : string := "/ip4/0.0.0.0/tcp/8999".
Definition DefaultBootstrapPeers : list string := [].
Definition DefaultDir : string := "/tmp".
Definition DefaultAuthConfigInsecure : bool := true.
Definition DefaultDBType : string := "sqlite".
Definition DefaultSQLiteDBPath : string := "/tmp/dir.db".
Definition DefaultSyncSchedulerInterval : Duration := (30 * Second)%Z.
Definition DefaultSyncWorkerCount : Z := 1.
Definition DefaultSyncWorkerTimeout : Duration := (600 * Second)%Z.
Definition DefaultCheckInterval : Duration := (60 * Second)%Z.
Definition DefaultPublicationSchedulerInterval : Duration := Hour.
Definition DefaultPublicationWorkerCount : Z := 1.
Definition DefaultPublicationWorkerTimeout : Duration := (1800 * Second)%Z.

(** The keys that LoadConfig binds, in its order, with the defaults it sets. *)
Definition settings : list (string * option Value) := [
  ("listen_address", Some (VString DefaultListenAddress));
  ("healthcheck_address", Some (VString DefaultHealthCheckAddress));
  ("authz.enabled", Some (VString "false"));
  ("authz.socket_path", Some (VString ""));
  ("authz.trust_domain", Some (VString ""));
  ("provider", Some (VString DefaultProvider));
  ("localfs.dir", Some (VString DefaultDir));
  ("oci.local_dir", Some (VString ""));
  ("oci.cache_dir", Some (VString ""));
  ("oci.registry_address", Some (VString DefaultRegistryAddress));
  ("oci.repository_name", Some (VString DefaultRepositoryName));
  ("oci.auth_config.insecure", Some (VBool DefaultAuthConfigInsecure));
  ("oci.auth_config.username", None);
  ("oci.auth_config.password", None);
  ("oci.auth_config.access_token", None);
  ("oci.auth_config.refresh_token", None);
  ("routing.listen_address", Some (VString DefaultRoutingListenAddress));
  ("routing.bootstrap_peers", Some (VString (Join DefaultBootstrapPeers ",")));
  ("routing.key_path", Some (VString ""));
  ("routing.datastore_dir", Some (VString ""));
  ("database.db_type", Some (VString DefaultDBType));
  ("database.sqlite.db_path", Some (VString DefaultSQLiteDBPath));
  ("sync.scheduler_interval", Some (VDuration DefaultSyncSchedulerInterval));
  ("sync.worker_count", Some (VInt DefaultSyncWorkerCount));
  ("sync.worker_timeout", Some (VDuration DefaultSyncWorkerTimeout));
  ("sync.registry_monitor.check_interval", Some (VDuration DefaultCheckInterval));
  ("publication.scheduler_interval", Some (VDuration DefaultPublicationSchedulerInterval));
  ("publication.worker_count", Some (VInt DefaultPublicationWorkerCount));
  ("publication.worker_timeout", Some (VDuration DefaultPublicationWorkerTimeout))].

Section config.
Context {V : Type} `{!Viper V} `{!Mapstructure}.

Definition bind_setting (s : string * option Value) : M V unit :=
  do! viper_BindEnv s.1 then
  match s.2 with Some v => viper_SetDefault s.1 v | None => ret tt end.

(** [Unmarshal]: the tags of the structures name the keys. *)
Definition Unmarshal (get : string -> option Value) : result Config :=
  let listen := text_field get "listen_address" in
  let health := text_field get "healthcheck_address" in
  let enabled := bool_field get "authz.enabled" in
  let socket := text_field get "authz.socket_path" in
  let domain := text_field get "authz.trust_domain" in
  let provider := text_field get "provider" in
  let dir := text_field get "localfs.dir" in
  let local := text_field get "oci.local_dir" in
  let cache := text_field get "oci.cache_dir" in
  let registry := text_field get "oci.registry_address" in
  let repository := text_field get "oci.repository_name" in
  let insecure := bool_field get "oci.auth_config.insecure" in
  let username := text_field get "oci.auth_config.username" in
  let password := text_field get "oci.auth_config.password" in
  let refresh := text_field get "oci.auth_config.refresh_token" in
  let access := text_field get "oci.auth_config.access_token" in
  let rlisten := text_field get "routing.listen_address" in
  let peers := field decode_strings [] get "routing.bootstrap_peers" in
  let key := text_field get "routing.key_path" in
  let dsdir := text_field get "routing.datastore_dir" in
  let rinterval := time_field get "routing.refresh_interval" in
  let dbtype := text_field get "database.db_type" in
  let dbpath := text_field get "database.sqlite.db_path" in
  let sinterval := time_field get "sync.scheduler_interval" in
  let scount := int_field get "sync.worker_count" in
  let stimeout := time_field get "sync.worker_timeout" in
  let check := time_field get "sync.registry_monitor.check_interval" in
  let pinterval := time_field get "publication.scheduler_interval" in
  let pcount := int_field get "publication.worker_count" in
  let ptimeout := time_field get "publication.worker_timeout" in
  let errs := error_of listen ++ error_of health ++ error_of enabled ++ error_of socket ++ error_of domain
    ++ error_of provider ++ error_of dir ++ error_of local ++ error_of cache ++ error_of registry
    ++ error_of repository ++ error_of insecure ++ error_of username ++ error_of password ++ error_of refresh
    ++ error_of access ++ error_of rlisten ++ error_of peers ++ error_of key ++ error_of dsdir
    ++ error_of rinterval ++ error_of dbtype ++ error_of dbpath ++ error_of sinterval ++ error_of scount
    ++ error_of stimeout ++ error_of check ++ error_of pinterval ++ error_of pcount ++ error_of ptimeout in
  match errs with
  | _ :: _ => Err (decode_Error errs)
  | [] => Ok {|
      ListenAddress := value_of "" listen; HealthCheckAddress := value_of "" health;
      Authz := {| authz.Enabled := value_of false enabled; authz.SocketPath := value_of "" socket;
                  authz.TrustDomain := value_of "" domain |};
      Provider := value_of "" provider; LocalFS_Dir := value_of "" dir;
      OCI := {| LocalDir := value_of "" local; CacheDir := value_of "" cache;
                Oci_RegistryAddress := value_of "" registry; Oci_RepositoryName := value_of "" repository;
                Oci_AuthConfig := {| Insecure := value_of false insecure; Oci_Username := value_of "" username;
                  Oci_Password := value_of "" password; RefreshToken := value_of "" refresh;
                  AccessToken := value_of "" access |} |};
      Routing := {| Cfg_ListenAddress := value_of "" rlisten; Cfg_BootstrapPeers := value_of [] peers;
                    Cfg_KeyPath := value_of "" key; Cfg_DatastoreDir := value_of "" dsdir;
                    Cfg_RefreshInterval := value_of 0%Z rinterval |};
      Database := {| DBType := value_of "" dbtype; SQLite_DBPath := value_of "" dbpath |};
      Sync := {| Sync_Workers := {| SchedulerInterval := value_of 0%Z sinterval; WorkerCount := value_of 0%Z scount;
                                    WorkerTimeout := value_of 0%Z stimeout |};
                 RegistryMonitor_CheckInterval := value_of 0%Z check |};
      Publication := {| SchedulerInterval := value_of 0%Z pinterval; WorkerCount := value_of 0%Z pcount;
                        WorkerTimeout := value_of 0%Z ptimeout |} |}
  end.

(** [strings.NewReplacer(".", "_", "-", "_")]. *)
Definition key_replacer : list (ascii * ascii) := [("."%char, "_"%char); ("-"%char, "_"%char)].

Definition LoadConfig : M V (result Config) :=
  do! viper_NewWithOptions "." key_replacer then
  do! viper_SetConfigName DefaultConfigName then
  do! viper_SetConfigType DefaultConfigType then
  do! viper_AddConfigPath DefaultConfigPath then
  do! viper_SetEnvPrefix DefaultEnvPrefix then
  do! viper_AllowEmptyEnv true then
  do! viper_AutomaticEnv then
  let? _u := (let! read := viper_ReadInConfig in
              ret (match read with
                   | Err err => if ConfigFileNotFoundError err then Ok tt else Err err
                   | Ok _ => Ok tt end))
    else err => ret (Err (Wrap "failed to read configuration file: " err)) in
  do! for_each bind_setting settings then
  fun v => (match Unmarshal (viper_AllSettings v) with
            | Err err => Err (Wrap "failed to load configuration: " err)
            | Ok cfg => Ok cfg
            end, v).

End config.
End config.

(** ** The client (client/config.go) *)

Module clientconfig.

Record Config := { ServerAddress : string; SpiffeSocketPath : string }.

Definition DefaultEnvPrefix : string := "DIRECTORY_CLIENT".
Definition DefaultServerAddress : string := "0.0.0.0:8888".
Definition DefaultConfig : Config := {| ServerAddress := DefaultServerAddress; SpiffeSocketPath := "" |}.

Definition settings : list (string * option Value) := [
  ("server_address", Some (VString DefaultServerAddress)); ("spiffe_socket_path", Some (VString ""))].

Section config.
Context {V : Type} `{!Viper V} `{!Mapstructure}.

Definition Unmarshal (get : string -> option Value) : result Config :=
  let server := text_field get "server_address" in
  let socket := text_field get "spiffe_socket_path" in
  match error_of server ++ error_of socket with
  | [] => Ok {| ServerAddress := value_of "" server; SpiffeSocketPath := value_of "" socket |}
  | errs => Err (decode_Error errs)
  end.

Definition LoadConfig : M V (result Config) :=
  do! viper_NewWithOptions "." config.key_replacer then
  do! viper_SetEnvPrefix DefaultEnvPrefix then
  do! viper_AllowEmptyEnv true then
  do! viper_AutomaticEnv then
  do! for_each config.bind_setting settings then
  fun v => (match Unmarshal (viper_AllSettings v) with
            | Err err => Err (Wrap "failed to load configuration: " err)
            | Ok cfg => Ok cfg
            end, v).

End config.
End clientconfig.

(** ** Where a setting comes from *)

Definition upper_char (c : ascii) : ascii :=
  let n := nat_of_ascii c in if decide (97 <= n <= 122)%nat then ascii_of_nat (n - 32) else c.
(** [strings.ToUpper] on ASCII texts. *)
Fixpoint ToUpper (s : string) : string :=
  match s with "" => "" | String c s => String (upper_char c) (ToUpper s) end.
(** [strings.Replacer] for single characters. *)
Fixpoint replace_char (pairs : list (ascii * ascii)) (c : ascii) : ascii :=
  match pairs with [] => c | (a, b) :: pairs => if decide (a = c) then b else replace_char pairs c end.
Fixpoint Replace (pairs : list (ascii * ascii)) (s : string) : string :=
  match s with "" => "" | String c s => String (replace_char pairs c) (Replace pairs s) end.

(** What a viper was told, in a process with an environment and files. *)
Record ViperState := {
  vs_env : gmap string string;
  vs_disk : list string -> string -> string -> option (result (gmap string Value));   (** paths, name, type *)
  vs_paths : list string; vs_name : string; vs_type : string; vs_prefix : string;
  vs_replacer : list (ascii * ascii); vs_allowEmpty : bool; vs_automatic : bool;
  vs_bound : list string; vs_defaults : gmap string Value; vs_file : gmap string Value }.

Definition env_name (prefix : string) (replacer : list (ascii * ascii)) (key : string) : string :=
  Replace replacer (ToUpper (prefix +:+ "_" +:+ key)).

Definition env_setting (env : gmap string string) (allowEmpty : bool) (name : string) : option Value :=
  match env !! name with
  | Some x => if decide (x = "" /\ allowEmpty = false) then None else Some (VString x)
  | None => None
  end.

Definition settings_of (s : ViperState) (key : string) : option Value :=
  if decide (key ∈ vs_bound s \/ is_Some (vs_defaults s !! key) \/ is_Some (vs_file s !! key)) then
    match (if decide (key ∈ vs_bound s \/ vs_automatic s = true)
           then env_setting (vs_env s) (vs_allowEmpty s) (env_name (vs_prefix s) (vs_replacer s) key) else None) with
    | Some v => Some v
    | None => match vs_file s !! key with Some v => Some v | None => vs_defaults s !! key end
    end
  else None.

Example env_name_insecure :
  env_name "DIRECTORY_SERVER" config.key_replacer "oci.auth_config.insecure" = "DIRECTORY_SERVER_OCI_AUTH_CONFIG_INSECURE".
Proof. reflexivity. Qed.

(** How the operations change the state. *)
Section update.
Context (s : ViperState).
Definition vs_fresh (replacer : list (ascii * ascii)) : ViperState :=
  Build_ViperState (vs_env s) (vs_disk s) [] "" "" "" replacer false false [] ∅ ∅.
Definition vs_set_name (n : string) : ViperState :=
  Build_ViperState (vs_env s) (vs_disk s) (vs_paths s) n (vs_type s) (vs_prefix s) (vs_replacer s)
    (vs_allowEmpty s) (vs_automatic s) (vs_bound s) (vs_defaults s) (vs_file s).
Definition vs_set_type (ty : string) : ViperState :=
  Build_ViperState (vs_env s) (vs_disk s) (vs_paths s) (vs_name s) ty (vs_prefix s) (vs_replacer s)
    (vs_allowEmpty s) (vs_automatic s) (vs_bound s) (vs_defaults s) (vs_file s).
Definition vs_add_path (p : string) : ViperState :=
  Build_ViperState (vs_env s) (vs_disk s) (vs_paths s ++ [p]) (vs_name s) (vs_type s) (vs_prefix s) (vs_replacer s)
    (vs_allowEmpty s) (vs_automatic s) (vs_bound s) (vs_defaults s) (vs_file s).
Definition vs_set_prefix (p : string) : ViperState :=
  Build_ViperState (vs_env s) (vs_disk s) (vs_paths s) (vs_name s) (vs_type s) p (vs_replacer s)
    (vs_allowEmpty s) (vs_automatic s) (vs_bound s) (vs_defaults s) (vs_file s).
Definition vs_set_allow (b : bool) : ViperState :=
  Build_ViperState (vs_env s) (vs_disk s) (vs_paths s) (vs_name s) (vs_type s) (vs_prefix s) (vs_replacer s)
    b (vs_automatic s) (vs_bound s) (vs_defaults s) (vs_file s).
Definition vs_set_automatic : ViperState :=
  Build_ViperState (vs_env s) (vs_disk s) (vs_paths s) (vs_name s) (vs_type s) (vs_prefix s) (vs_replacer s)
    (vs_allowEmpty s) true (vs_bound s) (vs_defaults s) (vs_file s).
Definition vs_bind (k : string) : ViperState :=
  Build_ViperState (vs_env s) (vs_disk s) (vs_paths s) (vs_name s) (vs_type s) (vs_prefix s) (vs_replacer s)
    (vs_allowEmpty s) (vs_automatic s) (k :: vs_bound s) (vs_defaults s) (vs_file s).
Definition vs_default (k : string) (x : Value) : ViperState :=
  Build_ViperState (vs_env s) (vs_disk s) (vs_paths s) (vs_name s) (vs_type s) (vs_prefix s) (vs_replacer s)
    (vs_allowEmpty s) (vs_automatic s) (vs_bound s) (<[k := x]> (vs_defaults s)) (vs_file s).
Definition vs_read (m : gmap string Value) : ViperState :=
  Build_ViperState (vs_env s) (vs_disk s) (vs_paths s) (vs_name s) (vs_type s) (vs_prefix s) (vs_replacer s)
    (vs_allowEmpty s) (vs_automatic s) (vs_bound s) (vs_defaults s) m.
End update.

(** viper's documentation: a set variable comes before the file, and the file before
    the default; keys are known when they are bound, have a default or are in the file. *)
Class ViperSpec (V : Type) `{!Viper V} (state : V -> ViperState) : Prop := {
  New_spec d r v : state (viper_NewWithOptions d r v).2 = vs_fresh (state v) r;
  ConfigName_spec n v : state (viper_SetConfigName n v).2 = vs_set_name (state v) n;
  ConfigType_spec n v : state (viper_SetConfigType n v).2 = vs_set_type (state v) n;
  ConfigPath_spec p v : state (viper_AddConfigPath p v).2 = vs_add_path (state v) p;
  EnvPrefix_spec p v : state (viper_SetEnvPrefix p v).2 = vs_set_prefix (state v) p;
  AllowEmptyEnv_spec b v : state (viper_AllowEmptyEnv b v).2 = vs_set_allow (state v) b;
  AutomaticEnv_spec v : state (viper_AutomaticEnv v).2 = vs_set_automatic (state v);
  BindEnv_spec k v : state (viper_BindEnv k v).2 = vs_bind (state v) k;
  SetDefault_spec k x v : state (viper_SetDefault k x v).2 = vs_default (state v) k x;
  ReadInConfig_spec v : let '(r, v') := viper_ReadInConfig v in
    match vs_disk (state v) (vs_paths (state v)) (vs_name (state v)) (vs_type (state v)) with
    | None => exists e, r = Err e /\ ConfigFileNotFoundError e = true /\ state v' = state v
    | Some (Err _) => exists e, r = Err e /\ ConfigFileNotFoundError e = false /\ state v' = state v
    | Some (Ok m) => r = Ok tt /\ state v' = vs_read (state v) m
    end;
  AllSettings_spec v k : viper_AllSettings v k = settings_of (state v) k;
}.

(** *** The settings of a process *)

Section resolve.
Context {V : Type} `{!Viper V} {state : V -> ViperState} `{!ViperSpec V state} `{!Mapstructure}.

(** The default in a table. *)
Fixpoint default_in (table : list (string * option Value)) (key : string) : option Value :=
  match table with
  | [] => None
  | (k, o) :: table => if decide (k = key) then o else default_in table key
  end.

(** The value of a key: the variable, or else the file, or else the default. *)
Definition resolve (table : list (string * option Value)) (prefix : string) (env : gmap string string)
    (file : gmap string Value) (key : string) : option Value :=
  if decide (key ∈ table.*1 \/ is_Some (file !! key)) then
    match env !! env_name prefix config.key_replacer key with
    | Some x => Some (VString x)
    | None => match file !! key with
              | Some v => Some v
              | None => default_in table key
              end
    end
  else None.

(** The state after a table of settings. *)
Definition after_table (table : list (string * option Value)) (s : ViperState) : ViperState :=
  foldl (fun s x => match x.2 with Some v => vs_default (vs_bind s x.1) x.1 v | None => vs_bind s x.1 end) s table.

Lemma table_state table v : state (for_each config.bind_setting table v).2 = after_table table (state v).
Proof.
  revert v. induction table as [|[k o] table IH]; intros v; [done|]. simpl.
  unfold bind at 1. destruct (config.bind_setting (k, o) v) as [[] v1] eqn:Hb. rewrite IH. unfold after_table. simpl.
  f_equal. assert (Hv1 : v1 = (config.bind_setting (k, o) v).2) by (by rewrite Hb). rewrite Hv1.
  unfold config.bind_setting, bind. simpl. pose proof (BindEnv_spec k v) as Hk. destruct (viper_BindEnv k v) as [[] v2].
  destruct o as [x|]; [|done]. by rewrite SetDefault_spec, <- Hk.
Qed.

Lemma after_table_env table s : let s' := after_table table s in
  vs_env s' = vs_env s /\ vs_file s' = vs_file s /\ vs_prefix s' = vs_prefix s /\ vs_replacer s' = vs_replacer s
  /\ vs_allowEmpty s' = vs_allowEmpty s /\ vs_automatic s' = vs_automatic s.
Proof.
  revert s. induction table as [|[k [x|]] table IH]; intros s; [done|..]; simpl;
    [destruct (IH (vs_default (vs_bind s k) k x)) as (? & ? & ? & ? & ? & ?)
    |destruct (IH (vs_bind s k)) as (? & ? & ? & ? & ? & ?)]; done.
Qed.

Lemma after_table_bound table s k : k ∈ vs_bound (after_table table s) <-> k ∈ table.*1 \/ k ∈ vs_bound s.
Proof.
  revert s. induction table as [|[k' [x|]] table IH]; intros s; simpl; [set_solver|..]; rewrite IH; simpl; set_solver.
Qed.

Lemma after_table_defaults table s k : NoDup table.*1 ->
  vs_defaults (after_table table s) !! k
  = match default_in table k with Some v => Some v | None => vs_defaults s !! k end.
Proof.
  revert s. induction table as [|[k' o] table IH]; intros s; [done|]. simpl. intros [Hk' Hnd]%NoDup_cons.
  assert (Hn : forall k, k ∉ table.*1 -> default_in table k = None).
  { intros j. clear. induction table as [|[i o] table IH]; [done|]. simpl. rewrite not_elem_of_cons.
    intros [Hi Hj]. rewrite decide_False by congruence. auto. }
  destruct o as [x|]; rewrite IH by done; simpl; case_decide as He; subst; rewrite ?Hn by done; try done.
  - by rewrite lookup_insert_eq.
  - destruct (default_in table k); [done|]. by rewrite lookup_insert_ne.
Qed.

(** What a configured viper answers. *)
Lemma resolve_settings table prefix v s0 k : NoDup table.*1 ->
  vs_prefix s0 = prefix -> vs_replacer s0 = config.key_replacer -> vs_allowEmpty s0 = true -> vs_automatic s0 = true ->
  vs_bound s0 = [] -> vs_defaults s0 = ∅ -> state v = after_table table s0 ->
  viper_AllSettings v k = resolve table prefix (vs_env s0) (vs_file s0) k.
Proof.
  intros Hnd Hp Hr Ha Hau Hb Hd Hs. rewrite AllSettings_spec, Hs. unfold settings_of, resolve, env_setting.
  destruct (after_table_env table s0) as (-> & -> & -> & -> & -> & ->). rewrite Hp, Hr, Ha, Hau.
  rewrite after_table_defaults, Hd, lookup_empty by done.
  assert (Hkn : k ∈ vs_bound (after_table table s0) <-> k ∈ table.*1).
  { rewrite after_table_bound, Hb. set_solver. }
  assert (Hdef : is_Some (default_in table k) -> k ∈ table.*1).
  { clear. induction table as [|[j o] table IH]; simpl; [by intros []|]. case_decide; set_solver. }
  assert (Hdd : is_Some (match default_in table k with Some x => Some x | None => None end) -> k ∈ table.*1).
  { destruct (default_in table k); [intros _; by apply Hdef|by intros []]. }
  destruct (decide (k ∈ table.*1 \/ is_Some (vs_file s0 !! k))) as [Hin|Hin].
  - rewrite decide_True by tauto. rewrite decide_True by auto.
    destruct (vs_env s0 !! env_name prefix config.key_replacer k) as [x|].
    + by rewrite decide_False by (intros [_ [=]]).
    + destruct (vs_file s0 !! k); [done|]. by destruct (default_in table k).
  - rewrite decide_False; [done|]. rewrite Hkn. tauto.
Qed.

Lemma unit_bind {W A} (c : M W unit) (k : unit -> M W A) w : bind c k w = k tt (c w).2.
Proof. unfold bind. by destruct (c w) as [[] w']. Qed.

(** Whether the configuration file can be used, and its settings. *)
Definition config_file (s : ViperState) : option (result (gmap string Value)) :=
  vs_disk s [config.DefaultConfigPath] config.DefaultConfigName config.DefaultConfigType.

Lemma settings_nodup : NoDup config.settings.*1.
Proof. apply (bool_decide_unpack _). vm_compute. exact I. Qed.


Lemma client_settings_nodup : NoDup clientconfig.settings.*1.
Proof. apply (bool_decide_unpack _). vm_compute. exact I. Qed.

(** The configuration of the client: the environment, or else the defaults. *)
Theorem client_config_resolves v :
  (clientconfig.LoadConfig v).1
  = match clientconfig.Unmarshal
        (resolve clientconfig.settings clientconfig.DefaultEnvPrefix (vs_env (state v)) ∅) with
    | Err err => Err (Wrap "failed to load configuration: " err)
    | Ok cfg => Ok cfg
    end.
Proof.
  unfold clientconfig.LoadConfig. rewrite !unit_bind. set (v1 := (viper_AutomaticEnv _).2).
  set (s1 := vs_set_automatic (vs_set_allow (vs_set_prefix (vs_fresh (state v) config.key_replacer)
    clientconfig.DefaultEnvPrefix) true)).
  assert (Hs1 : state v1 = s1).
  { unfold v1, s1. by rewrite AutomaticEnv_spec, AllowEmptyEnv_spec, EnvPrefix_spec, New_spec. }
  cbn [fst]. unfold clientconfig.Unmarshal, text_field, field.
  by rewrite !(resolve_settings clientconfig.settings clientconfig.DefaultEnvPrefix _ s1 _ client_settings_nodup
    eq_refl eq_refl eq_refl eq_refl eq_refl eq_refl) by (by rewrite table_state, Hs1).
Qed.

End resolve.

(** ** A process *)

Module DemoConfig.

#[export] Instance viper : Viper ViperState := {|
  viper_NewWithOptions _ r s := (tt, vs_fresh s r);
  viper_SetConfigName n s := (tt, vs_set_name s n);
  viper_SetConfigType n s := (tt, vs_set_type s n);
  viper_AddConfigPath p s := (tt, vs_add_path s p);
  viper_SetEnvPrefix p s := (tt, vs_set_prefix s p);
  viper_AllowEmptyEnv b s := (tt, vs_set_allow s b);
  viper_AutomaticEnv s := (tt, vs_set_automatic s);
  viper_ReadInConfig s := match vs_disk s (vs_paths s) (vs_name s) (vs_type s) with
    | None => (Err (Plain "Not Found"), s)
    | Some (Err e) => (Err (Wrap "While parsing config: " e), s)
    | Some (Ok m) => (Ok tt, vs_read s m)
    end;
  ConfigFileNotFoundError e := bool_decide (err_string e = "Not Found");
  viper_BindEnv k s := (tt, vs_bind s k);
  viper_SetDefault k x s := (tt, vs_default s k x);
  viper_AllSettings s k := settings_of s k |}.

#[export] Instance viper_spec : ViperSpec ViperState (fun s => s).
Proof.
  split; try done. intros s. simpl. destruct (vs_disk s _ _ _) as [[m|e]|]; [done|..]; eexists; (split; [done|]).
  - split; [|done]. by apply bool_decide_eq_false.
  - done.
Qed.

#[export] Instance decoding : Mapstructure := {|
  decode_string v := match v with VString s => Ok s | _ => Err (Plain "expected a string") end;
  decode_bool v := match v with
    | VBool b => Ok b
    | VString s => if decide (s = "true") then Ok true else if decide (s = "false" \/ s = "") then Ok false
                   else Err (Plain "expected a bool")
    | _ => Err (Plain "expected a bool")
    end;
  decode_int v := match v with
    | VInt z => Ok z
    | VString s => match parse_digits 0 s with Some z => Ok z | None => Err (Plain "expected an int") end
    | _ => Err (Plain "expected an int")
    end;
  decode_duration v := match v with VDuration d => Ok d | _ => Err (Plain "expected a duration") end;
  decode_strings v := match v with
    | VString s => Ok (if decide (s = "") then [] else Split "," s)
    | _ => Err (Plain "expected a list")
    end;
  decode_Error es := Plain (Join (err_string <$> es) "; ") |}.

(** The configuration without variables and without a file. *)
Definition default_config : config.Config := {|
  config.ListenAddress := "0.0.0.0:8888"; config.HealthCheckAddress := "0.0.0.0:8889";
  config.Authz := {| authz.Enabled := false; authz.SocketPath := ""; authz.TrustDomain := "" |};
  config.Provider := "oci"; config.LocalFS_Dir := "/tmp";
  config.OCI := {| LocalDir := ""; CacheDir := ""; Oci_RegistryAddress := "127.0.0.1:5000";
    Oci_RepositoryName := "dir"; Oci_AuthConfig := {| Insecure := true; Oci_Username := ""; Oci_Password := "";
      RefreshToken := ""; AccessToken := "" |} |};
  config.Routing := {| Cfg_ListenAddress := "/ip4/0.0.0.0/tcp/8999"; Cfg_BootstrapPeers := []; Cfg_KeyPath := "";
    Cfg_DatastoreDir := ""; Cfg_RefreshInterval := 0%Z |};
  config.Database := {| DBType := "sqlite"; SQLite_DBPath := "/tmp/dir.db" |};
  config.Sync := {| Sync_Workers := {| SchedulerInterval := (30 * Second)%Z; WorkerCount := 1;
    WorkerTimeout := (600 * Second)%Z |}; RegistryMonitor_CheckInterval := (60 * Second)%Z |};
  config.Publication := {| SchedulerInterval := Hour; WorkerCount := 1; WorkerTimeout := (1800 * Second)%Z |} |}.

Definition process (env : gmap string string) (file : option (result (gmap string Value))) : ViperState :=
  {| vs_env := env; vs_disk _ _ _ := file; vs_paths := []; vs_name := ""; vs_type := ""; vs_prefix := "";
     vs_replacer := []; vs_allowEmpty := false; vs_automatic := false; vs_bound := []; vs_defaults := ∅; vs_file := ∅ |}.

Example loads_defaults : (config.LoadConfig (process ∅ None)).1 = Ok default_config.
Proof. vm_compute. reflexivity. Qed.

(** A variable that is set to the empty text, one for the refresh interval, and a
    file with a provider and a refresh interval. *)
Definition env : gmap string string := {[
  "DIRECTORY_SERVER_OCI_REGISTRY_ADDRESS" := ""; "DIRECTORY_SERVER_AUTHZ_ENABLED" := "true";
  "DIRECTORY_SERVER_ROUTING_BOOTSTRAP_PEERS" := "/p1,/p2" ]}.
Definition file : gmap string Value := {[
  "provider" := VString "localfs"; "authz.enabled" := VBool false;
  "routing.refresh_interval" := VDuration Second ]}.


End DemoConfig.
