(* ===== verification/ServerStart.v ===== *)
(** * The server from start to stop

    server/server.go (Module [server]) with the constructors it calls: store/store.go,
    localfs.New and oci.New, datastore, database/database.go and sqlite.go, the
    constructors of sync and authz; [start_router.New] is routing.New.  Run builds the
    server, starts its services, waits and closes.  The services themselves are in
    [Lifecycle]; what the server does with them is the class [ServiceOps]. *)

From S2P Require Import Prelude GoStrings GoUrl Interfaces CoreRecord Validators LabelKey RoutingWorld RoutingRemote P2p P2pSpec NetworkKeys ZotConfig Search Tables Sync Authz ServerConfig.

Open Scope string_scope.
Open Scope list_scope.
Open Scope go_scope.

(** ** The libraries *)

(** Registries and layouts (oras-go), databases (gorm), the Workload API of SPIRE
    (go-spiffe), listeners (net). *)
Class ServerLib (N : Type) := {
  Repo : Type; GormDB : Type; WorkloadClient : Type; X509Source : Type; BundleSource : Type; Listener : Type;
  remote_NewRepository : string -> result Repo;
  orasoci_New : string -> M N (result Repo);
  gorm_Open : string -> M N (result GormDB);
  AutoMigrate : GormDB -> list string -> M N (result unit);
  workloadapi_New : string -> M N (result WorkloadClient);
  workloadapi_NewX509Source : WorkloadClient -> M N (result X509Source);
  workloadapi_NewBundleSource : WorkloadClient -> M N (result BundleSource);
  wc_Close : WorkloadClient -> M N (result unit);
  net_Listen : string -> M N (result Listener);
}.

(** Starting and stopping the services, the health check server and the gRPC server on a
    listener. *)
Class ServiceOps (S : Type) := {
  sync_Start : M S (result unit); sync_Stop : M S (result unit);
  publication_Start : M S (result unit); publication_Stop : M S (result unit);
  healthz_Start : string -> M S unit; healthz_SetIsReady : bool -> M S unit;
  grpc_Serve : M S unit; grpc_GracefulStop : M S unit;
}.

(** ** Stores (store/store.go, localfs, oci) *)

Section stores.
Context {N D : Type} `{!IdentityLib N} `{!HostFiles N} `{!P2pLib N D} `{!ServerLib N}.

(** A repository with the credentials for its registry. *)
Record OrasRepository := {
  or_repo : Repo; or_PlainHTTP : bool; or_UserAgent : string; or_Registry : string; or_Credential : OciAuthConfig }.

Definition NewORASRepository (cfg : OciStoreConfig) : result OrasRepository :=
  match remote_NewRepository (Oci_RegistryAddress cfg +:+ "/" +:+ Oci_RepositoryName cfg) with
  | Err err => Err (Wrap "failed to connect to remote repo: " err)
  | Ok repo => Ok {| or_repo := repo; or_PlainHTTP := Insecure (Oci_AuthConfig cfg); or_UserAgent := "dir-client";
                     or_Registry := Oci_RegistryAddress cfg; or_Credential := Oci_AuthConfig cfg |}
  end.

Inductive Store :=
  | LocalFSStore (dataDir metaDir : string)
  | OciLocalStore (repo : Repo) (cfg : OciStoreConfig)
  | OciStore (repo : OrasRepository) (cfg : OciStoreConfig)
  | CachedStore (repo : OrasRepository) (cfg : OciStoreConfig) (cacheDS : D).

Definition localfs_New (dir : string) : M N (result Store) :=
  let dataDir := path_Join dir "contents" in
  let? _u := hf_MkdirAll dataDir 511 else err => ret (Err (Wrap "failed to create contents directory: " err)) in
  let metaDir := path_Join dir "metadata" in
  let? _v := hf_MkdirAll metaDir 511 else err => ret (Err (Wrap "failed to create metadata directory: " err)) in
  ret (Ok (LocalFSStore dataDir metaDir)).

Definition oci_New (cfg : OciStoreConfig) : M N (result Store) :=
  if decide (LocalDir cfg <> "") then
    let? repo := orasoci_New (LocalDir cfg) else err => ret (Err (Wrap "failed to create local repo: " err)) in
    ret (Ok (OciLocalStore repo cfg))
  else match NewORASRepository cfg with
  | Err err => ret (Err (Wrap "failed to create remote repo: " err))
  | Ok repo =>
      if decide (CacheDir cfg = "") then ret (Ok (OciStore repo cfg))
      else
        let? cacheDS := start_router.datastore_New [start_router.WithFsProvider (CacheDir cfg)]
          else err => ret (Err (Wrap "failed to create cache store: " err)) in
        ret (Ok (CachedStore repo cfg cacheDS))
  end.

Definition store_New (cfg : config.Config) : M N (result Store) :=
  if decide (config.Provider cfg = "localfs") then
    let? store := localfs_New (config.LocalFS_Dir cfg)
      else err => ret (Err (Wrap "failed to create localfs store: " err)) in
    ret (Ok store)
  else if decide (config.Provider cfg = "oci") then
    let? store := oci_New (config.OCI cfg) else err => ret (Err (Wrap "failed to create OCI store: " err)) in
    ret (Ok store)
  else ret (Err (Plain ("unsupported provider=" +:+ config.Provider cfg))).

(** ** Databases (database/database.go, database/sqlite/sqlite.go) *)

Definition sqlite_New (path : string) : M N (result GormDB) :=
  let? db := gorm_Open path else err => ret (Err (Wrap "failed to connect to SQLite database: " err)) in
  let? _u := AutoMigrate db ["Record"; "Extension"; "Locator"; "Skill"]
    else err => ret (Err (Wrap "failed to migrate record schema: " err)) in
  let? _v := AutoMigrate db ["Sync"] else err => ret (Err (Wrap "failed to migrate sync schema: " err)) in
  let? _w := AutoMigrate db ["Publication"]
    else err => ret (Err (Wrap "failed to migrate publication schema: " err)) in
  ret (Ok db).

Definition database_New (cfg : config.Config) : M N (result GormDB) :=
  let db := DBType (config.Database cfg) in
  if decide (db = "sqlite") then
    let? sqliteDB := sqlite_New (SQLite_DBPath (config.Database cfg))
      else err => ret (Err (Wrap "failed to create SQLite database: " err)) in
    ret (Ok sqliteDB)
  else ret (Err (Plain ("unsupported database=" +:+ db))).

(** ** Services (sync/sync.go, sync/monitor, authz/service.go) *)

(** The repository that the monitor of the sync service reads. *)
Definition NewMonitorService_repo (ociConfig : OciStoreConfig) : result OrasRepository :=
  match NewORASRepository ociConfig with
  | Err err => Err (Wrap "failed to create ORAS repository client: " err)
  | Ok repo => Ok repo
  end.

Record SyncService := { ss_config : SyncServiceConfig; ss_monitor_repo : OrasRepository }.

Definition sync_New (cfg : config.Config) : result SyncService :=
  match NewMonitorService_repo (config.OCI cfg) with
  | Err err => Err (Wrap "failed to create registry monitor service: " err)
  | Ok repo => Ok {| ss_config := config.Sync cfg; ss_monitor_repo := repo |}
  end.

Record AuthzService := {
  as_authorizer : authz.Authorizer; as_client : WorkloadClient; as_x509Src : X509Source; as_bundleSrc : BundleSource }.

(** The authorizer is made from a constant model and cannot fail ([Authz]). *)
Definition authz_New (cfg : authz.Config) : M N (result AuthzService) :=
  match authz.Validate cfg with
  | Err err => ret (Err (Wrap "invalid authz config: " err))
  | Ok _ =>
      let? client := workloadapi_New (authz.SocketPath cfg)
        else err => ret (Err (Wrap "failed to create workload API client: " err)) in
      let? x509Src := workloadapi_NewX509Source client
        else err => (do! wc_Close client then ret (Err (Wrap "failed to fetch svid: " err))) in
      let? bundleSrc := workloadapi_NewBundleSource client
        else err => (do! wc_Close client then ret (Err (Wrap "failed to fetch trust bundle: " err))) in
      ret (Ok {| as_authorizer := authz.NewAuthorizer cfg; as_client := client; as_x509Src := x509Src;
                 as_bundleSrc := bundleSrc |})
  end.

Definition authz_Stop (s : AuthzService) : M N (result unit) := wc_Close (as_client s).

(** Options of the gRPC server: its credentials, and the interceptors of [authz]. *)
Inductive ServerOption :=
  | MTLSServerCredentials (x509Src : X509Source) (bundleSrc : BundleSource)
  | ChainUnaryInterceptor (a : authz.Authorizer)
  | ChainStreamInterceptor (a : authz.Authorizer).

Definition GetServerOptions (s : AuthzService) : list ServerOption := [
  MTLSServerCredentials (as_x509Src s) (as_bundleSrc s);
  ChainUnaryInterceptor (as_authorizer s); ChainStreamInterceptor (as_authorizer s)].

End stores.

(** ** The server (server.go) *)

(** What the server works on: the machine and the running services. *)
Record SrvWorld (N S : Type) := { sw_machine : N; sw_services : S }.
Arguments sw_machine {_ _}. Arguments sw_services {_ _}. Arguments Build_SrvWorld {_ _}.

Module server.
Section server.
Context {N D S : Type} `{!IdentityLib N} `{!HostFiles N} `{!P2pLib N D} `{!ServerLib N} `{!ServiceOps S}.
Notation W := (SrvWorld N S).

Definition on_machine {A} (c : M N A) : M W A := fun w =>
  let '(a, n) := c (sw_machine w) in (a, Build_SrvWorld n (sw_services w)).
Definition on_services {A} (c : M S A) : M W A := fun w =>
  let '(a, s) := c (sw_services w) in (a, Build_SrvWorld (sw_machine w) s).

Record Server := {
  options : config.Config; store : Store (N := N) (D := D); routing : start_router.router (N := N) (D := D); database : GormDB;
  syncService : SyncService; authzService : option AuthzService; publicationService : WorkersConfig;
  healthz_address : string; grpc_options : list ServerOption; grpc_services : list string }.

(** The services that are registered, by the names of their protocols. *)
Definition registered : list string := [
  "store.v1.StoreService"; "routing.v1.RoutingService"; "routing.v1.PublicationService";
  "search.v1.SearchService"; "store.v1.SyncService"; "sign.v1.SignService"].

(** publication.New cannot fail. *)
Definition New (cfg : config.Config) : M N (result Server) :=
  let? storeAPI := store_New cfg else err => ret (Err (Wrap "failed to create store: " err)) in
  let? routingAPI := start_router.New (config.Routing cfg)
    else err => ret (Err (Wrap "failed to create routing: " err)) in
  let? databaseAPI := database_New cfg
    else err => ret (Err (Wrap "failed to create database API: " err)) in
  match sync_New cfg with
  | Err err => ret (Err (Wrap "failed to create sync service: " err))
  | Ok syncService =>
      let? authzService := (if authz.Enabled (config.Authz cfg) then
          let? s := authz_New (config.Authz cfg) else err => ret (Err err) in ret (Ok (Some s))
        else ret (Ok None))
        else err => ret (Err (Wrap "failed to create authz service: " err)) in
      ret (Ok {| options := cfg; store := storeAPI; routing := routingAPI; database := databaseAPI;
        syncService := syncService; authzService := authzService; publicationService := config.Publication cfg;
        healthz_address := config.HealthCheckAddress cfg;
        grpc_options := match authzService with Some s => GetServerOptions s | None => [] end;
        grpc_services := registered |})
  end.

(** Serving goes on in the background; that it fails is logged.  When it has ended, the
    health check server is told that the server is not ready; nobody waits for that. *)
Definition serve (s : Server) : M S unit :=
  do! healthz_Start (healthz_address s) then
  do! healthz_SetIsReady true then
  grpc_Serve.

Definition start (s : Server) : M W (result unit) :=
  let? _u := on_services sync_Start else err => ret (Err (Wrap "failed to start sync service: " err)) in
  let? _v := on_services publication_Start
    else err => ret (Err (Wrap "failed to start publication service: " err)) in
  let? _listen := on_machine (net_Listen (config.ListenAddress (options s)))
    else err => ret (Err (Wrap ("failed to listen on " +:+ config.ListenAddress (options s) +:+ ": ") err)) in
  do! on_services (serve s) then
  ret (Ok tt).

(** Failures are logged. *)
Definition Close (s : Server) : M W unit :=
  do! on_services sync_Stop then
  do! match authzService s with
      | Some a => do! on_machine (authz_Stop a) then ret tt
      | None => ret tt
      end then
  do! on_services publication_Stop then
  on_services grpc_GracefulStop.

(** What ends the wait of Run: its context or a signal; nothing is ever sent on [errCh]. *)
Inductive Wakeup := CtxDone (err : error) | Signal (sig : string).

Definition stopped (wake : Wakeup) : error :=
  match wake with
  | CtxDone err => Wrap "stopping server due to context cancellation: " err
  | Signal sig => Plain ("stopping server due to signal: " +:+ sig)
  end.

(** Run always returns an error. *)
Definition Run (cfg : config.Config) (wake : Wakeup) : M W error :=
  let? s := on_machine (New cfg) else err => ret (Wrap "failed to create server: " err) in
  let? _u := start s else err => ret (Wrap "failed to start server: " err) in
  do! Close s then
  ret (stopped wake).

End server.
End server.

(** cmd/main.go: the command of the server, in a process with a viper. *)
Definition main_RunE {V N D S : Type} `{!Viper V} `{!Mapstructure} `{!IdentityLib N} `{!HostFiles N} `{!P2pLib N D}
    `{!ServerLib N} `{!ServiceOps S} (wake : server.Wakeup) (v : V) : M (SrvWorld N S) error :=
  match (config.LoadConfig v).1 with
  | Err err => ret (Wrap "failed to load config: " err)
  | Ok cfg => server.Run (D := D) cfg wake
  end.

(** ** Laws *)

(** Clients of the Workload API are held open like hosts. *)
Class WorkloadSpec (N : Type) `{!ServerLib N} (held : N -> gset positive) (client_fd : WorkloadClient -> positive)
    : Prop := {
  workloadapi_New_spec path n : let '(r, n') := workloadapi_New path n in
    match r with Ok c => client_fd c ∉ held n /\ held n' = {[client_fd c]} ∪ held n | Err _ => held n' = held n end;
  wc_Close_spec c n : held (wc_Close c n).2 = held n ∖ {[client_fd c]};
  X509Source_held c n : held (workloadapi_NewX509Source c n).2 = held n;
  BundleSource_held c n : held (workloadapi_NewBundleSource c n).2 = held n;
}.

(** And so are databases and stores on disk. *)
Class ServerSpec (N D : Type) `{!IdentityLib N} `{!HostFiles N} `{!P2pLib N D} `{!ServerLib N}
    (held : N -> gset positive) (db_fd : GormDB -> positive) (ds_fd : D -> positive) : Prop := {
  gorm_Open_spec path n : let '(r, n') := gorm_Open path n in
    match r with Ok db => db_fd db ∉ held n /\ held n' = {[db_fd db]} ∪ held n | Err _ => held n' = held n end;
  badger_New_spec dir n : let '(r, n') := badger_NewDatastore dir n in
    match r with Ok d => ds_fd d ∉ held n /\ held n' = {[ds_fd d]} ∪ held n | Err _ => held n' = held n end;
  MkdirAll_held dir mode n : held (hf_MkdirAll dir mode n).2 = held n;
  orasoci_New_held path n : held (orasoci_New path n).2 = held n;
  AutoMigrate_held db models n : held (AutoMigrate db models n).2 = held n;
  Listen_held addr n : held (net_Listen addr n).2 = held n;
}.

(** Services start and stop; [running] has their names. *)
Class ServiceSpec (S : Type) `{!ServiceOps S} (running : S -> gset string) : Prop := {
  sync_Start_spec s : exists s', sync_Start s = (Ok tt, s') /\ running s' = {["sync"]} ∪ running s;
  publication_Start_spec s : exists s', publication_Start s = (Ok tt, s')
    /\ running s' = {["publication"]} ∪ running s;
  healthz_Start_spec a s : running (healthz_Start a s).2 = {["healthz"]} ∪ running s;
  SetIsReady_spec b s : running (healthz_SetIsReady b s).2 = running s;
  grpc_Serve_spec s : running (grpc_Serve s).2 = {["grpc"]} ∪ running s;
  sync_Stop_spec s : running (sync_Stop s).2 = running s ∖ {["sync"]};
  publication_Stop_spec s : running (publication_Stop s).2 = running s ∖ {["publication"]};
  GracefulStop_spec s : running (grpc_GracefulStop s).2 = running s ∖ {["grpc"]};
}.

(** ** What a run leaves *)

Section opens.
Context {N : Type} {held : N -> gset positive}.

(** [c] opens what [P] allows for its result, all of it new, in a state where [base] was
    opened before; when it fails it may leave some of it open. *)
Definition opens {A} (base : gset positive) (P : A -> gset positive -> Prop) (c : M N (result A)) : Prop :=
  forall n0 n, base ## held n0 -> held n = base ∪ held n0 ->
  match (c n).1 with
  | Ok a => exists F, P a F /\ F ## held n0 /\ held (c n).2 = F ∪ held n0
  | Err _ => held n0 ⊆ held (c n).2
  end.

Definition exactly {A} (fds : A -> gset positive) (a : A) (F : gset positive) : Prop := F = fds a.

Lemma opens_ok {A} base (P : A -> gset positive -> Prop) a : P a base -> opens base P (ret (Ok a)).
Proof. intros H n0 n Hd Hn. simpl. eauto. Qed.

Lemma opens_err {A} base (P : A -> gset positive -> Prop) e : opens base P (ret (Err e)).
Proof. intros n0 n Hd Hn. simpl. set_solver. Qed.

(** What is opened adds up. *)
Lemma opens_try {A B} base (PA : A -> gset positive -> Prop) (PB : B -> gset positive -> Prop)
    (c : M N (result A)) (f : error -> error) (k : A -> M N (result B)) :
  opens ∅ PA c -> (forall a F, PA a F -> F ## base -> opens (F ∪ base) PB (k a)) ->
  opens base PB (try_bind c (fun e => ret (Err (f e))) k).
Proof.
  intros Hc Hk n0 n Hd Hn. specialize (Hc n n). unfold try_bind, bind.
  destruct (c n) as [[a|e] n1]; simpl in Hc; [|set_solver].
  destruct Hc as (F & HP & HF & H1); [set_solver..|]. rewrite Hn in *. apply (Hk a F); [done|set_solver..|].
  by rewrite H1, (assoc_L (∪)).
Qed.

(** A step that opens nothing. *)
Lemma opens_keep {A B} base (P : B -> gset positive -> Prop) (c : M N (result A)) h (k : A -> M N (result B)) :
  along (same_held (held := held)) c -> (forall e, opens base P (h e)) -> (forall a, opens base P (k a)) ->
  opens base P (try_bind c h k).
Proof.
  intros Hc Hh Hk n0 n Hd Hn. specialize (Hc n). unfold try_bind, bind.
  destruct (c n) as [[a|e] n1]; unfold same_held in Hc; simpl in Hc; [apply (Hk a n0)|apply (Hh e n0)]; (done || congruence).
Qed.

(** A step that one of the libraries' laws describes. *)
Lemma opens_one {A} (fd : A -> positive) (c : M N (result A)) :
  (forall n, let '(r, n') := c n in
     match r with Ok a => fd a ∉ held n /\ held n' = {[fd a]} ∪ held n | Err _ => held n' = held n end) ->
  opens ∅ (exactly (fun a => {[fd a]})) c.
Proof.
  intros Hc n0 n _ Hn. specialize (Hc n). replace (held n) with (held n0) in Hc by set_solver.
  destruct (c n) as [[a|e] n1]; simpl; [|set_solver]. exists {[fd a]}. split; [done|]. set_solver.
Qed.

(** Relabelling the error of a step. *)
Lemma opens_relabel {A} (P : A -> gset positive -> Prop) (c : M N (result A)) f :
  opens ∅ P c -> opens ∅ P (try_bind c (fun e => ret (Err (f e))) (fun a => ret (Ok a))).
Proof. intros Hc. eapply opens_try; [done|]. intros a F HP _. rewrite union_empty_r_L. by apply opens_ok. Qed.

End opens.

Create HintDb opens.
#[export] Hint Resolve opens_ok opens_err opens_relabel : opens.

(** *** The Workload API *)

Section workload.
Context {N : Type} `{!ServerLib N} {held : N -> gset positive} {client_fd : WorkloadClient -> positive}
  `{!WorkloadSpec N held client_fd}.
#[local] Existing Instance same_held_preorder.

Definition client_fds (a : option WorkloadClient) : gset positive :=
  match a with Some c => {[client_fd c]} | None => ∅ end.

(** A client with its two sources, closed again when a source fails. *)
Lemma sources_open {A} (P : A -> gset positive -> Prop) path f (g : error -> error) (h : error -> error)
    (k : WorkloadClient -> X509Source -> BundleSource -> A) :
  (forall c x b, P (k c x b) {[client_fd c]}) ->
  opens (held := held) ∅ P
    (let? c := workloadapi_New path else err => ret (Err (f err)) in
     let? x := workloadapi_NewX509Source c else err => (do! wc_Close c then ret (Err (g err))) in
     let? b := workloadapi_NewBundleSource c else err => (do! wc_Close c then ret (Err (h err))) in
     ret (Ok (k c x b))).
Proof.
  intros Hk.
  assert (Hclose : forall (c : WorkloadClient) (e : error), opens (held := held) ({[client_fd c]} ∪ ∅) P
    (do! wc_Close c then ret (Err e))).
  { intros c e n0 n Hd Hn. unfold bind. pose proof (wc_Close_spec c n) as Hc. destruct (wc_Close c n) as [r n1].
    simpl in *. rewrite Hc, Hn. set_solver. }
  eapply opens_try; [apply (opens_one client_fd), workloadapi_New_spec|]. intros c F -> _.
  apply opens_keep; [intros n; apply X509Source_held|auto|intros x].
  apply opens_keep; [intros n; apply BundleSource_held|auto|intros b].
  apply opens_ok. by rewrite union_empty_r_L.
Qed.

End workload.

Section held.
Context {N D : Type} `{!IdentityLib N} `{!HostFiles N} `{!P2pLib N D} `{!ServerLib N}
  {held : N -> gset positive} {host_fd : Host -> positive} {dht_fd : Dht -> positive}
  {db_fd : GormDB -> positive} {client_fd : WorkloadClient -> positive} {ds_fd : D -> positive}
  `{!P2pSpec N D held host_fd dht_fd} `{!WorkloadSpec N held client_fd} `{!ServerSpec N D held db_fd ds_fd}.
Notation opens := (opens (held := held)).
Notation client_fds := (client_fds (client_fd := client_fd)).

#[local] Existing Instance same_held_preorder.

#[local] Hint Extern 1 (along (same_held (held := held)) _) =>
  (intros ?; first [apply MkdirAll_held|apply orasoci_New_held|apply AutoMigrate_held
    |apply Listen_held]) : along.

(** *** The parts of the server *)

Definition store_fds (s : Store (N := N) (D := D)) : gset positive :=
  match s with CachedStore _ _ cacheDS => {[ds_fd cacheDS]} | _ => ∅ end.

Lemma badger_opens dir : dir <> "" ->
  opens ∅ (exactly (fun d : D => {[ds_fd d]})) (start_router.datastore_New [start_router.WithFsProvider dir]).
Proof.
  intros Hd. unfold start_router.datastore_New, start_router.WithFsProvider. simpl.
  intros n0 n _ Hn. unfold try_bind, bind, ret. pose proof (MkdirAll_held dir 493 n) as Hm.
  destruct (hf_MkdirAll dir 493 n) as [[[]|e] n1]; simpl in *; [|set_solver]. rewrite decide_False by done.
  pose proof (badger_New_spec dir n1) as Hb. destruct (badger_NewDatastore dir n1) as [[d|e] n2]; simpl; [|set_solver].
  rewrite Hm, Hn, union_empty_l_L in Hb. destruct Hb as [Hb ->]. exists {[ds_fd d]}. split; [done|]. set_solver.
Qed.

Lemma store_opens cfg : opens ∅ (exactly store_fds) (store_New cfg).
Proof.
  unfold store_New, localfs_New, oci_New. case_decide; [|case_decide; [|auto with opens]].
  - apply opens_relabel. apply opens_keep; [along|auto with opens|intros _].
    apply opens_keep; [along|auto with opens|intros _]. by apply opens_ok.
  - apply opens_relabel. case_decide.
    + apply opens_keep; [along|auto with opens|intros repo]. by apply opens_ok.
    + destruct (NewORASRepository _) as [repo|e]; [|auto with opens]. case_decide; [by apply opens_ok|].
      eapply opens_try; [by apply badger_opens|]. intros d F -> _. rewrite union_empty_r_L. by apply opens_ok.
Qed.

(** The host, the DHT and, with a directory for it, the datastore. *)
Definition routing_fds (cfg : RoutingConfig) (r : start_router.router (N := N) (D := D)) : gset positive :=
  let server := start_router.rr_server (start_router.r_remote r) in
  {[host_fd (p2p.srv_host server); dht_fd (p2p.srv_dht server)]}
  ∪ (if decide (Cfg_DatastoreDir cfg = "") then ∅ else {[ds_fd (start_router.rr_dstore (start_router.r_remote r))]}).

Lemma remote_opens dstore cfg : opens ∅ (fun remote F =>
    F = {[host_fd (p2p.srv_host (start_router.rr_server remote)); dht_fd (p2p.srv_dht (start_router.rr_server remote))]}
    /\ start_router.rr_dstore remote = dstore)
  (start_router.newRemote dstore cfg).
Proof.
  intros n0 n _ Hn. rewrite union_empty_l_L in Hn. pose proof (newRemote_held dstore cfg n) as H. rewrite Hn in H.
  destruct (start_router.newRemote dstore cfg n) as [[remote|e] n1]; simpl.
  - destruct H as (Hds & Hnew & Hh). eexists. split; [split; done|]. split; done.
  - unfold nothing_left in H. rewrite Hn in H. destruct H as [->|(d & _ & ->)]; set_solver.
Qed.

Lemma routing_opens cfg : opens ∅ (exactly (routing_fds cfg)) (start_router.New cfg).
Proof.
  unfold start_router.New.
  apply (opens_try _ (fun d F => F = if decide (Cfg_DatastoreDir cfg = "") then ∅ else {[ds_fd d]})).
  - case_decide; [by apply opens_ok|by apply badger_opens].
  - intros d F -> _. eapply opens_try; [apply remote_opens|]. intros remote F [-> Hd] _. apply opens_ok.
    unfold exactly, routing_fds. simpl. rewrite Hd. set_solver.
Qed.

Lemma database_opens cfg : opens ∅ (exactly (fun db => {[db_fd db]})) (database_New cfg).
Proof.
  unfold database_New, sqlite_New. case_decide; [|auto with opens]. apply opens_relabel.
  eapply opens_try; [apply (opens_one db_fd), gorm_Open_spec|]. intros db F -> _.
  do 3 (apply opens_keep; [along|auto with opens|intros _]). apply opens_ok. unfold exactly. set_solver.
Qed.

(** authz.New leaves no client behind when it fails. *)
Lemma authz_opens cfg : opens ∅ (exactly (fun a => client_fds (Some (as_client a)))) (authz_New cfg).
Proof.
  unfold authz_New. destruct (authz.Validate cfg); [|auto with opens].
  by apply sources_open.
Qed.

(** What the server holds and never gives back. *)
Definition kept (s : server.Server) : gset positive :=
  store_fds (server.store s) ∪ routing_fds (config.Routing (server.options s)) (server.routing s)
  ∪ {[db_fd (server.database s)]}.

Lemma server_opens cfg : opens ∅ (fun s F => server.options s = cfg
    /\ F = client_fds (as_client <$> server.authzService s) ∪ kept s /\ client_fds (as_client <$> server.authzService s) ## kept s)
  (server.New cfg).
Proof.
  unfold server.New. eapply opens_try; [apply store_opens|]. intros st F1 -> _.
  eapply opens_try; [apply routing_opens|]. intros r F2 -> H2.
  eapply opens_try; [apply database_opens|]. intros db F3 -> H3.
  destruct (sync_New cfg) as [ss|e]; [|auto with opens].
  apply (opens_try _ (exactly (fun a => client_fds (as_client <$> a)))).
  - destruct (authz.Enabled _); [|by apply opens_ok].
    eapply opens_try; [apply authz_opens|]. intros a F -> _. apply opens_ok. unfold exactly. set_solver.
  - intros a F -> Ha. apply opens_ok. unfold kept. simpl. split; [done|]. set_solver.
Qed.

(** *** Closing *)

Context {S : Type} `{!ServiceOps S} {running : S -> gset string} `{!ServiceSpec S running}.
Notation W := (SrvWorld N S).

(** What Close stops. *)
Definition services : gset string := {["sync"; "publication"; "grpc"]}.

Lemma Close_run s (w : W) : let w' := (server.Close s w).2 in
  held (sw_machine w') = held (sw_machine w) ∖ client_fds (as_client <$> server.authzService s)
  /\ running (sw_services w') = running (sw_services w) ∖ services.
Proof.
  destruct w as [n sv]. unfold server.Close, server.on_services, server.on_machine, bind, authz_Stop, ret. simpl.
  pose proof (sync_Stop_spec sv) as H1. destruct (sync_Stop sv) as [r1 sv1]. simpl in H1.
  assert (Ha : let w1 := ((match server.authzService s with
      | Some a => fun w => let '(_, w') := (let '(a0, n0) := wc_Close (as_client a) (sw_machine w) in
                                             (a0, Build_SrvWorld n0 (sw_services w))) in (tt, w')
      | None => fun w => (tt, w) end) (Build_SrvWorld n sv1)).2 in
    held (sw_machine w1) = held n ∖ client_fds (as_client <$> server.authzService s) /\ sw_services w1 = sv1).
  { destruct (server.authzService s) as [a|]; simpl; [|set_solver].
    pose proof (wc_Close_spec (as_client a) n) as Hc. by destruct (wc_Close (as_client a) n). }
  destruct (_ (Build_SrvWorld n sv1)) as [[] [n1 sv2]]. destruct Ha as [Hn Hs]. simpl in Hn, Hs. subst sv2. simpl.
  pose proof (publication_Stop_spec sv1) as H2. destruct (publication_Stop sv1) as [r2 sv2]. simpl in H2. simpl.
  pose proof (GracefulStop_spec sv2) as H3. destruct (grpc_GracefulStop sv2) as [[] sv3]. simpl in H3. simpl.
  split; [done|]. rewrite H3, H2, H1. unfold services. set_solver.
Qed.

Lemma server_start_run s (w : W) : let '(r, w') := server.start s w in
  held (sw_machine w') = held (sw_machine w) /\
  let address := config.ListenAddress (server.options s) in
  match (net_Listen address (sw_machine w)).1 with
  | Ok _ => r = Ok tt /\ running (sw_services w') = {["healthz"]} ∪ services ∪ running (sw_services w)
  | Err e => r = Err (Wrap ("failed to listen on " +:+ address +:+ ": ") e)
      /\ running (sw_services w') = {["sync"; "publication"]} ∪ running (sw_services w)
  end.
Proof.
  destruct w as [n sv]. unfold server.start, server.serve, server.on_services, server.on_machine, try_bind, bind, ret. simpl.
  destruct (sync_Start_spec sv) as (sv1 & -> & H1). simpl.
  destruct (publication_Start_spec sv1) as (sv2 & -> & H2). simpl.
  pose proof (Listen_held (config.ListenAddress (server.options s)) n) as Hl.
  destruct (net_Listen _ n) as [[l|e] n1]; simpl in *.
  - pose proof (healthz_Start_spec (server.healthz_address s) sv2) as H3. destruct (healthz_Start _ sv2) as [[] sv3].
    pose proof (SetIsReady_spec true sv3) as H4. destruct (healthz_SetIsReady true sv3) as [[] sv4].
    pose proof (grpc_Serve_spec sv4) as H5. destruct (grpc_Serve sv4) as [[] sv5]. simpl in *.
    split; [done|]. split; [done|]. rewrite H5, H4, H3, H2, H1. unfold services. set_solver.
  - split; [done|]. split; [done|]. rewrite H2, H1. set_solver.
Qed.


End held.

(** ** A machine with a server *)

Module DemoServer.
Import DemoP2p.

(** Databases and Workload API clients are numbered like hosts; the Workload API of
    "bad" gives no certificate, and nobody can listen on "taken". *)
Definition open_one (m : Machine) : result positive * Machine :=
  (Ok (fresh_fd (m_open m)), set_open ({[fresh_fd (m_open m)]} ∪ m_open m) m).

#[export] Instance server_lib : ServerLib Machine := {|
  Repo := string; GormDB := positive; WorkloadClient := positive; X509Source := unit; BundleSource := unit;
  Listener := unit;
  remote_NewRepository ref := Ok ref;
  orasoci_New path m := (Ok path, m);
  gorm_Open path m := if decide (path = "") then (Err (Plain "no path"), m) else open_one m;
  AutoMigrate _ _ m := (Ok tt, m);
  workloadapi_New _ m := open_one m;
  workloadapi_NewX509Source _ m := (Ok tt, m);
  workloadapi_NewBundleSource _ m := (Ok tt, m);
  wc_Close c m := (Ok tt, set_open (m_open m ∖ {[c]}) m);
  net_Listen addr m := (if decide (addr = "taken") then Err (Plain "address already in use") else Ok tt, m) |}.

Definition number : positive -> positive := fun d => d.

#[export] Instance workload_spec : WorkloadSpec Machine m_open number.
Proof. split; try done. intros. simpl. split; [apply fresh_fd_not_in|done]. Qed.

#[export] Instance server_lib_spec : ServerSpec Machine positive m_open number number.
Proof.
  split; try done; intros; simpl; repeat case_decide; try done; (split; [apply fresh_fd_not_in|done]).
Qed.

(** Services by their names. *)
Definition up (name : string) (s : gset string) : result unit * gset string := (Ok tt, {[name]} ∪ s).
Definition down (name : string) (s : gset string) : result unit * gset string := (Ok tt, s ∖ {[name]}).

#[export] Instance services_by_name : ServiceOps (gset string) := {|
  sync_Start := up "sync"; sync_Stop := down "sync";
  publication_Start := up "publication"; publication_Stop := down "publication";
  healthz_Start _ s := (tt, {["healthz"]} ∪ s); healthz_SetIsReady _ s := (tt, s);
  grpc_Serve s := (tt, {["grpc"]} ∪ s); grpc_GracefulStop s := (tt, s ∖ {["grpc"]}) |}.

#[export] Instance services_by_name_spec : ServiceSpec (gset string) (fun s => s).
Proof. split; try done; intros s; by eexists. Qed.

(** The default configuration, with a datastore and with authorization. *)
Definition server_cfg : config.Config := {|
  config.ListenAddress := "0.0.0.0:8888"; config.HealthCheckAddress := "0.0.0.0:8889";
  config.Authz := {| authz.Enabled := true; authz.SocketPath := "/run/spire.sock"; authz.TrustDomain := "org" |};
  config.Provider := "oci"; config.LocalFS_Dir := "/tmp";
  config.OCI := config.OCI DemoConfig.default_config;
  config.Routing := {| Cfg_ListenAddress := "/ip4/0.0.0.0/tcp/8999"; Cfg_BootstrapPeers := [];
    Cfg_KeyPath := "id.key"; Cfg_DatastoreDir := "/data"; Cfg_RefreshInterval := 0%Z |};
  config.Database := config.Database DemoConfig.default_config;
  config.Sync := config.Sync DemoConfig.default_config;
  config.Publication := config.Publication DemoConfig.default_config |}.

Definition before : SrvWorld Machine (gset string) := Build_SrvWorld machine ∅.


End DemoServer.
