(* ===== verification/ClientSetup.v ===== *)
(** * Setting up the client

    client/options.go and client.go (Module [dirclient]): the credentials of a client
    and its connection; cli/cmd/options.go and root.go (Module [root]): the
    configuration that the flags of dirctl change, the client that is made before a
    command and closed after it. *)

From S2P Require Import Prelude GoStrings Interfaces CoreRecord Validators LabelKey RoutingWorld RoutingRemote P2p P2pSpec NetworkKeys ServerConfig ServerStart.

Open Scope string_scope.
Open Scope list_scope.
Open Scope go_scope.

(** ** Clients *)

Section dial.
Context {N : Type} `{!ServerLib N}.

Inductive Credentials :=
  | insecure_NewCredentials
  | MTLSClientCredentials (x509Src : X509Source) (bundleSrc : BundleSource).
Inductive DialOption := WithTransportCredentials (c : Credentials).

End dial.

Class GrpcDial (N : Type) `{!ServerLib N} := {
  Conn : Type;
  grpc_NewConn : string -> list DialOption -> M N (result Conn);    (** grpc.NewClient *)
}.

Module dirclient.
Section dirclient.
Context {N : Type} `{!ServerLib N} `{!GrpcDial N} `{!Viper N} `{!Mapstructure}.

(** [config] is a pointer. *)
Record options := {
  config : option clientconfig.Config; authOpts : list DialOption; opt_authClient : option WorkloadClient }.
Definition no_options : options := {| config := None; authOpts := []; opt_authClient := None |}.
Definition Option : Type := options -> M N (result options).

Definition WithConfig (cfg : option clientconfig.Config) : Option := fun opts => ret (Ok {|
  config := cfg; authOpts := authOpts opts; opt_authClient := opt_authClient opts |}).

Definition WithEnvConfig : Option := fun opts =>
  let? cfg := clientconfig.LoadConfig else err => ret (Err err) in WithConfig (Some cfg) opts.

Definition authenticated (o : options) (client : WorkloadClient) (x : X509Source) (b : BundleSource) : options := {|
  config := config o; authOpts := authOpts o ++ [WithTransportCredentials (MTLSClientCredentials x b)];
  opt_authClient := Some client |}.

(** [withAuth] with the configuration that it finds. *)
Definition auth_with (cfg : clientconfig.Config) (o : options) : M N (result options) :=
  if decide (clientconfig.SpiffeSocketPath cfg = "") then
    ret (Ok {| config := config o; authOpts := authOpts o ++ [WithTransportCredentials insecure_NewCredentials];
               opt_authClient := opt_authClient o |})
  else
    let? client := workloadapi_New (clientconfig.SpiffeSocketPath cfg)
      else err => ret (Err (Wrap "failed to create SPIFFE client: " err)) in
    let? x509Src := workloadapi_NewX509Source client
      else err => (do! wc_Close client then ret (Err (Wrap "failed to create x509 source: " err))) in
    let? bundleSrc := workloadapi_NewBundleSource client
      else err => (do! wc_Close client then ret (Err (Wrap "failed to create bundle source: " err))) in
    ret (Ok (authenticated o client x509Src bundleSrc)).

(** The services of a client share its connection. *)
Record Client := { conn : Conn; cl_config : clientconfig.Config; authClient : option WorkloadClient }.

(** New once its options are loaded and name a configuration. *)
Definition connect (cfg : clientconfig.Config) (o : options) : M N (result Client) :=
  let? o := auth_with cfg o else err => ret (Err (Wrap "failed to load options: " err)) in
  let? client := grpc_NewConn (clientconfig.ServerAddress cfg) (authOpts o)
    else err => ret (Err (Wrap "failed to create gRPC client: " err)) in
  ret (Ok {| conn := client; cl_config := cfg; authClient := opt_authClient o |}).

(** [None]: no option gives a configuration, and its nil pointer is dereferenced. *)
Definition New (opts : list Option) : M N (option (result Client)) :=
  let! loaded := for_try (fun options opt => opt options) no_options opts in
  match loaded with
  | Err err => ret (Some (Err (Wrap "failed to load options: " err)))
  | Ok options =>
      match config options with
      | None => ret None
      | Some cfg => let! client := connect cfg options in ret (Some client)
      end
  end.

Definition Close (c : Client) : M N (result unit) :=
  match authClient c with Some client => wc_Close client | None => ret (Ok tt) end.

End dirclient.
End dirclient.

(** ** dirctl *)

(** The flags of the root command, if they are given. *)
Record RootFlags := { server_addr : option string; spiffe_socket_path : option string }.

Module root.
Section root.
Context {N : Type} `{!ServerLib N} `{!GrpcDial N} `{!Viper N} `{!Mapstructure}.

(** options.go: the environment, or else the defaults. *)
Definition clientConfig : M N clientconfig.Config :=
  let? cfg := clientconfig.LoadConfig else _err => ret clientconfig.DefaultConfig in ret cfg.

(** The variables of the flags are the fields of the configuration. *)
Definition set_flags (flags : RootFlags) (cfg : clientconfig.Config) : clientconfig.Config := {|
  clientconfig.ServerAddress := default (clientconfig.ServerAddress cfg) (server_addr flags);
  clientconfig.SpiffeSocketPath := default (clientconfig.SpiffeSocketPath cfg) (spiffe_socket_path flags) |}.

(** root.go: the client that a command gets. *)
Definition PersistentPreRunE (cfg : clientconfig.Config) : M N (option (result dirclient.Client)) :=
  let! c := dirclient.New [dirclient.WithConfig (Some cfg)] in
  ret (match c with Some (Err err) => Some (Err (Wrap "failed to create client: " err)) | c => c end).

(** A run of a command.  cobra runs what was given to OnFinalize when the command has
    ended, also when it failed; that closing failed is printed. *)
Definition Run (flags : RootFlags) (command : dirclient.Client -> M N (result unit)) : M N (option (result unit)) :=
  let! cfg := clientConfig in
  let! c := PersistentPreRunE (set_flags flags cfg) in
  match c with
  | None => ret None
  | Some (Err err) => ret (Some (Err (Wrap "failed to execute command: " err)))
  | Some (Ok c) =>
      let! r := command c in
      do! dirclient.Close c then
      ret (Some (match r with Err err => Err (Wrap "failed to execute command: " err) | Ok _ => Ok tt end))
  end.

End root.
End root.

(** ** What a client holds *)

(** Connections are held open too; a viper opens nothing. *)
Class DialSpec (N : Type) `{!ServerLib N} `{!GrpcDial N} `{!Viper N} (held : N -> gset positive)
    (conn_fd : Conn -> positive) : Prop := {
  NewConn_spec addr opts n : let '(r, n') := grpc_NewConn addr opts n in
    match r with Ok c => conn_fd c ∉ held n /\ held n' = {[conn_fd c]} ∪ held n | Err _ => held n' = held n end;
  viper_New_held d r n : held (viper_NewWithOptions d r n).2 = held n;
  EnvPrefix_held p n : held (viper_SetEnvPrefix p n).2 = held n;
  AllowEmpty_held b n : held (viper_AllowEmptyEnv b n).2 = held n;
  Automatic_held n : held (viper_AutomaticEnv n).2 = held n;
  BindEnv_held k n : held (viper_BindEnv k n).2 = held n;
  SetDefault_held k x n : held (viper_SetDefault k x n).2 = held n;
}.

Section held.
Context {N : Type} `{!ServerLib N} `{!GrpcDial N} `{!Viper N} `{!Mapstructure} {held : N -> gset positive}
  {client_fd : WorkloadClient -> positive} {conn_fd : Conn -> positive}
  `{!WorkloadSpec N held client_fd} `{!DialSpec N held conn_fd}.
#[local] Existing Instance same_held_preorder.
Notation opens := (opens (held := held)).

#[local] Hint Extern 1 (along (same_held (held := held)) _) =>
  (intros ?; first [apply viper_New_held|apply EnvPrefix_held|apply AllowEmpty_held|apply Automatic_held
    |apply BindEnv_held|apply SetDefault_held]) : along.

Lemma bind_setting_held s : along (same_held (held := held)) (config.bind_setting s).
Proof. unfold config.bind_setting. destruct s.2; along. Qed.

Lemma clientConfig_held : along (same_held (held := held)) root.clientConfig.
Proof.
  unfold root.clientConfig, clientconfig.LoadConfig. along; try apply bind_setting_held.
  all: by intros n.
Qed.

(** What a connected client holds. *)
Definition client_holds (cfg : clientconfig.Config) (c : dirclient.Client) (F : gset positive) : Prop :=
  F = {[conn_fd (dirclient.conn c)]} ∪ client_fds (client_fd := client_fd) (dirclient.authClient c)
  /\ {[conn_fd (dirclient.conn c)]} ## client_fds (client_fd := client_fd) (dirclient.authClient c)
  /\ dirclient.cl_config c = cfg
  /\ (dirclient.authClient c = None <-> clientconfig.SpiffeSocketPath cfg = "").

Lemma connect_opens cfg o : dirclient.opt_authClient o = None ->
  opens ∅ (client_holds cfg) (dirclient.connect cfg o).
Proof.
  intros Ho. unfold dirclient.connect.
  apply (opens_try _ (fun o F => F = client_fds (client_fd := client_fd) (dirclient.opt_authClient o)
    /\ (dirclient.opt_authClient o = None <-> clientconfig.SpiffeSocketPath cfg = ""))).
  - unfold dirclient.auth_with. case_decide as Hs.
    + apply opens_ok. simpl. by rewrite Ho.
    + apply sources_open. intros c x b. by split.
  - intros o' F [-> Ho'] _. rewrite union_empty_r_L.
    eapply opens_try; [apply (opens_one conn_fd), NewConn_spec|].
    intros c F -> Hd. apply opens_ok. by repeat split; try apply Ho'.
Qed.

(** The client that dirctl makes. *)
Lemma New_connects cfg n : dirclient.New [dirclient.WithConfig (Some cfg)] n
  = let '(r, n') := dirclient.connect cfg
      {| dirclient.config := Some cfg; dirclient.authOpts := []; dirclient.opt_authClient := None |} n in (Some r, n').
Proof.
  unfold dirclient.New, bind. simpl. unfold dirclient.WithConfig, try_bind, bind, ret. simpl.
  by destruct (dirclient.connect _ _ n).
Qed.

Lemma Close_held_client c n : held (dirclient.Close c n).2
  = held n ∖ client_fds (client_fd := client_fd) (dirclient.authClient c).
Proof. unfold dirclient.Close. destruct (dirclient.authClient c) as [a|]; simpl; [apply wc_Close_spec|set_solver]. Qed.


End held.

(** ** Where dirctl connects to *)

Section address.
Context {N : Type} `{!ServerLib N} `{!GrpcDial N} `{!Viper N} `{!Mapstructure} {state : N -> ViperState}
  `{!ViperSpec N state}.
Context (text : forall s, decode_string (VString s) = Ok s).

(** Where dirctl connects to.  The address of the server and the socket of the Workload
    API are those of the flags, or else of the environment variables, also when they are
    set to nothing, or else the defaults. *)
Theorem dirctl_configuration flags n :
  let env name := vs_env (state n) !! name in
  root.set_flags flags (root.clientConfig n).1 = {|
    clientconfig.ServerAddress :=
      default (default "0.0.0.0:8888" (env "DIRECTORY_CLIENT_SERVER_ADDRESS")) (server_addr flags);
    clientconfig.SpiffeSocketPath :=
      default (default "" (env "DIRECTORY_CLIENT_SPIFFE_SOCKET_PATH")) (spiffe_socket_path flags) |}.
Proof.
  pose proof (client_config_resolves n) as Hc. unfold root.clientConfig, try_bind, bind.
  destruct (clientconfig.LoadConfig n) as [r n1]. simpl in Hc. subst r.
  unfold clientconfig.Unmarshal, text_field, field, resolve. simpl. rewrite !lookup_empty.
  change (env_name _ _ "server_address") with "DIRECTORY_CLIENT_SERVER_ADDRESS".
  change (env_name _ _ "spiffe_socket_path") with "DIRECTORY_CLIENT_SPIFFE_SOCKET_PATH".
  destruct (_ !! "DIRECTORY_CLIENT_SERVER_ADDRESS") as [a|], (_ !! "DIRECTORY_CLIENT_SPIFFE_SOCKET_PATH") as [b|];
    simpl; by rewrite !text.
Qed.

End address.

(** ** A machine with dirctl *)

Module DemoClient.
Import DemoServer DemoConfig.

(** The viper of the process, and the numbers that are open. *)
Definition Process : Type := ViperState * gset positive.
Definition on_viper {A} (c : M ViperState A) : M Process A := fun w =>
  let '(a, v) := c w.1 in (a, (v, w.2)).
Definition fresh (w : Process) : result positive * Process :=
  (Ok (DemoP2p.fresh_fd w.2), (w.1, {[DemoP2p.fresh_fd w.2]} ∪ w.2)).

#[export] Instance process_viper : Viper Process := {|
  viper_NewWithOptions d r := on_viper (viper_NewWithOptions d r);
  viper_SetConfigName n := on_viper (viper_SetConfigName n);
  viper_SetConfigType n := on_viper (viper_SetConfigType n);
  viper_AddConfigPath p := on_viper (viper_AddConfigPath p);
  viper_SetEnvPrefix p := on_viper (viper_SetEnvPrefix p);
  viper_AllowEmptyEnv b := on_viper (viper_AllowEmptyEnv b);
  viper_AutomaticEnv := on_viper viper_AutomaticEnv;
  viper_ReadInConfig := on_viper viper_ReadInConfig;
  ConfigFileNotFoundError := ConfigFileNotFoundError (V := ViperState);
  viper_BindEnv k := on_viper (viper_BindEnv k);
  viper_SetDefault k x := on_viper (viper_SetDefault k x);
  viper_AllSettings w := viper_AllSettings w.1 |}.

#[export] Instance process_viper_spec : ViperSpec Process fst.
Proof.
  split; try done. intros [v o]. pose proof (ReadInConfig_spec (V := ViperState) (state := fun s => s) v) as Hr.
  unfold viper_ReadInConfig, process_viper, on_viper. cbn [fst] in *.
  by destruct (viper_ReadInConfig v) as [r v'].
Qed.

#[export] Instance process_lib : ServerLib Process := {|
  Repo := string; GormDB := positive; WorkloadClient := positive; X509Source := unit; BundleSource := unit;
  Listener := unit;
  remote_NewRepository ref := Ok ref; orasoci_New path w := (Ok path, w); gorm_Open _ := fresh;
  AutoMigrate _ _ w := (Ok tt, w); workloadapi_New _ := fresh;
  workloadapi_NewX509Source _ w := (Ok tt, w); workloadapi_NewBundleSource _ w := (Ok tt, w);
  wc_Close c w := (Ok tt, (w.1, w.2 ∖ {[c]})); net_Listen _ w := (Ok tt, w) |}.

#[export] Instance process_workload : WorkloadSpec Process snd number.
Proof. split; try done. intros. simpl. split; [apply DemoP2p.fresh_fd_not_in|done]. Qed.

#[export] Instance process_dial : GrpcDial Process := {| Conn := positive; grpc_NewConn _ _ := fresh |}.

#[export] Instance process_dial_spec : DialSpec Process snd number.
Proof. split; try done. intros. simpl. split; [apply DemoP2p.fresh_fd_not_in|done]. Qed.

(** A process with a socket in its environment and an address among its flags. *)
Definition process : Process :=
  (DemoConfig.process {[ "DIRECTORY_CLIENT_SPIFFE_SOCKET_PATH" := "/run/spire.sock";
     "DIRECTORY_CLIENT_SERVER_ADDRESS" := "env:1" ]} None, {[3%positive]}).
Definition flags : RootFlags := {| server_addr := Some "flag:2"; spiffe_socket_path := None |}.

Lemma dirctl_configuration_witness :
  root.set_flags flags (root.clientConfig process).1
  = {| clientconfig.ServerAddress := "flag:2"; clientconfig.SpiffeSocketPath := "/run/spire.sock" |}.
Proof. exact (dirctl_configuration (state := fst) (fun s => eq_refl) flags process). Defined.


End DemoClient.
