(* ===== verification/HubSession.v ===== *)
(** * Sessions of the hub client

    hub/sessionstore: the sessions of the Agent Hub client, kept by server address
    in one JSON file (Module [sessionstore]).  The file system and the JSON codec
    are outside the repository. *)

From S2P Require Import Prelude GoStrings GoUrl Interfaces.

Open Scope string_scope.
Open Scope list_scope.
Open Scope go_scope.

(** ** Sessions (sessionstore/type.go)

    A Go map that can be nil is an [option] of a map, and so is a pointer. *)

Record Tokens := { IDToken : string; RefreshToken : string; AccessToken : string }.

Record AuthConfig := {
  ClientID : string; IdpProductID : string; IdpFrontendAddress : string;
  IdpBackendAddress : string; IdpIssuerAddress : string; HubBackendAddress : string }.

Record HubSession := {
  Session_Tokens : option (gmap string (option Tokens)); CurrentTenant : string;
  User : string; Session_AuthConfig : option AuthConfig }.

Record HubSessions := { Sessions : option (gmap string (option HubSession)) }.

(** Looking up in a map that may be nil. *)
Definition map_at {A} (m : option (gmap string A)) (k : string) : option A := m ≫= lookup k.

(** ** Errors (sessionstore/errors.go)

    Each wraps one of the named errors of the package; the texts that follow it
    are left out, except the key. *)
Inductive SessionError :=
  | ErrCouldNotOpenFile (err : error)
  | ErrCouldNotWriteFile (err : error)
  | ErrMalformedSecret (err : error)
  | ErrMalformedSecretFile (err : error)
  | ErrSessionNotFound (sessionKey : string).

(** ** Files (os, encoding/json)

    [os_OpenFile] opens a file for reading and writing, [os_OpenOrCreate] has
    [O_CREATE] too, and [os_Create] truncates.  A file is read by a JSON decoder,
    which reads one value and reports [io.EOF] when there is none. *)
Definition ErrNotExist : string := "file does not exist".
Definition EOF : string := "EOF".

Class SessionFiles (F : Type) := {
  os_OpenFile : string -> F -> result unit;
  os_OpenOrCreate : string -> Z -> M F (result unit);
  os_MkdirAll : string -> M F (result unit);
  os_Create : string -> M F (result unit);
  file_Decode : string -> F -> result (option HubSessions);
  file_Truncate : string -> M F unit;
  file_Encode : string -> HubSessions -> M F (result unit);
}.

(** [filepath.Dir] on a rooted path. *)
Definition filepath_Dir (path : string) : string :=
  match CutLast "/" path with Some (d, _) => path_Clean (d +:+ "/") | None => "." end.

Definition ModeCurrentUserReadWrite : Z := 384.   (** [0o600] *)

Module sessionstore.
Section sessionstore.
Context {F : Type} `{!SessionFiles F}.
Context (path : string).

(** ** The store (sessionstore/file.go) *)

(** hub/utils/file *)
Definition CreateAll : M F (result unit) :=
  let dir := filepath_Dir path in
  let? _u := os_MkdirAll dir else err => ret (Err (Wrap "error creating directory: " err)) in
  let? _v := os_Create path else err => ret (Err (Wrap "error creating file: " err)) in
  ret (Ok tt).

(** Seek, truncate (both unchecked), encode. *)
Definition rewriteJSONFilePretty (model : HubSessions) : M F (option SessionError) :=
  do! file_Truncate path then
  let! r := file_Encode path model in
  ret (match r with Ok _ => None | Err err => Some (ErrCouldNotWriteFile err) end).

(** The sessions, which are nil for a file that holds null, and whether the file
    is open. *)
Definition getSessionsAndFile (f : F) : SessionError + (option HubSessions * bool) :=
  match os_OpenFile path f with
  | Err err => if errors_Is err ErrNotExist then inr (Some {| Sessions := None |}, false)
               else inl (ErrCouldNotOpenFile err)
  | Ok _ =>
      match file_Decode path f with
      | Err err => inl (ErrMalformedSecretFile err)
      | Ok secrets => inr (secrets, true)
      end
  end.

(** The outer [None] is the panic on nil sessions. *)
Definition GetHubSession (sessionKey : string) (f : F) : option (SessionError + HubSession) :=
  match getSessionsAndFile f with
  | inl err => Some (inl err)
  | inr (None, _) => None
  | inr (Some secrets, _) => Some
      match map_at (Sessions secrets) sessionKey with
      | Some (Some secret) => inr secret
      | _ => inl (ErrSessionNotFound sessionKey)
      end
  end.

Definition SaveHubSession (sessionKey : string) (session : HubSession) : M F (option SessionError) :=
  let! opened := os_OpenOrCreate path ModeCurrentUserReadWrite in
  let! file :=
    match opened with
    | Ok _ => ret (Ok tt)
    | Err err => if errors_Is err ErrNotExist then CreateAll else ret (Err err)
    end in
  match file with
  | Err err => ret (Some (ErrCouldNotOpenFile err))
  | Ok _ => fun f =>
      match file_Decode path f with
      | Err err =>
          if errors_Is err EOF then
            rewriteJSONFilePretty {| Sessions := Some {[ sessionKey := Some session ]} |} f
          else (Some (ErrMalformedSecret err), f)
      | Ok sessions =>
          (** decoding null leaves the empty value as it is *)
          let m := default ∅ (sessions ≫= Sessions) in
          rewriteJSONFilePretty {| Sessions := Some (<[sessionKey := Some session]> m) |} f
      end
  end.

Definition RemoveSession (sessionKey : string) : M F (option SessionError) := fun f =>
  match getSessionsAndFile f with
  | inl err => (Some err, f)
  | inr (Some sessions, true) =>
      rewriteJSONFilePretty {| Sessions := delete sessionKey <$> Sessions sessions |} f
  | inr _ => (None, f)
  end.

End sessionstore.
End sessionstore.

(** ** The store implements a map

    A file system that is up: files with their modes, and directories. *)

Record File := { Mode : Z; Contents : string }.

Section store.
Context {F : Type} `{!SessionFiles F}.
Context (files : F -> gmap string File) (dirs : F -> gset string)
  (decode : string -> result (option HubSessions)) (encode : HubSessions -> string).

Class SessionFilesSpec : Prop := {
  OpenFile_spec p f : match files f !! p with
    | Some _ => os_OpenFile p f = Ok tt
    | None => exists err, os_OpenFile p f = Err err /\ errors_Is err ErrNotExist = true
    end;
  OpenOrCreate_spec p mode f : let '(r, f') := os_OpenOrCreate p mode f in
    match files f !! p with
    | Some _ => r = Ok tt /\ f' = f
    | None =>
        if decide (filepath_Dir p ∈ dirs f) then
          r = Ok tt /\ dirs f' = dirs f /\ files f' = <[p := {| Mode := mode; Contents := "" |}]> (files f)
        else f' = f /\ exists err, r = Err err /\ errors_Is err ErrNotExist = true
    end;
  MkdirAll_spec d f : let '(r, f') := os_MkdirAll d f in
    r = Ok tt /\ d ∈ dirs f' /\ files f' = files f;
  Create_spec p f : filepath_Dir p ∈ dirs f -> let '(r, f') := os_Create p f in
    r = Ok tt /\ dirs f' = dirs f /\ files f' = <[p := {| Mode := 438; Contents := "" |}]> (files f);
  Decode_spec p f file : files f !! p = Some file -> file_Decode p f = decode (Contents file);
  Truncate_spec p f file : files f !! p = Some file ->
    files (file_Truncate p f).2 = <[p := {| Mode := Mode file; Contents := "" |}]> (files f);
  Encode_spec p m f file : files f !! p = Some file -> Contents file = "" ->
    let '(r, f') := file_Encode p m f in
    r = Ok tt /\ files f' = <[p := {| Mode := Mode file; Contents := encode m |}]> (files f);
  decode_empty : exists err, decode "" = Err err /\ errors_Is err EOF = true;
  decode_encode m : decode (encode m) = Ok (Some m);
}.

Context `{!SessionFilesSpec} (path : string).

(** The map a file holds: the sessions that are not null. *)
Definition sessions_in (m : HubSessions) : gmap string HubSession := omap id (default ∅ (Sessions m)).

Definition store_rep (st : gmap string HubSession) (f : F) : Prop :=
  match files f !! path with
  | None => st = ∅
  | Some file => exists m, decode (Contents file) = Ok (Some m) /\ st = sessions_in m
  end.

Lemma rewrite_run m f file : files f !! path = Some file ->
  exists f', sessionstore.rewriteJSONFilePretty path m f = (None, f')
    /\ files f' !! path = Some {| Mode := Mode file; Contents := encode m |}.
Proof.
  intros Hf. unfold sessionstore.rewriteJSONFilePretty, bind. pose proof (Truncate_spec path f file Hf) as Ht.
  destruct (file_Truncate path f) as [u f1]. simpl in Ht.
  pose proof (Encode_spec path m f1 {| Mode := Mode file; Contents := "" |}) as He.
  destruct (file_Encode path m f1) as [r f2]. destruct He as [-> He]; [by rewrite Ht, lookup_insert_eq|done|].
  eexists. split; [done|]. by rewrite He, lookup_insert_eq.
Qed.

Lemma rewrite_rep st m f file : files f !! path = Some file -> st = sessions_in m ->
  exists f', sessionstore.rewriteJSONFilePretty path m f = (None, f') /\ store_rep st f'.
Proof.
  intros Hf HS. destruct (rewrite_run m f file Hf) as (f' & Hrun & Hf'). exists f'. split; [done|].
  unfold store_rep. rewrite Hf'. exists m. split; [apply decode_encode|done].
Qed.

Lemma sessions_insert k s m : sessions_in {| Sessions := Some (<[k := Some s]> m) |} = <[k := s]> (omap id m).
Proof. unfold sessions_in. simpl. by rewrite (omap_insert_Some _ _ _ _ s). Qed.

(** Opening for saving: the file is there, or is made and empty. *)
Lemma open_save f : exists f',
  (let! opened := os_OpenOrCreate path ModeCurrentUserReadWrite in
   match opened with
   | Ok _ => ret (Ok tt)
   | Err err => if errors_Is err ErrNotExist then sessionstore.CreateAll path else ret (Err err)
   end) f = (Ok tt, f')
  /\ match files f !! path with
     | Some file => f' = f
     | None => exists mode, files f' !! path = Some {| Mode := mode; Contents := "" |}
         /\ mode = if decide (filepath_Dir path ∈ dirs f) then ModeCurrentUserReadWrite else 438%Z
     end.
Proof.
  unfold bind. pose proof (OpenOrCreate_spec path ModeCurrentUserReadWrite f) as Ho.
  destruct (os_OpenOrCreate path ModeCurrentUserReadWrite f) as [r f1].
  destruct (files f !! path) as [file|] eqn:Hf; [destruct Ho as [-> ->]; by exists f|].
  destruct (decide (filepath_Dir path ∈ dirs f)) as [Hd|Hd].
  - destruct Ho as (-> & _ & Hfs). exists f1. split; [done|]. rewrite Hfs, lookup_insert_eq. eauto.
  - destruct Ho as (-> & err & -> & Herr). rewrite Herr. unfold sessionstore.CreateAll, try_bind, bind.
    pose proof (MkdirAll_spec (filepath_Dir path) f) as Hm.
    destruct (os_MkdirAll (filepath_Dir path) f) as [r f2]. destruct Hm as (-> & Hd2 & Hf2).
    pose proof (Create_spec path f2 Hd2) as Hc. destruct (os_Create path f2) as [r f3].
    destruct Hc as (-> & _ & Hf3). exists f3. split; [done|]. rewrite Hf3, lookup_insert_eq. eauto.
Qed.

Lemma SaveHubSession_run st k s f : store_rep st f ->
  exists f', sessionstore.SaveHubSession path k s f = (None, f') /\ store_rep (<[k := s]> st) f'.
Proof.
  intros HS. unfold sessionstore.SaveHubSession. destruct (open_save f) as (f1 & Hopen & Hf1).
  unfold bind in Hopen |- *. destruct (os_OpenOrCreate path ModeCurrentUserReadWrite f) as [r f0].
  rewrite Hopen. unfold store_rep in HS.
  destruct (files f !! path) as [file|] eqn:Hf.
  - subst f1. destruct HS as (m & Hd & ->). rewrite (Decode_spec path f file Hf), Hd. simpl.
    apply (rewrite_rep _ _ _ file Hf). unfold sessions_in at 1. simpl. by rewrite sessions_insert.
  - destruct Hf1 as (mode & Hfs & _). rewrite (Decode_spec path f1 _ Hfs). simpl.
    destruct decode_empty as (err & -> & ->). subst st.
    apply (rewrite_rep _ _ _ _ Hfs). rewrite <- insert_empty, sessions_insert. by rewrite omap_empty.
Qed.

Lemma Get_run st k f : store_rep st f ->
  sessionstore.GetHubSession path k f
  = Some (match st !! k with Some s => inr s | None => inl (ErrSessionNotFound k) end).
Proof.
  intros HS. unfold sessionstore.GetHubSession, sessionstore.getSessionsAndFile. unfold store_rep in HS.
  pose proof (OpenFile_spec path f) as Ho. destruct (files f !! path) as [file|] eqn:Hf.
  - rewrite Ho. destruct HS as (m & Hd & ->). rewrite (Decode_spec path f file Hf), Hd. f_equal.
    unfold sessions_in, map_at. destruct (Sessions m) as [sm|]; simpl; [|by rewrite omap_empty, lookup_empty].
    rewrite lookup_omap. by destruct (sm !! k) as [[s|]|].
  - destruct Ho as (err & -> & ->). subst st. by rewrite lookup_empty.
Qed.

Lemma Remove_run st k f : store_rep st f ->
  exists f', sessionstore.RemoveSession path k f = (None, f') /\ store_rep (delete k st) f'.
Proof.
  intros HS. unfold sessionstore.RemoveSession, sessionstore.getSessionsAndFile.
  pose proof (OpenFile_spec path f) as Ho. unfold store_rep in HS.
  destruct (files f !! path) as [file|] eqn:Hf.
  - rewrite Ho. destruct HS as (m & Hd & ->). rewrite (Decode_spec path f file Hf), Hd.
    apply (rewrite_rep _ _ _ file Hf). unfold sessions_in. simpl.
    destruct (Sessions m) as [sm|]; simpl; [by rewrite omap_delete|by rewrite omap_empty, delete_empty].
  - destruct Ho as (err & -> & ->). exists f. split; [done|]. unfold store_rep. rewrite Hf. subst st. apply delete_empty.
Qed.

(** ** Sequences of calls *)

Inductive session_call :=
  | CallGet (k : string)
  | CallSave (k : string) (s : HubSession)
  | CallRemove (k : string).

(** What a call answers: nothing for a success without a value. *)
Definition session_answer : Type := option (option (SessionError + HubSession)).

Definition run_session (x : session_call) : M F session_answer :=
  match x with
  | CallGet k => fun f => (Some (sessionstore.GetHubSession path k f), f)
  | CallSave k s =>
      let! err := sessionstore.SaveHubSession path k s in ret ((fun e => Some (inl e)) <$> err)
  | CallRemove k =>
      let! err := sessionstore.RemoveSession path k in ret ((fun e => Some (inl e)) <$> err)
  end.

Definition spec_session (x : session_call) (st : gmap string HubSession)
  : session_answer * gmap string HubSession :=
  match x with
  | CallGet k => (Some (Some match st !! k with Some s => inr s | None => inl (ErrSessionNotFound k) end), st)
  | CallSave k s => (None, <[k := s]> st)
  | CallRemove k => (None, delete k st)
  end.

Fixpoint run_sessions (xs : list session_call) (f : F) : list session_answer * F :=
  match xs with
  | [] => ([], f)
  | x :: xs => let '(a, f) := run_session x f in let '(rs, f) := run_sessions xs f in (a :: rs, f)
  end.

Fixpoint spec_sessions (xs : list session_call) (st : gmap string HubSession)
  : list session_answer * gmap string HubSession :=
  match xs with
  | [] => ([], st)
  | x :: xs => let '(a, st) := spec_session x st in let '(rs, st) := spec_sessions xs st in (a :: rs, st)
  end.


(** The first save on a machine without the directory makes the file readable by
    everybody the umask allows, where the store asks for [0o600]. *)
Lemma first_save_mode k s f : files f !! path = None -> filepath_Dir path ∉ dirs f ->
  exists f' file, sessionstore.SaveHubSession path k s f = (None, f')
    /\ files f' !! path = Some file /\ Mode file = 438%Z.
Proof.
  intros Hf Hd. unfold sessionstore.SaveHubSession. destruct (open_save f) as (f1 & Hopen & Hf1).
  unfold bind in Hopen |- *. destruct (os_OpenOrCreate path ModeCurrentUserReadWrite f) as [r f0].
  rewrite Hopen. rewrite Hf in Hf1. destruct Hf1 as (mode & Hfs & Hmode).
  rewrite decide_False in Hmode by done. rewrite (Decode_spec path f1 _ Hfs). simpl.
  destruct decode_empty as (err & -> & ->).
  destruct (rewrite_run {| Sessions := Some {[ k := Some s ]} |} f1 _ Hfs) as (f' & Hrun & Hf').
  exists f'. eexists. split; [exact Hrun|]. split; [exact Hf'|]. by subst.
Qed.

End store.

(** ** An example *)

Module DemoSessions.

#[export] Instance Tokens_eq_dec : EqDecision Tokens.
Proof. solve_decision. Defined.
#[export] Instance Tokens_countable : Countable Tokens.
Proof.
  refine (inj_countable' (fun t => (IDToken t, RefreshToken t, AccessToken t))
    (fun '(i, r, a) => {| IDToken := i; RefreshToken := r; AccessToken := a |}) _). by intros [].
Defined.
#[export] Instance AuthConfig_eq_dec : EqDecision AuthConfig.
Proof. solve_decision. Defined.
#[export] Instance AuthConfig_countable : Countable AuthConfig.
Proof.
  refine (inj_countable' (fun c => (ClientID c, IdpProductID c, IdpFrontendAddress c, IdpBackendAddress c,
      IdpIssuerAddress c, HubBackendAddress c))
    (fun '(a, b, c, d, e, f) => {| ClientID := a; IdpProductID := b; IdpFrontendAddress := c;
      IdpBackendAddress := d; IdpIssuerAddress := e; HubBackendAddress := f |}) _). by intros [].
Defined.
#[export] Instance HubSession_eq_dec : EqDecision HubSession.
Proof. solve_decision. Defined.
#[export] Instance HubSession_countable : Countable HubSession.
Proof.
  refine (inj_countable' (fun s => (Session_Tokens s, CurrentTenant s, User s, Session_AuthConfig s))
    (fun '(t, c, u, a) => {| Session_Tokens := t; CurrentTenant := c; User := u; Session_AuthConfig := a |}) _).
  by intros [].
Defined.
#[export] Instance HubSessions_eq_dec : EqDecision HubSessions.
Proof. solve_decision. Defined.
#[export] Instance HubSessions_countable : Countable HubSessions.
Proof. refine (inj_countable' Sessions Build_HubSessions _). by intros []. Defined.

(** A disk. *)
Record Disk := { d_files : gmap string File; d_dirs : gset string }.

Definition encode (m : HubSessions) : string :=
  "{" +:+ match @json_Marshal _ (BinaryCodec.codec HubSessions) m with Ok s => s | Err _ => "" end.
Definition decode (s : string) : result (option HubSessions) :=
  match s with
  | EmptyString => Err (Sentinel EOF)
  | String _ s => result_map Some (@json_Unmarshal _ (BinaryCodec.codec HubSessions) s)
  end.

Lemma decode_encoded m : decode (encode m) = Ok (Some m).
Proof.
  unfold decode, encode.
  destruct (@json_roundtrip _ _ _ (BinaryCodec.codec_spec HubSessions) m I) as (b & -> & Hu).
  change (result_map Some (@json_Unmarshal _ (BinaryCodec.codec HubSessions) b) = Ok (Some m)). by rewrite Hu.
Qed.

Definition set_file (p : string) (file : File) (d : Disk) : Disk :=
  {| d_files := <[p := file]> (d_files d); d_dirs := d_dirs d |}.

#[export] Instance disk : SessionFiles Disk := {|
  os_OpenFile p d := match d_files d !! p with Some _ => Ok tt | None => Err (Sentinel ErrNotExist) end;
  os_OpenOrCreate p mode d := match d_files d !! p with
    | Some _ => (Ok tt, d)
    | None => if decide (filepath_Dir p ∈ d_dirs d)
              then (Ok tt, set_file p {| Mode := mode; Contents := "" |} d)
              else (Err (Sentinel ErrNotExist), d)
    end;
  os_MkdirAll dir d := (Ok tt, {| d_files := d_files d; d_dirs := {[dir]} ∪ d_dirs d |});
  os_Create p d := (Ok tt, set_file p {| Mode := 438; Contents := "" |} d);
  file_Decode p d := match d_files d !! p with Some file => decode (Contents file) | None => Err (Plain "closed") end;
  file_Truncate p d := (tt, match d_files d !! p with
    | Some file => set_file p {| Mode := Mode file; Contents := "" |} d | None => d end);
  file_Encode p m d := match d_files d !! p with
    | Some file => (Ok tt, set_file p {| Mode := Mode file; Contents := Contents file +:+ encode m |} d)
    | None => (Err (Plain "closed"), d) end |}.

#[export] Instance disk_spec : SessionFilesSpec d_files d_dirs decode encode.
Proof.
  split; simpl.
  - intros p d. destruct (d_files d !! p); [done|]. by eexists.
  - intros p mode d. destruct (d_files d !! p); [done|]. case_decide; [done|]. split; [done|]. by eexists.
  - intros dir d. split; [done|]. split; [set_solver|done].
  - done.
  - intros p d file Hf. by rewrite Hf.
  - intros p d file Hf. by rewrite Hf.
  - intros p m d file Hf Hc. rewrite Hf. split; [done|]. simpl. by rewrite Hc.
  - by eexists.
  - apply decode_encoded.
Qed.

Definition new_disk : Disk := {| d_files := ∅; d_dirs := ∅ |}.
Definition session (user : string) : HubSession := {|
  Session_Tokens := None; CurrentTenant := "org"; User := user; Session_AuthConfig := None |}.
Definition calls : list session_call :=
  [CallGet "hub"; CallSave "hub" (session "ann"); CallSave "test" (session "bob"); CallGet "hub"; CallRemove "test";
   CallGet "test"].


End DemoSessions.
