(* ===== verification/HubAgent.v ===== *)
(** * Agents on the hub

    hub/client/hub/client.go: an agent document is uploaded to the Agent Hub in
    chunks over a stream, and downloaded by putting chunks together.
    hub/service/agent.go: names of agents and repositories, the authorization of
    a call, and both directions with the session of the user.  gRPC, the digest
    and the JSON package are outside the repository. *)

From S2P Require Import Prelude GoStrings GoUrl Interfaces HubSession.
From stdpp Require Import pretty.

Open Scope string_scope.
Open Scope list_scope.
Open Scope go_scope.

(** ** Messages (hub/api/v1alpha1, core/v1alpha1) *)

Record ObjectRef := {
  Obj_Digest : string; Obj_Type : string; Obj_Size : Z; Obj_Annotations : gmap string string }.
Record AgentObject := { Data : string; Obj_Ref : option ObjectRef }.

(** What a repository is named by; [ParseRepoTagID] gives one of the two. *)
Inductive Repository :=
  | PushAgentRequest_RepositoryId (id : string)
  | PushAgentRequest_RepositoryName (name : string).

Record PushAgentRequest := { Push_Repository : Repository; Push_Model : AgentObject }.
Record PushAgentResponse := { Response_Digest : string }.

Record RepoVersionId := { RepositoryName : string; RepoVersion : string }.
Inductive AgentIdentifier :=
  | AgentIdentifier_RepoVersionId (id : RepoVersionId)
  | AgentIdentifier_Digest (digest : string).

(** ** Libraries *)

(** The metadata of an outgoing call: the value of its authorization. *)
Definition Outgoing : Type := option string.

Class HubService (N : Type) := {
  PushStream : Type; PullStream : Type;
  grpc_PushAgent : Outgoing -> M N (result PushStream);
  push_Send : PushStream -> PushAgentRequest -> M N (result unit);
  push_CloseAndRecv : PushStream -> M N (result PushAgentResponse);
  grpc_PullAgent : Outgoing -> option AgentIdentifier -> M N (result PullStream);
  pull_Recv : PullStream -> M N (result AgentObject);
}.

Class AgentLib := {
  digest_FromBytes : string -> string;                                    (** go-digest *)
  agent_Annotations : string -> result (gmap string string);              (** parsing an agent document *)
  uuid_Parse : string -> bool;                                            (** google/uuid *)
  json_Object : Type;
  json_UnmarshalObject : string -> result json_Object;                    (** encoding/json *)
  json_MarshalIndent : json_Object -> result string;
}.

Definition chunkSize : nat := 4096.

(** ** Reading into a buffer *)

Fixpoint take_bytes (n : nat) (s : string) : string :=
  match n, s with
  | S n, String c s => String c (take_bytes n s)
  | _, _ => ""
  end.

Fixpoint drop_bytes (n : nat) (s : string) : string :=
  match n, s with
  | S n, String _ s => drop_bytes n s
  | _, _ => s
  end.

(** [bytes.Reader.Read] into a buffer of [chunkSize] bytes: what is read and what
    is unread; nothing is read at the end only. *)
Definition reader_Read (unread : string) : string * string := (take_bytes chunkSize unread, drop_bytes chunkSize unread).

Module hub.
Section hub.
Context {N : Type} `{!HubService N} `{!AgentLib}.

(** ** The client (client/hub/client.go) *)

Definition agent_ref (agent : string) (annotations : gmap string string) : ObjectRef := {|
  Obj_Digest := digest_FromBytes agent; Obj_Type := "OBJECT_TYPE_AGENT";
  Obj_Size := Z.of_nat (String.length agent); Obj_Annotations := annotations |}.

(** The loop, for at most [fuel] rounds.  A [Send] that fails with [io.EOF] is
    passed over: the server has closed the stream, and the answer says why. *)
Fixpoint push_loop (fuel : nat) (stream : PushStream) (repository : Repository) (ref : ObjectRef)
    (unread : string) : M N (option (result unit)) :=
  match fuel with
  | O => ret None
  | S fuel =>
      let '(buf, unread) := reader_Read unread in
      if decide (buf = "") then ret (Some (Ok tt))
      else
        let! sent := push_Send stream {|
            Push_Repository := repository; Push_Model := {| Data := buf; Obj_Ref := Some ref |} |} in
        match sent with
        | Err err =>
            if errors_Is err EOF then push_loop fuel stream repository ref unread
            else ret (Some (Err (Wrap "could not send object: " err)))
        | Ok _ => push_loop fuel stream repository ref unread
        end
  end.

(** Rounds that are enough for that many bytes. *)
Definition rounds (unread : nat) : nat := S (S (unread / chunkSize)).

Definition PushAgent (ctx : Outgoing) (agent : string) (repository : Repository)
  : M N (option (result PushAgentResponse)) :=
  match agent_Annotations agent with
  | Err err => ret (Some (Err (Wrap "failed to unmarshal agent: " err)))
  | Ok annotations =>
      let ref := agent_ref agent annotations in
      let? stream := grpc_PushAgent ctx
        else err => ret (Some (Err (Wrap "failed to create push stream: " err))) in
      let! pushed := push_loop (rounds (String.length agent)) stream repository ref agent in
      match pushed with
      | None => ret None
      | Some (Err err) => ret (Some (Err err))
      | Some (Ok _) =>
          let? resp := push_CloseAndRecv stream
            else err => ret (Some (Err (Wrap "could not receive response: " err))) in
          ret (Some (Ok resp))
      end
  end.

(** Receiving until the end of the stream, at most [fuel] chunks. *)
Fixpoint pull_loop (fuel : nat) (stream : PullStream) (buffer : string) : M N (option (result string)) :=
  match fuel with
  | O => ret None
  | S fuel =>
      let! chunk := pull_Recv stream in
      match chunk with
      | Err err =>
          if errors_Is err EOF then ret (Some (Ok buffer))
          else ret (Some (Err (Wrap "failed to receive chunk: " err)))
      | Ok chunk => pull_loop fuel stream (buffer +:+ Data chunk)
      end
  end.

Definition PullAgent (fuel : nat) (ctx : Outgoing) (id : option AgentIdentifier)
  : M N (option (result string)) :=
  let? stream := grpc_PullAgent ctx id
    else err => ret (Some (Err (Wrap "failed to create pull stream: " err))) in
  pull_loop fuel stream "".

(** ** The service (service/agent.go) *)

Definition addAuthToContext (session : option HubSession) : Outgoing :=
  match session with
  | Some s =>
      if decide (Session_Tokens s <> None /\ CurrentTenant s <> "") then
        match map_at (Session_Tokens s) (CurrentTenant s) with
        | Some (Some t) => if decide (AccessToken t <> "") then Some ("Bearer " +:+ AccessToken t) else None
        | _ => None
        end
      else None
  | None => None
  end.

Definition service_PullAgent (fuel : nat) (agentID : option AgentIdentifier) (session : option HubSession)
  : M N (option (result string)) :=
  let! pulled := PullAgent fuel (addAuthToContext session) agentID in
  ret match pulled with
      | None => None
      | Some (Err err) => Some (Err (Wrap "failed to pull agent: " err))
      | Some (Ok model) => Some
          match json_UnmarshalObject model with
          | Err err => Err (Wrap "failed to unmarshal agent: " err)
          | Ok modelObj =>
              match json_MarshalIndent modelObj with
              | Err err => Err (Wrap "failed to marshal agent: " err)
              | Ok prettyModel => Ok prettyModel
              end
          end
      end.

Definition ParseAgentID (agentID : string) : result AgentIdentifier :=
  if HasPrefix agentID "sha256:" then Ok (AgentIdentifier_Digest agentID)
  else match Split ":" agentID with
       | [name; version] =>
           if decide (name <> "" /\ version <> "") then
             Ok (AgentIdentifier_RepoVersionId {| RepositoryName := name; RepoVersion := version |})
           else Err (Plain ("invalid agent ID format: " +:+ agentID
             +:+ ". Expected format is either 'sha256:<hash>' or '<repository>:<version>'"))
       | _ => Err (Plain ("invalid agent ID format: " +:+ agentID
             +:+ ". Expected format is either 'sha256:<hash>' or '<repository>:<version>'"))
       end.

Definition ParseRepoTagID (id : string) : Repository :=
  if uuid_Parse id then PushAgentRequest_RepositoryId id else PushAgentRequest_RepositoryName id.

Definition service_PushAgent (agentBytes : string) (repoID : Repository) (session : option HubSession)
  : M N (option (result PushAgentResponse)) :=
  let! pushed := PushAgent (addAuthToContext session) agentBytes repoID in
  ret match pushed with
      | None => None
      | Some (Err err) => Some (Err (Wrap "failed to push agent: " err))
      | Some (Ok resp) => Some (Ok resp)
      end.

End hub.
End hub.

(** ** Chunks *)

Definition concat_bytes (l : list string) : string := foldr String.append "" l.

Fixpoint chunks (fuel : nat) (s : string) : list string :=
  match fuel with
  | O => []
  | S fuel => let '(buf, unread) := reader_Read s in if decide (buf = "") then [] else buf :: chunks fuel unread
  end.

(** Chunks of a document: together the document, none empty or longer than the
    buffer, and only the last one shorter. *)
Definition chunked (agent : string) (l : list string) : Prop :=
  concat_bytes l = agent /\ Forall (fun c => (0 < String.length c <= chunkSize)%nat) l
  /\ forall l1 c d l2, l = l1 ++ c :: d :: l2 -> String.length c = chunkSize.

Lemma take_drop_bytes n s : take_bytes n s +:+ drop_bytes n s = s.
Proof. revert s. induction n as [|n IH]; intros [|c s]; simpl; [done..|]. rewrite append_cons. by rewrite IH. Qed.

Lemma take_length n s : String.length (take_bytes n s) = min n (String.length s).
Proof. revert s. induction n as [|n IH]; intros [|c s]; simpl; [done..|]. by rewrite IH. Qed.

Lemma drop_length n s : String.length (drop_bytes n s) = (String.length s - n)%nat.
Proof. revert s. induction n as [|n IH]; intros [|c s]; simpl; [done..|]. apply IH. Qed.

Lemma take_empty n s : (0 < n)%nat -> take_bytes n s = "" <-> s = "".
Proof. intros Hn. destruct n, s; simpl; [lia..| |]; done. Qed.

#[local] Opaque take_bytes drop_bytes.

(** Enough rounds for the bytes of a document: a round per chunk and one to see the
    end. *)
Lemma rounds_enough s : (String.length s <= chunkSize * S (String.length s / chunkSize))%nat.
Proof.
  pose proof (Nat.mul_succ_div_gt (String.length s) chunkSize) as H. assert (chunkSize <> 0)%nat by done. lia.
Qed.

Lemma chunk_pos : (0 < chunkSize)%nat.
Proof. unfold chunkSize. lia. Qed.

#[local] Opaque chunkSize.

Lemma chunks_S fuel s :
  chunks (S fuel) s
  = if decide (s = "") then [] else take_bytes chunkSize s :: chunks fuel (drop_bytes chunkSize s).
Proof.
  cbn [chunks]. unfold reader_Read. pose proof (take_empty chunkSize s chunk_pos).
  destruct (decide (s = "")); [by rewrite decide_True by tauto|]. by rewrite decide_False by tauto.
Qed.

Lemma length_pos s : s <> "" -> (0 < String.length s)%nat.
Proof. destruct s; simpl; [done|lia]. Qed.

Lemma chunks_spec k s : (String.length s <= chunkSize * k)%nat -> chunked s (chunks (S k) s).
Proof.
  pose proof chunk_pos as Hck. revert s. induction k as [|k IH]; intros s Hs; rewrite chunks_S;
    (destruct (decide (s = "")) as [->|Hne]; [split; [done|]; split; [constructor|by intros [|? ?] ? ? ?]|]).
  { apply length_pos in Hne. lia. }
  apply length_pos in Hne. specialize (IH (drop_bytes chunkSize s)). rewrite drop_length in IH.
  generalize dependent (chunks (S k) (drop_bytes chunkSize s)). intros cs IH.
  destruct IH as (Hc & Hf & Hl); [lia|]. split; [|split].
  - change (concat_bytes (?c :: ?l)) with (c +:+ concat_bytes l). rewrite Hc. apply take_drop_bytes.
  - constructor; [|done]. rewrite take_length. lia.
  - intros [|x l1] c d l2 Heq; cbn [app] in Heq; injection Heq as Hx Heq; [|by eapply Hl].
    rewrite <- Hx, take_length. rewrite Heq in Hc, Hf. apply Forall_cons in Hf as [Hd _].
    assert (0 < String.length (drop_bytes chunkSize s))%nat.
    { rewrite <- Hc. change (concat_bytes (d :: l2)) with (d +:+ concat_bytes l2). rewrite length_append. lia. }
    rewrite drop_length in *. lia.
Qed.

(** More rounds than needed change nothing. *)
Lemma chunks_more k fuel s : (String.length s <= chunkSize * k)%nat -> (S k <= fuel)%nat ->
  chunks fuel s = chunks (S k) s.
Proof.
  pose proof chunk_pos as Hck. revert k s. induction fuel as [|fuel IH]; intros k s Hs Hf; [lia|].
  rewrite !chunks_S. destruct (decide (s = "")) as [|Hne]; [done|]. apply length_pos in Hne. f_equal.
  destruct k as [|k]; [lia|]. apply IH; [|lia]. rewrite drop_length. lia.
Qed.

(** ** Uploading and downloading *)

Section transfer.
Context {N : Type} `{!HubService N} `{!AgentLib}.
Context (sent : PushStream -> N -> option (list PushAgentRequest))
  (coming : PullStream -> N -> option (list AgentObject)).

(** A connection that stays up: messages are sent in order, and a download gives
    the objects of the stream and then its end. *)
Class HubUp : Prop := {
  push_Open_up ctx n : exists s n', grpc_PushAgent ctx n = (Ok s, n') /\ sent s n' = Some [];
  push_Send_up s m l n : sent s n = Some l ->
    exists n', push_Send s m n = (Ok tt, n') /\ sent s n' = Some (l ++ [m]);
  pull_Recv_up s l n : coming s n = Some l -> exists x n', pull_Recv s n = (x, n') /\
    match l with
    | [] => exists err, x = Err err /\ errors_Is err EOF = true
    | o :: l => x = Ok o /\ coming s n' = Some l
    end;
}.
Context `{!HubUp}.

Definition chunk_message (repository : Repository) (ref : ObjectRef) (data : string) : PushAgentRequest := {|
  Push_Repository := repository; Push_Model := {| Data := data; Obj_Ref := Some ref |} |}.

Lemma push_loop_run k stream repository ref s l n : (String.length s <= chunkSize * k)%nat ->
  sent stream n = Some l ->
  exists n', hub.push_loop (S k) stream repository ref s n = (Some (Ok tt), n')
    /\ sent stream n' = Some (l ++ (chunk_message repository ref <$> chunks (S k) s)).
Proof.
  pose proof chunk_pos as Hck. revert s l n.
  induction k as [|k IH]; intros s l n Hs Hl; rewrite chunks_S; cbn [hub.push_loop]; unfold reader_Read;
    pose proof (take_empty chunkSize s Hck) as Ht;
    (destruct (decide (s = "")) as [->|Hne];
      [rewrite decide_True by done; exists n; by rewrite app_nil_r|rewrite decide_False by tauto]);
    apply length_pos in Hne; [lia|].
  destruct (push_Send_up stream (chunk_message repository ref (take_bytes chunkSize s)) l n Hl) as (n1 & Hrun & Hl1).
  unfold chunk_message in Hrun at 1. rewrite (bind_run _ _ _ _ _ Hrun). cbv iota.
  destruct (IH (drop_bytes chunkSize s)
    (l ++ [chunk_message repository ref (take_bytes chunkSize s)]) n1) as (n2 & Hrun2 & Hl2); [rewrite drop_length; lia|exact Hl1|].
  exists n2. split; [exact Hrun2|]. by rewrite Hl2, fmap_cons, <- app_assoc.
Qed.

Lemma pull_loop_run stream l buffer n : coming stream n = Some l ->
  forall fuel, (length l < fuel)%nat ->
  exists n', hub.pull_loop fuel stream buffer n = (Some (Ok (buffer +:+ concat_bytes (Data <$> l))), n').
Proof.
  revert buffer n. induction l as [|o l IH]; intros buffer n Hl [|fuel] Hf; simpl in Hf; try lia;
    destruct (pull_Recv_up stream _ n Hl) as (x & n1 & Hrun & Hx); cbn [hub.pull_loop];
    rewrite (bind_run _ _ _ _ _ Hrun).
  - destruct Hx as (err & -> & ->). exists n1. simpl. by rewrite append_nil_r.
  - destruct Hx as [-> Hl1]. destruct (IH (buffer +:+ Data o) n1 Hl1 fuel) as (n2 & Hrun2); [lia|].
    exists n2. rewrite Hrun2. simpl. by rewrite append_assoc.
Qed.

(** C35. An agent survives the chunks.  An upload sends the document in chunks: together
    the document, none empty, none longer than the buffer and all but the last as
    long as it, each with the repository, the digest, the size and the annotations
    of the whole document; its answer is the one the server gives to these
    messages.  And a download of any chunks of the document gives the document. *)
Theorem agent_survives_chunks ctx agent annotations repository n :
  agent_Annotations agent = Ok annotations ->
  exists cs stream n1, chunked agent cs
    /\ sent stream n1 = Some (chunk_message repository (hub.agent_ref agent annotations) <$> cs)
    /\ hub.PushAgent ctx agent repository n
       = (let '(r, n2) := push_CloseAndRecv stream n1 in
          (Some match r with
                | Ok resp => Ok resp
                | Err err => Err (Wrap "could not receive response: " err)
                end, n2))
    /\ forall down objects n' fuel, coming down n' = Some objects -> chunked agent (Data <$> objects) ->
         (length objects < fuel)%nat ->
         (hub.pull_loop fuel down "" n').1 = Some (Ok agent).
Proof.
  intros Ha. destruct (push_Open_up ctx n) as (stream & n0 & Hopen & Hs0).
  pose proof (rounds_enough agent) as Hr. set (k := S (String.length agent / chunkSize)) in *.
  destruct (push_loop_run k stream repository (hub.agent_ref agent annotations) agent [] n0 Hr Hs0)
    as (n1 & Hrun & Hs1).
  exists (chunks (S k) agent), stream, n1. split; [by apply chunks_spec|]. split; [exact Hs1|]. split.
  - unfold hub.PushAgent. rewrite Ha, (try_bind_ok _ _ _ _ _ _ Hopen), (bind_run _ _ _ _ _ Hrun).
    unfold try_bind, bind. by destruct (push_CloseAndRecv stream n1) as [[resp|err] n2].
  - intros down objects n' fuel Hd (Hc & _) Hf. destruct (pull_loop_run down objects "" n' Hd fuel Hf) as (n'' & ->).
    by rewrite append_nil_l, Hc.
Qed.

End transfer.

(** C36. An upload ends, whatever the server does: the rounds suffice for every document,
    with every outcome of every call. *)
Theorem push_ends {N : Type} `{!HubService N} `{!AgentLib} ctx agent repository (n : N) :
  exists r, (hub.PushAgent ctx agent repository n).1 = Some r.
Proof.
  assert (Hloop : forall k stream ref s (n : N), (String.length s <= chunkSize * k)%nat ->
    exists r, (hub.push_loop (S k) stream repository ref s n).1 = Some r).
  { pose proof chunk_pos as Hck. intros k stream ref. induction k as [|k IH]; intros s m Hs;
      cbn [hub.push_loop]; unfold reader_Read; pose proof (take_empty chunkSize s Hck) as Ht; case_decide as Hb;
      try (by eexists); (assert (Hne : s <> "") by tauto); apply length_pos in Hne; [lia|].
    unfold bind. destruct (push_Send stream _ m) as [[u|err] m1]; [|destruct (errors_Is err EOF); [|by eexists]];
      apply IH; rewrite drop_length; lia. }
  unfold hub.PushAgent. destruct (agent_Annotations agent) as [annotations|err]; [|by eexists].
  unfold try_bind, bind. destruct (grpc_PushAgent ctx n) as [[stream|err] n1]; [|by eexists].
  destruct (Hloop (S (String.length agent / chunkSize)) stream (hub.agent_ref agent annotations) agent n1)
    as (r & Hr); [apply rounds_enough|]. unfold hub.rounds.
  destruct (hub.push_loop _ _ _ _ _ n1) as [[[u|err]|] n2]; simpl in Hr; [|by eexists|done].
  by destruct (push_CloseAndRecv stream n2) as [[resp|err] n3]; eexists.
Qed.

(** ** An example *)

Module DemoHub.

#[local] Transparent take_bytes drop_bytes chunkSize.

(** A hub that keeps what is uploaded and sends it back as it came. *)
Definition Hub : Type := list PushAgentRequest.

#[local] Instance hub_service : HubService Hub := {|
  PushStream := unit; PullStream := unit;
  grpc_PushAgent _ _ := (Ok tt, []);
  push_Send _ m h := (Ok tt, h ++ [m]);
  push_CloseAndRecv _ h := (Ok {| Response_Digest := pretty (length h) |}, h);
  grpc_PullAgent _ _ h := (Ok tt, h);
  pull_Recv _ h := match h with [] => (Err (Sentinel EOF), []) | m :: h => (Ok (Push_Model m), h) end |}.

#[local] Instance lib : AgentLib := {|
  digest_FromBytes s := "sha256:" +:+ pretty (String.length s); agent_Annotations _ := Ok ∅;
  uuid_Parse _ := false; json_Object := string; json_UnmarshalObject s := Ok s; json_MarshalIndent s := Ok s |}.

#[local] Instance hub_up : HubUp (fun _ h => Some h) (fun _ h => Some (Push_Model <$> h)).
Proof.
  split; simpl.
  - intros ctx n. by exists tt, [].
  - intros s m l n [= ->]. by eexists.
  - intros s l n [= <-]. destruct n as [|m n]; eexists _, _; (split; [reflexivity|]); [by eexists|done].
Qed.

Definition agent : string := "{agent}".

Lemma agent_survives_chunks_witness :
  exists h, hub.PushAgent None agent (PushAgentRequest_RepositoryName "ann/demo") []
      = (Some (Ok {| Response_Digest := "1" |}), h)
    /\ (hub.pull_loop 2 tt "" h).1 = Some (Ok agent).
Proof.
  destruct (agent_survives_chunks (H := lib) (fun _ h => Some h) (fun _ h => Some (Push_Model <$> h)) None agent ∅
    (PushAgentRequest_RepositoryName "ann/demo") [] eq_refl) as (cs & stream & n1 & Hc & Hs & Hp & Hd).
  assert (Hsnd : (hub.PushAgent None agent (PushAgentRequest_RepositoryName "ann/demo") []).2 = n1)
    by (rewrite Hp; reflexivity).
  exists n1. split; [rewrite Hp; vm_compute in Hsnd; subst n1; reflexivity|].
  apply (Hd tt (Push_Model <$> n1) n1 2%nat).
  - reflexivity.
  - injection Hs as Hs. rewrite Hs, <- !list_fmap_compose.
    assert (Hid : Data ∘ Push_Model ∘ chunk_message (PushAgentRequest_RepositoryName "ann/demo")
      (hub.agent_ref agent ∅) = id) by reflexivity.
    cbn [Data Push_Model chunk_message compose]. rewrite list_fmap_id. exact Hc.
  - vm_compute in Hsnd. subst n1. simpl. lia.
Defined.

End DemoHub.
