(* ===== verification/HubLogin.v ===== *)
(** * Logging in to the hub

    hub/client/okta/client.go (Module [okta]): token requests of the OAuth flow.
    hub/auth/internal/webserver (Module [webserver]): the local server that the
    browser is sent to, with PKCE.  hub/utils/token (Module [token]), hub/auth
    (Module [auth]): login, switching between organizations, logout.  hub/client/idp
    (Module [idp]): the organizations of a user.  HTTP, the browser, random numbers,
    SHA-256, JWT parsing and JSON are outside the repository.  The text of an error
    of the session file or of a URL that does not parse is left out of the errors
    around it. *)

From S2P Require Import Prelude GoStrings GoUrl GoForm Interfaces HubSession.
From stdpp Require Import pretty.

Open Scope string_scope.
Open Scope list_scope.
Open Scope go_scope.

(** ** What is outside *)

Record HttpRequest := {
  Method : string; Request_URL : string; Request_Header : list (string * string); Request_Body : string }.

(** A response: its body is what reading it to the end gives. *)
Record HttpResponse := { StatusCode : Z; Body : result string }.

Definition StatusOK : Z := 200.
Definition StatusFound : Z := 302.
Definition StatusBadRequest : Z := 400.
Definition StatusUnauthorized : Z := 401.
Definition StatusInternalServerError : Z := 500.

(** A claim of a token: a string, or something else. *)
Inductive Claim := ClaimString (s : string) | ClaimOther.

Record okta_Token := { Okta_AccessToken : string; Okta_RefreshToken : string; Okta_IDToken : string }.
Record TenantResponse := {
  Tenant_ID : string; Tenant_Name : string; OrganizationID : string; Entitlements : list string }.

(** The network, the machine and the user. *)
Class HubNet (N : Type) := {
  http_Do : HttpRequest -> M N (result HttpResponse);
  http_Listen : Z -> M N (option error);      (** what [ListenAndServe] has returned when it is asked for *)
  rand_Int : Z -> M N (result Z);
  rand_Read : nat -> M N (result string);
  time_Now : N -> Z;
  browser_OpenURL : string -> M N (result unit);
  promptui_Select : list string -> M N (result string);
}.

(** A JSON document can be null. *)
Class HubLib := {
  sha256_Sum256 : string -> string;
  MapClaims : Type;
  jwt_ParseUnverified : string -> result MapClaims;
  jwt_claim : MapClaims -> string -> option Claim;
  jwt_ExpirationTime : MapClaims -> result (option Z);
  json_Token : string -> result (option okta_Token);
  json_ErrorResponse : string -> result unit;
  json_TenantList : string -> result (option (list (option TenantResponse)));
}.

(** [time.Now()] *)
Definition now {N} `{!HubNet N} : M N Z := fun n => (time_Now n, n).

(** [http.NewRequestWithContext]: the URL has to parse. *)
Definition NewRequest (method url : string) (header : list (string * string)) (body : string) : option HttpRequest :=
  _u ← url_Parse url;
  Some {| Method := method; Request_URL := url; Request_Header := header; Request_Body := body |}.

(** ** The identity provider (client/okta/client.go) *)

Module okta.

Record RequestTokenRequest := { ClientID : string; RedirectURI : string; Verifier : string; Code : string }.
Record AuthorizeRequest := {
  Auth_ClientID : string; S256Challenge : string; Nonce : string; Auth_RedirectURI : string; RequestID : string }.
Record RefreshTokenRequest := { Refresh_ClientID : string; Refresh_RefreshToken : string }.

(** [RequestTokenResponse] and [RefreshTokenResponse]; the parsed error is not read. *)
Record TokenResponse := { Token : option okta_Token; Response_StatusCode : Z; Response_Body : string }.
Record LogoutResponse := { Logout_StatusCode : Z; Logout_Body : string }.

Section okta.
Context {N : Type} `{!HubNet N} `{!HubLib}.
Context (BaseURL : string).

Definition ErrRequestCreation : string := "failed to create request".
Definition ErrRequestSending : string := "failed to send request".
Definition ErrParsingResponse : error := Sentinel "failed to parse response".

Definition form_headers : list (string * string) :=
  [("Accept", "application/json"); ("Content-Type", "application/x-www-form-urlencoded"); ("Cache-Control", "no-cache")].

(** A form is posted and the answer read: its status and its body. *)
Definition post_form (what path : string) (data : Values) : M N (result (Z * string)) :=
  match NewRequest "POST" (BaseURL +:+ path) form_headers (Values_Encode data) with
  | None => ret (Err (Plain (ErrRequestCreation +:+ ": " +:+ what)))
  | Some req =>
      let? resp := http_Do req else err => ret (Err (Plain (ErrRequestSending +:+ ": " +:+ what))) in
      match Body resp with
      | Err _ => ret (Err ErrParsingResponse)
      | Ok body => ret (Ok (StatusCode resp, body))
      end
  end.

Definition token_form (request : RequestTokenRequest) : Values :=
  Values_Set "code_verifier" (Verifier request)
    (Values_Set "code" (Code request)
      (Values_Set "redirect_uri" (RedirectURI request)
        (Values_Set "client_id" (ClientID request)
          (Values_Set "grant_type" "authorization_code" ∅)))).

Definition RequestToken (request : RequestTokenRequest) : M N (result TokenResponse) :=
  let? resp := post_form "token request" "/v1/token" (token_form request) else err => ret (Err err) in
  let '(status, body) := resp in
  if decide (status = StatusOK) then
    match json_Token body with
    | Err _ => ret (Err ErrParsingResponse)
    | Ok t => ret (Ok {| Token := t; Response_StatusCode := status; Response_Body := body |})
    end
  else ret (Ok {| Token := None; Response_StatusCode := status; Response_Body := body |}).

(** The session request of the state, in quotes. *)
Definition quote : string := String (ascii_of_nat 34) "".
Definition state_of (requestID : string) : string :=
  "{" +:+ quote +:+ "sessionRequest" +:+ quote +:+ ":" +:+ quote +:+ requestID +:+ quote +:+ "}".

Definition authorize_params (r : AuthorizeRequest) : Values :=
  Values_Add "scope" "openid offline_access"
    (Values_Add "state" (state_of (RequestID r))
      (Values_Add "response_type" "code"
        (Values_Add "redirect_uri" (Auth_RedirectURI r)
          (Values_Add "nonce" (Nonce r)
            (Values_Add "code_challenge_method" "S256"
              (Values_Add "code_challenge" (S256Challenge r)
                (Values_Add "client_id" (Auth_ClientID r) ∅))))))).

Definition AuthorizeURL (r : AuthorizeRequest) : string :=
  BaseURL +:+ "/v1/authorize?" +:+ Values_Encode (authorize_params r).

Definition Logout (IDToken : string) : M N (result LogoutResponse) :=
  let? resp := post_form "logout request" "/v1/logout" (Values_Set "id_token_hint" IDToken ∅)
    else err => ret (Err err) in
  let '(status, body) := resp in
  ret (Ok {| Logout_StatusCode := status; Logout_Body := body |}).

Definition RefreshToken (req : RefreshTokenRequest) : M N (result TokenResponse) :=
  let? resp := post_form "token request" "/v1/token"
      (Values_Set "refresh_token" (Refresh_RefreshToken req)
        (Values_Set "client_id" (Refresh_ClientID req) (Values_Set "grant_type" "refresh_token" ∅)))
    else err => ret (Err err) in
  let '(status, body) := resp in
  if decide (status = StatusOK) then
    match json_Token body with
    | Err _ => ret (Err ErrParsingResponse)
    | Ok t => ret (Ok {| Token := t; Response_StatusCode := status; Response_Body := body |})
    end
  else if decide (status = StatusBadRequest \/ status = StatusUnauthorized) then
    match json_ErrorResponse body with
    | Err _ => ret (Err ErrParsingResponse)
    | Ok _ => ret (Ok {| Token := None; Response_StatusCode := status; Response_Body := body |})
    end
  else ret (Ok {| Token := None; Response_StatusCode := status; Response_Body := body |}).

End okta.
End okta.

(** ** The local server (auth/internal/webserver) *)

Module webserver.

Definition letterBytes : string := "abcdefghijklmnopqrstuvwxyzABCDEFGHIJKLMNOPQRSTUVWXYZ".
Definition nonceLength : nat := 32.
Definition challengeVerifierLength : nat := 43.
Definition failedLoginMessage : string := "Failed to login.".
Definition successfulLoginMessage : string := "Successfully logged in. You can close this tab.".
Definition numRetries : nat := 5.

Record SessionStore := { verifier : string; Tokens : option okta_Token }.

Record Handler := { clientID : string; localWebserverURL : string; idpClient : string }.

(** The server and what it works on.  The channel of errors has room for one
    value; senders that find it full wait, in order, so that it is a queue. *)
Record Server (N : Type) := { net : N; sessionStore : SessionStore; Errs : list (option error) }.
Arguments net {_} _. Arguments sessionStore {_} _. Arguments Errs {_} _. Arguments Build_Server {_} _ _ _.

(** What has been written to a [http.ResponseWriter]: the first status counts. *)
Record Reply := { Reply_Status : option Z; Location : option string; Reply_Body : string }.
Definition new_reply : Reply := {| Reply_Status := None; Location := None; Reply_Body := "" |}.

Definition WriteHeader (status : Z) (w : Reply) : Reply :=
  match Reply_Status w with
  | None => {| Reply_Status := Some status; Location := Location w; Reply_Body := Reply_Body w |}
  | Some _ => w
  end.
Definition Write (data : string) (w : Reply) : Reply :=
  {| Reply_Status := Reply_Status w; Location := Location w; Reply_Body := Reply_Body w +:+ data |}.
(** A location that is set after the status is not sent; the body with a link is
    left out. *)
Definition Redirect (url : string) (status : Z) (w : Reply) : Reply :=
  match Reply_Status w with
  | None => {| Reply_Status := Some status; Location := Some url; Reply_Body := Reply_Body w |}
  | Some _ => w
  end.

(** How a handler ends: with a reply, with a panic, or waiting for room in the
    channel. *)
Inductive Outcome := Replied (w : Reply) | Panicked | Waiting.

(** The requests that the router passes on, with their query strings. *)
Inductive LocalRequest :=
  | GetHealthz
  | GetRequest (RawQuery : string)
  | GetCode (RawQuery : string).

Section webserver.
Context {N : Type} `{!HubNet N} `{!HubLib}.
Context (h : Handler).

Definition on_net {A} (c : M N A) : M (Server N) A := fun s =>
  let '(a, n) := c (net s) in (a, {| net := n; sessionStore := sessionStore s; Errs := Errs s |}).

Definition set_session (st : SessionStore) : M (Server N) unit := fun s =>
  (tt, {| net := net s; sessionStore := st; Errs := Errs s |}).

Definition get_session : M (Server N) SessionStore := fun s => (sessionStore s, s).

(** [h.Err <- err]: whether there was room. *)
Definition send_err (err : option error) : M (Server N) bool := fun s =>
  (bool_decide (Errs s = []), {| net := net s; sessionStore := sessionStore s; Errs := Errs s ++ [err] |}).

(** *** utils.go *)

(** [None] is the panic on a random source that fails. *)
Fixpoint RandStringBytes (n : nat) : M N (option string) :=
  match n with
  | O => ret (Some "")
  | S n =>
      let! index := rand_Int (Z.of_nat (String.length letterBytes)) in
      match index with
      | Err _ => ret None
      | Ok i =>
          let! rest := RandStringBytes n in
          ret (String (default "000"%char (String.get (Z.to_nat i) letterBytes)) <$> rest)
      end
  end.

Definition S256 (verifier : string) : string := TrimRight "=" (base64_URLEncode (sha256_Sum256 verifier)).

Definition GenerateChallenge : M N (option (string * string)) :=
  let! verifier := RandStringBytes challengeVerifierLength in
  ret ((fun v => (v, S256 v)) <$> verifier).

Definition GenerateNonce : M N (result string) :=
  let! nonceBytes := rand_Read nonceLength in
  ret match nonceBytes with
      | Err _ => Err (Plain "could not generate nonce")
      | Ok b => Ok (base64_URLEncode b)
      end.

(** *** handler.go *)

Definition HandleHealthz : M (Server N) Outcome :=
  ret (Replied (Write "OK" (WriteHeader StatusOK new_reply))).

(** The reply so far, and whether the handler goes on. *)
Definition handleError (w : Reply) (err : error) : M (Server N) (Reply * bool) :=
  let w := Write failedLoginMessage (WriteHeader StatusInternalServerError w) in
  let! room := send_err (Some err) in ret (w, room).

Definition handleSuccess (w : Reply) : M (Server N) (Reply * bool) :=
  let w := Write successfulLoginMessage (WriteHeader StatusOK w) in
  let! room := send_err None in ret (w, room).

Definition finish (r : Reply * bool) : Outcome := if r.2 then Replied r.1 else Waiting.

(** An error of the nonce does not end the handler. *)
Definition HandleRequestRedirect (RawQuery : string) : M (Server N) Outcome :=
  let requestID := Values_Get (ParseQuery RawQuery) "request" in
  let! generated := on_net GenerateChallenge in
  match generated with
  | None => ret Panicked
  | Some (verifier, challenge) =>
      let! st := get_session in
      do! set_session {| verifier := verifier; Tokens := Tokens st |} then
      let! nonce := on_net GenerateNonce in
      let! w := match nonce with
                | Err err => handleError new_reply err
                | Ok _ => ret (new_reply, true)
                end in
      let nonce := match nonce with Err _ => "" | Ok n => n end in
      let redirectURL := okta.AuthorizeURL (idpClient h) {|
        okta.Auth_ClientID := clientID h; okta.S256Challenge := challenge; okta.Nonce := nonce;
        okta.Auth_RedirectURI := localWebserverURL h; okta.RequestID := requestID |} in
      ret (if w.2 then Replied (Redirect redirectURL StatusFound w.1) else Waiting)
  end.

Definition code_request (code verifier : string) : okta.RequestTokenRequest := {|
  okta.ClientID := clientID h; okta.RedirectURI := localWebserverURL h; okta.Verifier := verifier; okta.Code := code |}.

Definition HandleCodeRedirect (RawQuery : string) : M (Server N) Outcome :=
  let code := Values_Get (ParseQuery RawQuery) "code" in
  let! st := get_session in
  let! resp := on_net (okta.RequestToken (idpClient h) (code_request code (verifier st))) in
  match resp with
  | Err err => let! w := handleError new_reply err in ret (finish w)
  | Ok resp =>
      if decide (okta.Response_StatusCode resp = StatusOK) then
        let! st := get_session in
        do! set_session {| verifier := verifier st; Tokens := okta.Token resp |} then
        let! w := handleSuccess new_reply in ret (finish w)
      else
        let! w := handleError new_reply (Plain ("unexpected status code: "
          +:+ pretty (okta.Response_StatusCode resp) +:+ ": " +:+ okta.Response_Body resp)) in
        ret (finish w)
  end.

(** The router of server.go, and the requests one after the other. *)
Definition handle (req : LocalRequest) : M (Server N) Outcome :=
  match req with
  | GetHealthz => HandleHealthz
  | GetRequest q => HandleRequestRedirect q
  | GetCode q => HandleCodeRedirect q
  end.

Fixpoint serve (reqs : list LocalRequest) : M (Server N) (list Outcome) :=
  match reqs with
  | [] => ret []
  | req :: reqs => let! o := handle req in let! os := serve reqs in ret (o :: os)
  end.

(** *** server.go *)

Definition local_url (port : Z) : string := "http://localhost:" +:+ pretty port.

(** The rounds that are left, with the last error; the pauses are left out. *)
Fixpoint probe (retries : nat) (port : Z) (err : option error) : M N (result unit) :=
  match retries with
  | O => ret (Err match err with
      | Some err => Wrap ("failed to start server after " +:+ pretty numRetries +:+ " retries: ") err
      | None => Plain ("failed to start server after " +:+ pretty numRetries +:+ " retries: ") end)
  | S retries =>
      match NewRequest "GET" (local_url port +:+ "/healthz") [] "" with
      | None => probe retries port (Some (Plain "parse"))
      | Some req =>
          let! resp := http_Do req in
          match resp with
          | Err err => probe retries port (Some err)
          | Ok resp =>
              if decide (StatusCode resp = StatusOK) then ret (Ok tt)
              else probe retries port
                     (Some (Plain ("server returned unexpected status code: " +:+ pretty (StatusCode resp))))
          end
      end
  end.

(** The server is started, and the value that its goroutine sends if listening
    fails. *)
Definition StartLocalServer (port : Z) : M N (result unit * list (option error)) :=
  let! listening := http_Listen port in
  let! started := probe numRetries port None in
  ret (started, match listening with Some err => [Some err] | None => [] end).

End webserver.
End webserver.

(** ** What a command works on: the files of the sessions and the rest *)

Record Machine (F N : Type) := { machine_files : F; machine_net : N }.
Arguments machine_files {_ _} _. Arguments machine_net {_ _} _. Arguments Build_Machine {_ _} _ _.

Definition on_files {F N A} (c : M F A) : M (Machine F N) A := fun m =>
  let '(a, f) := c (machine_files m) in (a, {| machine_files := f; machine_net := machine_net m |}).
Definition on_machine {F N A} (c : M N A) : M (Machine F N) A := fun m =>
  let '(a, n) := c (machine_net m) in (a, {| machine_files := machine_files m; machine_net := n |}).

(** [session.Tokens[session.CurrentTenant]], and an assignment to a map that is
    not nil. *)
Definition current_tokens (s : HubSession) : option (option Tokens) := map_at (Session_Tokens s) (CurrentTenant s).
Definition tokens_of (t : okta_Token) : Tokens := {|
  IDToken := Okta_IDToken t; RefreshToken := Okta_RefreshToken t; AccessToken := Okta_AccessToken t |}.

(** ** Tokens (utils/token) *)

Module token.
Section token.
Context {F N : Type} `{!SessionFiles F} `{!HubNet N} `{!HubLib}.

Definition IsTokenExpired (token : string) (now : Z) : bool :=
  match jwt_ParseUnverified token with
  | Err _ => true
  | Ok claims =>
      match jwt_ExpirationTime claims with
      | Ok (Some expTime) => bool_decide (expTime < now)%Z
      | _ => true
      end
  end.

Definition getClaimFromToken (token claim : string) : result string :=
  match jwt_ParseUnverified token with
  | Err err => Err (Wrap "failed to parse token: " err)
  | Ok claims =>
      match jwt_claim claims claim with
      | Some (ClaimString value) => Ok value
      | _ => Err (Plain ("failed to get " +:+ claim +:+ " from token"))
      end
  end.
Definition GetTenantNameFromToken (token : string) : result string := getClaimFromToken token "tenant_name".
Definition GetUserFromToken (token : string) : result string := getClaimFromToken token "sub".

(** validate.go *)
Definition ValidateAccessToken (session : option HubSession) : option error :=
  match session with
  | None => Some (Plain "invalid session token")
  | Some s =>
      if decide (CurrentTenant s = "" \/ Session_Tokens s = None) then Some (Plain "invalid session token")
      else match current_tokens s with
           | Some (Some t) => if decide (AccessToken t = "") then Some (Plain "invalid session token") else None
           | _ => Some (Plain "invalid session token")
           end
  end.

(** The session is updated in place, before it is saved.  The outer [None] is a
    panic: no client configuration, or an answer without tokens. *)
Definition RefreshTokenIfExpired (path sessionKey : string) (session : HubSession) (oktaClient : string)
  : M (Machine F N) (option (option error * HubSession)) :=
  match current_tokens session with
  | Some (Some t) =>
      if decide (CurrentTenant session = "" \/ AccessToken t = "") then ret (Some (None, session))
      else
        let! now := on_machine now in
        if negb (IsTokenExpired (AccessToken t) now) then ret (Some (None, session))
         else if decide (RefreshToken t = "") then
           ret (Some (Some (Plain "access token is expired and refresh token is empty"), session))
         else match Session_AuthConfig session with
         | None => ret None
         | Some conf =>
             let? resp := on_machine (okta.RefreshToken oktaClient {|
                 okta.Refresh_RefreshToken := RefreshToken t; okta.Refresh_ClientID := ClientID conf |})
               else err => ret (Some (Some (Wrap "failed to refresh token: " err), session)) in
             if decide (okta.Response_StatusCode resp <> StatusOK) then
               ret (Some (Some (Plain ("failed to refresh token: " +:+ okta.Response_Body resp)), session))
             else match okta.Token resp with
             | None => ret None
             | Some new =>
                 let session := {|
                   Session_Tokens := <[CurrentTenant session := Some (tokens_of new)]> <$> Session_Tokens session;
                   CurrentTenant := CurrentTenant session; User := User session;
                   Session_AuthConfig := Session_AuthConfig session |} in
                 let! saved := on_files (sessionstore.SaveHubSession path sessionKey session) in
                 ret (Some (match saved with
                            | Some _ => Some (Plain "failed to save hub tokens") | None => None end, session))
             end
         end
  | _ => ret (Some (None, session))
  end.

End token.
End token.

(** ** Organizations (client/idp/client.go) *)

Module idp.

(** [TenantList] is nil for a status other than 200 and for a null document. *)
Record GetTenantsInProductResponse := { TenantList : option (list (option TenantResponse)); Tenants_StatusCode : Z }.

Section idp.
Context {N : Type} `{!HubNet N} `{!HubLib}.

Definition GetTenantsInProduct (baseURL productID token : string) : M N (result GetTenantsInProductResponse) :=
  let requestURL := baseURL +:+ "/v1alpha1/tenant" +:+ "?" +:+ Values_Encode (Values_Set "product" productID ∅) in
  match NewRequest "GET" requestURL [("Authorization", "Bearer " +:+ token)] "" with
  | None => ret (Err (Plain "failed to create request"))
  | Some req =>
      let? resp := http_Do req else err => ret (Err (Wrap "failed to send request: " err)) in
      match Body resp with
      | Err err => ret (Err (Wrap "failed to read response body: " err))
      | Ok body =>
          if decide (StatusCode resp = StatusOK) then
            match json_TenantList body with
            | Err err => ret (Err (Wrap "failed to parse response: " err))
            | Ok parsed => ret (Ok {| TenantList := parsed; Tenants_StatusCode := StatusCode resp |})
            end
          else ret (Ok {| TenantList := None; Tenants_StatusCode := StatusCode resp |})
      end
  end.

End idp.
End idp.

(** ** Login, switching, logout (auth) *)

Module auth.

Definition LocalWebserverPort : Z := 48043.

Section auth.
Context {F N : Type} `{!SessionFiles F} `{!HubNet N} `{!HubLib}.

(** A configuration of the client that is there. *)
Definition handler_of (conf : AuthConfig) (oktaClient : string) : webserver.Handler := {|
  webserver.clientID := ClientID conf; webserver.localWebserverURL := webserver.local_url LocalWebserverPort;
  webserver.idpClient := oktaClient |}.

(** browser/open.go *)
Definition openBrowser (authConfig : AuthConfig) (path tenantParam : string) : M N (result unit) :=
  let params := Values_Add "redirectUri" (webserver.local_url LocalWebserverPort) ∅ in
  let params := if decide (tenantParam = "") then params else Values_Add "tenant" tenantParam params in
  browser_OpenURL (IdpFrontendAddress authConfig +:+ "/" +:+ IdpProductID authConfig +:+ "/" +:+ path
    +:+ "?" +:+ Values_Encode params).

(** The server is started, the browser is sent to the provider, and the browser
    makes [requests], one after the other, before the wait ends: with the first
    value in the channel, or with the deadline if there is none.  The second error
    of a server that does not start is left out. *)
Definition oauth_flow (start_error browser_error wait_error : string) (conf : AuthConfig) (oktaClient : string)
    (open_browser : M N (result unit)) (requests : list webserver.LocalRequest)
  : M N (result webserver.SessionStore) :=
  let! started := webserver.StartLocalServer LocalWebserverPort in
  match started with
  | (Err err, _) => ret (Err (Wrap start_error err))
  | (Ok _, errs) =>
      let? _u := open_browser else err => ret (Err (Wrap browser_error err)) in
      fun n =>
        let '(_, s) := webserver.serve (handler_of conf oktaClient) requests {|
          webserver.net := n; webserver.Errs := errs;
          webserver.sessionStore := {| webserver.verifier := ""; webserver.Tokens := None |} |} in
        (match webserver.Errs s with
         | [] => Err (Wrap wait_error (Sentinel "context deadline exceeded"))
         | Some err :: _ => Err (Wrap wait_error err)
         | None :: _ => Ok (webserver.sessionStore s)
         end, webserver.net s)
  end.

(** login.go.  The outer [None] is a panic: a session without a configuration, or
    a success without tokens. *)
Definition Login (requests : list webserver.LocalRequest) (oktaClient : string) (currentSession : HubSession)
  : M N (option (result HubSession)) :=
  match Session_AuthConfig currentSession with
  | None => ret None
  | Some conf =>
      let? st := oauth_flow "failed to start local webserver: " "could not open browser for login: "
          "failed to fetch tokens: " conf oktaClient (openBrowser conf "login" "") requests
        else err => ret (Some (Err err)) in
      ret match webserver.Tokens st with
          | None => None
          | Some t => Some
              match token.GetTenantNameFromToken (Okta_AccessToken t) with
              | Err err => Err (Wrap "failed to get org id: " err)
              | Ok tName =>
                  match token.GetUserFromToken (Okta_AccessToken t) with
                  | Err err => Err (Wrap "failed to get user from token: " err)
                  | Ok user => Ok {|
                      Session_Tokens := Some {[ tName := Some (tokens_of t) ]}; CurrentTenant := tName;
                      User := user; Session_AuthConfig := Session_AuthConfig currentSession |}
                  end
              end
          end
  end.

Definition HasLoginCreds (currentSession : option HubSession) : bool :=
  match currentSession with
  | None => false
  | Some s =>
      match Session_AuthConfig s with
      | None => false
      | Some _ =>
          if decide (CurrentTenant s = "" \/ default ∅ (Session_Tokens s) = ∅) then false
          else match current_tokens s with
               | Some (Some t) =>
                   bool_decide (AccessToken t <> "") && bool_decide (IDToken t <> "") && bool_decide (RefreshToken t <> "")
               | _ => false
               end
      end
  end.

(** tenant.go *)

(** [None] is the panic on an organization that is null. *)
Fixpoint tenants_from (m : gmap string string) (tenants : list (option TenantResponse)) : option (gmap string string) :=
  match tenants with
  | [] => Some m
  | None :: _ => None
  | Some tenant :: tenants => tenants_from (<[Tenant_Name tenant := Tenant_ID tenant]> m) tenants
  end.
Definition tenantsToMap : list (option TenantResponse) -> option (gmap string string) := tenants_from ∅.

Definition selectTenant (tenantsMap : gmap string string) (Org : string) : M N (result string) :=
  if decide (Org <> "") then ret (Ok Org)
  else let? selected := promptui_Select (map_to_list tenantsMap).*1
         else err => ret (Err (Wrap "interactive selection error: " err)) in
       ret (Ok selected).

(** [None] is the panic on tokens that are null. *)
Definition canReuseToken (currentSession : HubSession) (selectedTenant : string) (now : Z) : option bool :=
  match map_at (Session_Tokens currentSession) selectedTenant with
  | None => Some false
  | Some None => None
  | Some (Some t) => Some (negb (token.IsTokenExpired (AccessToken t) now))
  end.

Definition performOAuthSwitch (requests : list webserver.LocalRequest) (conf : AuthConfig) (oktaClient : string)
    (selectedTenantID : string) : M N (result webserver.SessionStore) :=
  oauth_flow "could not start local webserver: " "could not open browser: " "failed to get tokens: "
    conf oktaClient (openBrowser conf "tenants" selectedTenantID) requests.

(** [None] is the panic on an assignment to a nil map. *)
Definition updateSessionWithNewTokens (currentSession : HubSession) (selectedTenant : string) (tokens : okta_Token)
  : option HubSession :=
  match Session_Tokens currentSession with
  | None => None
  | Some m => Some {|
      Session_Tokens := Some (<[selectedTenant := Some (tokens_of tokens)]> m); CurrentTenant := selectedTenant;
      User := User currentSession; Session_AuthConfig := Session_AuthConfig currentSession |}
  end.

Definition set_tenant (currentSession : HubSession) (tenant : string) : HubSession := {|
  Session_Tokens := Session_Tokens currentSession; CurrentTenant := tenant;
  User := User currentSession; Session_AuthConfig := Session_AuthConfig currentSession |}.

Definition SwitchTenant (requests : list webserver.LocalRequest) (Org : string)
    (tenants : list (option TenantResponse)) (currentSession : HubSession) (oktaClient : string)
  : M N (option (result (HubSession * string))) :=
  match tenantsToMap tenants with
  | None => ret None
  | Some tenantsMap =>
      let? selectedTenant := selectTenant tenantsMap Org else err => ret (Some (Err err)) in
      if decide (selectedTenant = CurrentTenant currentSession) then
        ret (Some (Ok (currentSession, "Already on tenant: " +:+ selectedTenant)))
      else
        let! now := now in
        match canReuseToken currentSession selectedTenant now with
        | None => ret None
        | Some true =>
            ret (Some (Ok (set_tenant currentSession selectedTenant, "Switched to tenant: " +:+ selectedTenant)))
        | Some false =>
            match Session_AuthConfig currentSession with
            | None => ret None
            | Some conf =>
                let? st := performOAuthSwitch requests conf oktaClient (default "" (tenantsMap !! selectedTenant))
                   else err => ret (Some (Err err)) in
                 ret match webserver.Tokens st with
                     | None => None
                     | Some t =>
                         match token.GetTenantNameFromToken (Okta_AccessToken t) with
                         | Err err => Some (Err (Wrap "failed to get org name from token: " err))
                         | Ok newTenant =>
                             if decide (newTenant <> selectedTenant) then
                               Some (Err (Plain ("org name from token (" +:+ newTenant
                                 +:+ ") does not match selected org (" +:+ selectedTenant +:+ "). it could happen because "
                                 +:+ "you logged in another account then the one that has the requested org")))
                             else match updateSessionWithNewTokens currentSession selectedTenant t with
                                  | None => None
                                  | Some s => Some (Ok (s, "Successfully switched to " +:+ selectedTenant))
                                  end
                         end
                     end
            end
        end
  end.

(** [None] is the panic on a session without a configuration or tokens. *)
Definition FetchUserTenants (currentSession : HubSession) : M N (option (result (list (option TenantResponse)))) :=
  match Session_AuthConfig currentSession, current_tokens currentSession with
  | Some conf, Some (Some t) =>
      let? idpResp := idp.GetTenantsInProduct (IdpBackendAddress conf) (IdpProductID conf) (AccessToken t)
        else err => ret (Some (Err (Wrap "failed to fetch user tenants: " err))) in
      ret (Some match idp.TenantList idpResp with
                | None => Err (Plain "no tenants found")
                | Some tenants => Ok tenants
                end)
  | _, _ => ret None
  end.

(** logout.go.  [None] is the panic on tokens that are null. *)
Definition doLogout (session : option HubSession) (oktaClient : string) : M N (option (option error)) :=
  match session with
  | None => ret (Some None)
  | Some s =>
      if decide (CurrentTenant s = "") then ret (Some None)
      else match current_tokens s with
           | None => ret (Some None)
           | Some None => ret None
           | Some (Some t) =>
               let? resp := okta.Logout oktaClient (IDToken t)
                 else err => ret (Some (Some (Wrap "failed to logout: " err))) in
               ret (Some (if decide (okta.Logout_StatusCode resp <> StatusOK) then
                            Some (Plain ("failed to logout: unexpected status code: "
                              +:+ pretty (okta.Logout_StatusCode resp) +:+ ": " +:+ okta.Logout_Body resp))
                          else None))
           end
  end.

Definition Logout (path ServerAddress : string) (currentSession : option HubSession) (oktaClient : string)
  : M (Machine F N) (option (option error)) :=
  let! out := on_machine (doLogout currentSession oktaClient) in
  match out with
  | None => ret None
  | Some (Some err) => ret (Some (Some (Wrap "failed to logout: " err)))
  | Some None =>
      let! removed := on_files (sessionstore.RemoveSession path ServerAddress) in
      ret (Some match removed with
                | Some _ => Some (Plain "failed to remove session") | None => None end)
  end.

End auth.
End auth.

(** ** The flow with its challenges *)

Section flow.
Context {N : Type} `{!HubNet N} `{!HubLib}.

(** A source of random numbers that does not fail. *)
Class RandUp : Prop := {
  rand_Int_up max n : (0 < max)%Z -> exists i n', rand_Int max n = (Ok i, n') /\ (0 <= i < max)%Z;
  rand_Read_up len n : exists s n', rand_Read len n = (Ok s, n') /\ String.length s = len;
}.
Context `{!RandUp}.

Lemma RandStringBytes_run k n : exists v n', webserver.RandStringBytes k n = (Some v, n')
  /\ String.length v = k /\ all_bytes is_alpha v = true.
Proof.
  revert n. induction k as [|k IH]; intros n; [by exists "", n|]. cbn [webserver.RandStringBytes]. unfold bind.
  destruct (rand_Int_up (Z.of_nat (String.length webserver.letterBytes)) n) as (i & n1 & -> & Hi); [done|].
  destruct (IH n1) as (v & n2 & -> & Hl & Hv). eexists _, n2. split; [done|]. cbn [String.length].
  split; [by rewrite Hl|]. rewrite all_bytes_cons, Hv, andb_true_r.
  assert (Hall : forallb (fun j => is_alpha (default "000"%char (String.get j webserver.letterBytes)))
    (seq 0 (String.length webserver.letterBytes)) = true) by (vm_compute; done).
  rewrite forallb_forall in Hall. apply Hall, in_seq. lia.
Qed.

Lemma alpha_unreserved s : all_bytes is_alpha s = true -> all_bytes unreserved s = true.
Proof.
  induction s as [|c s IH]; [done|]. rewrite !all_bytes_cons. intros [Hc Hs]%andb_true_iff.
  unfold unreserved at 1. by rewrite Hc, IH.
Qed.

(** C37. The verifier and its challenge are in the form that PKCE asks for.  They have 43
    characters each, which is the least that a verifier may have, all of them
    unreserved, so that the URL and the form that carry them hold them as they
    are; and the challenge is a function of the verifier. *)
Theorem challenge_wf n : (forall b, String.length (sha256_Sum256 b) = 32%nat) ->
  exists v n', webserver.GenerateChallenge n = (Some (v, webserver.S256 v), n')
    /\ String.length v = 43%nat /\ all_bytes is_alpha v = true /\ QueryEscape v = v
    /\ String.length (webserver.S256 v) = 43%nat /\ all_bytes unreserved (webserver.S256 v) = true
    /\ QueryEscape (webserver.S256 v) = webserver.S256 v.
Proof.
  intros Hsum. destruct (RandStringBytes_run webserver.challengeVerifierLength n) as (v & n' & Hrun & Hl & Hv).
  exists v, n'. destruct (base64_trimmed (sha256_Sum256 v)) as [Hb Hbl]. rewrite Hsum in Hbl.
  unfold webserver.GenerateChallenge. rewrite (bind_run _ _ _ _ _ Hrun).
  split; [done|]. split; [done|]. split; [done|]. split; [by apply escape_unreserved, alpha_unreserved|].
  split; [exact Hbl|]. split; [exact Hb|]. by apply escape_unreserved.
Qed.

(** A log of requests with the replies to them. *)
Notation log := (list (webserver.LocalRequest * webserver.Outcome)).

Definition asks_challenge (x : webserver.LocalRequest * webserver.Outcome) : Prop :=
  exists q, x.1 = webserver.GetRequest q.

(** The browser has been sent to the provider with the challenge of a verifier. *)
Definition challenge_sent (h : webserver.Handler) (v : string) (o : webserver.Outcome) : Prop :=
  exists w q, o = webserver.Replied w /\ webserver.Reply_Status w = Some StatusFound
    /\ webserver.Location w = Some (webserver.idpClient h +:+ "/v1/authorize?" +:+ q)
    /\ Values_Get (ParseQuery q) "code_challenge" = webserver.S256 v
    /\ Values_Get (ParseQuery q) "code_challenge_method" = "S256"
    /\ Values_Get (ParseQuery q) "client_id" = webserver.clientID h
    /\ Values_Get (ParseQuery q) "redirect_uri" = webserver.localWebserverURL h.

(** The verifier of the last challenge in a log; empty when there was none. *)
Inductive last_challenge (h : webserver.Handler) : log -> string -> Prop :=
  | no_challenge l : Forall (fun x => ~ asks_challenge x) l -> last_challenge h l ""
  | a_challenge l1 q o l2 v :
      challenge_sent h v o -> Forall (fun x => ~ asks_challenge x) l2 ->
      last_challenge h (l1 ++ (webserver.GetRequest q, o) :: l2) v.

(** Tokens that the provider has given for a code of the log, to a form with the
    verifier of the last challenge before it. *)
Definition exchanged (h : webserver.Handler) (l : log) (t : okta_Token) : Prop :=
  exists l1 c o l2 v n1 n2 req resp body,
    l = l1 ++ (webserver.GetCode c, o) :: l2 /\ last_challenge h l1 v
    /\ Method req = "POST" /\ Request_URL req = webserver.idpClient h +:+ "/v1/token"
    /\ ParseQuery (Request_Body req)
       = okta.token_form (webserver.code_request h (Values_Get (ParseQuery c) "code") v)
    /\ http_Do req n1 = (Ok resp, n2) /\ StatusCode resp = StatusOK
    /\ Body resp = Ok body /\ json_Token body = Ok (Some t).

Lemma last_challenge_snoc h l v x : ~ asks_challenge x -> last_challenge h l v -> last_challenge h (l ++ [x]) v.
Proof.
  intros Hx [l' Hl|l1 q o l2 v' Ho Hl].
  - constructor. by apply Forall_app_2; [|apply Forall_singleton].
  - rewrite <- (assoc_L (++)), <- app_comm_cons. constructor; [done|]. by apply Forall_app_2; [|apply Forall_singleton].
Qed.

Lemma exchanged_snoc h l t x : exchanged h l t -> exchanged h (l ++ [x]) t.
Proof.
  intros (l1 & c & o & l2 & v & n1 & n2 & req & resp & body & -> & Hx).
  exists l1, c, o, (l2 ++ [x]), v, n1, n2, req, resp, body. split; [|done].
  by rewrite <- (assoc_L (++)), <- app_comm_cons.
Qed.

Lemma authorize_params_ok r : values_ok (okta.authorize_params r).
Proof. unfold okta.authorize_params. auto 12 with dir. Qed.
Lemma token_form_ok r : values_ok (okta.token_form r).
Proof. unfold okta.token_form. auto 12 with dir. Qed.

Lemma challenge_in_url h v nonce requestID :
  challenge_sent h v (webserver.Replied (webserver.Redirect
    (okta.AuthorizeURL (webserver.idpClient h) {|
      okta.Auth_ClientID := webserver.clientID h; okta.S256Challenge := webserver.S256 v; okta.Nonce := nonce;
      okta.Auth_RedirectURI := webserver.localWebserverURL h; okta.RequestID := requestID |})
    StatusFound webserver.new_reply)).
Proof.
  eexists _, _. split; [done|]. split; [done|]. split; [reflexivity|].
  rewrite parse_encode by apply authorize_params_ok. repeat split; reflexivity.
Qed.

Definition flow_inv (h : webserver.Handler) (l : log) (s : webserver.Server N) : Prop :=
  last_challenge h l (webserver.verifier (webserver.sessionStore s))
  /\ forall t, webserver.Tokens (webserver.sessionStore s) = Some t -> exchanged h l t.

Lemma flow_other h l s s' x : ~ asks_challenge x -> webserver.sessionStore s' = webserver.sessionStore s ->
  flow_inv h l s -> flow_inv h (l ++ [x]) s'.
Proof.
  intros Hx Hs [Hv Ht]. unfold flow_inv. rewrite Hs. split; [by apply last_challenge_snoc|].
  intros t Htok. by apply exchanged_snoc, Ht.
Qed.

Lemma handle_request h q l s : flow_inv h l s ->
  let '(o, s') := webserver.HandleRequestRedirect h q s in flow_inv h (l ++ [(webserver.GetRequest q, o)]) s'.
Proof.
  intros [Hv Ht]. unfold webserver.HandleRequestRedirect, webserver.GenerateChallenge, webserver.GenerateNonce, bind.
  unfold webserver.on_net at 1.
  destruct (RandStringBytes_run webserver.challengeVerifierLength (webserver.net s)) as (v & n1 & -> & _).
  cbn -[okta.AuthorizeURL ParseQuery webserver.S256]. unfold webserver.on_net.
  cbn -[okta.AuthorizeURL ParseQuery webserver.S256].
  destruct (rand_Read_up webserver.nonceLength n1) as (b & n2 & -> & _).
  cbn -[okta.AuthorizeURL ParseQuery webserver.S256].
  split; cbn -[okta.AuthorizeURL ParseQuery webserver.S256].
  - apply a_challenge; [apply challenge_in_url|constructor].
  - intros t Htok. by apply exchanged_snoc, Ht.
Qed.

Lemma RequestToken_ok base request n resp n' : okta.RequestToken base request n = (Ok resp, n') ->
  okta.Response_StatusCode resp = StatusOK -> exists req hresp body n1,
    Method req = "POST" /\ Request_URL req = base +:+ "/v1/token"
    /\ ParseQuery (Request_Body req) = okta.token_form request
    /\ http_Do req n = (Ok hresp, n1) /\ StatusCode hresp = StatusOK
    /\ Body hresp = Ok body /\ json_Token body = Ok (okta.Token resp).
Proof.
  unfold okta.RequestToken, okta.post_form, NewRequest, try_bind, bind.
  destruct (url_Parse (base +:+ "/v1/token")) as [u|]; cbn -[Values_Encode]; [|naive_solver].
  set (req := {| Method := "POST"; Request_URL := _; Request_Header := _; Request_Body := _ |}).
  destruct (http_Do req n) as [[hresp|err] n1] eqn:Hdo; [|naive_solver].
  destruct (Body hresp) as [body|err] eqn:Hbody; [|naive_solver]. unfold ret.
  destruct (decide (StatusCode hresp = StatusOK)) as [Hst|Hst]; [|naive_solver].
  destruct (json_Token body) as [t|err] eqn:Hjson; [|naive_solver].
  intros [= <- <-] _. exists req, hresp, body, n1. cbn [req Method Request_URL Request_Body].
  rewrite parse_encode by apply token_form_ok. done.
Qed.

Lemma handle_code h c l s : flow_inv h l s ->
  let '(o, s') := webserver.HandleCodeRedirect h c s in flow_inv h (l ++ [(webserver.GetCode c, o)]) s'.
Proof.
  intros Hinv. pose proof Hinv as [Hv Ht].
  assert (Hx : forall o, ~ asks_challenge (webserver.GetCode c, o)) by (intros o [q Hq]; discriminate).
  unfold webserver.HandleCodeRedirect, webserver.on_net, webserver.get_session, bind.
  destruct (okta.RequestToken _ _ _) as [[resp|err] n1] eqn:Hreq; cbn -[ParseQuery].
  - destruct (decide (okta.Response_StatusCode resp = StatusOK)) as [Hst|Hst]; cbn -[ParseQuery];
      [|by apply (flow_other _ _ s)].
    split; cbn -[ParseQuery]; [by apply last_challenge_snoc|]. intros t Htok.
    destruct (RequestToken_ok _ _ _ _ _ Hreq Hst) as (req & hresp & body & n2 & Hm & Hu & Hq & Hdo & Hs & Hb & Hj).
    eexists l, c, _, [], _, _, _, req, hresp, body. rewrite <- Htok.
    split; [reflexivity|]. split; [exact Hv|]. done.
  - by apply (flow_other _ _ s).
Qed.

Lemma serve_inv h reqs l s : flow_inv h l s ->
  let '(os, s') := webserver.serve h reqs s in length os = length reqs /\ flow_inv h (l ++ zip reqs os) s'.
Proof.
  revert l s. induction reqs as [|x reqs IH]; intros l s Hinv; [cbn; by rewrite app_nil_r|]. cbn [webserver.serve].
  unfold bind. assert (Hstep : let '(o, s1) := webserver.handle h x s in flow_inv h (l ++ [(x, o)]) s1).
  { destruct x as [|q|c]; cbn [webserver.handle].
    - apply (flow_other _ _ s); [by intros [q Hq]|done|done].
    - by apply handle_request.
    - by apply handle_code. }
  destruct (webserver.handle h x s) as [o s1]. specialize (IH (l ++ [(x, o)]) s1 Hstep).
  destruct (webserver.serve h reqs s1) as [os s2]. destruct IH as [Hlen IH]. unfold ret. cbn [length zip zip_with].
  rewrite <- (assoc_L (++)) in IH. split; [by rewrite Hlen|exact IH].
Qed.

(** Tokens of a flow in which the browser made these requests. *)
Definition obtained (h : webserver.Handler) (requests : list webserver.LocalRequest) (t : okta_Token) : Prop :=
  exists outs, length outs = length requests /\ exchanged h (zip requests outs) t.

Lemma oauth_flow_tokens e1 e2 e3 conf oktaClient (open : M N (result unit)) requests n st n' t :
  auth.oauth_flow e1 e2 e3 conf oktaClient open requests n = (Ok st, n') ->
  webserver.Tokens st = Some t -> obtained (auth.handler_of conf oktaClient) requests t.
Proof.
  unfold auth.oauth_flow, bind. destruct (webserver.StartLocalServer _ n) as [[[u|err] errs] n1]; [|naive_solver].
  unfold try_bind, bind. destruct (open n1) as [[u'|err] n2]; [|naive_solver].
  set (s0 := webserver.Build_Server _ _ _).
  assert (Hinv : flow_inv (auth.handler_of conf oktaClient) [] s0) by (split; [by constructor|done]).
  pose proof (serve_inv _ requests [] s0 Hinv) as Hserve.
  destruct (webserver.serve _ requests s0) as [outs s]. destruct Hserve as [Hlen [_ Ht]].
  destruct (webserver.Errs s) as [|[err|] errs']; [naive_solver..|]. intros [= <- <-] Htok. exists outs. auto.
Qed.

Lemma Login_run requests oktaClient session conf n s' n' :
  Session_AuthConfig session = Some conf ->
  auth.Login requests oktaClient session n = (Some (Ok s'), n') ->
  exists t, obtained (auth.handler_of conf oktaClient) requests t
    /\ Session_Tokens s' = Some {[ CurrentTenant s' := Some (tokens_of t) ]}
    /\ token.GetTenantNameFromToken (Okta_AccessToken t) = Ok (CurrentTenant s')
    /\ token.GetUserFromToken (Okta_AccessToken t) = Ok (User s')
    /\ Session_AuthConfig s' = Some conf.
Proof.
  intros Hconf. unfold auth.Login. rewrite Hconf. unfold try_bind, bind, ret.
  destruct (auth.oauth_flow _ _ _ _ _ _ _ _) as [[st|err] n1] eqn:Hflow; [|naive_solver].
  destruct (webserver.Tokens st) as [t|] eqn:Htok; [|naive_solver].
  destruct (token.GetTenantNameFromToken _) as [tenant|err] eqn:Htenant; [|naive_solver].
  destruct (token.GetUserFromToken _) as [user|err] eqn:Huser; [|naive_solver].
  intros [= <- <-]. exists t. split; [by eapply oauth_flow_tokens|]. done.
Qed.

(** C20. A login belongs to its challenge.  The tokens that it stores were given by the
    provider for a code that the browser brought, in answer to a form with the
    verifier whose challenge the browser had last been sent to the provider with,
    the client and the address of the local server; only with no challenge before is
    the verifier empty.  They are stored under the organization and the user
    that the access token names, and no tokens of before are kept. *)
Theorem login_follows_challenge requests oktaClient session conf n s' n' :
  Session_AuthConfig session = Some conf ->
  auth.Login requests oktaClient session n = (Some (Ok s'), n') ->
  exists t, obtained (auth.handler_of conf oktaClient) requests t
    /\ Session_Tokens s' = Some {[ CurrentTenant s' := Some (tokens_of t) ]}
    /\ token.GetTenantNameFromToken (Okta_AccessToken t) = Ok (CurrentTenant s')
    /\ token.GetUserFromToken (Okta_AccessToken t) = Ok (User s')
    /\ Session_AuthConfig s' = Some conf.
Proof. apply Login_run. Qed.

End flow.

(** ** An example *)

Module DemoLogin.

(** A provider that gives tokens for the organization that a code names; a refresh
    token names its organization too. *)
Definition answer (req : HttpRequest) : string :=
  let form := ParseQuery (Request_Body req) in
  let grant := Values_Get form "grant_type" in
  if decide (grant = "authorization_code") then Values_Get form "code"
  else if decide (grant = "refresh_token") then TrimPrefix (Values_Get form "refresh_token") "r:"
  else "ok".

Definition bytes_32 : string := String.string_of_list_ascii (repeat "x"%char 32).

#[export] Instance demo_net {N} : HubNet N := {|
  http_Do req n := (Ok {| StatusCode := StatusOK; Body := Ok (answer req) |}, n);
  http_Listen _ n := (None, n); rand_Int _ n := (Ok 0%Z, n);
  rand_Read len n := (Ok (String.string_of_list_ascii (repeat "n"%char len)), n);
  time_Now _ := 50%Z; browser_OpenURL _ n := (Ok tt, n);
  promptui_Select l n := (match l with [] => Err (Plain "nothing to select") | x :: _ => Ok x end, n) |}.

#[export] Instance demo_lib : HubLib := {|
  sha256_Sum256 _ := bytes_32; MapClaims := string;
  jwt_ParseUnverified t := match GoStrings.strip_prefix "a:" t with Some org => Ok org | None => Err (Plain "malformed") end;
  jwt_claim org claim :=
    if decide (claim = "tenant_name") then Some (ClaimString org)
    else if decide (claim = "sub") then Some (ClaimString "ann") else None;
  jwt_ExpirationTime _ := Ok (Some 100%Z);
  json_Token body := Ok (Some {|
    Okta_AccessToken := "a:" +:+ body; Okta_RefreshToken := "r:" +:+ body; Okta_IDToken := "i:" +:+ body |});
  json_ErrorResponse _ := Ok tt; json_TenantList _ := Ok (Some []) |}.

Lemma length_repeat_bytes c k : String.length (String.string_of_list_ascii (repeat c k)) = k.
Proof. induction k as [|k IH]; [done|]. simpl. by rewrite IH. Qed.

#[export] Instance demo_rand {N} : RandUp (N := N).
Proof.
  split; simpl.
  - intros max n Hmax. exists 0%Z, n. split; [done|]. lia.
  - intros len n. eexists _, n. split; [done|]. apply length_repeat_bytes.
Qed.

Definition conf : AuthConfig := {|
  ClientID := "cli"; IdpProductID := "dir"; IdpFrontendAddress := "https://idp"; IdpBackendAddress := "https://api";
  IdpIssuerAddress := "https://okta"; HubBackendAddress := "hub:443" |}.
Definition session : HubSession := {|
  Session_Tokens := None; CurrentTenant := ""; User := ""; Session_AuthConfig := Some conf |}.
Definition requests : list webserver.LocalRequest :=
  [webserver.GetHealthz; webserver.GetRequest "request=1"; webserver.GetCode "code=org%20one"].
Definition logged_in : HubSession := {|
  Session_Tokens := Some {[ "org one" := Some {| IDToken := "i:org one"; RefreshToken := "r:org one"; AccessToken := "a:org one" |} ]};
  CurrentTenant := "org one"; User := "ann"; Session_AuthConfig := Some conf |}.

Lemma challenge_wf_witness : exists v, webserver.GenerateChallenge tt = (Some (v, webserver.S256 v), tt)
  /\ String.length (webserver.S256 v) = 43%nat.
Proof.
  assert (Hsum : forall b, String.length (sha256_Sum256 b) = 32%nat) by done.
  destruct (challenge_wf tt Hsum) as (v & [] & Hrun & _ & _ & _ & Hl & _). by exists v.
Defined.

Lemma login_follows_challenge_witness :
  auth.Login requests "https://okta" session tt = (Some (Ok logged_in), tt)
  /\ exists t, obtained (N := unit) (auth.handler_of conf "https://okta") requests t /\ Okta_AccessToken t = "a:org one".
Proof.
  assert (Hrun : auth.Login requests "https://okta" session tt = (Some (Ok logged_in), tt)) by (vm_compute; reflexivity).
  split; [exact Hrun|].
  destruct (login_follows_challenge requests "https://okta" session conf tt logged_in tt eq_refl Hrun)
    as (t & Ho & Ht & _). exists t. split; [exact Ho|].
  apply (f_equal (fun m : option (gmap string (option Tokens)) => map_at m "org one")) in Ht. unfold map_at in Ht.
  cbn [Session_Tokens CurrentTenant logged_in mbind option_bind] in Ht. rewrite !lookup_singleton_eq in Ht. by injection Ht.
Defined.

End DemoLogin.
