(* ===== verification/HubCommands.v ===== *)
(** * Commands of the hub client

    hub/config/config.go (Module [config]): the configuration of a hub.
    hub/cmd (Module [cmd]): what runs before each command (hub.go), and login,
    logout, push, pull, orgs and orgs switch.  They work on the file of sessions
    and the network, so that this file composes sessions, login and agents. *)

From S2P Require Import Prelude GoStrings GoUrl GoForm Interfaces HubSession HubAgent HubLogin.
From stdpp Require Import pretty.

Open Scope string_scope.
Open Scope list_scope.
Open Scope go_scope.

(** The configuration document, [url.JoinPath], connecting with gRPC, reading the
    document to push, and the columns of a list. *)
Class HubSetup := {
  json_AuthConfig : string -> result (option AuthConfig);
  url_JoinPath : string -> string -> result string;
  grpc_NewClient : string -> result unit;
  agent_GetBytes : string -> bool -> result string;
  text_AlignLeft : string -> nat -> string;
}.

Module config.
Section config.
Context {N : Type} `{!HubNet N} `{!HubSetup}.

Definition DefaultHubBackendGRPCPort : Z := 443.
Definition ErrInvalidFrontendURL : string := "invalid frontend URL: ".
Definition ErrFetchingConfig : string := "error fetching config: ".
Definition ErrParsingConfig : string := "error parsing config: ".

(** utils/url *)
Definition ValidateSecureURL (u : string) : option error :=
  match url_Parse u with
  | None => Some (Plain "invalid URL format")
  | Some parsedURL => if decide (Scheme parsedURL <> "https") then Some (Plain "URL scheme must be HTTPS") else None
  end.

Definition backend_address (addr : string) : string :=
  let addr := TrimPrefix addr "http://" in
  let addr := TrimPrefix addr "https://" in
  let addr := TrimSuffix addr "/" in
  let addr := TrimSuffix addr "/v1alpha1" in
  addr +:+ ":" +:+ pretty DefaultHubBackendGRPCPort.

Definition idp_address (addr : string) : string := TrimSuffix (TrimSuffix addr "/") "/v1alpha1".

(** Each error is one of the named errors around another; the name is kept as its
    text. *)
Definition FetchAuthConfig (frontendURL : string) : M N (result AuthConfig) :=
  match ValidateSecureURL frontendURL with
  | Some err => ret (Err (Wrap ErrInvalidFrontendURL err))
  | None =>
      match url_JoinPath frontendURL "config.json" with
      | Err err => ret (Err (Wrap ErrInvalidFrontendURL err))
      | Ok configJSONURL =>
          match NewRequest "GET" configJSONURL [] "" with
          | None => ret (Err (Plain ErrFetchingConfig))
          | Some req =>
              let? resp := http_Do req else err => ret (Err (Wrap ErrFetchingConfig err)) in
              if decide (StatusCode resp <> StatusOK) then
                ret (Err (Wrap ErrFetchingConfig (Plain "failed to communicate with idp provider")))
              else match Body resp with
              | Err err => ret (Err (Wrap ErrFetchingConfig err))
              | Ok body =>
                  match json_AuthConfig body with
                  | Err err => ret (Err (Wrap ErrParsingConfig err))
                  | Ok None => ret (Err (Wrap ErrParsingConfig (Plain "config is nil")))
                  | Ok (Some conf) => ret (Ok {|
                      ClientID := ClientID conf; IdpProductID := IdpProductID conf;
                      IdpFrontendAddress := IdpFrontendAddress conf;
                      IdpBackendAddress := idp_address (IdpBackendAddress conf);
                      IdpIssuerAddress := IdpIssuerAddress conf;
                      HubBackendAddress := backend_address (HubBackendAddress conf) |})
                  end
              end
          end
      end
  end.

End config.
End config.

(** The commands, with their arguments and with the requests that the browser
    makes while the command waits for it. *)
Inductive Command :=
  | CmdLogin (requests : list webserver.LocalRequest)
  | CmdLogout
  | CmdPush (args : list string) (FromStdIn : bool)
  | CmdPull (fuel : nat) (args : list string)
  | CmdOrgs
  | CmdSwitch (Org : string) (requests : list webserver.LocalRequest).

(** How a command ends.  [CmdStuck] is a download that went on for longer than the
    fuel it was given. *)
Inductive CmdResult := CmdOk (out : string) | CmdFail (err : error) | CmdPanic | CmdStuck.

Module cmd.
Section cmd.
Context {F N : Type} `{!SessionFiles F} `{!HubNet N} `{!HubLib} `{!HubService N} `{!AgentLib} `{!HubSetup}.
Context (path ServerAddress : string).

Definition empty_session : HubSession := {|
  Session_Tokens := None; CurrentTenant := ""; User := ""; Session_AuthConfig := None |}.

Definition with_config (s : HubSession) (conf : AuthConfig) : HubSession := {|
  Session_Tokens := Session_Tokens s; CurrentTenant := CurrentTenant s; User := User s;
  Session_AuthConfig := Some conf |}.

(** [cmd.Name() != "login" && cmd.Name() != "logout"] *)
Definition refreshes (c : Command) : bool := match c with CmdLogin _ | CmdLogout => false | _ => true end.

(** hub.go: what runs before a command; its session is put into the context.  [None]
    is a panic. *)
Definition PersistentPreRunE (c : Command) : M (Machine F N) (option (result HubSession)) :=
  let! got := fun m => (sessionstore.GetHubSession path ServerAddress (machine_files m), m) in
  match got with
  | None => ret None
  | Some (inl (ErrSessionNotFound _)) | Some (inr _) =>
      let currentSession := match got with Some (inr s) => s | _ => empty_session end in
      let? authConfig := on_machine (config.FetchAuthConfig ServerAddress)
        else err => ret (Some (Err (Wrap "failed to fetch auth config: " err))) in
      let currentSession := with_config currentSession authConfig in
      let! refreshed :=
        if refreshes c
        then token.RefreshTokenIfExpired path ServerAddress currentSession (IdpIssuerAddress authConfig)
        else ret (Some (None, currentSession)) in
      match refreshed with
      | None => ret None
      | Some (Some err, _) => ret (Some (Err (Wrap "failed to refresh expired access token: " err)))
      | Some (None, currentSession) =>
          let! saved := on_files (sessionstore.SaveHubSession path ServerAddress currentSession) in
          ret (Some match saved with
                    | Some _ => Err (Plain "failed to save updated session with auth config")
                    | None => Ok currentSession
                    end)
      end
  | Some (inl _) => ret (Some (Err (Plain "failed to get hub session")))
  end.

Definition issuer (s : HubSession) : string :=
  match Session_AuthConfig s with Some conf => IdpIssuerAddress conf | None => "" end.
Definition backend (s : HubSession) : string :=
  match Session_AuthConfig s with Some conf => HubBackendAddress conf | None => "" end.

Definition newline : string := String (ascii_of_nat 10) "".

(** login.go: the session of the context is there, and its configuration too. *)
Definition run_login (requests : list webserver.LocalRequest) (currentSession : HubSession)
  : M (Machine F N) CmdResult :=
  let! updated := on_machine (auth.Login requests (issuer currentSession) currentSession) in
  match updated with
  | None => ret CmdPanic
  | Some (Err err) => ret (CmdFail (Wrap "failed to login: " err))
  | Some (Ok updatedSession) =>
      let! saved := on_files (sessionstore.SaveHubSession path ServerAddress updatedSession) in
      ret match saved with
          | Some _ => CmdFail (Plain "failed to save tokens")
          | None => CmdOk ("Successfully logged in to Agent Hub" +:+ newline +:+ "Address: " +:+ ServerAddress
              +:+ newline +:+ "User: " +:+ User updatedSession +:+ newline +:+ "Organization: "
              +:+ CurrentTenant updatedSession +:+ newline)
          end
  end.

(** logout.go *)
Definition run_logout (currentSession : HubSession) : M (Machine F N) CmdResult :=
  if negb (auth.HasLoginCreds (Some currentSession)) then
    ret (CmdFail (Plain "no active session found for the address. please login first"))
  else
    let! out := auth.Logout path ServerAddress (Some currentSession) (issuer currentSession) in
    ret match out with
        | None => CmdPanic
        | Some (Some err) => CmdFail (Wrap "failed to logout: " err)
        | Some None => CmdOk ("Successfully logged out from Agent Hub" +:+ newline)
        end.

(** push.go *)
Definition run_push (args : list string) (FromStdIn : bool) (currentSession : HubSession)
  : M (Machine F N) CmdResult :=
  if negb (auth.HasLoginCreds (Some currentSession)) then
    ret (CmdFail (Plain ("you need to be logged in to push to the hub" +:+ newline
      +:+ "use `dirctl hub login` command to login")))
  else match grpc_NewClient (backend currentSession) with
  | Err err => ret (CmdFail (Wrap "failed to create hub client: " err))
  | Ok _ =>
      if decide (2 < length args)%nat then
        ret (CmdFail (Plain "the following arguments could be given: <repository>:<version> [model.json]"))
      else match agent_GetBytes (default "" (args !! 1%nat)) FromStdIn with
      | Err err => ret (CmdFail err)
      | Ok agentBytes =>
          match args with
          | [] => ret CmdPanic
          | repo :: _ =>
              let! pushed := on_machine (hub.service_PushAgent agentBytes (hub.ParseRepoTagID repo)
                               (Some currentSession)) in
              ret match pushed with
                  | None => CmdStuck
                  | Some (Err err) => CmdFail (Wrap "failed to push agent: " err)
                  | Some (Ok resp) => CmdOk (Response_Digest resp +:+ newline)
                  end
          end
      end
  end.

(** pull.go *)
Definition run_pull (fuel : nat) (args : list string) (currentSession : HubSession) : M (Machine F N) CmdResult :=
  match args with
  | [arg] =>
      if negb (auth.HasLoginCreds (Some currentSession)) then
        ret (CmdFail (Plain "could not get current hub session"))
      else match grpc_NewClient (backend currentSession) with
      | Err err => ret (CmdFail (Wrap "failed to create hub client: " err))
      | Ok _ =>
          match hub.ParseAgentID arg with
          | Err err => ret (CmdFail (Wrap "invalid agent id: " err))
          | Ok agentID =>
              let! pulled := on_machine (hub.service_PullAgent fuel (Some agentID) (Some currentSession)) in
              ret match pulled with
                  | None => CmdStuck
                  | Some (Err err) => CmdFail (Wrap "failed to pull agent: " err)
                  | Some (Ok prettyModel) => CmdOk (prettyModel +:+ newline)
                  end
          end
      end
  | _ => ret (CmdFail (Plain "agent id is the only required argument"))
  end.

(** orgs.go.  [None] is the panic on an organization that is null. *)
Definition longest (f : TenantResponse -> string) (tenants : list TenantResponse) : nat :=
  foldl (fun n t => if decide (n < String.length (f t))%nat then String.length (f t) else n) 0%nat tenants.

Definition selectionMark : string := "*".
Definition gapSize : nat := 4.

Definition render_row (currentTenant : string) (lName lId : nat) (t : TenantResponse) : string :=
  text_AlignLeft (if decide (Tenant_Name t = currentTenant) then selectionMark else "") (String.length selectionMark + 1)
  +:+ text_AlignLeft (Tenant_Name t) (lName + gapSize) +:+ text_AlignLeft (Tenant_ID t) lId.

Definition renderList (tenants : list (option TenantResponse)) (currentTenant : string) : option string :=
  tenants ← mapM id tenants;
  let lName := longest Tenant_Name tenants in
  let lId := longest Tenant_ID tenants in
  Some (foldr String.append "" ((fun t => render_row currentTenant lName lId t +:+ newline) <$> tenants)).

Definition run_orgs (currentSession : HubSession) : M (Machine F N) CmdResult :=
  if negb (auth.HasLoginCreds (Some currentSession)) then
    ret (CmdFail (Plain "no current session found. please login first"))
  else
    let! fetched := on_machine (auth.FetchUserTenants currentSession) in
    ret match fetched with
        | None => CmdPanic
        | Some (Err err) => CmdFail (Wrap "failed to get orgs list: " err)
        | Some (Ok orgs) =>
            match renderList orgs (CurrentTenant currentSession) with
            | None => CmdPanic
            | Some out => CmdOk out
            end
        end.

(** orgswitch/switch.go; it fetches the organizations as [FetchUserTenants] does. *)
Definition run_switch (Org : string) (requests : list webserver.LocalRequest) (currentSession : HubSession)
  : M (Machine F N) CmdResult :=
  if negb (auth.HasLoginCreds (Some currentSession)) then
    ret (CmdFail (Plain "no current session found. please login first"))
  else match Session_AuthConfig currentSession, current_tokens currentSession with
  | Some conf, Some (Some t) =>
      let? idpResp := on_machine (idp.GetTenantsInProduct (IdpBackendAddress conf) (IdpProductID conf) (AccessToken t))
        else err => ret (CmdFail (Wrap "could not fetch tenants: " err)) in
      match idp.TenantList idpResp with
      | None => ret (CmdFail (Plain "no tenants found"))
      | Some tenants =>
          let! switched := on_machine (auth.SwitchTenant requests Org tenants currentSession (issuer currentSession)) in
          match switched with
          | None => ret CmdPanic
          | Some (Err err) => ret (CmdFail (Wrap "failed to switch tenant: " err))
          | Some (Ok (updatedSession, msg)) =>
              let! saved := on_files (sessionstore.SaveHubSession path ServerAddress updatedSession) in
              ret match saved with
                  | Some _ => CmdFail (Plain "could not save session to session store")
                  | None => CmdOk (if decide (msg = "") then "" else msg +:+ newline)
                  end
          end
      end
  | _, _ => ret CmdPanic
  end.

Definition RunE (c : Command) (currentSession : HubSession) : M (Machine F N) CmdResult :=
  match c with
  | CmdLogin requests => run_login requests currentSession
  | CmdLogout => run_logout currentSession
  | CmdPush args FromStdIn => run_push args FromStdIn currentSession
  | CmdPull fuel args => run_pull fuel args currentSession
  | CmdOrgs => run_orgs currentSession
  | CmdSwitch Org requests => run_switch Org requests currentSession
  end.

(** A command, with what runs before it. *)
Definition hub_command (c : Command) : M (Machine F N) CmdResult :=
  let! session := PersistentPreRunE c in
  match session with
  | None => ret CmdPanic
  | Some (Err err) => ret (CmdFail err)
  | Some (Ok currentSession) => RunE c currentSession
  end.

End cmd.
End cmd.

(** ** The sessions of a machine *)

Section sessions.
Context {F N : Type} `{!SessionFiles F} `{!HubNet N} `{!HubLib} `{!HubService N} `{!AgentLib} `{!HubSetup} `{!RandUp}.
Context (files : F -> gmap string File) (dirs : F -> gset string)
  (decode : string -> result (option HubSessions)) (encode : HubSessions -> string).
Context `{!SessionFilesSpec files dirs decode encode}.

(** The identity provider: a refresh token belongs to one organization, the one that
    the access token given with it names, and refreshing keeps it. *)
Class ProviderSpec (owner : string -> string) : Prop := {
  issued_owner req n resp n' body t tenant : http_Do req n = (Ok resp, n') -> Body resp = Ok body ->
    json_Token body = Ok (Some t) -> token.GetTenantNameFromToken (Okta_AccessToken t) = Ok tenant ->
    owner (Okta_RefreshToken t) = tenant;
  refreshed_owner base req n resp t : (okta.RefreshToken base req n).1 = Ok resp -> okta.Token resp = Some t ->
    token.GetTenantNameFromToken (Okta_AccessToken t) = Ok (owner (okta.Refresh_RefreshToken req))
    /\ owner (Okta_RefreshToken t) = owner (okta.Refresh_RefreshToken req);
}.
Context (owner : string -> string) `{!ProviderSpec owner}.

Definition token_for (tenant : string) (t : Tokens) : Prop :=
  token.GetTenantNameFromToken (AccessToken t) = Ok tenant /\ owner (RefreshToken t) = tenant.

(** Tokens are under the organization that they are for, and those of the current
    organization are there. *)
Definition session_ok (s : HubSession) : Prop :=
  (forall tenant t, map_at (Session_Tokens s) tenant = Some (Some t) -> token_for tenant t)
  /\ (CurrentTenant s = "" \/ exists t, current_tokens s = Some (Some t)).

Definition sessions_ok (st : gmap string HubSession) : Prop := map_Forall (fun _ => session_ok) st.

Lemma session_ok_empty : session_ok cmd.empty_session.
Proof. split; [done|by left]. Qed.

Lemma session_ok_config s conf : session_ok s -> session_ok (cmd.with_config s conf).
Proof. done. Qed.

Lemma obtained_for h requests t tenant : obtained h requests t ->
  token.GetTenantNameFromToken (Okta_AccessToken t) = Ok tenant -> token_for tenant (tokens_of t).
Proof.
  intros (outs & _ & l1 & c & o & l2 & v & n1 & n2 & req & resp & body & _ & _ & _ & _ & _ & Hdo & _ & Hb & Hj) Ht.
  split; [done|]. by eapply issued_owner.
Qed.

Lemma Login_ok requests oktaClient s n s' n' :
  auth.Login requests oktaClient s n = (Some (Ok s'), n') -> session_ok s'.
Proof.
  intros Hl. destruct (Session_AuthConfig s) as [conf|] eqn:Hconf; [|unfold auth.Login in Hl; by rewrite Hconf in Hl].
  destruct (Login_run _ _ _ _ _ _ _ Hconf Hl) as (t & Ho & Ht & Hn & _). unfold session_ok, current_tokens. rewrite Ht.
  unfold map_at. cbn [option_bind mbind]. split.
  - intros tenant t' [<- [= <-]]%lookup_singleton_Some. by eapply obtained_for.
  - right. exists (tokens_of t). apply lookup_singleton_eq.
Qed.

Lemma update_ok s tenant t m : session_ok s -> Session_Tokens s = Some m -> token_for tenant t ->
  session_ok {| Session_Tokens := Some (<[tenant := Some t]> m); CurrentTenant := tenant;
                User := User s; Session_AuthConfig := Session_AuthConfig s |}.
Proof.
  intros [Hs _] Hm Ht. unfold map_at in Hs. rewrite Hm in Hs. split.
  - intros tenant' t'. unfold map_at. cbn [Session_Tokens option_bind mbind]. rewrite lookup_insert_Some.
    intros [[<- [= <-]]|[_ Hl]]; [done|by apply Hs].
  - right. exists t. apply lookup_insert_eq.
Qed.

Lemma SwitchTenant_ok requests Org tenants s oktaClient n s' msg n' : session_ok s ->
  auth.SwitchTenant requests Org tenants s oktaClient n = (Some (Ok (s', msg)), n') -> session_ok s'.
Proof.
  intros Hs. unfold auth.SwitchTenant, try_bind, bind. destruct (auth.tenantsToMap tenants) as [tm|]; [|naive_solver].
  destruct (auth.selectTenant tm Org n) as [[selected|err] n1]; [|naive_solver].
  destruct (decide (selected = CurrentTenant s)); [by intros [= <- <- <-]|]. unfold auth.canReuseToken.
  destruct (now n1) as [nw nn].
  destruct (map_at (Session_Tokens s) selected) as [[t|]|] eqn:Ht; [|naive_solver|].
  1: destruct (negb _); [unfold ret; intros [= <- <- <-]; split; [apply Hs|right; by exists t]|].
  all: destruct (Session_AuthConfig s) as [conf|]; [|naive_solver].
  all: destruct (auth.performOAuthSwitch _ _ _ _ _) as [[st|err] n2] eqn:Hflow; [|naive_solver].
  all: destruct (webserver.Tokens st) as [new|] eqn:Hnew; [|naive_solver].
  all: destruct (token.GetTenantNameFromToken _) as [newTenant|err] eqn:Hname; [|naive_solver].
  all: destruct (decide (newTenant <> selected)) as [|Heq]; [naive_solver|].
  all: assert (newTenant = selected) by (by destruct (decide (newTenant = selected))); subst newTenant.
  all: unfold auth.updateSessionWithNewTokens; destruct (Session_Tokens s) as [m|] eqn:Hm; [|naive_solver].
  all: intros [= <- <- <-]; apply update_ok; [done|done|].
  all: eapply obtained_for; [by eapply oauth_flow_tokens|done].
Qed.

(** Refreshing keeps the organization of the tokens. *)
Lemma refreshed_ok s t new base req n resp : session_ok s -> current_tokens s = Some (Some t) ->
  okta.Refresh_RefreshToken req = RefreshToken t ->
  (okta.RefreshToken base req n).1 = Ok resp -> okta.Token resp = Some new ->
  session_ok {| Session_Tokens := <[CurrentTenant s := Some (tokens_of new)]> <$> Session_Tokens s;
                CurrentTenant := CurrentTenant s; User := User s; Session_AuthConfig := Session_AuthConfig s |}.
Proof.
  intros Hs Ht Hreq Hresp Hnew. destruct (refreshed_owner _ _ _ _ _ Hresp Hnew) as [Hname Howner].
  rewrite Hreq in Hname, Howner. unfold current_tokens, map_at in Ht.
  destruct (Session_Tokens s) as [m|] eqn:Hm; [|done]. simpl in Ht.
  assert (Htok : token_for (CurrentTenant s) t) by (apply Hs; unfold map_at; by rewrite Hm).
  destruct Htok as [_ Ho]. rewrite Ho in Hname, Howner. by apply (update_ok s).
Qed.

(** ** What a run does to the sessions

    [runs addr c Q]: a run of [c] on a machine that has the sessions [st] leaves it
    with sessions [st'], which are those of before but for the one of [addr], and
    are in order if those at the start ([ok]) were; [Q] says more of the answer
    and of [st']. *)

Section runs.
Context (path : string) (ok : Prop) (addr : string).
Notation rep := (store_rep files decode path).
Notation W := (Machine F N).

Definition runs {A} (c : M W A) (Q : A -> gmap string HubSession -> Prop) (st : gmap string HubSession) (m : W)
  : Prop :=
  rep st (machine_files m) -> (ok -> sessions_ok st) -> exists st', rep st' (machine_files (c m).2)
  /\ (forall a, a <> addr -> st' !! a = st !! a) /\ (ok -> sessions_ok st') /\ Q (c m).1 st'.

Lemma runs_ret {A} (a : A) (Q : A -> gmap string HubSession -> Prop) st m : Q a st -> runs (ret a) Q st m.
Proof. intros HQ Hrep. by exists st. Qed.

Lemma runs_bind {A B} (c : M W A) (k : A -> M W B) R (Q : B -> gmap string HubSession -> Prop) st m :
  runs c R st m -> (forall a st1 m1, R a st1 -> runs (k a) Q st1 m1) -> runs (bind c k) Q st m.
Proof.
  intros Hc Hk Hrep Hok. destruct (Hc Hrep Hok) as (st1 & Hrep1 & Hf1 & Hok1 & HR). unfold bind.
  destruct (c m) as [a m1]. cbn [fst snd] in *.
  destruct (Hk a st1 m1 HR Hrep1 Hok1) as (st2 & Hrep2 & Hf2 & Hok2 & HQ). exists st2.
  split; [done|]. split; [|done]. intros x Hx. by rewrite Hf2, Hf1.
Qed.

Lemma runs_try {A B} (c : M W (result A)) (h : error -> M W B) (k : A -> M W B) R
    (Q : B -> gmap string HubSession -> Prop) st m :
  runs c R st m -> (forall e st1 m1, R (Err e) st1 -> runs (h e) Q st1 m1) ->
  (forall a st1 m1, R (Ok a) st1 -> runs (k a) Q st1 m1) -> runs (try_bind c h k) Q st m.
Proof. intros Hc Hh Hk. apply (runs_bind _ _ R); [done|]. intros [a|e]; auto. Qed.

(** The network alone. *)
Lemma runs_machine {A} (c : M N A) st m :
  runs (on_machine c) (fun a st' => st' = st /\ a = (c (machine_net m)).1) st m.
Proof. intros Hrep Hok. exists st. unfold on_machine. by destruct (c (machine_net m)) as [a n]. Qed.

Lemma runs_get st m :
  runs (fun m => (sessionstore.GetHubSession path addr (machine_files m), m))
    (fun r st' => st' = st /\ r = Some match st !! addr with
       | Some s => inr s | None => inl (ErrSessionNotFound addr) end) st m.
Proof. intros Hrep Hok. exists st. split; [done|]. split; [done|]. split; [done|]. split; [done|]. by eapply Get_run. Qed.

Lemma runs_save s st m : (ok -> session_ok s) ->
  runs (on_files (sessionstore.SaveHubSession path addr s)) (fun r st' => r = None /\ st' = <[addr := s]> st) st m.
Proof.
  intros Hs Hrep Hok. destruct (SaveHubSession_run files dirs decode encode path st addr s _ Hrep) as (f' & Hrun & Hrep').
  exists (<[addr := s]> st). unfold on_files. rewrite Hrun. split; [done|].
  split; [intros a Ha; by rewrite lookup_insert_ne|]. split; [|done]. intros Ho. apply map_Forall_insert_2; auto.
  by apply Hok.
Qed.

Lemma runs_remove st m :
  runs (on_files (sessionstore.RemoveSession path addr)) (fun r st' => r = None /\ st' = delete addr st) st m.
Proof.
  intros Hrep Hok. destruct (Remove_run files dirs decode encode path st addr _ Hrep) as (f' & Hrun & Hrep').
  exists (delete addr st). unfold on_files. rewrite Hrun. split; [done|].
  split; [intros a Ha; by rewrite lookup_delete_ne|]. split; [|done]. intros Ho. by apply map_Forall_delete, Hok.
Qed.

(** Refreshing: the session stays in order, and when it is saved it is the session
    of the address; without tokens nothing happens. *)
Definition refresh_post (s : HubSession) (st : gmap string HubSession)
    (r : option (option error * HubSession)) (st' : gmap string HubSession) : Prop :=
  (st' = st \/ is_Some (st' !! addr))
  /\ (forall e s', r = Some (e, s') -> (ok -> session_ok s') /\ (current_tokens s = None -> s' = s /\ e = None)).

Lemma refresh_same s st e : (ok -> session_ok s) -> (e = None \/ current_tokens s <> None) ->
  refresh_post s st (Some (e, s)) st.
Proof. intros Hs He. split; [by left|]. intros e' s' [= <- <-]. split; [done|]. intros Ht. split; [done|]. by destruct He. Qed.

Lemma runs_refresh s oktaClient st m : (ok -> session_ok s) ->
  runs (token.RefreshTokenIfExpired path addr s oktaClient) (refresh_post s st) st m.
Proof.
  intros Hs. unfold token.RefreshTokenIfExpired.
  assert (Hpanic : refresh_post s st None st) by (split; [by left|done]).
  destruct (current_tokens s) as [[t|]|] eqn:Ht; [|(apply runs_ret, refresh_same; [done|by left])..].
  assert (Hsome : forall e, refresh_post s st (Some (e, s)) st)
    by (intros e; apply refresh_same; [done|right; by rewrite Ht]).
  case_decide; [by apply runs_ret|].
  eapply runs_bind; [apply runs_machine|]. intros nw st1 m1 [-> _].
  case_match; [by apply runs_ret|]. case_decide; [by apply runs_ret|].
  destruct (Session_AuthConfig s) as [conf|] eqn:Hconf; [|by apply runs_ret].
  eapply runs_try; [apply runs_machine|intros e st1 m2 [-> _]; by apply runs_ret|].
  intros resp st1 m2 [-> Hresp]. case_decide; [by apply runs_ret|].
  destruct (okta.Token resp) as [new|] eqn:Hnew; [|by apply runs_ret].
  assert (Hok : ok -> session_ok {|
    Session_Tokens := <[CurrentTenant s := Some (tokens_of new)]> <$> Session_Tokens s;
    CurrentTenant := CurrentTenant s; User := User s; Session_AuthConfig := Some conf |}).
  { intros Ho. rewrite <- Hconf. eapply refreshed_ok; [by apply Hs|exact Ht| |exact (eq_sym Hresp)|exact Hnew]. done. }
  eapply runs_bind; [by apply runs_save|]. intros saved st2 m3 [-> ->]. apply runs_ret. split.
  - right. rewrite lookup_insert_eq. by eexists.
  - intros e s' [= <- <-]. split; [done|]. by rewrite Ht.
Qed.

(** What runs before a command puts a session into the context that is saved; it
    has no tokens if there was no session. *)
Definition prerun_post (st : gmap string HubSession) (r : option (result HubSession)) (st' : gmap string HubSession) : Prop :=
  forall s, r = Some (Ok s) -> st' !! addr = Some s /\ (ok -> session_ok s)
  /\ (st !! addr = None -> current_tokens s = None).

Lemma runs_prerun c st m : runs (cmd.PersistentPreRunE path addr c) (prerun_post st) st m.
Proof.
  intros Hrep Hok. apply (runs_bind _ _ _ (prerun_post st) st m (runs_get st m)); [|done|done].
  clear m Hrep. intros got st1 m [-> ->]. set (s0 := match st !! addr with Some s => s | None => cmd.empty_session end).
  assert (Hs0 : ok -> session_ok s0).
  { intros Ho. unfold s0. destruct (st !! addr) as [s|] eqn:Hs; [|apply session_ok_empty].
    by apply (Hok Ho addr). }
  assert (Hnone : st !! addr = None -> current_tokens s0 = None) by (unfold s0; by intros ->).
  assert (Hk : runs (let? authConfig := on_machine (config.FetchAuthConfig addr)
        else err => ret (Some (Err (Wrap "failed to fetch auth config: " err))) in
      let! refreshed :=
        if cmd.refreshes c
        then token.RefreshTokenIfExpired path addr (cmd.with_config s0 authConfig) (IdpIssuerAddress authConfig)
        else ret (Some (None, cmd.with_config s0 authConfig)) in
      match refreshed with
      | None => ret None
      | Some (Some err, _) => ret (Some (Err (Wrap "failed to refresh expired access token: " err)))
      | Some (None, currentSession) =>
          let! saved := on_files (sessionstore.SaveHubSession path addr currentSession) in
          ret (Some match saved with
                    | Some _ => Err (Plain "failed to save updated session with auth config")
                    | None => Ok currentSession
                    end)
      end) (prerun_post st) st m).
  { eapply runs_try; [apply runs_machine|by intros e st1 m1 [-> _]; apply runs_ret|].
    intros conf st1 m1 [-> _]. set (s1 := cmd.with_config s0 conf).
    assert (Hs1 : ok -> session_ok s1) by exact Hs0.
    apply (runs_bind _ _ (refresh_post s1 st)).
    { destruct (cmd.refreshes c); [by apply runs_refresh|]. apply runs_ret, refresh_same; auto. }
    intros r st1 m2 [_ Hr]. destruct r as [[[err|] s2]|]; [by apply runs_ret| |by apply runs_ret].
    destruct (Hr _ _ eq_refl) as [Hs2 Htok]. eapply runs_bind; [by apply runs_save|]. intros saved st2 m3 [-> ->].
    apply runs_ret. intros s [= <-]. rewrite lookup_insert_eq. split; [done|]. split; [done|].
    intros Hn. destruct Htok as [-> _]; by apply Hnone. }
  subst s0. destruct (st !! addr); exact Hk.
Qed.

(** What a command leaves at its address. *)
Definition command_post (c : Command) (r : CmdResult) (st' : gmap string HubSession) : Prop :=
  match r with
  | CmdOk _ =>
      match c with
      | CmdLogin _ => exists s t, st' !! addr = Some s /\ current_tokens s = Some (Some t)
      | CmdLogout => st' !! addr = None
      | _ => is_Some (st' !! addr)
      end
  | _ => True
  end.

Lemma runs_login requests s st m : runs (cmd.run_login path addr requests s) (command_post (CmdLogin requests)) st m.
Proof.
  unfold cmd.run_login. eapply runs_bind; [apply runs_machine|]. intros r st1 m1 [-> Hr].
  destruct r as [[s'|err]|]; [|by apply runs_ret..].
  destruct (auth.Login requests (cmd.issuer s) s (machine_net m)) as [r n'] eqn:Hlogin. simpl in Hr. subst r.
  eapply runs_bind; [apply runs_save; intros _; by eapply Login_ok|]. intros saved st2 m2 [-> ->]. apply runs_ret.
  destruct (Session_AuthConfig s) as [conf|] eqn:Hconf; [|unfold auth.Login in Hlogin; by rewrite Hconf in Hlogin].
  destruct (Login_run _ _ _ _ _ _ _ Hconf Hlogin) as (t & _ & Ht & _). exists s', (tokens_of t).
  rewrite lookup_insert_eq. split; [done|]. unfold current_tokens. rewrite Ht. apply lookup_singleton_eq.
Qed.

Lemma runs_logout s st m : runs (cmd.run_logout path addr s) (command_post CmdLogout) st m.
Proof.
  unfold cmd.run_logout. case_match; [by apply runs_ret|]. unfold auth.Logout.
  apply (runs_bind _ _ (fun out st' => out = Some None -> st' !! addr = None)).
  - eapply runs_bind; [apply runs_machine|]. intros out st1 m1 [-> _].
    destruct out as [[err|]|]; [by apply runs_ret| |by apply runs_ret].
    eapply runs_bind; [apply runs_remove|]. intros removed st2 m2 [-> ->]. apply runs_ret. intros _.
    apply lookup_delete_eq.
  - intros [[err|]|] st1 m1 Hout; [by apply runs_ret|apply runs_ret; by apply Hout|by apply runs_ret].
Qed.

(** A run that only asks the network. *)
Lemma runs_asks {A} (c : M N A) (f : A -> CmdResult) cm st m : is_Some (st !! addr) ->
  (match cm with CmdLogin _ | CmdLogout => False | _ => True end) ->
  runs (let! a := on_machine c in ret (f a)) (command_post cm) st m.
Proof.
  intros Hs Hcm. eapply runs_bind; [apply runs_machine|]. intros a st1 m1 [-> _]. apply runs_ret.
  unfold command_post. destruct (f a), cm; done.
Qed.

Lemma runs_switch Org requests s st m : st !! addr = Some s -> (ok -> session_ok s) ->
  runs (cmd.run_switch path addr Org requests s) (command_post (CmdSwitch Org requests)) st m.
Proof.
  intros Hst Hs. assert (Hfail : forall err, runs (ret (CmdFail err)) (command_post (CmdSwitch Org requests)) st m)
    by (intros; by apply runs_ret).
  unfold cmd.run_switch. case_match; [done|].
  destruct (Session_AuthConfig s) as [conf|]; [|by apply runs_ret].
  destruct (current_tokens s) as [[t|]|]; [|by apply runs_ret..].
  eapply runs_try; [apply runs_machine|by intros; apply runs_ret|]. intros resp st1 m1 [-> _].
  destruct (idp.TenantList resp) as [tenants|]; [|by apply runs_ret].
  eapply runs_bind; [apply runs_machine|]. intros r st1 m2 [-> Hr].
  destruct r as [[[s' msg]|err]|]; [|by apply runs_ret..].
  destruct (auth.SwitchTenant requests Org tenants s (cmd.issuer s) (machine_net m1)) as [r n'] eqn:Hsw.
  simpl in Hr. subst r. eapply runs_bind; [apply runs_save; intros Ho; by eapply SwitchTenant_ok; [apply Hs|]|].
  intros saved st2 m3 [-> ->]. apply runs_ret. simpl. rewrite lookup_insert_eq. by eexists.
Qed.

Lemma runs_RunE c s st m : st !! addr = Some s -> (ok -> session_ok s) ->
  runs (cmd.RunE path addr c s) (command_post c) st m.
Proof.
  intros Hst Hs. assert (Hin : is_Some (st !! addr)) by (by exists s).
  destruct c as [requests| |args stdin|fuel args| |Org requests]; cbn [cmd.RunE].
  - apply runs_login.
  - apply runs_logout.
  - unfold cmd.run_push. repeat case_match; try (by apply runs_ret); by apply runs_asks.
  - unfold cmd.run_pull. repeat case_match; try (by apply runs_ret); by apply runs_asks.
  - unfold cmd.run_orgs. case_match; [by apply runs_ret|]. by apply runs_asks.
  - by apply runs_switch.
Qed.

Lemma runs_command c st m : runs (cmd.hub_command path addr c) (command_post c) st m.
Proof.
  unfold cmd.hub_command. eapply runs_bind; [apply runs_prerun|]. intros r st1 m1 Hr.
  destruct r as [[s|err]|]; [|by apply runs_ret..]. destruct (Hr s eq_refl) as (Hst & Hs & _). by apply runs_RunE.
Qed.

End runs.

(** ** Commands one after the other *)

Section machine.
Context (path : string).
Notation rep := (store_rep files decode path).

Fixpoint run_commands (cmds : list (string * Command)) (m : Machine F N) : list CmdResult * Machine F N :=
  match cmds with
  | [] => ([], m)
  | (addr, c) :: cmds =>
      let '(r, m) := cmd.hub_command path addr c m in let '(rs, m) := run_commands cmds m in (r :: rs, m)
  end.

Lemma run_commands_sessions cmds st m : rep st (machine_files m) ->
  exists st', rep st' (machine_files (run_commands cmds m).2)
  /\ (forall a, a ∉ cmds.*1 -> st' !! a = st !! a) /\ (sessions_ok st -> sessions_ok st').
Proof.
  revert st m. induction cmds as [|[addr c] cmds IH]; intros st m Hrep; [by exists st|]. cbn [run_commands].
  destruct (runs_command path (sessions_ok st) addr c st m Hrep id) as (st1 & Hrep1 & Hf1 & Hok1 & _).
  destruct (cmd.hub_command path addr c m) as [r m1]. cbn [snd] in Hrep1.
  destruct (IH st1 m1 Hrep1) as (st2 & Hrep2 & Hf2 & Hok2). destruct (run_commands cmds m1) as [rs m2].
  exists st2. split; [done|]. split; [|tauto]. intros a Ha. cbn [fmap list_fmap fst] in Ha.
  apply not_elem_of_cons in Ha as [Ha Ha']. by rewrite Hf2, Hf1.
Qed.

Lemma creds_bearer s : session_ok s -> auth.HasLoginCreds (Some s) = true ->
  exists t, hub.addAuthToContext (Some s) = Some ("Bearer " +:+ AccessToken t)
  /\ token.GetTenantNameFromToken (AccessToken t) = Ok (CurrentTenant s).
Proof.
  intros [Hs _]. unfold auth.HasLoginCreds, hub.addAuthToContext. destruct (Session_AuthConfig s); [|done].
  case_decide as Hc; [done|]. unfold current_tokens. destruct (map_at _ _) as [[t|]|] eqn:Ht; [|done..].
  intros Hcreds. bool_to_prop. exists t. rewrite decide_True, decide_True; [|done|].
  - split; [done|]. by apply Hs.
  - split; [|tauto]. unfold map_at in Ht. by destruct (Session_Tokens s).
Qed.


Definition is_login (c : Command) : bool := match c with CmdLogin _ => true | _ => false end.

Lemma RunE_refused addr c s m : auth.HasLoginCreds (Some s) = false -> is_login c = false ->
  exists err, cmd.RunE path addr c s m = (CmdFail err, m).
Proof.
  intros Hc Hl. destruct c as [requests| |args stdin|fuel args| |Org requests]; [done|..]; cbn [cmd.RunE].
  - unfold cmd.run_logout. rewrite Hc. by eexists.
  - unfold cmd.run_push. rewrite Hc. by eexists.
  - unfold cmd.run_pull. destruct args as [|arg [|? ?]]; [by eexists| |by eexists]. rewrite Hc. by eexists.
  - unfold cmd.run_orgs. rewrite Hc. by eexists.
  - unfold cmd.run_switch. rewrite Hc. by eexists.
Qed.

Lemma no_session_refused addr c st m : rep st (machine_files m) -> st !! addr = None -> is_login c = false ->
  exists err, (cmd.hub_command path addr c m).1 = CmdFail err
  /\ machine_net (cmd.hub_command path addr c m).2 = (config.FetchAuthConfig addr (machine_net m)).2.
Proof.
  intros Hrep Hnone Hl. unfold cmd.hub_command, cmd.PersistentPreRunE, bind.
  rewrite (Get_run files dirs decode encode path st addr _ Hrep), Hnone. unfold try_bind, bind, on_machine.
  destruct (config.FetchAuthConfig addr (machine_net m)) as [[conf|err] n1]; [|by eexists].
  set (s := cmd.with_config cmd.empty_session conf).
  assert (Hr : (if cmd.refreshes c
    then token.RefreshTokenIfExpired path addr s (IdpIssuerAddress conf) else ret (Some (None, s)))
    = (ret (Some (None, s)) : M (Machine F N) _)) by (by destruct (cmd.refreshes c)).
  rewrite Hr. unfold ret, on_files. cbn [machine_files machine_net].
  destruct (SaveHubSession_run files dirs decode encode path st addr s _ Hrep) as (f' & -> & _).
  destruct (RunE_refused addr c s {| machine_files := f'; machine_net := n1 |}) as (err & ->); [done..|by eexists].
Qed.


End machine.
End sessions.

(** ** An example *)

Module DemoCommands.
Import DemoSessions DemoLogin.
#[local] Existing Instance DemoHub.hub_service.
#[local] Existing Instance DemoHub.lib.
Abbreviation Demo := (Machine Disk DemoHub.Hub).

#[local] Instance setup : HubSetup := {|
  json_AuthConfig _ := Ok (Some conf); url_JoinPath a b := Ok (a +:+ "/" +:+ b); grpc_NewClient _ := Ok tt;
  agent_GetBytes _ _ := Ok "{agent}"; text_AlignLeft s _ := s |}.

Definition owner (r : string) : string := TrimPrefix r "r:".

Lemma refresh_answer method url header r id :
  answer {| Method := method; Request_URL := url; Request_Header := header;
    Request_Body := Values_Encode (Values_Set "refresh_token" r
      (Values_Set "client_id" id (Values_Set "grant_type" "refresh_token" ∅))) |} = owner r.
Proof.
  unfold answer. cbn [Request_Body].
  rewrite (parse_encode _ (values_ok_set _ _ _ (values_ok_set _ _ _ (values_ok_set _ _ _ values_ok_empty)))). reflexivity.
Qed.

#[local] Instance provider : ProviderSpec (N := DemoHub.Hub) owner.
Proof.
  split.
  - intros req n resp n' body t tenant _ _ [= <-]. cbn [Okta_AccessToken Okta_RefreshToken].
    unfold token.GetTenantNameFromToken, token.getClaimFromToken. cbn -[GoStrings.strip_prefix String.append].
    rewrite (proj2 (strip_prefix_Some "a:" _ _) eq_refl). intros [= <-]. apply (TrimPrefix_app "r:").
  - intros base req n resp t. unfold okta.RefreshToken, okta.post_form, NewRequest, try_bind, bind.
    destruct (url_Parse (base +:+ "/v1/token")); [|done].
    cbn -[ParseQuery Values_Encode Values_Set GoStrings.strip_prefix String.append]. intros [= <-]. cbn [okta.Token]. intros [= <-].
    rewrite refresh_answer. cbn [Okta_AccessToken Okta_RefreshToken].
    unfold token.GetTenantNameFromToken, token.getClaimFromToken. cbn -[GoStrings.strip_prefix String.append].
    rewrite (proj2 (strip_prefix_Some "a:" _ _) eq_refl). split; [done|apply (TrimPrefix_app "r:")].
Qed.

Definition hub_url : string := "https://hub.example".
Definition path : string := "/home/ann/.dirctl/session.json".
Definition machine : Demo := {| machine_files := new_disk; machine_net := [] |}.
Definition commands : list (string * Command) :=
  [(hub_url, CmdLogin requests); (hub_url, CmdPush ["ann/demo"] true); ("https://other.example", CmdOrgs)].


Definition before : Demo := (run_commands path commands machine).2.
Definition after : Demo := (cmd.hub_command path hub_url CmdLogout before).2.


End DemoCommands.
