(* ===== verification/HubRun.v ===== *)
(** * Running the hub client

    hub/cmd/options (Module [options]): options that are registered as flags before
    the arguments are parsed and completed after it; hub/config/load.go and
    hub/utils/dir (Module [hubconfig]); hub/hub.go (Module [hub_app]), which composes
    them with the commands of [HubCommands]. *)

From S2P Require Import Prelude GoStrings GoUrl GoForm Interfaces CoreRecord Validators LabelKey RoutingWorld RoutingRemote P2p NetworkKeys Authz ServerConfig HubSession HubAgent HubLogin HubCommands.

Open Scope string_scope.
Open Scope list_scope.
Open Scope go_scope.

(** ** Flags and settings *)

(** A command of the tree with its arguments, as cobra finds it. *)
Inductive Invocation :=
  | InvLogin | InvLogout | InvPush (args : list string) | InvPull (args : list string) | InvOrgs | InvSwitch.

(** The flags of the commands, by command and name (pflag), with the viper of the
    process, and the environment. *)
Class HubFlags (V : Type) `{!Viper V} := {
  flags_String : string -> string -> string -> M V unit;      (** command, name, default *)
  flags_BoolVar : string -> string -> bool -> M V unit;
  flags_StringVarP : string -> string -> string -> M V unit;
  flag_bool : string -> string -> V -> bool;                  (** what the variable of a flag holds *)
  flag_string : string -> string -> V -> string;
  viper_BindPFlag : string -> string -> string -> M V (result unit);
  viper_GetString : string -> V -> string;
  cobra_Parse : list string -> M V (result Invocation);
  os_Getenv : string -> V -> string;
  GOOS : string;
}.

(** ** Options (hub/cmd/options) *)

Module options.

(** The functions work on a process [W]. *)
Section base.
Context {W : Type}.

Record BaseOption := {
  isRegistered : bool; isCompleted : bool;
  registerFns : list (M W (result unit)); completeFns : list (M W unit) }.

Definition NewBaseOption : BaseOption :=
  {| isRegistered := false; isCompleted := false; registerFns := []; completeFns := [] |}.

(** The functions up to the first that fails; the option counts as registered in any case. *)
Definition Register (o : BaseOption) : M W (result unit * BaseOption) :=
  if isRegistered o then ret (Ok tt, o)
  else
    let! r := for_try (fun _ fn => fn) tt (registerFns o) in
    ret (r, {| isRegistered := true; isCompleted := isCompleted o;
               registerFns := registerFns o; completeFns := completeFns o |}).

Definition Complete (o : BaseOption) : M W BaseOption :=
  if isCompleted o then ret o
  else
    do! for_each (fun fn => fn) (completeFns o) then
    ret {| isRegistered := isRegistered o; isCompleted := true;
           registerFns := registerFns o; completeFns := completeFns o |}.

Definition AddRegisterFn (fn : option (M W (result unit))) (o : BaseOption) : BaseOption :=
  match fn with
  | None => o
  | Some fn => {| isRegistered := isRegistered o; isCompleted := isCompleted o;
                  registerFns := registerFns o ++ [fn]; completeFns := completeFns o |}
  end.

Definition AddCompleteFn (fn : option (M W unit)) (o : BaseOption) : BaseOption :=
  match fn with
  | None => o
  | Some fn => {| isRegistered := isRegistered o; isCompleted := isCompleted o;
                  registerFns := registerFns o; completeFns := completeFns o ++ [fn] |}
  end.

End base.
Arguments BaseOption : clear implicits.

Section options.
Context {V : Type} `{!Viper V} `{!HubFlags V}.

(** A process: its flags and settings, and the field of the options of the hub. *)
Record Process := { p_viper : V; ServerAddress : string }.
Definition on_viper {A} (c : M V A) : M Process A := fun p =>
  let '(a, v) := c (p_viper p) in (a, {| p_viper := v; ServerAddress := ServerAddress p |}).

Definition hubAddressFlagName : string := "server-address".
Definition hubAddressConfigPath : string := "hub.server-address".
Definition DefaultHubAddress : string := "https://agent-directory.outshift.com".

Definition NewHubOptions (base : BaseOption Process) : BaseOption Process :=
  AddCompleteFn (Some (fun p =>
      (tt, {| p_viper := p_viper p; ServerAddress := viper_GetString hubAddressConfigPath (p_viper p) |})))
    (AddRegisterFn (Some (
        do! on_viper (flags_String "hub" hubAddressFlagName DefaultHubAddress) then
        let? _u := on_viper (viper_BindPFlag hubAddressConfigPath "hub" hubAddressFlagName)
          else err => ret (Err (Wrap ("unable to bind flag " +:+ hubAddressFlagName +:+ ": ") err)) in
        ret (Ok tt))) base).

Definition NewHubPushOptions (base : BaseOption Process) : BaseOption Process :=
  AddRegisterFn (Some (do! on_viper (flags_BoolVar "push" "stdin" false) then ret (Ok tt))) base.

Definition NewTenantOption (base : BaseOption Process) : BaseOption Process :=
  AddRegisterFn (Some (do! on_viper (flags_StringVarP "switch" "org" "") then ret (Ok tt))) base.
Definition NewTenantSwitchOptions (base : BaseOption Process) : BaseOption Process := NewTenantOption base.

(** The options that building the tree of commands adds (hub/cmd/hub.go). *)
Definition NewHubCommand (base : BaseOption Process) : BaseOption Process :=
  NewTenantSwitchOptions (NewHubPushOptions (NewHubOptions base)).

End options.
End options.

(** ** Configuration (hub/config/load.go, hub/utils/dir, hub/utils/file) *)

Module hubconfig.
Section config.
Context {V : Type} `{!Viper V} `{!HubFlags V}.

Definition GetHomeDir (v : V) : string :=
  if decide (GOOS = "windows") then os_Getenv "USERPROFILE" v
  else if decide (GOOS = "linux") then os_Getenv "HOME" v
  else if decide (GOOS = "darwin") then os_Getenv "HOME" v
  else "".

Definition GetAppDir (v : V) : string := path_Join (GetHomeDir v) ".dirctl".
Definition GetSessionFilePath (v : V) : string := path_Join (GetAppDir v) "session.json".

Definition LoadConfig : M V (result unit) :=
  do! viper_SetConfigName "config" then
  do! viper_SetConfigType "json" then
  do! viper_AddConfigPath "." then
  let! dir := (fun v => (GetAppDir v, v)) in
  do! viper_AddConfigPath dir then
  let? _u := viper_ReadInConfig
    else err => if ConfigFileNotFoundError err then ret (Ok tt)
                else ret (Err (Wrap "failed to read config file: " err)) in
  ret (Ok tt).

End config.
End hubconfig.

(** ** The application (hub/hub.go) *)

Module hub_app.
Section app.
Context {V F N : Type} `{!Viper V} `{!HubFlags V} `{!SessionFiles F} `{!HubNet N} `{!HubLib} `{!HubService N}
  `{!AgentLib} `{!HubSetup}.

(** The process, the machine it runs on and what it printed. *)
Record World := { w_process : options.Process (V := V); w_machine : Machine F N; w_stdout : string }.
Definition on_process {A} (c : M (options.Process (V := V)) A) : M World A := fun w =>
  let '(a, p) := c (w_process w) in (a, {| w_process := p; w_machine := w_machine w; w_stdout := w_stdout w |}).
Definition on_world_machine {A} (c : M (Machine F N) A) : M World A := fun w =>
  let '(a, m) := c (w_machine w) in (a, {| w_process := w_process w; w_machine := m; w_stdout := w_stdout w |}).
Definition Println (s : string) : M World unit := fun w =>
  (tt, {| w_process := w_process w; w_machine := w_machine w;
          w_stdout := w_stdout w +:+ s +:+ String (ascii_of_nat 10) "" |}).

(** The command with its flags, the requests that its browser makes and the fuel of a
    download. *)
Definition command_of (requests : list webserver.LocalRequest) (fuel : nat) (i : Invocation) (v : V) : Command :=
  match i with
  | InvLogin => CmdLogin requests
  | InvLogout => CmdLogout
  | InvPush args => CmdPush args (flag_bool "push" "stdin" v)
  | InvPull args => CmdPull fuel args
  | InvOrgs => CmdOrgs
  | InvSwitch => CmdSwitch (flag_string "switch" "org" v) requests
  end.

(** How the application ends: [AppFail] with the error of a command that failed. *)
Inductive AppResult := AppOk | AppFail (err : error) | AppPanic | AppStuck.

(** The output of a command goes to a buffer, which is printed when the command
    succeeds; errors go to another buffer, which is not printed. *)
Definition finish (r : CmdResult) : M World AppResult :=
  match r with
  | CmdOk out =>
      if decide (out = "") then ret AppOk else do! Println out then ret AppOk
  | CmdFail err => ret (AppFail err)
  | CmdPanic => ret AppPanic
  | CmdStuck => ret AppStuck
  end.

(** Execution: cobra parses the arguments, and what runs before the command completes
    the options first. *)
Definition ExecuteContext (opts : options.BaseOption (options.Process (V := V))) (args : list string)
    (requests : list webserver.LocalRequest) (fuel : nat) : M World AppResult :=
  let? inv := on_process (options.on_viper (cobra_Parse args)) else err => ret (AppFail err) in
  let! _opts := on_process (options.Complete opts) in
  let! p := (fun w => (w_process w, w)) in
  let! r := on_world_machine (cmd.hub_command (hubconfig.GetSessionFilePath (options.p_viper p)) (options.ServerAddress p)
    (command_of requests fuel inv (options.p_viper p))) in
  finish r.

Definition Run (args : list string) (requests : list webserver.LocalRequest) (fuel : nat) : M World AppResult :=
  let? _u := on_process (options.on_viper hubconfig.LoadConfig)
    else err => ret (AppFail (Wrap "failed to load config: " err)) in
  let! registered := on_process (options.Register (options.NewHubCommand options.NewBaseOption)) in
  let '(r, opts) := registered in
  match r with
  | Err err => ret (AppFail (Wrap "failed to register hub options: " err))
  | Ok _ => ExecuteContext opts args requests fuel
  end.

End app.
End hub_app.

(** ** Laws *)

(** The settings of a process, the defaults of its flags, the flags that its arguments
    gave, and the flags that settings are bound to. *)
Record FlagState := {
  fs_viper : ViperState; fs_defaults : gmap (string * string) string;
  fs_given : gmap (string * string) string; fs_bound : gmap string (string * string) }.

Definition with_viper (f : ViperState -> ViperState) (s : FlagState) : FlagState :=
  {| fs_viper := f (fs_viper s); fs_defaults := fs_defaults s; fs_given := fs_given s; fs_bound := fs_bound s |}.
Definition with_flag (flag : string * string) (d : string) (s : FlagState) : FlagState :=
  {| fs_viper := fs_viper s; fs_defaults := <[flag := d]> (fs_defaults s); fs_given := fs_given s; fs_bound := fs_bound s |}.
Definition with_bound (key : string) (flag : string * string) (s : FlagState) : FlagState :=
  {| fs_viper := fs_viper s; fs_defaults := fs_defaults s; fs_given := fs_given s; fs_bound := <[key := flag]> (fs_bound s) |}.
Definition with_given (given : gmap (string * string) string) (s : FlagState) : FlagState :=
  {| fs_viper := fs_viper s; fs_defaults := fs_defaults s; fs_given := given; fs_bound := fs_bound s |}.

(** A setting that a file gives as a text, if it gives it. *)
Definition text_in (file : gmap string Value) (key : string) : Prop :=
  match file !! key with Some (VString _) | None => True | Some _ => False end.

(** viper's order: a flag that is given, the file, the default of the flag. *)
Definition setting (file : gmap string Value) (given : option string) (key d : string) : string :=
  match given, file !! key with
  | Some x, _ => x
  | None, Some (VString s) => s
  | None, _ => d
  end.

Class HubFlagsSpec (V : Type) `{!Viper V} `{!HubFlags V} (state : V -> FlagState) : Prop := {
  hub_Getenv_spec x v : os_Getenv x v = default "" (vs_env (fs_viper (state v)) !! x);
  hub_ConfigName_spec n v : state (viper_SetConfigName n v).2 = with_viper (fun s => vs_set_name s n) (state v);
  hub_ConfigType_spec t v : state (viper_SetConfigType t v).2 = with_viper (fun s => vs_set_type s t) (state v);
  hub_ConfigPath_spec p v : state (viper_AddConfigPath p v).2 = with_viper (fun s => vs_add_path s p) (state v);
  hub_ReadInConfig_spec v : let '(r, v') := viper_ReadInConfig v in
    let s := fs_viper (state v) in
    match vs_disk s (vs_paths s) (vs_name s) (vs_type s) with
    | None => exists e, r = Err e /\ ConfigFileNotFoundError e = true /\ state v' = state v
    | Some (Err _) => exists e, r = Err e /\ ConfigFileNotFoundError e = false /\ state v' = state v
    | Some (Ok m) => r = Ok tt /\ state v' = with_viper (fun s => vs_read s m) (state v)
    end;
  flags_String_spec c n d v : state (flags_String c n d v).2 = with_flag (c, n) d (state v);
  flags_BoolVar_spec c n b v :
    state (flags_BoolVar c n b v).2 = with_flag (c, n) (if b then "true" else "false") (state v);
  flags_StringVarP_spec c n d v : state (flags_StringVarP c n d v).2 = with_flag (c, n) d (state v);
  BindPFlag_spec k c n v : let '(r, v') := viper_BindPFlag k c n v in
    match fs_defaults (state v) !! (c, n) with
    | Some _ => r = Ok tt /\ state v' = with_bound k (c, n) (state v)
    | None => exists e, r = Err e /\ state v' = state v
    end;
  GetString_spec k flag d v : fs_bound (state v) !! k = Some flag -> fs_defaults (state v) !! flag = Some d ->
    text_in (vs_file (fs_viper (state v))) k ->
    viper_GetString k v = setting (vs_file (fs_viper (state v))) (fs_given (state v) !! flag) k d;
  cobra_Parse_spec args v : exists given, state (cobra_Parse args v).2 = with_given given (state v);
}.

(** ** The flags of the hub *)

(** Registering and completing happen once. *)
Lemma Register_twice {W} (o : options.BaseOption W) w :
  let '((_, o'), w') := options.Register o w in options.Register o' w' = ((Ok tt, o'), w').
Proof.
  unfold options.Register. destruct (options.isRegistered o) eqn:Ho; simpl; [by rewrite Ho|].
  unfold bind. by destruct (for_try _ _ _ w) as [r w'].
Qed.

Section flags.
Context {V : Type} `{!Viper V} `{!HubFlags V} {state : V -> FlagState} `{!HubFlagsSpec V state}.

Definition address_flag : string * string := ("hub", options.hubAddressFlagName).

(** The state when the flags are registered. *)
Definition registered_state (s : FlagState) : FlagState :=
  with_flag ("switch", "org") "" (with_flag ("push", "stdin") "false"
    (with_bound options.hubAddressConfigPath address_flag (with_flag address_flag options.DefaultHubAddress s))).

Lemma Register_run (p : options.Process (V := V)) :
  exists opts v, options.Register (options.NewHubCommand options.NewBaseOption) p
    = ((Ok tt, opts), {| options.p_viper := v; options.ServerAddress := options.ServerAddress p |})
  /\ options.isCompleted opts = false
  /\ options.completeFns opts = [fun p => (tt, {| options.p_viper := options.p_viper p;
       options.ServerAddress := viper_GetString options.hubAddressConfigPath (options.p_viper p) |})]
  /\ state v = registered_state (state (options.p_viper p)).
Proof.
  destruct p as [v0 a]. unfold options.Register, try_bind, bind, options.on_viper, ret. simpl.
  unfold options.on_viper, try_bind, bind. simpl.
  pose proof (flags_String_spec "hub" options.hubAddressFlagName options.DefaultHubAddress v0) as H1.
  destruct (flags_String _ _ _ v0) as [[] v1]. simpl in *.
  pose proof (BindPFlag_spec options.hubAddressConfigPath "hub" options.hubAddressFlagName v1) as H2.
  destruct (viper_BindPFlag _ _ _ v1) as [r v2]. rewrite H1 in H2. simpl in H2. rewrite lookup_insert_eq in H2.
  destruct H2 as [-> H2]. simpl.
  pose proof (flags_BoolVar_spec "push" "stdin" false v2) as H3. destruct (flags_BoolVar _ _ _ v2) as [[] v3]. simpl in *.
  pose proof (flags_StringVarP_spec "switch" "org" "" v3) as H4. destruct (flags_StringVarP _ _ _ v3) as [[] v4]. simpl in *.
  eexists _, v4. split; [reflexivity|]. split; [done|]. split; [done|]. by rewrite H4, H3, H2.
Qed.

(** The configuration file: in the current directory or in the one of the application. *)
Definition hub_file (v : V) : option (result (gmap string Value)) :=
  let s := fs_viper (state v) in
  vs_disk s (vs_paths s ++ ["."; hubconfig.GetAppDir v]) "config" "json".

Lemma GetAppDir_same v v' : vs_env (fs_viper (state v)) = vs_env (fs_viper (state v')) ->
  hubconfig.GetAppDir v = hubconfig.GetAppDir v'.
Proof.
  intros He. unfold hubconfig.GetAppDir, hubconfig.GetHomeDir. by rewrite !hub_Getenv_spec, He.
Qed.

Lemma GetSessionFilePath_same v v' : vs_env (fs_viper (state v)) = vs_env (fs_viper (state v')) ->
  hubconfig.GetSessionFilePath v = hubconfig.GetSessionFilePath v'.
Proof. intros He. unfold hubconfig.GetSessionFilePath. by rewrite (GetAppDir_same v v'). Qed.

Lemma LoadConfig_run v : let '(r, v') := hubconfig.LoadConfig v in
  match hub_file v with
  | Some (Err _) => exists e, r = Err (Wrap "failed to read config file: " e)
  | file => r = Ok tt /\ vs_env (fs_viper (state v')) = vs_env (fs_viper (state v))
      /\ fs_defaults (state v') = fs_defaults (state v)
      /\ vs_file (fs_viper (state v')) = match file with Some (Ok m) => m | _ => vs_file (fs_viper (state v)) end
  end.
Proof.
  unfold hubconfig.LoadConfig, bind.
  pose proof (hub_ConfigName_spec "config" v) as H1. destruct (viper_SetConfigName _ v) as [[] v1]. simpl in H1.
  pose proof (hub_ConfigType_spec "json" v1) as H2. destruct (viper_SetConfigType _ v1) as [[] v2]. simpl in H2.
  pose proof (hub_ConfigPath_spec "." v2) as H3. destruct (viper_AddConfigPath _ v2) as [[] v3]. simpl in H3.
  assert (Ha : hubconfig.GetAppDir v3 = hubconfig.GetAppDir v) by (apply GetAppDir_same; by rewrite H3, H2, H1).
  rewrite Ha. pose proof (hub_ConfigPath_spec (hubconfig.GetAppDir v) v3) as H4.
  destruct (viper_AddConfigPath _ v3) as [[] v4]. simpl in H4.
  pose proof (hub_ReadInConfig_spec v4) as H5. rewrite H4, H3, H2, H1 in H5. simpl in H5.
  rewrite <- (assoc_L (++)) in H5. simpl in H5. fold (hub_file v) in H5. unfold try_bind, bind.
  destruct (viper_ReadInConfig v4) as [r v5]. destruct (hub_file v) as [[m|e]|].
  - destruct H5 as [-> H5]. simpl. by rewrite H5.
  - destruct H5 as (e' & -> & He & _). rewrite He. by exists e'.
  - destruct H5 as (e' & -> & He & H5). rewrite He. simpl. by rewrite H5.
Qed.

End flags.

(** ** A run of the hub client *)

Section run.
Context {V F N : Type} `{!Viper V} `{!HubFlags V} `{!SessionFiles F} `{!HubNet N} `{!HubLib} `{!HubService N}
  `{!AgentLib} `{!HubSetup} {state : V -> FlagState} `{!HubFlagsSpec V state}.
Notation World := (hub_app.World (V := V) (F := F) (N := N)).

(** How a command that ends in [r] ends the application, and what is printed. *)
Definition ends (r : CmdResult) : hub_app.AppResult :=
  match r with
  | CmdOk _ => hub_app.AppOk | CmdFail err => hub_app.AppFail err
  | CmdPanic => hub_app.AppPanic | CmdStuck => hub_app.AppStuck
  end.
Definition prints (r : CmdResult) : string :=
  match r with CmdOk "" => "" | CmdOk out => out +:+ String (ascii_of_nat 10) "" | _ => "" end.

Lemma app_finish_run r (w : World) : hub_app.finish r w
  = (ends r, {| hub_app.w_process := hub_app.w_process w; hub_app.w_machine := hub_app.w_machine w;
                hub_app.w_stdout := hub_app.w_stdout w +:+ prints r |}).
Proof.
  destruct w as [p m s], r as [[|a out]|e| |]; simpl; rewrite ?append_nil_r; try done.
Qed.

(** From parsing the arguments on. *)
Lemma Execute_run opts v1 ad args requests fuel m0 out :
  options.isCompleted opts = false ->
  options.completeFns opts = [fun p => (tt, {| options.p_viper := options.p_viper p;
       options.ServerAddress := viper_GetString options.hubAddressConfigPath (options.p_viper p) |})] ->
  fs_bound (state v1) !! options.hubAddressConfigPath = Some address_flag ->
  fs_defaults (state v1) !! address_flag = Some options.DefaultHubAddress ->
  text_in (vs_file (fs_viper (state v1))) options.hubAddressConfigPath ->
  let '(a, w') := hub_app.ExecuteContext opts args requests fuel
    {| hub_app.w_process := {| options.p_viper := v1; options.ServerAddress := ad |};
       hub_app.w_machine := m0; hub_app.w_stdout := out |} in
  match cobra_Parse args v1 with
  | (Err e, _) => a = hub_app.AppFail e /\ hub_app.w_machine w' = m0 /\ hub_app.w_stdout w' = out
  | (Ok inv, v2) =>
      let address := setting (vs_file (fs_viper (state v1))) (fs_given (state v2) !! address_flag)
                       options.hubAddressConfigPath options.DefaultHubAddress in
      let '(r, m) := cmd.hub_command (hubconfig.GetSessionFilePath v1) address
                       (hub_app.command_of requests fuel inv v2) m0 in
      a = ends r /\ hub_app.w_machine w' = m /\ hub_app.w_stdout w' = out +:+ prints r
  end.
Proof.
  intros Hc Hf Hb Hd Ht. unfold hub_app.ExecuteContext, try_bind, bind, hub_app.on_process, options.on_viper.
  cbn [hub_app.w_process options.p_viper options.ServerAddress hub_app.w_machine hub_app.w_stdout].
  destruct (cobra_Parse_spec args v1) as [given Hs]. destruct (cobra_Parse args v1) as [[inv|e] v2]; [|done].
  cbn [snd] in Hs. unfold options.Complete. rewrite Hc, Hf. unfold hub_app.on_world_machine. cbn.
  rewrite (GetString_spec _ address_flag options.DefaultHubAddress) by (by rewrite Hs).
  rewrite (GetSessionFilePath_same v1 v2) by (by rewrite Hs).
  replace (vs_file (fs_viper (state v2))) with (vs_file (fs_viper (state v1))) by (by rewrite Hs).
  destruct (cmd.hub_command _ _ _ m0) as [r m]. by rewrite app_finish_run.
Qed.

(** From registering the flags on. *)
Lemma registered_run v0 ad args requests fuel m0 out :
  text_in (vs_file (fs_viper (state v0))) options.hubAddressConfigPath ->
  let '(a, w') := (let! registered := hub_app.on_process (options.Register (options.NewHubCommand options.NewBaseOption)) in
      let '(r, opts) := registered in
      match r with
      | Err err => ret (hub_app.AppFail (Wrap "failed to register hub options: " err))
      | Ok _ => hub_app.ExecuteContext opts args requests fuel
      end)
    {| hub_app.w_process := {| options.p_viper := v0; options.ServerAddress := ad |};
       hub_app.w_machine := m0; hub_app.w_stdout := out |} in
  exists v1, (forall flag, is_Some (fs_defaults (state v1) !! flag)
                <-> is_Some (fs_defaults (state v0) !! flag) \/ flag ∈ [address_flag; ("push", "stdin"); ("switch", "org")]) /\
  match cobra_Parse args v1 with
  | (Err e, _) => a = hub_app.AppFail e /\ hub_app.w_machine w' = m0 /\ hub_app.w_stdout w' = out
  | (Ok inv, v2) =>
      let address := setting (vs_file (fs_viper (state v0))) (fs_given (state v2) !! address_flag)
                       options.hubAddressConfigPath options.DefaultHubAddress in
      let '(r, m) := cmd.hub_command (hubconfig.GetSessionFilePath v0) address
                       (hub_app.command_of requests fuel inv v2) m0 in
      a = ends r /\ hub_app.w_machine w' = m /\ hub_app.w_stdout w' = out +:+ prints r
  end.
Proof.
  intros Ht. unfold bind, hub_app.on_process at 1. cbn [hub_app.w_process hub_app.w_machine hub_app.w_stdout].
  destruct (Register_run {| options.p_viper := v0; options.ServerAddress := ad |}) as (opts & v1 & -> & Hc & Hf & Hs).
  cbn [options.p_viper options.ServerAddress] in *.
  pose proof (Execute_run opts v1 ad args requests fuel m0 out Hc Hf) as Hx. rewrite Hs in Hx.
  destruct (hub_app.ExecuteContext _ _ _ _ _) as [a w']. exists v1. split.
  - intros flag. rewrite Hs. unfold registered_state. simpl. rewrite !lookup_insert_is_Some.
    rewrite !elem_of_cons, elem_of_nil. destruct (decide (flag = address_flag)), (decide (flag = ("push", "stdin"))),
      (decide (flag = ("switch", "org"))); naive_solver.
  - rewrite (GetSessionFilePath_same v0 v1) by (by rewrite Hs).
    apply Hx; [apply lookup_insert_eq| |done]. simpl.
    by rewrite !lookup_insert_ne, lookup_insert_eq by done.
Qed.


End run.

(** ** A process on a machine *)

Module DemoRun.
Import DemoSessions DemoLogin.
#[local] Existing Instance DemoHub.hub_service.
#[local] Existing Instance DemoHub.lib.
#[local] Existing Instance DemoCommands.setup.

#[export] Instance settings_viper : Viper FlagState := {|
  viper_NewWithOptions _ r s := (tt, with_viper (fun s => vs_fresh s r) s);
  viper_SetConfigName n s := (tt, with_viper (fun s => vs_set_name s n) s);
  viper_SetConfigType n s := (tt, with_viper (fun s => vs_set_type s n) s);
  viper_AddConfigPath p s := (tt, with_viper (fun s => vs_add_path s p) s);
  viper_SetEnvPrefix p s := (tt, with_viper (fun s => vs_set_prefix s p) s);
  viper_AllowEmptyEnv b s := (tt, with_viper (fun s => vs_set_allow s b) s);
  viper_AutomaticEnv s := (tt, with_viper vs_set_automatic s);
  viper_ReadInConfig s := let v := fs_viper s in match vs_disk v (vs_paths v) (vs_name v) (vs_type v) with
    | None => (Err (Plain "Not Found"), s)
    | Some (Err e) => (Err (Wrap "While parsing config: " e), s)
    | Some (Ok m) => (Ok tt, with_viper (fun s => vs_read s m) s)
    end;
  ConfigFileNotFoundError e := bool_decide (err_string e = "Not Found");
  viper_BindEnv k s := (tt, with_viper (fun s => vs_bind s k) s);
  viper_SetDefault k x s := (tt, with_viper (fun s => vs_default s k x) s);
  viper_AllSettings s k := settings_of (fs_viper s) k |}.

(** A name of a command, and after it the address of the hub. *)
Definition parse (args : list string) (s : FlagState) : result Invocation * FlagState :=
  match args with
  | ["orgs"] => (Ok InvOrgs, with_given ∅ s)
  | ["login"; a] => (Ok InvLogin, with_given {[ ("hub", "server-address") := a ]} s)
  | _ => (Err (Plain "unknown command"), s)
  end.

#[export] Instance flags : HubFlags FlagState := {|
  flags_String c n d s := (tt, with_flag (c, n) d s);
  flags_BoolVar c n b s := (tt, with_flag (c, n) (if b then "true" else "false") s);
  flags_StringVarP c n d s := (tt, with_flag (c, n) d s);
  flag_bool c n s := bool_decide (fs_given s !! (c, n) = Some "true");
  flag_string c n s := default "" (fs_given s !! (c, n));
  viper_BindPFlag k c n s := match fs_defaults s !! (c, n) with
    | Some _ => (Ok tt, with_bound k (c, n) s)
    | None => (Err (Plain "flag is nil"), s)
    end;
  viper_GetString k s := match fs_bound s !! k with
    | Some f => setting (vs_file (fs_viper s)) (fs_given s !! f) k (default "" (fs_defaults s !! f))
    | None => ""
    end;
  cobra_Parse := parse;
  os_Getenv x s := default "" (vs_env (fs_viper s) !! x);
  GOOS := "linux" |}.

#[export] Instance flags_spec : HubFlagsSpec FlagState (fun s => s).
Proof.
  split; try done.
  - intros s. simpl. destruct (vs_disk _ _ _ _) as [[m|e]|]; [done|..]; eexists; (split; [done|]).
    + split; [|done]. by apply bool_decide_eq_false.
    + done.
  - intros k c n s. simpl. destruct (fs_defaults s !! (c, n)); [done|]. by eexists.
  - intros k flag d s Hb Hd _. simpl. by rewrite Hb, Hd.
  - intros args s. exists (fs_given (parse args s).2). simpl. unfold parse.
    destruct args as [|a args]; [by destruct s|]. repeat (case_match; try (by destruct s)); done.
Qed.

(** Settings with an address of the hub, in the directory of the application. *)
Definition process : FlagState := {|
  fs_viper := {|
    vs_env := {[ "HOME" := "/home/ann" ]};
    vs_disk paths name ty := if decide ("/home/ann/.dirctl" ∈ paths /\ name = "config" /\ ty = "json")
      then Some (Ok {[ "hub.server-address" := VString "https://other.example" ]}) else None;
    vs_paths := []; vs_name := ""; vs_type := ""; vs_prefix := ""; vs_replacer := []; vs_allowEmpty := false;
    vs_automatic := false; vs_bound := []; vs_defaults := ∅; vs_file := ∅ |};
  fs_defaults := ∅; fs_given := ∅; fs_bound := ∅ |}.

Definition world : hub_app.World (V := FlagState) := {|
  hub_app.w_process := {| options.p_viper := process; options.ServerAddress := "" |};
  hub_app.w_machine := DemoCommands.machine; hub_app.w_stdout := "" |}.


End DemoRun.
