(* ===== verification/ClientCalls.v ===== *)
(** * The other calls of the client

    client/routing.go, client/search.go, client/sync.go and client/verify.go: calls
    with one answer ([UnaryClient]) and calls whose answers come over a stream
    ([AnswerClient]).  gRPC is outside the repository; [UnarySpec] and [AnswerSpec]
    say what a connection that stays up does when a given handler serves it.
    Contexts are not cancelled. *)

From S2P Require Import Prelude GoStrings GoUrl Interfaces Adapters CoreRecord Validators LabelKey Metrics RoutingWorld RoutingLocal RoutingLocalSpec Routing StoreCache Search Tables StoreController OciReferrers Client ZotConfig Publication RoutingService Sync.

Open Scope string_scope.
Open Scope list_scope.
Open Scope go_scope.

(** ** Calls (grpc-go) *)

Class UnaryClient (N Req Res : Type) := { rpc_Call : Req -> M N (result Res) }.

(** Sending the request; the stream is the list of what [Recv] returns until
    [io.EOF]. *)
Class AnswerClient (N Req Res : Type) := { rpc_Answers : Req -> M N (result (list (result Res))) }.

(** The goroutine that receives: what it hands on until the stream ends or fails; a
    failure is only logged. *)
Fixpoint received {A} (stream : list (result A)) : list A :=
  match stream with
  | Ok a :: stream => a :: received stream
  | _ => []
  end.

(** ** Requests *)

(** No limit is zero. *)
Record ListRequest := { List_Queries : list RecordQuery; List_Limit : Z }.
Record SearchRequest := { Search_Queries : list searchv1.RecordQuery; Search_Limit : Z; Search_Offset : Z }.
Record ListSyncsRequest := { Syncs_Limit : Z; Syncs_Offset : Z }.
Record CreateSyncRequest := { Create_RemoteDirectoryUrl : string }.
Record SyncIdRequest := { Req_SyncId : string }.
Notation UnpublishRequest := (option routingCtlr.UnpublishRequest_Request).

Module calls.

(** ** routing.go *)

Section routing.
Context {N : Type} `{!UnaryClient N PublishRequest unit} `{!AnswerClient N ListRequest ListResponse}
  `{!UnaryClient N UnpublishRequest unit}.

Definition Publish (req : PublishRequest) : M N (result unit) :=
  let? _u := rpc_Call (Res := unit) req else err => ret (Err (Wrap "failed to publish object: " err)) in
  ret (Ok tt).

Definition List (req : ListRequest) : M N (result (list ListResponse)) :=
  let? stream := rpc_Answers req else err => ret (Err (Wrap "failed to create list stream: " err)) in
  ret (Ok (received stream)).

Definition Unpublish (req : UnpublishRequest) : M N (result unit) :=
  let? _u := rpc_Call (Res := unit) req else err => ret (Err (Wrap "failed to unpublish object: " err)) in
  ret (Ok tt).

End routing.

(** ** search.go and verify.go *)

Section search.
Context {N : Type} `{!AnswerClient N SearchRequest string} `{!UnaryClient N (option RecordRef) signCtrl.VerifyResponse}.

Definition Search (req : SearchRequest) : M N (result (list string)) :=
  let? stream := rpc_Answers req else err => ret (Err (Wrap "failed to create search stream: " err)) in
  ret (Ok (received stream)).

Definition Verify (recordRef : option RecordRef) : M N (result signCtrl.VerifyResponse) :=
  let? response := rpc_Call recordRef else err => ret (Err (Wrap "server verification failed: " err)) in
  ret (Ok response).

End search.

(** ** sync.go *)

Section sync.
Context {N : Type} `{!UnaryClient N CreateSyncRequest string} `{!AnswerClient N ListSyncsRequest syncCtlr.SyncView}
  `{!UnaryClient N SyncIdRequest syncCtlr.SyncView} `{!UnaryClient N SyncIdRequest unit}.

Definition CreateSync (remoteURL : string) : M N (result string) :=
  let? id := rpc_Call {| Create_RemoteDirectoryUrl := remoteURL |}
    else err => ret (Err (Wrap "failed to create sync: " err)) in
  ret (Ok id).

Definition ListSyncs (req : ListSyncsRequest) : M N (result (list syncCtlr.SyncView)) :=
  let? stream := rpc_Answers req else err => ret (Err (Wrap "failed to create list syncs stream: " err)) in
  ret (Ok (received stream)).

Definition GetSync (syncID : string) : M N (result syncCtlr.SyncView) :=
  let? meta := rpc_Call {| Req_SyncId := syncID |} else err => ret (Err (Wrap "failed to get sync: " err)) in
  ret (Ok meta).

Definition DeleteSync (syncID : string) : M N (result unit) :=
  let? _u := rpc_Call (Res := unit) {| Req_SyncId := syncID |}
    else err => ret (Err (Wrap "failed to delete sync: " err)) in
  ret (Ok tt).

End sync.
End calls.

(** ** A connection that stays up

    The error of a handler arrives as some error. *)

Section laws.
Context {N W Req Res : Type} (world : N -> W).

Class UnarySpec `{!UnaryClient N Req Res} (serve : Req -> M W (result Res)) : Prop := {
  Call_spec req n : exists x n', rpc_Call req n = (x, n') /\ world n' = (serve req (world n)).2
    /\ match (serve req (world n)).1 with Ok a => x = Ok a | Err _ => is_ok x = false end }.

(** The answers, and an error at their end when the handler failed. *)
Class AnswerSpec `{!AnswerClient N Req Res} (serve : Req -> M W (list Res * option error)) : Prop := {
  Answers_spec req n : exists l n', rpc_Answers req n = (Ok l, n') /\ world n' = (serve req (world n)).2
    /\ match (serve req (world n)).1 with
       | (answers, None) => l = Ok <$> answers
       | (answers, Some _) => exists e, l = (Ok <$> answers) ++ [Err e]
       end }.

Lemma received_app (l : list Res) e : received ((Ok <$> l) ++ [Err e]) = l.
Proof. induction l as [|a l IH]; [done|]. rewrite fmap_cons. simpl. by f_equal. Qed.

Lemma received_all (l : list Res) : received (Ok <$> l) = l.
Proof. induction l as [|a l IH]; [done|]. rewrite fmap_cons. simpl. by f_equal. Qed.

(** The client has the answers that were sent, and not whether the handler failed. *)
Lemma answers_run `{!AnswerClient N Req Res} serve `{!AnswerSpec serve} req n :
  exists l n', rpc_Answers req n = (Ok l, n') /\ world n' = (serve req (world n)).2
    /\ received l = (serve req (world n)).1.1.
Proof.
  destruct (Answers_spec req n) as (l & n' & Hrun & Hw & Hl). exists l, n'. split; [done|]. split; [done|].
  destruct (serve req (world n)).1 as [answers [e|]]; [destruct Hl as [e' ->]; apply received_app|].
  subst. apply received_all.
Qed.

End laws.

(** ** The handlers as the client meets them *)

Section handlers.
Context {D Nw T : Type} `{!Datastore D} `{!JsonCodec LabelMetadata} `{!JsonCodec Metrics} (me : string).

Definition list_service (req : ListRequest) : M (World D Nw T) (list ListResponse * option error) := fun w =>
  let '(x, out) := routingCtlr.List me reply (w_ds w) (List_Queries req) (List_Limit req) [] in
  ((out, status_of (Some x)), w).
End handlers.

Definition search_service {D} `{!sqlite.Gorm D} (req : SearchRequest) : M D (list string * option error) := fun d =>
  let '(x, out) := searchCtlr.Search reply d (Search_Queries req) (Search_Limit req) (Search_Offset req) [] in
  ((out, status_of (Some x)), d).

Section syncs.
Context {D F Mo Nt : Type} `{!SyncTable D}.
Context (uuid : nat -> string) (url_error : string -> error).
Notation W := (SyncWorld D F Mo Nt).

Definition create_service (req : CreateSyncRequest) : M W (result string) :=
  syncCtlr.CreateSync uuid url_error (Create_RemoteDirectoryUrl req).
Definition get_service (req : SyncIdRequest) : M W (result syncCtlr.SyncView) := fun w =>
  (syncCtlr.GetSync (Req_SyncId req) (s_db w), w).
Definition delete_sync_service (req : SyncIdRequest) : M W (result unit) := syncCtlr.DeleteSync (Req_SyncId req).
Definition list_syncs_service (req : ListSyncsRequest) : M W (list syncCtlr.SyncView * option error) := fun w =>
  let '(x, out) := syncCtlr.ListSyncs reply (s_db w) (Syncs_Offset req) (Syncs_Limit req) [] in
  ((out, status_of (Some x)), w).
End syncs.

(** A call within one process. *)
Definition direct {N W Req Res} (world : N -> W) (set_world : W -> N -> N) (serve : Req -> M W (result Res))
  : UnaryClient N Req Res :=
  {| rpc_Call req n := let '(x, w) := serve req (world n) in (x, set_world w n) |}.
Definition direct_answers {N W Req Res} (world : N -> W) (set_world : W -> N -> N)
    (serve : Req -> M W (list Res * option error)) : AnswerClient N Req Res :=
  {| rpc_Answers req n := let '((l, status), w) := serve req (world n) in
       (Ok ((Ok <$> l) ++ match status with Some e => [Err e] | None => [] end), set_world w n) |}.

Lemma direct_spec {N W Req Res} (world : N -> W) set_world (serve : Req -> M W (result Res)) :
  (forall w n, world (set_world w n) = w) -> @UnarySpec N W Req Res world (direct world set_world serve) serve.
Proof.
  intros Hw. split. intros req n. simpl. destruct (serve req (world n)) as [x w]. exists x, (set_world w n).
  simpl. split; [done|]. split; [done|]. by destruct x.
Qed.

Lemma direct_answers_spec {N W Req Res} (world : N -> W) set_world (serve : Req -> M W (list Res * option error)) :
  (forall w n, world (set_world w n) = w) ->
  @AnswerSpec N W Req Res world (direct_answers world set_world serve) serve.
Proof.
  intros Hw. split. intros req n. simpl. destruct (serve req (world n)) as [[l status] w].
  eexists _, _. split; [done|]. simpl. split; [done|]. destruct status; [by eexists|]. by rewrite app_nil_r.
Qed.
