(* ===== verification/Cli.v ===== *)
(** * The command line

    cli/cmd: the commands of dirctl, over the calls of the client.  Module [query]
    is the flag of search (search/query.go), Module [dirctl] has one definition per
    [runCommand] or [RunE].  The client is in the context of every command, where
    PersistentPreRunE puts it; options and arguments are arguments of the
    definitions. *)

From S2P Require Import Prelude GoStrings GoUrl Interfaces Adapters CoreRecord Validators LabelKey Metrics RoutingWorld RoutingLocal RoutingLocalSpec Routing StoreCache Search Tables StoreController OciReferrers Client Signing ZotConfig Publication RoutingService Sync SyncSpec ClientCalls.
From stdpp Require Import pretty.

Open Scope string_scope.
Open Scope list_scope.
Open Scope go_scope.

Arguments GetCid : simpl never.
Arguments MarshalOASF : simpl never.

(** ** The machine

    Opening a file gives a reader or an error, and [io.ReadAll] of the reader its
    bytes or an error; the environment, the terminal and the browser of the user;
    [json.Indent]. *)
Class CliMachine := {
  os_Open : string -> result (result string);
  os_ReadFile : string -> result string;
  env_LookupEnv : string -> option string;
  cosign_IsTerminal : bool;
  cosign_GetPassFromTerm : result string;
  io_ReadAll_Stdin : result string;
  oauthflow_OIDConnect : string -> string -> result string;   (** issuer, client: the raw token *)
  json_Indent : string -> string;
}.

(** [json.MarshalIndent] marshals and indents. *)
Definition MarshalIndent `{!CliMachine} (marshalled : result string) : result string :=
  match marshalled with Ok b => Ok (json_Indent b) | Err e => Err e end.

(** ** The query flag of search *)

Module query.
Import searchv1.

(** api/search/v1/record_query.go *)
Definition ValidQueryTypes : list string :=
  ["name"; "version"; "skill-id"; "skill-name"; "locator"; "extension"].
(** The zero value for a name that the map does not have. *)
Definition RecordQueryType_value (name : string) : RecordQueryType :=
  if decide (name = "name") then RECORD_QUERY_TYPE_NAME
  else if decide (name = "version") then RECORD_QUERY_TYPE_VERSION
  else if decide (name = "skill-id") then RECORD_QUERY_TYPE_SKILL_ID
  else if decide (name = "skill-name") then RECORD_QUERY_TYPE_SKILL_NAME
  else if decide (name = "locator") then RECORD_QUERY_TYPE_LOCATOR
  else if decide (name = "extension") then RECORD_QUERY_TYPE_EXTENSION
  else RECORD_QUERY_TYPE_UNSPECIFIED.

Definition QuerySet (q : list string) (value : string) : result (list string) :=
  if decide (value = "") then Err (Plain "empty query not allowed")
  else
    let parts := SplitN2 "=" value in
    if decide ("" ∈ parts) then Err (Plain "invalid query format, empty field or value")
    else match TrimSpace <$> parts with
    | field :: _ :: _ =>
        if decide (field ∈ ValidQueryTypes) then Ok (q ++ [value])
        else Err (Plain ("invalid query type: " +:+ field +:+ ", valid types are: " +:+ GoStrings.Join ValidQueryTypes ", "))
    | _ => Err (Plain "invalid query format, expected 'field=value'")
    end.

(** The flags of a command line, in order. *)
Fixpoint QueryFlags (q : list string) (values : list string) : result (list string) :=
  match values with
  | [] => Ok q
  | v :: values => match QuerySet q v with Ok q => QueryFlags q values | Err e => Err e end
  end.

(** [None]: the index into the parts panics. *)
Fixpoint ToAPIQueries (q : list string) : option (list RecordQuery) :=
  match q with
  | [] => Some []
  | item :: q =>
      match SplitN2 "=" item with
      | field :: value :: _ =>
          (fun queries => {| GetType := RecordQueryType_value field; GetValue := value |} :: queries) <$> ToAPIQueries q
      | _ => None
      end
  end.
End query.

(** ** The commands *)

(** The server as the client reaches it, and what was printed. *)
Record Term (N : Type) := { t_net : N; t_out : string }.
Arguments t_net {N}. Arguments t_out {N}.

Definition newline : string := String (ascii_of_nat 10) "".

Section terminal.
Context {N : Type}.
Definition on_net {A} (c : M N A) : M (Term N) A := fun w =>
  let '(a, n) := c (t_net w) in (a, {| t_net := n; t_out := t_out w |}).
(** presenter.Print and presenter.Printf *)
Definition Print (s : string) : M (Term N) unit := fun w =>
  (tt, {| t_net := t_net w; t_out := t_out w +:+ s |}).
End terminal.

Module dirctl.

(** ** sign *)

Record SignFlags := {
  Flag_FulcioURL : string; Flag_RekorURL : string; Flag_TimestampURL : string;
  Flag_OIDCProviderURL : string; Flag_OIDCClientID : string; Flag_OIDCToken : string; Flag_Key : string }.

Section sign.
Context `{HashLib} {N : Type} `{!KeyLib N} `{!Sigstore N} `{!JsonCodec Payload}
  `{!StreamClient N PushReq storeCtrl.PushReferrerResponse} `{!CliMachine}.
Context (opts : SignFlags).

(** utils/cosign/keys.go *)
Definition ReadPrivateKeyPassword : result string :=
  match env_LookupEnv "COSIGN_PASSWORD" with
  | Some pw => Ok pw
  | None => if cosign_IsTerminal then cosign_GetPassFromTerm else io_ReadAll_Stdin
  end.

Definition key_request (recordCID rawKey pw : string) : SignRequest := {|
  Sign_RecordRef := Some {| ref_Cid := recordCID |};
  Sign_Provider := Some {| Provider_Request :=
    Some (SignRequestProvider_Key (Some {| PrivateKey := rawKey; Key_Password := Some pw |})) |} |}.

Definition oidc_request (recordCID token : string) : SignRequest := {|
  Sign_RecordRef := Some {| ref_Cid := recordCID |};
  Sign_Provider := Some {| Provider_Request := Some (SignRequestProvider_Oidc (Some {|
    IdToken := token;
    Oidc_Options := Some {|
      FulcioUrl := Flag_FulcioURL opts; RekorUrl := Flag_RekorURL opts;
      TimestampUrl := Flag_TimestampURL opts; OidcProviderUrl := Flag_OIDCProviderURL opts |} |})) |} |}.

Definition Sign (recordCID : string) : M N (result unit) :=
  if decide (Flag_Key opts <> "") then
    match os_ReadFile (filepath_Clean (Flag_Key opts)) with
    | Err err => ret (Err (Wrap "failed to read key file: " err))
    | Ok rawKey =>
        match ReadPrivateKeyPassword with
        | Err err => ret (Err (Wrap "failed to read password: " err))
        | Ok pw =>
            let? _s := signer.SignWithKey (key_request recordCID rawKey pw)
              else err => ret (Err (Wrap "failed to sign record with key: " err)) in
            ret (Ok tt)
        end
    end
  else if decide (Flag_OIDCToken opts <> "") then
    let? _s := signer.SignWithOIDC (oidc_request recordCID (Flag_OIDCToken opts))
      else err => ret (Err (Wrap "failed to sign record: " err)) in
    ret (Ok tt)
  else
    match oauthflow_OIDConnect (Flag_OIDCProviderURL opts) (Flag_OIDCClientID opts) with
    | Err err => ret (Err (Wrap "failed to get OIDC token: " err))
    | Ok token =>
        let? _s := signer.SignWithOIDC (oidc_request recordCID token)
          else err => ret (Err (Wrap "failed to sign record: " err)) in
        ret (Ok tt)
    end.

Definition sign (args : list string) : M (Term N) (result unit) :=
  match args with
  | [] => ret (Err (Plain "record CID is required"))
  | _ :: _ :: _ => ret (Err (Plain "only one record CID is allowed"))
  | [recordCID] =>
      let? _u := on_net (Sign recordCID) else err => ret (Err (Wrap "failed to sign record: " err)) in
      do! Print "Record signed successfully" then
      ret (Ok tt)
  end.

End sign.

(** ** push *)

Section push.
Context `{HashLib} `{!OasfJson} {N : Type} `{!KeyLib N} `{!Sigstore N} `{!JsonCodec Payload} `{!CliMachine}
  `{!StreamClient N PushReq storeCtrl.PushReferrerResponse} `{!StreamClient N CoreRecord RecordRef}.
Context (sign_opts : SignFlags) (FromStdin SignRecord : bool).

Definition push_source (source : result string) : M (Term N) (result unit) :=
  match LoadOASFFromReader source with
  | Err err => ret (Err (Wrap "failed to load OASF: " err))
  | Ok record =>
      let? recordRef := on_net (client.Push record)
        else err => ret (Err (Wrap "failed to push data: " err)) in
      let? _u := (if SignRecord then on_net (Sign sign_opts (ref_Cid recordRef)) else ret (Ok tt))
        else err => ret (Err (Wrap "failed to sign record: " err)) in
      do! Print (ref_Cid recordRef) then
      ret (Ok tt)
  end.

Definition push (args : list string) : M (Term N) (result unit) :=
  match args with
  | _ :: _ :: _ => ret (Err (Plain "only one file path is allowed"))
  | _ =>
      let path := match args with path :: _ => path | [] => "" end in
      if decide (path = "" /\ FromStdin = false) then
        ret (Err (Plain "if no path defined --stdin flag must be set"))
      else match os_Open path with
      | Err err => ret (Err (Wrap ("could not open file " +:+ path +:+ ": ") err))
      | Ok source => push_source source
      end
  end.
End push.

(** ** pull *)

Section pull.
Context `{!OasfJson} {N : Type} `{!CliMachine} `{!StreamClient N RecordRef CoreRecord}
  `{!StreamClient N storeCtrl.PullReferrerRequest PullRes}.
Context (FormatRaw PublicKey Signature_ : bool).

(** The message of a record, marshalled. *)
Definition oasf_raw (record : CoreRecord) : option (result string) :=
  match GetData record with
  | Some (Record_V1 d) => Some (json_MarshalPtr oasf_v1 d)
  | Some (Record_V2 d) => Some (json_MarshalPtr oasf_v2 d)
  | Some (Record_V3 d) => Some (json_MarshalPtr oasf_v3 d)
  | None => None
  end.

Definition referrer_request (cid : string) (o : storeCtrl.PullReferrerOptions) : storeCtrl.PullReferrerRequest := {|
  storeCtrl.PullReferrer_RecordRef := Some {| ref_Cid := cid |}; storeCtrl.PullReferrer_Options := Some o |}.

Definition pull_public_key (cid : string) : M (Term N) (result unit) :=
  let? response := on_net (client.PullReferrer (referrer_request cid storeCtrl.PullReferrerRequest_PullPublicKey))
    else err => ret (Err (Wrap "failed to pull public key: " err)) in
  do! Print ("Public key: " +:+ match response : PullRes with
    | storeCtrl.PullReferrerResponse_PublicKey k => k | _ => "" end) then
  ret (Ok tt).

Definition pull_signature (cid : string) : M (Term N) (result unit) :=
  let? response := on_net (client.PullReferrer (referrer_request cid storeCtrl.PullReferrerRequest_PullSignature))
    else err => ret (Err (Wrap "failed to pull signature: " err)) in
  do! Print ("Signature: " +:+ match response : PullRes with
    | storeCtrl.PullReferrerResponse_Signature s => on s "" Sig_Signature | _ => "" end) then
  ret (Ok tt).

Definition pull (args : list string) : M (Term N) (result unit) :=
  match args with
  | [cid] =>
      let? record := on_net (client.Pull {| ref_Cid := cid |})
        else err => ret (Err (Wrap "failed to pull data: " err)) in
      match oasf_raw record with
      | None => ret (Err (Plain "unsupported record type"))
      | Some (Err err) => ret (Err (Wrap "failed to marshal OASF object: " err))
      | Some (Ok rawData) =>
          if FormatRaw then do! Print rawData then ret (Ok tt)
          else match MarshalIndent (Ok rawData) with
          | Err err => ret (Err (Wrap "failed to marshal OASF object to JSON: " err))
          | Ok output =>
              do! Print output then
              let? _u := (if PublicKey then pull_public_key cid else ret (Ok tt)) else err => ret (Err err) in
              let? _v := (if Signature_ then pull_signature cid else ret (Ok tt)) else err => ret (Err err) in
              ret (Ok tt)
          end
      end
  | _ => ret (Err (Plain "cid is a required argument"))
  end.
End pull.

(** ** delete and info *)

Section store.
Context {N : Type} `{!CliMachine} `{!StreamClient N RecordRef RecordMeta} `{!StreamClient N RecordRef unit}
  `{!JsonCodec RecordMeta}.

Definition delete (args : list string) : M (Term N) (result unit) :=
  match args with
  | [cid] =>
      let? _u := on_net (client.Delete {| ref_Cid := cid |})
        else err => ret (Err (Wrap "failed to delete record: " err)) in
      do! Print ("Deleted record with cid: " +:+ cid +:+ newline) then
      ret (Ok tt)
  | _ => ret (Err (Plain "cid is a required argument"))
  end.

Definition info (args : list string) : M (Term N) (result unit) :=
  match args with
  | [cid] =>
      let? meta := on_net (client.Lookup {| ref_Cid := cid |})
        else err => ret (Err (Wrap "failed to pull data: " err)) in
      match MarshalIndent (json_Marshal meta) with
      | Err err => ret (Err (Wrap "failed to marshal record to JSON: " err))
      | Ok output =>
          do! Print output then
          ret (Ok tt)
      end
  | _ => ret (Err (Plain "exactly one argument is required which is the cid of the object"))
  end.
End store.

(** ** publish and unpublish *)

Section publish.
Context {N : Type} `{!StreamClient N RecordRef RecordMeta} `{!UnaryClient N PublishRequest unit}
  `{!UnaryClient N UnpublishRequest unit}.

Definition publish_request (cid : string) : PublishRequest :=
  {| GetRequest' := Some (PublishRequest_RecordRefs [{| ref_Cid := cid |}]) |}.
Definition unpublish_request (cid : string) : UnpublishRequest :=
  Some (routingCtlr.UnpublishRequest_RecordRefs [Some {| ref_Cid := cid |}]).

Definition publish_failed (err : error) : error :=
  if Contains (err_string err) "failed to announce object" then
    Plain "failed to announce object, it will be retried in the background on the API server"
  else Wrap "failed to publish: " err.

Definition publish (args : list string) : M (Term N) (result unit) :=
  match args with
  | [cid] =>
      let? _meta := on_net (client.Lookup {| ref_Cid := cid |})
        else err => ret (Err (Wrap "failed to lookup: " err)) in
      do! Print ("Publishing record with CID: " +:+ cid +:+ newline) then
      let? _u := on_net (calls.Publish (publish_request cid))
        else err => ret (Err (publish_failed err)) in
      do! Print ("Successfully published!" +:+ newline) then
      ret (Ok tt)
  | _ => ret (Err (Plain "cid is a required argument"))
  end.

Definition unpublish (args : list string) : M (Term N) (result unit) :=
  match args with
  | [cid] =>
      let? _meta := on_net (client.Lookup {| ref_Cid := cid |})
        else err => ret (Err (Wrap "failed to lookup: " err)) in
      do! Print ("Unpublishing record with CID: " +:+ cid +:+ newline) then
      let? _u := on_net (calls.Unpublish (unpublish_request cid))
        else err => ret (Err (Wrap "failed to unpublish: " err)) in
      do! Print ("Successfully unpublished!" +:+ newline) then
      ret (Ok tt)
  | _ => ret (Err (Plain "cid is a required argument"))
  end.
End publish.

(** ** list *)

Definition label_query (label : string) : option RecordQuery :=
  if HasPrefix label "/skills/" then
    Some {| Query_Type := RECORD_QUERY_TYPE_SKILL; Query_Value := TrimPrefix label "/skills/" |}
  else if HasPrefix label "/locators/" then
    Some {| Query_Type := RECORD_QUERY_TYPE_LOCATOR; Query_Value := TrimPrefix label "/locators/" |}
  else None.
Definition convertLabelsToRecordQueries (labels : list string) : list RecordQuery := omap label_query labels.

Record ListFlags := { Flag_Cid : string; Flag_PeerID : string; Flag_Network : bool }.

Section list.
Context {N : Type} `{!AnswerClient N ListRequest ListResponse}.

(** A line with its end. *)
Definition line (s : string) : string := s +:+ newline.

Definition item_text (title : string) (item : ListResponse) : string :=
  line title +:+ line ("  CID: " +:+ Resp_Cid item) +:+ line ("  Labels: " +:+ GoStrings.Join (Labels item) ", ").

Definition print_item (item : ListResponse) : M (Term N) unit :=
  do! Print (item_text "Local Record:" item) then
  Print newline.

Definition all_records : ListRequest := {| List_Queries := []; List_Limit := 0 |}.

(** The loop over the channel ends at the first item with the CID. *)
Fixpoint find_item (cid : string) (items : list ListResponse) : M (Term N) bool :=
  match items with
  | [] => ret false
  | item :: items =>
      if decide (Resp_Cid item = cid) then
        do! Print (item_text "Local Record Found:" item) then
        ret true
      else find_item cid items
  end.

Definition listCid (cid : string) : M (Term N) (result unit) :=
  do! Print (line "Note: CID lookup should use Search API for network-wide provider discovery.") then
  do! Print (line "Checking if CID exists in local records:" +:+ newline) then
  let? items := on_net (calls.List all_records)
    else err => ret (Err (Wrap "failed to list local records: " err)) in
  let! found := find_item cid items in
  do! (if (found : bool) then ret tt else
    do! Print (line ("CID " +:+ cid +:+ " not found in local records.")) then
    Print (line "Use 'dirctl search' to find providers across the network.")) then
  ret (Ok tt).

(** What listNetwork and listPeer have in common. *)
Definition list_labels (labels : list string) : M (Term N) (result unit) :=
  let queries := convertLabelsToRecordQueries labels in
  let? items := on_net (calls.List {| List_Queries := queries; List_Limit := 0 |})
    else err => ret (Err (Wrap "failed to list local records: " err)) in
  do! for_each print_item items then
  ret (Ok tt).

Definition listNetwork (labels : list string) : M (Term N) (result unit) :=
  do! Print (line "Note: Network mode now uses Search API for network-wide discovery." +:+ newline) then
  do! Print (line "Warning: Search API not yet implemented in CLI.") then
  do! Print (line "Falling back to local records only:" +:+ newline) then
  list_labels labels.

Definition listPeer (peerID : string) (labels : list string) : M (Term N) (result unit) :=
  do! (if decide (peerID <> "") then
    do! Print (line "Warning: --peer flag ignored. List operation is local-only.") then
    Print (line "Use 'dirctl search' for network-wide queries." +:+ newline) else ret tt) then
  list_labels labels.

Definition list (opts : ListFlags) (labels : list string) : M (Term N) (result unit) :=
  if decide (Flag_Cid opts <> "") then listCid (Flag_Cid opts)
  else if decide (labels = []) then ret (Err (Plain "no labels specified"))
  else if Flag_Network opts then listNetwork labels
  else listPeer (Flag_PeerID opts) labels.

(** list info: the counts are uint64, and a range over a map is in any order. *)
Definition count_label (counts : gmap string Z) (label : string) : gmap string Z :=
  <[label := ((default 0 (counts !! label) + 1) mod 2 ^ 64)%Z]> counts.
Definition count_item (acc : Z * gmap string Z) (item : ListResponse) : Z * gmap string Z :=
  ((acc.1 + 1)%Z, foldl count_label acc.2 (Labels item)).

Definition list_info (order : gmap string Z -> Datatypes.list (string * Z)) (peerID : string) : M (Term N) (result unit) :=
  do! (if decide (peerID <> "") then
    do! Print (line "Warning: --peer flag ignored. Info operation is local-only.") then
    Print (line "Use 'dirctl search' for network-wide statistics." +:+ newline) else ret tt) then
  do! Print (line "Local Record Summary:" +:+ newline) then
  let? items := on_net (calls.List all_records)
    else err => ret (Err (Wrap "failed to list local records: " err)) in
  let '(totalRecords, labelCounts) := foldl count_item (0%Z, ∅) items in
  do! Print (line ("Total Records: " +:+ pretty totalRecords) +:+ newline) then
  do! (if decide (labelCounts <> ∅) then
    do! Print (line "Label Distribution:") then
    for_each (fun x => Print (line ("  " +:+ x.1 +:+ ": " +:+ pretty x.2))) (order labelCounts)
    else Print (line "No labels found.")) then
  ret (Ok tt).
End list.

(** ** search and verify *)

Section search.
Context {N : Type} `{!AnswerClient N SearchRequest string} `{!UnaryClient N (option RecordRef) signCtrl.VerifyResponse}.

Definition print_cid (recordCid : string) : M (Term N) unit :=
  if decide (recordCid = "") then ret tt else Print (recordCid +:+ newline).

(** [None] is the panic of [ToAPIQueries]. *)
Definition search (Limit Offset : Z) (Query : Datatypes.list string) : option (M (Term N) (result unit)) :=
  match query.ToAPIQueries Query with
  | None => None
  | Some queries => Some (
      let? ch := on_net (calls.Search {| Search_Queries := queries; Search_Limit := Limit; Search_Offset := Offset |})
        else err => ret (Err (Wrap "failed to search: " err)) in
      do! for_each print_cid ch then
      ret (Ok tt))
  end.

Definition verify (args : Datatypes.list string) : M (Term N) (result unit) :=
  match args with
  | _ :: _ :: _ => ret (Err (Plain "one argument is allowed"))
  | _ =>
      let recordRef := match args with cid :: _ => cid | [] => "" end in
      let? response := on_net (calls.Verify (Some {| ref_Cid := recordRef |}))
        else err => ret (Err (Wrap "failed to verify record with Zot: " err)) in
      do! (if signCtrl.Success response then Print "Record signature is trusted!"
           else Print ("Record signature is not trusted: " +:+ default "" (signCtrl.ErrorMessage response))) then
      ret (Ok tt)
  end.
End search.

(** ** sync *)

Definition SyncStatus_name (st : SyncStatus) : string :=
  match st with
  | SYNC_STATUS_UNSPECIFIED => "SYNC_STATUS_UNSPECIFIED"
  | SYNC_STATUS_PENDING => "SYNC_STATUS_PENDING"
  | SYNC_STATUS_IN_PROGRESS => "SYNC_STATUS_IN_PROGRESS"
  | SYNC_STATUS_FAILED => "SYNC_STATUS_FAILED"
  | SYNC_STATUS_DELETE_PENDING => "SYNC_STATUS_DELETE_PENDING"
  | SYNC_STATUS_DELETED => "SYNC_STATUS_DELETED"
  end.

Definition view_text (v : syncCtlr.SyncView) : string :=
  "ID " +:+ syncCtlr.View_SyncId v +:+ " Status " +:+ SyncStatus_name (syncCtlr.View_Status v)
  +:+ " RemoteDirectoryUrl " +:+ syncCtlr.View_RemoteDirectoryUrl v +:+ newline.

Section sync.
Context {N : Type} `{!UnaryClient N CreateSyncRequest string} `{!AnswerClient N ListSyncsRequest syncCtlr.SyncView}
  `{!UnaryClient N SyncIdRequest syncCtlr.SyncView} `{!UnaryClient N SyncIdRequest unit}.

Definition runCreateSync (remoteURL : string) : M (Term N) (result unit) :=
  if decide (remoteURL = "") then ret (Err (Plain "remote URL is required"))
  else
    let? syncID := on_net (calls.CreateSync remoteURL)
      else err => ret (Err (Wrap "failed to create sync: " err)) in
    do! Print ("Sync created with ID: " +:+ syncID) then
    ret (Ok tt).

Definition runListSyncs (Limit Offset : Z) : M (Term N) (result unit) :=
  let? items := on_net (calls.ListSyncs {| Syncs_Limit := Limit; Syncs_Offset := Offset |})
    else err => ret (Err (Wrap "failed to list syncs: " err)) in
  do! for_each (fun sync => Print (view_text sync)) items then
  ret (Ok tt).

Definition runGetSyncStatus (syncID : string) : M (Term N) (result unit) :=
  if decide (syncID = "") then ret (Err (Plain "sync ID is required"))
  else
    let? sync := on_net (calls.GetSync syncID)
      else err => ret (Err (Wrap "failed to get sync status: " err)) in
    do! Print (view_text sync) then
    ret (Ok tt).

Definition runDeleteSync (syncID : string) : M (Term N) (result unit) :=
  if decide (syncID = "") then ret (Err (Plain "sync ID is required"))
  else
    let? _u := on_net (calls.DeleteSync syncID)
      else err => ret (Err (Wrap "failed to delete sync: " err)) in
    ret (Ok tt).
End sync.

End dirctl.
