(* ===== verification/CliSpec.v ===== *)
(** * What the commands do

    The commands of [Cli] on connections that stay up, with the handlers of the
    server at the other end: pushing and pulling a record, listing, searching and
    the life of a synchronisation, as the user of the terminal sees them. *)

From S2P Require Import Prelude GoStrings GoUrl GoForm Interfaces Adapters CoreRecord Validators LabelKey Metrics RoutingWorld RoutingLocal RoutingLocalSpec Routing StoreCache Search Tables StoreController OciReferrers Client Signing ZotConfig Publication RoutingService Sync SyncSpec ClientCalls Cli.
From stdpp Require Import pretty.

Open Scope string_scope.
Open Scope list_scope.
Open Scope go_scope.

Arguments GetCid : simpl never.
Arguments MarshalOASF : simpl never.

(** ** Printing *)

Definition text (l : list string) : string := foldr String.append "" l.

(** What a command leaves that reached the server in state [n] and printed [s]. *)
Definition after {N} (w : Term N) (n : N) (s : string) : Term N := {| t_net := n; t_out := t_out w +:+ s |}.

Lemma after_after {N} (w : Term N) n n' s s' : after (after w n s) n' s' = after w n' (s +:+ s').
Proof. unfold after. simpl. by rewrite append_assoc. Qed.

Lemma print_run {N A} s (k : unit -> M (Term N) A) w : bind (Print s) k w = k tt (after w (t_net w) s).
Proof. done. Qed.

Lemma print_loop {N A} (f : A -> M (Term N) unit) (g : A -> string) l w :
  (forall a w, f a w = (tt, after w (t_net w) (g a))) ->
  for_each f l w = (tt, after w (t_net w) (text (g <$> l))).
Proof.
  intros Hf. revert w. induction l as [|a l IH]; intros w.
  - unfold after. simpl. rewrite append_nil_r. by destruct w.
  - rewrite (for_each_cons _ _ _ _ _ (Hf a w)), IH, after_after. done.
Qed.

Lemma on_net_run {N A} (c : M N A) (w : Term N) a n :
  c (t_net w) = (a, n) -> on_net c w = (a, after w n "").
Proof. intros Hc. unfold on_net, after. by rewrite Hc, append_nil_r. Qed.

(** ** The query flag *)

Lemma SplitN2_cases sep s :
  (SplitN2 sep s = [s] /\ no_sep sep s = true)
  \/ exists f x, SplitN2 sep s = [f; x] /\ s = f +:+ String sep x /\ no_sep sep f = true.
Proof.
  induction s as [|c s IH]; [by left|]. cbn [SplitN2]. destruct (decide (c = sep)) as [->|Hne].
  - right. by exists "", s.
  - destruct IH as [[-> Hs]|(f & x & -> & -> & Hf)].
    + left. split; [done|]. by apply no_sep_cons.
    + right. exists (String c f), x. split; [done|]. split; [done|]. by apply no_sep_cons.
Qed.

(** A flag as it was written: the field, which may have spaces around it, and the
    value. *)
Definition written (f x v : string) : Prop :=
  v = f +:+ "=" +:+ x /\ no_sep "=" f = true /\ f <> "" /\ x <> "" /\ TrimSpace f ∈ query.ValidQueryTypes.

Lemma QuerySet_spec q v q' :
  query.QuerySet q v = Ok q' <-> q' = q ++ [v] /\ exists f x, written f x v.
Proof.
  unfold query.QuerySet, written. destruct (SplitN2_cases "=" v) as [[Hs Hv]|(f & x & Hs & -> & Hf)].
  - rewrite Hs. split.
    + by repeat case_decide.
    + intros (_ & f & x & -> & Hf & _). exfalso. by rewrite no_sep_app, andb_false_r in Hv.
  - rewrite decide_False by by destruct f. rewrite Hs. simpl. split.
    + case_decide as He; [done|]. case_decide as Hval; [|done]. intros [= <-]. split; [done|]. exists f, x.
      rewrite !not_elem_of_cons in He. destruct He as (? & ? & _). done.
    + intros (-> & f' & x' & Heq & Hf' & Hne & Hnx & Hval).
      assert (f' = f /\ x' = x) as [-> ->].
      { destruct (SplitN2_cases "=" (f' +:+ "=" +:+ x')) as [[_ Hno]|(g & y & Hs' & Hg & Hgs)].
        - exfalso. by rewrite no_sep_app, andb_false_r in Hno.
        - assert (Hcut : Cut "=" (f' +:+ String "=" x') = Cut "=" (f +:+ String "=" x)) by (by f_equal).
          rewrite !Cut_app in Hcut by done. by injection Hcut as -> ->. }
      rewrite decide_False by (rewrite !not_elem_of_cons; split; [done|split; [done|apply not_elem_of_nil]]).
      by rewrite decide_True.
Qed.

(** The type that a written field gets: with spaces around it, none. *)
Definition field_type (f : string) : searchv1.RecordQueryType :=
  if decide (TrimSpace f = f) then query.RecordQueryType_value f else searchv1.RECORD_QUERY_TYPE_UNSPECIFIED.

Lemma valid_trimmed f : f ∈ query.ValidQueryTypes -> TrimSpace f = f.
Proof.
  unfold query.ValidQueryTypes. rewrite !elem_of_cons, elem_of_nil.
  by intros [->|[->|[->|[->|[->|[->|[]]]]]]].
Qed.

Lemma unknown_type f : f ∉ query.ValidQueryTypes ->
  query.RecordQueryType_value f = searchv1.RECORD_QUERY_TYPE_UNSPECIFIED.
Proof.
  unfold query.ValidQueryTypes. rewrite !not_elem_of_cons. intros (? & ? & ? & ? & ? & ? & _).
  unfold query.RecordQueryType_value. by rewrite !decide_False.
Qed.

Lemma field_type_spec f : query.RecordQueryType_value f = field_type f.
Proof.
  unfold field_type. case_decide as Ht; [done|]. apply unknown_type. by intros ?%valid_trimmed.
Qed.

Lemma flags_run vs q :
  match query.QueryFlags q vs with
  | Ok q' => q' = q ++ vs /\ Forall (fun v => exists f x, written f x v) vs
  | Err _ => exists v, v ∈ vs /\ forall f x, ~ written f x v
  end.
Proof.
  revert q. induction vs as [|v vs IH]; intros q; simpl; [by rewrite app_nil_r|].
  destruct (query.QuerySet q v) as [q1|e] eqn:Hq.
  - apply QuerySet_spec in Hq as (-> & Hw). specialize (IH (q ++ [v])).
    destruct (query.QueryFlags (q ++ [v]) vs) as [q2|e].
    + destruct IH as [-> IH]. rewrite <- app_assoc. split; [done|]. by constructor.
    + destruct IH as (v' & Hv' & Hn). exists v'. split; [by right|done].
  - exists v. split; [left|]. intros f x Hw. pose proof (proj2 (QuerySet_spec q v (q ++ [v]))) as Hr.
    rewrite Hq in Hr. discriminate Hr. split; [done|]. by exists f, x.
Qed.

Lemma written_queries vs : Forall (fun v => exists f x, written f x v) vs ->
  exists qs, query.ToAPIQueries vs = Some qs /\ Forall2 (fun v p => exists f x, written f x v
    /\ searchv1.GetType p = field_type f /\ searchv1.GetValue p = x) vs qs.
Proof.
  induction 1 as [|v vs (f & x & Hw) _ IH]; [by exists []|].
  destruct IH as (qs & Hqs & Hf). pose proof Hw as (-> & Hf1 & _). simpl.
  destruct (SplitN2_cases "=" (f +:+ "=" +:+ x)) as [[_ Hno]|(g & y & Hs & Heq & Hg)].
  { exfalso. by rewrite no_sep_app, andb_false_r in Hno. }
  rewrite Hs, Hqs. eexists. split; [done|]. constructor; [|done]. exists f, x.
  assert (Hcut : Cut "=" (f +:+ String "=" x) = Cut "=" (g +:+ String "=" y)) by (by f_equal).
  rewrite !Cut_app in Hcut by done. injection Hcut as <- <-. simpl. split; [done|].
  split; [apply field_type_spec|done].
Qed.

(** The flags of a search and the queries they become.  A command line is accepted
    exactly when every flag is a field and a value, separated by the first equal
    sign, neither empty, with a known field up to spaces; then every flag is sent,
    in order, with its value as it was written.  But the type is looked up with the
    spaces: a field that has some is sent with no type. *)
Theorem query_flags_exact vs :
  match query.QueryFlags [] vs with
  | Ok q => q = vs /\ exists qs, query.ToAPIQueries q = Some qs
      /\ Forall2 (fun v p => exists f x, written f x v /\ searchv1.GetType p = field_type f
           /\ searchv1.GetValue p = x) vs qs
  | Err _ => exists v, v ∈ vs /\ forall f x, ~ written f x v
  end.
Proof.
  pose proof (flags_run vs []) as Hrun. destruct (query.QueryFlags [] vs) as [q|e]; [|done].
  simpl in Hrun. destruct Hrun as [-> Hw]. split; [done|]. by apply written_queries.
Qed.

(** ** Listing *)

Section listing.
Context {D Nw T N : Type} `{Hd : !Datastore D} {view : D -> gmap string string} {bops : Batch -> list BatchOp}
  `{!DatastoreSpec D view bops} `{!JsonCodec LabelMetadata} `{!JsonCodec Metrics}.
Context {md_ok : LabelMetadata -> Prop} `{!JsonCodecSpec LabelMetadata md_ok} {text_ok : string -> Prop}
  `{!JsonCodecSpec Metrics (fun m => forall l, l ∈ dom (Data m) -> text_ok l)}.
Context (me : string) (me_good : good_elem me = true).
Context (world : N -> World D Nw T) `{!AnswerClient N ListRequest ListResponse}
  `{!AnswerSpec world (list_service me)}.

Lemma reply_all (items sent : list ListResponse) :
  for_try (routingCtlr.send_response reply) tt items sent = (Ok tt, sent ++ items).
Proof.
  revert sent. induction items as [|x items IH]; intros sent; [by rewrite app_nil_r|].
  rewrite (for_try_cons _ tt x items sent tt (sent ++ [x])) by done. by rewrite IH, <- app_assoc.
Qed.

(** What a request for all matching records brings to the client. *)
Lemma list_call P qs n : rep (text_ok := text_ok) me P (view (w_ds (world n))) ->
  exists all n', calls.List {| List_Queries := qs; List_Limit := 0 |} n = (Ok all, n') /\ world n' = world n
    /\ NoDup (Resp_Cid <$> all)
    /\ forall x, x ∈ all <-> exists ls, P !! Resp_Cid x = Some ls /\ Forall (fun q => query_accepts q ls) qs
         /\ Labels x = routeLocal.getRecordLabelsEfficiently me (w_ds (world n)) (Resp_Cid x).
Proof.
  intros Hrep. destruct (List_responses (md_ok := md_ok) me me_good P (w_ds (world n)) qs 0 Hrep) as (all & Hl & Hnd & Hall); [done|].
  destruct (answers_run world (list_service me) {| List_Queries := qs; List_Limit := 0 |} n) as (l & n' & Hrun & Hw & Hr).
  assert (Hserve : list_service me {| List_Queries := qs; List_Limit := 0 |} (world n) = ((all, None), world n)).
  { unfold list_service, routingCtlr.List, route.List. cbn [List_Queries List_Limit]. rewrite Hl.
    rewrite decide_True by done. by rewrite reply_all. }
  rewrite Hserve in Hw, Hr. exists all, n'. unfold calls.List. rewrite (try_bind_ok _ _ _ _ _ _ Hrun), Hr.
  done.
Qed.

(** What one label of the command line asks of the labels of a record. *)
Definition label_accepts (label : string) (ls : list string) : Prop :=
  if HasPrefix label "/skills/" then
    exists l, l ∈ ls /\ (l = label \/ exists rest, l = label +:+ "/" +:+ rest)
  else if HasPrefix label "/locators/" then label ∈ ls
  else True.

Lemma query_of_label label ls :
  match dirctl.label_query label with Some q => query_accepts q ls | None => True end <-> label_accepts label ls.
Proof.
  unfold dirctl.label_query, label_accepts.
  destruct (HasPrefix label "/skills/") eqn:Hs; [|destruct (HasPrefix label "/locators/") eqn:Hl; [|done]].
  - apply HasPrefix_true in Hs as [r ->]. rewrite TrimPrefix_app. unfold query_accepts. simpl.
    by setoid_rewrite append_assoc.
  - apply HasPrefix_true in Hl as [r ->]. by rewrite TrimPrefix_app.
Qed.

Lemma queries_of_labels labels ls :
  Forall (fun q => query_accepts q ls) (dirctl.convertLabelsToRecordQueries labels)
  <-> Forall (fun l => label_accepts l ls) labels.
Proof.
  unfold dirctl.convertLabelsToRecordQueries. induction labels as [|l labels IH]; [done|].
  rewrite Forall_cons, <- IH, <- query_of_label. cbn [omap list_omap].
  destruct (dirctl.label_query l) as [q|]; [by rewrite Forall_cons|]. naive_solver.
Qed.

Lemma list_labels_run P labels (w : Term N) :
  rep (text_ok := text_ok) me P (view (w_ds (world (t_net w)))) ->
  exists all n, dirctl.list_labels labels w
      = (Ok tt, after w n (text ((fun x => dirctl.item_text "Local Record:" x +:+ newline) <$> all)))
    /\ world n = world (t_net w) /\ NoDup (Resp_Cid <$> all)
    /\ (forall c, c ∈ Resp_Cid <$> all <-> exists ls, P !! c = Some ls /\ Forall (fun l => label_accepts l ls) labels)
    /\ (forall x, x ∈ all -> exists ls, P !! Resp_Cid x = Some ls /\ forall l, l ∈ Labels x <-> l ∈ ls).
Proof.
  intros Hrep. destruct (list_call P (dirctl.convertLabelsToRecordQueries labels) (t_net w) Hrep)
    as (all & n & Hrun & Hw & Hnd & Hall).
  exists all, n. unfold dirctl.list_labels. rewrite (try_bind_ok _ _ _ _ _ _ (on_net_run _ _ _ _ Hrun)).
  erewrite bind_run. 2:{ apply print_loop. intros a w'. unfold dirctl.print_item. rewrite print_run.
    unfold Print, after. simpl. by rewrite append_assoc. }
  rewrite after_after. split; [done|]. split; [done|]. split; [done|]. split.
  - intros c. rewrite list_elem_of_fmap. setoid_rewrite Hall. setoid_rewrite queries_of_labels. split.
    + intros (x & -> & ls & ? & ? & _). eauto.
    + intros (ls & ? & ?).
      exists {| Resp_Cid := c; Labels := routeLocal.getRecordLabelsEfficiently me (w_ds (world (t_net w))) c |}. eauto.
  - intros x (ls & HP & _ & Hl)%Hall. exists ls. split; [done|]. intros l. rewrite Hl.
    by apply (rep_record_labels (md_ok := md_ok) me me_good P).
Qed.

(** Listing by labels.  With some labels on the command line, and no flag, dirctl
    prints one block for each record published at the server that has all of them,
    each record once, with its CID and exactly its labels.  A skill is had with the
    skills below it, a locator as it is; every other label is skipped. *)
Theorem list_prints_published P labels (w : Term N) :
  rep (text_ok := text_ok) me P (view (w_ds (world (t_net w)))) -> labels <> [] ->
  exists all n, dirctl.list {| dirctl.Flag_Cid := ""; dirctl.Flag_PeerID := ""; dirctl.Flag_Network := false |} labels w
      = (Ok tt, after w n (text ((fun x => dirctl.item_text "Local Record:" x +:+ newline) <$> all)))
    /\ world n = world (t_net w) /\ NoDup (Resp_Cid <$> all)
    /\ (forall c, c ∈ Resp_Cid <$> all <-> exists ls, P !! c = Some ls /\ Forall (fun l => label_accepts l ls) labels)
    /\ (forall x, x ∈ all -> exists ls, P !! Resp_Cid x = Some ls /\ forall l, l ∈ Labels x <-> l ∈ ls).
Proof.
  intros Hrep Hne. unfold dirctl.list. simpl. rewrite decide_False by done. unfold dirctl.listPeer.
  destruct (list_labels_run P labels w Hrep) as (all & n & Hrun & Hrest). exists all, n.
  split; [|done]. unfold bind. simpl. exact Hrun.
Qed.

(** A label of another namespace lists everything. *)
Lemma other_label_lists_all P label (w : Term N) :
  rep (text_ok := text_ok) me P (view (w_ds (world (t_net w)))) ->
  HasPrefix label "/skills/" = false -> HasPrefix label "/locators/" = false ->
  exists all n, dirctl.list_labels [label] w
      = (Ok tt, after w n (text ((fun x => dirctl.item_text "Local Record:" x +:+ newline) <$> all)))
    /\ forall c, c ∈ Resp_Cid <$> all <-> is_Some (P !! c).
Proof.
  intros Hrep Hs Hl. destruct (list_labels_run P [label] w Hrep) as (all & n & Hrun & _ & _ & Hall & _).
  exists all, n. split; [done|]. intros c. rewrite Hall. unfold label_accepts. setoid_rewrite Forall_singleton.
  rewrite Hs, Hl. unfold is_Some. naive_solver.
Qed.

End listing.

(** ** Searching *)

Section searching.
Context {D N : Type} `{!sqlite.Gorm D} (tables : D -> Tables) (like : string -> string -> bool) `{!GormSpec D tables like}.
Context (data_of : string -> option RecordData).
Context (world : N -> D) `{!AnswerClient N SearchRequest string} `{!AnswerSpec world search_service}.

Definition shown_cid (c : string) : string := if decide (c = "") then "" else dirctl.line c.

Lemma print_cid_run c (w : Term N) : dirctl.print_cid c w = (tt, after w (t_net w) (shown_cid c)).
Proof.
  unfold dirctl.print_cid, shown_cid, after. case_decide; [|done]. rewrite append_nil_r. by destruct w.
Qed.

Lemma shown_lines (l : list string) : (forall c, c ∈ l -> c <> "") -> shown_cid <$> l = dirctl.line <$> l.
Proof.
  intros Hne. apply list_fmap_ext. intros i c Hc%list_elem_of_lookup_2. unfold shown_cid.
  by rewrite decide_False by auto.
Qed.

Lemma window_elem {A} limit offset (l : list A) x : x ∈ window limit offset l -> x ∈ l.
Proof.
  assert (Hd : x ∈ drop (Z.to_nat offset) l -> x ∈ l).
  { rewrite <- (take_drop (Z.to_nat offset) l) at 2. rewrite elem_of_app. by right. }
  unfold window. case_decide; [done|]. intros Ht. apply Hd.
  rewrite <- (take_drop (Z.to_nat limit) (drop _ l)). apply elem_of_app. by left.
Qed.

(** C31. Searching.  Flags that are accepted become queries; dirctl prints the CIDs of the
    indexed records that satisfy them, each on a line, from the offset on and at
    most as many as the limit.  When the server refuses the search, because a skill
    ID is not a number, dirctl prints nothing and succeeds all the same. *)
Theorem search_prints_found P limit offset vs q (w : Term N) :
  index_rep data_of P (tables (world (t_net w))) -> (0 <= limit)%Z -> (0 <= offset)%Z ->
  query.QueryFlags [] vs = Ok q -> (forall c, is_Some (P !! c) -> c <> "") ->
  exists qs run n, query.ToAPIQueries q = Some qs /\ dirctl.search limit offset q = Some run
    /\ world n = world (t_net w)
    /\ if forallb query_ok qs then
         exists all, run w = (Ok tt, after w n (text (dirctl.line <$> window limit offset all))) /\ NoDup all
           /\ forall c, c ∈ all <-> exists rd, P !! c = Some rd /\ accepts like qs rd = true
       else run w = (Ok tt, after w n "").
Proof.
  intros Hrep Hl Ho Hq Hne. pose proof (flags_run vs []) as Hf. rewrite Hq in Hf. destruct Hf as [-> Hw].
  destruct (written_queries vs Hw) as (qs & Hqs & _). simpl.
  set (req := {| Search_Queries := qs; Search_Limit := limit; Search_Offset := offset |}).
  destruct (answers_run world search_service req (t_net w)) as (l & n & Hrun & Hwn & Hr).
  unfold dirctl.search. rewrite Hqs. eexists qs, _, n. split; [done|]. split; [done|].
  assert (Hcall : calls.Search req (t_net w) = (Ok (received l), n)).
  { unfold calls.Search. by rewrite (try_bind_ok _ _ _ _ _ _ Hrun). }
  rewrite (try_bind_ok _ _ _ _ _ _ (on_net_run _ _ _ _ Hcall)), Hr.
  erewrite bind_run by (apply (print_loop _ shown_cid), print_cid_run). rewrite after_after.
  pose proof (Search_run tables like data_of reply (fun s => s) (fun c s => conj eq_refl eq_refl)
    P (world (t_net w)) qs limit offset [] Hrep Hl Ho) as Hs.
  unfold search_service, req in Hwn |- *. cbn [Search_Queries Search_Limit Search_Offset] in *.
  destruct (forallb query_ok qs).
  - destruct Hs as (all & out & Hs & -> & Hnd & Hall). rewrite Hs in Hwn |- *. simpl in *. split; [done|].
    exists all. split; [|done]. rewrite shown_lines; [done|]. intros c Hc. apply Hne.
    apply window_elem, Hall in Hc as (rd & -> & _). by eexists.
  - destruct Hs as (e & Hs). rewrite Hs in Hwn |- *. by simpl in *.
Qed.
End searching.

(** ** Pushing and pulling *)

Section records.
Context {T D N : Type} `{HashLib} `{OJ : !OasfJson} {equiv_doc : string -> string -> Prop}
  {json_ok : forall skill, pb_Agent skill -> Prop} `{!OasfJsonSpec equiv_doc json_ok}.
Context `{!StoreAPI T} {inv : T -> Prop} {obs : T -> Observable} {known_cid : string -> Prop}
  {record_ok : CoreRecord -> Prop} {meta_ok : RecordMeta -> Prop}
  `{Hsrc : !StoreSpec T inv obs known_cid record_ok meta_ok}.
Context `{!sqlite.Gorm D} (tables : D -> Tables) (like : string -> string -> bool) `{!GormSpec D tables like}.
Context (proto_Size : CoreRecord -> Z) (data_of : string -> option RecordData)
  (data_of_record : forall r, record_ok r -> data_of (GetCid (Some r)) = GetRecordData r).
Context `{!CliMachine} `{!KeyLib N} `{!Sigstore N} `{!JsonCodec Payload}
  `{!StreamClient N PushReq storeCtrl.PushReferrerResponse}
  `{!StreamClient N storeCtrl.PullReferrerRequest PullRes}.
Context (world : N -> T * D) `{!StreamClient N CoreRecord RecordRef} `{!StreamClient N RecordRef CoreRecord}
  {push_phase : Stream N CoreRecord RecordRef -> N -> option (Phase CoreRecord RecordRef)}
  {pull_phase : Stream N RecordRef CoreRecord -> N -> option (Phase RecordRef CoreRecord)}
  `{Hpush : !StreamSpec world (push_service proto_Size) push_phase} `{Hpull : !StreamSpec world pull_service pull_phase}.

(** What pull prints is a document that loads as the record. *)
Lemma raw_loads d : data_ok (json_ok := json_ok) d -> stated_version d = wrapper_version d ->
  exists raw, dirctl.oasf_raw {| GetData := Some d |} = Some (Ok raw)
    /\ loadOASFFromBytes raw = Ok {| GetData := Some d |}.
Proof.
  intros Hd Hv. unfold dirctl.oasf_raw, loadOASFFromBytes, detectOASFVersion.
  destruct d as [[a|]|[a|]|[a|]]; simpl in *; try done;
    [destruct (v1_doc a Hd) as (b & v & Hm & _ & Hdet & Hu)
    |destruct (v2_doc a Hd) as (b & v & Hm & _ & Hdet & Hu)
    |destruct (v3_doc a Hd) as (b & v & Hm & _ & Hdet & Hu)];
    exists b; rewrite Hm, Hdet, Hv; simpl; by rewrite Hu.
Qed.

(** One push and one pull of the client. *)
Lemma push_call r n exact :
  in_step (inv := inv) (obs := obs) tables data_of exact (@ctx_of T D RecordRef (world n)) -> record_ok r ->
  exists x n', client.Push r n = (x, n') /\
    (is_ok x = false \/ x = Ok (ref_of r) /\ inv (world n').1
       /\ (obs (world n').1).1 !! GetCid (Some r) = Some r).
Proof.
  intros Hw Hr.
  assert (Hms : Forall (fun r => record_msg_ok (record_ok := record_ok) proto_Size (Ok r)) [r]).
  { apply Forall_singleton. by intros r' [= <-]. }
  destruct (push_served tables like proto_Size data_of data_of_record [r] (world n) exact Hw Hms)
    as (k & Hrep & Hi & Hobs & Hk).
  destruct (send_one_run world (push_service proto_Size) push_phase "failed to create push stream: "
    "failed to send record: " r n) as (s & n1 & Hsend & Hw1 & Hp1).
  destruct (receive_one_run world (push_service proto_Size) push_phase "failed to receive record ref: " s _ _ n1 Hp1)
    as (n2 & Hrecv & Hw2).
  eexists _, n2. unfold client.Push. rewrite (try_bind_ok _ _ _ _ _ _ Hsend). split; [exact Hrecv|].
  rewrite Hrep. rewrite <- Hw1, <- Hw2 in Hi, Hobs. destruct Hk as [->|(r' & e & Hr' & _)].
  - right. simpl in Hobs |- *. split; [done|]. split; [done|]. rewrite Hobs. unfold file_record. by rewrite lookup_insert_eq.
  - left. apply lookup_lt_Some in Hr'. simpl in Hr'. assert (k = 0%nat) as -> by lia. done.
Qed.

Lemma pull_call r n : inv (world n).1 -> (obs (world n).1).1 !! GetCid (Some r) = Some r ->
  exists n', client.Pull (ref_of r) n = (Ok r, n').
Proof.
  intros Hi Hr.
  destruct (send_one_run world pull_service pull_phase "failed to create pull stream: "
    "failed to send record ref: " (ref_of r) n) as (s & n1 & Hsend & Hw1 & Hp1).
  destruct (receive_one_run world pull_service pull_phase "failed to receive record: " s _ _ n1 Hp1)
    as (n2 & Hrecv & Hw2).
  exists n2. unfold client.Pull. rewrite (try_bind_ok _ _ _ _ _ _ Hsend), Hrecv.
  destruct (Pull_stream (inv := inv) reply (fun o => o) (fun r o => conj eq_refl eq_refl)
    [GetCid (Some r)] (@ctx_of T D CoreRecord (world n)) [r]) as (c & Hrd & _ & Hs2); [done|by constructor|].
  unfold pull_service. change [ref_of r] with ((fun c => {| ref_Cid := c |}) <$> [GetCid (Some r)]).
  rewrite Hrd. simpl in *. by rewrite Hs2.
Qed.


(** Without a file, and with --stdin, push opens the file with the empty name. *)
Lemma stdin_not_read sign_opts sgn e (w : Term N) : os_Open "" = Err e ->
  dirctl.push sign_opts true sgn [] w = (Err (Wrap "could not open file : " e), w).
Proof. intros He. unfold dirctl.push. rewrite decide_False by naive_solver. by rewrite He. Qed.

End records.

(** ** Synchronisations *)

Section syncs.
Context {D F Mo Nt N : Type} `{!SyncTable D} (rows : D -> list Sync) `{!TableSpec D rows}.
Context (uuid : nat -> string) (url_error : string -> error).
Context (world : N -> SyncWorld D F Mo Nt)
  `{!UnaryClient N CreateSyncRequest string} `{!UnarySpec world (create_service uuid url_error)}
  `{!UnaryClient N SyncIdRequest syncCtlr.SyncView} `{!UnarySpec world get_service}
  `{!UnaryClient N SyncIdRequest unit} `{!UnarySpec world delete_sync_service}.

Definition status_text (id url : string) (st : SyncStatus) : string :=
  dirctl.view_text {| syncCtlr.View_SyncId := id; syncCtlr.View_RemoteDirectoryUrl := url; syncCtlr.View_Status := st |}.

Lemma status_prints id p (w : Term N) : id <> "" -> first_by_id id (rows (s_db (world (t_net w)))) = Some p ->
  exists n, dirctl.runGetSyncStatus id w = (Ok tt, after w n (status_text id (RemoteDirectoryURL p) (Sync_Status p)))
    /\ world n = world (t_net w).
Proof.
  intros Hne Hp. destruct (Call_spec (serve := get_service) world {| Req_SyncId := id |} (t_net w)) as (x & n & Hrun & Hw & Hx).
  unfold get_service in Hw, Hx. simpl in Hw, Hx. rewrite (get_run rows id _ p Hp) in Hx. simpl in Hx. subst x.
  exists n. split; [|done]. unfold dirctl.runGetSyncStatus. rewrite decide_False by done.
  assert (Hcall : calls.GetSync id (t_net w) = (Ok (syncCtlr.view_of p), n)).
  { unfold calls.GetSync. by rewrite (try_bind_ok _ _ _ _ _ _ Hrun). }
  rewrite (try_bind_ok _ _ _ _ _ _ (on_net_run _ _ _ _ Hcall)), print_run, after_after.
  apply first_by_id_Some in Hp as [_ <-]. done.
Qed.

Lemma create_prints url (w : Term N) : let id := uuid (s_tick (world (t_net w))) in
  syncCtlr.validateRemoteDirectoryURL url_error url = Ok tt ->
  exists n k, dirctl.runCreateSync url w = (Ok tt, after w n ("Sync created with ID: " +:+ id))
    /\ rows (s_db (world n)) = rows (s_db (world (t_net w))) ++ [row k id url "" SYNC_STATUS_PENDING].
Proof.
  intros id Hv.
  destruct (Call_spec (serve := create_service uuid url_error) world {| Create_RemoteDirectoryUrl := url |} (t_net w))
    as (x & n & Hrun & Hw & Hx).
  unfold create_service, syncCtlr.CreateSync in Hw, Hx. simpl in Hw, Hx. rewrite Hv in Hw, Hx.
  destruct (create_run rows uuid url (world (t_net w))) as (d & k & Hcr & Hr).
  rewrite (try_bind_ok _ _ _ _ _ _ Hcr) in Hw, Hx. simpl in Hw, Hx. subst x.
  assert (Hcall : calls.CreateSync url (t_net w) = (Ok id, n)).
  { unfold calls.CreateSync. by rewrite (try_bind_ok _ _ _ _ _ _ Hrun). }
  exists n, k. unfold dirctl.runCreateSync. rewrite decide_False by (intros ->; done).
  rewrite (try_bind_ok _ _ _ _ _ _ (on_net_run _ _ _ _ Hcall)), print_run, after_after.
  split; [done|]. by rewrite Hw.
Qed.

Lemma create_refused url e (w : Term N) : syncCtlr.validateRemoteDirectoryURL url_error url = Err e ->
  exists e' n, dirctl.runCreateSync url w = (Err e', after w n "") /\ world n = world (t_net w).
Proof.
  intros Hv.
  destruct (Call_spec (serve := create_service uuid url_error) world {| Create_RemoteDirectoryUrl := url |} (t_net w))
    as (x & n & Hrun & Hw & Hx).
  unfold create_service, syncCtlr.CreateSync in Hw, Hx. simpl in Hw, Hx. rewrite Hv in Hw, Hx. simpl in Hw, Hx.
  destruct x as [?|e']; [done|]. unfold dirctl.runCreateSync. case_decide.
  { eexists _, (t_net w). split; [|done]. unfold after. rewrite append_nil_r. by destruct w. }
  assert (Hcall : calls.CreateSync url (t_net w) = (Err (Wrap "failed to create sync: " e'), n)).
  { unfold calls.CreateSync. by rewrite (try_bind_err _ _ _ _ _ _ Hrun). }
  eexists _, n. by rewrite (try_bind_err _ _ _ _ _ _ (on_net_run _ _ _ _ Hcall)).
Qed.

Lemma delete_silent id p (w : Term N) : id <> "" -> NoDup (Sync_ID <$> rows (s_db (world (t_net w)))) ->
  first_by_id id (rows (s_db (world (t_net w)))) = Some p -> Sync_Status p <> SYNC_STATUS_DELETED ->
  exists n, dirctl.runDeleteSync id w = (Ok tt, after w n "")
    /\ rows (s_db (world n))
       = update_by id (set_sync_status SYNC_STATUS_DELETE_PENDING) (rows (s_db (world (t_net w)))).
Proof.
  intros Hne Hnd Hp Hst.
  destruct (Call_spec (serve := delete_sync_service) world {| Req_SyncId := id |} (t_net w)) as (x & n & Hrun & Hw & Hx).
  pose proof (delete_run rows id (world (t_net w)) p Hnd Hp) as Hdel. rewrite decide_False in Hdel by done.
  destruct Hdel as (d & Hdel & Hr). unfold delete_sync_service in Hw, Hx. simpl in Hw, Hx. rewrite Hdel in Hw, Hx.
  simpl in Hw, Hx. subst x.
  assert (Hcall : calls.DeleteSync id (t_net w) = (Ok tt, n)).
  { unfold calls.DeleteSync. by rewrite (try_bind_ok _ _ _ _ _ _ Hrun). }
  exists n. unfold dirctl.runDeleteSync. rewrite decide_False by done.
  rewrite (try_bind_ok _ _ _ _ _ _ (on_net_run _ w _ _ Hcall)). split; [done|]. by rewrite Hw.
Qed.

(** The life of a synchronisation at the terminal.  Creating one for a URL that the
    server accepts prints its ID, and asking for its status prints it as PENDING
    with the URL; deleting it prints nothing, and its status is DELETE_PENDING then.
    For a URL that the server does not accept, the command fails, prints nothing
    and changes nothing. *)
Theorem sync_commands_follow url (w : Term N) :
  let id := uuid (s_tick (world (t_net w))) in
  NoDup (Sync_ID <$> rows (s_db (world (t_net w)))) ->
  id ∉ Sync_ID <$> rows (s_db (world (t_net w))) -> id <> "" ->
  if is_ok (syncCtlr.validateRemoteDirectoryURL url_error url) then
    exists w1 w2 w3 w4,
      dirctl.runCreateSync url w = (Ok tt, w1) /\ t_out w1 = t_out w +:+ "Sync created with ID: " +:+ id
      /\ dirctl.runGetSyncStatus id w1 = (Ok tt, w2) /\ t_out w2 = t_out w1 +:+ status_text id url SYNC_STATUS_PENDING
      /\ dirctl.runDeleteSync id w2 = (Ok tt, w3) /\ t_out w3 = t_out w2
      /\ dirctl.runGetSyncStatus id w3 = (Ok tt, w4) /\ t_out w4 = t_out w3 +:+ status_text id url SYNC_STATUS_DELETE_PENDING
  else exists e w1, dirctl.runCreateSync url w = (Err e, w1) /\ t_out w1 = t_out w
      /\ world (t_net w1) = world (t_net w).
Proof.
  intros id Hnd Hid Hne.
  destruct (syncCtlr.validateRemoteDirectoryURL url_error url) as [[]|e] eqn:Hv; simpl.
  2:{ destruct (create_refused url e w Hv) as (e' & n & Hrun & Hw). exists e', (after w n "").
      split; [done|]. split; [apply append_nil_r|done]. }
  destruct (create_prints url w Hv) as (n1 & k & Hrun1 & Hr1). fold id in Hrun1, Hr1.
  set (w1 := after w n1 _) in Hrun1. set (p := row k id url "" SYNC_STATUS_PENDING) in Hr1.
  assert (Hp : first_by_id id (rows (s_db (world n1))) = Some p) by (rewrite Hr1; by apply first_by_id_snoc).
  assert (Hnd1 : NoDup (Sync_ID <$> rows (s_db (world n1)))).
  { rewrite Hr1, fmap_app. apply NoDup_app. split; [done|]. split; [|apply NoDup_singleton].
    by intros y Hy ->%list_elem_of_singleton. }
  destruct (status_prints id p w1 Hne Hp) as (n2 & Hst & Hw2). change (world (t_net w1)) with (world n1) in Hw2.
  rewrite <- Hw2 in Hp, Hnd1. set (w2 := after w1 n2 _) in Hst.
  destruct (delete_silent id p w2 Hne Hnd1 Hp) as (n3 & Hrun3 & Hr3); [done|].
  change (world (t_net w2)) with (world n2) in Hr3. set (w3 := after w2 n3 "") in Hrun3.
  assert (Hp3 : first_by_id id (rows (s_db (world n3))) = Some (set_sync_status SYNC_STATUS_DELETE_PENDING p)).
  { by rewrite Hr3, first_by_id_update, decide_True, Hp by done. }
  destruct (status_prints id _ w3 Hne Hp3) as (n4 & Hst4 & _). eexists w1, w2, w3, _.
  split; [done|]. split; [done|]. split; [exact Hst|]. split; [done|]. split; [done|].
  split; [apply append_nil_r|]. split; [exact Hst4|done].
Qed.

End syncs.

(** ** A terminal *)

Module DemoCli.

(** The file demo.json, no environment, no terminal. *)
#[local] Instance machine : CliMachine := {|
  os_Open path := if decide (path = "demo.json") then Ok (Ok "vv0.5.0") else Err (Plain "no such file or directory");
  os_ReadFile _ := Err (Plain "no such file or directory"); env_LookupEnv _ := None; cosign_IsTerminal := false;
  cosign_GetPassFromTerm := Err (Plain "no terminal"); io_ReadAll_Stdin := Ok "";
  oauthflow_OIDConnect _ _ := Err (Plain "no browser"); json_Indent s := s |}.

Lemma query_flags_exact_demo :
  query.QueryFlags [] ["name=a"; "skill-name =a=b"] = Ok ["name=a"; "skill-name =a=b"]
  /\ query.ToAPIQueries ["name=a"; "skill-name =a=b"]
     = Some [{| searchv1.GetType := searchv1.RECORD_QUERY_TYPE_NAME; searchv1.GetValue := "a" |};
             {| searchv1.GetType := searchv1.RECORD_QUERY_TYPE_UNSPECIFIED; searchv1.GetValue := "a=b" |}].
Proof. split; reflexivity. Qed.

(** *** Listing what is published *)

Section listing_demo.
Import MapDatastore DemoLocal.

Definition router_world (n : World (gmap string string) unit unit) : World (gmap string string) unit unit := n.
#[local] Instance list_direct : AnswerClient (World (gmap string string) unit unit) ListRequest ListResponse :=
  direct_answers router_world (fun w _ => w) (list_service "me").
#[local] Instance list_up : AnswerSpec router_world (list_service "me").
Proof. by apply direct_answers_spec. Qed.

Definition list_term : Term (World (gmap string string) unit unit) := {| t_net := demo_world1; t_out := "" |}.
Definition no_flags : dirctl.ListFlags :=
  {| dirctl.Flag_Cid := ""; dirctl.Flag_PeerID := ""; dirctl.Flag_Network := false |}.

Lemma list_prints_published_witness :
  exists all n, dirctl.list no_flags ["/skills/nlp"] list_term
      = (Ok tt, after list_term n (text ((fun x => dirctl.item_text "Local Record:" x +:+ newline) <$> all)))
    /\ "c1" ∈ Resp_Cid <$> all.
Proof.
  destruct (list_prints_published (md_ok := fun _ => True) "me" eq_refl router_world demo_state ["/skills/nlp"]
    list_term demo_rep) as (all & n & H1 & _ & _ & H2 & _); [discriminate|].
  exists all, n. split; [exact H1|]. apply H2. eexists. split; [reflexivity|]. constructor; [|constructor].
  exists "/skills/nlp/qa". split; [left|]. right. exists "qa". reflexivity.
Defined.
End listing_demo.

(** *** Searching the index *)

Section searching_demo.
Import DemoSearch.

Definition index_world (n : Tables) : Tables := n.
#[local] Instance search_direct : AnswerClient Tables SearchRequest string :=
  direct_answers index_world (fun w _ => w) search_service.
#[local] Instance search_up : AnswerSpec index_world search_service.
Proof. by apply direct_answers_spec. Qed.

Definition search_term : Term Tables := {| t_net := d2; t_out := "" |}.

Lemma indexed_named c : is_Some (P2 !! c) -> c <> "".
Proof. intros [rd Hc] ->. discriminate Hc. Qed.

(** A search that finds, and one that the server refuses. *)
Lemma search_prints_found_witness :
  (exists run n all, dirctl.search 100 0 ["skill-name=nlp"] = Some run
     /\ run search_term = (Ok tt, after search_term n (text (dirctl.line <$> window 100 0 all)))
     /\ "c1" ∈ all /\ "c2" ∉ all) /\
  (exists run n, dirctl.search 100 0 ["skill-id=nlp"] = Some run /\ run search_term = (Ok tt, after search_term n "")).
Proof.
  split.
  - destruct (search_prints_found tables sql_like data_of index_world P2 100 0 ["skill-name=nlp"] ["skill-name=nlp"]
      search_term rep2) as (qs & run & n & Hq & Hrun & _ & H); [discriminate|discriminate|reflexivity|exact indexed_named|].
    assert (Hqs : qs = [{| searchv1.GetType := searchv1.RECORD_QUERY_TYPE_SKILL_NAME; searchv1.GetValue := "nlp" |}])
      by (injection Hq as <-; reflexivity). subst qs. destruct H as (all & H1 & _ & H2).
    exists run, n, all. split; [exact Hrun|]. split; [exact H1|]. split.
    + apply H2. exists one. split; reflexivity.
    + intros Hin. apply H2 in Hin as (rd & HP & Hacc).
      assert (rd = two) as -> by (injection HP as <-; reflexivity). discriminate Hacc.
  - destruct (search_prints_found tables sql_like data_of index_world P2 100 0 ["skill-id=nlp"] ["skill-id=nlp"]
      search_term rep2) as (qs & run & n & Hq & Hrun & _ & H); [discriminate|discriminate|reflexivity|exact indexed_named|].
    assert (Hqs : qs = [{| searchv1.GetType := searchv1.RECORD_QUERY_TYPE_SKILL_ID; searchv1.GetValue := "nlp" |}])
      by (injection Hq as <-; reflexivity). subst qs.
    exists run, n. split; [exact Hrun|exact H].
Defined.
End searching_demo.

(** *** Pushing and pulling *)

Section records_demo.
Import DemoCore DemoCache DemoController DemoClient.
#[local] Existing Instances DemoSearch.table_gorm DemoSearch.table_gorm_spec DemoCache.one DemoCache.one_spec
  DemoClient.push_client DemoClient.pull_client DemoClient.push_up DemoClient.pull_up DemoSigning.payload_codec.

#[local] Instance no_keys : KeyLib Net := {|
  SignerVerifier := unit; CryptoPublicKey := unit; cosign_LoadPrivateKey _ _ := Err (Plain "no key");
  SignMessage _ _ := ret (Err (Plain "no key")); sv_PublicKey _ := Err (Plain "no key");
  MarshalPublicKeyToPEM _ := Err (Plain "no key") |}.
#[local] Instance no_sigstore : Sigstore Net := {|
  SigningConfig := unit; Keypair := unit; Bundle := unit;
  root_NewSigningConfig _ _ _ _ _ _ := ret (Err (Plain "no network"));
  FulcioCertificateAuthorityURLs _ := []; TimestampAuthorityURLs _ := [];
  TimestampAuthorityURLsConfig _ := ServiceSelector_ANY; RekorLogURLs _ := [];
  RekorLogURLsConfig _ := ServiceSelector_ANY; root_SelectService _ _ := ret (Err (Plain "no network"));
  root_SelectServices _ _ _ := ret (Err (Plain "no network"));
  sign_NewEphemeralKeypair := ret (Err (Plain "no network"));
  sign_Bundle _ _ _ := ret (Err (Plain "no network")); bundle_Signature _ := "";
  GetPublicKeyPem _ := Err (Plain "no key") |}.
#[local] Instance no_stream Req Res : StreamClient Net Req Res | 100 := {|
  Stream := unit; rpc_Open := ret (Err (Plain "no network")); stream_Send _ _ := ret (Err (Plain "no network"));
  stream_CloseSend _ := ret (Err (Plain "no network")); stream_Recv _ := ret (Err (Plain "no network")) |}.

Definition sign_flags : dirctl.SignFlags := {|
  dirctl.Flag_FulcioURL := ""; dirctl.Flag_RekorURL := ""; dirctl.Flag_TimestampURL := "";
  dirctl.Flag_OIDCProviderURL := ""; dirctl.Flag_OIDCClientID := ""; dirctl.Flag_OIDCToken := ""; dirctl.Flag_Key := "" |}.
Definition push_term : Term Net := {| t_net := net0; t_out := "" |}.

End records_demo.

(** *** A synchronisation *)

Section syncs_demo.
Import DemoZot DemoSync.

Definition sync_world (n : W) : W := n.
#[local] Instance create_direct : UnaryClient W CreateSyncRequest string :=
  direct sync_world (fun w _ => w) (create_service uuid no_url).
#[local] Instance get_direct : UnaryClient W SyncIdRequest syncCtlr.SyncView :=
  direct sync_world (fun w _ => w) get_service.
#[local] Instance delete_direct : UnaryClient W SyncIdRequest unit :=
  direct sync_world (fun w _ => w) delete_sync_service.
#[local] Instance create_up : UnarySpec sync_world (create_service uuid no_url).
Proof. by apply direct_spec. Qed.
#[local] Instance get_up : UnarySpec sync_world get_service.
Proof. by apply direct_spec. Qed.
#[local] Instance delete_up : UnarySpec sync_world delete_sync_service.
Proof. by apply direct_spec. Qed.

Definition sync_term : Term W := {| t_net := w0; t_out := "" |}.

Lemma sync_commands_follow_witness :
  (exists w1 w2, dirctl.runCreateSync "dir.example.org:8888" sync_term = (Ok tt, w1)
     /\ t_out w1 = "Sync created with ID: u"
     /\ dirctl.runGetSyncStatus "u" w1 = (Ok tt, w2)
     /\ t_out w2 = "Sync created with ID: u" +:+ status_text "u" "dir.example.org:8888" SYNC_STATUS_PENDING) /\
  (exists e w1, dirctl.runCreateSync "ftp://x" sync_term = (Err e, w1) /\ t_out w1 = "").
Proof.
  split.
  - destruct (sync_commands_follow ListTable.rows uuid no_url sync_world "dir.example.org:8888" sync_term)
      as (w1 & w2 & w3 & w4 & H1 & O1 & H2 & O2 & _); [constructor|apply not_elem_of_nil|discriminate|].
    exists w1, w2. split; [exact H1|]. split; [exact O1|]. split; [exact H2|]. rewrite O2, O1. reflexivity.
  - destruct (sync_commands_follow ListTable.rows uuid no_url sync_world "ftp://x" sync_term)
      as (e & w1 & H1 & O1 & _); [constructor|apply not_elem_of_nil|discriminate|].
    exists e, w1. split; [exact H1|exact O1].
Defined.
End syncs_demo.

End DemoCli.
